(* ===== verification/_CoqProject ===== *)
-Q . S2P
Prelude.v
RustStr.v
DataStructures.v
PriorityQueue.v
Netcrab.v
Naming.v
Rustc.v
Function.v
Heap.v
Memory.v
Sync.v
MirFunction.v
Translator.v
RustPath.v
Cli.v
NetModel.v
TokenGame.v
Explore.v
Certificates.v
CliSpec.v
Programs.v
ThreadPrograms.v
ConsolePrograms.v
SharedPrograms.v
StoredNets.v
StoredSharedNets.v
ExpectedResults.v
World.v
WorldSpec.v
SyncSpec.v
Gadgets.v
SyncCalls.v
FrameSpec.v
ControlFlow.v
SequentialFlow.v
Cfg.v
Invariants.v
Shape.v
Reflect.v
Calls.v
TranslatorSpec.v
VisitSpec.v
SameThreads.v
BodySpec.v
ProgramSpec.v
Final.v
Sequential.v
EndToEnd.v
CallSpec.v
Fuel.v
Threads.v
Soundness.v
Termination.v
Postprocessing.v
SyncBehaviour.v
ConditionSpec.v
Handlers.v
Examples.v
Witnesses.v
SequentialWitnesses.v
CliWitnesses.v
