(* ===== verification/Prelude.v ===== *)
(** * A verified model of cargo-check-deadlock

    The program (src/, a Rust crate) translates the MIR of a Rust program into
    a Petri net, writes the net to files, and asks the model checker LoLA
    whether the net can reach a deadlock.  This library is a shallow embedding
    of all of it in Rocq, with the theorems that say the net is the right one.

    ** The program and its parts

    - src/bin/check-deadlock/: [main] parses the arguments, checks the paths,
      runs the library, writes the files and prints the verdict.
    - src/lib.rs, src/sysroot.rs, src/compiler_config.rs: start the compiler
      and run the translator as a query inside it.
    - src/translator.rs and src/translator/mir_visitor.rs: the translator.  It
      keeps a call stack of frames, one per MIR function being translated, and
      is a visitor of the MIR: every statement and terminator it is shown adds
      to the net.  A call to a function with MIR pushes a frame and translates
      it at once; [thread::spawn] queues a thread, translated after [main];
      post-processing links condition variables to their mutexes at the end.
    - src/translator/mir_function*: a frame: its basic blocks with their places,
      the terminators, and the memory, a map from MIR places to the shared
      (Rc, RefCell) synchronization objects they hold.
    - src/translator/sync*: mutexes, guards, condition variables and threads,
      and the net fragments of the calls on them.
    - src/data_structures/, src/naming*, src/utils.rs: the stack, the counter,
      the wrappers of the net library, the labels, and queries on MIR.
    - src/model_checker/lola.rs: runs LoLA and reads its answer.

    ** The model, file by file

    Data and operations, one definition for each function of the source, under
    the name of the source:
    - [Prelude]: panics as values ([fault]), [outcome], the state monad [ST],
      its partial-correctness predicates [wp], [keeps] and [yields], list and
      option lemmas, tactics.
    - [RustStr], [RustPath], [PriorityQueue]: what the source uses of Rust's
      [str], [Path] and [BinaryHeap] (the array algorithm, since the order of
      equal priorities is observable).
    - [DataStructures]: Modules [Stack] (stack.rs) and [HashMapCounter]
      (hash_map_counter.rs, counters of 64 bits that wrap).
    - [Netcrab]: the net library as a class of operations [PetriNetLib] with the
      laws [PetriNetLaws], and petri_net_interface.rs on top of it.
    - [Naming]: naming.rs with a Module for each of its submodules.
    - [Rustc]: the MIR the translator looks at, the compiler's queries as the
      record [TyCtxt], and utils.rs.
    - [Function]: translator/function.rs, translator/special_function.rs.
    - [Heap]: the store of shared objects ([Rc] is an index), the world (net and
      store) that all frames share, the tasks of post-processing.
    - [Memory]: mir_function/memory.rs.  [Sync]: sync.rs, sync/mutex.rs,
      sync/condvar.rs, sync/thread.rs.
    - [MirFunction]: mir_function.rs, basic_block.rs, terminator.rs.
    - [Translator]: translator.rs and mir_visitor.rs; [translate] is the closure
      that lib.rs runs.
    - [Cli]: the command line, lib.rs, sysroot.rs, compiler_config.rs, lola.rs
      over the classes [FileSystem], [Tools], [Exporters], [ArgParser].

    Meaning and execution:
    - [TokenGame]: enabling, firing, reachability, and the property LoLA is
      asked for ([deadlock_reachable]); [Explore]: its decision by search;
      [Certificates]: its decision by a set of places in which a token can always
      move, or by a schedule that ends in a deadlock.
    - [NetModel]: a concrete net library, which shows that the laws can hold and
      on which the examples run; [Programs], [ThreadPrograms], [ConsolePrograms],
      [SharedPrograms]: the MIR of the thirty-two example programs;
      [StoredNets], [StoredSharedNets]: their nets under examples/results;
      [ExpectedResults]: the verdicts that the tests expect.  The repository
      does not contain the MIR: it was written down from the programs and, for
      the numbering of the basic blocks, the labels of the stored nets, so what
      the comparison tests is what the translator makes of the terminators and of
      the synchronization variables.

    Specifications and proofs:
    - [World], [WorldSpec], [SyncSpec], [Gadgets], [SyncCalls], [FrameSpec]: the
      invariant of the shared state, how it evolves, and a rule for every
      operation, from the primitives up to the handlers of the calls.
    - [ControlFlow], [Cfg]: the abstract specifications: the control flow of a
      function, as relations on its basic blocks, independent of the net.  The
      first, for all programs: what control can do without waiting ([returns],
      [panics]).  The second, for programs that do not synchronize: the
      control-flow graph of MIR ([within], [comes_to]), in which every call, drop
      and assertion may unwind into its cleanup block.  [SequentialFlow] lies
      between graph and net: the steps that the translation follows ([may],
      [can]), and what a complete body is.
    - [TranslatorSpec], [VisitSpec], [BodySpec], [ProgramSpec], [CallSpec]: the
      translator against it: calls, visits, whole bodies, threads, the program.
    - [Invariants]: invariants of the net that every building step keeps, for
      all programs or for those that do not synchronize; [Shape]: two of them.
    - [Final]: which places transitions consume from, for all programs.
    - [Reflect], [Calls], [Sequential]: both directions at once, for programs
      that do not synchronize.  Every place is given a meaning, a proposition
      about the program, when it is created; transitions lead from what holds to
      what it implies.  Each step of control flow is a path of the net, and from
      every block of a complete body the net goes on.
    - [SameThreads], [Fuel], [Threads], [Termination], [Soundness], [Postprocessing],
      [SyncBehaviour], [ConditionSpec], [Handlers], [CliSpec], [EndToEnd],
      [Examples]: the theorems; [Witnesses], [SequentialWitnesses] and
      [CliWitnesses] instantiate them.

    ** What the theorems show

    - The translator is safe on any input ([translate_never_refused]): it never
      uses a node of the net that does not exist nor a dangling object, never
      finds its call stack empty and never misses a block of a frame.  The other
      panics of the source (for unsupported programs) can occur.
    - It terminates on programs without recursion ([translate_terminates]) and
      never ends if [main] lies on a cycle of calls
      ([recursion_never_translated]).
    - The net simulates the program's control flow: where the program can
      return without having to wait, the net can put a token into PROGRAM_END
      ([translate_can_return]); where it can come to the end of an unwinding or
      to a call of a panic function without target and cleanup, one into
      PROGRAM_PANIC ([translate_can_panic]); function by function and terminator
      by terminator; its initial marking is the one that the formula expects.
      Failing assertions, drops and opaque calls without a cleanup block panic in
      MIR, too; the net does not show these panics.
    - For a program that neither spawns threads nor uses mutexes or condition
      variables the theorems are exact, relative to the graph of [Cfg]: one token
      moves through the net and is lost only in a program that can come to a
      dead end ([sequential_net_moves_one_token]); PROGRAM_END and PROGRAM_PANIC
      are reached if and only if the graph says so
      ([sequential_net_follows_graph], for programs that call MIR functions only
      with a return target); and a deadlock is reported if and only if control
      can come to a dead end, a call that has neither a return target nor a
      cleanup block and is of none of the panic functions
      ([sequential_deadlock_is_dead_end]).  The tests of the repository expect
      that of [std::process::abort].  It is a false alarm where the function that
      is called panics: the translation does not look at its MIR.  Composed with
      the command line, this says what the tool prints about such a program
      ([sequential_verdict]).
    - What the translator holds stays well-formed under every callback
      ([visit_well_formed]); every transition consumes ([transitions_consume]),
      and none consumes from PROGRAM_END or PROGRAM_PANIC: what has ended stays
      ended ([ended_stays_ended]).
    - Spawning queues a thread with the right function, variables and transition
      ([thread_spawned]), joining gives it its join transition, once
      ([thread_joined]), and translating it connects the two
      ([thread_translated]).
    - The fragments of locks, guards, condition variables and threads behave as
      the primitives they stand for, in the token game ([SyncBehaviour],
      [ConditionSpec]); where they do not, that is a theorem as well.
    - Post-processing is independent of the order in which tasks were queued.
    - The handlers ([Handlers]), the memory's aliasing and the data structures
      do what their documentation says, errors included.
    - The nets of all programs under examples/programs are the stored ones, and
      have a deadlock exactly when the tests of the repository say so.
    - The command line: exit codes, files, and that the verdict printed is the
      truth about the net if the model checker's answer is.

    ** Fuel and bounds

    Two recursions of the source are not structural.  [translate_top_call_stack]
    takes one unit of fuel for each nested call, [translate_threads] and
    post-processing one for each iteration.  Out of fuel is a fault of its own,
    different from every panic.  [translate_fuel_irrelevant] shows that fuel is
    no part of a result, and [translate_terminates] that enough exists for every
    program without recursion.  Counters wrap at 64 bits, as in a release build;
    lengths of Rust vectors are far below and are not bounded.

    ** Parameters and their hypotheses

    Third-party code is never given a definition: netcrab is [PetriNetLib] with
    [PetriNetLaws]; rustc is [TyCtxt] (what the visitor shows of a body is a list
    of callbacks; the theorems on sequential programs use that the first is for
    a block, [visits_begin_with_block]); processes, file system and exporters
    are the classes of [Cli] with [FileSystemLaws] and, for LoLA,
    [lola_answers]; clap is [ArgParser] with [ArgParserLaws].

    ** Not modelled

    - Log messages, the verbosity flag that chooses among them, and the [Display]
      and [Debug] instances used only by them.
    - The programs under examples/ other than as inputs; the tests.

    ** Where the model could grow

    The meaning of places for programs with threads (one token per thread, and
    what a lock or a wait adds to it). *)

From stdpp Require Export base tactics option list gmap strings pretty.

(** ** Faults and outcomes

    The translator reports no recoverable errors: every "should not happen" is
    a Rust [panic!], [expect], [assert!] or [unimplemented!].  One constructor
    per panic site keeps the error paths visible as values. *)

Inductive panic : Type :=
(* data_structures/stack.rs *)
| PeekOnEmptyStack
| PeekMutOnEmptyStack
(* data_structures/petri_net_interface.rs *)
| AddArcPlaceTransitionFailed
| AddArcTransitionPlaceFailed
(* the [expect] on [PetriNet::add_token] in translator.rs, condvar.rs, mutex.rs *)
| AddTokenFailed
(* translator/mir_function.rs *)
| NoActiveBlock
| ActiveBlockInvalid
| BasicBlockAddedTwice
| BasicBlockNotRetrieved
| TargetBlockNotRetrieved
(* translator/mir_function/memory.rs *)
| PlaceNotLinked
| AggregateAlreadyLinked
| ValueIsNotMutex
| ValueIsNotMutexGuard
| ValueIsNotJoinHandle
| ValueIsNotCondvar
| ValueIsNotAggregate
| FieldIndexOutOfBounds
| FieldPlaceAlreadyLinked
(* utils.rs *)
| FnPtrNotImplemented
| TypeIsNotFunction
| SpawnWithoutArgument
| ClosureWithUserType
| ClosureIsTypeConstant
| ClosureIsUnevaluated
| ClosureNotZeroSized
| FieldNumberNotFound
(* translator/sync.rs, sync/*.rs *)
| CallHandlerNotDefined
| ArgumentIsNotAPlace
| MultipleWaitCallsNotSupported
| CondvarLinkedTwice
| JoinTransitionSetTwice
(* translator.rs, translator/mir_visitor.rs *)
| NoMainFunction
| TerminatorNotImplemented
(* lib.rs: the compiler gives up with a fatal error, the [expect] on its context *)
| CompilerFatalError
| GlobalContextNotFound
(* model_checker/lola.rs *)
| LolaUnknownError
| LolaNotFound
| LolaOutputNotUtf8
| LolaUnknownOutput.

#[global] Instance panic_eq_dec : EqDecision panic.
Proof. solve_decision. Defined.

(** [OutOfFuel] is the model's marker for a recursion deeper than the fuel, and
    [Dangling] for a shared reference that names no object; neither exists in
    Rust, and the development proves when neither arises. *)

Inductive fault : Type :=
  | Panic (p : panic)
  | OutOfFuel
  | Dangling.

Inductive outcome (A : Type) : Type :=
  | Ok (a : A)
  | Err (f : fault).
Arguments Ok {A} a.
Arguments Err {A} f.

#[global] Instance outcome_ret : MRet outcome := @Ok.
#[global] Instance outcome_bind : MBind outcome := λ A B k m,
  match m with Ok a => k a | Err f => Err f end.

(** [o.unwrap_or_else(|| panic!(..))] and [o.expect(..)]. *)
Definition expect {A} (p : panic) (o : option A) : outcome A :=
  match o with Some a => Ok a | None => Err (Panic p) end.

(** ** State with faults

    [&mut] arguments become the state of this monad; a fault discards the
    state, as a Rust panic does. *)

Definition ST (S A : Type) : Type := S → outcome (A * S).

#[global] Instance st_ret {S} : MRet (ST S) := λ A a s, Ok (a, s).
#[global] Instance st_bind {S} : MBind (ST S) := λ A B k m s,
  match m s with Ok (a, s') => k a s' | Err f => Err f end.

Definition fail {S A} (f : fault) : ST S A := λ _, Err f.
Definition lift {S A} (o : outcome A) : ST S A := λ s, a ← o; Ok (a, s).
Definition get {S} : ST S S := λ s, Ok (s, s).
Definition gets {S A} (f : S → A) : ST S A := λ s, Ok (f s, s).
Definition modify {S} (f : S → S) : ST S unit := λ s, Ok (tt, f s).

(** Run a computation on a part of the state. *)
Definition zoom {S T A} (proj : T → S) (inj : S → T → T) (m : ST S A) : ST T A := λ t,
  match m (proj t) with Ok (a, s) => Ok (a, inj s t) | Err f => Err f end.

(** [for x in l { .. }] *)
Fixpoint for_each {S A} (l : list A) (body : A → ST S unit) : ST S unit :=
  match l with
  | [] => mret tt
  | x :: l' => body x ;; for_each l' body
  end.

(** The same with an accumulator threaded through the iterations. *)
Fixpoint fold_st {S A B} (l : list A) (b : B) (body : B → A → ST S B) : ST S B :=
  match l with
  | [] => mret b
  | x :: l' => b' ← body b x; fold_st l' b' body
  end.

(** ** Weakest preconditions

    [wp m E Q s]: running [m] from [s] either faults with a fault in [E] or
    ends in a result and a state in [Q]. *)

Definition wp {S A} (m : ST S A) (E : fault → Prop) (Q : A → S → Prop) (s : S) : Prop :=
  match m s with Ok (a, s') => Q a s' | Err f => E f end.

Definition owp {A} (o : outcome A) (E : fault → Prop) (Q : A → Prop) : Prop :=
  match o with Ok a => Q a | Err f => E f end.

Section wp_rules.
Context {S : Type}.
Implicit Types (E : fault → Prop) (s : S).

Lemma wp_ret {A} (a : A) E (Q : A → S → Prop) s : Q a s → wp (mret a) E Q s.
Proof. done. Qed.

Lemma wp_bind {A B} (m : ST S A) (k : A → ST S B) E (Q : B → S → Prop) s :
  wp m E (λ a s', wp (k a) E Q s') s → wp (m ≫= k) E Q s.
Proof.
  unfold wp, mbind, st_bind. by destruct (m s) as [[a s']|f].
Qed.

Lemma wp_mono {A} (m : ST S A) E E' (Q Q' : A → S → Prop) s :
  wp m E Q s → (∀ f, E f → E' f) → (∀ a s', Q a s' → Q' a s') → wp m E' Q' s.
Proof. unfold wp. destruct (m s) as [[a s']|f]; eauto. Qed.

Lemma wp_lift {A} (o : outcome A) E (Q : A → S → Prop) s :
  owp o E (λ a, Q a s) → wp (lift o) E Q s.
Proof. unfold wp, owp, lift. by destruct o. Qed.

Lemma wp_get E (Q : S → S → Prop) s : Q s s → wp get E Q s.
Proof. done. Qed.

Lemma wp_gets {A} (f : S → A) E (Q : A → S → Prop) s : Q (f s) s → wp (gets f) E Q s.
Proof. done. Qed.

Lemma wp_modify f E (Q : unit → S → Prop) s : Q tt (f s) → wp (modify f) E Q s.
Proof. done. Qed.

Lemma wp_fail {A} f E (Q : A → S → Prop) s : E f → wp (fail f) E Q s.
Proof. done. Qed.

Lemma wp_zoom {T A} (proj : T → S) inj (m : ST S A) E (Q : A → T → Prop) t :
  wp m E (λ a s, Q a (inj s t)) (proj t) → wp (zoom proj inj m) E Q t.
Proof. unfold wp, zoom. by destruct (m (proj t)) as [[a s']|f]. Qed.

(** Loops: an invariant indexed by what is left to visit. *)
Lemma wp_for_each {A} (l : list A) (body : A → ST S unit) E (I : list A → S → Prop) s :
  I l s →
  (∀ x l' s, x ∈ l → I (x :: l') s → wp (body x) E (λ _ s', I l' s') s) →
  wp (for_each l body) E (λ _ s', I [] s') s.
Proof.
  revert s. induction l as [|x l IH]; intros s HI Hbody; simpl; [done|].
  apply wp_bind. eapply wp_mono; [apply Hbody; [by left|done] | done |].
  intros [] s' HI'. apply IH; [done|]. intros y l' s'' Hy. apply Hbody. by right.
Qed.

Lemma wp_fold_st {A B} (l : list A) (b : B) (body : B → A → ST S B) E
    (I : B → S → Prop) s :
  I b s →
  (∀ x b s, x ∈ l → I b s → wp (body b x) E (λ b' s', I b' s') s) →
  wp (fold_st l b body) E (λ b' s', I b' s') s.
Proof.
  revert b s. induction l as [|x l IH]; intros b s HI Hbody; simpl; [done|].
  apply wp_bind. eapply wp_mono; [apply Hbody; [by left|done] | done |].
  intros b' s' HI'. apply IH; [done|]. intros y b'' s'' Hy. apply Hbody. by right.
Qed.
End wp_rules.

(** Two facts about one run. *)
Lemma wp_and {S A} (m : ST S A) E (Q Q' : A → S → Prop) s :
  (∀ a s', m s = Ok (a, s') → Q' a s') → wp m E (λ a s', Q' a s' → Q a s') s → wp m E Q s.
Proof. unfold wp. intros H1 H2. destruct (m s) as [[a s']|]; auto. Qed.

(** The result of a run that did not fault. *)
Lemma wp_ok {S A} (c : ST S A) E (Q : A → S → Prop) σ a σ' : wp c E Q σ → c σ = Ok (a, σ') → Q a σ'.
Proof. unfold wp. intros H Heq. by rewrite Heq in H. Qed.

(** A run that succeeds, taken apart. *)
Lemma st_bind_ok {S A B} (c : ST S A) (k : A → ST S B) σ b σ' :
  (c ≫= k) σ = Ok (b, σ') → ∃ a σ1, c σ = Ok (a, σ1) ∧ k a σ1 = Ok (b, σ').
Proof. unfold mbind, st_bind. destruct (c σ) as [[a σ1]|]; [by eauto|done]. Qed.

Lemma outcome_bind_ok {A B} (o : outcome A) (k : A → outcome B) b :
  (o ≫= k) = Ok b → ∃ a, o = Ok a ∧ k a = Ok b.
Proof. destruct o as [a|]; [by eauto|done]. Qed.
Lemma lift_ok {S A} (o : outcome A) (s s' : S) a : lift o s = Ok (a, s') → o = Ok a ∧ s' = s.
Proof. unfold lift. destruct o; [|done]. by intros [= -> <-]. Qed.

(** ** Invariants kept by a computation

    [keeps I m]: if [m] returns from a state in [I], the new state is in [I].
    The rules are in the hint database [keeps]. *)

Definition keeps {S A} (I : S → Prop) (m : ST S A) : Prop :=
  ∀ s a s', I s → m s = Ok (a, s') → I s'.

Section keeps_rules.
Context {S : Type} (I : S → Prop).

Lemma keeps_ret {A} (a : A) : keeps I (mret a).
Proof. by intros s a' s' HI [= _ <-]. Qed.
Lemma keeps_bind {A B} (m : ST S A) (k : A → ST S B) :
  keeps I m → (∀ a, keeps I (k a)) → keeps I (m ≫= k).
Proof. intros Hm Hk s b s' HI (a & s1 & H1 & H2)%st_bind_ok. eapply Hk, H2. by eapply Hm. Qed.
Lemma keeps_lift {A} (o : outcome A) : keeps I (lift o).
Proof. intros s a s' HI. unfold lift. destruct o; [|done]. by intros [= _ <-]. Qed.
Lemma keeps_get : keeps I get.
Proof. by intros s a s' HI [= _ <-]. Qed.
Lemma keeps_gets {A} (f : S → A) : keeps I (gets f).
Proof. by intros s a s' HI [= _ <-]. Qed.
Lemma keeps_fail {A} f : keeps I (fail f : ST S A).
Proof. by intros s a s'. Qed.
Lemma keeps_modify f : (∀ s, I s → I (f s)) → keeps I (modify f).
Proof. intros Hf s a s' HI [= _ <-]. by apply Hf. Qed.
Lemma keeps_for_each {A} (l : list A) (body : A → ST S unit) :
  (∀ x, x ∈ l → keeps I (body x)) → keeps I (for_each l body).
Proof.
  induction l as [|x l IH]; intros Hb; simpl; [apply keeps_ret|].
  apply keeps_bind; [apply Hb; by left|]. intros _. apply IH. intros y Hy. apply Hb. by right.
Qed.
Lemma keeps_fold_st {A B} (l : list A) (b : B) (body : B → A → ST S B) :
  (∀ b x, keeps I (body b x)) → keeps I (fold_st l b body).
Proof.
  intros Hb. revert b. induction l as [|x l IH]; intros b; simpl; [apply keeps_ret|].
  apply keeps_bind; auto.
Qed.
Lemma keeps_zoom {T A} (proj : T → S) inj (m : ST S A) (J : T → Prop) :
  (∀ t, J t → I (proj t)) → (∀ t s, J t → I s → J (inj s t)) → keeps I m → keeps J (zoom proj inj m).
Proof.
  intros H1 H2 Hm t a t' HJ. unfold zoom. destruct (m (proj t)) as [[a' s]|] eqn:E; [|done].
  intros [= _ <-]. apply H2; [done|]. eapply Hm; [|done]. by apply H1.
Qed.
End keeps_rules.

(** ** Invariants and results

    [yields I P m]: from a state in [I], [m] returns only results in [P], and a
    state in [I]. *)

Definition yields {S A} (I : S → Prop) (P : A → Prop) (m : ST S A) : Prop :=
  ∀ s a s', I s → m s = Ok (a, s') → I s' ∧ P a.

Section yields_rules.
Context {S : Type} (I : S → Prop).

Lemma yields_ret {A} (P : A → Prop) (a : A) : P a → yields I P (mret a).
Proof. by intros Ha s a' s' HI [= <- <-]. Qed.
Lemma yields_bind {A B} (P : A → Prop) (Q : B → Prop) (m : ST S A) (k : A → ST S B) :
  yields I P m → (∀ a, P a → yields I Q (k a)) → yields I Q (m ≫= k).
Proof. intros Hm Hk s b s' HI (a & s1 & H1 & H2)%st_bind_ok. apply Hm in H1 as [HI1 Ha]; [|done]. by eapply Hk. Qed.
Lemma yields_lift {A} (o : outcome A) : yields I (λ a, o = Ok a) (lift o).
Proof. intros s a s' HI. unfold lift. destruct o; [|done]. by intros [= -> <-]. Qed.
Lemma yields_fail {A} (P : A → Prop) f : yields I P (fail f : ST S A).
Proof. by intros s a s'. Qed.
Lemma yields_gets {A} (f : S → A) (P : A → Prop) : (∀ s, I s → P (f s)) → yields I P (gets f).
Proof. intros Hf s a s' HI [= <- <-]. auto. Qed.
Lemma yields_weaken {A} (P Q : A → Prop) (m : ST S A) :
  yields I P m → (∀ a, P a → Q a) → yields I Q m.
Proof. intros Hm HPQ s a s' HI [HI' Ha]%Hm; auto. Qed.
Lemma yields_keeps {A} (m : ST S A) : keeps I m → yields I (λ _, True) m.
Proof. intros Hm s a s' HI H. split; [by eapply Hm|done]. Qed.
Lemma keeps_yields {A} (P : A → Prop) (m : ST S A) : yields I P m → keeps I m.
Proof. intros Hm s a s' HI [? _]%Hm; done. Qed.
Lemma yields_fold_st {A B} (P : B → Prop) (l : list A) (b : B) (body : B → A → ST S B) :
  P b → (∀ b x, P b → yields I P (body b x)) → yields I P (fold_st l b body).
Proof.
  intros Hb Hbody. revert b Hb. induction l as [|x l IH]; intros b Hb; simpl; [by apply yields_ret|].
  eapply yields_bind; [by apply Hbody|done].
Qed.
Lemma yields_zoom {T A} (proj : T → S) inj (m : ST S A) (J : T → Prop) (P : A → Prop) :
  (∀ t, J t → I (proj t)) → (∀ t s, J t → I s → J (inj s t)) → yields I P m → yields J P (zoom proj inj m).
Proof.
  intros H1 H2 Hm t a t' HJ. unfold zoom. destruct (m (proj t)) as [[a' s]|] eqn:E; [|done].
  intros [= <- <-]. apply Hm in E as [HI Ha]; auto.
Qed.
End yields_rules.

Create HintDb keeps discriminated.
#[export] Hint Resolve keeps_ret keeps_bind keeps_lift keeps_get keeps_gets keeps_fail keeps_for_each
  keeps_fold_st : keeps.
#[export] Hint Extern 2 (keeps _ (let '(_, _) := ?x in _)) => destruct x : keeps.
#[export] Hint Extern 2 (keeps _ (if ?b then _ else _)) => destruct b : keeps.
#[export] Hint Extern 2 (keeps _ (match ?x with _ => _ end)) => destruct x : keeps.
Ltac solve_keeps := solve [eauto 30 with keeps].

(** Running a computation, as an outcome. *)
Lemma owp_wp {S A} (m : ST S A) E (Q : A → S → Prop) s :
  wp m E Q s → owp (m s) E (λ x, Q x.1 x.2).
Proof. unfold wp, owp. by destruct (m s) as [[a s']|]. Qed.

Lemma owp_expect {A} p (o : option A) E (Q : A → Prop) :
  (∀ a, o = Some a → Q a) → (o = None → E (Panic p)) → owp (expect p o) E Q.
Proof. destruct o; simpl; eauto. Qed.

Lemma owp_bind {A B} (o : outcome A) (k : A → outcome B) E (Q : B → Prop) :
  owp o E (λ a, owp (k a) E Q) → owp (o ≫= k) E Q.
Proof. by destruct o. Qed.

Lemma owp_mono {A} (o : outcome A) (E E' : fault → Prop) (Q Q' : A → Prop) :
  owp o E Q → (∀ f, E f → E' f) → (∀ a, Q a → Q' a) → owp o E' Q'.
Proof. destruct o; simpl; eauto. Qed.

(** One symbolic step of a monadic program. *)
Ltac wp_step :=
  lazymatch goal with
  | |- wp (mret _) _ _ _ => apply wp_ret
  | |- wp (_ ≫= _) _ _ _ => apply wp_bind
  | |- wp (lift _) _ _ _ => apply wp_lift
  | |- wp get _ _ _ => apply wp_get
  | |- wp (gets _) _ _ _ => apply wp_gets
  | |- wp (modify _) _ _ _ => apply wp_modify
  | |- wp (fail _) _ _ _ => apply wp_fail
  | |- wp (zoom _ _ _) _ _ _ => apply wp_zoom
  | |- owp (Ok _) _ _ => hnf
  | |- owp (Err _) _ _ => hnf
  | |- owp (_ ≫= _) _ _ => apply owp_bind
  end.
Ltac wp_steps := repeat wp_step.

(** Use a specification lemma for the next call. *)
Tactic Notation "wp_use" uconstr(lem) :=
  eapply wp_mono; [eapply lem | try done | ].

(** ** Faults that a computation never ends in

    [never F m]: whatever the state, [m] does not fault with [F].  The rules are
    in the hint database [never], which the handlers extend. *)

Definition never {S A} (F : fault) (m : ST S A) : Prop := ∀ s, m s ≠ Err F.

Create HintDb never discriminated.
#[export] Hint Constants Opaque : never.

Section never_rules.
Context {S : Type} (F : fault).

Lemma never_ret {A} (a : A) : never F (mret a : ST S A).
Proof. done. Qed.
Lemma never_bind {A B} (m : ST S A) (k : A → ST S B) :
  never F m → (∀ a, never F (k a)) → never F (m ≫= k).
Proof.
  intros Hm Hk s. unfold mbind, st_bind. specialize (Hm s). destruct (m s) as [[a s']|f].
  - apply Hk.
  - congruence.
Qed.
Lemma never_lift {A} (o : outcome A) : o ≠ Err F → never F (lift o : ST S A).
Proof. intros Ho s. unfold lift. destruct o as [a|f]; simpl; congruence. Qed.
Lemma never_gets {A} (f : S → A) : never F (gets f).
Proof. done. Qed.
Lemma never_modify f : never F (modify f : ST S unit).
Proof. done. Qed.
Lemma never_fail {A} f : f ≠ F → never F (fail f : ST S A).
Proof. intros Hf s. unfold fail. congruence. Qed.
Lemma never_zoom {T A} (proj : T → S) inj (m : ST S A) : never F m → never F (zoom proj inj m).
Proof.
  intros Hm t. unfold zoom. specialize (Hm (proj t)). destruct (m (proj t)) as [[a s']|f]; congruence.
Qed.
Lemma never_for_each {A} (l : list A) (body : A → ST S unit) :
  (∀ x, never F (body x)) → never F (for_each l body).
Proof. intros Hb. induction l; simpl; [apply never_ret|]. by apply never_bind. Qed.
End never_rules.

Lemma expect_never {A} F p (o : option A) : Panic p ≠ F → expect p o ≠ Err F.
Proof. destruct o; simpl; congruence. Qed.
Lemma bind_never {A B} F (o : outcome A) (k : A → outcome B) :
  o ≠ Err F → (∀ a, k a ≠ Err F) → (o ≫= k) ≠ Err F.
Proof. intros Ho Hk. destruct o as [a|f]; simpl; [apply Hk|congruence]. Qed.

#[export] Hint Resolve never_ret never_bind never_lift never_gets never_modify never_fail never_zoom
  never_for_each expect_never bind_never : never.
#[export] Hint Extern 1 (Panic _ ≠ Panic _) => discriminate : never.
#[export] Hint Extern 1 (Ok _ ≠ Err _) => discriminate : never.
#[export] Hint Extern 1 (Err _ ≠ Err _) => discriminate : never.

(** Case analysis where the program branches. *)
#[export] Hint Extern 2 (never _ (match ?x with _ => _ end)) => destruct x : never.
#[export] Hint Extern 2 ((match ?x with _ => _ end) ≠ _) => destruct x : never.
Ltac solve_never := eauto 40 with never.

(** [usize] arithmetic of the release profile wraps around. *)
Definition usize_max : N := 2 ^ 64 - 1.
Definition usize_succ (n : N) : N := (n + 1) mod 2 ^ 64.
