(* ===== verification/RustStr.v ===== *)
(** * The parts of Rust's [str] the program uses

    [starts_with], [contains], [replace] with a string pattern, [replace] with
    a set of characters, and the decimal rendering of a [usize] in [format!]
    (stdpp's [pretty] on [N]).  Only the Standard Library behaviour the source
    relies on is modelled; every string pattern in the source is a non-empty
    literal. *)

From S2P Require Import Prelude.
From Stdlib Require Import Ascii.

#[global] Arguments String.append !s1 s2 / : simpl nomatch.

Notation "s1 '^+' s2" := (String.append s1 s2) (at level 60, right associativity).

(** [s.starts_with(pat)] *)
Fixpoint starts_with (pat s : string) : bool :=
  match pat, s with
  | EmptyString, _ => true
  | String c pat', String c' s' => bool_decide (c = c') && starts_with pat' s'
  | String _ _, EmptyString => false
  end.

(** [s.contains(pat)] *)
Fixpoint contains (pat s : string) : bool :=
  starts_with pat s ||
  match s with
  | EmptyString => false
  | String _ s' => contains pat s'
  end.

(** [s.replace(pat, to)]: non-overlapping matches from left to right; [skip]
    counts the characters of the current match still to be dropped. *)
Fixpoint replace_from (pat to : string) (skip : nat) (s : string) : string :=
  match s with
  | EmptyString => EmptyString
  | String c s' =>
      match skip with
      | S k => replace_from pat to k s'
      | 0 =>
          if starts_with pat s
          then to ^+ replace_from pat to (String.length pat - 1) s'
          else String c (replace_from pat to 0 s')
      end
  end.
Definition replace (pat to s : string) : string := replace_from pat to 0 s.

(** [s.replace([c1, c2, ..], to)] *)
Fixpoint replace_chars (cs : list ascii) (to s : string) : string :=
  match s with
  | EmptyString => EmptyString
  | String c s' =>
      if bool_decide (c ∈ cs)
      then to ^+ replace_chars cs to s'
      else String c (replace_chars cs to s')
  end.

(** The characters of a string. *)
Fixpoint chars (s : string) : list ascii :=
  match s with EmptyString => [] | String c s' => c :: chars s' end.

Lemma chars_app s1 s2 : chars (s1 ^+ s2) = chars s1 ++ chars s2.
Proof. induction s1; simpl; f_equal; done. Qed.

Lemma chars_inj s1 s2 : chars s1 = chars s2 → s1 = s2.
Proof.
  revert s2. induction s1 as [|c s1 IH]; intros [|c' s2]; simpl; intros; simplify_eq; [done|].
  f_equal. auto.
Qed.

Lemma append_assoc s1 s2 s3 : (s1 ^+ s2) ^+ s3 = s1 ^+ (s2 ^+ s3).
Proof. apply chars_inj. by rewrite !chars_app, app_assoc. Qed.

Lemma append_inj_l s s1 s2 : s ^+ s1 = s ^+ s2 → s1 = s2.
Proof.
  intros H. apply chars_inj, (app_inv_head (chars s)). by rewrite <-!chars_app, H.
Qed.

Lemma append_inj_r s s1 s2 : s1 ^+ s = s2 ^+ s → s1 = s2.
Proof.
  intros H. apply chars_inj, (app_inv_tail (chars s)). by rewrite <-!chars_app, H.
Qed.

(** *** Matching *)

Lemma starts_with_spec pat s : starts_with pat s = true ↔ ∃ r, s = pat ^+ r.
Proof.
  revert s. induction pat as [|c pat IH]; intros s; simpl; [split; [by exists s|done]|].
  destruct s as [|c' s]; [split; [done|by intros [r ?]]|].
  rewrite andb_true_iff, bool_decide_eq_true, IH. split.
  - intros [-> [r ->]]. by exists r.
  - intros [r ?]. simplify_eq/=. split; [done|by exists r].
Qed.

Lemma contains_spec pat s : contains pat s = true ↔ ∃ l r, s = l ^+ pat ^+ r.
Proof.
  revert pat. induction s as [|c s IH]; intros pat; simpl; rewrite orb_true_iff.
  - rewrite starts_with_spec. split.
    + intros [[r Hr]|?]; [by exists EmptyString, r|done].
    + intros (l & r & H). left. destruct l; [|discriminate H]. by exists r.
  - rewrite starts_with_spec, IH. split.
    + intros [[r ->]|(l & r & ->)]; [by exists EmptyString, r|by exists (String c l), r].
    + intros ([|c' l] & r & H); [left; by exists r|right].
      exists l, r. cbn in H. congruence.
Qed.

(** A pattern with a character the string does not have cannot match. *)
Lemma contains_char_false pat s c :
  c ∈ chars pat → c ∉ chars s → contains pat s = false.
Proof.
  intros Hp Hs. destruct (contains pat s) eqn:Hc; [|done].
  apply contains_spec in Hc as (l & r & ->). rewrite !chars_app in Hs. set_solver.
Qed.

(** [replace] is the identity when the pattern does not occur. *)
Lemma replace_id pat to s : contains pat s = false → replace pat to s = s.
Proof.
  unfold replace. induction s as [|c s IH]; [done|]. cbn [contains].
  intros [Hp Hc]%orb_false_iff. cbn [replace_from]. rewrite Hp. by rewrite IH.
Qed.

(** *** Characters after a replacement *)

Lemma replace_from_chars pat to k s c :
  c ∈ chars (replace_from pat to k s) → c ∈ chars s ∨ c ∈ chars to.
Proof.
  revert k. induction s as [|c' s IH]; intros k; simpl; [set_solver|].
  destruct k as [|k].
  - destruct (starts_with pat (String c' s)).
    + rewrite chars_app, elem_of_app. intros [?|?%IH]; set_solver.
    + simpl. rewrite elem_of_cons. intros [->|?%IH]; set_solver.
  - intros ?%IH; set_solver.
Qed.

Lemma replace_chars_no_banned cs to s c :
  c ∈ cs → c ∉ chars to → c ∉ chars (replace_chars cs to s).
Proof.
  intros Hc Hto. induction s as [|c' s IH]; simpl; [set_solver|].
  case_bool_decide; [rewrite chars_app|simpl]; set_solver.
Qed.

Lemma replace_chars_id cs to s :
  (∀ c, c ∈ cs → c ∉ chars s) → replace_chars cs to s = s.
Proof.
  induction s as [|c s IH]; simpl; [done|]. intros H. case_bool_decide as Hc.
  - exfalso. eapply H; [done|by left].
  - f_equal. apply IH. set_solver.
Qed.

(** *** Doubled characters

    [no_pair d b s]: no two consecutive [d] in [s], where [b] says that the
    character before [s] was a [d]. *)
Fixpoint no_pair (d : ascii) (b : bool) (s : string) : bool :=
  match s with
  | EmptyString => true
  | String c s' =>
      if bool_decide (c = d) then negb b && no_pair d true s' else no_pair d false s'
  end.

Lemma no_pair_weaken d b s : no_pair d b s = true → no_pair d false s = true.
Proof.
  destruct s as [|c s]; simpl; [done|]. case_bool_decide; [|done].
  by rewrite andb_true_iff; intros [_ ->].
Qed.

Lemma no_pair_contains d s :
  no_pair d false s = true ↔ contains (String d (String d EmptyString)) s = false.
Proof.
  cut (∀ b, no_pair d b s = true ↔
    contains (String d (String d EmptyString)) s = false ∧
    (b = true → starts_with (String d EmptyString) s = false)).
  { intros H. rewrite H. split; [by intros []|split; [done|discriminate]]. }
  induction s as [|c s IH]; intros b; [done|].
  cbn [no_pair contains starts_with]. case_bool_decide as Hc.
  - subst c. rewrite bool_decide_eq_true_2 by done.
    rewrite andb_true_iff, (IH true), orb_false_iff, negb_true_iff.
    destruct b; simpl; naive_solver.
  - rewrite (bool_decide_eq_false_2 (d = c)) by done. rewrite (IH false). simpl. naive_solver.
Qed.

Lemma no_pair_app d b x r :
  d ∉ chars x → x ≠ EmptyString → no_pair d b (x ^+ r) = no_pair d false r.
Proof.
  revert b. induction x as [|c x IH]; intros b Hx Hne; [done|]. simpl.
  case_bool_decide; [set_solver|].
  destruct x as [|c' x]; [done|]. apply IH; set_solver.
Qed.

(** Replacing the doubled character by text without it leaves no pair. *)
Lemma replace_pair_gone d to s :
  d ∉ chars to → to ≠ EmptyString →
  contains (String d (String d EmptyString))
    (replace (String d (String d EmptyString)) to s) = false.
Proof.
  intros Hd Hto. apply no_pair_contains. unfold replace.
  cut (∀ k b, (k = 0 → b = true → starts_with (String d EmptyString) s = false) → k ≤ 1 →
    no_pair d (if k is 0 then b else false)
      (replace_from (String d (String d EmptyString)) to k s) = true).
  { intros H. apply (H 0 false); [done|lia]. }
  induction s as [|c s IH]; intros k b Hb Hk; [by destruct k|]. cbn [replace_from].
  destruct k as [|k].
  - destruct (starts_with (String d (String d EmptyString)) (String c s)) eqn:Hp.
    + rewrite no_pair_app by done. by apply (IH 1 false).
    + cbn [no_pair]. case_bool_decide as Hc.
      * subst c. cbn [starts_with] in Hb, Hp.
        rewrite bool_decide_eq_true_2 in Hb, Hp by done.
        assert (b = false) as -> by (destruct b; [by specialize (Hb eq_refl eq_refl)|done]).
        apply (IH 0 true); [done|lia].
      * apply (IH 0 false); [done|lia].
  - assert (k = 0) as -> by lia. apply (IH 0 false); [done|lia].
Qed.

(** Replacing text without the character by text without it keeps it so. *)
Lemma replace_keeps_no_pair d pat to s :
  d ∉ chars pat → d ∉ chars to → to ≠ EmptyString →
  no_pair d false s = true → no_pair d false (replace pat to s) = true.
Proof.
  intros Hpat Hd Hto. unfold replace.
  cut (∀ k b, no_pair d (if k is 0 then b else false) s = true →
    no_pair d (if k is 0 then b else false) (replace_from pat to k s) = true).
  { intros H. apply (H 0 false). }
  induction s as [|c s IH]; intros k b Hs; [by destruct k|]. cbn [replace_from].
  destruct k as [|k].
  - destruct (starts_with pat (String c s)) eqn:Hp.
    + rewrite no_pair_app by done. apply no_pair_weaken with
        (b := if (String.length pat - 1)%nat is 0 then false else false).
      apply (IH _ false). cbn [no_pair] in Hs. case_bool_decide.
      * apply andb_true_iff in Hs as [_ Hs]. apply no_pair_weaken in Hs.
        by destruct (String.length pat - 1).
      * by destruct (String.length pat - 1).
    + cbn [no_pair] in Hs |- *. case_bool_decide.
      * apply andb_true_iff in Hs as [-> Hs]. simpl. by apply (IH 0 true).
      * by apply (IH 0 false).
  - assert (no_pair d false s = true) as Hs'.
    { simpl in Hs. case_bool_decide; [|done]. eapply no_pair_weaken, Hs. }
    specialize (IH k false). by destruct k; apply IH.
Qed.

(** *** Decimal renderings *)

Definition is_digit (c : ascii) : Prop :=
  c ∈ ["0"; "1"; "2"; "3"; "4"; "5"; "6"; "7"; "8"; "9"]%char.

#[global] Instance is_digit_dec c : Decision (is_digit c).
Proof. unfold is_digit. apply _. Defined.

Lemma pretty_N_char_digit x : is_digit (pretty_N_char x).
Proof. unfold is_digit, pretty_N_char. repeat case_match; set_solver. Qed.

Lemma pretty_digits (n : N) : Forall is_digit (chars (pretty n)).
Proof.
  unfold pretty, pretty_N. case_decide; [repeat constructor|].
  cut (∀ s, Forall is_digit (chars s) → Forall is_digit (chars (pretty_N_go n s))).
  { intros H'. apply H'. constructor. }
  clear. induction (N.lt_wf_0 n) as [n _ IH]; intros s Hs.
  destruct (decide (n = 0)%N) as [->|]; [by rewrite pretty_N_go_0|].
  rewrite pretty_N_go_step by lia. apply IH; [apply N.div_lt; lia|].
  simpl. constructor; [apply pretty_N_char_digit|done].
Qed.
