(* ===== verification/DataStructures.v ===== *)
(** * src/data_structures/stack.rs and hash_map_counter.rs

    [Stack<T>] is a newtype over [Vec<T>] whose last element is the top;
    [HashMapCounter] counts how often a key was seen. *)

From S2P Require Import Prelude.

Module Stack.

Section stack.
Context {T : Type}.

(** [struct Stack<T> { stack: Vec<T> }], the [Vec] in index order. *)
Record Stack := mkStack { stack : list T }.

(** [Stack::new] *)
Definition new : Stack := mkStack [].

(** [Stack::push] *)
Definition push (s : Stack) (item : T) : Stack := mkStack (stack s ++ [item]).

(** [Stack::pop]: the removed element and the remaining stack. *)
Definition pop (s : Stack) : option T * Stack :=
  match last (stack s) with
  | None => (None, s)
  | Some x => (Some x, mkStack (take (length (stack s) - 1) (stack s)))
  end.

(** [Stack::peek]: [&self.stack[len - 1]], guarded by [is_empty]. *)
Definition peek (s : Stack) : outcome T :=
  match stack s with
  | [] => Err (Panic PeekOnEmptyStack)
  | _ => expect PeekOnEmptyStack (stack s !! (length (stack s) - 1)%nat)
  end.

(** [Stack::peek_mut]: the element behind the [&mut] and the write-back
    [*top = x] that it allows. *)
Definition peek_mut (s : Stack) : outcome (T * (T → Stack)) :=
  match stack s with
  | [] => Err (Panic PeekMutOnEmptyStack)
  | _ =>
      x ← expect PeekMutOnEmptyStack (stack s !! (length (stack s) - 1)%nat);
      Ok (x, λ y, mkStack (<[(length (stack s) - 1)%nat := y]> (stack s)))
  end.
End stack.

Arguments Stack : clear implicits.

Section stack_facts.
Context {T : Type}.
Implicit Types (s : Stack T) (x y : T).

Lemma pop_push s x : pop (push s x) = (Some x, s).
Proof.
  unfold pop, push; destruct s as [l]; simpl. rewrite last_snoc. do 2 f_equal.
  rewrite length_app; simpl.
  replace (length l + 1 - 1) with (length l) by lia. apply take_app_length.
Qed.

Lemma lookup_last_snoc (l : list T) x : (l ++ [x]) !! (length (l ++ [x]) - 1) = Some x.
Proof.
  rewrite length_app; simpl. replace (length l + 1 - 1) with (length l) by lia.
  apply list_lookup_middle. done.
Qed.

Lemma peek_push s x : peek (push s x) = Ok x.
Proof.
  unfold peek, push; destruct s as [l]; cbn [stack].
  rewrite lookup_last_snoc. by destruct l.
Qed.

Lemma peek_mut_push s x : ∃ w, peek_mut (push s x) = Ok (x, w) ∧ ∀ y, w y = push s y.
Proof.
  unfold peek_mut, push; destruct s as [l]; cbn [stack].
  rewrite lookup_last_snoc. exists (λ y, mkStack (<[length (l ++ [x]) - 1 := y]> (l ++ [x]))).
  split; [by destruct l|]. intros y. f_equal.
  rewrite length_app; simpl. replace (length l + 1 - 1) with (length l + 0) by lia.
  by rewrite insert_app_r.
Qed.

(** A stack is either empty or the result of a push. *)
Lemma stack_inv s : s = new ∨ ∃ s' x, s = push s' x.
Proof.
  destruct s as [l]. destruct l as [|x l _] using rev_ind; [by left|].
  right. by exists (mkStack l), x.
Qed.

(** [peek], [peek_mut] and [pop] agree on the top element, and
    [peek_mut]'s write replaces exactly the element that [pop] would remove;
    on the empty stack the first two panic and [pop] returns nothing. *)
Theorem stack_top_consistent s :
  (peek s = Err (Panic PeekOnEmptyStack) ∧ peek_mut s = Err (Panic PeekMutOnEmptyStack) ∧
   pop s = (None, s) ∧ s = new) ∨
  (∃ x s' w, peek s = Ok x ∧ peek_mut s = Ok (x, w) ∧ pop s = (Some x, s') ∧
     s = push s' x ∧ ∀ y, pop (w y) = (Some y, s')).
Proof.
  destruct (stack_inv s) as [->|(s' & x & ->)]; [by left|].
  right. destruct (peek_mut_push s' x) as (w & Hw & Hwy).
  exists x, s', w. rewrite peek_push, Hw, pop_push.
  repeat split; [done..|]. intros y. by rewrite Hwy, pop_push.
Qed.
End stack_facts.
End Stack.

Module HashMapCounter.

(** [struct HashMapCounter { counts: HashMap<String, usize> }] *)
Record HashMapCounter := mkCounter { counts : gmap string N }.

(** [HashMapCounter::new] *)
Definition new : HashMapCounter := mkCounter ∅.

(** [HashMapCounter::increment] *)
Definition increment (c : HashMapCounter) (key : string) : HashMapCounter :=
  match counts c !! key with
  | Some count => mkCounter (<[key := usize_succ count]> (counts c))
  | None => mkCounter (<[key := 1%N]> (counts c))
  end.

(** [HashMapCounter::get_count]: also inserts the key it did not find. *)
Definition get_count (c : HashMapCounter) (key : string) : N * HashMapCounter :=
  match counts c !! key with
  | Some count => (count, c)
  | None => (0%N, mkCounter (<[key := 0%N]> (counts c)))
  end.

(** The count a key stands for; an absent key counts zero. *)
Definition count (c : HashMapCounter) (key : string) : N := default 0%N (counts c !! key).

Lemma get_count_value c key : (get_count c key).1 = count c key.
Proof. unfold get_count, count. by destruct (counts c !! key). Qed.

Lemma get_count_keeps c key k : count (get_count c key).2 k = count c k.
Proof.
  unfold get_count, count. destruct (counts c !! key) eqn:E; [done|]. simpl.
  destruct (decide (key = k)) as [->|]; [by rewrite lookup_insert_eq, E|].
  by rewrite lookup_insert_ne.
Qed.

Lemma count_increment c key k :
  count (increment c key) k = if decide (key = k) then usize_succ (count c k) else count c k.
Proof.
  unfold increment, count. destruct (counts c !! key) eqn:E; simpl; case_decide; subst.
  - by rewrite lookup_insert_eq, E.
  - by rewrite lookup_insert_ne.
  - by rewrite lookup_insert_eq, E.
  - by rewrite lookup_insert_ne.
Qed.

Lemma count_new k : count new k = 0%N.
Proof. unfold count, new. simpl. by rewrite lookup_empty. Qed.

(** A run of the counter: the keys incremented so far, oldest first, with
    any number of [get_count] in between. *)
Inductive run : list string → HashMapCounter → Prop :=
  | run_new : run [] new
  | run_increment l c key : run l c → run (l ++ [key]) (increment c key)
  | run_get_count l c key : run l c → run l (get_count c key).2.

Lemma usize_succ_mod (n : N) : usize_succ (n mod 2 ^ 64) = ((n + 1) mod 2 ^ 64)%N.
Proof. unfold usize_succ. by rewrite N.Div0.add_mod_idemp_l. Qed.

(** The number of occurrences of a key. *)
Definition occurrences (l : list string) (k : string) : N :=
  N.of_nat (length (filter (k =.) l)).

Lemma occurrences_snoc l key k :
  occurrences (l ++ [key]) k = (occurrences l k + if decide (key = k) then 1 else 0)%N.
Proof.
  unfold occurrences. rewrite filter_app, length_app. simpl.
  rewrite filter_cons, filter_nil. repeat case_decide; simplify_eq; simpl; lia.
Qed.

Lemma run_count l c k : run l c → count c k = (occurrences l k mod 2 ^ 64)%N.
Proof.
  induction 1 as [|l c key H IH|l c key H IH].
  - by rewrite count_new.
  - rewrite count_increment, occurrences_snoc. case_decide; subst.
    + by rewrite IH, usize_succ_mod.
    + by rewrite IH, N.add_0_r.
  - by rewrite get_count_keeps.
Qed.

(** C38: whatever the order of increments and queries before it, a query
    returns the number of the increments of its key, modulo the width of
    [usize], and so does every later query of any key: no query changes what
    another returns. *)
Theorem counter_counts_increments l c k :
  run l c → (get_count c k).1 = (occurrences l k mod 2 ^ 64)%N ∧
  ∀ k', (get_count (get_count c k).2 k').1 = (occurrences l k' mod 2 ^ 64)%N.
Proof.
  intros H. split; [by rewrite get_count_value, (run_count l)|].
  intros k'. rewrite get_count_value. by apply run_count, run_get_count.
Qed.
End HashMapCounter.
