(* ===== verification/PriorityQueue.v ===== *)
(** * [std::collections::BinaryHeap], as the post-processing queue uses it

    The translator keeps its post-processing tasks in a [BinaryHeap] and pops
    them by decreasing priority ([Ord] of [PostprocessingTask] compares only
    the [u8] priority).  The Standard Library's array algorithm ([sift_up] on
    push, [sift_down_to_bottom] on pop) is written out with exchanges, so that
    also the order of tasks of equal priority is the one the program sees.
    [Hole], the library's device for doing an exchange with one write, has the
    same effect as the exchange. *)

From S2P Require Import Prelude.

Module BinaryHeap.
Section binary_heap.
Context {T : Type} (prio : T → N).
Implicit Types (d : list T).

Record BinaryHeap := mkBinaryHeap { data : list T }.

Definition new : BinaryHeap := mkBinaryHeap [].

Definition swap d (i j : nat) : list T :=
  match d !! i, d !! j with
  | Some a, Some b => <[i := b]> (<[j := a]> d)
  | _, _ => d
  end.

Definition parent (i : nat) : nat := Nat.div2 (i - 1).

(** The priority at an index; zero beyond the end. *)
Definition key d (i : nat) : N := default 0%N (prio <$> d !! i).

(** [sift_up(0, pos)]; [pos] iterations are enough because the position
    decreases. *)
Fixpoint sift_up (fuel : nat) d (pos : nat) : list T :=
  match fuel with
  | 0 => d
  | S fuel' =>
      if decide (0 < pos)
      then if (key d pos <=? key d (parent pos))%N then d
           else sift_up fuel' (swap d pos (parent pos)) (parent pos)
      else d
  end.

(** The loop of [sift_down_to_bottom]: the hole moves to the greater child
    until it has none; returns where it ended. *)
Fixpoint sift_to_bottom (fuel : nat) d (pos : nat) : list T * nat :=
  match fuel with
  | 0 => (d, pos)
  | S fuel' =>
      let end_ := length d in
      let child := 2 * pos + 1 in
      if decide (child + 1 < end_) then
        let child := if (key d child <=? key d (child + 1))%N then child + 1 else child in
        sift_to_bottom fuel' (swap d pos child) child
      else if decide (child + 1 = end_) then (swap d pos child, child)
      else (d, pos)
  end.

Definition push (h : BinaryHeap) (item : T) : BinaryHeap :=
  let old_len := length (data h) in
  mkBinaryHeap (sift_up old_len (data h ++ [item]) old_len).

Definition pop (h : BinaryHeap) : option T * BinaryHeap :=
  match last (data h) with
  | None => (None, h)
  | Some item =>
      let rest := take (length (data h) - 1) (data h) in
      match rest with
      | [] => (Some item, mkBinaryHeap [])
      | top :: tl =>
          let '(d, pos) := sift_to_bottom (length rest) (item :: tl) 0 in
          (Some top, mkBinaryHeap (sift_up pos d pos))
      end
  end.

(** ** Heap order *)

Definition ordered d : Prop := ∀ i, 0 < i → (key d i ≤ key d (parent i))%N.

(** Ordered except between [pos] and its parent. *)
Definition hole_up d (pos : nat) : Prop :=
  (∀ i, 0 < i → i ≠ pos → (key d i ≤ key d (parent i))%N) ∧
  (∀ c, 0 < c → parent c = pos → 0 < pos → (key d c ≤ key d (parent pos))%N).

(** Ordered except between [pos] and its parent or its children. *)
Definition hole_down d (pos : nat) : Prop :=
  (∀ i, 0 < i → i ≠ pos → parent i ≠ pos → (key d i ≤ key d (parent i))%N) ∧
  (∀ c, 0 < c → parent c = pos → 0 < pos → (key d c ≤ key d (parent pos))%N).

Lemma parent_lt i : 0 < i → parent i < i.
Proof. unfold parent. intros. rewrite Nat.div2_div. apply Nat.Div0.div_lt_upper_bound; lia. Qed.

Lemma parent_child c pos : 0 < c → parent c = pos ↔ c = 2 * pos + 1 ∨ c = 2 * pos + 2.
Proof.
  unfold parent. intros. rewrite Nat.div2_div. split; intros; subst.
  - pose proof (Nat.div_mod_eq (c - 1) 2). pose proof (Nat.mod_upper_bound (c - 1) 2). lia.
  - symmetry. apply Nat.div_unique with (c - 1 - 2 * pos); lia.
Qed.

Lemma key_beyond d i : length d ≤ i → key d i = 0%N.
Proof. intros. unfold key. by rewrite lookup_ge_None_2. Qed.

Lemma swap_length d i j : length (swap d i j) = length d.
Proof. unfold swap. repeat case_match; by rewrite ?length_insert. Qed.

Lemma swap_key d i j k :
  i < length d → j < length d →
  key (swap d i j) k = key d (if decide (k = i) then j else if decide (k = j) then i else k).
Proof.
  intros Hi Hj. unfold swap, key.
  destruct (lookup_lt_is_Some_2 d i Hi) as [a Ha], (lookup_lt_is_Some_2 d j Hj) as [b Hb].
  rewrite Ha, Hb. f_equal. f_equal. repeat case_decide; subst.
  - rewrite list_lookup_insert_eq; [done|]. by rewrite length_insert.
  - rewrite list_lookup_insert_ne by done. by rewrite list_lookup_insert_eq.
  - by rewrite !list_lookup_insert_ne.
Qed.

Lemma swap_permutation d i j : swap d i j ≡ₚ d.
Proof.
  unfold swap. destruct (d !! i) as [a|] eqn:Ha; [|done].
  destruct (d !! j) as [b|] eqn:Hb; [|done].
  by apply Permutation_insert_swap.
Qed.

(** *** Moving up *)

Lemma hole_up_ordered d pos :
  hole_up d pos → (0 < pos → (key d pos ≤ key d (parent pos))%N) → ordered d.
Proof. intros [H _] Hpos i Hi. destruct (decide (i = pos)) as [->|]; auto. Qed.

Lemma hole_up_swap d pos :
  hole_up d pos → 0 < pos → pos < length d → (key d (parent pos) < key d pos)%N →
  hole_up (swap d pos (parent pos)) (parent pos).
Proof.
  intros [H1 H2] Hpos Hlen Hlt. pose proof (parent_lt pos Hpos) as Hp.
  assert (Hq : parent pos < length d) by lia.
  split.
  - intros i Hi Hne. pose proof (parent_lt i Hi). rewrite !swap_key by done.
    pose proof (H1 i Hi) as H1i. pose proof (H2 i Hi) as H2i.
    repeat (case_decide; [subst; try lia; auto|]); subst; try lia; auto.
    match goal with E : parent i = parent pos |- _ => rewrite E in H1i end. lia.
  - intros c Hc Hpc Hq0. rewrite !swap_key by done.
    pose proof (parent_lt c Hc). pose proof (parent_lt (parent pos) Hq0).
    pose proof (H1 (parent pos) Hq0 ltac:(lia)) as Hqq.
    pose proof (H1 c Hc) as Hcc. rewrite Hpc in Hcc.
    repeat case_decide; subst; try lia.
Qed.

Lemma sift_up_length fuel d pos : length (sift_up fuel d pos) = length d.
Proof.
  revert d pos. induction fuel; intros; simpl; [done|]. repeat case_match; try done.
  by rewrite IHfuel, swap_length.
Qed.

Lemma sift_up_permutation fuel d pos : sift_up fuel d pos ≡ₚ d.
Proof.
  revert d pos. induction fuel; intros; simpl; [done|]. repeat case_match; try done.
  by rewrite IHfuel, swap_permutation.
Qed.

Lemma sift_up_ordered fuel d pos :
  pos ≤ fuel → pos < length d → hole_up d pos → ordered (sift_up fuel d pos).
Proof.
  revert d pos. induction fuel as [|fuel IH]; intros d pos Hf Hlen Hh; simpl.
  { apply (hole_up_ordered _ pos Hh). lia. }
  case_decide as Hpos; [|apply (hole_up_ordered _ pos Hh); lia].
  destruct (N.leb_spec (key d pos) (key d (parent pos))).
  - by apply (hole_up_ordered _ pos Hh).
  - pose proof (parent_lt pos Hpos). apply IH; [lia|rewrite swap_length; lia|].
    by apply hole_up_swap.
Qed.

(** *** Moving down *)

Lemma hole_down_swap d pos child :
  hole_down d pos → 0 < child → parent child = pos → child < length d →
  (∀ c, 0 < c → parent c = pos → (key d c ≤ key d child)%N) →
  hole_down (swap d pos child) child.
Proof.
  intros [H1 H2] Hc Hpc Hlen Hmax. pose proof (parent_lt child Hc) as Hlt.
  assert (Hq : pos < length d) by lia. split.
  - intros i Hi Hne Hpne. pose proof (parent_lt i Hi). rewrite !swap_key by done.
    pose proof (H1 i Hi) as H1i. pose proof (Hmax i Hi) as Hmi.
    repeat case_decide; subst; try lia; eauto.
  - intros c Hc0 Hcc _. rewrite !swap_key by done. pose proof (parent_lt c Hc0).
    rewrite Hpc. pose proof (H1 c Hc0) as H1c.
    repeat case_decide; subst; try lia.
Qed.

(** Without a child in the array, only the parent edge is open. *)
Lemma hole_down_bottom d pos :
  hole_down d pos → length d ≤ 2 * pos + 1 → hole_up d pos.
Proof.
  intros [H1 H2] Hlen. split; [|done]. intros i Hi Hne.
  destruct (decide (parent i = pos)) as [Hp|]; [|auto].
  rewrite parent_child in Hp by done. rewrite key_beyond by lia. lia.
Qed.

Lemma sift_to_bottom_spec fuel d pos :
  length d ≤ pos + fuel → pos < length d → hole_down d pos →
  hole_up (sift_to_bottom fuel d pos).1 (sift_to_bottom fuel d pos).2 ∧
  (sift_to_bottom fuel d pos).1 ≡ₚ d ∧
  (sift_to_bottom fuel d pos).2 < length d.
Proof.
  revert d pos. induction fuel as [|fuel IH]; intros d pos Hf Hlen Hh; cbn -[swap Nat.mul]; [lia|].
  case_decide as H1; [|case_decide as H2].
  - set (child := if (_ <=? _)%N then _ else _).
    assert (Hch : child = 2 * pos + 1 ∨ child = 2 * pos + 2) by (subst child; case_match; lia).
    assert (0 < child ∧ child < length d) as [Hc0 Hcl] by lia.
    assert (Hp : parent child = pos) by (apply parent_child; lia).
    assert (hole_down (swap d pos child) child) as Hh'.
    { apply hole_down_swap; try done. intros c Hc Hpc. apply parent_child in Hpc; [|done].
      subst child. replace (2 * pos + 2) with (2 * pos + 1 + 1) in Hpc by lia.
      destruct Hpc as [->| ->], (N.leb_spec (key d (2 * pos + 1)) (key d (2 * pos + 1 + 1))); lia. }
    destruct (IH (swap d pos child) child) as (Ha & Hb & Hc);
      [rewrite swap_length; lia|rewrite swap_length; lia|done|].
    split; [done|]. split; [by rewrite Hb, swap_permutation|by rewrite swap_length in Hc].
  - cbn -[swap Nat.mul]. split; [|split; [apply swap_permutation|lia]].
    apply hole_down_bottom; [|rewrite swap_length; lia].
    apply hole_down_swap; [done|lia|apply parent_child; lia|lia|].
    intros c Hc Hpc. apply parent_child in Hpc as [->| ->]; [done| |done].
    rewrite key_beyond by lia. lia.
  - cbn. split; [apply hole_down_bottom; [done|lia]|]. split; [done|lia].
Qed.

(** ** The queue *)

Definition heap_ok (h : BinaryHeap) : Prop := ordered (data h).

Lemma new_ok : heap_ok new.
Proof. intros i Hi. simpl. rewrite !key_beyond by (simpl; lia). done. Qed.

Lemma push_permutation h item : data (push h item) ≡ₚ item :: data h.
Proof. simpl. rewrite sift_up_permutation. by rewrite Permutation_app_comm. Qed.

Lemma push_ok h item : heap_ok h → heap_ok (push h item).
Proof.
  intros Hok. unfold heap_ok, push. cbn [data].
  apply sift_up_ordered; [lia|rewrite length_app; simpl; lia|].
  assert (Hkey : ∀ i, i < length (data h) → key (data h ++ [item]) i = key (data h) i).
  { intros i Hi. unfold key. by rewrite lookup_app_l. }
  split.
  - intros i Hi Hne. pose proof (parent_lt i Hi).
    destruct (decide (i < length (data h))).
    + rewrite !Hkey by lia. by apply Hok.
    + rewrite key_beyond; [lia|]. rewrite length_app; simpl; lia.
  - intros c Hc Hp _. pose proof (parent_lt c Hc).
    rewrite key_beyond; [lia|]. rewrite length_app; simpl; lia.
Qed.

(** The root has the greatest priority. *)
Lemma ordered_root d x y tl : ordered d → d = x :: tl → y ∈ d → (prio y ≤ prio x)%N.
Proof.
  intros Hord -> [i Hi]%list_elem_of_lookup.
  assert (Hroot : ∀ i, (key (x :: tl) i ≤ key (x :: tl) 0)%N).
  { clear Hi. intros j. induction (lt_wf j) as [j _ IH].
    destruct (decide (j = 0)) as [->|]; [done|].
    etransitivity; [apply Hord; lia|]. apply IH, parent_lt. lia. }
  specialize (Hroot i). unfold key in Hroot. by rewrite Hi in Hroot.
Qed.

Lemma ordered_replace_root x y tl : ordered (x :: tl) → hole_down (y :: tl) 0.
Proof.
  intros Hord. split; [|lia]. intros i Hi _ Hp. specialize (Hord i Hi).
  destruct i as [|i]; [lia|]. destruct (parent (S i)); [done|]. apply Hord.
Qed.

Lemma ordered_take d n : ordered d → ordered (take n d).
Proof.
  intros Hord i Hi. pose proof (parent_lt i Hi). unfold key.
  destruct (decide (i < n)).
  - rewrite !lookup_take_lt by lia. by apply Hord.
  - rewrite lookup_take_ge by lia. simpl. lia.
Qed.

Lemma pop_spec h :
  heap_ok h →
  match pop h with
  | (None, h') => h' = h ∧ data h = []
  | (Some x, h') =>
      heap_ok h' ∧ data h ≡ₚ x :: data h' ∧ ∀ y, y ∈ data h → (prio y ≤ prio x)%N
  end.
Proof.
  intros Hok. unfold pop. destruct h as [d]. cbn [data].
  destruct d as [|item d _] using rev_ind; [done|].
  rewrite last_snoc, length_app. simpl.
  replace (length d + 1 - 1) with (length d) by lia. rewrite take_app_length.
  destruct d as [|top tl].
  { split; [apply new_ok|]. split; [done|]. intros y Hy. simpl in Hy. apply list_elem_of_singleton in Hy as ->. done. }
  assert (Htop : ∀ y, y ∈ (top :: tl) ++ [item] → (prio y ≤ prio top)%N).
  { intros y Hy. by eapply ordered_root. }
  apply (ordered_take ((top :: tl) ++ [item]) (length (top :: tl))) in Hok.
  rewrite take_app_length in Hok. apply (ordered_replace_root _ item) in Hok.
  destruct (sift_to_bottom_spec (length (top :: tl)) (item :: tl) 0) as (H1 & H2 & H3);
    [simpl; lia|simpl; lia|done|].
  destruct (sift_to_bottom _ _ 0) as [d pos]. simpl in H1, H2, H3.
  split; [|split; [|done]].
  - apply sift_up_ordered; [done| |done]. rewrite H2. done.
  - cbn [data]. rewrite sift_up_permutation, H2. simpl.
    by rewrite Permutation_app_comm.
Qed.
End binary_heap.

Arguments BinaryHeap : clear implicits.
End BinaryHeap.
