(* ===== verification/Netcrab.v ===== *)
(** * The Petri net library and src/data_structures/petri_net_interface.rs

    The nets are built with the external crate [netcrab].  Its operations are
    a class [PetriNetLib], a parameter of everything below, and what the
    translator relies on is the class [PetriNetLaws]: observers of a net (its
    places, transitions, initial marking and arc multiplicities) and how each
    operation changes them.  [NetModel.v] instantiates both.

    The second part translates the wrappers of petri_net_interface.rs, which
    turn an error of the library into a panic. *)

From S2P Require Import Prelude.

(** ** The operations of [netcrab::petri_net] *)

Class PetriNetLib := {
  PetriNet : Type;
  PlaceRef : Type;
  TransitionRef : Type;
  place_ref_eq_dec :: EqDecision PlaceRef;
  transition_ref_eq_dec :: EqDecision TransitionRef;
(* [PetriNet::new], also its [Default] *)
net_new : PetriNet;
(* [PetriNet::add_place], [PetriNet::add_transition] *)
net_add_place : PetriNet → string → PlaceRef * PetriNet;
net_add_transition : PetriNet → string → TransitionRef * PetriNet;
(* [PetriNet::add_token]; [None] is the library's error *)
net_add_token : PetriNet → PlaceRef → N → option PetriNet;
(* [PetriNet::add_arc_place_transition], [PetriNet::add_arc_transition_place] *)
net_add_arc_place_transition : PetriNet → PlaceRef → TransitionRef → option PetriNet;
net_add_arc_transition_place : PetriNet → TransitionRef → PlaceRef → option PetriNet;
(* [PlaceRef::label] *)
place_ref_label : PlaceRef → string;
}.

(** ** What the translator relies on *)

Class PetriNetLaws `{L : PetriNetLib} := {
  has_place : PetriNet → PlaceRef → Prop;
  has_transition : PetriNet → TransitionRef → Prop;
(* the initial number of tokens of a place *)
marking : PetriNet → PlaceRef → N;
(* the multiplicity of the arc from the place to the transition, and back *)
pre : PetriNet → TransitionRef → PlaceRef → N;
post : PetriNet → TransitionRef → PlaceRef → N;

new_no_place p : ¬ has_place net_new p;
new_no_transition t : ¬ has_transition net_new t;
(* what is not in the net has no tokens and no arcs *)
no_place_marking n p : ¬ has_place n p → marking n p = 0%N;
no_place_arcs n t p : ¬ has_place n p → pre n t p = 0%N ∧ post n t p = 0%N;
no_transition_arcs n t p : ¬ has_transition n t → pre n t p = 0%N ∧ post n t p = 0%N;

(* a new place gets a reference of its own, whatever its label *)
add_place_law n l p n' :
  net_add_place n l = (p, n') →
  ¬ has_place n p ∧
  (∀ q, has_place n' q ↔ q = p ∨ has_place n q) ∧
  (∀ t, has_transition n' t ↔ has_transition n t) ∧
  (∀ q, marking n' q = marking n q) ∧
  (∀ t q, pre n' t q = pre n t q) ∧ (∀ t q, post n' t q = post n t q);
(* it carries the label it was created with if no place has it yet *)
add_place_label_law n l p n' :
  net_add_place n l = (p, n') →
  (∀ q, has_place n q → place_ref_label q ≠ l) → place_ref_label p = l;
add_transition_law n l t n' :
  net_add_transition n l = (t, n') →
  ¬ has_transition n t ∧
  (∀ u, has_transition n' u ↔ u = t ∨ has_transition n u) ∧
  (∀ q, has_place n' q ↔ has_place n q) ∧
  (∀ q, marking n' q = marking n q) ∧
  (∀ u q, pre n' u q = pre n u q) ∧ (∀ u q, post n' u q = post n u q);
(* adding tokens to a place of the net succeeds short of an overflow *)
add_token_law n p k :
  has_place n p → (marking n p + k ≤ usize_max)%N →
  ∃ n', net_add_token n p k = Some n' ∧
    (∀ q, has_place n' q ↔ has_place n q) ∧
    (∀ t, has_transition n' t ↔ has_transition n t) ∧
    (∀ q, marking n' q = if decide (q = p) then marking n p + k else marking n q)%N ∧
    (∀ t q, pre n' t q = pre n t q) ∧ (∀ t q, post n' t q = post n t q);
(* a new arc between nodes of the net has multiplicity one *)
add_arc_place_transition_law n p t :
  has_place n p → has_transition n t →
  ∃ n', net_add_arc_place_transition n p t = Some n' ∧
    (∀ q, has_place n' q ↔ has_place n q) ∧
    (∀ u, has_transition n' u ↔ has_transition n u) ∧
    (∀ q, marking n' q = marking n q) ∧
    (∀ u q, (u, q) ≠ (t, p) → pre n' u q = pre n u q) ∧
    (pre n t p = 0%N → pre n' t p = 1%N) ∧ (pre n t p ≤ pre n' t p)%N ∧
    (∀ u q, post n' u q = post n u q);
add_arc_transition_place_law n t p :
  has_transition n t → has_place n p →
  ∃ n', net_add_arc_transition_place n t p = Some n' ∧
    (∀ q, has_place n' q ↔ has_place n q) ∧
    (∀ u, has_transition n' u ↔ has_transition n u) ∧
    (∀ q, marking n' q = marking n q) ∧
    (∀ u q, (u, q) ≠ (t, p) → post n' u q = post n u q) ∧
    (post n t p = 0%N → post n' t p = 1%N) ∧ (post n t p ≤ post n' t p)%N ∧
    (∀ u q, pre n' u q = pre n u q);
(* a token is refused if the place is unknown or the count would overflow, an
   arc unless both ends are nodes of the net *)
add_token_some n p k n' :
  net_add_token n p k = Some n' → has_place n p ∧ (marking n p + k ≤ usize_max)%N;
add_arc_place_transition_some n p t n' :
  net_add_arc_place_transition n p t = Some n' → has_place n p ∧ has_transition n t;
add_arc_transition_place_some n t p n' :
  net_add_arc_transition_place n t p = Some n' → has_transition n t ∧ has_place n p;
}.

(** ** The wrappers *)

Section interface.
Context `{L : PetriNetLib}.

Definition add_place (label : string) : ST PetriNet PlaceRef :=
  λ n, Ok (net_add_place n label).

Definition add_transition (label : string) : ST PetriNet TransitionRef :=
  λ n, Ok (net_add_transition n label).

(** [net.add_token(p, k).expect(..)] *)
Definition add_token (p : PlaceRef) (k : N) : ST PetriNet unit :=
  λ n, n' ← expect AddTokenFailed (net_add_token n p k); Ok (tt, n').

(** [add_arc_place_transition] *)
Definition add_arc_place_transition (place_ref : PlaceRef) (transition_ref : TransitionRef) :
    ST PetriNet unit :=
  λ n, n' ← expect AddArcPlaceTransitionFailed
              (net_add_arc_place_transition n place_ref transition_ref);
       Ok (tt, n').

(** [add_arc_transition_place] *)
Definition add_arc_transition_place (transition_ref : TransitionRef) (place_ref : PlaceRef) :
    ST PetriNet unit :=
  λ n, n' ← expect AddArcTransitionPlaceFailed
              (net_add_arc_transition_place n transition_ref place_ref);
       Ok (tt, n').

(** [connect_places] *)
Definition connect_places (start_place end_place : PlaceRef) (transition_label : string) :
    ST PetriNet TransitionRef :=
  transition ← add_transition transition_label;
  add_arc_place_transition start_place transition;;
  add_arc_transition_place transition end_place;;
  mret transition.
End interface.

(** ** How nets grow

    Building never removes anything: [net_grows n n'] keeps the nodes of [n],
    the initial marking of its places and its arcs. *)

Section growth.
Context `{LL : PetriNetLaws}.
Implicit Types (n : PetriNet) (p q : PlaceRef) (t u : TransitionRef) (E : fault → Prop).

Record net_grows n n' : Prop := {
  grows_place p : has_place n p → has_place n' p;
  grows_transition t : has_transition n t → has_transition n' t;
  grows_marking p : has_place n p → marking n' p = marking n p;
  grows_pre t p : (pre n t p ≤ pre n' t p)%N;
  grows_post t p : (post n t p ≤ post n' t p)%N;
}.

#[global] Instance net_grows_preorder : PreOrder net_grows.
Proof.
  split.
  - intros n. split; eauto; intros; lia.
  - intros n1 n2 n3 [P1 T1 M1 A1 B1] [P2 T2 M2 A2 B2]. split; eauto.
    + intros p Hp. rewrite M2 by eauto. by apply M1.
    + intros t p. etransitivity; [apply A1|apply A2].
    + intros t p. etransitivity; [apply B1|apply B2].
Qed.

(** All arcs are the same. *)
Record same_arcs (n n' : PetriNet) : Prop := {
  same_pre t p : pre n' t p = pre n t p;
  same_post t p : post n' t p = post n t p;
}.

Lemma wp_add_place l E (Q : PlaceRef → PetriNet → Prop) n :
  (∀ p n', net_add_place n l = (p, n') → ¬ has_place n p → has_place n' p →
     (∀ q, has_place n' q ↔ q = p ∨ has_place n q) →
     (∀ t, has_transition n' t ↔ has_transition n t) →
     (∀ q, marking n' q = marking n q) → same_arcs n n' → net_grows n n' → Q p n') →
  wp (add_place l) E Q n.
Proof.
  intros HQ. unfold wp, add_place. destruct (net_add_place n l) as [p n'] eqn:Hadd.
  destruct (add_place_law _ _ _ _ Hadd) as (Hf & Hp & Ht & Hm & Hpre & Hpost).
  apply HQ; [done|done|apply Hp; by left|done..|]. split; intros; rewrite ?Hp, ?Ht, ?Hm, ?Hpre, ?Hpost; eauto; lia.
Qed.

Lemma wp_add_transition l E (Q : TransitionRef → PetriNet → Prop) n :
  (∀ t n', ¬ has_transition n t → has_transition n' t →
     (∀ u, has_transition n' u ↔ u = t ∨ has_transition n u) →
     (∀ q, has_place n' q ↔ has_place n q) →
     (∀ q, marking n' q = marking n q) → same_arcs n n' → net_grows n n' → Q t n') →
  wp (add_transition l) E Q n.
Proof.
  intros HQ. unfold wp, add_transition. destruct (net_add_transition n l) as [t n'] eqn:Hadd.
  destruct (add_transition_law _ _ _ _ Hadd) as (Hf & Ht & Hp & Hm & Hpre & Hpost).
  apply HQ; [done|apply Ht; by left|done..|]. split; intros; rewrite ?Hp, ?Ht, ?Hm, ?Hpre, ?Hpost; eauto; lia.
Qed.

Lemma wp_add_token p k E (Q : unit → PetriNet → Prop) n :
  has_place n p → (marking n p + k ≤ usize_max)%N →
  (∀ n', (∀ q, has_place n' q ↔ has_place n q) →
     (∀ t, has_transition n' t ↔ has_transition n t) →
     (∀ q, marking n' q = if decide (q = p) then marking n p + k else marking n q)%N →
     same_arcs n n' → Q tt n') →
  wp (add_token p k) E Q n.
Proof.
  intros Hp Hk HQ. destruct (add_token_law n p k Hp Hk) as (n' & Heq & ? & ? & ? & ? & ?).
  unfold wp, add_token. rewrite Heq. by apply HQ.
Qed.

Lemma wp_add_arc_place_transition p t E (Q : unit → PetriNet → Prop) n :
  has_place n p → has_transition n t →
  (∀ n', (∀ q, has_place n' q ↔ has_place n q) →
     (∀ u, has_transition n' u ↔ has_transition n u) →
     (∀ q, marking n' q = marking n q) →
     (∀ u q, (u, q) ≠ (t, p) → pre n' u q = pre n u q) →
     (pre n t p = 0%N → pre n' t p = 1%N) →
     (∀ u q, post n' u q = post n u q) → net_grows n n' → Q tt n') →
  wp (add_arc_place_transition p t) E Q n.
Proof.
  intros Hp Ht HQ.
  destruct (add_arc_place_transition_law n p t Hp Ht) as (n' & Heq & H1 & H2 & H3 & H4 & H5 & H6 & H7).
  unfold wp, add_arc_place_transition. rewrite Heq. apply HQ; try done.
  split; intros; rewrite ?H1, ?H2, ?H3, ?H7; eauto; try lia.
  destruct (decide ((t0, p0) = (t, p))); simplify_eq; [done|by rewrite H4].
Qed.

Lemma wp_add_arc_transition_place t p E (Q : unit → PetriNet → Prop) n :
  has_transition n t → has_place n p →
  (∀ n', (∀ q, has_place n' q ↔ has_place n q) →
     (∀ u, has_transition n' u ↔ has_transition n u) →
     (∀ q, marking n' q = marking n q) →
     (∀ u q, (u, q) ≠ (t, p) → post n' u q = post n u q) →
     (post n t p = 0%N → post n' t p = 1%N) →
     (∀ u q, pre n' u q = pre n u q) → net_grows n n' → Q tt n') →
  wp (add_arc_transition_place t p) E Q n.
Proof.
  intros Ht Hp HQ.
  destruct (add_arc_transition_place_law n t p Ht Hp) as (n' & Heq & H1 & H2 & H3 & H4 & H5 & H6 & H7).
  unfold wp, add_arc_transition_place. rewrite Heq. apply HQ; try done.
  split; intros; rewrite ?H1, ?H2, ?H3, ?H7; eauto; try lia.
  destruct (decide ((t0, p0) = (t, p))); simplify_eq; [done|by rewrite H4].
Qed.

(** *** One new transition between two places

    [flow n n' t s e]: [n'] is [n] with the new transition [t] that moves one
    token from [s] to [e], and nothing else. *)
Record flow n n' t s e : Prop := {
  flow_fresh : ¬ has_transition n t;
  flow_transitions u : has_transition n' u ↔ u = t ∨ has_transition n u;
  flow_places p : has_place n' p ↔ has_place n p;
  flow_marking p : marking n' p = marking n p;
  flow_pre p : pre n' t p = if decide (p = s) then 1%N else 0%N;
  flow_post p : post n' t p = if decide (p = e) then 1%N else 0%N;
  flow_pre_other u p : u ≠ t → pre n' u p = pre n u p;
  flow_post_other u p : u ≠ t → post n' u p = post n u p;
  flow_grows : net_grows n n';
}.

Lemma wp_connect_places s e l E (Q : TransitionRef → PetriNet → Prop) n :
  has_place n s → has_place n e →
  (∀ t n', flow n n' t s e → Q t n') →
  wp (connect_places s e l) E Q n.
Proof.
  intros Hs He HQ. unfold connect_places. wp_steps.
  apply wp_add_transition. intros t n1 Hf1 Ht1 Hts1 Hps1 Hm1 [Ha1 Hb1] Hg1.
  wp_steps. apply wp_add_arc_place_transition; [by apply Hps1|done|].
  intros n2 Hps2 Hts2 Hm2 Hpre2 Hnew2 Hpost2 Hg2. wp_steps.
  apply wp_add_arc_transition_place; [by apply Hts2|by apply Hps2, Hps1|].
  intros n3 Hps3 Hts3 Hm3 Hpost3 Hnew3 Hpre3 Hg3. wp_steps. apply HQ.
  assert (Hz : ∀ p, pre n t p = 0%N ∧ post n t p = 0%N) by (intros p; by apply no_transition_arcs).
  split.
  - done.
  - intros u. by rewrite Hts3, Hts2, Hts1.
  - intros p. by rewrite Hps3, Hps2, Hps1.
  - intros p. by rewrite Hm3, Hm2, Hm1.
  - intros p. rewrite Hpre3. case_decide; subst.
    + apply Hnew2. rewrite Ha1. apply Hz.
    + rewrite Hpre2 by congruence. rewrite Ha1. apply Hz.
  - intros p. case_decide; subst.
    + apply Hnew3. rewrite Hpost2, Hb1. apply Hz.
    + rewrite Hpost3 by congruence. rewrite Hpost2, Hb1. apply Hz.
  - intros u p Hu. rewrite Hpre3, Hpre2 by congruence. apply Ha1.
  - intros u p Hu. rewrite Hpost3 by congruence. rewrite Hpost2. apply Hb1.
  - etransitivity; [done|]. by etransitivity.
Qed.

(** ** Steps that succeed

    What a step did, if it returned; no hypothesis on the nodes is needed. *)

Lemma add_place_ok l n p n' :
  add_place l n = Ok (p, n') →
  ¬ has_place n p ∧ (∀ q, has_place n' q ↔ q = p ∨ has_place n q) ∧
  (∀ q, marking n' q = marking n q) ∧ (∀ t, has_transition n' t ↔ has_transition n t) ∧ same_arcs n n'.
Proof.
  unfold add_place. intros [= H]. destruct (add_place_law n l p n' H) as (Hf & Hp & Ht & Hm & H1 & H2).
  split_and!; [done..|]. by split.
Qed.

Lemma add_place_grows l n p n' : add_place l n = Ok (p, n') → net_grows n n'.
Proof.
  intros (_ & Hp & Hm & Ht & [H1 H2])%add_place_ok.
  split; intros; rewrite ?Hp, ?Hm, ?Ht, ?H1, ?H2; auto; lia.
Qed.

Lemma add_arc_pt_ok p t n a n' :
  add_arc_place_transition p t n = Ok (a, n') →
  (∀ u, has_transition n' u ↔ has_transition n u) ∧ (∀ q, marking n' q = marking n q) ∧
  (∀ u q, (u, q) ≠ (t, p) → pre n' u q = pre n u q) ∧ (pre n t p = 0%N → pre n' t p = 1%N) ∧
  (∀ u q, post n' u q = post n u q) ∧ net_grows n n'.
Proof.
  intros H. assert (Hin := H). unfold add_arc_place_transition in Hin.
  apply outcome_bind_ok in Hin as (n1 & Hn1 & _). unfold expect in Hn1.
  destruct (net_add_arc_place_transition n p t) as [n2|] eqn:E; [|done].
  apply add_arc_place_transition_some in E as [Hp Ht]. clear n1 n2 Hn1.
  pattern a, n'. eapply (wp_ok _ (λ _, False)); [|exact H]. apply wp_add_arc_place_transition; [done..|].
  intros n1 H1 H2 H3 H4 H5 H6 H7. split_and!; done.
Qed.

Lemma add_arc_pt_places p t n a n' :
  add_arc_place_transition p t n = Ok (a, n') → ∀ q, has_place n' q ↔ has_place n q.
Proof.
  unfold add_arc_place_transition. intros (n1 & Hn1 & [= _ <-])%outcome_bind_ok. unfold expect in Hn1.
  destruct (net_add_arc_place_transition n p t) as [n2|] eqn:E; [|done]. injection Hn1 as ->.
  assert (E' := E). apply add_arc_place_transition_some in E' as [Hp Ht].
  destruct (add_arc_place_transition_law n p t Hp Ht) as (n2 & Heq & H & _).
  rewrite E in Heq. by injection Heq as <-.
Qed.

Lemma add_arc_tp_ok t p n a n' :
  add_arc_transition_place t p n = Ok (a, n') →
  (∀ u, has_transition n' u ↔ has_transition n u) ∧ (∀ q, marking n' q = marking n q) ∧
  (∀ u q, (u, q) ≠ (t, p) → post n' u q = post n u q) ∧ (post n t p = 0%N → post n' t p = 1%N) ∧
  (∀ u q, pre n' u q = pre n u q) ∧ net_grows n n'.
Proof.
  intros H. assert (Hin := H). unfold add_arc_transition_place in Hin.
  apply outcome_bind_ok in Hin as (n1 & Hn1 & _). unfold expect in Hn1.
  destruct (net_add_arc_transition_place n t p) as [n2|] eqn:E; [|done].
  apply add_arc_transition_place_some in E as [Ht Hp]. clear n1 n2 Hn1.
  pattern a, n'. eapply (wp_ok _ (λ _, False)); [|exact H]. apply wp_add_arc_transition_place; [done..|].
  intros n1 H1 H2 H3 H4 H5 H6 H7. split_and!; done.
Qed.

Lemma add_token_ok p k n a n' :
  add_token p k n = Ok (a, n') →
  (∀ t, has_transition n' t ↔ has_transition n t) ∧ same_arcs n n' ∧
  ∀ q, marking n' q = if decide (q = p) then (marking n p + k)%N else marking n q.
Proof.
  intros H. assert (Hin := H). unfold add_token in Hin.
  apply outcome_bind_ok in Hin as (n1 & Hn1 & _). unfold expect in Hn1.
  destruct (net_add_token n p k) as [n2|] eqn:E; [|done].
  apply add_token_some in E as [Hp Hk]. clear n1 n2 Hn1.
  pattern a, n'. eapply (wp_ok _ (λ _, False)); [|exact H]. apply wp_add_token; [done..|].
  intros n1 H1 H2 H3 H4. by split_and!.
Qed.

Lemma add_token_places p k n a n' : add_token p k n = Ok (a, n') → ∀ q, has_place n' q ↔ has_place n q.
Proof.
  unfold add_token. intros (n1 & Hn1 & [= _ <-])%outcome_bind_ok. unfold expect in Hn1.
  destruct (net_add_token n p k) as [n2|] eqn:E; [|done]. injection Hn1 as ->.
  assert (E' := E). apply add_token_some in E' as [Hp Hk].
  destruct (add_token_law n p k Hp Hk) as (n2 & Heq & H & _). rewrite E in Heq. by injection Heq as <-.
Qed.

(** A new transition has no arcs, and leaves the others theirs. *)
Lemma add_transition_ok l n t n' :
  add_transition l n = Ok (t, n') →
  ¬ has_transition n t ∧ (∀ u, has_transition n' u ↔ u = t ∨ has_transition n u) ∧
  (∀ q, marking n' q = marking n q) ∧ same_arcs n n'.
Proof.
  unfold add_transition. intros [= H].
  destruct (add_transition_law n l t n' H) as (Hf & Ht & _ & Hm & H1 & H2). split_and!; [done..|]. by split.
Qed.

Lemma add_transition_grows l n t n' :
  add_transition l n = Ok (t, n') → net_grows n n' ∧ ∀ q, has_place n' q ↔ has_place n q.
Proof.
  unfold add_transition. intros [= H].
  destruct (add_transition_law n l t n' H) as (_ & Ht & Hp & Hm & H1 & H2). split; [|done].
  split; intros; rewrite ?Hp, ?Hm, ?Ht, ?H1, ?H2; auto; lia.
Qed.

(** [connect_places] succeeds only between places of the net. *)
Lemma connect_places_ok s e l n t n' : connect_places s e l n = Ok (t, n') → flow n n' t s e.
Proof.
  intros H. assert (Hin := H). apply st_bind_ok in Hin as (t1 & n1 & H1 & Hin).
  apply st_bind_ok in Hin as ([] & n2 & H2 & Hin). apply st_bind_ok in Hin as ([] & n3 & H3 & _).
  assert (Hp : has_place n s ∧ has_place n e).
  { unfold add_arc_place_transition in H2. apply outcome_bind_ok in H2 as (x & Hx & [= <-]).
    unfold add_arc_transition_place in H3. apply outcome_bind_ok in H3 as (y & Hy & _).
    unfold expect in Hx, Hy. destruct (net_add_arc_place_transition n1 s t1) eqn:E1; [|done].
    destruct (net_add_arc_transition_place x t1 e) eqn:E2; [|done]. injection Hx as ->.
    assert (E1' := E1). apply add_arc_place_transition_some in E1 as [Hs Ht].
    apply add_arc_transition_place_some in E2 as [_ He].
    destruct (add_arc_place_transition_law n1 s t1 Hs Ht) as (n4 & Heq & Hpl & _).
    rewrite E1' in Heq. injection Heq as <-. unfold add_transition in H1. injection H1 as H1.
    destruct (add_transition_law n l t1 n1 H1) as (_ & _ & Hpl1 & _). by rewrite <-!Hpl1, <-(Hpl e). }
  pattern t, n'. eapply (wp_ok _ (λ _, False)); [|exact H]. apply wp_connect_places; [apply Hp..|]. by intros t2 n4 Hf.
Qed.
End growth.
