(* ===== verification/Naming.v ===== *)
(** * src/naming.rs and src/naming/*.rs: labels of places and transitions

    One definition per naming function, [format!] as string concatenation and
    [{index}] as the decimal rendering.  The theorems show what sanitizing a
    function name guarantees to the export formats, and that the labels of the
    blocks of one function never clash. *)

From S2P Require Import Prelude RustStr.
From Stdlib Require Import Ascii.

Definition PROGRAM_START : string := "PROGRAM_START".
Definition PROGRAM_END : string := "PROGRAM_END".
Definition PROGRAM_PANIC : string := "PROGRAM_PANIC".

(** The catch-all character set of [sanitize]. *)
Definition sanitize_chars : list ascii :=
  ["{"; "}"; "["; "]"; "#"; "<"; ">"; " "]%char.

(** [naming::sanitize] *)
Definition sanitize (function_name : string) : string :=
  let s := replace "<T>" "T" function_name in
  let s := replace "[T]" "T" s in
  let s := replace "<T, A>" "T_A" s in
  let s := replace "<'a>" "a" s in
  let s := replace "::" "_" s in
  let s := replace "Result_<T, E>" "Result" s in
  replace_chars sanitize_chars "_" s.

Module bb.
(** src/naming/basic_block.rs *)
Definition place_label (function_name : string) (index : N) : string :=
  sanitize function_name ^+ "_BB" ^+ pretty index.
Definition goto_transition_label (function_name : string) (index : N) : string :=
  sanitize function_name ^+ "_GOTO_" ^+ pretty index.
Definition switch_int_transition_label (function_name : string) (from_index to_index : N) : string :=
  sanitize function_name ^+ "_SWITCH_INT_FROM_BB" ^+ pretty from_index ^+ "_TO_BB" ^+ pretty to_index.
Definition unwind_transition_label (function_name : string) (index : N) : string :=
  sanitize function_name ^+ "_UNWIND_" ^+ pretty index.
Definition drop_transition_label (function_name : string) (index : N) : string :=
  sanitize function_name ^+ "_DROP_" ^+ pretty index.
Definition drop_cleanup_transition_label (function_name : string) (index : N) : string :=
  sanitize function_name ^+ "_DROP_UNWIND_" ^+ pretty index.
Definition assert_transition_label (function_name : string) (index : N) : string :=
  sanitize function_name ^+ "_ASSERT_" ^+ pretty index.
Definition assert_cleanup_transition_label (function_name : string) (index : N) : string :=
  sanitize function_name ^+ "_ASSERT_CLEANUP_" ^+ pretty index.
Definition unreachable_transition_label (function_name : string) (index : N) : string :=
  sanitize function_name ^+ "_UNREACHABLE_" ^+ pretty index.
End bb.

Module condvar.
(** src/naming/condvar.rs *)
Definition place_labels (index : N) : string * string :=
  ("CONDVAR_" ^+ pretty index ^+ "_WAIT_ENABLED", "CONDVAR_" ^+ pretty index ^+ "_NOTIFY").
Definition transition_labels (index : N) : string * string * string :=
  ("CONDVAR_" ^+ pretty index ^+ "_WAIT_START",
   "CONDVAR_" ^+ pretty index ^+ "_LOST_SIGNAL",
   "CONDVAR_" ^+ pretty index ^+ "_NOTIFY_RECEIVED").
Definition wait_skip_label (index : N) : string := "CONDVAR_" ^+ pretty index ^+ "_WAIT_SKIP".
End condvar.

Module function.
(** src/naming/function.rs *)
Definition indexed_mir_function_name (function_name : string) (index : N) : string :=
  sanitize function_name ^+ "_" ^+ pretty index.
Definition indexed_mir_function_cleanup_label (function_name : string) (index : N) : string :=
  sanitize function_name ^+ "_" ^+ pretty index ^+ "_CALL_UNWIND".
Definition return_transition_label (function_name : string) : string :=
  sanitize function_name ^+ "_RETURN".
Definition foreign_call_transition_labels (function_name : string) (index : N) : string * string :=
  (sanitize function_name ^+ "_" ^+ pretty index ^+ "_CALL",
   sanitize function_name ^+ "_" ^+ pretty index ^+ "_CALL_UNWIND").
Definition diverging_call_transition_label (function_name : string) : string :=
  sanitize function_name ^+ "_DIVERGING_CALL".
Definition panic_transition_label (function_name : string) : string :=
  sanitize function_name ^+ "_PANIC".
End function.

Module mutex.
(** src/naming/mutex.rs *)
Definition place_label (index : N) : string := "MUTEX_" ^+ pretty index.
Definition condition_place_labels (index : N) : string * string :=
  ("MUTEX_" ^+ pretty index ^+ "_CONDITION_NOT_SET", "MUTEX_" ^+ pretty index ^+ "_CONDITION_SET").
End mutex.

Module thread.
(** src/naming/thread.rs *)
Definition start_place_label (index : N) : string := "THREAD_" ^+ pretty index ^+ "_START".
Definition end_place_label (index : N) : string := "THREAD_" ^+ pretty index ^+ "_END".
End thread.

(** ** What [sanitize] guarantees *)

Lemma sanitize_no_banned s c : c ∈ sanitize_chars → c ∉ chars (sanitize s).
Proof.
  intros Hc. unfold sanitize. apply replace_chars_no_banned; [done|].
  unfold sanitize_chars in Hc. simpl. set_solver.
Qed.

Lemma replace_chars_no_pair d cs to s :
  d ∉ chars to → to ≠ EmptyString → no_pair d false s = true →
  no_pair d false (replace_chars cs to s) = true.
Proof.
  intros Hd Hto. generalize false. induction s as [|c s IH]; intros b; simpl; [done|].
  case_bool_decide as Hc; case_bool_decide as Hin.
  - rewrite andb_true_iff. intros [_ H]. rewrite no_pair_app by done.
    eapply no_pair_weaken, IH, H.
  - rewrite andb_true_iff. intros [Hb H]. simpl. rewrite bool_decide_eq_true_2 by done.
    by rewrite Hb, IH.
  - intros H. rewrite no_pair_app by done. eapply no_pair_weaken, IH, H.
  - intros H. simpl. rewrite bool_decide_eq_false_2 by done. by apply IH.
Qed.

Lemma sanitize_no_double_colon s : contains "::" (sanitize s) = false.
Proof.
  apply (no_pair_contains ":"%char). unfold sanitize.
  apply replace_chars_no_pair; [simpl; set_solver|done|].
  apply replace_keeps_no_pair; [simpl; set_solver..|done|].
  apply no_pair_contains, replace_pair_gone; [simpl; set_solver|done].
Qed.

(** A sanitized name is not changed by sanitizing it again, so an indexed name
    ([indexed_mir_function_name]) can be passed to the label functions. *)
Lemma sanitize_fixpoint s :
  (∀ c, c ∈ sanitize_chars → c ∉ chars s) → contains "::" s = false → sanitize s = s.
Proof.
  intros Hb Hcc. unfold sanitize.
  rewrite (replace_id "<T>"), (replace_id "[T]"), (replace_id "<T, A>"), (replace_id "<'a>"),
    (replace_id "::"), (replace_id "Result_<T, E>"); [by apply replace_chars_id|..]; [|done|..].
  all: match goal with |- contains (String "["%char _) _ = _ => apply (contains_char_false _ _ "["%char)
       | _ => apply (contains_char_false _ _ "<"%char) end.
  all: try (apply Hb; unfold sanitize_chars; set_solver).
  all: simpl; set_solver.
Qed.

(** A sanitized function name contains none of the characters that the
    export formats reject, and no path separator [::]. *)
Theorem sanitized_name_clean s :
  Forall (λ c, c ∉ chars (sanitize s)) sanitize_chars ∧ contains "::" (sanitize s) = false.
Proof.
  split; [|apply sanitize_no_double_colon]. apply Forall_forall. intros c. apply sanitize_no_banned.
Qed.

Lemma no_pair_none d b s : d ∉ chars s → no_pair d b s = true.
Proof.
  revert b. induction s as [|c s IH]; intros b; simpl; [done|]. rewrite not_elem_of_cons. intros [Hc Hs].
  rewrite bool_decide_eq_false_2 by done. by apply IH.
Qed.
Lemma no_pair_snoc d b s x : d ∉ chars x → no_pair d b s = true → no_pair d b (s ^+ x) = true.
Proof.
  intros Hx. revert b. induction s as [|c s IH]; intros b; simpl; [by intros _; apply no_pair_none|].
  case_bool_decide; [|apply IH]. rewrite !andb_true_iff. intros [Hb H']. split; [done|]. by apply IH.
Qed.

Lemma index_suffix_chars i c : c ∈ chars ("_" ^+ pretty (i : N)) → c = "_"%char ∨ is_digit c.
Proof.
  simpl. rewrite elem_of_cons. intros [->|Hc]; [by left|right].
  eapply (proj1 (Forall_forall _ _) (pretty_digits i)), Hc.
Qed.

(** The name under which a function's frame is translated, the sanitized
    name with an index, is not changed when a label function sanitizes it again:
    the labels of a frame's blocks extend the frame's name. *)
Theorem indexed_name_stable f i :
  sanitize (function.indexed_mir_function_name f i) = function.indexed_mir_function_name f i.
Proof.
  unfold function.indexed_mir_function_name. apply sanitize_fixpoint.
  - intros c Hc. rewrite chars_app, elem_of_app. intros [H|H]; [by eapply sanitize_no_banned|].
    apply index_suffix_chars in H as [->|H]; [|unfold is_digit in H];
      unfold sanitize_chars in Hc; set_solver.
  - apply (no_pair_contains ":"%char), no_pair_snoc.
    + intros [H|H]%index_suffix_chars; [done|]. unfold is_digit in H. set_solver.
    + apply (no_pair_contains ":"%char), sanitize_no_double_colon.
Qed.

(** Sanitizing is not injective: functions with different paths can have
    the same sanitized name.  Their calls are counted separately, so the labels
    of their frames and blocks coincide. *)
Theorem sanitized_names_collide :
  "a::b" ≠ "a_b" ∧
  (∀ i, function.indexed_mir_function_name "a::b" i = function.indexed_mir_function_name "a_b" i) ∧
  (∀ i b, bb.place_label (function.indexed_mir_function_name "a::b" i) b =
          bb.place_label (function.indexed_mir_function_name "a_b" i) b) ∧
  (∀ i, function.foreign_call_transition_labels "a::b" i = function.foreign_call_transition_labels "a_b" i).
Proof. by split_and!. Qed.

Lemma bb_place_label_injective f i j : bb.place_label f i = bb.place_label f j → i = j.
Proof. intros H. apply append_inj_l in H. cbn in H. repeat (injection H as H). by apply (inj pretty). Qed.
