(* ===== verification/Rustc.v ===== *)
(** * The compiler's side: MIR, the typing context, and src/utils.rs

    [rustc] is not part of the repository.  Its data types appear with the
    constructors the translator matches on, and its queries are the fields of
    the record [TyCtxt], a parameter of the translation: the entry function,
    printed paths, the sequence of callbacks that the MIR visitor makes on the
    optimized body of a function, its debug information, and types.  No query
    is given a definition here.

    The last section translates src/utils.rs. *)

From S2P Require Import Prelude RustStr.

(** ** MIR data *)

(** [rustc_hir::def_id::DefId] *)
Record DefId := mkDefId { krate : N; def_index : N }.

(** Types are interned by the compiler and compared by identity. *)
Record Ty := mkTy { ty_id : N }.

(** [rustc_middle::mir::BasicBlock], an index into the body's blocks. *)
Abbreviation BlockIndex := N (only parsing).

(** [rustc_middle::mir::ProjectionElem] *)
Inductive ProjectionElem : Type :=
  | Deref
  | Field (field : N) (ty : Ty)
  | Index (local : N)
  | ConstantIndex (offset min_length : N) (from_end : bool)
  | Subslice (from to : N) (from_end : bool)
  | Downcast (variant : N)
  | OpaqueCast (ty : Ty)
  | Subtype (ty : Ty).

(** [rustc_middle::mir::Place] *)
Record Place := mkPlace { local : N; projection : list ProjectionElem }.

#[global] Instance DefId_eq_dec : EqDecision DefId.
Proof. solve_decision. Defined.
#[global] Instance Ty_eq_dec : EqDecision Ty.
Proof. solve_decision. Defined.
#[global] Instance ProjectionElem_eq_dec : EqDecision ProjectionElem.
Proof. solve_decision. Defined.
#[global] Instance Place_eq_dec : EqDecision Place.
Proof. solve_decision. Defined.

(** Places are keys of the function's memory. *)
#[global] Instance ProjectionElem_countable : Countable ProjectionElem.
Proof.
  refine (inj_countable'
    (λ e, match e with
          | Deref => (0%N, 0%N, 0%N, false)
          | Field f t => (1, f, ty_id t, false)
          | Index l => (2, l, 0, false)
          | ConstantIndex o m b => (3, o, m, b)
          | Subslice f t b => (4, f, t, b)
          | Downcast v => (5, v, 0, false)
          | OpaqueCast t => (6, ty_id t, 0, false)
          | Subtype t => (7, ty_id t, 0, false)
          end%N)
    (λ '(tag, a, b, c),
       match tag with
       | 0 => Deref
       | 1 => Field a (mkTy b)
       | 2 => Index a
       | 3 => ConstantIndex a b c
       | 4 => Subslice a b c
       | 5 => Downcast a
       | 6 => OpaqueCast (mkTy a)
       | _ => Subtype (mkTy a)
       end%N) _).
  by intros [| ? [] | | | | | [] | []].
Defined.

#[global] Instance Place_countable : Countable Place.
Proof.
  refine (inj_countable' (λ p, (local p, projection p)) (λ '(l, pr), mkPlace l pr) _).
  by intros [].
Defined.

(** [Place::is_indirect]: the place goes through a dereference. *)
Definition is_indirect (p : Place) : bool := bool_decide (Deref ∈ projection p).

(** [rustc_middle::mir::{ConstValue, Const, ConstOperand}]; [const_ty] is what
    [ConstOperand::ty] returns. *)
Inductive ConstValue : Type := Scalar | ZeroSized | Slice | Indirect.
Inductive Const : Type :=
  | ConstTy
  | ConstUnevaluated
  | ConstVal (value : ConstValue).
Record ConstOperand := mkConst { user_ty : option N; const_ : Const; const_ty : Ty }.

(** [rustc_middle::mir::Operand] *)
Inductive Operand : Type :=
  | Copy (place : Place)
  | Move (place : Place)
  | Constant (c : ConstOperand).

(** [rustc_middle::mir::Rvalue], with the variants the visitor does not look
    at merged into [OtherRvalue]. *)
Inductive Rvalue : Type :=
  | Use (operand : Operand)
  | Ref (place : Place)
  | Aggregate (operands : list Operand)
  | OtherRvalue.

(** [rustc_middle::mir::UnwindAction] *)
Inductive UnwindAction : Type :=
  | UnwindContinue
  | UnwindUnreachable
  | UnwindActionTerminate
  | UnwindCleanup (block : BlockIndex).
#[global] Instance UnwindAction_eq_dec : EqDecision UnwindAction.
Proof. solve_decision. Defined.

(** [rustc_middle::mir::TerminatorKind], without the operands the visitor
    ignores; [targets] of [SwitchInt] is what [all_targets] returns. *)
Inductive TerminatorKind : Type :=
  | Goto (target : BlockIndex)
  | SwitchInt (targets : list BlockIndex)
  | UnwindResume
  | UnwindTerminate
  | Return
  | Unreachable
  | Drop (place : Place) (target : BlockIndex) (unwind : UnwindAction)
  | Call (func : Operand) (args : list Operand) (destination : Place)
         (target : option BlockIndex) (unwind : UnwindAction)
  | Assert (target : BlockIndex) (unwind : UnwindAction)
  | Yield
  | CoroutineDrop
  | FalseEdge
  | FalseUnwind
  | InlineAsm
  | TailCall.

(** The callbacks of [rustc_middle::mir::visit::Visitor] that the translator
    overrides, in the order in which the default traversal of a body makes
    them. *)
Inductive VisitorCall : Type :=
  | VisitBasicBlockData (block : BlockIndex)
  | VisitAssign (place : Place) (rvalue : Rvalue)
  | VisitTerminator (kind : TerminatorKind).

(** [rustc_middle::mir::VarDebugInfoContents] *)
Inductive VarDebugInfoContents : Type :=
  | DebugPlace (place : Place)
  | DebugConst.

(** [rustc_middle::ty::TyKind] *)
Inductive TyKind : Type :=
  | FnPtr
  | FnDef (def_id : DefId)
  | Closure (def_id : DefId)
  | OtherTyKind.

(** ** The typing context *)

Record TyCtxt := mkTyCtxt {
(* [tcx.entry_fn(())] *)
entry_fn : option DefId;
(* [tcx.def_path_str(def_id)] *)
def_path_str : DefId → string;
(* the callbacks of [visit_body(tcx.optimized_mir(def_id))] *)
body_visits : DefId → list VisitorCall;
(* [tcx.optimized_mir(def_id).var_debug_info] *)
var_debug_info : DefId → list VarDebugInfoContents;
(* [place.ty(tcx.optimized_mir(def_id), tcx).ty] *)
place_ty : DefId → Place → Ty;
(* [ty.to_string()] and [ty.kind()] *)
ty_to_string : Ty → string;
ty_kind : Ty → TyKind;
(* [tcx.is_foreign_item(def_id)] and [tcx.is_mir_available(def_id)] *)
is_foreign_item : DefId → bool;
is_mir_available : DefId → bool;
}.

(** ** src/utils.rs *)

Section utils.
Context (tcx : TyCtxt).

(** [extract_def_id_of_called_function_from_operand] *)
Definition extract_def_id_of_called_function_from_operand
    (operand : Operand) (caller_function_def_id : DefId) : outcome DefId :=
  let function_type :=
    match operand with
    | Copy place | Move place => place_ty tcx caller_function_def_id place
    | Constant constant => const_ty constant
    end in
  match ty_kind tcx function_type with
  | FnPtr => Err (Panic FnPtrNotImplemented)
  | FnDef def_id | Closure def_id => Ok def_id
  | OtherTyKind => Err (Panic TypeIsNotFunction)
  end.

(** [extract_nth_argument_as_place] *)
Definition extract_nth_argument_as_place (args : list Operand) (index : nat) : option Place :=
  operand ← args !! index;
  match operand with
  | Move place | Copy place => Some place
  | Constant _ => None
  end.

(** [extract_closure] *)
Definition extract_closure (args : list Operand) : outcome (option Place) :=
  operand ← expect SpawnWithoutArgument (head args);
  match operand with
  | Move place | Copy place => Ok (Some place)
  | Constant boxed_const =>
      match user_ty boxed_const with
      | Some _ => Err (Panic ClosureWithUserType)
      | None =>
          match const_ boxed_const with
          | ConstTy => Err (Panic ClosureIsTypeConstant)
          | ConstUnevaluated => Err (Panic ClosureIsUnevaluated)
          | ConstVal ZeroSized => Ok None
          | ConstVal _ => Err (Panic ClosureNotZeroSized)
          end
      end
  end.

(** [check_substring_in_place_type] *)
Definition check_substring_in_place_type
    (place : Place) (expected_substring : string) (caller_function_def_id : DefId) : bool :=
  contains expected_substring (ty_to_string tcx (place_ty tcx caller_function_def_id place)).

(** [get_field_number_in_projection]: the first [Field] projection. *)
Fixpoint first_field (l : list ProjectionElem) : option N :=
  match l with
  | [] => None
  | Field number _ :: _ => Some number
  | _ :: l' => first_field l'
  end.
Definition get_field_number_in_projection (place : Place) : outcome N :=
  expect FieldNumberNotFound (first_field (projection place)).
End utils.
