(* ===== verification/Function.v ===== *)
(** * src/translator/function.rs (places and transitions of a call) and
    src/translator/special_function.rs

    Post-processing tasks, the rest of function.rs, refer to mutexes and are
    in [Heap.v]. *)

From S2P Require Import Prelude RustStr Netcrab Naming Rustc.

Section function.
Context `{L : PetriNetLib}.

(** [enum Places] *)
Inductive Places : Type :=
  | PBasic (start_place end_place : PlaceRef)
  | PWithCleanup (start_place end_place cleanup_place : PlaceRef).

(** [Places::ignore_cleanup_place] *)
Definition ignore_cleanup_place (places : Places) : Places :=
  match places with
  | PBasic _ _ => places
  | PWithCleanup start_place end_place _ => PBasic start_place end_place
  end.

(** [Places::get_start_end_place] *)
Definition get_start_end_place (places : Places) : PlaceRef * PlaceRef :=
  match places with
  | PBasic start_place end_place | PWithCleanup start_place end_place _ =>
      (start_place, end_place)
  end.

(** [enum Transitions] *)
Inductive Transitions : Type :=
  | TBasic (default : TransitionRef)
  | TWithCleanup (default cleanup : TransitionRef).

(** [Transitions::get_default]; [Transitions::default] consumes the value and
    returns the same reference. *)
Definition get_default (transitions : Transitions) : TransitionRef :=
  match transitions with
  | TBasic default | TWithCleanup default _ => default
  end.

(** [is_panic_function] *)
Definition is_panic_function (function_name : string) : bool :=
  bool_decide (function_name ∈
    ["core::panicking::assert_failed"; "core::panicking::panic";
     "core::panicking::panic_fmt"; "std::rt::begin_panic"; "std::rt::begin_panic_fmt"]).

(** [is_foreign_function] *)
Definition is_foreign_function (function_def_id : DefId) (function_name : string)
    (tcx : TyCtxt) : bool :=
  starts_with "std::" function_name
  || starts_with "core::" function_name
  || starts_with "alloc::" function_name
  || is_foreign_item tcx function_def_id
  || negb (is_mir_available tcx function_def_id).

(** [call_foreign_function] *)
Definition call_foreign_function (function_name : string) (index : N) (places : Places) :
    ST PetriNet Transitions :=
  let '(default_label, cleanup_label) :=
    function.foreign_call_transition_labels function_name index in
  match places with
  | PBasic start_place end_place =>
      default ← connect_places start_place end_place default_label;
      mret (TBasic default)
  | PWithCleanup start_place end_place cleanup_place =>
      default ← connect_places start_place end_place default_label;
      cleanup ← connect_places start_place cleanup_place cleanup_label;
      mret (TWithCleanup default cleanup)
  end.

(** [call_diverging_function] *)
Definition call_diverging_function (start_place : PlaceRef) (function_name : string) :
    ST PetriNet unit :=
  let label := function.diverging_call_transition_label function_name in
  transition ← add_transition label;
  add_arc_place_transition start_place transition.

(** [call_panic_function] *)
Definition call_panic_function (start_place unwind_place : PlaceRef) (function_name : string) :
    ST PetriNet unit :=
  let label := function.panic_transition_label function_name in
  connect_places start_place unwind_place label;;
  mret tt.
End function.
