(* ===== verification/Heap.v ===== *)
(** * Shared sync objects and post-processing tasks

    Mutexes, mutex guards, condition variables and threads are shared through
    [Rc]: every alias of a value sees the transitions that [add_deref_mut_transition]
    pushed through another one, whether a wait was linked, and which join was
    set.  The objects therefore live in a heap and an [Rc] is a location in it;
    [Rc::new] allocates, and cloning an [Rc] copies the location.

    The data types are those of src/translator/sync/{mutex,condvar,thread}.rs,
    src/translator/mir_function/memory.rs ([Value]) and the tasks of
    src/translator/function.rs. *)

From S2P Require Import Prelude Netcrab Rustc.

Section heap.
Context `{L : PetriNetLib}.

(** [MutexRef], [MutexGuardRef], [CondvarRef], [ThreadRef]: locations. *)
Record MutexRef := mkMutexRef { mutex_loc : nat }.
Record MutexGuardRef := mkMutexGuardRef { guard_loc : nat }.
Record CondvarRef := mkCondvarRef { condvar_loc : nat }.
Record ThreadRef := mkThreadRef { thread_loc : nat }.

(** [enum Value] *)
Inductive Value : Type :=
  | VMutex (mutex_ref : MutexRef)
  | VMutexGuard (mutex_guard_ref : MutexGuardRef)
  | VJoinHandle (thread_ref : ThreadRef)
  | VCondvar (condvar_ref : CondvarRef)
  | VAggregate (values : list Value).

(** [struct Mutex]; the [RefCell<Vec<TransitionRef>>] is a mutable list. *)
Record Mutex := mkMutex { mutex : PlaceRef; deref_mut : list TransitionRef }.

(** [struct Guard] *)
Record Guard := mkGuard { guard_mutex : MutexRef }.

(** [struct Condvar]; the [OnceCell<()>] is empty or set. *)
Record Condvar := mkCondvar {
  wait_start : TransitionRef;
  notify : PlaceRef;
  notify_received : TransitionRef;
  already_linked_to_call : option unit;
}.

(** [struct Thread]; the [OnceCell<TransitionRef>] is empty or set. *)
Record Thread := mkThread {
  spawn_transition : TransitionRef;
  thread_def_id : DefId;
  aggregate : list Value;
  join_transition : option TransitionRef;
  thread_index : N;
}.

Record Heap := mkHeap {
  mutexes : list Mutex;
  guards : list Guard;
  condvars : list Condvar;
  threads_ : list Thread;
}.

Definition empty_heap : Heap := mkHeap [] [] [] [].

(** [Rc::new] *)
Definition new_mutex_rc (m : Mutex) : ST Heap MutexRef := λ h,
  Ok (mkMutexRef (length (mutexes h)),
      mkHeap (mutexes h ++ [m]) (guards h) (condvars h) (threads_ h)).
Definition new_guard_rc (g : Guard) : ST Heap MutexGuardRef := λ h,
  Ok (mkMutexGuardRef (length (guards h)),
      mkHeap (mutexes h) (guards h ++ [g]) (condvars h) (threads_ h)).
Definition new_condvar_rc (c : Condvar) : ST Heap CondvarRef := λ h,
  Ok (mkCondvarRef (length (condvars h)),
      mkHeap (mutexes h) (guards h) (condvars h ++ [c]) (threads_ h)).
Definition new_thread_rc (t : Thread) : ST Heap ThreadRef := λ h,
  Ok (mkThreadRef (length (threads_ h)),
      mkHeap (mutexes h) (guards h) (condvars h) (threads_ h ++ [t])).

(** Following an [Rc]. *)
Definition deref {A} (o : option A) : outcome A :=
  match o with Some a => Ok a | None => Err Dangling end.
Definition read_mutex (r : MutexRef) : ST Heap Mutex := λ h,
  lift (deref (mutexes h !! mutex_loc r)) h.
Definition read_guard (r : MutexGuardRef) : ST Heap Guard := λ h,
  lift (deref (guards h !! guard_loc r)) h.
Definition read_condvar (r : CondvarRef) : ST Heap Condvar := λ h,
  lift (deref (condvars h !! condvar_loc r)) h.
Definition read_thread (r : ThreadRef) : ST Heap Thread := λ h,
  lift (deref (threads_ h !! thread_loc r)) h.

(** Writing through the interior mutability of the object behind an [Rc]. *)
Definition write_mutex (r : MutexRef) (m : Mutex) : ST Heap unit :=
  modify (λ h, mkHeap (<[mutex_loc r := m]> (mutexes h)) (guards h) (condvars h) (threads_ h)).
Definition write_condvar (r : CondvarRef) (c : Condvar) : ST Heap unit :=
  modify (λ h, mkHeap (mutexes h) (guards h) (<[condvar_loc r := c]> (condvars h)) (threads_ h)).
Definition write_thread (r : ThreadRef) (t : Thread) : ST Heap unit :=
  modify (λ h, mkHeap (mutexes h) (guards h) (condvars h) (<[thread_loc r := t]> (threads_ h))).

(** The state shared by all functions being translated: the net under
    construction and the shared objects. *)
Record World := mkWorld { net : PetriNet; heap : Heap }.
Definition on_net {A} (m : ST PetriNet A) : ST World A :=
  zoom net (λ n w, mkWorld n (heap w)) m.
Definition on_heap {A} (m : ST Heap A) : ST World A :=
  zoom heap (λ h w, mkWorld (net w) h) m.

(** ** [enum PostprocessingTask] *)
Inductive PostprocessingTask : Type :=
  | LinkMutexToCondvar (priority : N) (index : N)
      (start_place end_place : PlaceRef) (task_wait_start : TransitionRef)
  | NewMutex (priority : N) (mutex_ref : MutexRef).

(** [PostprocessingTask::link_mutex_to_condvar] *)
Definition link_mutex_to_condvar (index : N) (start_place end_place : PlaceRef)
    (wait_start : TransitionRef) : PostprocessingTask :=
  LinkMutexToCondvar 1 index start_place end_place wait_start.

(** [PostprocessingTask::new_mutex] *)
Definition new_mutex (mutex_ref : MutexRef) : PostprocessingTask := NewMutex 2 mutex_ref.

(** [PostprocessingTask::get_priority], on which [Ord::cmp] compares. *)
Definition get_priority (task : PostprocessingTask) : N :=
  match task with
  | LinkMutexToCondvar priority _ _ _ _ | NewMutex priority _ => priority
  end.

(** [Ord::cmp] *)
Definition task_cmp (a b : PostprocessingTask) : comparison :=
  N.compare (get_priority a) (get_priority b).
End heap.
