(* ===== verification/Memory.v ===== *)
(** * src/translator/mir_function/memory.rs

    The memory of a function maps MIR places to the sync variables they hold.
    The [link_*] operations differ in whether they tolerate a place that was
    linked before; the messages they log about it are not modelled. *)

From S2P Require Import Prelude Netcrab Rustc Heap.

Section memory.
Context `{L : PetriNetLib}.

(** [struct Memory { map: HashMap<Place, Value> }] *)
Record Memory := mkMemory { map : gmap Place Value }.

(** [Memory::default] *)
Definition empty_memory : Memory := mkMemory ∅.

Definition insert_value (m : Memory) (place : Place) (v : Value) : Memory :=
  mkMemory (<[place := v]> (map m)).

(** [Value::unpack_*] *)
Definition unpack_mutex (v : Value) : outcome MutexRef :=
  match v with VMutex r => Ok r | _ => Err (Panic ValueIsNotMutex) end.
Definition unpack_mutex_guard (v : Value) : outcome MutexGuardRef :=
  match v with VMutexGuard r => Ok r | _ => Err (Panic ValueIsNotMutexGuard) end.
Definition unpack_join_handle (v : Value) : outcome ThreadRef :=
  match v with VJoinHandle r => Ok r | _ => Err (Panic ValueIsNotJoinHandle) end.
Definition unpack_condvar (v : Value) : outcome CondvarRef :=
  match v with VCondvar r => Ok r | _ => Err (Panic ValueIsNotCondvar) end.
Definition unpack_aggregate (v : Value) : outcome (list Value) :=
  match v with VAggregate vs => Ok vs | _ => Err (Panic ValueIsNotAggregate) end.

(** [get_linked_value], also the indexing [self.map[&place]] *)
Definition get_linked_value (m : Memory) (place : Place) : outcome Value :=
  expect PlaceNotLinked (map m !! place).

(** [link_mutex]: overwrites silently, returns the reference now linked. *)
Definition link_mutex (m : Memory) (place : Place) (mutex : Mutex) :
    ST Heap (MutexRef * Memory) :=
  mutex_ref ← new_mutex_rc mutex;
  let m' := insert_value m place (VMutex mutex_ref) in
  v ← lift (get_linked_value m' place);
  r ← lift (unpack_mutex v);
  mret (r, m').

(** [link_mutex_guard] *)
Definition link_mutex_guard (m : Memory) (place : Place) (mutex_guard : Guard) :
    ST Heap (MutexGuardRef * Memory) :=
  mutex_guard_ref ← new_guard_rc mutex_guard;
  let m' := insert_value m place (VMutexGuard mutex_guard_ref) in
  v ← lift (get_linked_value m' place);
  r ← lift (unpack_mutex_guard v);
  mret (r, m').

(** [link_join_handle] *)
Definition link_join_handle (m : Memory) (place : Place) (thread : Thread) :
    ST Heap (ThreadRef * Memory) :=
  thread_ref ← new_thread_rc thread;
  let m' := insert_value m place (VJoinHandle thread_ref) in
  v ← lift (get_linked_value m' place);
  r ← lift (unpack_join_handle v);
  mret (r, m').

(** [link_condvar] *)
Definition link_condvar (m : Memory) (place : Place) (condvar : Condvar) :
    ST Heap (CondvarRef * Memory) :=
  condvar_ref ← new_condvar_rc condvar;
  let m' := insert_value m place (VCondvar condvar_ref) in
  v ← lift (get_linked_value m' place);
  r ← lift (unpack_condvar v);
  mret (r, m').

(** [link_aggregate]: panics if the place was linked. *)
Definition link_aggregate (m : Memory) (place : Place) (values : list Value) : outcome Memory :=
  match map m !! place with
  | Some _ => Err (Panic AggregateAlreadyLinked)
  | None => Ok (insert_value m place (VAggregate values))
  end.

(** [link_place_to_same_value] *)
Definition link_place_to_same_value (m : Memory) (place_to_link place_linked : Place) :
    outcome Memory :=
  value ← expect PlaceNotLinked (map m !! place_linked);
  Ok (insert_value m place_to_link value).

(** [get_mutex], [get_mutex_guard], [get_join_handle], [get_condvar] *)
Definition get_mutex (m : Memory) (place : Place) : outcome MutexRef :=
  v ← get_linked_value m place; unpack_mutex v.
Definition get_mutex_guard (m : Memory) (place : Place) : outcome MutexGuardRef :=
  v ← get_linked_value m place; unpack_mutex_guard v.
Definition get_join_handle (m : Memory) (place : Place) : outcome ThreadRef :=
  v ← get_linked_value m place; unpack_join_handle v.
Definition get_condvar (m : Memory) (place : Place) : outcome CondvarRef :=
  v ← get_linked_value m place; unpack_condvar v.

(** [copy_aggregate] *)
Definition copy_aggregate (m : Memory) (place : Place) : outcome (list Value) :=
  v ← expect PlaceNotLinked (map m !! place); unpack_aggregate v.

(** [is_mutex_guard] *)
Definition is_mutex_guard (m : Memory) (place : Place) : bool :=
  match map m !! place with
  | Some (VMutexGuard _) => true
  | _ => false
  end.

(** [create_aggregate] *)
Fixpoint collect_values (m : Memory) (places : list Place) : outcome (list Value) :=
  match places with
  | [] => Ok []
  | place :: places' =>
      v ← get_linked_value m place;
      vs ← collect_values m places';
      Ok (v :: vs)
  end.
Definition create_aggregate (m : Memory) (place : Place) (places_to_aggregate : list Place) :
    outcome Memory :=
  values ← collect_values m places_to_aggregate;
  link_aggregate m place values.

(** [link_field_in_aggregate]: the [assert!] runs after the insertion, but a
    panic discards the memory. *)
Definition link_field_in_aggregate (m : Memory) (place_to_link place_linked : Place)
    (index : N) : outcome Memory :=
  v ← expect PlaceNotLinked (map m !! place_linked);
  values ← unpack_aggregate v;
  value ← expect FieldIndexOutOfBounds (values !! N.to_nat index);
  match map m !! place_to_link with
  | Some _ => Err (Panic FieldPlaceAlreadyLinked)
  | None => Ok (insert_value m place_to_link value)
  end.
End memory.
