(* ===== verification/Sync.v ===== *)
(** * src/translator/sync.rs and src/translator/sync/{mutex,condvar,thread}.rs

    The translation of the synchronization primitives.  Operations on the net
    alone run on [PetriNet], those that follow or update a shared object on
    [World]; the memory of the calling function is passed and returned. *)

From S2P Require Import Prelude RustStr Netcrab Naming Rustc Function Heap Memory.

Section sync.
Context `{L : PetriNetLib}.

(** ** sync/mutex.rs *)

(** [Mutex::new] *)
Definition mutex_new (index : N) : ST PetriNet Mutex :=
  let label := mutex.place_label index in
  mutex ← add_place label;
  add_token mutex 1;;
  mret (mkMutex mutex []).

(** [Mutex::add_lock_arc] *)
Definition add_lock_arc (self : Mutex) (lock_transition : TransitionRef) : ST PetriNet unit :=
  add_arc_place_transition (mutex self) lock_transition.

(** [Mutex::add_unlock_arc] *)
Definition add_unlock_arc (self : Mutex) (unlock_transition : TransitionRef) : ST PetriNet unit :=
  add_arc_transition_place unlock_transition (mutex self).

(** [Mutex::add_deref_mut_transition]: pushes through the [RefCell]. *)
Definition add_deref_mut_transition (self : MutexRef) (transition : TransitionRef) :
    ST Heap unit :=
  m ← read_mutex self;
  write_mutex self (mkMutex (mutex m) (deref_mut m ++ [transition])).

(** [Mutex::link_to_condvar] *)
Definition link_to_condvar (self : Mutex) (index : N) (start_place end_place : PlaceRef)
    (wait_start : TransitionRef) : ST PetriNet unit :=
  match deref_mut self with
  | [] => mret tt
  | _ =>
      let '(p1, p2) := mutex.condition_place_labels index in
      condition_not_set ← add_place p1;
      condition_set ← add_place p2;
      add_token condition_not_set 1;;
      for_each (deref_mut self) (λ transition_ref,
        add_arc_place_transition condition_not_set transition_ref;;
        add_arc_transition_place transition_ref condition_set);;
      add_arc_place_transition condition_not_set wait_start;;
      add_arc_transition_place wait_start condition_not_set;;
      wait_skip ← connect_places start_place end_place (condvar.wait_skip_label index);
      add_arc_place_transition condition_set wait_skip;;
      add_arc_transition_place wait_skip condition_set
  end.

(** [Guard::new] *)
Definition guard_new (mutex : MutexRef) : Guard := mkGuard mutex.

(** [mutex::call_lock] *)
Definition call_lock (function_name : string) (index : N) (args : list Operand)
    (destination : Place) (places : Places) (memory : Memory) : ST World Memory :=
  let places := ignore_cleanup_place places in
  transitions ← on_net (call_foreign_function function_name index places);
  let lock_transition := get_default transitions in
  self_ref ← lift (expect ArgumentIsNotAPlace (extract_nth_argument_as_place args 0));
  mutex_ref ← lift (get_mutex memory self_ref);
  mutex ← on_heap (read_mutex mutex_ref);
  on_net (add_lock_arc mutex lock_transition);;
  let mutex_guard := guard_new mutex_ref in
  '(_, memory) ← on_heap (link_mutex_guard memory destination mutex_guard);
  mret memory.

(** [mutex::call_new] *)
Definition call_new_mutex (function_name : string) (index : N) (destination : Place)
    (places : Places) (memory : Memory) : ST World (PostprocessingTask * Memory) :=
  on_net (call_foreign_function function_name index places);;
  mutex ← on_net (mutex_new index);
  '(mutex_ref, memory) ← on_heap (link_mutex memory destination mutex);
  mret (new_mutex mutex_ref, memory).

(** [mutex::handle_mutex_guard_drop] *)
Definition handle_mutex_guard_drop (place : Place) (unlock_transition : TransitionRef)
    (memory : Memory) : ST World unit :=
  if is_mutex_guard memory place then
    mutex_guard_ref ← lift (get_mutex_guard memory place);
    guard ← on_heap (read_guard mutex_guard_ref);
    mutex ← on_heap (read_mutex (guard_mutex guard));
    on_net (add_unlock_arc mutex unlock_transition)
  else mret tt.

(** ** sync/condvar.rs *)

(** [Condvar::new] *)
Definition condvar_new (index : N) : ST PetriNet Condvar :=
  let '(p1, p2) := condvar.place_labels index in
  wait_enabled ← add_place p1;
  notify ← add_place p2;
  add_token wait_enabled 1;;
  let '(t1, t2, t3) := condvar.transition_labels index in
  wait_start ← add_transition t1;
  lost_signal ← add_transition t2;
  notify_received ← add_transition t3;
  add_arc_place_transition wait_enabled lost_signal;;
  add_arc_place_transition notify lost_signal;;
  add_arc_transition_place lost_signal wait_enabled;;
  add_arc_place_transition wait_enabled wait_start;;
  add_arc_place_transition notify notify_received;;
  add_arc_transition_place notify_received wait_enabled;;
  mret (mkCondvar wait_start notify notify_received None).

(** [Condvar::link_to_wait_call] *)
Definition link_to_wait_call (self : CondvarRef) (start_place end_place : PlaceRef)
    (mutex_guard_ref : MutexGuardRef) : ST World unit :=
  c ← on_heap (read_condvar self);
  match already_linked_to_call c with
  | Some _ => fail (Panic MultipleWaitCallsNotSupported)
  | None =>
      on_net (add_arc_place_transition start_place (wait_start c));;
      on_net (add_arc_transition_place (notify_received c) end_place);;
      guard ← on_heap (read_guard mutex_guard_ref);
      mutex ← on_heap (read_mutex (guard_mutex guard));
      on_net (add_unlock_arc mutex (wait_start c));;
      on_net (add_lock_arc mutex (notify_received c));;
      c ← on_heap (read_condvar self);
      match already_linked_to_call c with
      | Some _ => fail (Panic CondvarLinkedTwice)
      | None =>
          on_heap (write_condvar self
            (mkCondvar (wait_start c) (notify c) (notify_received c) (Some tt)))
      end
  end.

(** [Condvar::link_to_notify_one_call] *)
Definition link_to_notify_one_call (self : Condvar) (notify_transition : TransitionRef) :
    ST PetriNet unit :=
  add_arc_transition_place notify_transition (notify self).

(** [condvar::call_new] *)
Definition call_new_condvar (function_name : string) (index : N) (destination : Place)
    (places : Places) (memory : Memory) : ST World Memory :=
  on_net (call_foreign_function function_name index places);;
  condvar ← on_net (condvar_new index);
  '(_, memory) ← on_heap (link_condvar memory destination condvar);
  mret memory.

(** [condvar::call_notify_one] *)
Definition call_notify_one (function_name : string) (index : N) (args : list Operand)
    (places : Places) (memory : Memory) : ST World unit :=
  let places := ignore_cleanup_place places in
  transitions ← on_net (call_foreign_function function_name index places);
  self_ref ← lift (expect ArgumentIsNotAPlace (extract_nth_argument_as_place args 0));
  condvar_ref ← lift (get_condvar memory self_ref);
  condvar ← on_heap (read_condvar condvar_ref);
  on_net (link_to_notify_one_call condvar (get_default transitions)).

(** [condvar::call_wait] *)
Definition call_wait (function_name : string) (index : N) (args : list Operand)
    (destination : Place) (places : Places) (memory : Memory) :
    ST World (PostprocessingTask * Memory) :=
  self_ref ← lift (expect ArgumentIsNotAPlace (extract_nth_argument_as_place args 0));
  condvar_ref ← lift (get_condvar memory self_ref);
  mutex_guard ← lift (expect ArgumentIsNotAPlace (extract_nth_argument_as_place args 1));
  mutex_guard_ref ← lift (get_mutex_guard memory mutex_guard);
  let places := ignore_cleanup_place places in
  let '(start_place, end_place) := get_start_end_place places in
  link_to_wait_call condvar_ref start_place end_place mutex_guard_ref;;
  condvar ← on_heap (read_condvar condvar_ref);
  let wait_start := wait_start condvar in
  memory ← lift (link_place_to_same_value memory destination mutex_guard);
  mret (link_mutex_to_condvar index start_place end_place wait_start, memory).

(** ** sync/thread.rs *)

(** [Thread::new] *)
Definition thread_new (spawn_transition : TransitionRef) (thread_function_def_id : DefId)
    (aggregate : list Value) (index : N) : Thread :=
  mkThread spawn_transition thread_function_def_id aggregate None index.

(** [Thread::set_join_transition] *)
Definition set_join_transition (self : ThreadRef) (t : TransitionRef) : ST Heap unit :=
  thread ← read_thread self;
  match join_transition thread with
  | Some _ => fail (Panic JoinTransitionSetTwice)
  | None =>
      write_thread self
        (mkThread (spawn_transition thread) (thread_def_id thread) (aggregate thread)
           (Some t) (thread_index thread))
  end.

(** [Thread::prepare_for_translation] *)
Definition prepare_for_translation (self : Thread) :
    ST PetriNet (DefId * PlaceRef * PlaceRef) :=
  thread_start_place ← add_place (thread.start_place_label (thread_index self));
  thread_end_place ← add_place (thread.end_place_label (thread_index self));
  add_arc_transition_place (spawn_transition self) thread_start_place;;
  match join_transition self with
  | Some join_transition => add_arc_place_transition thread_end_place join_transition
  | None => mret tt
  end;;
  mret (thread_def_id self, thread_start_place, thread_end_place).

(** The loop of [Thread::move_sync_variables] over the debug information. *)
Fixpoint link_debug_places (memory : Memory) (base_place : Place)
    (infos : list VarDebugInfoContents) : outcome Memory :=
  match infos with
  | [] => Ok memory
  | DebugConst :: infos' => link_debug_places memory base_place infos'
  | DebugPlace place :: infos' =>
      if bool_decide (local place ≠ 1%N) then link_debug_places memory base_place infos'
      else
        field_number ← get_field_number_in_projection place;
        memory ← link_field_in_aggregate memory place base_place field_number;
        link_debug_places memory base_place infos'
  end.

(** [Thread::move_sync_variables] *)
Definition move_sync_variables (tcx : TyCtxt) (self : Thread) (memory : Memory) :
    outcome Memory :=
  let base_place := mkPlace 1 [] in
  memory ← link_aggregate memory base_place (aggregate self);
  link_debug_places memory base_place (var_debug_info tcx (thread_def_id self)).

(** [thread::call_join] *)
Definition call_join (function_name : string) (index : N) (args : list Operand)
    (places : Places) (memory : Memory) : ST World unit :=
  let places := ignore_cleanup_place places in
  transitions ← on_net (call_foreign_function function_name index places);
  let transition := get_default transitions in
  self_ref ← lift (expect ArgumentIsNotAPlace (extract_nth_argument_as_place args 0));
  thread_ref ← lift (get_join_handle memory self_ref);
  on_heap (set_join_transition thread_ref transition).

(** ** sync.rs *)

(** [is_supported_function] *)
Definition is_supported_function (function_name : string) : bool :=
  bool_decide (function_name ∈
    ["std::sync::Condvar::new"; "std::sync::Condvar::notify_one"; "std::sync::Condvar::wait";
     "std::sync::Condvar::wait_while"; "std::sync::Mutex::<T>::lock"; "std::sync::Mutex::<T>::new";
     "std::thread::spawn"; "std::thread::JoinHandle::<T>::join"]).

(** [sync::call_function]: the task to queue, if any, and the memory. *)
Definition sync_call_function (function_name : string) (index : N) (args : list Operand)
    (destination : Place) (places : Places) (memory : Memory) :
    ST World (option PostprocessingTask * Memory) :=
  if bool_decide (function_name = "std::sync::Condvar::new") then
    memory ← call_new_condvar function_name index destination places memory;
    mret (None, memory)
  else if bool_decide (function_name = "std::sync::Condvar::notify_one") then
    call_notify_one function_name index args places memory;;
    mret (None, memory)
  else if bool_decide (function_name = "std::sync::Condvar::wait")
          || bool_decide (function_name = "std::sync::Condvar::wait_while") then
    '(task, memory) ← call_wait function_name index args destination places memory;
    mret (Some task, memory)
  else if bool_decide (function_name = "std::sync::Mutex::<T>::lock") then
    memory ← call_lock function_name index args destination places memory;
    mret (None, memory)
  else if bool_decide (function_name = "std::sync::Mutex::<T>::new") then
    '(task, memory) ← call_new_mutex function_name index destination places memory;
    mret (Some task, memory)
  else if bool_decide (function_name = "std::thread::JoinHandle::<T>::join") then
    call_join function_name index args places memory;;
    mret (None, memory)
  else fail (Panic CallHandlerNotDefined).

Section types.
Context (tcx : TyCtxt).

(** [check_if_sync_variable] *)
Definition check_if_sync_variable (place : Place) (caller_function_def_id : DefId) : bool :=
  check_substring_in_place_type tcx place "std::sync::MutexGuard<" caller_function_def_id
  || check_substring_in_place_type tcx place "std::sync::Mutex<" caller_function_def_id
  || check_substring_in_place_type tcx place "std::thread::JoinHandle<" caller_function_def_id
  || check_substring_in_place_type tcx place "std::sync::Condvar" caller_function_def_id.

(** [handle_aggregate_assignment]: the operands that are sync variables. *)
Definition places_with_sync_variables (operands : list Operand)
    (caller_function_def_id : DefId) : list Place :=
  omap (λ operand,
    match operand with
    | Copy rhs | Move rhs =>
        if check_if_sync_variable rhs caller_function_def_id then Some rhs else None
    | Constant _ => None
    end) operands.

Definition handle_aggregate_assignment (place : Place) (operands : list Operand)
    (memory : Memory) (caller_function_def_id : DefId) : outcome Memory :=
  match places_with_sync_variables operands caller_function_def_id with
  | [] => Ok memory
  | places => create_aggregate memory place places
  end.

(** [link_if_sync_variable] *)
Definition link_if_sync_variable (place_to_link place_linked : Place) (memory : Memory)
    (caller_function_def_id : DefId) : outcome Memory :=
  if negb (check_if_sync_variable place_to_link caller_function_def_id) then Ok memory
  else if is_indirect place_linked then
    field_number ← get_field_number_in_projection place_linked;
    let base_place := mkPlace (local place_linked) [] in
    link_field_in_aggregate memory place_to_link base_place field_number
  else link_place_to_same_value memory place_to_link place_linked.

(** [link_return_value_if_sync_variable] *)
Definition link_return_value_if_sync_variable (args : list Operand) (return_value : Place)
    (memory : Memory) (caller_function_def_id : DefId) : outcome Memory :=
  match extract_nth_argument_as_place args 0 with
  | None => Ok memory
  | Some first_argument =>
      link_if_sync_variable return_value first_argument memory caller_function_def_id
  end.
End types.
End sync.
