(* ===== verification/MirFunction.v ===== *)
(** * src/translator/mir_function.rs with its submodules basic_block.rs and
    terminator.rs

    A [MirFunction] is a frame of the translator's call stack: the basic blocks
    of the function seen so far, each with its place in the net, the active
    block and the memory.  Methods with [&mut self] return the updated frame. *)

From S2P Require Import Prelude RustStr Netcrab Naming Rustc Function Heap Memory.

Section mir_function.
Context `{L : PetriNetLib}.

(** ** basic_block.rs *)

(** [struct BasicBlock] *)
Record BasicBlock := mkBasicBlock {
  bb_function_name : string;
  bb_index : N;
  bb_place : PlaceRef;
}.

(** [BasicBlock::new] *)
Definition basic_block_new (function_name : string) (index : N) (place : option PlaceRef) :
    ST PetriNet BasicBlock :=
  place ← match place with
          | Some place => mret place
          | None => add_place (bb.place_label function_name index)
          end;
  mret (mkBasicBlock function_name index place).

(** [BasicBlock::goto] and its siblings *)
Definition bb_goto (self target : BasicBlock) : ST PetriNet unit :=
  let label := bb.goto_transition_label (bb_function_name self) (bb_index self) in
  connect_places (bb_place self) (bb_place target) label;; mret tt.

Definition bb_switch_int (self target : BasicBlock) (target_index : N) : ST PetriNet unit :=
  let label := bb.switch_int_transition_label (bb_function_name self) (bb_index self) target_index in
  connect_places (bb_place self) (bb_place target) label;; mret tt.

Definition bb_unwind (self : BasicBlock) (unwind_place : PlaceRef) : ST PetriNet TransitionRef :=
  let label := bb.unwind_transition_label (bb_function_name self) (bb_index self) in
  connect_places (bb_place self) unwind_place label.

Definition bb_drop (self target : BasicBlock) : ST PetriNet TransitionRef :=
  let label := bb.drop_transition_label (bb_function_name self) (bb_index self) in
  connect_places (bb_place self) (bb_place target) label.

Definition bb_drop_cleanup (self cleanup : BasicBlock) : ST PetriNet TransitionRef :=
  let label := bb.drop_cleanup_transition_label (bb_function_name self) (bb_index self) in
  connect_places (bb_place self) (bb_place cleanup) label.

Definition bb_assert (self target : BasicBlock) : ST PetriNet unit :=
  let label := bb.assert_transition_label (bb_function_name self) (bb_index self) in
  connect_places (bb_place self) (bb_place target) label;; mret tt.

Definition bb_assert_cleanup (self cleanup : BasicBlock) : ST PetriNet unit :=
  let label := bb.assert_cleanup_transition_label (bb_function_name self) (bb_index self) in
  connect_places (bb_place self) (bb_place cleanup) label;; mret tt.

Definition bb_unreachable (self : BasicBlock) (end_place : PlaceRef) : ST PetriNet unit :=
  let label := bb.unreachable_transition_label (bb_function_name self) (bb_index self) in
  connect_places (bb_place self) end_place label;; mret tt.

(** ** mir_function.rs *)

(** [struct MirFunction] *)
Record MirFunction := mkMirFunction {
  def_id : DefId;
  name : string;
  start_place : PlaceRef;
  end_place : PlaceRef;
  active_block : option N;
  basic_blocks : gmap N BasicBlock;
  memory : Memory;
}.

Definition set_active_block (f : MirFunction) (a : option N) : MirFunction :=
  mkMirFunction (def_id f) (name f) (start_place f) (end_place f) a (basic_blocks f) (memory f).
Definition set_basic_blocks (f : MirFunction) (b : gmap N BasicBlock) : MirFunction :=
  mkMirFunction (def_id f) (name f) (start_place f) (end_place f) (active_block f) b (memory f).
Definition set_memory (f : MirFunction) (m : Memory) : MirFunction :=
  mkMirFunction (def_id f) (name f) (start_place f) (end_place f) (active_block f) (basic_blocks f) m.

(** [MirFunction::new] *)
Definition mir_function_new (def_id : DefId) (function_name : string)
    (start_place end_place : PlaceRef) : MirFunction :=
  mkMirFunction def_id function_name start_place end_place None ∅ empty_memory.

(** [prepare_start_place_for_next_basic_block] *)
Definition prepare_start_place_for_next_basic_block (self : MirFunction) : option PlaceRef :=
  if bool_decide (basic_blocks self = ∅) then Some (start_place self) else None.

(** [get_active_block] *)
Definition get_active_block (self : MirFunction) : outcome BasicBlock :=
  active_block_index ← expect NoActiveBlock (active_block self);
  expect ActiveBlockInvalid (basic_blocks self !! active_block_index).

(** [prepare_start_place_for_return_statement] *)
Definition prepare_start_place_for_return_statement (self : MirFunction) : outcome PlaceRef :=
  if bool_decide (basic_blocks self = ∅) then Ok (start_place self)
  else block ← get_active_block self; Ok (bb_place block).

(** [add_basic_block] *)
Definition add_basic_block (self : MirFunction) (block_number : N) : ST PetriNet MirFunction :=
  let index := block_number in
  let start_place := prepare_start_place_for_next_basic_block self in
  basic_block ← basic_block_new (name self) index start_place;
  match basic_blocks self !! block_number with
  | Some _ => fail (Panic BasicBlockAddedTwice)
  | None => mret (set_basic_blocks self (<[block_number := basic_block]> (basic_blocks self)))
  end.

(** The common first half of the next three methods. *)
Definition ensure_basic_block (self : MirFunction) (block_number : N) : ST PetriNet MirFunction :=
  match basic_blocks self !! block_number with
  | None => add_basic_block self block_number
  | Some _ => mret self
  end.

(** [get_or_add_basic_block] *)
Definition get_or_add_basic_block (self : MirFunction) (block_number : N) :
    ST PetriNet (BasicBlock * MirFunction) :=
  self ← ensure_basic_block self block_number;
  block ← lift (expect BasicBlockNotRetrieved (basic_blocks self !! block_number));
  mret (block, self).

(** [get_pair_active_block_target_block] *)
Definition get_pair_active_block_target_block (self : MirFunction) (block_number : N) :
    ST PetriNet (BasicBlock * BasicBlock * MirFunction) :=
  self ← ensure_basic_block self block_number;
  target_block ← lift (expect TargetBlockNotRetrieved (basic_blocks self !! block_number));
  active_block ← lift (get_active_block self);
  mret (active_block, target_block, self).

(** [activate_block] *)
Definition activate_block (self : MirFunction) (block : N) : ST PetriNet MirFunction :=
  self ← ensure_basic_block self block;
  mret (set_active_block self (Some block)).

(** [get_start_place_for_function_call] *)
Definition get_start_place_for_function_call (self : MirFunction) : outcome PlaceRef :=
  block ← get_active_block self; Ok (bb_place block).

(** [get_end_place_for_function_call] *)
Definition get_end_place_for_function_call (self : MirFunction) (block_number : N) :
    ST PetriNet (PlaceRef * MirFunction) :=
  '(return_block, self) ← get_or_add_basic_block self block_number;
  mret (bb_place return_block, self).

(** ** terminator.rs *)

(** [MirFunction::goto] *)
Definition goto (self : MirFunction) (target : N) : ST PetriNet MirFunction :=
  '(active_block, target_block, self) ← get_pair_active_block_target_block self target;
  bb_goto active_block target_block;;
  mret self.

(** [MirFunction::switch_int] *)
Definition switch_int (self : MirFunction) (targets : list N) : ST PetriNet MirFunction :=
  fold_st targets self (λ self basic_block,
    '(active_block, target_block, self) ← get_pair_active_block_target_block self basic_block;
    let index := basic_block in
    bb_switch_int active_block target_block index;;
    mret self).

(** [MirFunction::unwind] *)
Definition unwind (self : MirFunction) (unwind_place : PlaceRef) : ST PetriNet TransitionRef :=
  active_block ← lift (get_active_block self);
  bb_unwind active_block unwind_place.

(** [MirFunction::drop] *)
Definition drop (self : MirFunction) (target : N) (cleanup : option N) :
    ST PetriNet (TransitionRef * option TransitionRef * MirFunction) :=
  '(active_block, target_block, self) ← get_pair_active_block_target_block self target;
  drop_transition ← bb_drop active_block target_block;
  match cleanup with
  | Some cleanup =>
      '(active_block, cleanup_block, self) ← get_pair_active_block_target_block self cleanup;
      cleanup_transition ← bb_drop_cleanup active_block cleanup_block;
      mret (drop_transition, Some cleanup_transition, self)
  | None => mret (drop_transition, None, self)
  end.

(** [MirFunction::assert] *)
Definition assert (self : MirFunction) (target : N) (cleanup : option N) :
    ST PetriNet MirFunction :=
  '(active_block, target_block, self) ← get_pair_active_block_target_block self target;
  bb_assert active_block target_block;;
  match cleanup with
  | Some cleanup =>
      '(active_block, cleanup_block, self) ← get_pair_active_block_target_block self cleanup;
      bb_assert_cleanup active_block cleanup_block;;
      mret self
  | None => mret self
  end.

(** [MirFunction::return_statement] *)
Definition return_statement (self : MirFunction) : ST PetriNet unit :=
  start_place ← lift (prepare_start_place_for_return_statement self);
  let label := function.return_transition_label (name self) in
  connect_places start_place (end_place self) label;;
  mret tt.

(** [MirFunction::unreachable] *)
Definition unreachable (self : MirFunction) (end_place : PlaceRef) : ST PetriNet unit :=
  active_block ← lift (get_active_block self);
  bb_unreachable active_block end_place.
End mir_function.
