(* ===== verification/Translator.v ===== *)
(** * src/translator.rs and src/translator/mir_visitor.rs

    The coordinator of the translation.  A call to a function with MIR pushes a
    frame and translates it recursively; the recursion of
    [translate_top_call_stack] is open in the definitions that reach it ([rec])
    and tied with fuel, one unit per nested call.  The loop over the thread
    queue has its own fuel, because translating a thread may queue others. *)

From S2P Require Import Prelude RustStr DataStructures PriorityQueue Netcrab Naming Rustc Function.
From S2P Require Import Heap Memory Sync MirFunction.

Section translator.
Context `{L : PetriNetLib}.

(** [struct Translator]; [tcx] is an argument of the operations. *)
Record Translator := mkTranslator {
  world : World;
  program_start : PlaceRef;
  program_end : PlaceRef;
  program_panic : PlaceRef;
  call_stack : Stack.Stack MirFunction;
  function_counter : HashMapCounter.HashMapCounter;
  threads : list ThreadRef;
  postprocessing : BinaryHeap.BinaryHeap PostprocessingTask;
}.

Definition set_world (w : World) (t : Translator) : Translator :=
  mkTranslator w (program_start t) (program_end t) (program_panic t) (call_stack t)
    (function_counter t) (threads t) (postprocessing t).
Definition set_program_panic (p : PlaceRef) (t : Translator) : Translator :=
  mkTranslator (world t) (program_start t) (program_end t) p (call_stack t)
    (function_counter t) (threads t) (postprocessing t).
Definition set_call_stack (s : Stack.Stack MirFunction) (t : Translator) : Translator :=
  mkTranslator (world t) (program_start t) (program_end t) (program_panic t) s
    (function_counter t) (threads t) (postprocessing t).
Definition set_function_counter (c : HashMapCounter.HashMapCounter) (t : Translator) : Translator :=
  mkTranslator (world t) (program_start t) (program_end t) (program_panic t) (call_stack t)
    c (threads t) (postprocessing t).
Definition set_threads (q : list ThreadRef) (t : Translator) : Translator :=
  mkTranslator (world t) (program_start t) (program_end t) (program_panic t) (call_stack t)
    (function_counter t) q (postprocessing t).
Definition set_postprocessing (h : BinaryHeap.BinaryHeap PostprocessingTask) (t : Translator) :
    Translator :=
  mkTranslator (world t) (program_start t) (program_end t) (program_panic t) (call_stack t)
    (function_counter t) (threads t) h.

Definition on_world {A} (m : ST World A) : ST Translator A := zoom world set_world m.

(** [let function = self.call_stack.peek_mut(); ..]: run a computation on the
    top frame and write it back. *)
Definition on_top {A} (m : MirFunction → ST World (A * MirFunction)) : ST Translator A :=
  s ← gets call_stack;
  '(f, put) ← lift (Stack.peek_mut s);
  '(a, f') ← on_world (m f);
  modify (set_call_stack (put f'));;
  mret a.

(** [self.call_stack.peek()] *)
Definition peek_top : ST Translator MirFunction :=
  s ← gets call_stack; lift (Stack.peek s).

(** [self.function_counter.get_count(function_name)] *)
Definition get_count (function_name : string) : ST Translator N :=
  c ← gets function_counter;
  let '(n, c') := HashMapCounter.get_count c function_name in
  modify (set_function_counter c');;
  mret n.

(** [Translator::new] *)
Definition translator_new : outcome Translator :=
  '(t, n) ← (program_panic ← add_place PROGRAM_PANIC;
             program_end ← add_place PROGRAM_END;
             program_start ← add_place PROGRAM_START;
             add_token program_start 1;;
             mret (program_start, program_end, program_panic)) net_new;
  let '(program_start, program_end, program_panic) := t in
  Ok (mkTranslator (mkWorld n empty_heap) program_start program_end program_panic
        Stack.new HashMapCounter.new [] BinaryHeap.new).

(** [Translator::get_result] *)
Definition get_result : ST Translator PetriNet := λ t,
  Ok (net (world t), set_world (mkWorld net_new (heap (world t))) t).

Section tcx.
Context (tcx : TyCtxt).

(** [push_function_to_call_stack] *)
Definition push_function_to_call_stack (function_def_id : DefId)
    (start_place end_place : PlaceRef) : ST Translator unit :=
  let function_name := def_path_str tcx function_def_id in
  let function := mir_function_new function_def_id function_name start_place end_place in
  modify (λ t, set_call_stack (Stack.push (call_stack t) function) t).

(** [is_self_ref_mutex] *)
Definition is_self_ref_mutex (args : list Operand) : ST Translator bool :=
  self_ref ← lift (expect ArgumentIsNotAPlace (extract_nth_argument_as_place args 0));
  function ← peek_top;
  mret (check_substring_in_place_type tcx self_ref "std::sync::MutexGuard<" (def_id function)
        || check_substring_in_place_type tcx self_ref "std::sync::Mutex<" (def_id function)).

(** [Translator::call_foreign_function] *)
Definition translator_call_foreign_function (function_name : string) (args : list Operand)
    (destination : Place) (places : Places) : ST Translator Transitions :=
  index ← get_count function_name;
  transitions ← on_world (on_net (call_foreign_function function_name index places));
  on_top (λ current_function,
    memory ← lift (link_return_value_if_sync_variable tcx args destination
                     (memory current_function) (def_id current_function));
    mret (tt, set_memory current_function memory));;
  mret transitions.

(** [call_mem_drop] *)
Definition call_mem_drop (function_name : string) (args : list Operand)
    (destination : Place) (places : Places) : ST Translator unit :=
  transitions ← translator_call_foreign_function function_name args destination places;
  dropped_place ← lift (expect ArgumentIsNotAPlace (extract_nth_argument_as_place args 0));
  on_top (λ function,
    match transitions with
    | TBasic default =>
        handle_mutex_guard_drop dropped_place default (memory function)
    | TWithCleanup default cleanup =>
        handle_mutex_guard_drop dropped_place default (memory function);;
        handle_mutex_guard_drop dropped_place cleanup (memory function)
    end;;
    mret (tt, function)).

(** [call_deref_mutex] *)
Definition call_deref_mutex (function_name : string) (args : list Operand)
    (destination : Place) (places : Places) : ST Translator unit :=
  let places := ignore_cleanup_place places in
  transitions ← translator_call_foreign_function function_name args destination places;
  let transition := get_default transitions in
  if bool_decide (function_name = "std::ops::DerefMut::deref_mut") then
    reference ← lift (expect ArgumentIsNotAPlace (extract_nth_argument_as_place args 0));
    on_top (λ function,
      mutex_guard_ref ← lift (get_mutex_guard (memory function) reference);
      guard ← on_heap (read_guard mutex_guard_ref);
      on_heap (add_deref_mut_transition (guard_mutex guard) transition);;
      mret (tt, function))
  else mret tt.

(** [call_unwrap_mutex] *)
Definition call_unwrap_mutex (function_name : string) (args : list Operand)
    (destination : Place) (places : Places) : ST Translator unit :=
  let places := ignore_cleanup_place places in
  translator_call_foreign_function function_name args destination places;;
  mret tt.

(** [call_thread_spawn] *)
Definition call_thread_spawn (function_name : string) (args : list Operand)
    (destination : Place) (places : Places) : ST Translator unit :=
  transitions ← translator_call_foreign_function function_name args destination places;
  let transition := get_default transitions in
  queue ← gets threads;
  thread_ref ← on_top (λ current_function,
    function_to_be_run ← lift (expect SpawnWithoutArgument (head args));
    thread_function_def_id ←
      lift (extract_def_id_of_called_function_from_operand tcx function_to_be_run
              (def_id current_function));
    closure ← lift (extract_closure args);
    aggregate ← match closure with
                | None => mret []
                | Some place => lift (copy_aggregate (memory current_function) place)
                end;
    let index := N.of_nat (length queue) in
    let thread := thread_new transition thread_function_def_id aggregate index in
    '(thread_ref, memory) ←
      on_heap (link_join_handle (memory current_function) destination thread);
    mret (thread_ref, set_memory current_function memory));
  modify (λ t, set_threads (threads t ++ [thread_ref]) t).

(** The branch of [start_function_call] for the supported sync functions. *)
Definition call_sync_function (function_name : string) (args : list Operand)
    (destination : Place) (places : Places) : ST Translator unit :=
  index ← get_count function_name;
  task ← on_top (λ current_function,
    '(task, memory) ←
      sync_call_function function_name index args destination places (memory current_function);
    mret (task, set_memory current_function memory));
  match task with
  | Some task =>
      modify (λ t, set_postprocessing (BinaryHeap.push get_priority (postprocessing t) task) t)
  | None => mret tt
  end.

Section open_recursion.
(** [self.translate_top_call_stack()] with the remaining fuel *)
Context (rec : ST Translator unit).

(** [call_mir_function] *)
Definition call_mir_function (function_def_id : DefId) (function_name : string)
    (places : Places) : ST Translator unit :=
  index ← get_count function_name;
  match places with
  | PWithCleanup start_place end_place cleanup_place =>
      on_world (on_net (connect_places start_place cleanup_place
        (function.indexed_mir_function_cleanup_label function_name index)));;
      modify (λ t, set_call_stack (Stack.push (call_stack t)
        (mir_function_new function_def_id (function.indexed_mir_function_name function_name index)
           start_place end_place)) t)
  | PBasic start_place end_place =>
      modify (λ t, set_call_stack (Stack.push (call_stack t)
        (mir_function_new function_def_id (function.indexed_mir_function_name function_name index)
           start_place end_place)) t)
  end;;
  rec.

(** [a && b()], the second operand evaluated only if needed *)
Definition and_then (b : bool) (m : ST Translator bool) : ST Translator bool :=
  if b then m else mret false.

(** [start_function_call] *)
Definition start_function_call (function_def_id : DefId) (function_name : string)
    (args : list Operand) (destination : Place) (places : Places) : ST Translator unit :=
  if bool_decide (function_name = "std::mem::drop") then
    call_mem_drop function_name args destination places
  else
  deref ← and_then (bool_decide (function_name = "std::ops::Deref::deref")
                    || bool_decide (function_name = "std::ops::DerefMut::deref_mut"))
                   (is_self_ref_mutex args);
  if deref : bool then call_deref_mutex function_name args destination places
  else
  unwrap ← and_then (bool_decide (function_name = "std::result::Result::<T, E>::unwrap"))
                    (is_self_ref_mutex args);
  if unwrap : bool then call_unwrap_mutex function_name args destination places
  else if bool_decide (function_name = "std::thread::spawn") then
    call_thread_spawn function_name args destination places
  else if is_supported_function function_name then
    call_sync_function function_name args destination places
  else if is_foreign_function function_def_id function_name tcx then
    translator_call_foreign_function function_name args destination places;; mret tt
  else call_mir_function function_def_id function_name places.

(** The places of a call, from its return and unwind targets; [None] is the
    early return for calls that neither return nor unwind. *)
Definition call_places (target : option N) (unwind : UnwindAction)
    (current_function : MirFunction) (start_place program_end program_panic : PlaceRef) :
    ST World (option Places * MirFunction) :=
  match target, unwind with
  | Some return_block, UnwindContinue =>
      '(end_place, f) ← on_net (get_end_place_for_function_call current_function return_block);
      mret (Some (PBasic start_place end_place), f)
  | Some return_block, UnwindCleanup cleanup_block =>
      '(end_place, f) ← on_net (get_end_place_for_function_call current_function return_block);
      '(cleanup_place, f) ← on_net (get_end_place_for_function_call f cleanup_block);
      mret (Some (PWithCleanup start_place end_place cleanup_place), f)
  | Some return_block, UnwindActionTerminate =>
      '(end_place, f) ← on_net (get_end_place_for_function_call current_function return_block);
      mret (Some (PWithCleanup start_place end_place program_panic), f)
  | None, UnwindActionTerminate =>
      mret (Some (PBasic start_place program_panic), current_function)
  | None, UnwindCleanup cleanup_block =>
      '(end_place, f) ← on_net (get_end_place_for_function_call current_function cleanup_block);
      mret (Some (PBasic start_place end_place), f)
  | None, UnwindContinue => mret (None, current_function)
  | Some return_block, UnwindUnreachable =>
      '(end_place, f) ← on_net (get_end_place_for_function_call current_function return_block);
      mret (Some (PWithCleanup start_place end_place program_end), f)
  | None, UnwindUnreachable =>
      mret (Some (PBasic start_place program_end), current_function)
  end.

(** [Translator::call_function] *)
Definition call_function (func : Operand) (args : list Operand) (destination : Place)
    (target : option N) (unwind : UnwindAction) : ST Translator unit :=
  program_end ← gets program_end;
  program_panic ← gets program_panic;
  '(function_def_id, function_name, places) ← on_top (λ current_function,
    function_def_id ←
      lift (extract_def_id_of_called_function_from_operand tcx func (def_id current_function));
    let function_name := def_path_str tcx function_def_id in
    start_place ← lift (get_start_place_for_function_call current_function);
    '(places, f) ← call_places target unwind current_function start_place program_end program_panic;
    match places with
    | Some _ => mret tt
    | None =>
        if is_panic_function function_name then
          on_net (call_panic_function start_place program_panic (name current_function))
        else on_net (call_diverging_function start_place function_name)
    end;;
    mret (function_def_id, function_name, places, f));
  match places with
  | None => mret tt
  | Some places =>
      start_function_call function_def_id function_name args destination places;;
      modify (λ t, set_function_counter
        (HashMapCounter.increment (function_counter t) function_name) t)
  end.

(** ** mir_visitor.rs *)

(** [visit_basic_block_data] *)
Definition visit_basic_block_data (block : N) : ST Translator unit :=
  on_top (λ function, f ← on_net (activate_block function block); mret (tt, f)).

(** [visit_assign] *)
Definition visit_assign (place : Place) (rvalue : Rvalue) : ST Translator unit :=
  match rvalue with
  | Use (Copy rhs) | Use (Move rhs) | Ref rhs =>
      on_top (λ function,
        m ← lift (link_if_sync_variable tcx place rhs (memory function) (def_id function));
        mret (tt, set_memory function m))
  | Aggregate operands =>
      on_top (λ function,
        m ← lift (handle_aggregate_assignment tcx place operands (memory function) (def_id function));
        mret (tt, set_memory function m))
  | Use (Constant _) | OtherRvalue => mret tt
  end.

(** The [Drop] arm of [visit_terminator]. *)
Definition visit_drop (place : Place) (target : N) (unwind : UnwindAction) : ST Translator unit :=
  program_end ← gets program_end;
  on_top (λ function,
    '(transition, cleanup_transition, function) ←
      match unwind with
      | UnwindCleanup cleanup => on_net (drop function target (Some cleanup))
      | UnwindContinue | UnwindActionTerminate => on_net (drop function target None)
      | UnwindUnreachable =>
          on_net (unreachable function program_end);;
          on_net (drop function target None)
      end;
    handle_mutex_guard_drop place transition (memory function);;
    match cleanup_transition with
    | Some cleanup_transition => handle_mutex_guard_drop place cleanup_transition (memory function)
    | None => mret tt
    end;;
    mret (tt, function)).

(** The [Assert] arm of [visit_terminator]. *)
Definition visit_assert (target : N) (unwind : UnwindAction) : ST Translator unit :=
  program_end ← gets program_end;
  on_top (λ function,
    f ← match unwind with
        | UnwindCleanup cleanup => on_net (assert function target (Some cleanup))
        | UnwindContinue | UnwindActionTerminate => on_net (assert function target None)
        | UnwindUnreachable =>
            f ← on_net (assert function target None);
            on_net (unreachable f program_end);;
            mret f
        end;
    mret (tt, f)).

(** [visit_terminator] *)
Definition visit_terminator (kind : TerminatorKind) : ST Translator unit :=
  match kind with
  | Goto target =>
      on_top (λ function, f ← on_net (goto function target); mret (tt, f))
  | SwitchInt targets =>
      on_top (λ function, f ← on_net (switch_int function targets); mret (tt, f))
  | UnwindResume | UnwindTerminate =>
      program_panic ← gets program_panic;
      on_top (λ function, on_net (MirFunction.unwind function program_panic);; mret (tt, function))
  | Return =>
      on_top (λ function, on_net (return_statement function);; mret (tt, function))
  | Unreachable =>
      program_end ← gets program_end;
      on_top (λ function, on_net (unreachable function program_end);; mret (tt, function))
  | Drop place target unwind => visit_drop place target unwind
  | Call func args destination target unwind => call_function func args destination target unwind
  | Assert target unwind => visit_assert target unwind
  | Yield | CoroutineDrop | FalseEdge | FalseUnwind | InlineAsm | TailCall =>
(* [peek_mut] comes first *)
on_top (λ function, mret (tt, function));; fail (Panic TerminatorNotImplemented)
end.

Definition visit (call : VisitorCall) : ST Translator unit :=
  match call with
  | VisitBasicBlockData block => visit_basic_block_data block
  | VisitAssign place rvalue => visit_assign place rvalue
  | VisitTerminator kind => visit_terminator kind
  end.
End open_recursion.

(** [translate_top_call_stack] *)
Fixpoint translate_top_call_stack (fuel : nat) : ST Translator unit :=
  match fuel with
  | 0 => fail OutOfFuel
  | S fuel' =>
      function ← peek_top;
      for_each (body_visits tcx (def_id function)) (visit (translate_top_call_stack fuel'));;
      modify (λ t, set_call_stack (Stack.pop (call_stack t)).2 t)
  end.

(** One iteration of [translate_threads]. *)
Definition translate_thread (fuel : nat) (thread_ref : ThreadRef) : ST Translator unit :=
  thread ← on_world (on_heap (read_thread thread_ref));
  '(thread_function_def_id, thread_start_place, thread_end_place) ←
    on_world (on_net (prepare_for_translation thread));
  modify (set_program_panic thread_end_place);;
  push_function_to_call_stack thread_function_def_id thread_start_place thread_end_place;;
  on_top (λ new_function,
    m ← lift (move_sync_variables tcx thread (memory new_function));
    mret (tt, set_memory new_function m));;
  translate_top_call_stack fuel.

(** [translate_threads]: [while let Some(thread) = self.threads.pop_front()] *)
Fixpoint translate_threads (fuel queue_fuel : nat) : ST Translator unit :=
  match queue_fuel with
  | 0 => fail OutOfFuel
  | S queue_fuel' =>
      queue ← gets threads;
      match queue with
      | [] => mret tt
      | thread :: queue' =>
          modify (set_threads queue');;
          translate_thread fuel thread;;
          translate_threads fuel queue_fuel'
      end
  end.

(** One task of [translation_postprocessing]; [mutexes] are those seen so far. *)
Definition run_task (mutexes : list MutexRef) (task : PostprocessingTask) :
    ST World (list MutexRef) :=
  match task with
  | LinkMutexToCondvar _ index start_place end_place wait_start =>
      for_each mutexes (λ mutex_ref,
        mutex ← on_heap (read_mutex mutex_ref);
        on_net (link_to_condvar mutex index start_place end_place wait_start));;
      mret mutexes
  | NewMutex _ mutex_ref => mret (mutexes ++ [mutex_ref])
  end.

(** The loop of [translation_postprocessing]; tasks queue no tasks, so as
    many iterations as there are tasks, and one to see the empty queue. *)
Fixpoint postprocessing_loop (fuel : nat) (mutexes : list MutexRef) : ST Translator unit :=
  match fuel with
  | 0 => fail OutOfFuel
  | S fuel' =>
      h ← gets postprocessing;
      let '(task, h') := BinaryHeap.pop get_priority h in
      modify (set_postprocessing h');;
      match task with
      | None => mret tt
      | Some task =>
          mutexes ← on_world (run_task mutexes task);
          postprocessing_loop fuel' mutexes
      end
  end.

(** [translation_postprocessing] *)
Definition translation_postprocessing : ST Translator unit :=
  h ← gets postprocessing;
  postprocessing_loop (S (length (BinaryHeap.data h))) [].

(** [Translator::run] *)
Definition run (fuel queue_fuel : nat) : ST Translator unit :=
  main_function_id ← lift (expect NoMainFunction (entry_fn tcx));
  start ← gets program_start;
  end_ ← gets program_end;
  push_function_to_call_stack main_function_id start end_;;
  translate_top_call_stack fuel;;
  translate_threads fuel queue_fuel;;
  translation_postprocessing.

(** The query of lib.rs: [Translator::new], [run], [get_result]. *)
Definition translate (fuel queue_fuel : nat) : outcome PetriNet :=
  t ← translator_new;
  '(_, t) ← run fuel queue_fuel t;
  '(n, _) ← get_result t;
  Ok n.
End tcx.
End translator.
