(* ===== verification/RustPath.v ===== *)
(** * Paths and bytes of the Rust standard library

    What the command line uses of [std::path::PathBuf] (Unix paths: [push],
    [set_extension]), of [str::from_utf8] and of [str::trim]. *)

From S2P Require Import Prelude RustStr.
From Stdlib Require Import Ascii.

(** ** Paths *)

(** [s.split(c)]: always at least one piece. *)
Fixpoint split_on (c : ascii) (s : string) : list string :=
  match s with
  | "" => [""]
  | String a s' =>
      if bool_decide (a = c) then "" :: split_on c s'
      else match split_on c s' with
           | [] => [String a ""]
           | piece :: pieces => String a piece :: pieces
           end
  end.

Fixpoint join (c : ascii) (l : list string) : string :=
  match l with
  | [] => ""
  | [s] => s
  | s :: l' => s ^+ String c (join c l')
  end.

Definition slash : ascii := "/"%char.
Definition full_stop : ascii := "."%char.

Fixpoint last_char (s : string) : option ascii :=
  match s with
  | "" => None
  | String a "" => Some a
  | String _ s' => last_char s'
  end.

(** [PathBuf::push]: an absolute path replaces, another is appended after a
    separator if one is missing. *)
Definition path_push (self path : string) : string :=
  if starts_with "/" path then path
  else match last_char self with
       | None => path
       | Some a => if bool_decide (a = slash) then self ^+ path else self ^+ "/" ^+ path
       end.

(** Empty pieces and [.] name no component. *)
Definition is_component (s : string) : bool := negb (bool_decide (s = "" ∨ s = ".")).

Fixpoint drop_until {A} (f : A → bool) (l : list A) : list A :=
  match l with
  | [] => []
  | x :: l' => if f x then l else drop_until f l'
  end.

(** [Path::file_name], with the pieces before it: the last component, unless it
    is [..]. *)
Definition file_name (path : string) : option (list string * string) :=
  match drop_until is_component (rev (split_on slash path)) with
  | [] => None
  | name :: before => if bool_decide (name = "..") then None else Some (rev before, name)
  end.

(** [Path::file_stem] of a file name: what is before the last dot, unless that
    is nothing. *)
Definition file_stem (name : string) : string :=
  match rev (split_on full_stop name) with
  | [] | [_] => name
  | _ :: before => let stem := join full_stop (rev before) in if bool_decide (stem = "") then name else stem
  end.

(** [PathBuf::set_extension] *)
Definition set_extension (path extension : string) : string :=
  match file_name path with
  | None => path
  | Some (before, name) =>
      join slash (before ++ [file_stem name]) ^+
      (if bool_decide (extension = "") then "" else "." ^+ extension)
  end.

(** ** UTF-8 *)

Definition byte_of (c : ascii) : N := N_of_ascii c.
Definition between (lo hi n : N) : bool := (lo <=? n)%N && (n <=? hi)%N.

(** The ranges of the bytes that follow a leading byte. *)
Definition following (lead : N) : option (list (N * N)) :=
  if (lead <=? 127)%N then Some []
  else if between 194 223 lead then Some [(128, 191)%N]
  else if (lead =? 224)%N then Some [(160, 191); (128, 191)]%N
  else if (lead =? 237)%N then Some [(128, 159); (128, 191)]%N
  else if between 225 239 lead then Some [(128, 191); (128, 191)]%N
  else if (lead =? 240)%N then Some [(144, 191); (128, 191); (128, 191)]%N
  else if between 241 243 lead then Some [(128, 191); (128, 191); (128, 191)]%N
  else if (lead =? 244)%N then Some [(128, 143); (128, 191); (128, 191)]%N
  else None.

Fixpoint utf8_from (expected : list (N * N)) (s : string) : bool :=
  match s, expected with
  | "", [] => true
  | "", _ => false
  | String a s', (lo, hi) :: expected' => between lo hi (byte_of a) && utf8_from expected' s'
  | String a s', [] =>
      match following (byte_of a) with
      | Some expected' => utf8_from expected' s'
      | None => false
      end
  end.

(** [str::from_utf8], [String::from_utf8]; a string is its bytes. *)
Definition from_utf8 (bytes : string) : option string :=
  if utf8_from [] bytes then Some bytes else None.

(** ** Trimming *)

Definition bytes_of (l : list N) : string := String.string_of_list_ascii (ascii_of_N <$> l).

(** The encodings of the characters with the Unicode property White_Space. *)
Definition whitespace : list string :=
  bytes_of <$> ([[9]; [10]; [11]; [12]; [13]; [32]; [194; 133]; [194; 160]; [225; 154; 128];
    [226; 128; 128]; [226; 128; 129]; [226; 128; 130]; [226; 128; 131]; [226; 128; 132];
    [226; 128; 133]; [226; 128; 134]; [226; 128; 135]; [226; 128; 136]; [226; 128; 137];
    [226; 128; 138]; [226; 128; 168]; [226; 128; 169]; [226; 128; 175]; [226; 129; 159];
    [227; 128; 128]]%N : list (list N)).

(** The line feed that [println!] and [eprintln!] append. *)
Definition nl : string := bytes_of [10%N].

(** Remove leading occurrences of the strings in [ws]; each removal is of at
    least one byte, so the length is enough fuel. *)
Fixpoint strip_start (fuel : nat) (ws : list string) (s : string) : string :=
  match fuel with
  | 0 => s
  | S fuel' =>
      match filter (λ w, starts_with w s = true) ws with
      | [] => s
      | w :: _ => strip_start fuel' ws (String.substring (String.length w) (String.length s) s)
      end
  end.

Definition rev_string (s : string) : string := String.string_of_list_ascii (rev (chars s)).

(** [str::trim] *)
Definition trim (s : string) : string :=
  let s := strip_start (String.length s) whitespace s in
  rev_string (strip_start (String.length s) (rev_string <$> whitespace) (rev_string s)).
