(* ===== verification/Cli.v ===== *)
(** * The command line

    src/bin/check-deadlock/*.rs, src/lib.rs ([run]), src/sysroot.rs,
    src/compiler_config.rs and src/model_checker/lola.rs.  The file system, the
    compiler, the processes [rustc] and [lola] and the exporters of the net
    library are not code of the program, nor is the parser of the command line
    (clap): they are the operations of the classes below.  Log messages and the
    flags that choose among them are not modelled. *)

From S2P Require Import Prelude RustStr RustPath Netcrab Naming Rustc Translator.

(** ** The environment *)

(** [std::io::Error], with the kind that the program looks at. *)
Inductive ErrorKind : Type := NotFound | OtherKind.
Record IoError := mkIoError { kind : ErrorKind; message : string }.

(** [std::process::Output] *)
Record Output := mkOutput { stdout : string; stderr : string }.

(** The file system. *)
Class FileSystem := {
  FileSys : Type;
  (** [Path::exists] *)
  path_exists : FileSys → string → bool;
  (** [File::create]: opens for writing, creating or emptying the file. *)
  file_create : FileSys → string → IoError + FileSys;
  (** Write to the file created at a path. *)
  file_write : FileSys → string → string → option IoError * FileSys;
  (** The contents of a file, and whether two paths name the same one. *)
  read_file : FileSys → string → option string;
  same_file : string → string → Prop;
}.

(** What the documentation of [std::fs] promises. *)
Class FileSystemLaws `{FS : FileSystem} := {
  same_file_refl p : same_file p p;
  create_law fs p fs' : file_create fs p = inr fs' →
    read_file fs' p = Some "" ∧ ∀ q, ¬ same_file p q → read_file fs' q = read_file fs q;
  write_law fs p text fs' : read_file fs p = Some "" → file_write fs p text = (None, fs') →
    read_file fs' p = Some text ∧ ∀ q, ¬ same_file p q → read_file fs' q = read_file fs q;
}.

(** ** compiler_config.rs

    [rustc_interface::Config] as the program fills it in.  Of [opts] only the
    sysroot is given, the rest are the compiler's defaults; [registry] is the
    compiler's own table of diagnostics.  The callbacks of a driver are types of
    the compiler; the program installs none. *)

Inductive Callback : Type := .

Record Config := mkConfig {
  maybe_sysroot : option string;
  crate_cfg : list string;
  crate_check_cfg : list string;
  input : string;
  output_dir : option string;
  output_file : option string;
  hash_untracked_state : option Callback;
  ice_file : option string;
  file_loader : option Callback;
  locale_resources : list string;
  lint_caps : gmap string string;
  psess_created : option Callback;
  register_lints : option Callback;
  override_queries : option Callback;
  make_codegen_backend : option Callback;
  using_internal_features : bool;
  expanded_args : list string;
}.

(** [prepare_rustc_config] *)
Definition prepare_rustc_config (sysroot source_code_filepath : string) : Config := {|
  maybe_sysroot := Some sysroot;
  crate_cfg := [];
  crate_check_cfg := [];
  input := source_code_filepath;
  output_dir := None;
  output_file := None;
  hash_untracked_state := None;
  ice_file := None;
  file_loader := None;
  locale_resources := [];
  lint_caps := ∅;
  psess_created := None;
  register_lints := None;
  override_queries := None;
  make_codegen_backend := None;
  using_internal_features := true;
  expanded_args := [];
|}.

(** The programs and the compiler. *)
Class Tools `{FS : FileSystem} := {
  (** [rustc --print=sysroot] *)
  rustc_print_sysroot : IoError + Output;
  (** [rustc_interface::run_compiler] either gives up with a fatal error, or runs
      the closure, in which the global context may be missing. *)
  run_compiler : Config → option (option TyCtxt);
  (** A command with its arguments; it may read files. *)
  run_command : string → list string → FileSys → IoError + Output;
}.

(** The exporters of the net library. *)
Class Exporters `{L : PetriNetLib} := {
  to_dot : PetriNet → string;
  to_lola : PetriNet → string;
  to_pnml : PetriNet → string;
}.

(** ** sysroot.rs *)

Definition sysroot_not_run : string :=
  "Could not run rustc to get the sysroot: Make sure you can run `rustc --print=sysroot` in a terminal".
Definition sysroot_not_parsed : string :=
  "Could not parse stdout to get the sysroot: Make sure you can run `rustc --print=sysroot` in a terminal".

(** [get_from_rustc] *)
Definition get_from_rustc `{Tools} : string + string :=
  match rustc_print_sysroot with
  | inl _ => inr sysroot_not_run
  | inr out =>
      match from_utf8 (stdout out) with
      | None => inr sysroot_not_parsed
      | Some sysroot => inl (trim sysroot)
      end
  end.

(** ** model_checker/lola.rs *)

Definition formula : string :=
  "--formula=EF (DEADLOCK AND (PROGRAM_END = 0 AND PROGRAM_PANIC = 0))".

(** The answer in the output of [lola]. *)
Definition parse_answer (out : Output) : outcome bool :=
  stderr_string ← expect LolaOutputNotUtf8 (from_utf8 (stderr out));
  if contains "result: yes" stderr_string then Ok true
  else if contains "result: no" stderr_string then Ok false
  else Err (Panic LolaUnknownOutput).

(** [check_deadlock] *)
Definition check_deadlock `{Tools} (fs : FileSys) (net_filepath : string) : outcome bool :=
  output ← match run_command "lola" [net_filepath; formula] fs with
           | inr output => Ok output
           | inl err =>
               match kind err with
               | NotFound =>
                   match run_command "./assets/lola" [net_filepath; formula] fs with
                   | inr output => Ok output
                   | inl _ => Err (Panic LolaNotFound)
                   end
               | OtherKind => Err (Panic LolaUnknownError)
               end
           end;
  parse_answer output.

(** ** output_format.rs *)

Inductive OutputFormat : Type := Pnml | Lola | Dot.

#[global] Instance OutputFormat_eq_dec : EqDecision OutputFormat.
Proof. solve_decision. Defined.

(** [Display for OutputFormat] *)
Definition format_extension (f : OutputFormat) : string :=
  match f with Dot => "dot" | Lola => "lola" | Pnml => "pnml" end.

(** Where a net is written, in [create_output_file] and in [exec]. *)
Definition output_path (f : OutputFormat) (filename output_folder : string) : string :=
  set_extension (path_push output_folder filename) (format_extension f).

(** ** cargo_result.rs *)

Inductive CargoResult : Type :=
  | DeadlockAnalysis (message : string)
  | SimpleTranslation
  | SourceFileNotFound (err_str : string)
  | OutputFolderNotFound (err_str : string)
  | TranslationError (err_str : string)
  | OutputGenerationError (err_str : string).

(** ** check_deadlock.rs: [struct Args], less the verbosity of the log *)

Record Args := mkArgs {
  path : string;
  filename : string;
  output_folder : string;
  dot : bool;
  pnml : bool;
  skip_analysis : bool;
}.

(** The attributes of its fields, which tell the parser what to accept: an
    argument with a position, an option with a default value, or a flag. *)
Inductive ArgAction : Type := Positional | SetDefault (default_value : string) | SetTrue.
Record Arg := mkArg { arg_id : string; arg_action : ArgAction }.
Definition args_declaration : list Arg := [
  mkArg "path" Positional; mkArg "filename" (SetDefault "net"); mkArg "output_folder" (SetDefault ".");
  mkArg "dot" SetTrue; mkArg "pnml" SetTrue; mkArg "skip_analysis" SetTrue].

(** [#[arg(long)]]: the name of the field in kebab case. *)
Definition long_flag (id : string) : string := "--" ^+ replace "_" "-" id.

(** cli.rs *)
Inductive Command : Type := CheckDeadlock (args : Args).

(** The parser of clap for a subcommand with these arguments.  It leaves the
    program with an exit code and what it prints (a usage error, the help, the
    version) or finds values for the arguments; [usage_error] is for an argument
    that is missing although it is required. *)
Class ArgParser := {
  Matches : Type;
  parse_words : string → list Arg → list string → (N * string * string) + Matches;
  get_one : Matches → string → option string;
  get_flag : Matches → string → bool;
  usage_error : N * string * string;
}.

(** What the documentation of clap promises of the values, if the arguments have
    different names. *)
Class ArgParserLaws `{AP : ArgParser} := {
  positional_law name args words m id :
    NoDup (arg_id <$> args) → parse_words name args words = inr m →
    mkArg id Positional ∈ args → is_Some (get_one m id);
  default_law name args words m id default_value :
    NoDup (arg_id <$> args) → parse_words name args words = inr m →
    mkArg id (SetDefault default_value) ∈ args →
    Forall (λ w, starts_with (long_flag id) w = false) words → get_one m id = Some default_value;
}.

(** [cli::Command::parse] *)
Definition command_parse `{ArgParser} (words : list string) : (N * string * string) + Command :=
  match parse_words "check-deadlock" args_declaration words with
  | inl exit => inl exit
  | inr m =>
      match get_one m "path", get_one m "filename", get_one m "output_folder" with
      | Some path, Some filename, Some output_folder =>
          inr (CheckDeadlock (mkArgs path filename output_folder
                 (get_flag m "dot") (get_flag m "pnml") (get_flag m "skip_analysis")))
      | _, _, _ => inl usage_error
      end
  end.

Definition deadlock_message : string := "Deadlock can be reached according to the model checker `LoLA`".
Definition deadlock_free_message : string :=
  "The program is deadlock-free according to the model checker `LoLA`".

Section cli.
Context `{X : Exporters} `{T : Tools} (fuel queue_fuel : nat).

(** [lib::run]: [inl] the net, [inr] an error message. *)
Definition lib_run (source_code_filepath : string) : outcome (PetriNet + string) :=
  match get_from_rustc with
  | inr err_str => Ok (inr err_str)
  | inl sysroot =>
      match run_compiler (prepare_rustc_config sysroot source_code_filepath) with
      | None => Err (Panic CompilerFatalError)
      | Some None => Err (Panic GlobalContextNotFound)
      | Some (Some tcx) => n ← translate tcx fuel queue_fuel; Ok (inl n)
      end
  end.

(** The exporter of a format. *)
Definition export (f : OutputFormat) (petri_net : PetriNet) : string :=
  match f with Dot => to_dot petri_net | Lola => to_lola petri_net | Pnml => to_pnml petri_net end.

(** [OutputFormat::create_output_file]; [Some] is the error. *)
Definition create_output_file (self : OutputFormat) (petri_net : PetriNet) (filename output_folder : string) :
    ST FileSys (option IoError) := λ fs,
  let filepath := output_path self filename output_folder in
  match file_create fs filepath with
  | inl err => Ok (Some err, fs)
  | inr fs => Ok (file_write fs filepath (export self petri_net))
  end.

(** [if cond { if let Err(e) = create_output_file(..) { return OutputGenerationError(e) } }; k] *)
Definition output_if (cond : bool) (f : OutputFormat) (petri_net : PetriNet) (self : Args)
    (k : ST FileSys CargoResult) : ST FileSys CargoResult :=
  if cond then
    err ← create_output_file f petri_net (filename self) (output_folder self);
    match err with
    | Some err => mret (OutputGenerationError (message err))
    | None => k
    end
  else k.

(** [Args::exec] *)
Definition exec (self : Args) : ST FileSys CargoResult :=
  fs ← get;
  if negb (path_exists fs (path self)) then
    mret (SourceFileNotFound ("Source code file at " ^+ path self ^+ " does not exist"))
  else if negb (path_exists fs (output_folder self)) then
    mret (OutputFolderNotFound ("Output folder at " ^+ output_folder self ^+ " does not exist"))
  else
  petri_net ← lift (lib_run (path self));
  match petri_net with
  | inr err_str => mret (TranslationError err_str)
  | inl petri_net =>
      output_if (dot self) Dot petri_net self (
      output_if (pnml self) Pnml petri_net self (
      output_if true Lola petri_net self (
      if skip_analysis self then mret SimpleTranslation
      else
        let filepath := output_path Lola (filename self) (output_folder self) in
        fs ← get;
        deadlock ← lift (check_deadlock fs filepath);
        mret (DeadlockAnalysis (if deadlock : bool then deadlock_message else deadlock_free_message)))))
  end.

(** [Command::exec] *)
Definition command_exec (self : Command) : ST FileSys CargoResult :=
  match self with CheckDeadlock args => exec args end.

(** What [main] does with a result: exit code, standard output, standard error. *)
Definition report (r : CargoResult) : N * string * string :=
  match r with
  | SourceFileNotFound err_str => (1%N, "", err_str ^+ nl)
  | OutputFolderNotFound err_str => (2%N, "", err_str ^+ nl)
  | TranslationError err_str => (3%N, "", err_str ^+ nl)
  | OutputGenerationError err_str => (4%N, "", err_str ^+ nl)
  | DeadlockAnalysis message => (0%N, "Result: " ^+ message ^+ nl, "")
  | SimpleTranslation => (0%N, "", "")
  end.

(** [main], after the arguments were parsed. *)
Definition main (args : Command) : ST FileSys (N * string * string) :=
  r ← command_exec args; mret (report r).

(** [main], given the words of the command line. *)
Definition main_with `{ArgParser} (words : list string) : ST FileSys (N * string * string) :=
  match command_parse words with
  | inl exit => mret exit
  | inr args => main args
  end.
End cli.
