(* ===== verification/NetModel.v ===== *)
(** * A concrete Petri net library

    An instance of [PetriNetLib] and [PetriNetLaws]: places and transitions are
    numbered in the order of creation, a reference is a label with a number, and
    a transition carries the weights of its arcs.  It shows that the laws can
    hold, and runs the translation in the examples and witnesses. *)

From S2P Require Import Prelude Netcrab.

(** A reference: its label and its number. *)
Abbreviation ref := (string * N)%type.

(** A transition: label, and what it consumes and produces by place number. *)
Record STransition := mkSTransition { t_label : string; t_pre : gmap N N; t_post : gmap N N }.
(** A net: labels and tokens of the places, and the transitions. *)
Record SNet := mkSNet { s_places : list (string * N); s_transitions : list STransition }.

Definition place_at (n : SNet) (p : ref) : option N :=
  match s_places n !! N.to_nat p.2 with
  | Some (l, k) => if String.eqb l p.1 then Some k else None
  | None => None
  end.
Definition transition_at (n : SNet) (t : ref) : option STransition :=
  match s_transitions n !! N.to_nat t.2 with
  | Some x => if String.eqb (t_label x) t.1 then Some x else None
  | None => None
  end.

(** The multiplicity of an arc: zero unless both ends are in the net. *)
Definition s_weight (arcs : STransition → gmap N N) (n : SNet) (t p : ref) : N :=
  match transition_at n t, place_at n p with
  | Some x, Some _ => default 0%N (arcs x !! p.2)
  | _, _ => 0%N
  end.

(** No transition has an arc to a place that is not there yet. *)
Definition forget (p : N) (x : STransition) : STransition :=
  mkSTransition (t_label x) (delete p (t_pre x)) (delete p (t_post x)).

Definition s_add_place (n : SNet) (l : string) : ref * SNet :=
  let p := N.of_nat (length (s_places n)) in
  ((l, p), mkSNet (s_places n ++ [(l, 0%N)]) (forget p <$> s_transitions n)).
Definition s_add_transition (n : SNet) (l : string) : ref * SNet :=
  ((l, N.of_nat (length (s_transitions n))),
   mkSNet (s_places n) (s_transitions n ++ [mkSTransition l ∅ ∅])).
Definition s_add_token (n : SNet) (p : ref) (k : N) : option SNet :=
  m ← place_at n p;
  if (m + k <=? usize_max)%N
  then Some (mkSNet (<[N.to_nat p.2 := (p.1, (m + k)%N)]> (s_places n)) (s_transitions n))
  else None.

Definition increase (p : N) (arcs : gmap N N) : gmap N N := <[p := (1 + default 0 (arcs !! p))%N]> arcs.
Definition with_transition (n : SNet) (p t : ref) (f : STransition → STransition) : option SNet :=
  x ← transition_at n t;
  _ ← place_at n p;
  Some (mkSNet (s_places n) (<[N.to_nat t.2 := f x]> (s_transitions n))).
Definition s_add_arc_pt (n : SNet) (p t : ref) : option SNet :=
  with_transition n p t (λ x, mkSTransition (t_label x) (increase p.2 (t_pre x)) (t_post x)).
Definition s_add_arc_tp (n : SNet) (t p : ref) : option SNet :=
  with_transition n p t (λ x, mkSTransition (t_label x) (t_pre x) (increase p.2 (t_post x))).

#[global] Instance SNetLib : PetriNetLib := {|
  PetriNet := SNet;
  PlaceRef := ref;
  TransitionRef := ref;
  net_new := mkSNet [] [];
  net_add_place := s_add_place;
  net_add_transition := s_add_transition;
  net_add_token := s_add_token;
  net_add_arc_place_transition := s_add_arc_pt;
  net_add_arc_transition_place := s_add_arc_tp;
  place_ref_label := fst;
|}.

(** ** The nodes of a net *)

Ltac case_label := match goal with |- context [String.eqb ?a ?b] => destruct (String.eqb_spec a b) end.

Definition place_refs (n : SNet) : list ref := imap (λ i x, (x.1, N.of_nat i)) (s_places n).
Definition transition_refs (n : SNet) : list ref := imap (λ i x, (t_label x, N.of_nat i)) (s_transitions n).

Lemma place_at_spec n p k : place_at n p = Some k ↔ s_places n !! N.to_nat p.2 = Some (p.1, k).
Proof.
  unfold place_at. destruct (_ !! _) as [[l m]|]; [|done]. case_label; naive_solver.
Qed.
Lemma transition_at_spec n t x :
  transition_at n t = Some x ↔ s_transitions n !! N.to_nat t.2 = Some x ∧ t_label x = t.1.
Proof. unfold transition_at. destruct (_ !! _); [|naive_solver]. case_label; naive_solver. Qed.

Lemma elem_of_place_refs n (p : ref) : p ∈ place_refs n ↔ is_Some (place_at n p).
Proof.
  unfold place_refs. rewrite elem_of_lookup_imap. split.
  - intros (i & [l k] & -> & Hi). exists k. apply place_at_spec. simpl. by rewrite Nat2N.id.
  - intros [k Hk%place_at_spec]. exists (N.to_nat p.2), (p.1, k). rewrite N2Nat.id. by destruct p.
Qed.
Lemma elem_of_transition_refs n (t : ref) : t ∈ transition_refs n ↔ is_Some (transition_at n t).
Proof.
  unfold transition_refs. rewrite elem_of_lookup_imap. split.
  - intros (i & x & -> & Hi). exists x. apply transition_at_spec. simpl. by rewrite Nat2N.id.
  - intros [x [Hx Hl]%transition_at_spec]. exists (N.to_nat t.2), x. rewrite N2Nat.id, Hl.
    split; [|done]. by destruct t.
Qed.

(** ** How the operations change them *)

Lemma place_at_add n l t p k :
  place_at (mkSNet (s_places n ++ [(l, 0%N)]) t) p = Some k ↔
  (p = (l, N.of_nat (length (s_places n))) ∧ k = 0%N) ∨ place_at n p = Some k.
Proof.
  rewrite !place_at_spec. destruct p as [l' i]. simpl. rewrite lookup_app_Some. split.
  - intros [?|[Hlen H]]; [by right|]. left. apply list_lookup_singleton_Some in H as [Hi [= -> ->]].
    split; [|done]. f_equal. lia.
  - intros [[[= -> ->] ->]|H]; [right|by left]. by rewrite Nat2N.id, Nat.sub_diag.
Qed.

Lemma place_at_new n l : place_at n (l, N.of_nat (length (s_places n))) = None.
Proof. unfold place_at. simpl. rewrite Nat2N.id. by rewrite lookup_ge_None_2. Qed.

Lemma transition_at_forget n p ps t :
  transition_at (mkSNet ps (forget p <$> s_transitions n)) t = forget p <$> transition_at n t.
Proof.
  unfold transition_at. simpl. rewrite list_lookup_fmap. destruct (_ !! _) as [x|]; [|done]. simpl.
  by case_label.
Qed.

Lemma transition_at_add n l t x :
  transition_at (mkSNet (s_places n) (s_transitions n ++ [mkSTransition l ∅ ∅])) t = Some x ↔
  (t = (l, N.of_nat (length (s_transitions n))) ∧ x = mkSTransition l ∅ ∅) ∨ transition_at n t = Some x.
Proof.
  rewrite !transition_at_spec. destruct t as [l' i]. simpl. rewrite lookup_app_Some. split.
  - intros [[?|[Hlen H]] Hl]; [by right|]. left. apply list_lookup_singleton_Some in H as [Hi <-].
    split; [|done]. simpl in Hl. subst. f_equal. lia.
  - intros [[[= -> ->] ->]|[H ?]]; [|by auto]. split; [|done]. right.
    by rewrite Nat2N.id, Nat.sub_diag.
Qed.

Lemma transition_at_new n l : transition_at n (l, N.of_nat (length (s_transitions n))) = None.
Proof. unfold transition_at. simpl. rewrite Nat2N.id. by rewrite lookup_ge_None_2. Qed.

Lemma transition_at_update n t x x' u :
  transition_at n t = Some x → t_label x' = t_label x →
  transition_at (mkSNet (s_places n) (<[N.to_nat t.2 := x']> (s_transitions n))) u =
  if decide (u = t) then Some x' else transition_at n u.
Proof.
  intros [Hx Hl]%transition_at_spec Hl'. unfold transition_at. simpl.
  destruct (decide (u.2 = t.2)) as [Hi|Hi].
  - rewrite Hi, list_lookup_insert_eq, Hx by (by eapply lookup_lt_Some).
    destruct u as [lu iu], t as [lt it]. simpl in *. subst.
    destruct (decide ((lu, it) = (t_label x, it))); repeat case_label; congruence.
  - rewrite list_lookup_insert_ne by (intros ?%N2Nat.inj; congruence).
    by destruct (decide (u = t)) as [->|].
Qed.

Lemma place_at_update n p m k q :
  place_at n p = Some m →
  place_at (mkSNet (<[N.to_nat p.2 := (p.1, k)]> (s_places n)) (s_transitions n)) q =
  if decide (q = p) then Some k else place_at n q.
Proof.
  intros Hp%place_at_spec. unfold place_at. simpl. destruct (decide (q.2 = p.2)) as [Hi|Hi].
  - rewrite Hi, list_lookup_insert_eq, Hp by (by eapply lookup_lt_Some).
    destruct q as [lq iq], p as [lp ip]. simpl in *. subst.
    destruct (decide ((lq, ip) = (lp, ip))); repeat case_label; congruence.
  - rewrite list_lookup_insert_ne by (intros ?%N2Nat.inj; congruence).
    by destruct (decide (q = p)) as [->|].
Qed.

(** A new arc changes one weight. *)
Lemma s_weight_update arcs n p t x x' u q :
  transition_at n t = Some x → t_label x' = t_label x → is_Some (place_at n p) →
  arcs x' = increase p.2 (arcs x) →
  s_weight arcs (mkSNet (s_places n) (<[N.to_nat t.2 := x']> (s_transitions n))) u q =
  if decide ((u, q) = (t, p)) then (1 + s_weight arcs n t p)%N else s_weight arcs n u q.
Proof.
  intros Hx Hl [m Hm] Ha. unfold s_weight. rewrite (transition_at_update n t x) by done.
  change (place_at (mkSNet (s_places n) _) q) with (place_at n q).
  destruct (decide (u = t)) as [->|Hu].
  - rewrite Hx, Ha. unfold increase. destruct (decide (q = p)) as [->|Hq].
    + by rewrite decide_True, Hm, lookup_insert_eq by done.
    + rewrite decide_False by congruence. destruct (place_at n q) as [k|] eqn:Hk; [|done].
      rewrite lookup_insert_ne; [done|]. intros Heq. apply place_at_spec in Hm, Hk.
      rewrite Heq, Hk in Hm. destruct p, q; simpl in *; congruence.
  - by rewrite decide_False by congruence.
Qed.

(** An arc elsewhere does not. *)
Lemma s_weight_same arcs n t x x' u q :
  transition_at n t = Some x → t_label x' = t_label x → arcs x' = arcs x →
  s_weight arcs (mkSNet (s_places n) (<[N.to_nat t.2 := x']> (s_transitions n))) u q = s_weight arcs n u q.
Proof.
  intros Hx Hl Ha. unfold s_weight. rewrite (transition_at_update n t x) by done.
  change (place_at (mkSNet (s_places n) _) q) with (place_at n q).
  case_decide; subst; [by rewrite Hx, Ha|done].
Qed.

Lemma s_weight_add_place arcs n l u q :
  (∀ p x, arcs (forget p x) = delete p (arcs x)) →
  s_weight arcs (s_add_place n l).2 u q = s_weight arcs n u q.
Proof.
  intros Ha. unfold s_weight. simpl. rewrite transition_at_forget.
  destruct (transition_at n u) as [x|]; [|done]. simpl. rewrite Ha.
  destruct (place_at n q) as [k|] eqn:Hk.
  - rewrite (proj2 (place_at_add n l _ q k)) by (by right). rewrite lookup_delete_ne; [done|].
    intros Heq. apply place_at_spec, lookup_lt_Some in Hk. lia.
  - destruct (place_at (mkSNet (_ ++ _) _) q) as [k'|] eqn:Hk'; [|done].
    apply place_at_add in Hk' as [[-> _]|?]; [|congruence]. simpl. by rewrite lookup_delete_eq.
Qed.

Lemma s_weight_add_transition arcs n l u q :
  arcs (mkSTransition l ∅ ∅) = ∅ → s_weight arcs (s_add_transition n l).2 u q = s_weight arcs n u q.
Proof.
  intros Ha. unfold s_weight. simpl.
  change (place_at (mkSNet (s_places n) _) q) with (place_at n q).
  destruct (transition_at n u) as [x|] eqn:Hx.
  - by rewrite (proj2 (transition_at_add n l u x)) by (by right).
  - destruct (transition_at (mkSNet _ (_ ++ _)) u) as [x'|] eqn:Hx'; [|done].
    apply transition_at_add in Hx' as [[-> ->]|?]; [|congruence]. rewrite Ha. by destruct (place_at n q).
Qed.

#[global] Instance SNetLaws : PetriNetLaws.
Proof.
  refine {|
    has_place n p := is_Some (place_at n p);
    has_transition n t := is_Some (transition_at n t);
    marking n p := default 0%N (place_at n p);
    pre n t p := s_weight t_pre n t p;
    post n t p := s_weight t_post n t p;
  |}.
  - by intros p [].
  - by intros t [].
  - intros n p Hp%eq_None_not_Some. by rewrite Hp.
  - intros n t p Hp%eq_None_not_Some. unfold s_weight. rewrite Hp. by destruct (transition_at n t).
  - intros n t p Ht%eq_None_not_Some. unfold s_weight. by rewrite Ht.
  - intros n l p n' [= <- <-].
    assert (Hat : ∀ q k, place_at (s_add_place n l).2 q = Some k ↔
      (q = (l, N.of_nat (length (s_places n))) ∧ k = 0%N) ∨ place_at n q = Some k) by (intros; apply place_at_add).
    split; [by rewrite place_at_new; intros []|].
    split; [intros q; unfold is_Some; setoid_rewrite Hat; naive_solver|].
    split; [intros t; change (mkSNet _ _) with (mkSNet (s_places (s_add_place n l).2)
      (forget (N.of_nat (length (s_places n))) <$> s_transitions n));
      rewrite transition_at_forget; apply fmap_is_Some|].
    split; [|by split; intros; apply s_weight_add_place].
    intros q. change (mkSNet _ _) with (s_add_place n l).2.
    destruct (place_at n q) as [k|] eqn:Hk; [by rewrite (proj2 (Hat q k)) by auto|].
    destruct (place_at (s_add_place n l).2 q) as [k|] eqn:Hk'; [|done]. apply Hat in Hk' as [[_ ->]|?]; [done|congruence].
  - by intros n l p n' [= <- <-] _.
  - intros n l t n' [= <- <-]. split; [by rewrite transition_at_new; intros []|].
    split; [intros u; unfold is_Some; setoid_rewrite transition_at_add; naive_solver|].
    do 2 (split; [done|]). by split; intros; apply s_weight_add_transition.
  - intros n p k [m Hm] Hk. simpl. unfold s_add_token. rewrite Hm in *. simpl in *.
    rewrite (proj2 (N.leb_le _ _) Hk). eexists. split; [done|].
    assert (Hat := λ k q, place_at_update n p m k q Hm).
    split; [intros q; rewrite Hat; case_decide; subst; [by rewrite Hm|done]|]. split; [done|].
    split; [by intros q; rewrite Hat; case_decide|].
    split; intros t q; unfold s_weight; rewrite Hat;
      change (transition_at (mkSNet _ (s_transitions n)) t) with (transition_at n t);
      destruct (transition_at n t); try done; case_decide; subst; by rewrite ?Hm.
  - intros n p t Hp [x Hx]. simpl. unfold s_add_arc_pt, with_transition.
    rewrite Hx. destruct (Hp) as [m Hm]. rewrite Hm. simpl. eexists. split; [done|]. split; [done|].
    split; [intros u; rewrite (transition_at_update n t x) by done; case_decide; subst; [by rewrite Hx|done]|].
    split; [done|]. pose proof (s_weight_update t_pre n p t x
      (mkSTransition (t_label x) (increase p.2 (t_pre x)) (t_post x)) t p Hx eq_refl Hp eq_refl) as H1.
    rewrite decide_True in H1 by done.
    split; [intros u q Hne; rewrite (s_weight_update t_pre n p t x) by done; by rewrite decide_False|].
    split; [rewrite H1; lia|]. split; [rewrite H1; lia|].
    intros u q. by rewrite (s_weight_same t_post n t x).
  - intros n t p [x Hx] Hp. simpl. unfold s_add_arc_tp, with_transition.
    rewrite Hx. destruct (Hp) as [m Hm]. rewrite Hm. simpl. eexists. split; [done|]. split; [done|].
    split; [intros u; rewrite (transition_at_update n t x) by done; case_decide; subst; [by rewrite Hx|done]|].
    split; [done|]. pose proof (s_weight_update t_post n p t x
      (mkSTransition (t_label x) (t_pre x) (increase p.2 (t_post x))) t p Hx eq_refl Hp eq_refl) as H1.
    rewrite decide_True in H1 by done.
    split; [intros u q Hne; rewrite (s_weight_update t_post n p t x) by done; by rewrite decide_False|].
    split; [rewrite H1; lia|]. split; [rewrite H1; lia|].
    intros u q. by rewrite (s_weight_same t_pre n t x).
  - intros n p k n'. simpl. unfold s_add_token. destruct (place_at n p) as [m|]; simpl; [|done].
    destruct (N.leb_spec (m + k) usize_max); naive_solver.
  - intros n p t n'. simpl. unfold s_add_arc_pt, with_transition.
    destruct (transition_at n t), (place_at n p); naive_solver.
  - intros n t p n'. simpl. unfold s_add_arc_tp, with_transition.
    destruct (transition_at n t), (place_at n p); naive_solver.
Defined.
