(* ===== verification/TokenGame.v ===== *)
(** * The token game of a net

    The semantics in which the model checker evaluates the translated net:
    enabled transitions, firing, reachable markings, and the property that
    src/model_checker/lola.rs asks for,
    [EF (DEADLOCK AND (PROGRAM_END = 0 AND PROGRAM_PANIC = 0))]. *)

From S2P Require Import Prelude Netcrab.

Section token_game.
Context `{LL : PetriNetLaws}.
Implicit Types (n : PetriNet) (t : TransitionRef) (p : PlaceRef).

Definition Marking : Type := PlaceRef → N.
Implicit Types m : Marking.

#[global] Instance marking_equiv : Equiv Marking := λ m m', ∀ p, m p = m' p.
#[global] Instance marking_equivalence : Equivalence (≡@{Marking}).
Proof.
  split; [by intros m p|intros m m' H p; by rewrite (H p)|].
  intros m1 m2 m3 H1 H2 p. by rewrite (H1 p), (H2 p).
Qed.

(** Every place the transition consumes from has enough tokens. *)
Definition enabled n m t : Prop := has_transition n t ∧ ∀ p, (pre n t p ≤ m p)%N.

(** The marking after firing. *)
Definition fire n t m : Marking := λ p, (m p - pre n t p + post n t p)%N.

Inductive step n : Marking → Marking → Prop :=
  | step_fire m t m' : enabled n m t → m' ≡ fire n t m → step n m m'.

Inductive reachable n : Marking → Marking → Prop :=
  | reachable_refl m m' : m ≡ m' → reachable n m m'
  | reachable_step m m1 m' : step n m m1 → reachable n m1 m' → reachable n m m'.

(** No transition is enabled. *)
Definition dead n m : Prop := ∀ t, ¬ enabled n m t.

(** [EF (DEADLOCK AND (PROGRAM_END = 0 AND PROGRAM_PANIC = 0))] *)
Definition deadlock_reachable n (program_end program_panic : PlaceRef) : Prop :=
  ∃ m, reachable n (marking n) m ∧ dead n m ∧ m program_end = 0%N ∧ m program_panic = 0%N.

#[global] Instance enabled_proper n : Proper ((≡) ==> (=) ==> iff) (enabled n).
Proof. intros m m' Hm t ? <-. unfold enabled. by setoid_rewrite (Hm _). Qed.

#[global] Instance fire_proper n t : Proper ((≡) ==> (≡)) (fire n t).
Proof. intros m m' Hm p. unfold fire. by rewrite (Hm p). Qed.

#[global] Instance step_proper n : Proper ((≡) ==> (≡) ==> iff) (step n).
Proof.
  cut (∀ m1 m2 m1' m2' : Marking, m1 ≡ m2 → m1' ≡ m2' → step n m1 m1' → step n m2 m2').
  { intros H m1 m2 H1 m1' m2' H2. split; apply H; done || by symmetry. }
  intros m1 m2 m1' m2' H1 H2 Hs. destruct Hs as [m t m' He Hf].
  apply (step_fire _ _ t); [by rewrite <-H1|]. rewrite <-H2, Hf. by f_equiv.
Qed.

#[global] Instance reachable_proper n : Proper ((≡) ==> (≡) ==> iff) (reachable n).
Proof.
  cut (∀ m1 m2 m1' m2' : Marking, m1 ≡ m2 → m1' ≡ m2' → reachable n m1 m1' → reachable n m2 m2').
  { intros H m1 m2 H1 m1' m2' H2. split; apply H; done || by symmetry. }
  intros m1 m2 m1' m2' H1 H2 Hr. revert m2 H1. induction Hr as [m m' Hm|m ma m' Hs Hr IH]; intros m2 H1.
  - apply reachable_refl. by rewrite <-H1, Hm.
  - apply reachable_step with ma; [by rewrite <-H1|]. by apply IH.
Qed.

Lemma reachable_trans n m1 m2 m3 :
  reachable n m1 m2 → reachable n m2 m3 → reachable n m1 m3.
Proof.
  induction 1 as [m m' Hm|m ma m' Hs _ IH]; intros H3; [by rewrite Hm|].
  eapply reachable_step; [done|]. auto.
Qed.

(** Executing a list of transitions. *)
Fixpoint fires n (ts : list TransitionRef) m : Marking :=
  match ts with [] => m | t :: ts' => fires n ts' (fire n t m) end.
Fixpoint can_fire n (ts : list TransitionRef) m : Prop :=
  match ts with [] => True | t :: ts' => enabled n m t ∧ can_fire n ts' (fire n t m) end.

Lemma can_fire_reachable n ts m : can_fire n ts m → reachable n m (fires n ts m).
Proof.
  revert m. induction ts as [|t ts IH]; intros m; simpl; [by constructor|].
  intros [He Hc]. eapply reachable_step; [by econstructor|]. auto.
Qed.

(** A property kept by every firing holds in all reachable markings. *)
Lemma reachable_invariant n (I : Marking → Prop) m m' :
  (∀ m1 m2, m1 ≡ m2 → I m1 → I m2) →
  (∀ m1 t, I m1 → enabled n m1 t → I (fire n t m1)) →
  I m → reachable n m m' → I m'.
Proof.
  intros Heq Hstep HI Hr. induction Hr as [m m' Hm|m ma m' Hs _ IH]; [by eapply Heq|].
  apply IH. destruct Hs as [m t ma He Hf]. apply Heq with (fire n t m); [done|]. auto.
Qed.
End token_game.
