(* ===== verification/Explore.v ===== *)
(** * Deciding the model checker's question on a concrete net

    For the nets of [NetModel]: a marking as the vector of its tokens, a
    transition as the vector of its arc weights, and a search of all reachable
    vectors that keeps those seen in a finite map.  It answers the question of
    src/model_checker/lola.rs on the example programs. *)

From S2P Require Import Prelude Netcrab NetModel TokenGame.

(** A transition: what it consumes from and produces to each place. *)
Definition compiled (n : SNet) : list (list (N * N)) :=
  let ps := place_refs n in
  (λ t, (λ p, (s_weight t_pre n t p, s_weight t_post n t p)) <$> ps) <$> transition_refs n.

Definition can (arcs : list (N * N)) (v : list N) : bool :=
  forallb (λ '((i, _), x), (i <=? x)%N) (zip arcs v).
Definition fired (arcs : list (N * N)) (v : list N) : list N :=
  zip_with (λ '(i, o) x, (x - i + o)%N) arcs v.
Definition successors (c : list (list (N * N))) (v : list N) : list (list N) :=
  (λ arcs, fired arcs v) <$> filter (λ arcs, can arcs v = true) c.

(** The tokens of a place in a vector. *)
Definition value (ps : list ref) (v : list N) (p : ref) : N :=
  default 0%N (snd <$> find (λ x, bool_decide (x.1 = p)) (zip ps v)).

(** Nothing can fire and both final places are empty. *)
Definition stuck (c : list (list (N * N))) (final : list N → bool) (v : list N) : bool :=
  bool_decide (successors c v = []) && final v.

(** Depth-first search: [Some true] if a stuck vector was found, [Some false]
    if there is none, [None] if the bound was too small. *)
Fixpoint search (fuel : nat) (c : list (list (N * N))) (final : list N → bool)
    (todo : list (list N)) (seen : gmap (list N) unit) : option bool :=
  match todo, fuel with
  | [], _ => Some false
  | _ :: _, 0 => None
  | v :: todo', S fuel' =>
      match seen !! v with
      | Some _ => search fuel' c final todo' seen
      | None =>
          if stuck c final v then Some true
          else search fuel' c final (successors c v ++ todo') (<[v := tt]> seen)
      end
  end.

Definition model_check (fuel : nat) (n : SNet) (end_ panic : ref) : option bool :=
  let ps := place_refs n in
  if bool_decide (end_ ∈ ps) && bool_decide (panic ∈ ps) then
    search fuel (compiled n) (λ v, (value ps v end_ =? 0)%N && (value ps v panic =? 0)%N)
      [(λ p, default 0%N (place_at n p)) <$> ps] ∅
  else None.

(** ** The search is right for any set of vectors *)

Section search_correct.
Context (c : list (list (N * N))) (final : list N → bool).

Lemma search_found (P : list N → Prop) fuel todo seen :
  (∀ v v', P v → v' ∈ successors c v → P v') → Forall P todo →
  search fuel c final todo seen = Some true → ∃ v, P v ∧ stuck c final v = true.
Proof.
  intros HP. revert todo seen. induction fuel as [|fuel IH]; intros [|v todo] seen Ht; simpl; try done.
  apply Forall_cons in Ht as [Hv Ht]. destruct (seen !! v); [by apply IH|].
  destruct (stuck c final v) eqn:Hs; [by eauto|]. apply IH. apply Forall_app. split; [|done].
  apply Forall_forall. eauto.
Qed.

(** What was seen was not stuck, and its successors were seen or will be. *)
Definition search_inv (todo : list (list N)) (seen : gmap (list N) unit) : Prop :=
  ∀ v, is_Some (seen !! v) → stuck c final v = false ∧
    ∀ v', v' ∈ successors c v → is_Some (seen !! v') ∨ v' ∈ todo.

Lemma search_inv_empty todo : search_inv todo ∅.
Proof. intros v []. by rewrite lookup_empty in *. Qed.

Lemma search_exhausted fuel todo seen :
  search_inv todo seen → search fuel c final todo seen = Some false →
  ∃ S : list N → Prop, (∀ v, v ∈ todo → S v) ∧
    ∀ v, S v → stuck c final v = false ∧ ∀ v', v' ∈ successors c v → S v'.
Proof.
  revert todo seen. induction fuel as [|fuel IH]; intros [|v todo] seen Hinv; simpl; try done.
  1,2: intros _; exists (λ v, is_Some (seen !! v)); split; [by intros v ?%not_elem_of_nil|];
    intros v [Hs Hn]%Hinv; split; [done|]; intros v' [H|?%not_elem_of_nil]%Hn; done.
  destruct (seen !! v) as [[]|] eqn:Hv.
  - intros H.
    assert (Hinv' : search_inv todo seen).
    { intros v1 [Hs Hn]%Hinv. split; [done|]. intros v' [?|[->|?]%elem_of_cons]%Hn; eauto. }
    destruct (IH _ _ Hinv' H) as (S & H1 & H2).
    exists (λ v1, S v1 ∨ is_Some (seen !! v1)). split.
    + intros v1 [->|Hv1]%elem_of_cons; eauto.
    + intros v1 [HS|Hseen].
      * apply H2 in HS as [Hs Hn]. split; [done|]. auto.
      * apply Hinv' in Hseen as [Hs Hn]. split; [done|]. intros v' [?|?]%Hn; auto.
  - destruct (stuck c final v) eqn:Hs; [done|]. intros H.
    assert (Hinv' : search_inv (successors c v ++ todo) (<[v := tt]> seen)).
    { intros v1. rewrite lookup_insert_is_Some'. intros [<-|[Hs1 Hn]%Hinv].
      - split; [done|]. intros v' Hv'. right. apply elem_of_app. by left.
      - split; [done|]. intros v' [?|[->|?]%elem_of_cons]%Hn; rewrite lookup_insert_is_Some', elem_of_app; auto. }
    destruct (IH _ _ Hinv' H) as (S & H1 & H2).
    exists (λ v1, S v1 ∨ is_Some (<[v := tt]> seen !! v1)). split.
    + intros v1 [->|Hv1]%elem_of_cons; [right; by rewrite lookup_insert_eq|].
      left. apply H1, elem_of_app. by right.
    + intros v1 [HS|Hseen].
      * apply H2 in HS as [Hs1 Hn]. split; [done|]. auto.
      * apply Hinv' in Hseen as [Hs1 Hn]. split; [done|]. intros v' [?|?]%Hn; auto.
Qed.
End search_correct.

(** ** Vectors are markings *)

(** The vector of a marking. *)
Definition vector (n : SNet) (m : ref → N) : list N := m <$> place_refs n.

Lemma forallb_zip_fmap {A B C} (f : A → B) (g : A → C) (h : B * C → bool) l :
  forallb h (zip (f <$> l) (g <$> l)) = forallb (λ x, h (f x, g x)) l.
Proof. induction l as [|x l IH]; [done|]. simpl. f_equal. apply IH. Qed.

Lemma zip_with_fmap {A B C D} (f : A → B) (g : A → C) (h : B → C → D) l :
  zip_with h (f <$> l) (g <$> l) = (λ x, h (f x) (g x)) <$> l.
Proof. induction l as [|x l IH]; [done|]. simpl. f_equal. apply IH. Qed.

(** The arcs of a transition as a vector. *)
Abbreviation arcs_of n t := ((λ p, (s_weight t_pre n t p, s_weight t_post n t p)) <$> place_refs n).

Lemma can_enabled (n : SNet) m (t : ref) :
  t ∈ transition_refs n → can (arcs_of n t) (vector n m) = true ↔ enabled n m t.
Proof.
  intros Ht. unfold can, vector. rewrite forallb_zip_fmap, forallb_forall.
  unfold enabled. split.
  - intros H. split; [by apply elem_of_transition_refs|]. intros p.
    destruct (place_at n p) as [k|] eqn:Hp.
    + apply N.leb_le. apply (H p). apply list_elem_of_In, elem_of_place_refs. by exists k.
    + simpl. unfold s_weight. rewrite Hp. destruct (transition_at n t); apply N.le_0_l.
  - intros [_ H] p _. apply N.leb_le, H.
Qed.

Lemma fired_fire (n : SNet) m (t : ref) : fired (arcs_of n t) (vector n m) = vector n (@fire SNetLib SNetLaws n t m).
Proof. unfold fired, vector. by rewrite zip_with_fmap. Qed.

Lemma elem_of_successors (n : SNet) m v :
  v ∈ successors (compiled n) (vector n m) ↔ ∃ t : ref, enabled n m t ∧ v = vector n (@fire SNetLib SNetLaws n t m).
Proof.
  unfold successors, compiled. rewrite list_elem_of_fmap. split.
  - intros (a & -> & [Hc (t & -> & Ht)%list_elem_of_fmap]%list_elem_of_filter).
    exists t. split; [by apply can_enabled|apply fired_fire].
  - intros (t & He & ->). exists (arcs_of n t). split; [by rewrite fired_fire|].
    apply list_elem_of_filter. split; [apply can_enabled; [by apply elem_of_transition_refs, He|done]|].
    apply list_elem_of_fmap. exists t. split; [done|]. apply elem_of_transition_refs, He.
Qed.

Lemma vector_proper (n : SNet) (m m' : Marking) : m ≡ m' → vector n m = vector n m'.
Proof. intros H. apply list_fmap_ext. intros i p _. apply H. Qed.

Lemma value_vector (n : SNet) m p : p ∈ place_refs n → value (place_refs n) (vector n m) p = m p.
Proof.
  unfold value, vector. induction (place_refs n) as [|q l IH]; [by intros ?%not_elem_of_nil|].
  intros H. simpl. case_bool_decide as Hq; [by rewrite Hq|]. apply IH.
  apply elem_of_cons in H as [->|H]; done.
Qed.

Lemma vector_initial (n : SNet) : (λ p, default 0%N (place_at n p)) <$> place_refs n = vector n (marking n).
Proof. done. Qed.

Lemma dead_successors (n : SNet) m : successors (compiled n) (vector n m) = [] ↔ dead n m.
Proof.
  split.
  - intros Hs t Ht. assert (H : vector n (@fire SNetLib SNetLaws n t m) ∈ successors (compiled n) (vector n m)).
    { apply elem_of_successors. eauto. }
    rewrite Hs in H. by apply not_elem_of_nil in H.
  - intros Hd. destruct (successors (compiled n) (vector n m)) as [|v l] eqn:E; [done|].
    assert (H : v ∈ successors (compiled n) (vector n m)) by (rewrite E; by left).
    apply elem_of_successors in H as (t & Ht & _). by destruct (Hd t).
Qed.

(** The search answers the model checker's question. *)
Lemma model_check_correct fuel (n : SNet) end_ panic b :
  model_check fuel n end_ panic = Some b → (b = true ↔ deadlock_reachable n end_ panic).
Proof.
  unfold model_check. destruct (_ && _) eqn:Hp; [|done].
  apply andb_prop in Hp as [He%bool_decide_eq_true Hp%bool_decide_eq_true].
  rewrite vector_initial. set (final := λ v, _ && _).
  assert (Hstuck : ∀ m, stuck (compiled n) final (vector n m) = true ↔ dead n m ∧ m end_ = 0%N ∧ m panic = 0%N).
  { intros m. unfold stuck, final. rewrite !value_vector by done.
    rewrite !andb_true_iff, bool_decide_eq_true, !N.eqb_eq. by rewrite dead_successors. }
  destruct b; intros H; split; try done.
  - intros _. apply (search_found _ _ (λ v, ∃ m, v = vector n m ∧ reachable (n : @PetriNet SNetLib) (marking (n : @PetriNet SNetLib)) m)) in H
      as (v & (m & -> & Hr) & Hs%Hstuck).
    + by exists m.
    + intros v v' (m & -> & Hr) (t & Ht & ->)%elem_of_successors. eexists. split; [done|].
      eapply reachable_trans; [done|]. eapply reachable_step; [by econstructor|]. by apply reachable_refl.
    + repeat constructor. eexists. split; [reflexivity|]. by apply reachable_refl.
  - intros (m & Hr & Hd). destruct (search_exhausted (compiled n) final _ _ _ (search_inv_empty _ _ _) H) as (S & H1 & H2).
    assert (HS : S (vector n m)).
    { refine (reachable_invariant _ (λ m, S (vector n m)) _ _ _ _ _ Hr).
      - intros m1 m2 Heq. by rewrite (vector_proper n _ _ Heq).
      - intros m1 t [_ Hn]%H2 Ht. apply Hn, elem_of_successors. by exists t.
      - apply H1. by left. }
    apply H2 in HS as [Hs _]. apply Hstuck in Hd. congruence.
Qed.
