(* ===== verification/Certificates.v ===== *)
(** * Certificates for the model checker's question

    The nets of the larger example programs have too many markings to visit them
    all.  Two kinds of certificate settle them: a set of places that always holds
    a token and whose tokens can always move, which excludes a deadlock, and a
    schedule of transitions that leads to one. *)

From S2P Require Import Prelude Netcrab NetModel TokenGame Explore.

(** ** A set of places that never gets stuck *)

Section progress.
Context `{LL : PetriNetLaws}.
Context (n : PetriNet) (own : PlaceRef → Prop) (program_end program_panic : PlaceRef).

Definition owned (m : Marking) : Prop := ∃ p, own p ∧ (0 < m p)%N.

(** Who takes a token from the set leaves one there. *)
Hypothesis kept : ∀ t p, has_transition n t → own p → (0 < pre n t p)%N → ∃ q, own q ∧ (0 < post n t q)%N.

(** A token of the set is final or all that some transition needs. *)
Hypothesis moves : ∀ p, own p → p = program_end ∨ p = program_panic ∨
  ∃ t, has_transition n t ∧ (pre n t p ≤ 1)%N ∧ ∀ q, q ≠ p → pre n t q = 0%N.

Lemma owned_fire m t : owned m → enabled n m t → owned (fire n t m).
Proof.
  intros (p & Hp & Hm) [Ht He]. destruct (N.eq_0_gt_0_cases (pre n t p)) as [H0|H0].
  - exists p. split; [done|]. unfold fire. lia.
  - destruct (kept t p Ht Hp H0) as (q & Hq & Hpost). exists q. split; [done|]. unfold fire. lia.
Qed.

Lemma owned_dead m : owned m → dead n m → ¬ (m program_end = 0%N ∧ m program_panic = 0%N).
Proof.
  intros (p & Hp & Hm) Hd [H1 H2]. destruct (moves p Hp) as [->|[->|(t & Ht & Hpre & Hq)]]; [lia..|].
  destruct (Hd t). split; [done|]. intros q.
  destruct (N.eq_0_gt_0_cases (pre n t q)) as [->|H0]; [lia|].
  destruct (decide (q = p)) as [->|Hqp]; [lia|]. specialize (Hq q Hqp). lia.
Qed.

Lemma owned_never_stuck : owned (marking n) → ¬ deadlock_reachable n program_end program_panic.
Proof.
  intros Hi (m & Hr & Hd & Hf).
  refine (owned_dead m _ Hd Hf). refine (reachable_invariant n owned _ _ _ _ Hi Hr).
  - intros m1 m2 Heq (p & Hp & Hm). exists p. by rewrite <-(Heq p).
  - intros m1 t. apply owned_fire.
Qed.
End progress.

(** ** Checking certificates on a concrete net *)

(** Visit all markings, give the labels of a set of places, or a schedule. *)
Inductive Evidence :=
  | Search (bound : nat)
  | Progress (own : string → bool)
  | Schedule (labels : list string).

(** The test of a set of places. *)
Definition takes (n : SNet) (own : list ref) (t : ref) : bool := existsb (λ p, (0 <? s_weight t_pre n t p)%N) own.
Definition leaves (n : SNet) (own : list ref) (t : ref) : bool := existsb (λ p, (0 <? s_weight t_post n t p)%N) own.
Definition needs_only (n : SNet) (p t : ref) : bool :=
  forallb (λ q, (s_weight t_pre n t q <=? if bool_decide (q = p) then 1 else 0)%N) (place_refs n).
Definition progresses (n : SNet) (own : list ref) (end_ panic : ref) : bool :=
  existsb (λ p, (0 <? default 0 (place_at n p))%N) own &&
  forallb (λ t, if takes n own t then leaves n own t else true) (transition_refs n) &&
  forallb (λ p, if bool_decide (p = end_ ∨ p = panic) then true
                else existsb (λ t, if takes n [p] t then needs_only n p t else false) (transition_refs n)) own.

(** The vector after firing the transitions with these labels. *)
Fixpoint replay (n : SNet) (labels : list string) (v : list N) : option (list N) :=
  match labels with
  | [] => Some v
  | l :: labels' =>
      match find (λ t, String.eqb t.1 l) (transition_refs n) with
      | Some t => let arcs := arcs_of n t in if can arcs v then replay n labels' (fired arcs v) else None
      | None => None
      end
  end.
(** Some place has too few tokens for the transition. *)
Definition starved (v : list N) (x : STransition) : bool :=
  existsb (λ '(i, k), match v !! N.to_nat i with Some y => (y <? k)%N | None => false end) (map_to_list (t_pre x)).
Definition gets_stuck (n : SNet) (labels : list string) (end_ panic : ref) : bool :=
  match replay n labels (vector n (marking n)) with
  | Some v => bool_decide (end_ ∈ place_refs n) && bool_decide (panic ∈ place_refs n) &&
      forallb (starved v) (s_transitions n) &&
      (value (place_refs n) v end_ =? 0)%N && (value (place_refs n) v panic =? 0)%N
  | None => false
  end.

Definition check_evidence (e : Evidence) (expected : bool) (n : SNet) (end_ panic : ref) : bool :=
  match e with
  | Search bound => bool_decide (model_check bound n end_ panic = Some expected)
  | Progress own => if expected then false else progresses n (filter (λ p, own p.1 = true) (place_refs n)) end_ panic
  | Schedule labels => if expected then gets_stuck n labels end_ panic else false
  end.

(** ** The checks are right *)

Lemma existsb_In {A} (f : A → bool) l : existsb f l = true ↔ ∃ x, x ∈ l ∧ f x = true.
Proof. rewrite existsb_exists. by setoid_rewrite list_elem_of_In. Qed.
Lemma forallb_In {A} (f : A → bool) l : forallb f l = true ↔ ∀ x, x ∈ l → f x = true.
Proof. rewrite forallb_forall. by setoid_rewrite list_elem_of_In. Qed.

Lemma needs_only_pre (n : SNet) (p t : ref) :
  needs_only n p t = true → (pre n t p ≤ 1)%N ∧ ∀ q : ref, q ≠ p → pre n t q = 0%N.
Proof.
  intros H.
  assert (Hq : ∀ q : ref, (s_weight t_pre n t q ≤ if bool_decide (q = p) then 1 else 0)%N).
  { intros q. destruct (place_at n q) as [k|] eqn:Hp.
    - apply N.leb_le. revert q k Hp. unfold needs_only in H. rewrite forallb_In in H. intros q k Hp.
      apply H, elem_of_place_refs. by exists k.
    - unfold s_weight. rewrite Hp. destruct (transition_at n t); apply N.le_0_l. }
  split.
  - specialize (Hq p). by rewrite bool_decide_true in Hq.
  - intros q Hqp. specialize (Hq q). rewrite bool_decide_false in Hq by done. by apply N.le_0_r in Hq.
Qed.

Lemma progresses_correct (n : SNet) own end_ panic :
  progresses n own end_ panic = true → ¬ deadlock_reachable n end_ panic.
Proof.
  unfold progresses. rewrite !andb_true_iff, existsb_In, !forallb_In. intros [[(p0 & Hp0 & Hm) Hk] Hmv].
  apply (@owned_never_stuck SNetLib SNetLaws n (λ p, p ∈ own)).
  - intros t p Ht Hp Hpre. specialize (Hk t (proj2 (elem_of_transition_refs n t) Ht)).
    destruct (takes n own t) eqn:E.
    + unfold leaves in Hk. rewrite existsb_In in Hk. destruct Hk as (q & Hq & H%N.ltb_lt). by exists q.
    + exfalso. revert E. apply not_false_iff_true, existsb_In. exists p. split; [done|]. by apply N.ltb_lt.
  - intros p Hp. specialize (Hmv p Hp). case_bool_decide as Hfin; [tauto|]. do 2 right.
    apply existsb_In in Hmv as (t & Ht & H). change ((if takes n [p] t then needs_only n p t else false) = true) in H.
    destruct (takes n [p] t) in H; [|discriminate H]. exists t.
    split; [by apply elem_of_transition_refs|by apply needs_only_pre].
  - exists p0. split; [done|]. by apply N.ltb_lt in Hm.
Qed.

Lemma replay_reachable (n : SNet) labels (m : Marking) v :
  replay n labels (vector n m) = Some v → ∃ m', v = vector n m' ∧ reachable (n : @PetriNet SNetLib) m m'.
Proof.
  revert m. induction labels as [|l labels IH]; intros m; simpl.
  - intros [= <-]. exists m. split; [done|]. by apply reachable_refl.
  - destruct (find _ _) as [t|] eqn:Hf; [|done]. apply find_some in Hf as [Ht%list_elem_of_In _].
    destruct (can _ _) eqn:Hc; [|done]. rewrite fired_fire. intros (m' & -> & Hr)%IH. exists m'. split; [done|].
    eapply reachable_step; [|done]. econstructor; [by apply can_enabled|done].
Qed.

Lemma starved_disabled (n : SNet) (m : Marking) (t : ref) x :
  transition_at n t = Some x → starved (vector n m) x = true → ¬ enabled (n : @PetriNet SNetLib) m t.
Proof.
  intros Hx Hs [_ He]. unfold starved in Hs. rewrite existsb_In in Hs.
  destruct Hs as ([i k] & Hi%elem_of_map_to_list & Hk). unfold vector, place_refs in Hk.
  rewrite list_lookup_fmap, list_lookup_imap in Hk.
  destruct (s_places n !! N.to_nat i) as [[l c]|] eqn:Hp; [|done]. simpl in Hk. rewrite N2Nat.id in Hk.
  apply N.ltb_lt in Hk. specialize (He (l, i)). simpl in He. unfold s_weight in He.
  rewrite Hx, (proj2 (place_at_spec n (l, i) c) Hp) in He. simpl in He. rewrite Hi in He. simpl in He. lia.
Qed.

Lemma gets_stuck_correct (n : SNet) labels end_ panic :
  gets_stuck n labels end_ panic = true → deadlock_reachable n end_ panic.
Proof.
  unfold gets_stuck. destruct (replay _ _ _) as [v|] eqn:Hr; [|done].
  apply replay_reachable in Hr as (m & -> & Hr).
  rewrite !andb_true_iff, !bool_decide_eq_true, !N.eqb_eq, forallb_In.
  intros [[[[He Hp] Hd] H1] H2]. rewrite value_vector in H1, H2 by done. exists m. split_and!; try done.
  intros t Ht. destruct (proj1 Ht) as [x Hx]. apply (starved_disabled n m t x Hx); [|done].
  apply Hd. apply transition_at_spec in Hx as [Hx _]. by eapply list_elem_of_lookup_2.
Qed.

Lemma check_evidence_correct e expected (n : SNet) end_ panic :
  check_evidence e expected n end_ panic = true → (expected = true ↔ deadlock_reachable n end_ panic).
Proof.
  destruct e as [bound|own|labels]; simpl.
  - intros H%bool_decide_eq_true. by eapply model_check_correct.
  - destruct expected; [done|]. intros H%progresses_correct. by split.
  - destruct expected; [|done]. intros H%gets_stuck_correct. by split.
Qed.
