(* ===== verification/CliSpec.v ===== *)
(** * What the command line promises

    The exit code tells what went wrong, a run that succeeds leaves the
    requested files and no others behind, and the verdict it prints is the one
    of the token game, if the model checker answers correctly. *)

From S2P Require Import Prelude RustStr RustPath Netcrab Naming Rustc Translator TokenGame Cli.
From Stdlib Require Import Ascii.

(** ** Where the files go *)

Lemma split_on_cons c s : ∃ x l, split_on c s = x :: l.
Proof.
  induction s as [|a s (x & l & IH)]; simpl; [by eexists _, _|].
  case_bool_decide; [by eexists _, _|]. rewrite IH. by eexists _, _.
Qed.

Lemma split_on_none c s : c ∉ chars s → split_on c s = [s].
Proof.
  induction s as [|a s IH]; simpl; [done|]. intros [Hne Hs]%not_elem_of_cons.
  rewrite bool_decide_eq_false_2 by done. by rewrite IH.
Qed.

Lemma join_cons c x y l : join c (x :: y :: l) = x ^+ String c (join c (y :: l)).
Proof. done. Qed.

Lemma join_split c s : join c (split_on c s) = s.
Proof.
  induction s as [|a s IH]; simpl; [done|]. destruct (split_on_cons c s) as (x & l & E). rewrite E in IH |- *.
  case_bool_decide as Ha.
  - by rewrite join_cons, IH, Ha.
  - destruct l; simpl in *; by rewrite <-IH.
Qed.

(** A file name after a separator is the last piece. *)
Lemma split_on_snoc c s name : c ∉ chars name → split_on c (s ^+ String c name) = split_on c s ++ [name].
Proof.
  intros Hn. induction s as [|a s IH]; simpl.
  - by rewrite bool_decide_eq_true_2, split_on_none by done.
  - rewrite IH. case_bool_decide; [done|]. by destruct (split_on_cons c s) as (x & l & ->).
Qed.

Lemma last_char_snoc s a : last_char s = Some a → ∃ s', s = s' ^+ String a "".
Proof.
  induction s as [|b s IH]; simpl; [done|]. destruct s as [|b' s]; [intros [= ->]; by exists ""|].
  intros (s' & Hs')%IH. exists (String b s'). by rewrite Hs'.
Qed.

Lemma starts_with_char c s : c ∉ chars s → starts_with (String c "") s = false.
Proof. destruct s as [|a s]; simpl; [done|]. intros [Hne _]%not_elem_of_cons. by rewrite bool_decide_eq_false_2. Qed.

Lemma split_path_push folder name :
  slash ∉ chars name → ∃ before, split_on slash (path_push folder name) = before ++ [name].
Proof.
  intros Hn. unfold path_push. rewrite starts_with_char by done.
  destruct (last_char folder) as [a|] eqn:Hl; [|exists []; by apply split_on_none].
  case_bool_decide; subst.
  - apply last_char_snoc in Hl as (s' & ->). exists (split_on slash s').
    rewrite append_assoc. simpl. by apply split_on_snoc.
  - exists (split_on slash folder). by apply split_on_snoc.
Qed.

(** A name without dots keeps all of itself before the extension. *)
Lemma set_extension_plain p before name ext :
  split_on slash p = before ++ [name] → name ≠ "" → full_stop ∉ chars name → ext ≠ "" →
  set_extension p ext = p ^+ "." ^+ ext.
Proof.
  intros Hp Hne Hdot Hext. unfold set_extension, file_name. rewrite Hp, rev_app_distr. simpl.
  assert (name ≠ "." ∧ name ≠ "..") as [Hd1 Hd2] by (split; intros ->; apply Hdot; by left).
  unfold is_component. rewrite bool_decide_eq_false_2 by tauto. simpl.
  rewrite bool_decide_eq_false_2, rev_involutive by done. unfold file_stem.
  rewrite split_on_none by done. simpl. rewrite <-Hp, join_split, bool_decide_eq_false_2 by done. done.
Qed.

(** For a file name without dots and slashes each format has a file of its
    own: the folder, the name, a dot and the extension of the format. *)
Theorem output_path_plain f filename output_folder :
  filename ≠ "" → slash ∉ chars filename → full_stop ∉ chars filename →
  output_path f filename output_folder = path_push output_folder filename ^+ "." ^+ format_extension f ∧
  ∀ g, output_path g filename output_folder = output_path f filename output_folder → g = f.
Proof.
  intros Hne Hs Hd. destruct (split_path_push output_folder filename Hs) as (before & Hp).
  assert (Hpath : ∀ g, output_path g filename output_folder =
    path_push output_folder filename ^+ "." ^+ format_extension g).
  { intros g. eapply set_extension_plain; [done..|]. by destruct g. }
  split; [done|]. intros g. rewrite !Hpath. intros H%append_inj_l. by destruct f, g.
Qed.

(** ** The exit code *)

Section cli_spec.
Context `{X : Exporters} `{T : Tools} (fuel queue_fuel : nat).
Implicit Types (fs : FileSys) (args : Args) (n : PetriNet).

(** What happens after the translation: an error in writing a file, or success. *)
Definition wrote (r : CargoResult) : Prop :=
  match r with OutputGenerationError _ | DeadlockAnalysis _ | SimpleTranslation => True | _ => False end.

Lemma output_if_wrote cond f n args k fs r fs' :
  (∀ fs1, k fs1 = Ok (r, fs') → wrote r) →
  output_if cond f n args k fs = Ok (r, fs') → wrote r.
Proof.
  unfold output_if. intros Hk. destruct cond; [|apply Hk].
  intros (e & fs1 & _ & H)%st_bind_ok. destruct e as [e|]; [by injection H as <- _|by eapply Hk].
Qed.

Lemma exec_cases args fs r fs' :
  exec fuel queue_fuel args fs = Ok (r, fs') →
  (∃ s, r = SourceFileNotFound s ∧ path_exists fs (path args) = false ∧ fs' = fs) ∨
  (∃ s, r = OutputFolderNotFound s ∧ path_exists fs (path args) = true ∧
     path_exists fs (output_folder args) = false ∧ fs' = fs) ∨
  (path_exists fs (path args) = true ∧ path_exists fs (output_folder args) = true ∧
   ((∃ s, r = TranslationError s ∧ lib_run fuel queue_fuel (path args) = Ok (inr s) ∧ fs' = fs) ∨
    (∃ n, lib_run fuel queue_fuel (path args) = Ok (inl n) ∧ wrote r))).
Proof.
  unfold exec. intros (fs0 & fs1 & [= <- <-] & H)%st_bind_ok.
  destruct (path_exists fs (path args)); cbn [negb] in H; [|injection H as <- <-; left; by eexists].
  destruct (path_exists fs (output_folder args)); cbn [negb] in H; [|injection H as <- <-; right; left; by eexists].
  right. right. split_and!; [done..|]. apply st_bind_ok in H as (x & fs2 & Hx & H).
  unfold lift in Hx. destruct (lib_run _ _ _) as [y|]; [|done]. injection Hx as <- <-.
  destruct y as [n|s]; [|injection H as <- <-; left; by eexists]. right. exists n. split; [done|].
  revert H. apply output_if_wrote. intros fs3. apply output_if_wrote. intros fs4. apply output_if_wrote.
  intros fs5. destruct (skip_analysis args); [by intros [= <- _]|].
  intros (fs6 & fs7 & _ & H)%st_bind_ok. apply st_bind_ok in H as (b & fs8 & _ & [= <- _]). done.
Qed.

Lemma nl_not_empty s : s ^+ nl ≠ "".
Proof. by destruct s. Qed.

(** C35: the exit code tells how far the run came, in the order of the checks:
    1 exactly if the source file does not exist, else 2 exactly if the output
    folder does not, else 3 exactly if the translation reports an error, and in
    these cases no file was touched; 0 exactly if nothing is printed to standard
    error. *)
Theorem exit_codes args fs code out err fs' :
  main fuel queue_fuel (CheckDeadlock args) fs = Ok ((code, out, err), fs') →
  (code ≤ 4)%N ∧
  (code = 1%N ↔ path_exists fs (path args) = false) ∧
  (code = 2%N ↔ path_exists fs (path args) = true ∧ path_exists fs (output_folder args) = false) ∧
  (code = 3%N ↔ path_exists fs (path args) = true ∧ path_exists fs (output_folder args) = true ∧
     ∃ s, lib_run fuel queue_fuel (path args) = Ok (inr s)) ∧
  (code = 0%N ↔ err = "") ∧
  (code = 1%N ∨ code = 2%N ∨ code = 3%N → fs' = fs).
Proof.
  intros (r & fs1 & Hr & H)%st_bind_ok. injection H as H <-. cbn [command_exec] in Hr.
  apply exec_cases in Hr as [(s & -> & H1 & ->)|[(s & -> & H1 & H2 & ->)|(H1 & H2 & [(s & -> & H3 & ->)|(n & H3 & Hw)])]].
  1-3: injection H as <- <- <-; rewrite ?H1, ?H2, ?H3; pose proof (nl_not_empty s); naive_solver lia.
  destruct r; try done; injection H as <- <- <-; rewrite H1, H2, H3;
    try pose proof (nl_not_empty err_str); naive_solver lia.
Qed.

(** ** The files *)

Section files.
Context {FL : FileSystemLaws}.

(** The formats that a run writes. *)
Definition requested args (f : OutputFormat) : Prop :=
  match f with Lola => True | Dot => dot args = true | Pnml => pnml args = true end.
Abbreviation out_path args f := (output_path f (filename args) (output_folder args)).

(** What a run of [k] may change: it writes the
    requested ones of the formats in [fmts]. *)
Definition writes_only args n (fmts : list OutputFormat) fs fs' : Prop :=
  (∀ f, f ∈ fmts → requested args f → read_file fs' (out_path args f) = Some (export f n)) ∧
  ∀ q, (∀ f, f ∈ fmts → requested args f → ¬ same_file (out_path args f) q) →
    read_file fs' q = read_file fs q.

Definition succeeds (r : CargoResult) : Prop :=
  match r with DeadlockAnalysis _ | SimpleTranslation => True | _ => False end.

Lemma create_output_file_writes f n args fs fs' :
  create_output_file f n (filename args) (output_folder args) fs = Ok (None, fs') →
  read_file fs' (out_path args f) = Some (export f n) ∧
  ∀ q, ¬ same_file (out_path args f) q → read_file fs' q = read_file fs q.
Proof.
  unfold create_output_file. destruct (file_create fs _) as [|fs1] eqn:Hc; [done|].
  apply create_law in Hc as [H1 H2]. intros [= Hw]. apply write_law in Hw as [H3 H4]; [|done].
  split; [done|]. intros q Hq. by rewrite H4, H2.
Qed.

Lemma output_if_writes cond f fmts n args k fs r fs' :
  succeeds r → (cond = true ↔ requested args f) →
  (∀ g, g ∈ fmts → ¬ same_file (out_path args g) (out_path args f)) →
  (∀ fs1, k fs1 = Ok (r, fs') → writes_only args n fmts fs1 fs') →
  output_if cond f n args k fs = Ok (r, fs') → writes_only args n (f :: fmts) fs fs'.
Proof.
  intros Hr Hc Hdiff Hk. unfold output_if. destruct cond.
  - intros ([e|] & fs1 & H1 & H)%st_bind_ok; [by injection H as <- _|].
    apply create_output_file_writes in H1 as [H1 H2]. apply Hk in H as [H3 H4]. split.
    + intros g [->|Hg]%elem_of_cons Hq; [|by apply H3]. rewrite H4; [done|]. intros g' ? _. by apply Hdiff.
    + intros q Hq. rewrite H4, H2; [done|apply Hq; [by left|by apply Hc]|]. intros g Hg. apply Hq. by right.
  - intros [H3 H4]%Hk. split.
    + intros g [->|Hg]%elem_of_cons Hq; [naive_solver|by apply H3].
    + intros q Hq. apply H4. intros g Hg. apply Hq. by right.
Qed.

Lemma analysis_pure args fs r fs' :
  (if skip_analysis args then mret SimpleTranslation
   else fs ← get; deadlock ← lift (check_deadlock fs (out_path args Lola));
        mret (DeadlockAnalysis (if deadlock : bool then deadlock_message else deadlock_free_message)))
    fs = Ok (r, fs') →
  fs' = fs ∧ (skip_analysis args = false → ∃ b, check_deadlock fs (out_path args Lola) = Ok b ∧
    r = DeadlockAnalysis (if b : bool then deadlock_message else deadlock_free_message)).
Proof.
  destruct (skip_analysis args); [by intros [= <- <-]|].
  intros (fs0 & fs1 & [= <- <-] & H)%st_bind_ok. apply st_bind_ok in H as (b & fs2 & H1 & [= <- <-]).
  unfold lift in H1. destruct (check_deadlock _ _) as [b'|]; [|done]. injection H1 as -> <-.
  split; [done|]. intros _. by exists b.
Qed.

(** After the translation: the files written last are the input of the model
    checker. *)
Lemma exec_writes args fs r fs' n :
  succeeds r → (∀ f g, f ≠ g → ¬ same_file (out_path args f) (out_path args g)) →
  exec fuel queue_fuel args fs = Ok (r, fs') → lib_run fuel queue_fuel (path args) = Ok (inl n) →
  writes_only args n [Dot; Pnml; Lola] fs fs' ∧ (skip_analysis args = false →
    ∃ b, check_deadlock fs' (out_path args Lola) = Ok b ∧
      r = DeadlockAnalysis (if b : bool then deadlock_message else deadlock_free_message)).
Proof.
  intros Hr Hdiff (fs0 & fs1 & [= <- <-] & H)%st_bind_ok Hn.
  destruct (path_exists fs (path args)); cbn [negb] in H; [|by injection H as <- _].
  destruct (path_exists fs (output_folder args)); cbn [negb] in H; [|by injection H as <- _].
  apply st_bind_ok in H as (x & fs2 & Hx & H). unfold lift in Hx. rewrite Hn in Hx. injection Hx as <- <-.
  split.
  - revert H. apply output_if_writes; [done|done|intros g Hg; apply Hdiff; intros ->; set_solver|].
    intros fs3. apply output_if_writes; [done|done|intros g Hg; apply Hdiff; intros ->; set_solver|].
    intros fs4. apply output_if_writes; [done|done|by intros g ?%not_elem_of_nil|].
    intros fs5 [-> _]%analysis_pure. split; [by intros f ?%not_elem_of_nil|done].
  - intros Hs.
    assert (Hk : ∀ cond f k fs, output_if cond f n args k fs = Ok (r, fs') → ∃ fs1, k fs1 = Ok (r, fs')).
    { intros cond f k fs3. unfold output_if. destruct cond; [|by eauto].
      intros ([e|] & fs4 & _ & H1)%st_bind_ok; [by injection H1 as <- _|by eauto]. }
    apply Hk in H as (fs3 & H). apply Hk in H as (fs4 & H). apply Hk in H as (fs5 & H).
    apply analysis_pure in H as [-> H]. by apply H.
Qed.

Lemma success_code r : (report r).1.1 = 0%N → succeeds r.
Proof. by destruct r. Qed.

Lemma run_writes args fs out err fs' :
  (∀ f g, f ≠ g → ¬ same_file (out_path args f) (out_path args g)) →
  main fuel queue_fuel (CheckDeadlock args) fs = Ok ((0%N, out, err), fs') →
  ∃ n, lib_run fuel queue_fuel (path args) = Ok (inl n) ∧
    (∀ f, requested args f → read_file fs' (out_path args f) = Some (export f n)) ∧
    ∀ q, (∀ f, requested args f → ¬ same_file (out_path args f) q) → read_file fs' q = read_file fs q.
Proof.
  intros Hdiff (r & fs1 & Hr & H)%st_bind_ok. injection H as H <-.
  assert (Hs : succeeds r) by (apply success_code; by rewrite H).
  destruct (exec_cases _ _ _ _ Hr) as [(s & -> & _)|[(s & -> & _)|(_ & _ & [(s & -> & _)|(n & Hn & _)])]];
    try done. exists n. split; [done|].
  destruct (exec_writes _ _ _ _ _ Hs Hdiff Hr Hn) as [[H1 H2] _]. split.
  - intros f. apply H1. destruct f; set_solver.
  - intros q Hq. apply H2. auto.
Qed.

(** C36: a run with exit code 0 translated the program, the requested files hold
    the net in their formats, and no other file has other contents than before,
    the files of the formats that were not requested included, provided the
    three output paths name different files. *)
Theorem run_leaves_files args fs out err fs' :
  (∀ f g, f ≠ g → ¬ same_file (out_path args f) (out_path args g)) →
  main fuel queue_fuel (CheckDeadlock args) fs = Ok ((0%N, out, err), fs') →
  ∃ n, lib_run fuel queue_fuel (path args) = Ok (inl n) ∧
    (∀ f, requested args f → read_file fs' (out_path args f) = Some (export f n)) ∧
    ∀ q, (∀ f, requested args f → ¬ same_file (out_path args f) q) → read_file fs' q = read_file fs q.
Proof. apply run_writes. Qed.

(** ** The defaults *)

Section defaults.
Context `{PL : ArgParserLaws}.

Lemma declared_once : NoDup (arg_id <$> args_declaration).
Proof. apply (bool_decide_eq_true_1 _). vm_compute. reflexivity. Qed.

Lemma parsed_defaults words args :
  Forall (λ w, starts_with "--filename" w = false ∧ starts_with "--output-folder" w = false) words →
  command_parse words = inr (CheckDeadlock args) → filename args = "net" ∧ output_folder args = ".".
Proof.
  intros Hw. unfold command_parse. destruct (parse_words _ _ _) as [|m] eqn:Hm; [done|].
  assert (Hf : get_one m "filename" = Some "net").
  { apply (default_law _ _ _ _ _ _ declared_once Hm); [set_solver|]. eapply Forall_impl; [exact Hw|]. by intros w []. }
  assert (Ho : get_one m "output_folder" = Some ".").
  { apply (default_law _ _ _ _ _ _ declared_once Hm); [set_solver|]. eapply Forall_impl; [exact Hw|]. by intros w []. }
  rewrite Hf, Ho. destruct (get_one m "path"); [|done]. by intros [= <-].
Qed.

(** C37: the command line decides what is written: if the parser rejects it, or
    only prints the help, no file is touched; if it names neither a file nor a
    folder, a run with exit code 0 leaves the net in the format of the model
    checker in ./net.lola. *)
Theorem command_line_files words fs code out err fs' :
  main_with fuel queue_fuel words fs = Ok ((code, out, err), fs') →
  match command_parse words with
  | inl exit => exit = (code, out, err) ∧ fs' = fs
  | inr (CheckDeadlock args) =>
      Forall (λ w, starts_with "--filename" w = false ∧ starts_with "--output-folder" w = false) words →
      (∀ f g, f ≠ g → ¬ same_file ("./net." ^+ format_extension f) ("./net." ^+ format_extension g)) →
      code = 0%N →
      ∃ n, lib_run fuel queue_fuel (path args) = Ok (inl n) ∧ read_file fs' "./net.lola" = Some (to_lola n)
  end.
Proof.
  unfold main_with. destruct (command_parse words) as [exit|[args]] eqn:Hp; [by intros [= -> ->]|].
  intros Hrun Hw Hdiff ->. destruct (parsed_defaults words args Hw Hp) as [Hf Ho].
  assert (Hpath : ∀ f, out_path args f = "./net." ^+ format_extension f).
  { intros f. rewrite Hf, Ho. by destruct f. }
  destruct (run_writes args fs out err fs') as (n & Hn & Hr & _); [|done|].
  - intros f g. rewrite !Hpath. apply Hdiff.
  - exists n. split; [done|]. specialize (Hr Lola I). by rewrite Hpath in Hr.
Qed.
End defaults.

(** ** The verdict *)

(** The model checker's answer is the one of the token game: given the file of
    the net, [lola] prints whether the formula holds. *)
Definition lola_answers {LL : PetriNetLaws} n : Prop :=
  ∀ fs p e q, read_file fs p = Some (to_lola n) →
    has_place n e → has_place n q → place_ref_label e = PROGRAM_END → place_ref_label q = PROGRAM_PANIC →
    ∃ out s, run_command "lola" [p; formula] fs = inr out ∧ from_utf8 (stderr out) = Some s ∧
      ((contains "result: yes" s = true ∧ deadlock_reachable n e q) ∨
       (contains "result: yes" s = false ∧ contains "result: no" s = true ∧ ¬ deadlock_reachable n e q)).

(** What a run prints is the truth about the net, if the answer is. *)
Definition verdict {LL : PetriNetLaws} (out : string) n (e q : PlaceRef) : Prop :=
  (out = "Result: " ^+ deadlock_message ^+ nl ∧ deadlock_reachable n e q) ∨
  (out = "Result: " ^+ deadlock_free_message ^+ nl ∧ ¬ deadlock_reachable n e q).

Lemma run_verdict {LL : PetriNetLaws} args fs out err fs' :
  (∀ f g, f ≠ g → ¬ same_file (out_path args f) (out_path args g)) →
  skip_analysis args = false →
  main fuel queue_fuel (CheckDeadlock args) fs = Ok ((0%N, out, err), fs') →
  ∃ n, lib_run fuel queue_fuel (path args) = Ok (inl n) ∧
    (lola_answers n → ∀ e q, has_place n e → has_place n q → place_ref_label e = PROGRAM_END →
       place_ref_label q = PROGRAM_PANIC → verdict out n e q).
Proof.
  intros Hdiff Hskip (r & fs1 & Hr & H)%st_bind_ok. injection H as H <-.
  assert (Hs : succeeds r) by (apply success_code; by rewrite H).
  destruct (exec_cases _ _ _ _ Hr) as [(s & -> & _)|[(s & -> & _)|(_ & _ & [(s & -> & _)|(n & Hn & _)])]];
    try done. exists n. split; [done|].
  destruct (exec_writes _ _ _ _ _ Hs Hdiff Hr Hn) as [[H1 _] H2].
  destruct (H2 Hskip) as (b & Hb & ->). injection H as <- _. intros Hlola e q He Hq Le Lq.
  destruct (Hlola fs1 (out_path args Lola) e q) as (o & s & Ho & Hu & Ha); [apply H1; set_solver|done..|].
  unfold check_deadlock in Hb. rewrite Ho in Hb. simpl in Hb. unfold parse_answer in Hb. rewrite Hu in Hb.
  simpl in Hb. unfold verdict. destruct Ha as [[Hy Hd]|(Hy & Hno & Hd)]; rewrite Hy, ?Hno in Hb; injection Hb as <-; auto.
Qed.

(** C7: the verdict is about the program's net: unless the analysis is skipped,
    a run with exit code 0 prints one of the two messages, and if the model
    checker answers correctly it prints that a deadlock can be reached exactly
    if the net has a reachable marking that is dead although neither the end
    nor a panic of the program was reached. *)
Theorem verdict_correct {LL : PetriNetLaws} args fs out err fs' n e q :
  (∀ f g, f ≠ g → ¬ same_file (out_path args f) (out_path args g)) →
  skip_analysis args = false →
  lib_run fuel queue_fuel (path args) = Ok (inl n) → lola_answers n →
  has_place n e → has_place n q → place_ref_label e = PROGRAM_END → place_ref_label q = PROGRAM_PANIC →
  main fuel queue_fuel (CheckDeadlock args) fs = Ok ((0%N, out, err), fs') →
  (out = "Result: " ^+ deadlock_message ^+ nl ∧ deadlock_reachable n e q) ∨
  (out = "Result: " ^+ deadlock_free_message ^+ nl ∧ ¬ deadlock_reachable n e q).
Proof.
  intros Hdiff Hskip Hn Hlola He Hq Le Lq Hrun.
  destruct (run_verdict _ _ _ _ _ Hdiff Hskip Hrun) as (n' & Hn' & Hv). rewrite Hn in Hn'. injection Hn' as <-. by apply Hv.
Qed.
End files.
End cli_spec.
