(* ===== verification/Programs.v ===== *)
(** * Example programs

    The MIR of programs under examples/programs, as the compiler presents it to
    the translator, and the token game run on their nets. *)

From S2P Require Import Prelude RustStr Naming Netcrab NetModel Rustc Translator.

(** A program: the printed path, the visitor callbacks and the debug
    information of each function, and the types of locals. *)
Record Program := mkProgram {
  p_paths : list string;
  p_bodies : list (list VisitorCall);
  p_debug : list (list VarDebugInfoContents);
  p_local_ty : list (N * N * string);
  p_closures : list (N * N * N);
}.

(** Types of locals are numbered from [1000] by their position in
    [p_local_ty]; the type of the function item [k] is [k], and a local of
    closure type [k] has type [k] too. *)
Fixpoint local_ty_id (l : list (N * N * string)) (d v : N) (pos : N) : N :=
  match l with
  | [] => 999
  | (d', v', _) :: l' => if (d =? d')%N && (v =? v')%N then 1000 + pos else local_ty_id l' d v (pos + 1)
  end.
Fixpoint closure_ty_id (l : list (N * N * N)) (d v : N) : option N :=
  match l with
  | [] => None
  | (d', v', k) :: l' => if (d =? d')%N && (v =? v')%N then Some k else closure_ty_id l' d v
  end.

Definition tcx_of (p : Program) : TyCtxt := {|
  entry_fn := Some (mkDefId 0 0);
  def_path_str d := default "" (p_paths p !! N.to_nat (def_index d));
  body_visits d := default [] (p_bodies p !! N.to_nat (def_index d));
  var_debug_info d := default [] (p_debug p !! N.to_nat (def_index d));
  place_ty d pl :=
    mkTy (match closure_ty_id (p_closures p) (def_index d) (local pl) with
          | Some k => k
          | None => local_ty_id (p_local_ty p) (def_index d) (local pl) 0
          end);
  ty_to_string t :=
    if (1000 <=? ty_id t)%N
    then default "" (snd <$> p_local_ty p !! N.to_nat (ty_id t - 1000)) else "";
  ty_kind t := if (ty_id t <? 999)%N then FnDef (mkDefId 0 (ty_id t)) else OtherTyKind;
  is_foreign_item _ := false;
  is_mir_available d := match p_bodies p !! N.to_nat (def_index d) with Some (_ :: _) => true | _ => false end;
|}.

Definition loc (n : N) : Place := mkPlace n [].
Definition fn (k : N) : Operand := Constant (mkConst None (ConstVal ZeroSized) (mkTy k)).
Definition scalar : Operand := Constant (mkConst None (ConstVal Scalar) (mkTy 999)).

(** examples/programs/mutex/double_lock_deadlock.rs *)
Definition double_lock_deadlock : Program := {|
  p_paths := ["main"; "std::sync::Mutex::<T>::new"; "std::sync::Mutex::<T>::lock"];
  p_bodies := [[
    VisitBasicBlockData 0;
    VisitTerminator (Call (fn 1) [scalar] (loc 1) (Some 1%N) UnwindContinue);
    VisitBasicBlockData 1;
    VisitAssign (loc 3) (Ref (loc 1));
    VisitTerminator (Call (fn 2) [Move (loc 3)] (loc 2) (Some 2%N) UnwindContinue);
    VisitBasicBlockData 2;
    VisitAssign (loc 5) (Ref (loc 1));
    VisitTerminator (Call (fn 2) [Move (loc 5)] (loc 4) (Some 3%N) (UnwindCleanup 6));
    VisitBasicBlockData 3;
    VisitTerminator (Drop (loc 4) 4 (UnwindCleanup 6));
    VisitBasicBlockData 4;
    VisitTerminator (Drop (loc 2) 5 UnwindContinue);
    VisitBasicBlockData 5;
    VisitTerminator Return;
    VisitBasicBlockData 6;
    VisitTerminator (Drop (loc 2) 7 UnwindActionTerminate);
    VisitBasicBlockData 7;
    VisitTerminator UnwindResume]];
  p_debug := [];
  p_local_ty := [(0, 1, "std::sync::Mutex<i32>"); (0, 3, "&std::sync::Mutex<i32>");
                 (0, 5, "&std::sync::Mutex<i32>");
                 (0, 2, "std::result::Result<std::sync::MutexGuard<'_, i32>, E>");
                 (0, 4, "std::result::Result<std::sync::MutexGuard<'_, i32>, E>")]%N;
  p_closures := [];
|}.

(** examples/programs/mutex/drop_mutex_guard_manually.rs *)
Definition drop_mutex_guard_manually : Program := {|
  p_paths := ["main"; "std::sync::Mutex::<T>::new"; "std::sync::Mutex::<T>::lock"; "std::mem::drop"];
  p_bodies := [[
    VisitBasicBlockData 0;
    VisitTerminator (Call (fn 1) [scalar] (loc 1) (Some 1%N) UnwindContinue);
    VisitBasicBlockData 1;
    VisitAssign (loc 3) (Ref (loc 1));
    VisitTerminator (Call (fn 2) [Move (loc 3)] (loc 2) (Some 2%N) UnwindContinue);
    VisitBasicBlockData 2;
    VisitAssign (loc 5) (Use (Move (loc 2)));
    VisitTerminator (Call (fn 3) [Move (loc 5)] (loc 4) (Some 3%N) UnwindContinue);
    VisitBasicBlockData 3;
    VisitAssign (loc 7) (Ref (loc 1));
    VisitTerminator (Call (fn 2) [Move (loc 7)] (loc 6) (Some 4%N) UnwindContinue);
    VisitBasicBlockData 4;
    VisitTerminator (Drop (loc 6) 5 UnwindContinue);
    VisitBasicBlockData 5;
    VisitTerminator Return]];
  p_debug := [];
  p_local_ty := [(0, 1, "std::sync::Mutex<i32>"); (0, 3, "&std::sync::Mutex<i32>");
                 (0, 7, "&std::sync::Mutex<i32>");
                 (0, 2, "std::result::Result<std::sync::MutexGuard<'_, i32>, E>");
                 (0, 5, "std::result::Result<std::sync::MutexGuard<'_, i32>, E>");
                 (0, 6, "std::result::Result<std::sync::MutexGuard<'_, i32>, E>")]%N;
  p_closures := [];
|}.

(** examples/programs/thread/spawn_with_empty_closure.rs *)
Definition spawn_with_empty_closure : Program := {|
  p_paths := ["main"; "main::{closure#0}"; "std::thread::spawn"; "std::thread::JoinHandle::<T>::join"];
  p_bodies := [
    [VisitBasicBlockData 0;
     VisitTerminator (Call (fn 2) [fn 1] (loc 1) (Some 1%N) UnwindContinue);
     VisitBasicBlockData 1;
     VisitAssign (loc 3) (Use (Move (loc 1)));
     VisitTerminator (Call (fn 3) [Move (loc 3)] (loc 2) (Some 2%N) UnwindContinue);
     VisitBasicBlockData 2;
     VisitTerminator (Drop (loc 2) 3 UnwindContinue);
     VisitBasicBlockData 3;
     VisitTerminator Return];
    [VisitBasicBlockData 0; VisitTerminator Return]];
  p_debug := [];
  p_local_ty := [(0, 1, "std::thread::JoinHandle<()>"); (0, 3, "std::thread::JoinHandle<()>")]%N;
  p_closures := [];
|}.

(** examples/programs/function_call/two_calls_same_function.rs *)
Definition two_calls_same_function : Program := {|
  p_paths := ["main"; "simple_function"; "core::panicking::panic"];
  p_bodies := [
    [VisitBasicBlockData 0;
     VisitTerminator (Call (fn 1) [] (loc 2) (Some 1%N) UnwindContinue);
     VisitBasicBlockData 1;
     VisitTerminator (SwitchInt [3; 2]%N);
     VisitBasicBlockData 2;
     VisitTerminator (Call (fn 2) [scalar] (loc 3) None UnwindContinue);
     VisitBasicBlockData 3;
     VisitTerminator (Call (fn 1) [] (loc 4) (Some 4%N) UnwindContinue);
     VisitBasicBlockData 4;
     VisitTerminator Return];
    [VisitBasicBlockData 0; VisitTerminator Return]];
  p_debug := [];
  p_local_ty := [];
  p_closures := [];
|}.

(** examples/programs/statement/{empty_main,panic,abort,infinite_loop}.rs *)
Definition statement_program (callee : string) (body : list VisitorCall) : Program := {|
  p_paths := ["main"; callee]; p_bodies := [body]; p_debug := []; p_local_ty := []; p_closures := [];
|}.
Definition empty_main : Program :=
  statement_program "" [VisitBasicBlockData 0; VisitTerminator Return].
Definition panic : Program :=
  statement_program "core::panicking::panic"
    [VisitBasicBlockData 0; VisitTerminator (Call (fn 1) [scalar] (loc 1) None UnwindContinue)].
Definition abort : Program :=
  statement_program "std::process::abort"
    [VisitBasicBlockData 0; VisitTerminator (Call (fn 1) [] (loc 1) None UnwindContinue)].
Definition infinite_loop : Program :=
  statement_program ""
    [VisitBasicBlockData 0; VisitTerminator (Goto 1); VisitBasicBlockData 1; VisitTerminator (Goto 1)].

(** examples/programs/statement/match.rs *)
Definition match_stmt : Program := {|
  p_paths := ["main"; "std::env::args"; "std::iter::ExactSizeIterator::len"];
  p_bodies := [[
    VisitBasicBlockData 0;
    VisitTerminator (Call (fn 1) [] (loc 3) (Some 1%N) UnwindContinue);
    VisitBasicBlockData 1;
    VisitAssign (loc 2) (Ref (loc 3));
    VisitTerminator (Call (fn 2) [Move (loc 2)] (loc 1) (Some 2%N) (UnwindCleanup 4));
    VisitBasicBlockData 2;
    VisitTerminator (Drop (loc 3) 3 UnwindContinue);
    VisitBasicBlockData 3;
    VisitTerminator Return;
    VisitBasicBlockData 4;
    VisitTerminator (Drop (loc 3) 5 UnwindActionTerminate);
    VisitBasicBlockData 5;
    VisitTerminator UnwindResume]];
  p_debug := [];
  p_local_ty := [];
  p_closures := [];
|}.

(** examples/programs/function_call/in_a_loop.rs *)
Definition in_a_loop : Program := {|
  p_paths := ["main"; "call"; "std::iter::IntoIterator::into_iter"; "std::iter::Iterator::next"];
  p_bodies := [
    [VisitBasicBlockData 0;
     VisitTerminator (Call (fn 2) [Move (loc 2)] (loc 1) (Some 1%N) UnwindContinue);
     VisitBasicBlockData 1;
     VisitAssign (loc 3) (Use (Move (loc 1)));
     VisitTerminator (Goto 2);
     VisitBasicBlockData 2;
     VisitAssign (loc 5) (Ref (loc 3));
     VisitTerminator (Call (fn 3) [Copy (loc 5)] (loc 4) (Some 3%N) UnwindContinue);
     VisitBasicBlockData 3;
     VisitTerminator (SwitchInt [6; 5; 4]%N);
     VisitBasicBlockData 4;
     VisitTerminator Unreachable;
     VisitBasicBlockData 5;
     VisitTerminator (Call (fn 1) [] (loc 6) (Some 2%N) UnwindContinue);
     VisitBasicBlockData 6;
     VisitTerminator Return];
    [VisitBasicBlockData 0; VisitTerminator Return]];
  p_debug := [];
  p_local_ty := [];
  p_closures := [];
|}.

(** A thread that spawns a thread: the closure of [main] spawns another one. *)
Definition nested_spawn : Program := {|
  p_paths := ["main"; "main::{closure#0}"; "main::{closure#0}::{closure#0}"; "std::thread::spawn"];
  p_bodies := [
    [VisitBasicBlockData 0;
     VisitTerminator (Call (fn 3) [fn 1] (loc 1) (Some 1%N) UnwindContinue);
     VisitBasicBlockData 1;
     VisitTerminator Return];
    [VisitBasicBlockData 0;
     VisitTerminator (Call (fn 3) [fn 2] (loc 1) (Some 1%N) UnwindContinue);
     VisitBasicBlockData 1;
     VisitTerminator Return];
    [VisitBasicBlockData 0; VisitTerminator Return]];
  p_debug := [];
  p_local_ty := [(0, 1, "std::thread::JoinHandle<()>"); (1, 1, "std::thread::JoinHandle<()>")]%N;
  p_closures := [];
|}.

(** A function that calls itself. *)
Definition recursive_main : Program := {|
  p_paths := ["main"; "count_down"];
  p_bodies := [
    [VisitBasicBlockData 0;
     VisitTerminator (Call (fn 1) [scalar] (loc 1) (Some 1%N) UnwindContinue);
     VisitBasicBlockData 1;
     VisitTerminator Return];
    [VisitBasicBlockData 0;
     VisitTerminator (SwitchInt [1; 2]%N);
     VisitBasicBlockData 1;
     VisitTerminator Return;
     VisitBasicBlockData 2;
     VisitTerminator (Call (fn 1) [Copy (loc 2)] (loc 0) (Some 1%N) UnwindContinue)]];
  p_debug := [];
  p_local_ty := [];
  p_closures := [];
|}.

(** ** Nets as the export formats list them *)

(** The places with their tokens, and the transitions with the places they
    consume from and produce to, by label. *)
Definition Listing : Type :=
  list (string * N) * list (string * list (string * N) * list (string * N)).

Definition arcs_listing (n : SNet) (arcs : gmap N N) : list (string * N) :=
  (λ '(p, k), (default "" (fst <$> s_places n !! N.to_nat p), k)) <$> map_to_list arcs.

Definition listing (n : SNet) : Listing :=
  (s_places n, (λ t, (t_label t, arcs_listing n (t_pre t), arcs_listing n (t_post t))) <$> s_transitions n).

(** The same elements in some order: as many, and each found on the other side. *)
Definition same_elements {A} (eqb : A → A → bool) (l k : list A) : bool :=
  (length l =? length k)%nat && forallb (λ x, existsb (eqb x) k) l && forallb (λ x, existsb (eqb x) l) k.

Definition same_listing (l k : Listing) : bool :=
  let eqp (a b : string * N) := if String.eqb a.1 b.1 then (a.2 =? b.2)%N else false in
  same_elements eqp l.1 k.1 &&
  same_elements (λ '(a, c, p) '(a', c', p'),
    if String.eqb a a' then same_elements eqp c c' && same_elements eqp p p' else false) l.2 k.2.

(** Whether the translation of a program gives the listed net. *)
Definition translates_to (fuel : nat) (p : Program) (l : Listing) : bool :=
  match translate (tcx_of p) fuel fuel with
  | Ok n => same_listing (listing n) l
  | Err _ => false
  end.
