(* ===== verification/ThreadPrograms.v ===== *)
(** * Example programs with shared state

    The MIR of programs of examples/programs that share mutexes and condition
    variables, some of them with another thread through a closure. *)

From S2P Require Import Prelude RustStr Naming Netcrab NetModel Rustc Translator Programs.

(** Field [k] of a local, and of what a local refers to. *)
Definition field (n k : N) : Place := mkPlace n [Field k (mkTy 999)].
Definition deref_field (n k : N) : Place := mkPlace n [Deref; Field k (mkTy 999)].

(** examples/programs/thread/{detached,diverging}.rs: the closure captures
    nothing. *)
Definition spawned_closure (main_tail closure_body : list VisitorCall) : Program := {|
  p_paths := ["main"; "main::{closure#0}"; "std::thread::spawn"; "std::thread::JoinHandle::<T>::join"];
  p_bodies := [
    VisitBasicBlockData 0 ::
    VisitTerminator (Call (fn 2) [fn 1] (loc 1) (Some 1%N) UnwindContinue) :: main_tail;
    closure_body];
  p_debug := [];
  p_local_ty := [(0, 1, "std::thread::JoinHandle<()>"); (0, 3, "std::thread::JoinHandle<()>")]%N;
  p_closures := [];
|}.
Definition detached : Program :=
  spawned_closure
    [VisitBasicBlockData 1; VisitTerminator (Drop (loc 1) 2 UnwindContinue);
     VisitBasicBlockData 2; VisitTerminator Return]
    [VisitBasicBlockData 0; VisitTerminator Return].
Definition diverging_thread : Program :=
  spawned_closure
    [VisitBasicBlockData 1;
     VisitAssign (loc 3) (Use (Move (loc 1)));
     VisitTerminator (Call (fn 3) [Move (loc 3)] (loc 2) (Some 2%N) UnwindContinue);
     VisitBasicBlockData 2; VisitTerminator (Drop (loc 2) 3 UnwindContinue);
     VisitBasicBlockData 3; VisitTerminator Return]
    [VisitBasicBlockData 0; VisitTerminator (Goto 1); VisitBasicBlockData 1; VisitTerminator (Goto 1)].

(** examples/programs/mutex/double_lock_deadlock_in_function.rs: the two
    functions have the body of [main] in double_lock_deadlock.rs. *)
Definition double_lock_body (new lock : N) : list VisitorCall := [
  VisitBasicBlockData 0;
  VisitTerminator (Call (fn new) [scalar] (loc 1) (Some 1%N) UnwindContinue);
  VisitBasicBlockData 1;
  VisitAssign (loc 3) (Ref (loc 1));
  VisitTerminator (Call (fn lock) [Move (loc 3)] (loc 2) (Some 2%N) UnwindContinue);
  VisitBasicBlockData 2;
  VisitAssign (loc 5) (Ref (loc 1));
  VisitTerminator (Call (fn lock) [Move (loc 5)] (loc 4) (Some 3%N) (UnwindCleanup 6));
  VisitBasicBlockData 3;
  VisitTerminator (Drop (loc 4) 4 (UnwindCleanup 6));
  VisitBasicBlockData 4;
  VisitTerminator (Drop (loc 2) 5 UnwindContinue);
  VisitBasicBlockData 5;
  VisitTerminator Return;
  VisitBasicBlockData 6;
  VisitTerminator (Drop (loc 2) 7 UnwindActionTerminate);
  VisitBasicBlockData 7;
  VisitTerminator UnwindResume].
Definition double_lock_types (d : N) : list (N * N * string) :=
  [(d, 1, "std::sync::Mutex<i32>"); (d, 3, "&std::sync::Mutex<i32>"); (d, 5, "&std::sync::Mutex<i32>");
   (d, 2, "std::result::Result<std::sync::MutexGuard<'_, i32>, E>");
   (d, 4, "std::result::Result<std::sync::MutexGuard<'_, i32>, E>")]%N.
Definition double_lock_deadlock_in_function : Program := {|
  p_paths := ["main"; "first_deadlock"; "second_deadlock"; "std::sync::Mutex::<T>::new";
              "std::sync::Mutex::<T>::lock"];
  p_bodies := [
    [VisitBasicBlockData 0;
     VisitTerminator (Call (fn 1) [] (loc 1) (Some 1%N) UnwindContinue);
     VisitBasicBlockData 1;
     VisitTerminator (Call (fn 2) [] (loc 2) (Some 2%N) UnwindContinue);
     VisitBasicBlockData 2;
     VisitTerminator Return];
    double_lock_body 3 4; double_lock_body 3 4];
  p_debug := [];
  p_local_ty := double_lock_types 1 ++ double_lock_types 2;
  p_closures := [];
|}.

(** examples/programs/condvar/infinite_wait_deadlock.rs *)
Definition infinite_wait_deadlock : Program := {|
  p_paths := ["main"; "std::sync::Mutex::<T>::new"; "std::sync::Condvar::new"; "std::sync::Mutex::<T>::lock";
              "std::result::Result::<T, E>::unwrap"; "std::sync::Condvar::wait"];
  p_bodies := [[
    VisitBasicBlockData 0;
    VisitTerminator (Call (fn 1) [scalar] (loc 1) (Some 1%N) UnwindContinue);
    VisitBasicBlockData 1;
    VisitTerminator (Call (fn 2) [] (loc 2) (Some 2%N) UnwindContinue);
    VisitBasicBlockData 2;
    VisitAssign (loc 5) (Ref (loc 1));
    VisitTerminator (Call (fn 3) [Move (loc 5)] (loc 4) (Some 3%N) UnwindContinue);
    VisitBasicBlockData 3;
    VisitTerminator (Call (fn 4) [Move (loc 4)] (loc 3) (Some 4%N) UnwindContinue);
    VisitBasicBlockData 4;
    VisitAssign (loc 7) (Ref (loc 2));
    VisitAssign (loc 8) (Use (Move (loc 3)));
    VisitTerminator (Call (fn 5) [Move (loc 7); Move (loc 8)] (loc 6) (Some 5%N) UnwindContinue);
    VisitBasicBlockData 5;
    VisitTerminator (Drop (loc 6) 6 UnwindContinue);
    VisitBasicBlockData 6;
    VisitTerminator Return]];
  p_debug := [];
  p_local_ty :=
    [(0, 1, "std::sync::Mutex<bool>"); (0, 2, "std::sync::Condvar"); (0, 5, "&std::sync::Mutex<bool>");
     (0, 4, "std::result::Result<std::sync::MutexGuard<'_, bool>, E>");
     (0, 3, "std::sync::MutexGuard<'_, bool>"); (0, 7, "&std::sync::Condvar");
     (0, 8, "std::sync::MutexGuard<'_, bool>");
     (0, 6, "std::result::Result<std::sync::MutexGuard<'_, bool>, E>")]%N;
  p_closures := [];
|}.

(** examples/programs/condvar/self_notify_lost_signal.rs *)
Definition self_notify_lost_signal : Program := {|
  p_paths := ["main"; "std::sync::Mutex::<T>::new"; "std::sync::Condvar::new"; "std::sync::Mutex::<T>::lock";
              "std::result::Result::<T, E>::unwrap"; "std::sync::Condvar::notify_one"; "std::sync::Condvar::wait"];
  p_bodies := [[
    VisitBasicBlockData 0;
    VisitTerminator (Call (fn 1) [scalar] (loc 1) (Some 1%N) UnwindContinue);
    VisitBasicBlockData 1;
    VisitTerminator (Call (fn 2) [] (loc 2) (Some 2%N) UnwindContinue);
    VisitBasicBlockData 2;
    VisitAssign (loc 5) (Ref (loc 1));
    VisitTerminator (Call (fn 3) [Move (loc 5)] (loc 4) (Some 3%N) UnwindContinue);
    VisitBasicBlockData 3;
    VisitTerminator (Call (fn 4) [Move (loc 4)] (loc 3) (Some 4%N) UnwindContinue);
    VisitBasicBlockData 4;
    VisitAssign (loc 7) (Ref (loc 2));
    VisitTerminator (Call (fn 5) [Move (loc 7)] (loc 6) (Some 5%N) (UnwindCleanup 10));
    VisitBasicBlockData 5;
    VisitAssign (loc 9) (Ref (loc 2));
    VisitAssign (loc 10) (Use (Move (loc 3)));
    VisitTerminator (Call (fn 6) [Move (loc 9); Move (loc 10)] (loc 8) (Some 6%N) (UnwindCleanup 10));
    VisitBasicBlockData 6;
    VisitTerminator (Drop (loc 8) 7 (UnwindCleanup 10));
    VisitBasicBlockData 7;
    VisitTerminator Return;
    VisitBasicBlockData 8;
    VisitTerminator UnwindResume;
    VisitBasicBlockData 9;
    VisitTerminator (Drop (loc 3) 8 UnwindActionTerminate);
    VisitBasicBlockData 10;
    VisitTerminator (SwitchInt [8; 9]%N)]];
  p_debug := [];
  p_local_ty :=
    [(0, 1, "std::sync::Mutex<bool>"); (0, 2, "std::sync::Condvar"); (0, 5, "&std::sync::Mutex<bool>");
     (0, 4, "std::result::Result<std::sync::MutexGuard<'_, bool>, E>");
     (0, 3, "std::sync::MutexGuard<'_, bool>"); (0, 7, "&std::sync::Condvar"); (0, 9, "&std::sync::Condvar");
     (0, 10, "std::sync::MutexGuard<'_, bool>");
     (0, 8, "std::result::Result<std::sync::MutexGuard<'_, bool>, E>")]%N;
  p_closures := [];
|}.

(** examples/programs/mutex/two_threads_sharing_mutex.rs *)
Definition two_threads_sharing_mutex : Program := {|
  p_paths := ["main"; "main::{closure#0}"; "std::sync::Mutex::<T>::new"; "std::sync::Arc::<T>::new";
              "std::clone::Clone::clone"; "std::thread::spawn"; "std::ops::Deref::deref";
              "std::sync::Mutex::<T>::lock"; "std::mem::drop"; "std::thread::JoinHandle::<T>::join"];
  p_bodies := [
    [VisitBasicBlockData 0;
     VisitTerminator (Call (fn 2) [scalar] (loc 2) (Some 1%N) UnwindContinue);
     VisitBasicBlockData 1;
     VisitTerminator (Call (fn 3) [Move (loc 2)] (loc 1) (Some 2%N) UnwindContinue);
     VisitBasicBlockData 2;
     VisitAssign (loc 4) (Ref (loc 1));
     VisitTerminator (Call (fn 4) [Move (loc 4)] (loc 3) (Some 3%N) (UnwindCleanup 11));
     VisitBasicBlockData 3;
     VisitAssign (loc 6) (Aggregate [Move (loc 3)]);
     VisitTerminator (Call (fn 5) [Move (loc 6)] (loc 5) (Some 4%N) (UnwindCleanup 11));
     VisitBasicBlockData 4;
     VisitAssign (loc 9) (Ref (loc 1));
     VisitTerminator (Call (fn 6) [Move (loc 9)] (loc 8) (Some 5%N) (UnwindCleanup 14));
     VisitBasicBlockData 5;
     VisitTerminator (Call (fn 7) [Copy (loc 8)] (loc 7) (Some 6%N) (UnwindCleanup 14));
     VisitBasicBlockData 6;
     VisitAssign (loc 11) (Use (Move (loc 7)));
     VisitTerminator (Call (fn 8) [Move (loc 11)] (loc 10) (Some 7%N) (UnwindCleanup 14));
     VisitBasicBlockData 7;
     VisitAssign (loc 13) (Use (Move (loc 5)));
     VisitTerminator (Call (fn 9) [Move (loc 13)] (loc 12) (Some 8%N) (UnwindCleanup 14));
     VisitBasicBlockData 8;
     VisitTerminator (Drop (loc 12) 9 (UnwindCleanup 14));
     VisitBasicBlockData 9;
     VisitTerminator (Drop (loc 1) 10 UnwindContinue);
     VisitBasicBlockData 10;
     VisitTerminator Return;
     VisitBasicBlockData 11;
     VisitTerminator (Drop (loc 1) 12 UnwindActionTerminate);
     VisitBasicBlockData 12;
     VisitTerminator UnwindResume;
     VisitBasicBlockData 13;
     VisitTerminator (Drop (loc 5) 11 UnwindActionTerminate);
     VisitBasicBlockData 14;
     VisitTerminator (SwitchInt [11; 13]%N)];
    [VisitBasicBlockData 0;
     VisitAssign (loc 4) (Ref (field 1 0));
     VisitTerminator (Call (fn 6) [Move (loc 4)] (loc 3) (Some 1%N) (UnwindCleanup 5));
     VisitBasicBlockData 1;
     VisitTerminator (Call (fn 7) [Copy (loc 3)] (loc 2) (Some 2%N) (UnwindCleanup 5));
     VisitBasicBlockData 2;
     VisitTerminator (Drop (loc 2) 3 (UnwindCleanup 5));
     VisitBasicBlockData 3;
     VisitTerminator (Drop (loc 1) 4 UnwindContinue);
     VisitBasicBlockData 4;
     VisitTerminator Return;
     VisitBasicBlockData 5;
     VisitTerminator (Drop (loc 1) 6 UnwindActionTerminate);
     VisitBasicBlockData 6;
     VisitTerminator UnwindResume]];
  p_debug := [[]; [DebugPlace (field 1 0)]];
  p_local_ty :=
    [(0, 1, "std::sync::Arc<std::sync::Mutex<i32>>"); (0, 2, "std::sync::Mutex<i32>");
     (0, 3, "std::sync::Arc<std::sync::Mutex<i32>>"); (0, 4, "&std::sync::Arc<std::sync::Mutex<i32>>");
     (0, 5, "std::thread::JoinHandle<()>"); (0, 8, "&std::sync::Mutex<i32>");
     (0, 9, "&std::sync::Arc<std::sync::Mutex<i32>>");
     (0, 7, "std::result::Result<std::sync::MutexGuard<'_, i32>, E>");
     (0, 11, "std::result::Result<std::sync::MutexGuard<'_, i32>, E>");
     (0, 13, "std::thread::JoinHandle<()>");
     (1, 4, "&std::sync::Arc<std::sync::Mutex<i32>>"); (1, 3, "&std::sync::Mutex<i32>");
     (1, 2, "std::result::Result<std::sync::MutexGuard<'_, i32>, E>")]%N;
  p_closures := [(0, 6, 1)]%N;
|}.

(** A program like the last one whose closure captures a number, too:
    [let n = 0; thread::spawn(move || { let _n = n; let _data = copy_data.lock(); })].
    The number is the first field of the captured state. *)
Definition capture_number_and_mutex : Program := {|
  p_paths := p_paths two_threads_sharing_mutex;
  p_bodies := [
    [VisitBasicBlockData 0;
     VisitTerminator (Call (fn 2) [scalar] (loc 2) (Some 1%N) UnwindContinue);
     VisitBasicBlockData 1;
     VisitTerminator (Call (fn 3) [Move (loc 2)] (loc 1) (Some 2%N) UnwindContinue);
     VisitBasicBlockData 2;
     VisitAssign (loc 6) (Aggregate [Copy (loc 7); Move (loc 1)]);
     VisitTerminator (Call (fn 5) [Move (loc 6)] (loc 5) (Some 3%N) UnwindContinue);
     VisitBasicBlockData 3;
     VisitTerminator Return];
    [VisitBasicBlockData 0;
     VisitAssign (loc 4) (Ref (field 1 1));
     VisitTerminator (Call (fn 6) [Move (loc 4)] (loc 3) (Some 1%N) UnwindContinue);
     VisitBasicBlockData 1;
     VisitTerminator (Call (fn 7) [Copy (loc 3)] (loc 2) (Some 2%N) UnwindContinue);
     VisitBasicBlockData 2;
     VisitTerminator (Drop (loc 2) 3 UnwindContinue);
     VisitBasicBlockData 3;
     VisitTerminator Return]];
  p_debug := [[]; [DebugPlace (field 1 0); DebugPlace (field 1 1)]];
  p_local_ty :=
    [(0, 1, "std::sync::Arc<std::sync::Mutex<i32>>"); (0, 2, "std::sync::Mutex<i32>");
     (0, 5, "std::thread::JoinHandle<()>"); (0, 7, "i32");
     (1, 4, "&std::sync::Arc<std::sync::Mutex<i32>>"); (1, 3, "&std::sync::Mutex<i32>");
     (1, 2, "std::result::Result<std::sync::MutexGuard<'_, i32>, E>")]%N;
  p_closures := [(0, 6, 1)]%N;
|}.

(** examples/programs/condvar/set_condition_before_wait.rs *)
Definition set_condition_before_wait : Program := {|
  p_paths := ["main"; "main::{closure#0}"; "std::sync::Mutex::<T>::new"; "std::sync::Arc::<T>::new";
              "std::clone::Clone::clone"; "std::thread::spawn"; "std::ops::Deref::deref";
              "std::sync::Mutex::<T>::lock"; "std::mem::drop"; "std::thread::JoinHandle::<T>::join";
              "std::sync::Condvar::new"; "std::result::Result::<T, E>::unwrap";
              "std::ops::DerefMut::deref_mut"; "std::sync::Condvar::notify_one";
              "std::sync::Condvar::wait_while"];
  p_bodies := [
    [VisitBasicBlockData 0;
     VisitTerminator (Call (fn 2) [scalar] (loc 3) (Some 1%N) UnwindContinue);
     VisitBasicBlockData 1;
     VisitTerminator (Call (fn 10) [] (loc 4) (Some 2%N) UnwindContinue);
     VisitBasicBlockData 2;
     VisitAssign (loc 2) (Aggregate [Move (loc 3); Move (loc 4)]);
     VisitTerminator (Call (fn 3) [Move (loc 2)] (loc 1) (Some 3%N) UnwindContinue);
     VisitBasicBlockData 3;
     VisitAssign (loc 6) (Ref (loc 1));
     VisitTerminator (Call (fn 4) [Move (loc 6)] (loc 5) (Some 4%N) (UnwindCleanup 22));
     VisitBasicBlockData 4;
     VisitAssign (loc 8) (Aggregate [Move (loc 1)]);
     VisitTerminator (Call (fn 5) [Move (loc 8)] (loc 7) (Some 5%N) (UnwindCleanup 15));
     VisitBasicBlockData 5;
     VisitAssign (loc 11) (Ref (loc 5));
     VisitTerminator (Call (fn 6) [Move (loc 11)] (loc 10) (Some 6%N) (UnwindCleanup 20));
     VisitBasicBlockData 6;
     VisitAssign (loc 9) (Ref (deref_field 10 0));
     VisitAssign (loc 12) (Ref (deref_field 10 1));
     VisitTerminator (Call (fn 7) [Copy (loc 9)] (loc 14) (Some 7%N) (UnwindCleanup 20));
     VisitBasicBlockData 7;
     VisitTerminator (Call (fn 11) [Move (loc 14)] (loc 13) (Some 8%N) (UnwindCleanup 20));
     VisitBasicBlockData 8;
     VisitAssign (loc 16) (Ref (loc 13));
     VisitTerminator (Call (fn 12) [Move (loc 16)] (loc 15) (Some 9%N) (UnwindCleanup 18));
     VisitBasicBlockData 9;
     VisitAssign (mkPlace 15 [Deref]) (Use scalar);
     VisitTerminator (Call (fn 13) [Copy (loc 12)] (loc 17) (Some 10%N) (UnwindCleanup 18));
     VisitBasicBlockData 10;
     VisitAssign (loc 19) (Use (Move (loc 13)));
     VisitTerminator (Call (fn 8) [Move (loc 19)] (loc 18) (Some 11%N) (UnwindCleanup 18));
     VisitBasicBlockData 11;
     VisitAssign (loc 22) (Use (Move (loc 7)));
     VisitTerminator (Call (fn 9) [Move (loc 22)] (loc 21) (Some 12%N) (UnwindCleanup 18));
     VisitBasicBlockData 12;
     VisitTerminator (Call (fn 11) [Move (loc 21)] (loc 20) (Some 13%N) (UnwindCleanup 18));
     VisitBasicBlockData 13;
     VisitTerminator (Drop (loc 5) 14 (UnwindCleanup 22));
     VisitBasicBlockData 14;
     VisitTerminator Return;
     VisitBasicBlockData 15;
     VisitTerminator (Drop (loc 5) 22 UnwindActionTerminate);
     VisitBasicBlockData 16;
     VisitTerminator UnwindResume;
     VisitBasicBlockData 17;
     VisitTerminator (Drop (loc 13) 20 UnwindActionTerminate);
     VisitBasicBlockData 18;
     VisitTerminator (SwitchInt [20; 17]%N);
     VisitBasicBlockData 19;
     VisitTerminator (Drop (loc 7) 15 UnwindActionTerminate);
     VisitBasicBlockData 20;
     VisitTerminator (SwitchInt [15; 19]%N);
     VisitBasicBlockData 21;
     VisitTerminator (Drop (loc 1) 16 UnwindActionTerminate);
     VisitBasicBlockData 22;
     VisitTerminator (SwitchInt [16; 21]%N)];
    [VisitBasicBlockData 0;
     VisitAssign (loc 4) (Ref (field 1 0));
     VisitTerminator (Call (fn 6) [Move (loc 4)] (loc 3) (Some 1%N) (UnwindCleanup 8));
     VisitBasicBlockData 1;
     VisitAssign (loc 2) (Ref (deref_field 3 0));
     VisitAssign (loc 5) (Ref (deref_field 3 1));
     VisitTerminator (Call (fn 7) [Copy (loc 2)] (loc 8) (Some 2%N) (UnwindCleanup 8));
     VisitBasicBlockData 2;
     VisitTerminator (Call (fn 11) [Move (loc 8)] (loc 7) (Some 3%N) (UnwindCleanup 8));
     VisitBasicBlockData 3;
     VisitTerminator (Call (fn 14) [Copy (loc 5); Move (loc 7); scalar] (loc 6) (Some 4%N) (UnwindCleanup 8));
     VisitBasicBlockData 4;
     VisitTerminator (Call (fn 11) [Move (loc 6)] (loc 9) (Some 5%N) (UnwindCleanup 8));
     VisitBasicBlockData 5;
     VisitTerminator (Drop (loc 9) 6 (UnwindCleanup 8));
     VisitBasicBlockData 6;
     VisitTerminator (Drop (loc 1) 7 UnwindContinue);
     VisitBasicBlockData 7;
     VisitTerminator Return;
     VisitBasicBlockData 8;
     VisitTerminator (Drop (loc 1) 9 UnwindActionTerminate);
     VisitBasicBlockData 9;
     VisitTerminator UnwindResume]];
  p_debug := [[]; [DebugPlace (field 1 0)]];
  p_local_ty :=
    [(0, 1, "std::sync::Arc<(std::sync::Mutex<bool>, std::sync::Condvar)>");
     (0, 2, "(std::sync::Mutex<bool>, std::sync::Condvar)"); (0, 3, "std::sync::Mutex<bool>");
     (0, 4, "std::sync::Condvar"); (0, 5, "std::sync::Arc<(std::sync::Mutex<bool>, std::sync::Condvar)>");
     (0, 6, "&std::sync::Arc<(std::sync::Mutex<bool>, std::sync::Condvar)>");
     (0, 7, "std::thread::JoinHandle<()>"); (0, 9, "&std::sync::Mutex<bool>");
     (0, 10, "&(std::sync::Mutex<bool>, std::sync::Condvar)");
     (0, 11, "&std::sync::Arc<(std::sync::Mutex<bool>, std::sync::Condvar)>");
     (0, 12, "&std::sync::Condvar"); (0, 13, "std::sync::MutexGuard<'_, bool>");
     (0, 14, "std::result::Result<std::sync::MutexGuard<'_, bool>, E>"); (0, 15, "&mut bool");
     (0, 16, "&mut std::sync::MutexGuard<'_, bool>"); (0, 19, "std::sync::MutexGuard<'_, bool>");
     (0, 22, "std::thread::JoinHandle<()>");
     (0, 21, "std::result::Result<(), std::boxed::Box<dyn std::any::Any + std::marker::Send>>");
     (1, 4, "&std::sync::Arc<(std::sync::Mutex<bool>, std::sync::Condvar)>");
     (1, 3, "&(std::sync::Mutex<bool>, std::sync::Condvar)"); (1, 2, "&std::sync::Mutex<bool>");
     (1, 5, "&std::sync::Condvar"); (1, 8, "std::result::Result<std::sync::MutexGuard<'_, bool>, E>");
     (1, 7, "std::sync::MutexGuard<'_, bool>");
     (1, 6, "std::result::Result<std::sync::MutexGuard<'_, bool>, E>");
     (1, 9, "std::sync::MutexGuard<'_, bool>")]%N;
  p_closures := [(0, 8, 1)]%N;
|}.
