(* ===== verification/ConsolePrograms.v ===== *)
(** * Example programs that do not synchronize

    The MIR of the programs of examples/programs that print, parse and call, as
    far as the translator looks at it: operands that are no synchronization
    variables are left out unless a call is asked for its first argument. *)

From S2P Require Import Prelude RustStr Naming Netcrab NetModel Rustc Translator Programs.

(** examples/programs/basic/hello_world.rs *)
Definition hello_world : Program := {|
  p_paths := ["main"; "std::fmt::Arguments::<'a>::new_const"; "std::io::_print"];
  p_bodies := [
    [VisitBasicBlockData 0;
     VisitTerminator (Call (fn 1) [] (loc 2) (Some 1%N) UnwindContinue);
     VisitBasicBlockData 1;
     VisitTerminator (Call (fn 2) [] (loc 3) (Some 2%N) UnwindContinue);
     VisitBasicBlockData 2;
     VisitTerminator Return]];
  p_debug := [];
  p_local_ty := [];
  p_closures := [];
|}.

(** examples/programs/basic/greet.rs *)
Definition greet : Program := {|
  p_paths := ["main"; "std::env::args"; "std::iter::Iterator::collect"; "std::vec::Vec::<T, A>::len";
              "std::ops::Index::index"; "core::fmt::rt::Argument::<'_>::new_display";
              "std::fmt::Arguments::<'a>::new_v1"; "std::io::_eprint"; "std::process::exit";
              "std::io::_print"];
  p_bodies := [
    [VisitBasicBlockData 0;
     VisitTerminator (Call (fn 1) [] (loc 2) (Some 1%N) UnwindContinue);
     VisitBasicBlockData 1;
     VisitTerminator (Call (fn 2) [] (loc 3) (Some 2%N) UnwindContinue);
     VisitBasicBlockData 2;
     VisitTerminator (Call (fn 3) [] (loc 4) (Some 3%N) (UnwindCleanup 15));
     VisitBasicBlockData 3;
     VisitTerminator (SwitchInt [4; 9]%N);
     VisitBasicBlockData 4;
     VisitTerminator (Call (fn 4) [] (loc 6) (Some 5%N) (UnwindCleanup 15));
     VisitBasicBlockData 5;
     VisitTerminator (Call (fn 5) [] (loc 7) (Some 6%N) (UnwindCleanup 15));
     VisitBasicBlockData 6;
     VisitTerminator (Call (fn 6) [] (loc 8) (Some 7%N) (UnwindCleanup 15));
     VisitBasicBlockData 7;
     VisitTerminator (Call (fn 7) [] (loc 9) (Some 8%N) (UnwindCleanup 15));
     VisitBasicBlockData 8;
     VisitTerminator (Call (fn 8) [scalar] (loc 10) None (UnwindCleanup 15));
     VisitBasicBlockData 9;
     VisitTerminator (Call (fn 4) [] (loc 11) (Some 10%N) (UnwindCleanup 15));
     VisitBasicBlockData 10;
     VisitTerminator (Call (fn 5) [] (loc 12) (Some 11%N) (UnwindCleanup 15));
     VisitBasicBlockData 11;
     VisitTerminator (Call (fn 6) [] (loc 13) (Some 12%N) (UnwindCleanup 15));
     VisitBasicBlockData 12;
     VisitTerminator (Call (fn 9) [] (loc 14) (Some 13%N) (UnwindCleanup 15));
     VisitBasicBlockData 13;
     VisitTerminator (Drop (loc 1) 14 UnwindContinue);
     VisitBasicBlockData 14;
     VisitTerminator Return;
     VisitBasicBlockData 15;
     VisitTerminator (Drop (loc 1) 16 UnwindActionTerminate);
     VisitBasicBlockData 16;
     VisitTerminator UnwindResume]];
  p_debug := [];
  p_local_ty := [];
  p_closures := [];
|}.

(** examples/programs/basic/calculator.rs *)
Definition calculator : Program := {|
  p_paths := ["main"; "std::env::args"; "std::iter::Iterator::collect"; "std::vec::Vec::<T, A>::len";
              "std::ops::Index::index"; "core::fmt::rt::Argument::<'_>::new_display";
              "std::fmt::Arguments::<'a>::new_v1"; "std::io::_eprint"; "std::process::exit";
              "std::ops::Deref::deref"; "core::str::<impl str>::parse";
              "std::result::Result::<T, E>::expect"; "std::string::String::as_str";
              "std::cmp::PartialEq::eq"; "std::io::_print"];
  p_bodies := [
    [VisitBasicBlockData 0;
     VisitTerminator (Call (fn 1) [] (loc 2) (Some 1%N) UnwindContinue);
     VisitBasicBlockData 1;
     VisitTerminator (Call (fn 2) [] (loc 3) (Some 2%N) UnwindContinue);
     VisitBasicBlockData 2;
     VisitTerminator (Call (fn 3) [] (loc 4) (Some 3%N) (UnwindCleanup 40));
     VisitBasicBlockData 3;
     VisitTerminator (SwitchInt [4; 9]%N);
     VisitBasicBlockData 4;
     VisitTerminator (Call (fn 4) [] (loc 6) (Some 5%N) (UnwindCleanup 40));
     VisitBasicBlockData 5;
     VisitTerminator (Call (fn 5) [] (loc 7) (Some 6%N) (UnwindCleanup 40));
     VisitBasicBlockData 6;
     VisitTerminator (Call (fn 6) [] (loc 8) (Some 7%N) (UnwindCleanup 40));
     VisitBasicBlockData 7;
     VisitTerminator (Call (fn 7) [] (loc 9) (Some 8%N) (UnwindCleanup 40));
     VisitBasicBlockData 8;
     VisitTerminator (Call (fn 8) [scalar] (loc 10) None (UnwindCleanup 40));
     VisitBasicBlockData 9;
     VisitTerminator (Call (fn 4) [] (loc 11) (Some 10%N) (UnwindCleanup 40));
     VisitBasicBlockData 10;
     VisitTerminator (Call (fn 9) [Move (loc 11)] (loc 12) (Some 11%N) (UnwindCleanup 40));
     VisitBasicBlockData 11;
     VisitTerminator (Call (fn 10) [] (loc 13) (Some 12%N) (UnwindCleanup 40));
     VisitBasicBlockData 12;
     VisitTerminator (Call (fn 11) [] (loc 14) (Some 13%N) (UnwindCleanup 40));
     VisitBasicBlockData 13;
     VisitTerminator (Call (fn 4) [] (loc 15) (Some 14%N) (UnwindCleanup 40));
     VisitBasicBlockData 14;
     VisitTerminator (Call (fn 9) [Move (loc 15)] (loc 16) (Some 15%N) (UnwindCleanup 40));
     VisitBasicBlockData 15;
     VisitTerminator (Call (fn 10) [] (loc 17) (Some 16%N) (UnwindCleanup 40));
     VisitBasicBlockData 16;
     VisitTerminator (Call (fn 11) [] (loc 18) (Some 17%N) (UnwindCleanup 40));
     VisitBasicBlockData 17;
     VisitTerminator (Call (fn 4) [] (loc 19) (Some 18%N) (UnwindCleanup 40));
     VisitBasicBlockData 18;
     VisitTerminator (Call (fn 12) [] (loc 20) (Some 19%N) (UnwindCleanup 40));
     VisitBasicBlockData 19;
     VisitTerminator (Call (fn 13) [] (loc 21) (Some 31%N) (UnwindCleanup 40));
     VisitBasicBlockData 20;
     VisitTerminator (Call (fn 5) [] (loc 22) (Some 32%N) (UnwindCleanup 40));
     VisitBasicBlockData 21;
     VisitTerminator (Goto 35);
     VisitBasicBlockData 22;
     VisitTerminator (Call (fn 13) [] (loc 24) (Some 30%N) (UnwindCleanup 40));
     VisitBasicBlockData 23;
     VisitTerminator (Goto 35);
     VisitBasicBlockData 24;
     VisitTerminator (Call (fn 13) [] (loc 26) (Some 29%N) (UnwindCleanup 40));
     VisitBasicBlockData 25;
     VisitTerminator (Goto 35);
     VisitBasicBlockData 26;
     VisitTerminator (Call (fn 13) [] (loc 28) (Some 28%N) (UnwindCleanup 40));
     VisitBasicBlockData 27;
     VisitTerminator (Goto 35);
     VisitBasicBlockData 28;
     VisitTerminator (SwitchInt [20; 27]%N);
     VisitBasicBlockData 29;
     VisitTerminator (SwitchInt [25; 26]%N);
     VisitBasicBlockData 30;
     VisitTerminator (SwitchInt [23; 24]%N);
     VisitBasicBlockData 31;
     VisitTerminator (SwitchInt [21; 22]%N);
     VisitBasicBlockData 32;
     VisitTerminator (Call (fn 6) [] (loc 34) (Some 33%N) (UnwindCleanup 40));
     VisitBasicBlockData 33;
     VisitTerminator (Call (fn 7) [] (loc 35) (Some 34%N) (UnwindCleanup 40));
     VisitBasicBlockData 34;
     VisitTerminator (Call (fn 8) [scalar] (loc 36) None (UnwindCleanup 40));
     VisitBasicBlockData 35;
     VisitTerminator (Call (fn 5) [] (loc 37) (Some 36%N) (UnwindCleanup 40));
     VisitBasicBlockData 36;
     VisitTerminator (Call (fn 6) [] (loc 38) (Some 37%N) (UnwindCleanup 40));
     VisitBasicBlockData 37;
     VisitTerminator (Call (fn 14) [] (loc 39) (Some 38%N) (UnwindCleanup 40));
     VisitBasicBlockData 38;
     VisitTerminator (Drop (loc 1) 39 UnwindContinue);
     VisitBasicBlockData 39;
     VisitTerminator Return;
     VisitBasicBlockData 40;
     VisitTerminator (Drop (loc 1) 41 UnwindActionTerminate);
     VisitBasicBlockData 41;
     VisitTerminator UnwindResume]];
  p_debug := [];
  p_local_ty := [];
  p_closures := [];
|}.

(** examples/programs/statement/option.rs *)
Definition option_stmt : Program := {|
  p_paths := ["main"; "alloc::alloc::exchange_malloc"; "std::ops::Deref::deref";
              "core::slice::<impl [T]>::get"; "std::option::Option::<T>::is_some";
              "std::option::Option::<T>::unwrap"; "core::fmt::rt::Argument::<'_>::new_display";
              "std::fmt::Arguments::<'a>::new_v1"; "std::io::_print"; "std::slice::<impl [T]>::into_vec"];
  p_bodies := [
    [VisitBasicBlockData 0;
     VisitTerminator (Call (fn 1) [] (loc 2) (Some 1%N) UnwindContinue);
     VisitBasicBlockData 1;
     VisitTerminator (Assert 14 UnwindUnreachable);
     VisitBasicBlockData 2;
     VisitTerminator (Call (fn 2) [Move (loc 3)] (loc 4) (Some 3%N) (UnwindCleanup 12));
     VisitBasicBlockData 3;
     VisitTerminator (Call (fn 3) [] (loc 5) (Some 4%N) (UnwindCleanup 12));
     VisitBasicBlockData 4;
     VisitTerminator (Call (fn 4) [] (loc 6) (Some 5%N) (UnwindCleanup 12));
     VisitBasicBlockData 5;
     VisitTerminator (SwitchInt [10; 6]%N);
     VisitBasicBlockData 6;
     VisitTerminator (Call (fn 5) [] (loc 8) (Some 7%N) (UnwindCleanup 12));
     VisitBasicBlockData 7;
     VisitTerminator (Call (fn 6) [] (loc 9) (Some 8%N) (UnwindCleanup 12));
     VisitBasicBlockData 8;
     VisitTerminator (Call (fn 7) [] (loc 10) (Some 9%N) (UnwindCleanup 12));
     VisitBasicBlockData 9;
     VisitTerminator (Call (fn 8) [] (loc 11) (Some 15%N) (UnwindCleanup 12));
     VisitBasicBlockData 10;
     VisitTerminator (Drop (loc 1) 11 UnwindContinue);
     VisitBasicBlockData 11;
     VisitTerminator Return;
     VisitBasicBlockData 12;
     VisitTerminator (Drop (loc 1) 13 UnwindActionTerminate);
     VisitBasicBlockData 13;
     VisitTerminator UnwindResume;
     VisitBasicBlockData 14;
     VisitTerminator (Call (fn 9) [] (loc 16) (Some 2%N) UnwindContinue);
     VisitBasicBlockData 15;
     VisitTerminator (Goto 10)]];
  p_debug := [];
  p_local_ty := [];
  p_closures := [];
|}.

(** examples/programs/function_call/{empty_function,diverging}.rs *)
Definition empty_function : Program := {|
  p_paths := ["main"; "call"];
  p_bodies := [
    [VisitBasicBlockData 0;
     VisitTerminator (Call (fn 1) [] (loc 1) (Some 1%N) UnwindContinue);
     VisitBasicBlockData 1;
     VisitTerminator Return];
    [VisitBasicBlockData 0; VisitTerminator Return]];
  p_debug := [];
  p_local_ty := [];
  p_closures := [];
|}.
Definition diverging_function : Program := {|
  p_paths := ["main"; "does_not_return"];
  p_bodies := [
    [VisitBasicBlockData 0;
     VisitTerminator (Call (fn 1) [] (loc 0) None UnwindContinue)];
    [VisitBasicBlockData 0; VisitTerminator (Goto 1); VisitBasicBlockData 1; VisitTerminator (Goto 1)]];
  p_debug := [];
  p_local_ty := [];
  p_closures := [];
|}.

(** examples/programs/function_call/find_even.rs *)
Definition find_even : Program := {|
  p_paths := ["main"; "find_even"; "alloc::alloc::exchange_malloc"; "std::ops::Deref::deref";
              "core::fmt::rt::Argument::<'_>::new_display"; "std::fmt::Arguments::<'a>::new_v1";
              "std::io::_print"; "std::fmt::Arguments::<'a>::new_const"; "std::slice::<impl [T]>::into_vec";
              "std::iter::IntoIterator::into_iter"; "std::iter::Iterator::next"];
  p_bodies := [
    [VisitBasicBlockData 0;
     VisitTerminator (Call (fn 2) [] (loc 2) (Some 1%N) UnwindContinue);
     VisitBasicBlockData 1;
     VisitTerminator (Assert 14 UnwindUnreachable);
     VisitBasicBlockData 2;
     VisitTerminator (Call (fn 3) [Move (loc 3)] (loc 4) (Some 3%N) (UnwindCleanup 12));
     VisitBasicBlockData 3;
     VisitTerminator (Call (fn 1) [Copy (loc 4)] (loc 5) (Some 4%N) (UnwindCleanup 12));
     VisitBasicBlockData 4;
     VisitTerminator (SwitchInt [15; 5; 8]%N);
     VisitBasicBlockData 5;
     VisitTerminator (Call (fn 4) [] (loc 7) (Some 6%N) (UnwindCleanup 12));
     VisitBasicBlockData 6;
     VisitTerminator (Call (fn 5) [] (loc 8) (Some 7%N) (UnwindCleanup 12));
     VisitBasicBlockData 7;
     VisitTerminator (Call (fn 6) [] (loc 9) (Some 16%N) (UnwindCleanup 12));
     VisitBasicBlockData 8;
     VisitTerminator (Call (fn 7) [] (loc 10) (Some 9%N) (UnwindCleanup 12));
     VisitBasicBlockData 9;
     VisitTerminator (Call (fn 6) [] (loc 11) (Some 17%N) (UnwindCleanup 12));
     VisitBasicBlockData 10;
     VisitTerminator (Drop (loc 1) 11 UnwindContinue);
     VisitBasicBlockData 11;
     VisitTerminator Return;
     VisitBasicBlockData 12;
     VisitTerminator (Drop (loc 1) 13 UnwindActionTerminate);
     VisitBasicBlockData 13;
     VisitTerminator UnwindResume;
     VisitBasicBlockData 14;
     VisitTerminator (Call (fn 8) [] (loc 16) (Some 2%N) UnwindContinue);
     VisitBasicBlockData 15;
     VisitTerminator Unreachable;
     VisitBasicBlockData 16;
     VisitTerminator (Goto 10);
     VisitBasicBlockData 17;
     VisitTerminator (Goto 10)];
    [VisitBasicBlockData 0;
     VisitTerminator (Call (fn 9) [] (loc 2) (Some 1%N) UnwindContinue);
     VisitBasicBlockData 1;
     VisitTerminator (Goto 2);
     VisitBasicBlockData 2;
     VisitTerminator (Call (fn 10) [] (loc 4) (Some 3%N) UnwindContinue);
     VisitBasicBlockData 3;
     VisitTerminator (SwitchInt [4; 5; 6]%N);
     VisitBasicBlockData 4;
     VisitTerminator Unreachable;
     VisitBasicBlockData 5;
     VisitTerminator (Assert 7 UnwindContinue);
     VisitBasicBlockData 6;
     VisitTerminator (Goto 10);
     VisitBasicBlockData 7;
     VisitTerminator (Assert 8 UnwindContinue);
     VisitBasicBlockData 8;
     VisitTerminator (SwitchInt [2; 9]%N);
     VisitBasicBlockData 9;
     VisitTerminator (Goto 10);
     VisitBasicBlockData 10;
     VisitTerminator Return]];
  p_debug := [];
  p_local_ty := [];
  p_closures := [];
|}.
