(* ===== verification/SharedPrograms.v ===== *)
(** * Example programs with locks, conditions and several threads

    The rest of examples/programs: guards behind an [Arc], condition variables
    waited on in a loop, a shared counter, a producer with a consumer and the
    philosophers.  As in the other files of programs, the calls of the visitor
    are those that the compiler makes for the MIR of the program. *)

From S2P Require Import Prelude RustStr Naming Netcrab NetModel Rustc Translator Programs ThreadPrograms.

(** examples/programs/mutex/double_lock_deadlock_with_arc.rs *)
Definition double_lock_deadlock_with_arc : Program := {|
  p_paths := ["main"; "std::sync::Mutex::<T>::new"; "std::sync::Arc::<T>::new"; "std::ops::Deref::deref";
              "std::sync::Mutex::<T>::lock"];
  p_bodies := [
    [VisitBasicBlockData 0;
     VisitTerminator (Call (fn 1) [scalar] (loc 2) (Some 1%N) UnwindContinue);
     VisitBasicBlockData 1;
     VisitTerminator (Call (fn 2) [Move (loc 2)] (loc 1) (Some 2%N) UnwindContinue);
     VisitBasicBlockData 2;
     VisitAssign (loc 5) (Ref (loc 1));
     VisitTerminator (Call (fn 3) [Move (loc 5)] (loc 4) (Some 3%N) (UnwindCleanup 11));
     VisitBasicBlockData 3;
     VisitTerminator (Call (fn 4) [Copy (loc 4)] (loc 3) (Some 4%N) (UnwindCleanup 11));
     VisitBasicBlockData 4;
     VisitAssign (loc 8) (Ref (loc 1));
     VisitTerminator (Call (fn 3) [Move (loc 8)] (loc 7) (Some 5%N) (UnwindCleanup 10));
     VisitBasicBlockData 5;
     VisitTerminator (Call (fn 4) [Copy (loc 7)] (loc 6) (Some 6%N) (UnwindCleanup 10));
     VisitBasicBlockData 6;
     VisitTerminator (Drop (loc 6) 7 (UnwindCleanup 10));
     VisitBasicBlockData 7;
     VisitTerminator (Drop (loc 3) 8 (UnwindCleanup 11));
     VisitBasicBlockData 8;
     VisitTerminator (Drop (loc 1) 9 UnwindContinue);
     VisitBasicBlockData 9;
     VisitTerminator Return;
     VisitBasicBlockData 10;
     VisitTerminator (Drop (loc 3) 11 UnwindActionTerminate);
     VisitBasicBlockData 11;
     VisitTerminator (Drop (loc 1) 12 UnwindActionTerminate);
     VisitBasicBlockData 12;
     VisitTerminator UnwindResume]];
  p_debug := [];
  p_local_ty := [(0, 1, "std::sync::Arc<std::sync::Mutex<i32>>"); (0, 2, "std::sync::Mutex<i32>");
    (0, 3, "std::result::Result<std::sync::MutexGuard<'_, i32>, E>"); (0, 4, "&std::sync::Mutex<i32>");
    (0, 5, "&std::sync::Arc<std::sync::Mutex<i32>>");
    (0, 6, "std::result::Result<std::sync::MutexGuard<'_, i32>, E>"); (0, 7, "&std::sync::Mutex<i32>");
    (0, 8, "&std::sync::Arc<std::sync::Mutex<i32>>")]%N;
  p_closures := [];
|}.

(** examples/programs/mutex/drop_mutex_guard_in_arc_manually.rs *)
Definition drop_mutex_guard_in_arc_manually : Program := {|
  p_paths := ["main"; "std::sync::Mutex::<T>::new"; "std::sync::Arc::<T>::new"; "std::ops::Deref::deref";
              "std::sync::Mutex::<T>::lock"; "std::mem::drop"];
  p_bodies := [
    [VisitBasicBlockData 0;
     VisitTerminator (Call (fn 1) [scalar] (loc 2) (Some 1%N) UnwindContinue);
     VisitBasicBlockData 1;
     VisitTerminator (Call (fn 2) [Move (loc 2)] (loc 1) (Some 2%N) UnwindContinue);
     VisitBasicBlockData 2;
     VisitAssign (loc 5) (Ref (loc 1));
     VisitTerminator (Call (fn 3) [Move (loc 5)] (loc 4) (Some 3%N) (UnwindCleanup 10));
     VisitBasicBlockData 3;
     VisitTerminator (Call (fn 4) [Copy (loc 4)] (loc 3) (Some 4%N) (UnwindCleanup 10));
     VisitBasicBlockData 4;
     VisitAssign (loc 7) (Use (Move (loc 3)));
     VisitTerminator (Call (fn 5) [Move (loc 7)] (loc 6) (Some 5%N) (UnwindCleanup 10));
     VisitBasicBlockData 5;
     VisitAssign (loc 10) (Ref (loc 1));
     VisitTerminator (Call (fn 3) [Move (loc 10)] (loc 9) (Some 6%N) (UnwindCleanup 10));
     VisitBasicBlockData 6;
     VisitTerminator (Call (fn 4) [Copy (loc 9)] (loc 8) (Some 7%N) (UnwindCleanup 10));
     VisitBasicBlockData 7;
     VisitTerminator (Drop (loc 8) 8 (UnwindCleanup 10));
     VisitBasicBlockData 8;
     VisitTerminator (Drop (loc 1) 9 UnwindContinue);
     VisitBasicBlockData 9;
     VisitTerminator Return;
     VisitBasicBlockData 10;
     VisitTerminator (Drop (loc 1) 11 UnwindActionTerminate);
     VisitBasicBlockData 11;
     VisitTerminator UnwindResume]];
  p_debug := [];
  p_local_ty := [(0, 1, "std::sync::Arc<std::sync::Mutex<i32>>"); (0, 2, "std::sync::Mutex<i32>");
    (0, 3, "std::result::Result<std::sync::MutexGuard<'_, i32>, E>"); (0, 4, "&std::sync::Mutex<i32>");
    (0, 5, "&std::sync::Arc<std::sync::Mutex<i32>>");
    (0, 7, "std::result::Result<std::sync::MutexGuard<'_, i32>, E>");
    (0, 8, "std::result::Result<std::sync::MutexGuard<'_, i32>, E>"); (0, 9, "&std::sync::Mutex<i32>");
    (0, 10, "&std::sync::Arc<std::sync::Mutex<i32>>")]%N;
  p_closures := [];
|}.

(** examples/programs/condvar/wait.rs *)
Definition wait : Program := {|
  p_paths := ["main"; "main::{closure#0}"; "std::sync::Mutex::<T>::new"; "std::sync::Condvar::new";
              "std::sync::Arc::<T>::new"; "std::clone::Clone::clone"; "std::thread::spawn";
              "std::ops::Deref::deref"; "std::sync::Mutex::<T>::lock";
              "std::result::Result::<T, E>::unwrap"; "std::sync::Condvar::wait";
              "std::ops::DerefMut::deref_mut"; "std::sync::Condvar::notify_one"];
  p_bodies := [
    [VisitBasicBlockData 0;
     VisitTerminator (Call (fn 2) [scalar] (loc 3) (Some 1%N) UnwindContinue);
     VisitBasicBlockData 1;
     VisitTerminator (Call (fn 3) [] (loc 4) (Some 2%N) UnwindContinue);
     VisitBasicBlockData 2;
     VisitAssign (loc 2) (Aggregate [Move (loc 3); Move (loc 4)]);
     VisitTerminator (Call (fn 4) [Move (loc 2)] (loc 1) (Some 3%N) UnwindContinue);
     VisitBasicBlockData 3;
     VisitAssign (loc 6) (Ref (loc 1));
     VisitTerminator (Call (fn 5) [Move (loc 6)] (loc 5) (Some 4%N) (UnwindCleanup 18));
     VisitBasicBlockData 4;
     VisitAssign (loc 8) (Aggregate [Move (loc 5)]);
     VisitTerminator (Call (fn 6) [Move (loc 8)] (loc 7) (Some 5%N) (UnwindCleanup 18));
     VisitBasicBlockData 5;
     VisitTerminator (Drop (loc 7) 6 (UnwindCleanup 18));
     VisitBasicBlockData 6;
     VisitAssign (loc 11) (Ref (loc 1));
     VisitTerminator (Call (fn 7) [Move (loc 11)] (loc 10) (Some 7%N) (UnwindCleanup 18));
     VisitBasicBlockData 7;
     VisitAssign (loc 9) (Ref (deref_field 10 0));
     VisitAssign (loc 12) (Ref (deref_field 10 1));
     VisitTerminator (Call (fn 8) [Copy (loc 9)] (loc 14) (Some 8%N) (UnwindCleanup 18));
     VisitBasicBlockData 8;
     VisitTerminator (Call (fn 9) [Move (loc 14)] (loc 13) (Some 9%N) (UnwindCleanup 18));
     VisitBasicBlockData 9;
     VisitTerminator (Goto 10);
     VisitBasicBlockData 10;
     VisitAssign (loc 16) (Ref (loc 13));
     VisitTerminator (Call (fn 7) [Move (loc 16)] (loc 15) (Some 11%N) (UnwindCleanup 21));
     VisitBasicBlockData 11;
     VisitTerminator (SwitchInt [12; 13]%N);
     VisitBasicBlockData 12;
     VisitTerminator (Drop (loc 13) 16 (UnwindCleanup 18));
     VisitBasicBlockData 13;
     VisitAssign (loc 20) (Use (Move (loc 13)));
     VisitTerminator (Call (fn 10) [Copy (loc 12); Move (loc 20)] (loc 19) (Some 14%N) (UnwindCleanup 21));
     VisitBasicBlockData 14;
     VisitTerminator (Call (fn 9) [Move (loc 19)] (loc 18) (Some 15%N) (UnwindCleanup 21));
     VisitBasicBlockData 15;
     VisitAssign (loc 13) (Use (Move (loc 18)));
     VisitTerminator (Goto 10);
     VisitBasicBlockData 16;
     VisitTerminator (Drop (loc 1) 17 UnwindContinue);
     VisitBasicBlockData 17;
     VisitTerminator Return;
     VisitBasicBlockData 18;
     VisitTerminator (Drop (loc 1) 19 UnwindActionTerminate);
     VisitBasicBlockData 19;
     VisitTerminator UnwindResume;
     VisitBasicBlockData 20;
     VisitTerminator (Drop (loc 13) 18 UnwindActionTerminate);
     VisitBasicBlockData 21;
     VisitTerminator (SwitchInt [18; 20]%N)];
    [VisitBasicBlockData 0;
     VisitAssign (loc 4) (Ref (field 1 0));
     VisitTerminator (Call (fn 7) [Move (loc 4)] (loc 3) (Some 1%N) (UnwindCleanup 9));
     VisitBasicBlockData 1;
     VisitAssign (loc 2) (Ref (deref_field 3 0));
     VisitAssign (loc 5) (Ref (deref_field 3 1));
     VisitTerminator (Call (fn 8) [Copy (loc 2)] (loc 7) (Some 2%N) (UnwindCleanup 9));
     VisitBasicBlockData 2;
     VisitTerminator (Call (fn 9) [Move (loc 7)] (loc 6) (Some 3%N) (UnwindCleanup 9));
     VisitBasicBlockData 3;
     VisitAssign (loc 9) (Ref (loc 6));
     VisitTerminator (Call (fn 11) [Move (loc 9)] (loc 8) (Some 4%N) (UnwindCleanup 8));
     VisitBasicBlockData 4;
     VisitAssign (mkPlace 8 [Deref]) (Use scalar);
     VisitTerminator (Call (fn 12) [Copy (loc 5)] (loc 10) (Some 5%N) (UnwindCleanup 8));
     VisitBasicBlockData 5;
     VisitTerminator (Drop (loc 6) 6 (UnwindCleanup 9));
     VisitBasicBlockData 6;
     VisitTerminator (Drop (loc 1) 7 UnwindContinue);
     VisitBasicBlockData 7;
     VisitTerminator Return;
     VisitBasicBlockData 8;
     VisitTerminator (Drop (loc 6) 9 UnwindActionTerminate);
     VisitBasicBlockData 9;
     VisitTerminator (Drop (loc 1) 10 UnwindActionTerminate);
     VisitBasicBlockData 10;
     VisitTerminator UnwindResume]];
  p_debug := [[]; [DebugPlace (field 1 0)]];
  p_local_ty := [(0, 1, "std::sync::Arc<(std::sync::Mutex<bool>, std::sync::Condvar)>");
    (0, 2, "(std::sync::Mutex<bool>, std::sync::Condvar)"); (0, 3, "std::sync::Mutex<bool>");
    (0, 4, "std::sync::Condvar");
    (0, 5, "std::sync::Arc<(std::sync::Mutex<bool>, std::sync::Condvar)>");
    (0, 6, "&std::sync::Arc<(std::sync::Mutex<bool>, std::sync::Condvar)>");
    (0, 7, "std::thread::JoinHandle<()>"); (0, 9, "&std::sync::Mutex<bool>");
    (0, 10, "&(std::sync::Mutex<bool>, std::sync::Condvar)");
    (0, 11, "&std::sync::Arc<(std::sync::Mutex<bool>, std::sync::Condvar)>");
    (0, 12, "&std::sync::Condvar"); (0, 13, "std::sync::MutexGuard<'_, bool>");
    (0, 14, "std::result::Result<std::sync::MutexGuard<'_, bool>, E>"); (0, 15, "&bool");
    (0, 16, "&std::sync::MutexGuard<'_, bool>"); (0, 18, "std::sync::MutexGuard<'_, bool>");
    (0, 19, "std::result::Result<std::sync::MutexGuard<'_, bool>, E>");
    (0, 20, "std::sync::MutexGuard<'_, bool>"); (1, 2, "&std::sync::Mutex<bool>");
    (1, 3, "&(std::sync::Mutex<bool>, std::sync::Condvar)");
    (1, 4, "&std::sync::Arc<(std::sync::Mutex<bool>, std::sync::Condvar)>");
    (1, 5, "&std::sync::Condvar"); (1, 6, "std::sync::MutexGuard<'_, bool>");
    (1, 7, "std::result::Result<std::sync::MutexGuard<'_, bool>, E>"); (1, 8, "&mut bool");
    (1, 9, "&mut std::sync::MutexGuard<'_, bool>")]%N;
  p_closures := [(0, 8, 1)]%N;
|}.

(** examples/programs/condvar/wait_while.rs *)
Definition wait_while : Program := {|
  p_paths := ["main"; "main::{closure#0}"; "std::sync::Mutex::<T>::new"; "std::sync::Condvar::new";
              "std::sync::Arc::<T>::new"; "std::clone::Clone::clone"; "std::thread::spawn";
              "std::ops::Deref::deref"; "std::sync::Mutex::<T>::lock";
              "std::result::Result::<T, E>::unwrap"; "std::sync::Condvar::wait_while";
              "std::ops::DerefMut::deref_mut"; "std::sync::Condvar::notify_one"];
  p_bodies := [
    [VisitBasicBlockData 0;
     VisitTerminator (Call (fn 2) [scalar] (loc 3) (Some 1%N) UnwindContinue);
     VisitBasicBlockData 1;
     VisitTerminator (Call (fn 3) [] (loc 4) (Some 2%N) UnwindContinue);
     VisitBasicBlockData 2;
     VisitAssign (loc 2) (Aggregate [Move (loc 3); Move (loc 4)]);
     VisitTerminator (Call (fn 4) [Move (loc 2)] (loc 1) (Some 3%N) UnwindContinue);
     VisitBasicBlockData 3;
     VisitAssign (loc 6) (Ref (loc 1));
     VisitTerminator (Call (fn 5) [Move (loc 6)] (loc 5) (Some 4%N) (UnwindCleanup 14));
     VisitBasicBlockData 4;
     VisitAssign (loc 8) (Aggregate [Move (loc 5)]);
     VisitTerminator (Call (fn 6) [Move (loc 8)] (loc 7) (Some 5%N) (UnwindCleanup 14));
     VisitBasicBlockData 5;
     VisitTerminator (Drop (loc 7) 6 (UnwindCleanup 14));
     VisitBasicBlockData 6;
     VisitAssign (loc 11) (Ref (loc 1));
     VisitTerminator (Call (fn 7) [Move (loc 11)] (loc 10) (Some 7%N) (UnwindCleanup 14));
     VisitBasicBlockData 7;
     VisitAssign (loc 9) (Ref (deref_field 10 0));
     VisitAssign (loc 12) (Ref (deref_field 10 1));
     VisitTerminator (Call (fn 8) [Copy (loc 9)] (loc 14) (Some 8%N) (UnwindCleanup 14));
     VisitBasicBlockData 8;
     VisitTerminator (Call (fn 9) [Move (loc 14)] (loc 13) (Some 9%N) (UnwindCleanup 14));
     VisitBasicBlockData 9;
     VisitTerminator (Call (fn 10) [Copy (loc 12); Move (loc 13); scalar] (loc 15) (Some 10%N) (UnwindCleanup 14));
     VisitBasicBlockData 10;
     VisitTerminator (Call (fn 9) [Move (loc 15)] (loc 16) (Some 11%N) (UnwindCleanup 14));
     VisitBasicBlockData 11;
     VisitTerminator (Drop (loc 16) 12 (UnwindCleanup 14));
     VisitBasicBlockData 12;
     VisitTerminator (Drop (loc 1) 13 UnwindContinue);
     VisitBasicBlockData 13;
     VisitTerminator Return;
     VisitBasicBlockData 14;
     VisitTerminator (Drop (loc 1) 15 UnwindActionTerminate);
     VisitBasicBlockData 15;
     VisitTerminator UnwindResume];
    [VisitBasicBlockData 0;
     VisitAssign (loc 4) (Ref (field 1 0));
     VisitTerminator (Call (fn 7) [Move (loc 4)] (loc 3) (Some 1%N) (UnwindCleanup 9));
     VisitBasicBlockData 1;
     VisitAssign (loc 2) (Ref (deref_field 3 0));
     VisitAssign (loc 5) (Ref (deref_field 3 1));
     VisitTerminator (Call (fn 8) [Copy (loc 2)] (loc 7) (Some 2%N) (UnwindCleanup 9));
     VisitBasicBlockData 2;
     VisitTerminator (Call (fn 9) [Move (loc 7)] (loc 6) (Some 3%N) (UnwindCleanup 9));
     VisitBasicBlockData 3;
     VisitAssign (loc 9) (Ref (loc 6));
     VisitTerminator (Call (fn 11) [Move (loc 9)] (loc 8) (Some 4%N) (UnwindCleanup 8));
     VisitBasicBlockData 4;
     VisitAssign (mkPlace 8 [Deref]) (Use scalar);
     VisitTerminator (Call (fn 12) [Copy (loc 5)] (loc 10) (Some 5%N) (UnwindCleanup 8));
     VisitBasicBlockData 5;
     VisitTerminator (Drop (loc 6) 6 (UnwindCleanup 9));
     VisitBasicBlockData 6;
     VisitTerminator (Drop (loc 1) 7 UnwindContinue);
     VisitBasicBlockData 7;
     VisitTerminator Return;
     VisitBasicBlockData 8;
     VisitTerminator (Drop (loc 6) 9 UnwindActionTerminate);
     VisitBasicBlockData 9;
     VisitTerminator (Drop (loc 1) 10 UnwindActionTerminate);
     VisitBasicBlockData 10;
     VisitTerminator UnwindResume]];
  p_debug := [[]; [DebugPlace (field 1 0)]];
  p_local_ty := [(0, 1, "std::sync::Arc<(std::sync::Mutex<bool>, std::sync::Condvar)>");
    (0, 2, "(std::sync::Mutex<bool>, std::sync::Condvar)"); (0, 3, "std::sync::Mutex<bool>");
    (0, 4, "std::sync::Condvar");
    (0, 5, "std::sync::Arc<(std::sync::Mutex<bool>, std::sync::Condvar)>");
    (0, 6, "&std::sync::Arc<(std::sync::Mutex<bool>, std::sync::Condvar)>");
    (0, 7, "std::thread::JoinHandle<()>"); (0, 9, "&std::sync::Mutex<bool>");
    (0, 10, "&(std::sync::Mutex<bool>, std::sync::Condvar)");
    (0, 11, "&std::sync::Arc<(std::sync::Mutex<bool>, std::sync::Condvar)>");
    (0, 12, "&std::sync::Condvar"); (0, 13, "std::sync::MutexGuard<'_, bool>");
    (0, 14, "std::result::Result<std::sync::MutexGuard<'_, bool>, E>");
    (0, 15, "std::result::Result<std::sync::MutexGuard<'_, bool>, E>");
    (0, 16, "std::sync::MutexGuard<'_, bool>"); (1, 2, "&std::sync::Mutex<bool>");
    (1, 3, "&(std::sync::Mutex<bool>, std::sync::Condvar)");
    (1, 4, "&std::sync::Arc<(std::sync::Mutex<bool>, std::sync::Condvar)>");
    (1, 5, "&std::sync::Condvar"); (1, 6, "std::sync::MutexGuard<'_, bool>");
    (1, 7, "std::result::Result<std::sync::MutexGuard<'_, bool>, E>"); (1, 8, "&mut bool");
    (1, 9, "&mut std::sync::MutexGuard<'_, bool>")]%N;
  p_closures := [(0, 8, 1)]%N;
|}.

(** examples/programs/thread/shared_counter.rs: the body of each closure, and the types of its
    locals. *)
Definition shared_counter_closure : list VisitorCall := [
  VisitBasicBlockData 0;
  VisitTerminator (Goto 1);
  VisitBasicBlockData 1;
  VisitAssign (loc 5) (Ref (field 1 0));
  VisitTerminator (Call (fn 9) [Move (loc 5)] (loc 4) (Some 2%N) (UnwindCleanup 13));
  VisitBasicBlockData 2;
  VisitTerminator (Call (fn 10) [Copy (loc 4)] (loc 3) (Some 3%N) (UnwindCleanup 13));
  VisitBasicBlockData 3;
  VisitTerminator (Call (fn 8) [Move (loc 3)] (loc 2) (Some 4%N) (UnwindCleanup 13));
  VisitBasicBlockData 4;
  VisitAssign (loc 8) (Ref (loc 2));
  VisitTerminator (Call (fn 9) [Move (loc 8)] (loc 7) (Some 5%N) (UnwindCleanup 12));
  VisitBasicBlockData 5;
  VisitTerminator (SwitchInt [6; 7]%N);
  VisitBasicBlockData 6;
  VisitTerminator (Drop (loc 2) 10 (UnwindCleanup 13));
  VisitBasicBlockData 7;
  VisitAssign (loc 10) (Ref (loc 2));
  VisitTerminator (Call (fn 14) [Move (loc 10)] (loc 9) (Some 8%N) (UnwindCleanup 12));
  VisitBasicBlockData 8;
  VisitTerminator (Assert 9 (UnwindCleanup 12));
  VisitBasicBlockData 9;
  VisitTerminator (Drop (loc 2) 1 (UnwindCleanup 13));
  VisitBasicBlockData 10;
  VisitTerminator (Drop (loc 1) 11 UnwindContinue);
  VisitBasicBlockData 11;
  VisitTerminator Return;
  VisitBasicBlockData 12;
  VisitTerminator (Drop (loc 2) 13 UnwindActionTerminate);
  VisitBasicBlockData 13;
  VisitTerminator (Drop (loc 1) 14 UnwindActionTerminate);
  VisitBasicBlockData 14;
  VisitTerminator UnwindResume].
Definition shared_counter_closure_types (d : N) : list (N * N * string) := [
  (d, 2, "std::sync::MutexGuard<'_, i32>");
  (d, 3, "std::result::Result<std::sync::MutexGuard<'_, i32>, E>"); (d, 4, "&std::sync::Mutex<i32>");
  (d, 5, "&std::sync::Arc<std::sync::Mutex<i32>>"); (d, 7, "&i32");
  (d, 8, "&std::sync::MutexGuard<'_, i32>"); (d, 9, "&mut i32");
  (d, 10, "&mut std::sync::MutexGuard<'_, i32>")]%N.
Definition shared_counter : Program := {|
  p_paths := ["main"; "main::{closure#0}"; "main::{closure#1}"; "std::sync::Mutex::<T>::new";
              "std::sync::Arc::<T>::new"; "std::clone::Clone::clone"; "std::thread::spawn";
              "std::thread::JoinHandle::<T>::join"; "std::result::Result::<T, E>::unwrap";
              "std::ops::Deref::deref"; "std::sync::Mutex::<T>::lock";
              "core::fmt::rt::Argument::<'_>::new_display"; "std::fmt::Arguments::<'a>::new_v1";
              "std::io::_print"; "std::ops::DerefMut::deref_mut"];
  p_bodies :=
    [VisitBasicBlockData 0;
     VisitTerminator (Call (fn 3) [scalar] (loc 2) (Some 1%N) UnwindContinue);
     VisitBasicBlockData 1;
     VisitTerminator (Call (fn 4) [Move (loc 2)] (loc 1) (Some 2%N) UnwindContinue);
     VisitBasicBlockData 2;
     VisitAssign (loc 4) (Ref (loc 1));
     VisitTerminator (Call (fn 5) [Move (loc 4)] (loc 3) (Some 3%N) (UnwindCleanup 21));
     VisitBasicBlockData 3;
     VisitAssign (loc 6) (Ref (loc 1));
     VisitTerminator (Call (fn 5) [Move (loc 6)] (loc 5) (Some 4%N) (UnwindCleanup 30));
     VisitBasicBlockData 4;
     VisitAssign (loc 8) (Aggregate [Move (loc 3)]);
     VisitTerminator (Call (fn 6) [Move (loc 8)] (loc 7) (Some 5%N) (UnwindCleanup 28));
     VisitBasicBlockData 5;
     VisitAssign (loc 10) (Aggregate [Move (loc 5)]);
     VisitTerminator (Call (fn 6) [Move (loc 10)] (loc 9) (Some 6%N) (UnwindCleanup 26));
     VisitBasicBlockData 6;
     VisitAssign (loc 13) (Use (Move (loc 7)));
     VisitTerminator (Call (fn 7) [Move (loc 13)] (loc 12) (Some 7%N) (UnwindCleanup 24));
     VisitBasicBlockData 7;
     VisitTerminator (Call (fn 8) [Move (loc 12)] (loc 11) (Some 8%N) (UnwindCleanup 24));
     VisitBasicBlockData 8;
     VisitAssign (loc 16) (Use (Move (loc 9)));
     VisitTerminator (Call (fn 7) [Move (loc 16)] (loc 15) (Some 9%N) (UnwindCleanup 24));
     VisitBasicBlockData 9;
     VisitTerminator (Call (fn 8) [Move (loc 15)] (loc 14) (Some 10%N) (UnwindCleanup 24));
     VisitBasicBlockData 10;
     VisitAssign (loc 26) (Ref (loc 1));
     VisitTerminator (Call (fn 9) [Move (loc 26)] (loc 25) (Some 11%N) (UnwindCleanup 24));
     VisitBasicBlockData 11;
     VisitTerminator (Call (fn 10) [Copy (loc 25)] (loc 24) (Some 12%N) (UnwindCleanup 24));
     VisitBasicBlockData 12;
     VisitTerminator (Call (fn 8) [Move (loc 24)] (loc 23) (Some 13%N) (UnwindCleanup 24));
     VisitBasicBlockData 13;
     VisitAssign (loc 22) (Ref (loc 23));
     VisitTerminator (Call (fn 9) [Move (loc 22)] (loc 21) (Some 14%N) (UnwindCleanup 20));
     VisitBasicBlockData 14;
     VisitTerminator (Call (fn 11) [Copy (loc 21)] (loc 20) (Some 15%N) (UnwindCleanup 20));
     VisitBasicBlockData 15;
     VisitTerminator (Call (fn 12) [] (loc 17) (Some 16%N) (UnwindCleanup 20));
     VisitBasicBlockData 16;
     VisitTerminator (Call (fn 13) [] (loc 18) (Some 17%N) (UnwindCleanup 20));
     VisitBasicBlockData 17;
     VisitTerminator (Drop (loc 23) 18 (UnwindCleanup 24));
     VisitBasicBlockData 18;
     VisitTerminator (Drop (loc 1) 19 UnwindContinue);
     VisitBasicBlockData 19;
     VisitTerminator Return;
     VisitBasicBlockData 20;
     VisitTerminator (Drop (loc 23) 24 UnwindActionTerminate);
     VisitBasicBlockData 21;
     VisitTerminator (Drop (loc 1) 22 UnwindActionTerminate);
     VisitBasicBlockData 22;
     VisitTerminator UnwindResume;
     VisitBasicBlockData 23;
     VisitTerminator (Drop (loc 9) 26 UnwindActionTerminate);
     VisitBasicBlockData 24;
     VisitTerminator (SwitchInt [23; 26]%N);
     VisitBasicBlockData 25;
     VisitTerminator (Drop (loc 7) 28 UnwindActionTerminate);
     VisitBasicBlockData 26;
     VisitTerminator (SwitchInt [25; 28]%N);
     VisitBasicBlockData 27;
     VisitTerminator (Drop (loc 5) 30 UnwindActionTerminate);
     VisitBasicBlockData 28;
     VisitTerminator (SwitchInt [27; 30]%N);
     VisitBasicBlockData 29;
     VisitTerminator (Drop (loc 3) 21 UnwindActionTerminate);
     VisitBasicBlockData 30;
     VisitTerminator (SwitchInt [21; 29]%N)] ::
    replicate 2 shared_counter_closure;
  p_debug := [[]; [DebugPlace (field 1 0)]; [DebugPlace (field 1 0)]];
  p_local_ty := 
    [(0, 1, "std::sync::Arc<std::sync::Mutex<i32>>"); (0, 2, "std::sync::Mutex<i32>");
    (0, 3, "std::sync::Arc<std::sync::Mutex<i32>>"); (0, 4, "&std::sync::Arc<std::sync::Mutex<i32>>");
    (0, 5, "std::sync::Arc<std::sync::Mutex<i32>>"); (0, 6, "&std::sync::Arc<std::sync::Mutex<i32>>");
    (0, 7, "std::thread::JoinHandle<()>"); (0, 9, "std::thread::JoinHandle<()>");
    (0, 12, "std::result::Result<(), std::boxed::Box<dyn std::any::Any + std::marker::Send>>");
    (0, 13, "std::thread::JoinHandle<()>");
    (0, 15, "std::result::Result<(), std::boxed::Box<dyn std::any::Any + std::marker::Send>>");
    (0, 16, "std::thread::JoinHandle<()>"); (0, 21, "&i32");
    (0, 22, "&std::sync::MutexGuard<'_, i32>"); (0, 23, "std::sync::MutexGuard<'_, i32>");
    (0, 24, "std::result::Result<std::sync::MutexGuard<'_, i32>, E>");
    (0, 25, "&std::sync::Mutex<i32>"); (0, 26, "&std::sync::Arc<std::sync::Mutex<i32>>")]%N ++
    ([1; 2]%N ≫= shared_counter_closure_types);
  p_closures := [(0, 8, 1); (0, 10, 2)]%N;
|}.

(** examples/programs/thread/dating_philosophers.rs: the body of each closure, and the types of its
    locals. *)
Definition dating_philosophers_closure : list VisitorCall := [
  VisitBasicBlockData 0;
  VisitAssign (loc 5) (Ref (field 1 0));
  VisitTerminator (Call (fn 9) [Move (loc 5)] (loc 4) (Some 1%N) (UnwindCleanup 11));
  VisitBasicBlockData 1;
  VisitTerminator (Call (fn 10) [Copy (loc 4)] (loc 3) (Some 2%N) (UnwindCleanup 11));
  VisitBasicBlockData 2;
  VisitTerminator (Call (fn 8) [Move (loc 3)] (loc 2) (Some 3%N) (UnwindCleanup 11));
  VisitBasicBlockData 3;
  VisitAssign (loc 9) (Ref (field 1 1));
  VisitTerminator (Call (fn 9) [Move (loc 9)] (loc 8) (Some 4%N) (UnwindCleanup 10));
  VisitBasicBlockData 4;
  VisitTerminator (Call (fn 10) [Copy (loc 8)] (loc 7) (Some 5%N) (UnwindCleanup 10));
  VisitBasicBlockData 5;
  VisitTerminator (Call (fn 8) [Move (loc 7)] (loc 6) (Some 6%N) (UnwindCleanup 10));
  VisitBasicBlockData 6;
  VisitTerminator (Drop (loc 6) 7 (UnwindCleanup 10));
  VisitBasicBlockData 7;
  VisitTerminator (Drop (loc 2) 8 (UnwindCleanup 11));
  VisitBasicBlockData 8;
  VisitTerminator (Drop (loc 1) 9 UnwindContinue);
  VisitBasicBlockData 9;
  VisitTerminator Return;
  VisitBasicBlockData 10;
  VisitTerminator (Drop (loc 2) 11 UnwindActionTerminate);
  VisitBasicBlockData 11;
  VisitTerminator (Drop (loc 1) 12 UnwindActionTerminate);
  VisitBasicBlockData 12;
  VisitTerminator UnwindResume].
Definition dating_philosophers_closure_types (d : N) : list (N * N * string) := [
  (d, 2, "std::sync::MutexGuard<'_, i32>");
  (d, 3, "std::result::Result<std::sync::MutexGuard<'_, i32>, E>"); (d, 4, "&std::sync::Mutex<i32>");
  (d, 5, "&std::sync::Arc<std::sync::Mutex<i32>>"); (d, 6, "std::sync::MutexGuard<'_, i32>");
  (d, 7, "std::result::Result<std::sync::MutexGuard<'_, i32>, E>"); (d, 8, "&std::sync::Mutex<i32>");
  (d, 9, "&std::sync::Arc<std::sync::Mutex<i32>>")]%N.
Definition dating_philosophers : Program := {|
  p_paths := ["main"; "main::{closure#0}"; "main::{closure#1}"; "std::sync::Mutex::<T>::new";
              "std::sync::Arc::<T>::new"; "std::clone::Clone::clone"; "std::thread::spawn";
              "std::thread::JoinHandle::<T>::join"; "std::result::Result::<T, E>::unwrap";
              "std::ops::Deref::deref"; "std::sync::Mutex::<T>::lock"];
  p_bodies :=
    [VisitBasicBlockData 0;
     VisitTerminator (Call (fn 3) [scalar] (loc 2) (Some 1%N) UnwindContinue);
     VisitBasicBlockData 1;
     VisitTerminator (Call (fn 4) [Move (loc 2)] (loc 1) (Some 2%N) UnwindContinue);
     VisitBasicBlockData 2;
     VisitTerminator (Call (fn 3) [scalar] (loc 4) (Some 3%N) (UnwindCleanup 19));
     VisitBasicBlockData 3;
     VisitTerminator (Call (fn 4) [Move (loc 4)] (loc 3) (Some 4%N) (UnwindCleanup 19));
     VisitBasicBlockData 4;
     VisitAssign (loc 7) (Ref (loc 1));
     VisitTerminator (Call (fn 5) [Move (loc 7)] (loc 6) (Some 5%N) (UnwindCleanup 18));
     VisitBasicBlockData 5;
     VisitAssign (loc 9) (Ref (loc 3));
     VisitTerminator (Call (fn 5) [Move (loc 9)] (loc 8) (Some 6%N) (UnwindCleanup 27));
     VisitBasicBlockData 6;
     VisitAssign (loc 10) (Aggregate [Move (loc 6); Move (loc 8)]);
     VisitTerminator (Call (fn 6) [Move (loc 10)] (loc 5) (Some 7%N) (UnwindCleanup 27));
     VisitBasicBlockData 7;
     VisitAssign (loc 13) (Ref (loc 3));
     VisitTerminator (Call (fn 5) [Move (loc 13)] (loc 12) (Some 8%N) (UnwindCleanup 17));
     VisitBasicBlockData 8;
     VisitAssign (loc 15) (Ref (loc 1));
     VisitTerminator (Call (fn 5) [Move (loc 15)] (loc 14) (Some 9%N) (UnwindCleanup 24));
     VisitBasicBlockData 9;
     VisitAssign (loc 16) (Aggregate [Move (loc 12); Move (loc 14)]);
     VisitTerminator (Call (fn 6) [Move (loc 16)] (loc 11) (Some 10%N) (UnwindCleanup 24));
     VisitBasicBlockData 10;
     VisitAssign (loc 19) (Use (Move (loc 5)));
     VisitTerminator (Call (fn 7) [Move (loc 19)] (loc 18) (Some 11%N) (UnwindCleanup 22));
     VisitBasicBlockData 11;
     VisitTerminator (Call (fn 8) [Move (loc 18)] (loc 17) (Some 12%N) (UnwindCleanup 22));
     VisitBasicBlockData 12;
     VisitAssign (loc 22) (Use (Move (loc 11)));
     VisitTerminator (Call (fn 7) [Move (loc 22)] (loc 21) (Some 13%N) (UnwindCleanup 22));
     VisitBasicBlockData 13;
     VisitTerminator (Call (fn 8) [Move (loc 21)] (loc 20) (Some 14%N) (UnwindCleanup 22));
     VisitBasicBlockData 14;
     VisitTerminator (Drop (loc 3) 15 (UnwindCleanup 19));
     VisitBasicBlockData 15;
     VisitTerminator (Drop (loc 1) 16 UnwindContinue);
     VisitBasicBlockData 16;
     VisitTerminator Return;
     VisitBasicBlockData 17;
     VisitTerminator (SwitchInt [18; 25]%N);
     VisitBasicBlockData 18;
     VisitTerminator (Drop (loc 3) 19 UnwindActionTerminate);
     VisitBasicBlockData 19;
     VisitTerminator (Drop (loc 1) 20 UnwindActionTerminate);
     VisitBasicBlockData 20;
     VisitTerminator UnwindResume;
     VisitBasicBlockData 21;
     VisitTerminator (Drop (loc 11) 17 UnwindActionTerminate);
     VisitBasicBlockData 22;
     VisitTerminator (SwitchInt [17; 21]%N);
     VisitBasicBlockData 23;
     VisitTerminator (Drop (loc 12) 17 UnwindActionTerminate);
     VisitBasicBlockData 24;
     VisitTerminator (SwitchInt [17; 23]%N);
     VisitBasicBlockData 25;
     VisitTerminator (Drop (loc 5) 18 UnwindActionTerminate);
     VisitBasicBlockData 26;
     VisitTerminator (Drop (loc 6) 18 UnwindActionTerminate);
     VisitBasicBlockData 27;
     VisitTerminator (SwitchInt [18; 26]%N)] ::
    replicate 2 dating_philosophers_closure;
  p_debug := [] :: replicate 2 [DebugPlace (field 1 0); DebugPlace (field 1 1)];
  p_local_ty := 
    [(0, 1, "std::sync::Arc<std::sync::Mutex<i32>>"); (0, 2, "std::sync::Mutex<i32>");
    (0, 3, "std::sync::Arc<std::sync::Mutex<i32>>"); (0, 4, "std::sync::Mutex<i32>");
    (0, 5, "std::thread::JoinHandle<()>"); (0, 6, "std::sync::Arc<std::sync::Mutex<i32>>");
    (0, 7, "&std::sync::Arc<std::sync::Mutex<i32>>"); (0, 8, "std::sync::Arc<std::sync::Mutex<i32>>");
    (0, 9, "&std::sync::Arc<std::sync::Mutex<i32>>"); (0, 11, "std::thread::JoinHandle<()>");
    (0, 12, "std::sync::Arc<std::sync::Mutex<i32>>");
    (0, 13, "&std::sync::Arc<std::sync::Mutex<i32>>");
    (0, 14, "std::sync::Arc<std::sync::Mutex<i32>>");
    (0, 15, "&std::sync::Arc<std::sync::Mutex<i32>>");
    (0, 18, "std::result::Result<(), std::boxed::Box<dyn std::any::Any + std::marker::Send>>");
    (0, 19, "std::thread::JoinHandle<()>");
    (0, 21, "std::result::Result<(), std::boxed::Box<dyn std::any::Any + std::marker::Send>>");
    (0, 22, "std::thread::JoinHandle<()>")]%N ++
    ([1; 2]%N ≫= dating_philosophers_closure_types);
  p_closures := [(0, 10, 1); (0, 16, 2)]%N;
|}.

(** examples/programs/thread/dining_philosophers.rs: the body of each closure, and the types of its
    locals. *)
Definition dining_philosophers_closure : list VisitorCall := [
  VisitBasicBlockData 0;
  VisitTerminator (Call (fn 12) [] (loc 15) (Some 1%N) (UnwindCleanup 28));
  VisitBasicBlockData 1;
  VisitTerminator (Call (fn 13) [] (loc 16) (Some 2%N) (UnwindCleanup 28));
  VisitBasicBlockData 2;
  VisitTerminator (Call (fn 14) [] (loc 17) (Some 3%N) (UnwindCleanup 28));
  VisitBasicBlockData 3;
  VisitTerminator (Call (fn 15) [] (loc 18) (Some 4%N) (UnwindCleanup 28));
  VisitBasicBlockData 4;
  VisitAssign (loc 5) (Ref (field 1 0));
  VisitTerminator (Call (fn 16) [Move (loc 5)] (loc 4) (Some 5%N) (UnwindCleanup 28));
  VisitBasicBlockData 5;
  VisitTerminator (Call (fn 17) [Copy (loc 4)] (loc 3) (Some 6%N) (UnwindCleanup 28));
  VisitBasicBlockData 6;
  VisitTerminator (Call (fn 11) [Move (loc 3)] (loc 2) (Some 7%N) (UnwindCleanup 28));
  VisitBasicBlockData 7;
  VisitAssign (loc 11) (Ref (loc 2));
  VisitTerminator (Call (fn 18) [Copy (loc 11)] (loc 12) (Some 8%N) (UnwindCleanup 27));
  VisitBasicBlockData 8;
  VisitTerminator (Call (fn 19) [] (loc 19) (Some 9%N) (UnwindCleanup 27));
  VisitBasicBlockData 9;
  VisitTerminator (Call (fn 13) [] (loc 20) (Some 10%N) (UnwindCleanup 27));
  VisitBasicBlockData 10;
  VisitAssign (loc 9) (Ref (field 1 1));
  VisitTerminator (Call (fn 16) [Move (loc 9)] (loc 8) (Some 11%N) (UnwindCleanup 27));
  VisitBasicBlockData 11;
  VisitTerminator (Call (fn 17) [Copy (loc 8)] (loc 7) (Some 12%N) (UnwindCleanup 27));
  VisitBasicBlockData 12;
  VisitTerminator (Call (fn 11) [Move (loc 7)] (loc 6) (Some 13%N) (UnwindCleanup 27));
  VisitBasicBlockData 13;
  VisitAssign (loc 13) (Ref (loc 6));
  VisitTerminator (Call (fn 18) [Copy (loc 13)] (loc 14) (Some 14%N) (UnwindCleanup 26));
  VisitBasicBlockData 14;
  VisitTerminator (Call (fn 19) [] (loc 21) (Some 15%N) (UnwindCleanup 26));
  VisitBasicBlockData 15;
  VisitTerminator (Call (fn 13) [] (loc 22) (Some 16%N) (UnwindCleanup 26));
  VisitBasicBlockData 16;
  VisitTerminator (Call (fn 12) [] (loc 23) (Some 17%N) (UnwindCleanup 26));
  VisitBasicBlockData 17;
  VisitTerminator (Call (fn 13) [] (loc 24) (Some 18%N) (UnwindCleanup 26));
  VisitBasicBlockData 18;
  VisitTerminator (Call (fn 14) [] (loc 25) (Some 19%N) (UnwindCleanup 26));
  VisitBasicBlockData 19;
  VisitTerminator (Call (fn 15) [] (loc 26) (Some 20%N) (UnwindCleanup 26));
  VisitBasicBlockData 20;
  VisitTerminator (Call (fn 12) [] (loc 27) (Some 21%N) (UnwindCleanup 26));
  VisitBasicBlockData 21;
  VisitTerminator (Call (fn 13) [] (loc 28) (Some 22%N) (UnwindCleanup 26));
  VisitBasicBlockData 22;
  VisitTerminator (Drop (loc 6) 23 (UnwindCleanup 27));
  VisitBasicBlockData 23;
  VisitTerminator (Drop (loc 2) 24 (UnwindCleanup 28));
  VisitBasicBlockData 24;
  VisitTerminator (Drop (loc 1) 25 UnwindContinue);
  VisitBasicBlockData 25;
  VisitTerminator Return;
  VisitBasicBlockData 26;
  VisitTerminator (Drop (loc 6) 27 UnwindActionTerminate);
  VisitBasicBlockData 27;
  VisitTerminator (Drop (loc 2) 28 UnwindActionTerminate);
  VisitBasicBlockData 28;
  VisitTerminator (Drop (loc 1) 29 UnwindActionTerminate);
  VisitBasicBlockData 29;
  VisitTerminator UnwindResume].
Definition dining_philosophers_closure_types (d : N) : list (N * N * string) := [
  (d, 2, "std::sync::MutexGuard<'_, i32>");
  (d, 3, "std::result::Result<std::sync::MutexGuard<'_, i32>, E>"); (d, 4, "&std::sync::Mutex<i32>");
  (d, 5, "&std::sync::Arc<std::sync::Mutex<i32>>"); (d, 6, "std::sync::MutexGuard<'_, i32>");
  (d, 7, "std::result::Result<std::sync::MutexGuard<'_, i32>, E>"); (d, 8, "&std::sync::Mutex<i32>");
  (d, 9, "&std::sync::Arc<std::sync::Mutex<i32>>"); (d, 11, "&std::sync::MutexGuard<'_, i32>");
  (d, 13, "&std::sync::MutexGuard<'_, i32>")]%N.
Definition dining_philosophers : Program := {|
  p_paths := ["main"; "main::{closure#0}"; "main::{closure#1}"; "main::{closure#2}"; "main::{closure#3}";
              "main::{closure#4}"; "std::sync::Mutex::<T>::new"; "std::sync::Arc::<T>::new";
              "std::clone::Clone::clone"; "std::thread::spawn"; "std::thread::JoinHandle::<T>::join";
              "std::result::Result::<T, E>::unwrap"; "std::fmt::Arguments::<'a>::new_const";
              "std::io::_print"; "std::time::Duration::from_secs"; "std::thread::sleep";
              "std::ops::Deref::deref"; "std::sync::Mutex::<T>::lock";
              "core::fmt::rt::Argument::<'_>::new_display"; "std::fmt::Arguments::<'a>::new_v1"];
  p_bodies :=
    [VisitBasicBlockData 0;
     VisitTerminator (Call (fn 6) [scalar] (loc 2) (Some 1%N) UnwindContinue);
     VisitBasicBlockData 1;
     VisitTerminator (Call (fn 7) [Move (loc 2)] (loc 1) (Some 2%N) UnwindContinue);
     VisitBasicBlockData 2;
     VisitTerminator (Call (fn 6) [scalar] (loc 4) (Some 3%N) (UnwindCleanup 49));
     VisitBasicBlockData 3;
     VisitTerminator (Call (fn 7) [Move (loc 4)] (loc 3) (Some 4%N) (UnwindCleanup 49));
     VisitBasicBlockData 4;
     VisitTerminator (Call (fn 6) [scalar] (loc 6) (Some 5%N) (UnwindCleanup 48));
     VisitBasicBlockData 5;
     VisitTerminator (Call (fn 7) [Move (loc 6)] (loc 5) (Some 6%N) (UnwindCleanup 48));
     VisitBasicBlockData 6;
     VisitTerminator (Call (fn 6) [scalar] (loc 8) (Some 7%N) (UnwindCleanup 47));
     VisitBasicBlockData 7;
     VisitTerminator (Call (fn 7) [Move (loc 8)] (loc 7) (Some 8%N) (UnwindCleanup 47));
     VisitBasicBlockData 8;
     VisitTerminator (Call (fn 6) [scalar] (loc 10) (Some 9%N) (UnwindCleanup 46));
     VisitBasicBlockData 9;
     VisitTerminator (Call (fn 7) [Move (loc 10)] (loc 9) (Some 10%N) (UnwindCleanup 46));
     VisitBasicBlockData 10;
     VisitAssign (loc 13) (Ref (loc 9));
     VisitTerminator (Call (fn 8) [Move (loc 13)] (loc 12) (Some 11%N) (UnwindCleanup 45));
     VisitBasicBlockData 11;
     VisitAssign (loc 15) (Ref (loc 1));
     VisitTerminator (Call (fn 8) [Move (loc 15)] (loc 14) (Some 12%N) (UnwindCleanup 66));
     VisitBasicBlockData 12;
     VisitAssign (loc 16) (Aggregate [Move (loc 12); Move (loc 14)]);
     VisitTerminator (Call (fn 9) [Move (loc 16)] (loc 11) (Some 13%N) (UnwindCleanup 66));
     VisitBasicBlockData 13;
     VisitAssign (loc 19) (Ref (loc 1));
     VisitTerminator (Call (fn 8) [Move (loc 19)] (loc 18) (Some 14%N) (UnwindCleanup 44));
     VisitBasicBlockData 14;
     VisitAssign (loc 21) (Ref (loc 3));
     VisitTerminator (Call (fn 8) [Move (loc 21)] (loc 20) (Some 15%N) (UnwindCleanup 63));
     VisitBasicBlockData 15;
     VisitAssign (loc 22) (Aggregate [Move (loc 18); Move (loc 20)]);
     VisitTerminator (Call (fn 9) [Move (loc 22)] (loc 17) (Some 16%N) (UnwindCleanup 63));
     VisitBasicBlockData 16;
     VisitAssign (loc 25) (Ref (loc 3));
     VisitTerminator (Call (fn 8) [Move (loc 25)] (loc 24) (Some 17%N) (UnwindCleanup 43));
     VisitBasicBlockData 17;
     VisitAssign (loc 27) (Ref (loc 5));
     VisitTerminator (Call (fn 8) [Move (loc 27)] (loc 26) (Some 18%N) (UnwindCleanup 60));
     VisitBasicBlockData 18;
     VisitAssign (loc 28) (Aggregate [Move (loc 24); Move (loc 26)]);
     VisitTerminator (Call (fn 9) [Move (loc 28)] (loc 23) (Some 19%N) (UnwindCleanup 60));
     VisitBasicBlockData 19;
     VisitAssign (loc 31) (Ref (loc 5));
     VisitTerminator (Call (fn 8) [Move (loc 31)] (loc 30) (Some 20%N) (UnwindCleanup 42));
     VisitBasicBlockData 20;
     VisitAssign (loc 33) (Ref (loc 7));
     VisitTerminator (Call (fn 8) [Move (loc 33)] (loc 32) (Some 21%N) (UnwindCleanup 57));
     VisitBasicBlockData 21;
     VisitAssign (loc 34) (Aggregate [Move (loc 30); Move (loc 32)]);
     VisitTerminator (Call (fn 9) [Move (loc 34)] (loc 29) (Some 22%N) (UnwindCleanup 57));
     VisitBasicBlockData 22;
     VisitAssign (loc 37) (Ref (loc 7));
     VisitTerminator (Call (fn 8) [Move (loc 37)] (loc 36) (Some 23%N) (UnwindCleanup 41));
     VisitBasicBlockData 23;
     VisitAssign (loc 39) (Ref (loc 9));
     VisitTerminator (Call (fn 8) [Move (loc 39)] (loc 38) (Some 24%N) (UnwindCleanup 54));
     VisitBasicBlockData 24;
     VisitAssign (loc 40) (Aggregate [Move (loc 36); Move (loc 38)]);
     VisitTerminator (Call (fn 9) [Move (loc 40)] (loc 35) (Some 25%N) (UnwindCleanup 54));
     VisitBasicBlockData 25;
     VisitAssign (loc 43) (Use (Move (loc 11)));
     VisitTerminator (Call (fn 10) [Move (loc 43)] (loc 42) (Some 26%N) (UnwindCleanup 52));
     VisitBasicBlockData 26;
     VisitTerminator (Call (fn 11) [Move (loc 42)] (loc 41) (Some 27%N) (UnwindCleanup 52));
     VisitBasicBlockData 27;
     VisitAssign (loc 46) (Use (Move (loc 17)));
     VisitTerminator (Call (fn 10) [Move (loc 46)] (loc 45) (Some 28%N) (UnwindCleanup 52));
     VisitBasicBlockData 28;
     VisitTerminator (Call (fn 11) [Move (loc 45)] (loc 44) (Some 29%N) (UnwindCleanup 52));
     VisitBasicBlockData 29;
     VisitAssign (loc 49) (Use (Move (loc 23)));
     VisitTerminator (Call (fn 10) [Move (loc 49)] (loc 48) (Some 30%N) (UnwindCleanup 52));
     VisitBasicBlockData 30;
     VisitTerminator (Call (fn 11) [Move (loc 48)] (loc 47) (Some 31%N) (UnwindCleanup 52));
     VisitBasicBlockData 31;
     VisitAssign (loc 52) (Use (Move (loc 29)));
     VisitTerminator (Call (fn 10) [Move (loc 52)] (loc 51) (Some 32%N) (UnwindCleanup 52));
     VisitBasicBlockData 32;
     VisitTerminator (Call (fn 11) [Move (loc 51)] (loc 50) (Some 33%N) (UnwindCleanup 52));
     VisitBasicBlockData 33;
     VisitAssign (loc 55) (Use (Move (loc 35)));
     VisitTerminator (Call (fn 10) [Move (loc 55)] (loc 54) (Some 34%N) (UnwindCleanup 52));
     VisitBasicBlockData 34;
     VisitTerminator (Call (fn 11) [Move (loc 54)] (loc 53) (Some 35%N) (UnwindCleanup 52));
     VisitBasicBlockData 35;
     VisitTerminator (Drop (loc 9) 36 (UnwindCleanup 46));
     VisitBasicBlockData 36;
     VisitTerminator (Drop (loc 7) 37 (UnwindCleanup 47));
     VisitBasicBlockData 37;
     VisitTerminator (Drop (loc 5) 38 (UnwindCleanup 48));
     VisitBasicBlockData 38;
     VisitTerminator (Drop (loc 3) 39 (UnwindCleanup 49));
     VisitBasicBlockData 39;
     VisitTerminator (Drop (loc 1) 40 UnwindContinue);
     VisitBasicBlockData 40;
     VisitTerminator Return;
     VisitBasicBlockData 41;
     VisitTerminator (SwitchInt [42; 55]%N);
     VisitBasicBlockData 42;
     VisitTerminator (SwitchInt [43; 58]%N);
     VisitBasicBlockData 43;
     VisitTerminator (SwitchInt [44; 61]%N);
     VisitBasicBlockData 44;
     VisitTerminator (SwitchInt [45; 64]%N);
     VisitBasicBlockData 45;
     VisitTerminator (Drop (loc 9) 46 UnwindActionTerminate);
     VisitBasicBlockData 46;
     VisitTerminator (Drop (loc 7) 47 UnwindActionTerminate);
     VisitBasicBlockData 47;
     VisitTerminator (Drop (loc 5) 48 UnwindActionTerminate);
     VisitBasicBlockData 48;
     VisitTerminator (Drop (loc 3) 49 UnwindActionTerminate);
     VisitBasicBlockData 49;
     VisitTerminator (Drop (loc 1) 50 UnwindActionTerminate);
     VisitBasicBlockData 50;
     VisitTerminator UnwindResume;
     VisitBasicBlockData 51;
     VisitTerminator (Drop (loc 35) 41 UnwindActionTerminate);
     VisitBasicBlockData 52;
     VisitTerminator (SwitchInt [41; 51]%N);
     VisitBasicBlockData 53;
     VisitTerminator (Drop (loc 36) 41 UnwindActionTerminate);
     VisitBasicBlockData 54;
     VisitTerminator (SwitchInt [41; 53]%N);
     VisitBasicBlockData 55;
     VisitTerminator (Drop (loc 29) 42 UnwindActionTerminate);
     VisitBasicBlockData 56;
     VisitTerminator (Drop (loc 30) 42 UnwindActionTerminate);
     VisitBasicBlockData 57;
     VisitTerminator (SwitchInt [42; 56]%N);
     VisitBasicBlockData 58;
     VisitTerminator (Drop (loc 23) 43 UnwindActionTerminate);
     VisitBasicBlockData 59;
     VisitTerminator (Drop (loc 24) 43 UnwindActionTerminate);
     VisitBasicBlockData 60;
     VisitTerminator (SwitchInt [43; 59]%N);
     VisitBasicBlockData 61;
     VisitTerminator (Drop (loc 17) 44 UnwindActionTerminate);
     VisitBasicBlockData 62;
     VisitTerminator (Drop (loc 18) 44 UnwindActionTerminate);
     VisitBasicBlockData 63;
     VisitTerminator (SwitchInt [44; 62]%N);
     VisitBasicBlockData 64;
     VisitTerminator (Drop (loc 11) 45 UnwindActionTerminate);
     VisitBasicBlockData 65;
     VisitTerminator (Drop (loc 12) 45 UnwindActionTerminate);
     VisitBasicBlockData 66;
     VisitTerminator (SwitchInt [45; 65]%N)] ::
    replicate 5 dining_philosophers_closure;
  p_debug := [] :: replicate 5 [DebugPlace (field 1 0); DebugPlace (field 1 1)];
  p_local_ty := 
    [(0, 1, "std::sync::Arc<std::sync::Mutex<i32>>"); (0, 2, "std::sync::Mutex<i32>");
    (0, 3, "std::sync::Arc<std::sync::Mutex<i32>>"); (0, 4, "std::sync::Mutex<i32>");
    (0, 5, "std::sync::Arc<std::sync::Mutex<i32>>"); (0, 6, "std::sync::Mutex<i32>");
    (0, 7, "std::sync::Arc<std::sync::Mutex<i32>>"); (0, 8, "std::sync::Mutex<i32>");
    (0, 9, "std::sync::Arc<std::sync::Mutex<i32>>"); (0, 10, "std::sync::Mutex<i32>");
    (0, 11, "std::thread::JoinHandle<()>"); (0, 12, "std::sync::Arc<std::sync::Mutex<i32>>");
    (0, 13, "&std::sync::Arc<std::sync::Mutex<i32>>");
    (0, 14, "std::sync::Arc<std::sync::Mutex<i32>>");
    (0, 15, "&std::sync::Arc<std::sync::Mutex<i32>>"); (0, 17, "std::thread::JoinHandle<()>");
    (0, 18, "std::sync::Arc<std::sync::Mutex<i32>>");
    (0, 19, "&std::sync::Arc<std::sync::Mutex<i32>>");
    (0, 20, "std::sync::Arc<std::sync::Mutex<i32>>");
    (0, 21, "&std::sync::Arc<std::sync::Mutex<i32>>"); (0, 23, "std::thread::JoinHandle<()>");
    (0, 24, "std::sync::Arc<std::sync::Mutex<i32>>");
    (0, 25, "&std::sync::Arc<std::sync::Mutex<i32>>");
    (0, 26, "std::sync::Arc<std::sync::Mutex<i32>>");
    (0, 27, "&std::sync::Arc<std::sync::Mutex<i32>>"); (0, 29, "std::thread::JoinHandle<()>");
    (0, 30, "std::sync::Arc<std::sync::Mutex<i32>>");
    (0, 31, "&std::sync::Arc<std::sync::Mutex<i32>>");
    (0, 32, "std::sync::Arc<std::sync::Mutex<i32>>");
    (0, 33, "&std::sync::Arc<std::sync::Mutex<i32>>"); (0, 35, "std::thread::JoinHandle<()>");
    (0, 36, "std::sync::Arc<std::sync::Mutex<i32>>");
    (0, 37, "&std::sync::Arc<std::sync::Mutex<i32>>");
    (0, 38, "std::sync::Arc<std::sync::Mutex<i32>>");
    (0, 39, "&std::sync::Arc<std::sync::Mutex<i32>>");
    (0, 42, "std::result::Result<(), std::boxed::Box<dyn std::any::Any + std::marker::Send>>");
    (0, 43, "std::thread::JoinHandle<()>");
    (0, 45, "std::result::Result<(), std::boxed::Box<dyn std::any::Any + std::marker::Send>>");
    (0, 46, "std::thread::JoinHandle<()>");
    (0, 48, "std::result::Result<(), std::boxed::Box<dyn std::any::Any + std::marker::Send>>");
    (0, 49, "std::thread::JoinHandle<()>");
    (0, 51, "std::result::Result<(), std::boxed::Box<dyn std::any::Any + std::marker::Send>>");
    (0, 52, "std::thread::JoinHandle<()>");
    (0, 54, "std::result::Result<(), std::boxed::Box<dyn std::any::Any + std::marker::Send>>");
    (0, 55, "std::thread::JoinHandle<()>")]%N ++
    ([1; 2; 3; 4; 5]%N ≫= dining_philosophers_closure_types);
  p_closures := [(0, 16, 1); (0, 22, 2); (0, 28, 3); (0, 34, 4); (0, 40, 5)]%N;
|}.

(** examples/programs/condvar/producer_consumer.rs *)
Definition producer_consumer : Program := {|
  p_paths := ["main"; "main::{closure#0}"; "main::{closure#1}"; "std::sync::Mutex::<T>::new";
              "std::sync::Condvar::new"; "std::sync::Arc::<T>::new"; "std::clone::Clone::clone";
              "std::thread::spawn"; "std::iter::IntoIterator::into_iter"; "std::iter::Iterator::next";
              "std::ops::Deref::deref"; "std::sync::Mutex::<T>::lock";
              "std::result::Result::<T, E>::unwrap"; "std::sync::Condvar::wait";
              "std::ops::DerefMut::deref_mut"; "core::fmt::rt::Argument::<'_>::new_display";
              "std::fmt::Arguments::<'a>::new_v1"; "std::io::_print"; "std::sync::Condvar::notify_one"];
  p_bodies := [
    [VisitBasicBlockData 0;
     VisitTerminator (Call (fn 3) [scalar] (loc 3) (Some 1%N) UnwindContinue);
     VisitBasicBlockData 1;
     VisitTerminator (Call (fn 4) [] (loc 4) (Some 2%N) UnwindContinue);
     VisitBasicBlockData 2;
     VisitTerminator (Call (fn 4) [] (loc 5) (Some 3%N) UnwindContinue);
     VisitBasicBlockData 3;
     VisitAssign (loc 2) (Aggregate [Move (loc 3); Move (loc 4); Move (loc 5)]);
     VisitTerminator (Call (fn 5) [Move (loc 2)] (loc 1) (Some 4%N) UnwindContinue);
     VisitBasicBlockData 4;
     VisitAssign (loc 7) (Ref (loc 1));
     VisitTerminator (Call (fn 6) [Move (loc 7)] (loc 6) (Some 5%N) (UnwindCleanup 13));
     VisitBasicBlockData 5;
     VisitAssign (loc 9) (Ref (loc 1));
     VisitTerminator (Call (fn 6) [Move (loc 9)] (loc 8) (Some 6%N) (UnwindCleanup 18));
     VisitBasicBlockData 6;
     VisitAssign (loc 11) (Aggregate [Move (loc 6)]);
     VisitTerminator (Call (fn 7) [Move (loc 11)] (loc 10) (Some 7%N) (UnwindCleanup 16));
     VisitBasicBlockData 7;
     VisitAssign (loc 13) (Aggregate [Move (loc 8)]);
     VisitTerminator (Call (fn 7) [Move (loc 13)] (loc 12) (Some 8%N) (UnwindCleanup 12));
     VisitBasicBlockData 8;
     VisitTerminator (Drop (loc 12) 9 (UnwindCleanup 12));
     VisitBasicBlockData 9;
     VisitTerminator (Drop (loc 10) 10 (UnwindCleanup 16));
     VisitBasicBlockData 10;
     VisitTerminator (Drop (loc 1) 11 UnwindContinue);
     VisitBasicBlockData 11;
     VisitTerminator Return;
     VisitBasicBlockData 12;
     VisitTerminator (Drop (loc 10) 16 UnwindActionTerminate);
     VisitBasicBlockData 13;
     VisitTerminator (Drop (loc 1) 14 UnwindActionTerminate);
     VisitBasicBlockData 14;
     VisitTerminator UnwindResume;
     VisitBasicBlockData 15;
     VisitTerminator (Drop (loc 8) 18 UnwindActionTerminate);
     VisitBasicBlockData 16;
     VisitTerminator (SwitchInt [15; 18]%N);
     VisitBasicBlockData 17;
     VisitTerminator (Drop (loc 6) 13 UnwindActionTerminate);
     VisitBasicBlockData 18;
     VisitTerminator (SwitchInt [13; 17]%N)];
    [VisitBasicBlockData 0;
     VisitTerminator (Call (fn 8) [] (loc 20) (Some 1%N) (UnwindCleanup 23));
     VisitBasicBlockData 1;
     VisitTerminator (Goto 2);
     VisitBasicBlockData 2;
     VisitTerminator (Call (fn 9) [] (loc 21) (Some 3%N) (UnwindCleanup 23));
     VisitBasicBlockData 3;
     VisitTerminator (SwitchInt [4; 5; 6]%N);
     VisitBasicBlockData 4;
     VisitTerminator Unreachable;
     VisitBasicBlockData 5;
     VisitAssign (loc 4) (Ref (field 1 0));
     VisitTerminator (Call (fn 10) [Move (loc 4)] (loc 3) (Some 7%N) (UnwindCleanup 23));
     VisitBasicBlockData 6;
     VisitTerminator (Drop (loc 1) 22 UnwindContinue);
     VisitBasicBlockData 7;
     VisitAssign (loc 2) (Ref (deref_field 3 0));
     VisitAssign (loc 5) (Ref (deref_field 3 1));
     VisitAssign (loc 6) (Ref (deref_field 3 2));
     VisitTerminator (Call (fn 11) [Copy (loc 2)] (loc 8) (Some 8%N) (UnwindCleanup 23));
     VisitBasicBlockData 8;
     VisitTerminator (Call (fn 12) [Move (loc 8)] (loc 7) (Some 9%N) (UnwindCleanup 23));
     VisitBasicBlockData 9;
     VisitTerminator (Goto 10);
     VisitBasicBlockData 10;
     VisitAssign (loc 10) (Ref (loc 7));
     VisitTerminator (Call (fn 10) [Move (loc 10)] (loc 9) (Some 11%N) (UnwindCleanup 26));
     VisitBasicBlockData 11;
     VisitTerminator (SwitchInt [12; 15]%N);
     VisitBasicBlockData 12;
     VisitAssign (loc 14) (Use (Move (loc 7)));
     VisitTerminator (Call (fn 13) [Copy (loc 5); Move (loc 14)] (loc 13) (Some 13%N) (UnwindCleanup 26));
     VisitBasicBlockData 13;
     VisitTerminator (Call (fn 12) [Move (loc 13)] (loc 12) (Some 14%N) (UnwindCleanup 26));
     VisitBasicBlockData 14;
     VisitAssign (loc 7) (Use (Move (loc 12)));
     VisitTerminator (Goto 10);
     VisitBasicBlockData 15;
     VisitAssign (loc 16) (Ref (loc 7));
     VisitTerminator (Call (fn 14) [Move (loc 16)] (loc 15) (Some 16%N) (UnwindCleanup 26));
     VisitBasicBlockData 16;
     VisitAssign (mkPlace 15 [Deref]) (Use scalar);
     VisitTerminator (Call (fn 15) [] (loc 22) (Some 17%N) (UnwindCleanup 26));
     VisitBasicBlockData 17;
     VisitTerminator (Call (fn 16) [] (loc 23) (Some 18%N) (UnwindCleanup 26));
     VisitBasicBlockData 18;
     VisitTerminator (Call (fn 17) [] (loc 24) (Some 19%N) (UnwindCleanup 26));
     VisitBasicBlockData 19;
     VisitTerminator (Call (fn 18) [Copy (loc 6)] (loc 17) (Some 20%N) (UnwindCleanup 26));
     VisitBasicBlockData 20;
     VisitTerminator (Drop (loc 7) 21 (UnwindCleanup 23));
     VisitBasicBlockData 21;
     VisitTerminator (Goto 2);
     VisitBasicBlockData 22;
     VisitTerminator Return;
     VisitBasicBlockData 23;
     VisitTerminator (Drop (loc 1) 24 UnwindActionTerminate);
     VisitBasicBlockData 24;
     VisitTerminator UnwindResume;
     VisitBasicBlockData 25;
     VisitTerminator (Drop (loc 7) 23 UnwindActionTerminate);
     VisitBasicBlockData 26;
     VisitTerminator (SwitchInt [23; 25]%N)];
    [VisitBasicBlockData 0;
     VisitTerminator (Goto 1);
     VisitBasicBlockData 1;
     VisitAssign (loc 4) (Ref (field 1 0));
     VisitTerminator (Call (fn 10) [Move (loc 4)] (loc 3) (Some 2%N) (UnwindCleanup 18));
     VisitBasicBlockData 2;
     VisitAssign (loc 2) (Ref (deref_field 3 0));
     VisitAssign (loc 5) (Ref (deref_field 3 1));
     VisitAssign (loc 6) (Ref (deref_field 3 2));
     VisitTerminator (Call (fn 11) [Copy (loc 2)] (loc 8) (Some 3%N) (UnwindCleanup 18));
     VisitBasicBlockData 3;
     VisitTerminator (Call (fn 12) [Move (loc 8)] (loc 7) (Some 4%N) (UnwindCleanup 18));
     VisitBasicBlockData 4;
     VisitTerminator (Goto 5);
     VisitBasicBlockData 5;
     VisitAssign (loc 10) (Ref (loc 7));
     VisitTerminator (Call (fn 10) [Move (loc 10)] (loc 9) (Some 6%N) (UnwindCleanup 21));
     VisitBasicBlockData 6;
     VisitTerminator (SwitchInt [10; 7]%N);
     VisitBasicBlockData 7;
     VisitAssign (loc 14) (Use (Move (loc 7)));
     VisitTerminator (Call (fn 13) [Copy (loc 6); Move (loc 14)] (loc 13) (Some 8%N) (UnwindCleanup 21));
     VisitBasicBlockData 8;
     VisitTerminator (Call (fn 12) [Move (loc 13)] (loc 12) (Some 9%N) (UnwindCleanup 21));
     VisitBasicBlockData 9;
     VisitAssign (loc 7) (Use (Move (loc 12)));
     VisitTerminator (Goto 5);
     VisitBasicBlockData 10;
     VisitAssign (loc 19) (Ref (loc 7));
     VisitTerminator (Call (fn 10) [Move (loc 19)] (loc 18) (Some 11%N) (UnwindCleanup 21));
     VisitBasicBlockData 11;
     VisitAssign (loc 16) (Ref (loc 7));
     VisitTerminator (Call (fn 14) [Move (loc 16)] (loc 15) (Some 12%N) (UnwindCleanup 21));
     VisitBasicBlockData 12;
     VisitAssign (mkPlace 15 [Deref]) (Use scalar);
     VisitTerminator (Call (fn 15) [] (loc 22) (Some 13%N) (UnwindCleanup 21));
     VisitBasicBlockData 13;
     VisitTerminator (Call (fn 16) [] (loc 23) (Some 14%N) (UnwindCleanup 21));
     VisitBasicBlockData 14;
     VisitTerminator (Call (fn 17) [] (loc 24) (Some 15%N) (UnwindCleanup 21));
     VisitBasicBlockData 15;
     VisitTerminator (Call (fn 18) [Copy (loc 5)] (loc 17) (Some 16%N) (UnwindCleanup 21));
     VisitBasicBlockData 16;
     VisitTerminator (Drop (loc 7) 17 (UnwindCleanup 18));
     VisitBasicBlockData 17;
     VisitTerminator (Goto 1);
     VisitBasicBlockData 18;
     VisitTerminator (Drop (loc 1) 19 UnwindActionTerminate);
     VisitBasicBlockData 19;
     VisitTerminator UnwindResume;
     VisitBasicBlockData 20;
     VisitTerminator (Drop (loc 7) 18 UnwindActionTerminate);
     VisitBasicBlockData 21;
     VisitTerminator (SwitchInt [18; 20]%N)]];
  p_debug := [[]; [DebugPlace (field 1 0)]; [DebugPlace (field 1 0)]];
  p_local_ty := [(0, 1, "std::sync::Arc<(std::sync::Mutex<i32>, std::sync::Condvar, std::sync::Condvar)>");
    (0, 2, "(std::sync::Mutex<i32>, std::sync::Condvar, std::sync::Condvar)");
    (0, 3, "std::sync::Mutex<i32>"); (0, 4, "std::sync::Condvar"); (0, 5, "std::sync::Condvar");
    (0, 6, "std::sync::Arc<(std::sync::Mutex<i32>, std::sync::Condvar, std::sync::Condvar)>");
    (0, 7, "&std::sync::Arc<(std::sync::Mutex<i32>, std::sync::Condvar, std::sync::Condvar)>");
    (0, 8, "std::sync::Arc<(std::sync::Mutex<i32>, std::sync::Condvar, std::sync::Condvar)>");
    (0, 9, "&std::sync::Arc<(std::sync::Mutex<i32>, std::sync::Condvar, std::sync::Condvar)>");
    (0, 10, "std::thread::JoinHandle<()>"); (0, 12, "std::thread::JoinHandle<()>");
    (1, 2, "&std::sync::Mutex<i32>");
    (1, 3, "&(std::sync::Mutex<i32>, std::sync::Condvar, std::sync::Condvar)");
    (1, 4, "&std::sync::Arc<(std::sync::Mutex<i32>, std::sync::Condvar, std::sync::Condvar)>");
    (1, 5, "&std::sync::Condvar"); (1, 6, "&std::sync::Condvar");
    (1, 7, "std::sync::MutexGuard<'_, i32>");
    (1, 8, "std::result::Result<std::sync::MutexGuard<'_, i32>, E>"); (1, 9, "&i32");
    (1, 10, "&std::sync::MutexGuard<'_, i32>"); (1, 12, "std::sync::MutexGuard<'_, i32>");
    (1, 13, "std::result::Result<std::sync::MutexGuard<'_, i32>, E>");
    (1, 14, "std::sync::MutexGuard<'_, i32>"); (1, 15, "&mut i32");
    (1, 16, "&mut std::sync::MutexGuard<'_, i32>"); (2, 2, "&std::sync::Mutex<i32>");
    (2, 3, "&(std::sync::Mutex<i32>, std::sync::Condvar, std::sync::Condvar)");
    (2, 4, "&std::sync::Arc<(std::sync::Mutex<i32>, std::sync::Condvar, std::sync::Condvar)>");
    (2, 5, "&std::sync::Condvar"); (2, 6, "&std::sync::Condvar");
    (2, 7, "std::sync::MutexGuard<'_, i32>");
    (2, 8, "std::result::Result<std::sync::MutexGuard<'_, i32>, E>"); (2, 9, "&i32");
    (2, 10, "&std::sync::MutexGuard<'_, i32>"); (2, 12, "std::sync::MutexGuard<'_, i32>");
    (2, 13, "std::result::Result<std::sync::MutexGuard<'_, i32>, E>");
    (2, 14, "std::sync::MutexGuard<'_, i32>"); (2, 15, "&mut i32");
    (2, 16, "&mut std::sync::MutexGuard<'_, i32>"); (2, 18, "&i32");
    (2, 19, "&std::sync::MutexGuard<'_, i32>")]%N;
  p_closures := [(0, 11, 1); (0, 13, 2)]%N;
|}.
