(* ===== verification/StoredNets.v ===== *)
(** * The expected results stored in the repository

    The nets under examples/results (the files net.lola: places with their
    initial tokens, transitions with what they consume and produce) for the
    programs of [Programs] and [ThreadPrograms]. *)

From S2P Require Import Prelude RustStr Naming Netcrab NetModel Rustc Translator Programs.

(** examples/results/statement/empty_main/net.lola *)
Definition empty_main_net : Listing := (
    [("PROGRAM_END", 0); ("PROGRAM_PANIC", 0); ("PROGRAM_START", 1)]%N,
    [("main_RETURN", [("PROGRAM_START", 1%N)], [("PROGRAM_END", 1%N)])]).

(** examples/results/statement/panic/net.lola *)
Definition panic_net : Listing := (
    [("PROGRAM_END", 0); ("PROGRAM_PANIC", 0); ("PROGRAM_START", 1)]%N,
    [("main_PANIC", [("PROGRAM_START", 1%N)], [("PROGRAM_PANIC", 1%N)])]).

(** examples/results/statement/abort/net.lola *)
Definition abort_net : Listing := (
    [("PROGRAM_END", 0); ("PROGRAM_PANIC", 0); ("PROGRAM_START", 1)]%N,
    [("std_process_abort_DIVERGING_CALL", [("PROGRAM_START", 1%N)], [])]).

(** examples/results/statement/infinite_loop/net.lola *)
Definition infinite_loop_net : Listing := (
    [("PROGRAM_END", 0); ("PROGRAM_PANIC", 0); ("PROGRAM_START", 1); ("main_BB1", 0)]%N,
    [("main_GOTO_0", [("PROGRAM_START", 1%N)], [("main_BB1", 1%N)]);
     ("main_GOTO_1", [("main_BB1", 1%N)], [("main_BB1", 1%N)])]).

(** examples/results/statement/match/net.lola *)
Definition match_stmt_net : Listing := (
    [("PROGRAM_END", 0); ("PROGRAM_PANIC", 0); ("PROGRAM_START", 1); ("main_BB1", 0); ("main_BB2", 0);
     ("main_BB3", 0); ("main_BB4", 0); ("main_BB5", 0)]%N,
    [("main_DROP_2", [("main_BB2", 1%N)], [("main_BB3", 1%N)]);
     ("main_DROP_4", [("main_BB4", 1%N)], [("main_BB5", 1%N)]);
     ("main_RETURN", [("main_BB3", 1%N)], [("PROGRAM_END", 1%N)]);
     ("main_UNWIND_5", [("main_BB5", 1%N)], [("PROGRAM_PANIC", 1%N)]);
     ("std_env_args_0_CALL", [("PROGRAM_START", 1%N)], [("main_BB1", 1%N)]);
     ("std_iter_ExactSizeIterator_len_0_CALL", [("main_BB1", 1%N)], [("main_BB2", 1%N)]);
     ("std_iter_ExactSizeIterator_len_0_CALL_UNWIND", [("main_BB1", 1%N)], [("main_BB4", 1%N)])]).

(** examples/results/function_call/in_a_loop/net.lola *)
Definition in_a_loop_net : Listing := (
    [("PROGRAM_END", 0); ("PROGRAM_PANIC", 0); ("PROGRAM_START", 1); ("main_BB1", 0); ("main_BB2", 0);
     ("main_BB3", 0); ("main_BB4", 0); ("main_BB5", 0); ("main_BB6", 0)]%N,
    [("call_0_RETURN", [("main_BB5", 1%N)], [("main_BB2", 1%N)]);
     ("main_GOTO_1", [("main_BB1", 1%N)], [("main_BB2", 1%N)]);
     ("main_RETURN", [("main_BB6", 1%N)], [("PROGRAM_END", 1%N)]);
     ("main_SWITCH_INT_FROM_BB3_TO_BB4", [("main_BB3", 1%N)], [("main_BB4", 1%N)]);
     ("main_SWITCH_INT_FROM_BB3_TO_BB5", [("main_BB3", 1%N)], [("main_BB5", 1%N)]);
     ("main_SWITCH_INT_FROM_BB3_TO_BB6", [("main_BB3", 1%N)], [("main_BB6", 1%N)]);
     ("main_UNREACHABLE_4", [("main_BB4", 1%N)], [("PROGRAM_END", 1%N)]);
     ("std_iter_IntoIterator_into_iter_0_CALL", [("PROGRAM_START", 1%N)], [("main_BB1", 1%N)]);
     ("std_iter_Iterator_next_0_CALL", [("main_BB2", 1%N)], [("main_BB3", 1%N)])]).

(** examples/results/function_call/two_calls_same_function/net.lola *)
Definition two_calls_same_function_net : Listing := (
    [("PROGRAM_END", 0); ("PROGRAM_PANIC", 0); ("PROGRAM_START", 1); ("main_BB1", 0); ("main_BB2", 0);
     ("main_BB3", 0); ("main_BB4", 0)]%N,
    [("main_PANIC", [("main_BB2", 1%N)], [("PROGRAM_PANIC", 1%N)]);
     ("main_RETURN", [("main_BB4", 1%N)], [("PROGRAM_END", 1%N)]);
     ("main_SWITCH_INT_FROM_BB1_TO_BB2", [("main_BB1", 1%N)], [("main_BB2", 1%N)]);
     ("main_SWITCH_INT_FROM_BB1_TO_BB3", [("main_BB1", 1%N)], [("main_BB3", 1%N)]);
     ("simple_function_0_RETURN", [("PROGRAM_START", 1%N)], [("main_BB1", 1%N)]);
     ("simple_function_1_RETURN", [("main_BB3", 1%N)], [("main_BB4", 1%N)])]).

(** examples/results/mutex/double_lock_deadlock/net.lola *)
Definition double_lock_deadlock_net : Listing := (
    [("MUTEX_0", 1); ("PROGRAM_END", 0); ("PROGRAM_PANIC", 0); ("PROGRAM_START", 1); ("main_BB1", 0);
     ("main_BB2", 0); ("main_BB3", 0); ("main_BB4", 0); ("main_BB5", 0); ("main_BB6", 0); ("main_BB7", 0)]%N,
    [("main_DROP_3", [("main_BB3", 1%N)], [("MUTEX_0", 1%N); ("main_BB4", 1%N)]);
     ("main_DROP_4", [("main_BB4", 1%N)], [("MUTEX_0", 1%N); ("main_BB5", 1%N)]);
     ("main_DROP_6", [("main_BB6", 1%N)], [("MUTEX_0", 1%N); ("main_BB7", 1%N)]);
     ("main_DROP_UNWIND_3", [("main_BB3", 1%N)], [("MUTEX_0", 1%N); ("main_BB6", 1%N)]);
     ("main_RETURN", [("main_BB5", 1%N)], [("PROGRAM_END", 1%N)]);
     ("main_UNWIND_7", [("main_BB7", 1%N)], [("PROGRAM_PANIC", 1%N)]);
     ("std_sync_Mutex_T_lock_0_CALL", [("MUTEX_0", 1%N); ("main_BB1", 1%N)], [("main_BB2", 1%N)]);
     ("std_sync_Mutex_T_lock_1_CALL", [("MUTEX_0", 1%N); ("main_BB2", 1%N)], [("main_BB3", 1%N)]);
     ("std_sync_Mutex_T_new_0_CALL", [("PROGRAM_START", 1%N)], [("main_BB1", 1%N)])]).

(** examples/results/mutex/double_lock_deadlock_in_function/net.lola *)
Definition double_lock_deadlock_in_function_net : Listing := (
    [("MUTEX_0", 1); ("MUTEX_1", 1); ("PROGRAM_END", 0); ("PROGRAM_PANIC", 0); ("PROGRAM_START", 1);
     ("first_deadlock_0_BB1", 0); ("first_deadlock_0_BB2", 0); ("first_deadlock_0_BB3", 0);
     ("first_deadlock_0_BB4", 0); ("first_deadlock_0_BB5", 0); ("first_deadlock_0_BB6", 0);
     ("first_deadlock_0_BB7", 0); ("main_BB1", 0); ("main_BB2", 0); ("second_deadlock_0_BB1", 0);
     ("second_deadlock_0_BB2", 0); ("second_deadlock_0_BB3", 0); ("second_deadlock_0_BB4", 0);
     ("second_deadlock_0_BB5", 0); ("second_deadlock_0_BB6", 0); ("second_deadlock_0_BB7", 0)]%N,
    [("first_deadlock_0_DROP_3", [("first_deadlock_0_BB3", 1%N)], [("MUTEX_0", 1%N); ("first_deadlock_0_BB4", 1%N)]);
     ("first_deadlock_0_DROP_4", [("first_deadlock_0_BB4", 1%N)], [("MUTEX_0", 1%N); ("first_deadlock_0_BB5", 1%N)]);
     ("first_deadlock_0_DROP_6", [("first_deadlock_0_BB6", 1%N)], [("MUTEX_0", 1%N); ("first_deadlock_0_BB7", 1%N)]);
     ("first_deadlock_0_DROP_UNWIND_3", [("first_deadlock_0_BB3", 1%N)], [("MUTEX_0", 1%N); ("first_deadlock_0_BB6", 1%N)]);
     ("first_deadlock_0_RETURN", [("first_deadlock_0_BB5", 1%N)], [("main_BB1", 1%N)]);
     ("first_deadlock_0_UNWIND_7", [("first_deadlock_0_BB7", 1%N)], [("PROGRAM_PANIC", 1%N)]);
     ("main_RETURN", [("main_BB2", 1%N)], [("PROGRAM_END", 1%N)]);
     ("second_deadlock_0_DROP_3", [("second_deadlock_0_BB3", 1%N)], [("MUTEX_1", 1%N); ("second_deadlock_0_BB4", 1%N)]);
     ("second_deadlock_0_DROP_4", [("second_deadlock_0_BB4", 1%N)], [("MUTEX_1", 1%N); ("second_deadlock_0_BB5", 1%N)]);
     ("second_deadlock_0_DROP_6", [("second_deadlock_0_BB6", 1%N)], [("MUTEX_1", 1%N); ("second_deadlock_0_BB7", 1%N)]);
     ("second_deadlock_0_DROP_UNWIND_3", [("second_deadlock_0_BB3", 1%N)], [("MUTEX_1", 1%N); ("second_deadlock_0_BB6", 1%N)]);
     ("second_deadlock_0_RETURN", [("second_deadlock_0_BB5", 1%N)], [("main_BB2", 1%N)]);
     ("second_deadlock_0_UNWIND_7", [("second_deadlock_0_BB7", 1%N)], [("PROGRAM_PANIC", 1%N)]);
     ("std_sync_Mutex_T_lock_0_CALL", [("MUTEX_0", 1%N); ("first_deadlock_0_BB1", 1%N)], [("first_deadlock_0_BB2", 1%N)]);
     ("std_sync_Mutex_T_lock_1_CALL", [("MUTEX_0", 1%N); ("first_deadlock_0_BB2", 1%N)], [("first_deadlock_0_BB3", 1%N)]);
     ("std_sync_Mutex_T_lock_2_CALL", [("MUTEX_1", 1%N); ("second_deadlock_0_BB1", 1%N)], [("second_deadlock_0_BB2", 1%N)]);
     ("std_sync_Mutex_T_lock_3_CALL", [("MUTEX_1", 1%N); ("second_deadlock_0_BB2", 1%N)], [("second_deadlock_0_BB3", 1%N)]);
     ("std_sync_Mutex_T_new_0_CALL", [("PROGRAM_START", 1%N)], [("first_deadlock_0_BB1", 1%N)]);
     ("std_sync_Mutex_T_new_1_CALL", [("main_BB1", 1%N)], [("second_deadlock_0_BB1", 1%N)])]).

(** examples/results/mutex/drop_mutex_guard_manually/net.lola *)
Definition drop_mutex_guard_manually_net : Listing := (
    [("MUTEX_0", 1); ("PROGRAM_END", 0); ("PROGRAM_PANIC", 0); ("PROGRAM_START", 1); ("main_BB1", 0);
     ("main_BB2", 0); ("main_BB3", 0); ("main_BB4", 0); ("main_BB5", 0)]%N,
    [("main_DROP_4", [("main_BB4", 1%N)], [("MUTEX_0", 1%N); ("main_BB5", 1%N)]);
     ("main_RETURN", [("main_BB5", 1%N)], [("PROGRAM_END", 1%N)]);
     ("std_mem_drop_0_CALL", [("main_BB2", 1%N)], [("MUTEX_0", 1%N); ("main_BB3", 1%N)]);
     ("std_sync_Mutex_T_lock_0_CALL", [("MUTEX_0", 1%N); ("main_BB1", 1%N)], [("main_BB2", 1%N)]);
     ("std_sync_Mutex_T_lock_1_CALL", [("MUTEX_0", 1%N); ("main_BB3", 1%N)], [("main_BB4", 1%N)]);
     ("std_sync_Mutex_T_new_0_CALL", [("PROGRAM_START", 1%N)], [("main_BB1", 1%N)])]).

(** examples/results/mutex/two_threads_sharing_mutex/net.lola *)
Definition two_threads_sharing_mutex_net : Listing := (
    [("MUTEX_0", 1); ("PROGRAM_END", 0); ("PROGRAM_PANIC", 0); ("PROGRAM_START", 1); ("THREAD_0_END", 0);
     ("THREAD_0_START", 0); ("main_BB1", 0); ("main_BB10", 0); ("main_BB11", 0); ("main_BB12", 0);
     ("main_BB13", 0); ("main_BB14", 0); ("main_BB2", 0); ("main_BB3", 0); ("main_BB4", 0); ("main_BB5", 0);
     ("main_BB6", 0); ("main_BB7", 0); ("main_BB8", 0); ("main_BB9", 0); ("main__closure_0__BB1", 0);
     ("main__closure_0__BB2", 0); ("main__closure_0__BB3", 0); ("main__closure_0__BB4", 0);
     ("main__closure_0__BB5", 0); ("main__closure_0__BB6", 0)]%N,
    [("main_DROP_11", [("main_BB11", 1%N)], [("main_BB12", 1%N)]);
     ("main_DROP_13", [("main_BB13", 1%N)], [("main_BB11", 1%N)]);
     ("main_DROP_8", [("main_BB8", 1%N)], [("main_BB9", 1%N)]);
     ("main_DROP_9", [("main_BB9", 1%N)], [("main_BB10", 1%N)]);
     ("main_DROP_UNWIND_8", [("main_BB8", 1%N)], [("main_BB14", 1%N)]);
     ("main_RETURN", [("main_BB10", 1%N)], [("PROGRAM_END", 1%N)]);
     ("main_SWITCH_INT_FROM_BB14_TO_BB11", [("main_BB14", 1%N)], [("main_BB11", 1%N)]);
     ("main_SWITCH_INT_FROM_BB14_TO_BB13", [("main_BB14", 1%N)], [("main_BB13", 1%N)]);
     ("main_UNWIND_12", [("main_BB12", 1%N)], [("PROGRAM_PANIC", 1%N)]);
     ("main__closure_0__DROP_2", [("main__closure_0__BB2", 1%N)], [("MUTEX_0", 1%N); ("main__closure_0__BB3", 1%N)]);
     ("main__closure_0__DROP_3", [("main__closure_0__BB3", 1%N)], [("main__closure_0__BB4", 1%N)]);
     ("main__closure_0__DROP_5", [("main__closure_0__BB5", 1%N)], [("main__closure_0__BB6", 1%N)]);
     ("main__closure_0__DROP_UNWIND_2", [("main__closure_0__BB2", 1%N)], [("MUTEX_0", 1%N); ("main__closure_0__BB5", 1%N)]);
     ("main__closure_0__RETURN", [("main__closure_0__BB4", 1%N)], [("THREAD_0_END", 1%N)]);
     ("main__closure_0__UNWIND_6", [("main__closure_0__BB6", 1%N)], [("THREAD_0_END", 1%N)]);
     ("std_clone_Clone_clone_0_CALL", [("main_BB2", 1%N)], [("main_BB3", 1%N)]);
     ("std_clone_Clone_clone_0_CALL_UNWIND", [("main_BB2", 1%N)], [("main_BB11", 1%N)]);
     ("std_mem_drop_0_CALL", [("main_BB6", 1%N)], [("MUTEX_0", 1%N); ("main_BB7", 1%N)]);
     ("std_mem_drop_0_CALL_UNWIND", [("main_BB6", 1%N)], [("MUTEX_0", 1%N); ("main_BB14", 1%N)]);
     ("std_ops_Deref_deref_0_CALL", [("main_BB4", 1%N)], [("main_BB5", 1%N)]);
     ("std_ops_Deref_deref_1_CALL", [("THREAD_0_START", 1%N)], [("main__closure_0__BB1", 1%N)]);
     ("std_sync_Arc_T_new_0_CALL", [("main_BB1", 1%N)], [("main_BB2", 1%N)]);
     ("std_sync_Mutex_T_lock_0_CALL", [("MUTEX_0", 1%N); ("main_BB5", 1%N)], [("main_BB6", 1%N)]);
     ("std_sync_Mutex_T_lock_1_CALL", [("MUTEX_0", 1%N); ("main__closure_0__BB1", 1%N)], [("main__closure_0__BB2", 1%N)]);
     ("std_sync_Mutex_T_new_0_CALL", [("PROGRAM_START", 1%N)], [("main_BB1", 1%N)]);
     ("std_thread_JoinHandle_T_join_0_CALL", [("THREAD_0_END", 1%N); ("main_BB7", 1%N)], [("main_BB8", 1%N)]);
     ("std_thread_spawn_0_CALL", [("main_BB3", 1%N)], [("THREAD_0_START", 1%N); ("main_BB4", 1%N)]);
     ("std_thread_spawn_0_CALL_UNWIND", [("main_BB3", 1%N)], [("main_BB11", 1%N)])]).

(** examples/results/thread/spawn_with_empty_closure/net.lola *)
Definition spawn_with_empty_closure_net : Listing := (
    [("PROGRAM_END", 0); ("PROGRAM_PANIC", 0); ("PROGRAM_START", 1); ("THREAD_0_END", 0); ("THREAD_0_START", 0);
     ("main_BB1", 0); ("main_BB2", 0); ("main_BB3", 0)]%N,
    [("main_DROP_2", [("main_BB2", 1%N)], [("main_BB3", 1%N)]);
     ("main_RETURN", [("main_BB3", 1%N)], [("PROGRAM_END", 1%N)]);
     ("main__closure_0__RETURN", [("THREAD_0_START", 1%N)], [("THREAD_0_END", 1%N)]);
     ("std_thread_JoinHandle_T_join_0_CALL", [("THREAD_0_END", 1%N); ("main_BB1", 1%N)], [("main_BB2", 1%N)]);
     ("std_thread_spawn_0_CALL", [("PROGRAM_START", 1%N)], [("THREAD_0_START", 1%N); ("main_BB1", 1%N)])]).

(** examples/results/thread/detached/net.lola *)
Definition detached_net : Listing := (
    [("PROGRAM_END", 0); ("PROGRAM_PANIC", 0); ("PROGRAM_START", 1); ("THREAD_0_END", 0); ("THREAD_0_START", 0);
     ("main_BB1", 0); ("main_BB2", 0)]%N,
    [("main_DROP_1", [("main_BB1", 1%N)], [("main_BB2", 1%N)]);
     ("main_RETURN", [("main_BB2", 1%N)], [("PROGRAM_END", 1%N)]);
     ("main__closure_0__RETURN", [("THREAD_0_START", 1%N)], [("THREAD_0_END", 1%N)]);
     ("std_thread_spawn_0_CALL", [("PROGRAM_START", 1%N)], [("THREAD_0_START", 1%N); ("main_BB1", 1%N)])]).

(** examples/results/thread/diverging/net.lola *)
Definition diverging_thread_net : Listing := (
    [("PROGRAM_END", 0); ("PROGRAM_PANIC", 0); ("PROGRAM_START", 1); ("THREAD_0_END", 0); ("THREAD_0_START", 0);
     ("main_BB1", 0); ("main_BB2", 0); ("main_BB3", 0); ("main__closure_0__BB1", 0)]%N,
    [("main_DROP_2", [("main_BB2", 1%N)], [("main_BB3", 1%N)]);
     ("main_RETURN", [("main_BB3", 1%N)], [("PROGRAM_END", 1%N)]);
     ("main__closure_0__GOTO_0", [("THREAD_0_START", 1%N)], [("main__closure_0__BB1", 1%N)]);
     ("main__closure_0__GOTO_1", [("main__closure_0__BB1", 1%N)], [("main__closure_0__BB1", 1%N)]);
     ("std_thread_JoinHandle_T_join_0_CALL", [("THREAD_0_END", 1%N); ("main_BB1", 1%N)], [("main_BB2", 1%N)]);
     ("std_thread_spawn_0_CALL", [("PROGRAM_START", 1%N)], [("THREAD_0_START", 1%N); ("main_BB1", 1%N)])]).

(** examples/results/condvar/infinite_wait_deadlock/net.lola *)
Definition infinite_wait_deadlock_net : Listing := (
    [("CONDVAR_0_NOTIFY", 0); ("CONDVAR_0_WAIT_ENABLED", 1); ("MUTEX_0", 1); ("PROGRAM_END", 0);
     ("PROGRAM_PANIC", 0); ("PROGRAM_START", 1); ("main_BB1", 0); ("main_BB2", 0); ("main_BB3", 0);
     ("main_BB4", 0); ("main_BB5", 0); ("main_BB6", 0)]%N,
    [("CONDVAR_0_LOST_SIGNAL", [("CONDVAR_0_NOTIFY", 1%N); ("CONDVAR_0_WAIT_ENABLED", 1%N)], [("CONDVAR_0_WAIT_ENABLED", 1%N)]);
     ("CONDVAR_0_NOTIFY_RECEIVED", [("CONDVAR_0_NOTIFY", 1%N); ("MUTEX_0", 1%N)], [("CONDVAR_0_WAIT_ENABLED", 1%N); ("main_BB5", 1%N)]);
     ("CONDVAR_0_WAIT_START", [("CONDVAR_0_WAIT_ENABLED", 1%N); ("main_BB4", 1%N)], [("MUTEX_0", 1%N)]);
     ("main_DROP_5", [("main_BB5", 1%N)], [("MUTEX_0", 1%N); ("main_BB6", 1%N)]);
     ("main_RETURN", [("main_BB6", 1%N)], [("PROGRAM_END", 1%N)]);
     ("std_result_Result_unwrap_0_CALL", [("main_BB3", 1%N)], [("main_BB4", 1%N)]);
     ("std_sync_Condvar_new_0_CALL", [("main_BB1", 1%N)], [("main_BB2", 1%N)]);
     ("std_sync_Mutex_T_lock_0_CALL", [("MUTEX_0", 1%N); ("main_BB2", 1%N)], [("main_BB3", 1%N)]);
     ("std_sync_Mutex_T_new_0_CALL", [("PROGRAM_START", 1%N)], [("main_BB1", 1%N)])]).

(** examples/results/condvar/self_notify_lost_signal/net.lola *)
Definition self_notify_lost_signal_net : Listing := (
    [("CONDVAR_0_NOTIFY", 0); ("CONDVAR_0_WAIT_ENABLED", 1); ("MUTEX_0", 1); ("PROGRAM_END", 0);
     ("PROGRAM_PANIC", 0); ("PROGRAM_START", 1); ("main_BB1", 0); ("main_BB10", 0); ("main_BB2", 0);
     ("main_BB3", 0); ("main_BB4", 0); ("main_BB5", 0); ("main_BB6", 0); ("main_BB7", 0); ("main_BB8", 0);
     ("main_BB9", 0)]%N,
    [("CONDVAR_0_LOST_SIGNAL", [("CONDVAR_0_NOTIFY", 1%N); ("CONDVAR_0_WAIT_ENABLED", 1%N)], [("CONDVAR_0_WAIT_ENABLED", 1%N)]);
     ("CONDVAR_0_NOTIFY_RECEIVED", [("CONDVAR_0_NOTIFY", 1%N); ("MUTEX_0", 1%N)], [("CONDVAR_0_WAIT_ENABLED", 1%N); ("main_BB6", 1%N)]);
     ("CONDVAR_0_WAIT_START", [("CONDVAR_0_WAIT_ENABLED", 1%N); ("main_BB5", 1%N)], [("MUTEX_0", 1%N)]);
     ("main_DROP_6", [("main_BB6", 1%N)], [("MUTEX_0", 1%N); ("main_BB7", 1%N)]);
     ("main_DROP_9", [("main_BB9", 1%N)], [("MUTEX_0", 1%N); ("main_BB8", 1%N)]);
     ("main_DROP_UNWIND_6", [("main_BB6", 1%N)], [("MUTEX_0", 1%N); ("main_BB10", 1%N)]);
     ("main_RETURN", [("main_BB7", 1%N)], [("PROGRAM_END", 1%N)]);
     ("main_SWITCH_INT_FROM_BB10_TO_BB8", [("main_BB10", 1%N)], [("main_BB8", 1%N)]);
     ("main_SWITCH_INT_FROM_BB10_TO_BB9", [("main_BB10", 1%N)], [("main_BB9", 1%N)]);
     ("main_UNWIND_8", [("main_BB8", 1%N)], [("PROGRAM_PANIC", 1%N)]);
     ("std_result_Result_unwrap_0_CALL", [("main_BB3", 1%N)], [("main_BB4", 1%N)]);
     ("std_sync_Condvar_new_0_CALL", [("main_BB1", 1%N)], [("main_BB2", 1%N)]);
     ("std_sync_Condvar_notify_one_0_CALL", [("main_BB4", 1%N)], [("CONDVAR_0_NOTIFY", 1%N); ("main_BB5", 1%N)]);
     ("std_sync_Mutex_T_lock_0_CALL", [("MUTEX_0", 1%N); ("main_BB2", 1%N)], [("main_BB3", 1%N)]);
     ("std_sync_Mutex_T_new_0_CALL", [("PROGRAM_START", 1%N)], [("main_BB1", 1%N)])]).

(** examples/results/condvar/set_condition_before_wait/net.lola *)
Definition set_condition_before_wait_net : Listing := (
    [("CONDVAR_0_NOTIFY", 0); ("CONDVAR_0_WAIT_ENABLED", 1); ("MUTEX_0", 1); ("MUTEX_0_CONDITION_NOT_SET", 1);
     ("MUTEX_0_CONDITION_SET", 0); ("PROGRAM_END", 0); ("PROGRAM_PANIC", 0); ("PROGRAM_START", 1);
     ("THREAD_0_END", 0); ("THREAD_0_START", 0); ("main_BB1", 0); ("main_BB10", 0); ("main_BB11", 0);
     ("main_BB12", 0); ("main_BB13", 0); ("main_BB14", 0); ("main_BB15", 0); ("main_BB16", 0); ("main_BB17", 0);
     ("main_BB18", 0); ("main_BB19", 0); ("main_BB2", 0); ("main_BB20", 0); ("main_BB21", 0); ("main_BB22", 0);
     ("main_BB3", 0); ("main_BB4", 0); ("main_BB5", 0); ("main_BB6", 0); ("main_BB7", 0); ("main_BB8", 0);
     ("main_BB9", 0); ("main__closure_0__BB1", 0); ("main__closure_0__BB2", 0); ("main__closure_0__BB3", 0);
     ("main__closure_0__BB4", 0); ("main__closure_0__BB5", 0); ("main__closure_0__BB6", 0);
     ("main__closure_0__BB7", 0); ("main__closure_0__BB8", 0); ("main__closure_0__BB9", 0)]%N,
    [("CONDVAR_0_LOST_SIGNAL", [("CONDVAR_0_NOTIFY", 1%N); ("CONDVAR_0_WAIT_ENABLED", 1%N)], [("CONDVAR_0_WAIT_ENABLED", 1%N)]);
     ("CONDVAR_0_NOTIFY_RECEIVED", [("CONDVAR_0_NOTIFY", 1%N); ("MUTEX_0", 1%N)], [("CONDVAR_0_WAIT_ENABLED", 1%N); ("main__closure_0__BB4", 1%N)]);
     ("CONDVAR_0_WAIT_SKIP", [("MUTEX_0_CONDITION_SET", 1%N); ("main__closure_0__BB3", 1%N)], [("MUTEX_0_CONDITION_SET", 1%N); ("main__closure_0__BB4", 1%N)]);
     ("CONDVAR_0_WAIT_START", [("CONDVAR_0_WAIT_ENABLED", 1%N); ("MUTEX_0_CONDITION_NOT_SET", 1%N); ("main__closure_0__BB3", 1%N)], [("MUTEX_0", 1%N); ("MUTEX_0_CONDITION_NOT_SET", 1%N)]);
     ("main_DROP_13", [("main_BB13", 1%N)], [("main_BB14", 1%N)]);
     ("main_DROP_15", [("main_BB15", 1%N)], [("main_BB22", 1%N)]);
     ("main_DROP_17", [("main_BB17", 1%N)], [("MUTEX_0", 1%N); ("main_BB20", 1%N)]);
     ("main_DROP_19", [("main_BB19", 1%N)], [("main_BB15", 1%N)]);
     ("main_DROP_21", [("main_BB21", 1%N)], [("main_BB16", 1%N)]);
     ("main_DROP_UNWIND_13", [("main_BB13", 1%N)], [("main_BB22", 1%N)]);
     ("main_RETURN", [("main_BB14", 1%N)], [("PROGRAM_END", 1%N)]);
     ("main_SWITCH_INT_FROM_BB18_TO_BB17", [("main_BB18", 1%N)], [("main_BB17", 1%N)]);
     ("main_SWITCH_INT_FROM_BB18_TO_BB20", [("main_BB18", 1%N)], [("main_BB20", 1%N)]);
     ("main_SWITCH_INT_FROM_BB20_TO_BB15", [("main_BB20", 1%N)], [("main_BB15", 1%N)]);
     ("main_SWITCH_INT_FROM_BB20_TO_BB19", [("main_BB20", 1%N)], [("main_BB19", 1%N)]);
     ("main_SWITCH_INT_FROM_BB22_TO_BB16", [("main_BB22", 1%N)], [("main_BB16", 1%N)]);
     ("main_SWITCH_INT_FROM_BB22_TO_BB21", [("main_BB22", 1%N)], [("main_BB21", 1%N)]);
     ("main_UNWIND_16", [("main_BB16", 1%N)], [("PROGRAM_PANIC", 1%N)]);
     ("main__closure_0__DROP_5", [("main__closure_0__BB5", 1%N)], [("MUTEX_0", 1%N); ("main__closure_0__BB6", 1%N)]);
     ("main__closure_0__DROP_6", [("main__closure_0__BB6", 1%N)], [("main__closure_0__BB7", 1%N)]);
     ("main__closure_0__DROP_8", [("main__closure_0__BB8", 1%N)], [("main__closure_0__BB9", 1%N)]);
     ("main__closure_0__DROP_UNWIND_5", [("main__closure_0__BB5", 1%N)], [("MUTEX_0", 1%N); ("main__closure_0__BB8", 1%N)]);
     ("main__closure_0__RETURN", [("main__closure_0__BB7", 1%N)], [("THREAD_0_END", 1%N)]);
     ("main__closure_0__UNWIND_9", [("main__closure_0__BB9", 1%N)], [("THREAD_0_END", 1%N)]);
     ("std_clone_Clone_clone_0_CALL", [("main_BB3", 1%N)], [("main_BB4", 1%N)]);
     ("std_clone_Clone_clone_0_CALL_UNWIND", [("main_BB3", 1%N)], [("main_BB22", 1%N)]);
     ("std_mem_drop_0_CALL", [("main_BB10", 1%N)], [("MUTEX_0", 1%N); ("main_BB11", 1%N)]);
     ("std_mem_drop_0_CALL_UNWIND", [("main_BB10", 1%N)], [("MUTEX_0", 1%N); ("main_BB18", 1%N)]);
     ("std_ops_DerefMut_deref_mut_0_CALL", [("MUTEX_0_CONDITION_NOT_SET", 1%N); ("main_BB8", 1%N)], [("MUTEX_0_CONDITION_SET", 1%N); ("main_BB9", 1%N)]);
     ("std_ops_Deref_deref_0_CALL", [("main_BB5", 1%N)], [("main_BB6", 1%N)]);
     ("std_ops_Deref_deref_1_CALL", [("THREAD_0_START", 1%N)], [("main__closure_0__BB1", 1%N)]);
     ("std_result_Result_unwrap_0_CALL", [("main_BB7", 1%N)], [("main_BB8", 1%N)]);
     ("std_result_Result_unwrap_1_CALL", [("main_BB12", 1%N)], [("main_BB13", 1%N)]);
     ("std_result_Result_unwrap_1_CALL_UNWIND", [("main_BB12", 1%N)], [("main_BB18", 1%N)]);
     ("std_result_Result_unwrap_2_CALL", [("main__closure_0__BB2", 1%N)], [("main__closure_0__BB3", 1%N)]);
     ("std_result_Result_unwrap_3_CALL", [("main__closure_0__BB4", 1%N)], [("main__closure_0__BB5", 1%N)]);
     ("std_sync_Arc_T_new_0_CALL", [("main_BB2", 1%N)], [("main_BB3", 1%N)]);
     ("std_sync_Condvar_new_0_CALL", [("main_BB1", 1%N)], [("main_BB2", 1%N)]);
     ("std_sync_Condvar_notify_one_0_CALL", [("main_BB9", 1%N)], [("CONDVAR_0_NOTIFY", 1%N); ("main_BB10", 1%N)]);
     ("std_sync_Mutex_T_lock_0_CALL", [("MUTEX_0", 1%N); ("main_BB6", 1%N)], [("main_BB7", 1%N)]);
     ("std_sync_Mutex_T_lock_1_CALL", [("MUTEX_0", 1%N); ("main__closure_0__BB1", 1%N)], [("main__closure_0__BB2", 1%N)]);
     ("std_sync_Mutex_T_new_0_CALL", [("PROGRAM_START", 1%N)], [("main_BB1", 1%N)]);
     ("std_thread_JoinHandle_T_join_0_CALL", [("THREAD_0_END", 1%N); ("main_BB11", 1%N)], [("main_BB12", 1%N)]);
     ("std_thread_spawn_0_CALL", [("main_BB4", 1%N)], [("THREAD_0_START", 1%N); ("main_BB5", 1%N)]);
     ("std_thread_spawn_0_CALL_UNWIND", [("main_BB4", 1%N)], [("main_BB15", 1%N)])]).
