(* ===== verification/StoredSharedNets.v ===== *)
(** * More of the expected results stored in the repository

    The nets under examples/results for the programs of [ConsolePrograms] and
    [SharedPrograms]. *)

From S2P Require Import Prelude RustStr Naming Netcrab NetModel Rustc Translator Programs.

(** examples/results/basic/hello_world/net.lola *)
Definition hello_world_net : Listing := (
    [("PROGRAM_END", 0); ("PROGRAM_PANIC", 0); ("PROGRAM_START", 1); ("main_BB1", 0); ("main_BB2", 0)]%N,
    [("main_RETURN", [("main_BB2", 1%N)], [("PROGRAM_END", 1%N)]);
     ("std_fmt_Arguments_a_new_const_0_CALL", [("PROGRAM_START", 1%N)], [("main_BB1", 1%N)]);
     ("std_io__print_0_CALL", [("main_BB1", 1%N)], [("main_BB2", 1%N)])]).

(** examples/results/basic/greet/net.lola *)
Definition greet_net : Listing := (
    [("PROGRAM_END", 0); ("PROGRAM_PANIC", 0); ("PROGRAM_START", 1); ("main_BB1", 0); ("main_BB10", 0);
     ("main_BB11", 0); ("main_BB12", 0); ("main_BB13", 0); ("main_BB14", 0); ("main_BB15", 0); ("main_BB16", 0);
     ("main_BB2", 0); ("main_BB3", 0); ("main_BB4", 0); ("main_BB5", 0); ("main_BB6", 0); ("main_BB7", 0);
     ("main_BB8", 0); ("main_BB9", 0)]%N,
    [("core_fmt_rt_Argument__'___new_display_0_CALL", [("main_BB5", 1%N)], [("main_BB6", 1%N)]);
     ("core_fmt_rt_Argument__'___new_display_0_CALL_UNWIND", [("main_BB5", 1%N)], [("main_BB15", 1%N)]);
     ("core_fmt_rt_Argument__'___new_display_1_CALL", [("main_BB10", 1%N)], [("main_BB11", 1%N)]);
     ("core_fmt_rt_Argument__'___new_display_1_CALL_UNWIND", [("main_BB10", 1%N)], [("main_BB15", 1%N)]);
     ("main_DROP_13", [("main_BB13", 1%N)], [("main_BB14", 1%N)]);
     ("main_DROP_15", [("main_BB15", 1%N)], [("main_BB16", 1%N)]);
     ("main_RETURN", [("main_BB14", 1%N)], [("PROGRAM_END", 1%N)]);
     ("main_SWITCH_INT_FROM_BB3_TO_BB4", [("main_BB3", 1%N)], [("main_BB4", 1%N)]);
     ("main_SWITCH_INT_FROM_BB3_TO_BB9", [("main_BB3", 1%N)], [("main_BB9", 1%N)]);
     ("main_UNWIND_16", [("main_BB16", 1%N)], [("PROGRAM_PANIC", 1%N)]);
     ("std_env_args_0_CALL", [("PROGRAM_START", 1%N)], [("main_BB1", 1%N)]);
     ("std_fmt_Arguments_a_new_v1_0_CALL", [("main_BB6", 1%N)], [("main_BB7", 1%N)]);
     ("std_fmt_Arguments_a_new_v1_0_CALL_UNWIND", [("main_BB6", 1%N)], [("main_BB15", 1%N)]);
     ("std_fmt_Arguments_a_new_v1_1_CALL", [("main_BB11", 1%N)], [("main_BB12", 1%N)]);
     ("std_fmt_Arguments_a_new_v1_1_CALL_UNWIND", [("main_BB11", 1%N)], [("main_BB15", 1%N)]);
     ("std_io__eprint_0_CALL", [("main_BB7", 1%N)], [("main_BB8", 1%N)]);
     ("std_io__eprint_0_CALL_UNWIND", [("main_BB7", 1%N)], [("main_BB15", 1%N)]);
     ("std_io__print_0_CALL", [("main_BB12", 1%N)], [("main_BB13", 1%N)]);
     ("std_io__print_0_CALL_UNWIND", [("main_BB12", 1%N)], [("main_BB15", 1%N)]);
     ("std_iter_Iterator_collect_0_CALL", [("main_BB1", 1%N)], [("main_BB2", 1%N)]);
     ("std_ops_Index_index_0_CALL", [("main_BB4", 1%N)], [("main_BB5", 1%N)]);
     ("std_ops_Index_index_0_CALL_UNWIND", [("main_BB4", 1%N)], [("main_BB15", 1%N)]);
     ("std_ops_Index_index_1_CALL", [("main_BB9", 1%N)], [("main_BB10", 1%N)]);
     ("std_ops_Index_index_1_CALL_UNWIND", [("main_BB9", 1%N)], [("main_BB15", 1%N)]);
     ("std_process_exit_0_CALL", [("main_BB8", 1%N)], [("main_BB15", 1%N)]);
     ("std_vec_Vec_T_A_len_0_CALL", [("main_BB2", 1%N)], [("main_BB3", 1%N)]);
     ("std_vec_Vec_T_A_len_0_CALL_UNWIND", [("main_BB2", 1%N)], [("main_BB15", 1%N)])]).

(** examples/results/basic/calculator/net.lola *)
Definition calculator_net : Listing := (
    [("PROGRAM_END", 0); ("PROGRAM_PANIC", 0); ("PROGRAM_START", 1); ("main_BB1", 0); ("main_BB10", 0);
     ("main_BB11", 0); ("main_BB12", 0); ("main_BB13", 0); ("main_BB14", 0); ("main_BB15", 0); ("main_BB16", 0);
     ("main_BB17", 0); ("main_BB18", 0); ("main_BB19", 0); ("main_BB2", 0); ("main_BB20", 0); ("main_BB21", 0);
     ("main_BB22", 0); ("main_BB23", 0); ("main_BB24", 0); ("main_BB25", 0); ("main_BB26", 0); ("main_BB27", 0);
     ("main_BB28", 0); ("main_BB29", 0); ("main_BB3", 0); ("main_BB30", 0); ("main_BB31", 0); ("main_BB32", 0);
     ("main_BB33", 0); ("main_BB34", 0); ("main_BB35", 0); ("main_BB36", 0); ("main_BB37", 0); ("main_BB38", 0);
     ("main_BB39", 0); ("main_BB4", 0); ("main_BB40", 0); ("main_BB41", 0); ("main_BB5", 0); ("main_BB6", 0);
     ("main_BB7", 0); ("main_BB8", 0); ("main_BB9", 0)]%N,
    [("core_fmt_rt_Argument__'___new_display_0_CALL", [("main_BB5", 1%N)], [("main_BB6", 1%N)]);
     ("core_fmt_rt_Argument__'___new_display_0_CALL_UNWIND", [("main_BB5", 1%N)], [("main_BB40", 1%N)]);
     ("core_fmt_rt_Argument__'___new_display_1_CALL", [("main_BB20", 1%N)], [("main_BB32", 1%N)]);
     ("core_fmt_rt_Argument__'___new_display_1_CALL_UNWIND", [("main_BB20", 1%N)], [("main_BB40", 1%N)]);
     ("core_fmt_rt_Argument__'___new_display_2_CALL", [("main_BB35", 1%N)], [("main_BB36", 1%N)]);
     ("core_fmt_rt_Argument__'___new_display_2_CALL_UNWIND", [("main_BB35", 1%N)], [("main_BB40", 1%N)]);
     ("core_str__impl_str__parse_0_CALL", [("main_BB11", 1%N)], [("main_BB12", 1%N)]);
     ("core_str__impl_str__parse_0_CALL_UNWIND", [("main_BB11", 1%N)], [("main_BB40", 1%N)]);
     ("core_str__impl_str__parse_1_CALL", [("main_BB15", 1%N)], [("main_BB16", 1%N)]);
     ("core_str__impl_str__parse_1_CALL_UNWIND", [("main_BB15", 1%N)], [("main_BB40", 1%N)]);
     ("main_DROP_38", [("main_BB38", 1%N)], [("main_BB39", 1%N)]);
     ("main_DROP_40", [("main_BB40", 1%N)], [("main_BB41", 1%N)]);
     ("main_GOTO_21", [("main_BB21", 1%N)], [("main_BB35", 1%N)]);
     ("main_GOTO_23", [("main_BB23", 1%N)], [("main_BB35", 1%N)]);
     ("main_GOTO_25", [("main_BB25", 1%N)], [("main_BB35", 1%N)]);
     ("main_GOTO_27", [("main_BB27", 1%N)], [("main_BB35", 1%N)]);
     ("main_RETURN", [("main_BB39", 1%N)], [("PROGRAM_END", 1%N)]);
     ("main_SWITCH_INT_FROM_BB28_TO_BB20", [("main_BB28", 1%N)], [("main_BB20", 1%N)]);
     ("main_SWITCH_INT_FROM_BB28_TO_BB27", [("main_BB28", 1%N)], [("main_BB27", 1%N)]);
     ("main_SWITCH_INT_FROM_BB29_TO_BB25", [("main_BB29", 1%N)], [("main_BB25", 1%N)]);
     ("main_SWITCH_INT_FROM_BB29_TO_BB26", [("main_BB29", 1%N)], [("main_BB26", 1%N)]);
     ("main_SWITCH_INT_FROM_BB30_TO_BB23", [("main_BB30", 1%N)], [("main_BB23", 1%N)]);
     ("main_SWITCH_INT_FROM_BB30_TO_BB24", [("main_BB30", 1%N)], [("main_BB24", 1%N)]);
     ("main_SWITCH_INT_FROM_BB31_TO_BB21", [("main_BB31", 1%N)], [("main_BB21", 1%N)]);
     ("main_SWITCH_INT_FROM_BB31_TO_BB22", [("main_BB31", 1%N)], [("main_BB22", 1%N)]);
     ("main_SWITCH_INT_FROM_BB3_TO_BB4", [("main_BB3", 1%N)], [("main_BB4", 1%N)]);
     ("main_SWITCH_INT_FROM_BB3_TO_BB9", [("main_BB3", 1%N)], [("main_BB9", 1%N)]);
     ("main_UNWIND_41", [("main_BB41", 1%N)], [("PROGRAM_PANIC", 1%N)]);
     ("std_cmp_PartialEq_eq_0_CALL", [("main_BB19", 1%N)], [("main_BB31", 1%N)]);
     ("std_cmp_PartialEq_eq_0_CALL_UNWIND", [("main_BB19", 1%N)], [("main_BB40", 1%N)]);
     ("std_cmp_PartialEq_eq_1_CALL", [("main_BB22", 1%N)], [("main_BB30", 1%N)]);
     ("std_cmp_PartialEq_eq_1_CALL_UNWIND", [("main_BB22", 1%N)], [("main_BB40", 1%N)]);
     ("std_cmp_PartialEq_eq_2_CALL", [("main_BB24", 1%N)], [("main_BB29", 1%N)]);
     ("std_cmp_PartialEq_eq_2_CALL_UNWIND", [("main_BB24", 1%N)], [("main_BB40", 1%N)]);
     ("std_cmp_PartialEq_eq_3_CALL", [("main_BB26", 1%N)], [("main_BB28", 1%N)]);
     ("std_cmp_PartialEq_eq_3_CALL_UNWIND", [("main_BB26", 1%N)], [("main_BB40", 1%N)]);
     ("std_env_args_0_CALL", [("PROGRAM_START", 1%N)], [("main_BB1", 1%N)]);
     ("std_fmt_Arguments_a_new_v1_0_CALL", [("main_BB6", 1%N)], [("main_BB7", 1%N)]);
     ("std_fmt_Arguments_a_new_v1_0_CALL_UNWIND", [("main_BB6", 1%N)], [("main_BB40", 1%N)]);
     ("std_fmt_Arguments_a_new_v1_1_CALL", [("main_BB32", 1%N)], [("main_BB33", 1%N)]);
     ("std_fmt_Arguments_a_new_v1_1_CALL_UNWIND", [("main_BB32", 1%N)], [("main_BB40", 1%N)]);
     ("std_fmt_Arguments_a_new_v1_2_CALL", [("main_BB36", 1%N)], [("main_BB37", 1%N)]);
     ("std_fmt_Arguments_a_new_v1_2_CALL_UNWIND", [("main_BB36", 1%N)], [("main_BB40", 1%N)]);
     ("std_io__eprint_0_CALL", [("main_BB7", 1%N)], [("main_BB8", 1%N)]);
     ("std_io__eprint_0_CALL_UNWIND", [("main_BB7", 1%N)], [("main_BB40", 1%N)]);
     ("std_io__eprint_1_CALL", [("main_BB33", 1%N)], [("main_BB34", 1%N)]);
     ("std_io__eprint_1_CALL_UNWIND", [("main_BB33", 1%N)], [("main_BB40", 1%N)]);
     ("std_io__print_0_CALL", [("main_BB37", 1%N)], [("main_BB38", 1%N)]);
     ("std_io__print_0_CALL_UNWIND", [("main_BB37", 1%N)], [("main_BB40", 1%N)]);
     ("std_iter_Iterator_collect_0_CALL", [("main_BB1", 1%N)], [("main_BB2", 1%N)]);
     ("std_ops_Deref_deref_0_CALL", [("main_BB10", 1%N)], [("main_BB11", 1%N)]);
     ("std_ops_Deref_deref_0_CALL_UNWIND", [("main_BB10", 1%N)], [("main_BB40", 1%N)]);
     ("std_ops_Deref_deref_1_CALL", [("main_BB14", 1%N)], [("main_BB15", 1%N)]);
     ("std_ops_Deref_deref_1_CALL_UNWIND", [("main_BB14", 1%N)], [("main_BB40", 1%N)]);
     ("std_ops_Index_index_0_CALL", [("main_BB4", 1%N)], [("main_BB5", 1%N)]);
     ("std_ops_Index_index_0_CALL_UNWIND", [("main_BB4", 1%N)], [("main_BB40", 1%N)]);
     ("std_ops_Index_index_1_CALL", [("main_BB9", 1%N)], [("main_BB10", 1%N)]);
     ("std_ops_Index_index_1_CALL_UNWIND", [("main_BB9", 1%N)], [("main_BB40", 1%N)]);
     ("std_ops_Index_index_2_CALL", [("main_BB13", 1%N)], [("main_BB14", 1%N)]);
     ("std_ops_Index_index_2_CALL_UNWIND", [("main_BB13", 1%N)], [("main_BB40", 1%N)]);
     ("std_ops_Index_index_3_CALL", [("main_BB17", 1%N)], [("main_BB18", 1%N)]);
     ("std_ops_Index_index_3_CALL_UNWIND", [("main_BB17", 1%N)], [("main_BB40", 1%N)]);
     ("std_process_exit_0_CALL", [("main_BB8", 1%N)], [("main_BB40", 1%N)]);
     ("std_process_exit_1_CALL", [("main_BB34", 1%N)], [("main_BB40", 1%N)]);
     ("std_result_Result_expect_0_CALL", [("main_BB12", 1%N)], [("main_BB13", 1%N)]);
     ("std_result_Result_expect_0_CALL_UNWIND", [("main_BB12", 1%N)], [("main_BB40", 1%N)]);
     ("std_result_Result_expect_1_CALL", [("main_BB16", 1%N)], [("main_BB17", 1%N)]);
     ("std_result_Result_expect_1_CALL_UNWIND", [("main_BB16", 1%N)], [("main_BB40", 1%N)]);
     ("std_string_String_as_str_0_CALL", [("main_BB18", 1%N)], [("main_BB19", 1%N)]);
     ("std_string_String_as_str_0_CALL_UNWIND", [("main_BB18", 1%N)], [("main_BB40", 1%N)]);
     ("std_vec_Vec_T_A_len_0_CALL", [("main_BB2", 1%N)], [("main_BB3", 1%N)]);
     ("std_vec_Vec_T_A_len_0_CALL_UNWIND", [("main_BB2", 1%N)], [("main_BB40", 1%N)])]).

(** examples/results/statement/option/net.lola *)
Definition option_stmt_net : Listing := (
    [("PROGRAM_END", 0); ("PROGRAM_PANIC", 0); ("PROGRAM_START", 1); ("main_BB1", 0); ("main_BB10", 0);
     ("main_BB11", 0); ("main_BB12", 0); ("main_BB13", 0); ("main_BB14", 0); ("main_BB15", 0); ("main_BB2", 0);
     ("main_BB3", 0); ("main_BB4", 0); ("main_BB5", 0); ("main_BB6", 0); ("main_BB7", 0); ("main_BB8", 0);
     ("main_BB9", 0)]%N,
    [("alloc_alloc_exchange_malloc_0_CALL", [("PROGRAM_START", 1%N)], [("main_BB1", 1%N)]);
     ("core_fmt_rt_Argument__'___new_display_0_CALL", [("main_BB7", 1%N)], [("main_BB8", 1%N)]);
     ("core_fmt_rt_Argument__'___new_display_0_CALL_UNWIND", [("main_BB7", 1%N)], [("main_BB12", 1%N)]);
     ("core_slice__impl_T__get_0_CALL", [("main_BB3", 1%N)], [("main_BB4", 1%N)]);
     ("core_slice__impl_T__get_0_CALL_UNWIND", [("main_BB3", 1%N)], [("main_BB12", 1%N)]);
     ("main_ASSERT_1", [("main_BB1", 1%N)], [("main_BB14", 1%N)]);
     ("main_DROP_10", [("main_BB10", 1%N)], [("main_BB11", 1%N)]);
     ("main_DROP_12", [("main_BB12", 1%N)], [("main_BB13", 1%N)]);
     ("main_GOTO_15", [("main_BB15", 1%N)], [("main_BB10", 1%N)]);
     ("main_RETURN", [("main_BB11", 1%N)], [("PROGRAM_END", 1%N)]);
     ("main_SWITCH_INT_FROM_BB5_TO_BB10", [("main_BB5", 1%N)], [("main_BB10", 1%N)]);
     ("main_SWITCH_INT_FROM_BB5_TO_BB6", [("main_BB5", 1%N)], [("main_BB6", 1%N)]);
     ("main_UNREACHABLE_1", [("main_BB1", 1%N)], [("PROGRAM_END", 1%N)]);
     ("main_UNWIND_13", [("main_BB13", 1%N)], [("PROGRAM_PANIC", 1%N)]);
     ("std_fmt_Arguments_a_new_v1_0_CALL", [("main_BB8", 1%N)], [("main_BB9", 1%N)]);
     ("std_fmt_Arguments_a_new_v1_0_CALL_UNWIND", [("main_BB8", 1%N)], [("main_BB12", 1%N)]);
     ("std_io__print_0_CALL", [("main_BB9", 1%N)], [("main_BB15", 1%N)]);
     ("std_io__print_0_CALL_UNWIND", [("main_BB9", 1%N)], [("main_BB12", 1%N)]);
     ("std_ops_Deref_deref_0_CALL", [("main_BB2", 1%N)], [("main_BB3", 1%N)]);
     ("std_ops_Deref_deref_0_CALL_UNWIND", [("main_BB2", 1%N)], [("main_BB12", 1%N)]);
     ("std_option_Option_T_is_some_0_CALL", [("main_BB4", 1%N)], [("main_BB5", 1%N)]);
     ("std_option_Option_T_is_some_0_CALL_UNWIND", [("main_BB4", 1%N)], [("main_BB12", 1%N)]);
     ("std_option_Option_T_unwrap_0_CALL", [("main_BB6", 1%N)], [("main_BB7", 1%N)]);
     ("std_option_Option_T_unwrap_0_CALL_UNWIND", [("main_BB6", 1%N)], [("main_BB12", 1%N)]);
     ("std_slice__impl_T__into_vec_0_CALL", [("main_BB14", 1%N)], [("main_BB2", 1%N)])]).

(** examples/results/function_call/empty_function/net.lola *)
Definition empty_function_net : Listing := (
    [("PROGRAM_END", 0); ("PROGRAM_PANIC", 0); ("PROGRAM_START", 1); ("main_BB1", 0)]%N,
    [("call_0_RETURN", [("PROGRAM_START", 1%N)], [("main_BB1", 1%N)]);
     ("main_RETURN", [("main_BB1", 1%N)], [("PROGRAM_END", 1%N)])]).

(** examples/results/function_call/diverging/net.lola *)
Definition diverging_function_net : Listing := (
    [("PROGRAM_END", 0); ("PROGRAM_PANIC", 0); ("PROGRAM_START", 1)]%N,
    [("does_not_return_DIVERGING_CALL", [("PROGRAM_START", 1%N)], [])]).

(** examples/results/function_call/find_even/net.lola *)
Definition find_even_net : Listing := (
    [("PROGRAM_END", 0); ("PROGRAM_PANIC", 0); ("PROGRAM_START", 1); ("find_even_0_BB1", 0);
     ("find_even_0_BB10", 0); ("find_even_0_BB2", 0); ("find_even_0_BB3", 0); ("find_even_0_BB4", 0);
     ("find_even_0_BB5", 0); ("find_even_0_BB6", 0); ("find_even_0_BB7", 0); ("find_even_0_BB8", 0);
     ("find_even_0_BB9", 0); ("main_BB1", 0); ("main_BB10", 0); ("main_BB11", 0); ("main_BB12", 0);
     ("main_BB13", 0); ("main_BB14", 0); ("main_BB15", 0); ("main_BB16", 0); ("main_BB17", 0); ("main_BB2", 0);
     ("main_BB3", 0); ("main_BB4", 0); ("main_BB5", 0); ("main_BB6", 0); ("main_BB7", 0); ("main_BB8", 0);
     ("main_BB9", 0)]%N,
    [("alloc_alloc_exchange_malloc_0_CALL", [("PROGRAM_START", 1%N)], [("main_BB1", 1%N)]);
     ("core_fmt_rt_Argument__'___new_display_0_CALL", [("main_BB5", 1%N)], [("main_BB6", 1%N)]);
     ("core_fmt_rt_Argument__'___new_display_0_CALL_UNWIND", [("main_BB5", 1%N)], [("main_BB12", 1%N)]);
     ("find_even_0_ASSERT_5", [("find_even_0_BB5", 1%N)], [("find_even_0_BB7", 1%N)]);
     ("find_even_0_ASSERT_7", [("find_even_0_BB7", 1%N)], [("find_even_0_BB8", 1%N)]);
     ("find_even_0_CALL_UNWIND", [("main_BB3", 1%N)], [("main_BB12", 1%N)]);
     ("find_even_0_GOTO_1", [("find_even_0_BB1", 1%N)], [("find_even_0_BB2", 1%N)]);
     ("find_even_0_GOTO_6", [("find_even_0_BB6", 1%N)], [("find_even_0_BB10", 1%N)]);
     ("find_even_0_GOTO_9", [("find_even_0_BB9", 1%N)], [("find_even_0_BB10", 1%N)]);
     ("find_even_0_RETURN", [("find_even_0_BB10", 1%N)], [("main_BB4", 1%N)]);
     ("find_even_0_SWITCH_INT_FROM_BB3_TO_BB4", [("find_even_0_BB3", 1%N)], [("find_even_0_BB4", 1%N)]);
     ("find_even_0_SWITCH_INT_FROM_BB3_TO_BB5", [("find_even_0_BB3", 1%N)], [("find_even_0_BB5", 1%N)]);
     ("find_even_0_SWITCH_INT_FROM_BB3_TO_BB6", [("find_even_0_BB3", 1%N)], [("find_even_0_BB6", 1%N)]);
     ("find_even_0_SWITCH_INT_FROM_BB8_TO_BB2", [("find_even_0_BB8", 1%N)], [("find_even_0_BB2", 1%N)]);
     ("find_even_0_SWITCH_INT_FROM_BB8_TO_BB9", [("find_even_0_BB8", 1%N)], [("find_even_0_BB9", 1%N)]);
     ("find_even_0_UNREACHABLE_4", [("find_even_0_BB4", 1%N)], [("PROGRAM_END", 1%N)]);
     ("main_ASSERT_1", [("main_BB1", 1%N)], [("main_BB14", 1%N)]);
     ("main_DROP_10", [("main_BB10", 1%N)], [("main_BB11", 1%N)]);
     ("main_DROP_12", [("main_BB12", 1%N)], [("main_BB13", 1%N)]);
     ("main_GOTO_16", [("main_BB16", 1%N)], [("main_BB10", 1%N)]);
     ("main_GOTO_17", [("main_BB17", 1%N)], [("main_BB10", 1%N)]);
     ("main_RETURN", [("main_BB11", 1%N)], [("PROGRAM_END", 1%N)]);
     ("main_SWITCH_INT_FROM_BB4_TO_BB15", [("main_BB4", 1%N)], [("main_BB15", 1%N)]);
     ("main_SWITCH_INT_FROM_BB4_TO_BB5", [("main_BB4", 1%N)], [("main_BB5", 1%N)]);
     ("main_SWITCH_INT_FROM_BB4_TO_BB8", [("main_BB4", 1%N)], [("main_BB8", 1%N)]);
     ("main_UNREACHABLE_1", [("main_BB1", 1%N)], [("PROGRAM_END", 1%N)]);
     ("main_UNREACHABLE_15", [("main_BB15", 1%N)], [("PROGRAM_END", 1%N)]);
     ("main_UNWIND_13", [("main_BB13", 1%N)], [("PROGRAM_PANIC", 1%N)]);
     ("std_fmt_Arguments_a_new_const_0_CALL", [("main_BB8", 1%N)], [("main_BB9", 1%N)]);
     ("std_fmt_Arguments_a_new_const_0_CALL_UNWIND", [("main_BB8", 1%N)], [("main_BB12", 1%N)]);
     ("std_fmt_Arguments_a_new_v1_0_CALL", [("main_BB6", 1%N)], [("main_BB7", 1%N)]);
     ("std_fmt_Arguments_a_new_v1_0_CALL_UNWIND", [("main_BB6", 1%N)], [("main_BB12", 1%N)]);
     ("std_io__print_0_CALL", [("main_BB7", 1%N)], [("main_BB16", 1%N)]);
     ("std_io__print_0_CALL_UNWIND", [("main_BB7", 1%N)], [("main_BB12", 1%N)]);
     ("std_io__print_1_CALL", [("main_BB9", 1%N)], [("main_BB17", 1%N)]);
     ("std_io__print_1_CALL_UNWIND", [("main_BB9", 1%N)], [("main_BB12", 1%N)]);
     ("std_iter_IntoIterator_into_iter_0_CALL", [("main_BB3", 1%N)], [("find_even_0_BB1", 1%N)]);
     ("std_iter_Iterator_next_0_CALL", [("find_even_0_BB2", 1%N)], [("find_even_0_BB3", 1%N)]);
     ("std_ops_Deref_deref_0_CALL", [("main_BB2", 1%N)], [("main_BB3", 1%N)]);
     ("std_ops_Deref_deref_0_CALL_UNWIND", [("main_BB2", 1%N)], [("main_BB12", 1%N)]);
     ("std_slice__impl_T__into_vec_0_CALL", [("main_BB14", 1%N)], [("main_BB2", 1%N)])]).

(** examples/results/mutex/double_lock_deadlock_with_arc/net.lola *)
Definition double_lock_deadlock_with_arc_net : Listing := (
    [("MUTEX_0", 1); ("PROGRAM_END", 0); ("PROGRAM_PANIC", 0); ("PROGRAM_START", 1); ("main_BB1", 0);
     ("main_BB10", 0); ("main_BB11", 0); ("main_BB12", 0); ("main_BB2", 0); ("main_BB3", 0); ("main_BB4", 0);
     ("main_BB5", 0); ("main_BB6", 0); ("main_BB7", 0); ("main_BB8", 0); ("main_BB9", 0)]%N,
    [("main_DROP_10", [("main_BB10", 1%N)], [("MUTEX_0", 1%N); ("main_BB11", 1%N)]);
     ("main_DROP_11", [("main_BB11", 1%N)], [("main_BB12", 1%N)]);
     ("main_DROP_6", [("main_BB6", 1%N)], [("MUTEX_0", 1%N); ("main_BB7", 1%N)]);
     ("main_DROP_7", [("main_BB7", 1%N)], [("MUTEX_0", 1%N); ("main_BB8", 1%N)]);
     ("main_DROP_8", [("main_BB8", 1%N)], [("main_BB9", 1%N)]);
     ("main_DROP_UNWIND_6", [("main_BB6", 1%N)], [("MUTEX_0", 1%N); ("main_BB10", 1%N)]);
     ("main_DROP_UNWIND_7", [("main_BB7", 1%N)], [("MUTEX_0", 1%N); ("main_BB11", 1%N)]);
     ("main_RETURN", [("main_BB9", 1%N)], [("PROGRAM_END", 1%N)]);
     ("main_UNWIND_12", [("main_BB12", 1%N)], [("PROGRAM_PANIC", 1%N)]);
     ("std_ops_Deref_deref_0_CALL", [("main_BB2", 1%N)], [("main_BB3", 1%N)]);
     ("std_ops_Deref_deref_1_CALL", [("main_BB4", 1%N)], [("main_BB5", 1%N)]);
     ("std_sync_Arc_T_new_0_CALL", [("main_BB1", 1%N)], [("main_BB2", 1%N)]);
     ("std_sync_Mutex_T_lock_0_CALL", [("MUTEX_0", 1%N); ("main_BB3", 1%N)], [("main_BB4", 1%N)]);
     ("std_sync_Mutex_T_lock_1_CALL", [("MUTEX_0", 1%N); ("main_BB5", 1%N)], [("main_BB6", 1%N)]);
     ("std_sync_Mutex_T_new_0_CALL", [("PROGRAM_START", 1%N)], [("main_BB1", 1%N)])]).

(** examples/results/mutex/drop_mutex_guard_in_arc_manually/net.lola *)
Definition drop_mutex_guard_in_arc_manually_net : Listing := (
    [("MUTEX_0", 1); ("PROGRAM_END", 0); ("PROGRAM_PANIC", 0); ("PROGRAM_START", 1); ("main_BB1", 0);
     ("main_BB10", 0); ("main_BB11", 0); ("main_BB2", 0); ("main_BB3", 0); ("main_BB4", 0); ("main_BB5", 0);
     ("main_BB6", 0); ("main_BB7", 0); ("main_BB8", 0); ("main_BB9", 0)]%N,
    [("main_DROP_10", [("main_BB10", 1%N)], [("main_BB11", 1%N)]);
     ("main_DROP_7", [("main_BB7", 1%N)], [("MUTEX_0", 1%N); ("main_BB8", 1%N)]);
     ("main_DROP_8", [("main_BB8", 1%N)], [("main_BB9", 1%N)]);
     ("main_DROP_UNWIND_7", [("main_BB7", 1%N)], [("MUTEX_0", 1%N); ("main_BB10", 1%N)]);
     ("main_RETURN", [("main_BB9", 1%N)], [("PROGRAM_END", 1%N)]);
     ("main_UNWIND_11", [("main_BB11", 1%N)], [("PROGRAM_PANIC", 1%N)]);
     ("std_mem_drop_0_CALL", [("main_BB4", 1%N)], [("MUTEX_0", 1%N); ("main_BB5", 1%N)]);
     ("std_mem_drop_0_CALL_UNWIND", [("main_BB4", 1%N)], [("MUTEX_0", 1%N); ("main_BB10", 1%N)]);
     ("std_ops_Deref_deref_0_CALL", [("main_BB2", 1%N)], [("main_BB3", 1%N)]);
     ("std_ops_Deref_deref_1_CALL", [("main_BB5", 1%N)], [("main_BB6", 1%N)]);
     ("std_sync_Arc_T_new_0_CALL", [("main_BB1", 1%N)], [("main_BB2", 1%N)]);
     ("std_sync_Mutex_T_lock_0_CALL", [("MUTEX_0", 1%N); ("main_BB3", 1%N)], [("main_BB4", 1%N)]);
     ("std_sync_Mutex_T_lock_1_CALL", [("MUTEX_0", 1%N); ("main_BB6", 1%N)], [("main_BB7", 1%N)]);
     ("std_sync_Mutex_T_new_0_CALL", [("PROGRAM_START", 1%N)], [("main_BB1", 1%N)])]).

(** examples/results/condvar/wait/net.lola *)
Definition wait_net : Listing := (
    [("CONDVAR_0_NOTIFY", 0); ("CONDVAR_0_WAIT_ENABLED", 1); ("MUTEX_0", 1); ("MUTEX_0_CONDITION_NOT_SET", 1);
     ("MUTEX_0_CONDITION_SET", 0); ("PROGRAM_END", 0); ("PROGRAM_PANIC", 0); ("PROGRAM_START", 1);
     ("THREAD_0_END", 0); ("THREAD_0_START", 0); ("main_BB1", 0); ("main_BB10", 0); ("main_BB11", 0);
     ("main_BB12", 0); ("main_BB13", 0); ("main_BB14", 0); ("main_BB15", 0); ("main_BB16", 0); ("main_BB17", 0);
     ("main_BB18", 0); ("main_BB19", 0); ("main_BB2", 0); ("main_BB20", 0); ("main_BB21", 0); ("main_BB3", 0);
     ("main_BB4", 0); ("main_BB5", 0); ("main_BB6", 0); ("main_BB7", 0); ("main_BB8", 0); ("main_BB9", 0);
     ("main__closure_0__BB1", 0); ("main__closure_0__BB10", 0); ("main__closure_0__BB2", 0);
     ("main__closure_0__BB3", 0); ("main__closure_0__BB4", 0); ("main__closure_0__BB5", 0);
     ("main__closure_0__BB6", 0); ("main__closure_0__BB7", 0); ("main__closure_0__BB8", 0);
     ("main__closure_0__BB9", 0)]%N,
    [("CONDVAR_0_LOST_SIGNAL", [("CONDVAR_0_NOTIFY", 1%N); ("CONDVAR_0_WAIT_ENABLED", 1%N)], [("CONDVAR_0_WAIT_ENABLED", 1%N)]);
     ("CONDVAR_0_NOTIFY_RECEIVED", [("CONDVAR_0_NOTIFY", 1%N); ("MUTEX_0", 1%N)], [("CONDVAR_0_WAIT_ENABLED", 1%N); ("main_BB14", 1%N)]);
     ("CONDVAR_0_WAIT_SKIP", [("MUTEX_0_CONDITION_SET", 1%N); ("main_BB13", 1%N)], [("MUTEX_0_CONDITION_SET", 1%N); ("main_BB14", 1%N)]);
     ("CONDVAR_0_WAIT_START", [("CONDVAR_0_WAIT_ENABLED", 1%N); ("MUTEX_0_CONDITION_NOT_SET", 1%N); ("main_BB13", 1%N)], [("MUTEX_0", 1%N); ("MUTEX_0_CONDITION_NOT_SET", 1%N)]);
     ("main_DROP_12", [("main_BB12", 1%N)], [("MUTEX_0", 1%N); ("main_BB16", 1%N)]);
     ("main_DROP_16", [("main_BB16", 1%N)], [("main_BB17", 1%N)]);
     ("main_DROP_18", [("main_BB18", 1%N)], [("main_BB19", 1%N)]);
     ("main_DROP_20", [("main_BB20", 1%N)], [("MUTEX_0", 1%N); ("main_BB18", 1%N)]);
     ("main_DROP_5", [("main_BB5", 1%N)], [("main_BB6", 1%N)]);
     ("main_DROP_UNWIND_12", [("main_BB12", 1%N)], [("MUTEX_0", 1%N); ("main_BB18", 1%N)]);
     ("main_DROP_UNWIND_5", [("main_BB5", 1%N)], [("main_BB18", 1%N)]);
     ("main_GOTO_15", [("main_BB15", 1%N)], [("main_BB10", 1%N)]);
     ("main_GOTO_9", [("main_BB9", 1%N)], [("main_BB10", 1%N)]);
     ("main_RETURN", [("main_BB17", 1%N)], [("PROGRAM_END", 1%N)]);
     ("main_SWITCH_INT_FROM_BB11_TO_BB12", [("main_BB11", 1%N)], [("main_BB12", 1%N)]);
     ("main_SWITCH_INT_FROM_BB11_TO_BB13", [("main_BB11", 1%N)], [("main_BB13", 1%N)]);
     ("main_SWITCH_INT_FROM_BB21_TO_BB18", [("main_BB21", 1%N)], [("main_BB18", 1%N)]);
     ("main_SWITCH_INT_FROM_BB21_TO_BB20", [("main_BB21", 1%N)], [("main_BB20", 1%N)]);
     ("main_UNWIND_19", [("main_BB19", 1%N)], [("PROGRAM_PANIC", 1%N)]);
     ("main__closure_0__DROP_5", [("main__closure_0__BB5", 1%N)], [("MUTEX_0", 1%N); ("main__closure_0__BB6", 1%N)]);
     ("main__closure_0__DROP_6", [("main__closure_0__BB6", 1%N)], [("main__closure_0__BB7", 1%N)]);
     ("main__closure_0__DROP_8", [("main__closure_0__BB8", 1%N)], [("MUTEX_0", 1%N); ("main__closure_0__BB9", 1%N)]);
     ("main__closure_0__DROP_9", [("main__closure_0__BB9", 1%N)], [("main__closure_0__BB10", 1%N)]);
     ("main__closure_0__DROP_UNWIND_5", [("main__closure_0__BB5", 1%N)], [("MUTEX_0", 1%N); ("main__closure_0__BB9", 1%N)]);
     ("main__closure_0__RETURN", [("main__closure_0__BB7", 1%N)], [("THREAD_0_END", 1%N)]);
     ("main__closure_0__UNWIND_10", [("main__closure_0__BB10", 1%N)], [("THREAD_0_END", 1%N)]);
     ("std_clone_Clone_clone_0_CALL", [("main_BB3", 1%N)], [("main_BB4", 1%N)]);
     ("std_clone_Clone_clone_0_CALL_UNWIND", [("main_BB3", 1%N)], [("main_BB18", 1%N)]);
     ("std_ops_DerefMut_deref_mut_0_CALL", [("MUTEX_0_CONDITION_NOT_SET", 1%N); ("main__closure_0__BB3", 1%N)], [("MUTEX_0_CONDITION_SET", 1%N); ("main__closure_0__BB4", 1%N)]);
     ("std_ops_Deref_deref_0_CALL", [("main_BB6", 1%N)], [("main_BB7", 1%N)]);
     ("std_ops_Deref_deref_1_CALL", [("main_BB10", 1%N)], [("main_BB11", 1%N)]);
     ("std_ops_Deref_deref_2_CALL", [("THREAD_0_START", 1%N)], [("main__closure_0__BB1", 1%N)]);
     ("std_result_Result_unwrap_0_CALL", [("main_BB8", 1%N)], [("main_BB9", 1%N)]);
     ("std_result_Result_unwrap_1_CALL", [("main_BB14", 1%N)], [("main_BB15", 1%N)]);
     ("std_result_Result_unwrap_2_CALL", [("main__closure_0__BB2", 1%N)], [("main__closure_0__BB3", 1%N)]);
     ("std_sync_Arc_T_new_0_CALL", [("main_BB2", 1%N)], [("main_BB3", 1%N)]);
     ("std_sync_Condvar_new_0_CALL", [("main_BB1", 1%N)], [("main_BB2", 1%N)]);
     ("std_sync_Condvar_notify_one_0_CALL", [("main__closure_0__BB4", 1%N)], [("CONDVAR_0_NOTIFY", 1%N); ("main__closure_0__BB5", 1%N)]);
     ("std_sync_Mutex_T_lock_0_CALL", [("MUTEX_0", 1%N); ("main_BB7", 1%N)], [("main_BB8", 1%N)]);
     ("std_sync_Mutex_T_lock_1_CALL", [("MUTEX_0", 1%N); ("main__closure_0__BB1", 1%N)], [("main__closure_0__BB2", 1%N)]);
     ("std_sync_Mutex_T_new_0_CALL", [("PROGRAM_START", 1%N)], [("main_BB1", 1%N)]);
     ("std_thread_spawn_0_CALL", [("main_BB4", 1%N)], [("THREAD_0_START", 1%N); ("main_BB5", 1%N)]);
     ("std_thread_spawn_0_CALL_UNWIND", [("main_BB4", 1%N)], [("main_BB18", 1%N)])]).

(** examples/results/condvar/wait_while/net.lola *)
Definition wait_while_net : Listing := (
    [("CONDVAR_0_NOTIFY", 0); ("CONDVAR_0_WAIT_ENABLED", 1); ("MUTEX_0", 1); ("MUTEX_0_CONDITION_NOT_SET", 1);
     ("MUTEX_0_CONDITION_SET", 0); ("PROGRAM_END", 0); ("PROGRAM_PANIC", 0); ("PROGRAM_START", 1);
     ("THREAD_0_END", 0); ("THREAD_0_START", 0); ("main_BB1", 0); ("main_BB10", 0); ("main_BB11", 0);
     ("main_BB12", 0); ("main_BB13", 0); ("main_BB14", 0); ("main_BB15", 0); ("main_BB2", 0); ("main_BB3", 0);
     ("main_BB4", 0); ("main_BB5", 0); ("main_BB6", 0); ("main_BB7", 0); ("main_BB8", 0); ("main_BB9", 0);
     ("main__closure_0__BB1", 0); ("main__closure_0__BB10", 0); ("main__closure_0__BB2", 0);
     ("main__closure_0__BB3", 0); ("main__closure_0__BB4", 0); ("main__closure_0__BB5", 0);
     ("main__closure_0__BB6", 0); ("main__closure_0__BB7", 0); ("main__closure_0__BB8", 0);
     ("main__closure_0__BB9", 0)]%N,
    [("CONDVAR_0_LOST_SIGNAL", [("CONDVAR_0_NOTIFY", 1%N); ("CONDVAR_0_WAIT_ENABLED", 1%N)], [("CONDVAR_0_WAIT_ENABLED", 1%N)]);
     ("CONDVAR_0_NOTIFY_RECEIVED", [("CONDVAR_0_NOTIFY", 1%N); ("MUTEX_0", 1%N)], [("CONDVAR_0_WAIT_ENABLED", 1%N); ("main_BB10", 1%N)]);
     ("CONDVAR_0_WAIT_SKIP", [("MUTEX_0_CONDITION_SET", 1%N); ("main_BB9", 1%N)], [("MUTEX_0_CONDITION_SET", 1%N); ("main_BB10", 1%N)]);
     ("CONDVAR_0_WAIT_START", [("CONDVAR_0_WAIT_ENABLED", 1%N); ("MUTEX_0_CONDITION_NOT_SET", 1%N); ("main_BB9", 1%N)], [("MUTEX_0", 1%N); ("MUTEX_0_CONDITION_NOT_SET", 1%N)]);
     ("main_DROP_11", [("main_BB11", 1%N)], [("MUTEX_0", 1%N); ("main_BB12", 1%N)]);
     ("main_DROP_12", [("main_BB12", 1%N)], [("main_BB13", 1%N)]);
     ("main_DROP_14", [("main_BB14", 1%N)], [("main_BB15", 1%N)]);
     ("main_DROP_5", [("main_BB5", 1%N)], [("main_BB6", 1%N)]);
     ("main_DROP_UNWIND_11", [("main_BB11", 1%N)], [("MUTEX_0", 1%N); ("main_BB14", 1%N)]);
     ("main_DROP_UNWIND_5", [("main_BB5", 1%N)], [("main_BB14", 1%N)]);
     ("main_RETURN", [("main_BB13", 1%N)], [("PROGRAM_END", 1%N)]);
     ("main_UNWIND_15", [("main_BB15", 1%N)], [("PROGRAM_PANIC", 1%N)]);
     ("main__closure_0__DROP_5", [("main__closure_0__BB5", 1%N)], [("MUTEX_0", 1%N); ("main__closure_0__BB6", 1%N)]);
     ("main__closure_0__DROP_6", [("main__closure_0__BB6", 1%N)], [("main__closure_0__BB7", 1%N)]);
     ("main__closure_0__DROP_8", [("main__closure_0__BB8", 1%N)], [("MUTEX_0", 1%N); ("main__closure_0__BB9", 1%N)]);
     ("main__closure_0__DROP_9", [("main__closure_0__BB9", 1%N)], [("main__closure_0__BB10", 1%N)]);
     ("main__closure_0__DROP_UNWIND_5", [("main__closure_0__BB5", 1%N)], [("MUTEX_0", 1%N); ("main__closure_0__BB9", 1%N)]);
     ("main__closure_0__RETURN", [("main__closure_0__BB7", 1%N)], [("THREAD_0_END", 1%N)]);
     ("main__closure_0__UNWIND_10", [("main__closure_0__BB10", 1%N)], [("THREAD_0_END", 1%N)]);
     ("std_clone_Clone_clone_0_CALL", [("main_BB3", 1%N)], [("main_BB4", 1%N)]);
     ("std_clone_Clone_clone_0_CALL_UNWIND", [("main_BB3", 1%N)], [("main_BB14", 1%N)]);
     ("std_ops_DerefMut_deref_mut_0_CALL", [("MUTEX_0_CONDITION_NOT_SET", 1%N); ("main__closure_0__BB3", 1%N)], [("MUTEX_0_CONDITION_SET", 1%N); ("main__closure_0__BB4", 1%N)]);
     ("std_ops_Deref_deref_0_CALL", [("main_BB6", 1%N)], [("main_BB7", 1%N)]);
     ("std_ops_Deref_deref_1_CALL", [("THREAD_0_START", 1%N)], [("main__closure_0__BB1", 1%N)]);
     ("std_result_Result_unwrap_0_CALL", [("main_BB8", 1%N)], [("main_BB9", 1%N)]);
     ("std_result_Result_unwrap_1_CALL", [("main_BB10", 1%N)], [("main_BB11", 1%N)]);
     ("std_result_Result_unwrap_2_CALL", [("main__closure_0__BB2", 1%N)], [("main__closure_0__BB3", 1%N)]);
     ("std_sync_Arc_T_new_0_CALL", [("main_BB2", 1%N)], [("main_BB3", 1%N)]);
     ("std_sync_Condvar_new_0_CALL", [("main_BB1", 1%N)], [("main_BB2", 1%N)]);
     ("std_sync_Condvar_notify_one_0_CALL", [("main__closure_0__BB4", 1%N)], [("CONDVAR_0_NOTIFY", 1%N); ("main__closure_0__BB5", 1%N)]);
     ("std_sync_Mutex_T_lock_0_CALL", [("MUTEX_0", 1%N); ("main_BB7", 1%N)], [("main_BB8", 1%N)]);
     ("std_sync_Mutex_T_lock_1_CALL", [("MUTEX_0", 1%N); ("main__closure_0__BB1", 1%N)], [("main__closure_0__BB2", 1%N)]);
     ("std_sync_Mutex_T_new_0_CALL", [("PROGRAM_START", 1%N)], [("main_BB1", 1%N)]);
     ("std_thread_spawn_0_CALL", [("main_BB4", 1%N)], [("THREAD_0_START", 1%N); ("main_BB5", 1%N)]);
     ("std_thread_spawn_0_CALL_UNWIND", [("main_BB4", 1%N)], [("main_BB14", 1%N)])]).

(** examples/results/condvar/producer_consumer/net.lola *)
Definition producer_consumer_net : Listing := (
    [("CONDVAR_0_NOTIFY", 0); ("CONDVAR_0_WAIT_ENABLED", 1); ("CONDVAR_1_NOTIFY", 0);
     ("CONDVAR_1_WAIT_ENABLED", 1); ("MUTEX_0", 1); ("MUTEX_0_CONDITION_NOT_SET", 1);
     ("MUTEX_0_CONDITION_SET", 0); ("MUTEX_1_CONDITION_NOT_SET", 1); ("MUTEX_1_CONDITION_SET", 0);
     ("PROGRAM_END", 0); ("PROGRAM_PANIC", 0); ("PROGRAM_START", 1); ("THREAD_0_END", 0); ("THREAD_0_START", 0);
     ("THREAD_1_END", 0); ("THREAD_1_START", 0); ("main_BB1", 0); ("main_BB10", 0); ("main_BB11", 0);
     ("main_BB12", 0); ("main_BB13", 0); ("main_BB14", 0); ("main_BB15", 0); ("main_BB16", 0); ("main_BB17", 0);
     ("main_BB18", 0); ("main_BB2", 0); ("main_BB3", 0); ("main_BB4", 0); ("main_BB5", 0); ("main_BB6", 0);
     ("main_BB7", 0); ("main_BB8", 0); ("main_BB9", 0); ("main__closure_0__BB1", 0); ("main__closure_0__BB10", 0);
     ("main__closure_0__BB11", 0); ("main__closure_0__BB12", 0); ("main__closure_0__BB13", 0);
     ("main__closure_0__BB14", 0); ("main__closure_0__BB15", 0); ("main__closure_0__BB16", 0);
     ("main__closure_0__BB17", 0); ("main__closure_0__BB18", 0); ("main__closure_0__BB19", 0);
     ("main__closure_0__BB2", 0); ("main__closure_0__BB20", 0); ("main__closure_0__BB21", 0);
     ("main__closure_0__BB22", 0); ("main__closure_0__BB23", 0); ("main__closure_0__BB24", 0);
     ("main__closure_0__BB25", 0); ("main__closure_0__BB26", 0); ("main__closure_0__BB3", 0);
     ("main__closure_0__BB4", 0); ("main__closure_0__BB5", 0); ("main__closure_0__BB6", 0);
     ("main__closure_0__BB7", 0); ("main__closure_0__BB8", 0); ("main__closure_0__BB9", 0);
     ("main__closure_1__BB1", 0); ("main__closure_1__BB10", 0); ("main__closure_1__BB11", 0);
     ("main__closure_1__BB12", 0); ("main__closure_1__BB13", 0); ("main__closure_1__BB14", 0);
     ("main__closure_1__BB15", 0); ("main__closure_1__BB16", 0); ("main__closure_1__BB17", 0);
     ("main__closure_1__BB18", 0); ("main__closure_1__BB19", 0); ("main__closure_1__BB2", 0);
     ("main__closure_1__BB20", 0); ("main__closure_1__BB21", 0); ("main__closure_1__BB3", 0);
     ("main__closure_1__BB4", 0); ("main__closure_1__BB5", 0); ("main__closure_1__BB6", 0);
     ("main__closure_1__BB7", 0); ("main__closure_1__BB8", 0); ("main__closure_1__BB9", 0)]%N,
    [("CONDVAR_0_LOST_SIGNAL", [("CONDVAR_0_NOTIFY", 1%N); ("CONDVAR_0_WAIT_ENABLED", 1%N)], [("CONDVAR_0_WAIT_ENABLED", 1%N)]);
     ("CONDVAR_0_NOTIFY_RECEIVED", [("CONDVAR_0_NOTIFY", 1%N); ("MUTEX_0", 1%N)], [("CONDVAR_0_WAIT_ENABLED", 1%N); ("main__closure_0__BB13", 1%N)]);
     ("CONDVAR_0_WAIT_SKIP", [("MUTEX_0_CONDITION_SET", 1%N); ("main__closure_0__BB12", 1%N)], [("MUTEX_0_CONDITION_SET", 1%N); ("main__closure_0__BB13", 1%N)]);
     ("CONDVAR_0_WAIT_START", [("CONDVAR_0_WAIT_ENABLED", 1%N); ("MUTEX_0_CONDITION_NOT_SET", 1%N); ("main__closure_0__BB12", 1%N)], [("MUTEX_0", 1%N); ("MUTEX_0_CONDITION_NOT_SET", 1%N)]);
     ("CONDVAR_1_LOST_SIGNAL", [("CONDVAR_1_NOTIFY", 1%N); ("CONDVAR_1_WAIT_ENABLED", 1%N)], [("CONDVAR_1_WAIT_ENABLED", 1%N)]);
     ("CONDVAR_1_NOTIFY_RECEIVED", [("CONDVAR_1_NOTIFY", 1%N); ("MUTEX_0", 1%N)], [("CONDVAR_1_WAIT_ENABLED", 1%N); ("main__closure_1__BB8", 1%N)]);
     ("CONDVAR_1_WAIT_SKIP", [("MUTEX_1_CONDITION_SET", 1%N); ("main__closure_1__BB7", 1%N)], [("MUTEX_1_CONDITION_SET", 1%N); ("main__closure_1__BB8", 1%N)]);
     ("CONDVAR_1_WAIT_START", [("CONDVAR_1_WAIT_ENABLED", 1%N); ("MUTEX_1_CONDITION_NOT_SET", 1%N); ("main__closure_1__BB7", 1%N)], [("MUTEX_0", 1%N); ("MUTEX_1_CONDITION_NOT_SET", 1%N)]);
     ("core_fmt_rt_Argument__'___new_display_0_CALL", [("main__closure_0__BB16", 1%N)], [("main__closure_0__BB17", 1%N)]);
     ("core_fmt_rt_Argument__'___new_display_0_CALL_UNWIND", [("main__closure_0__BB16", 1%N)], [("main__closure_0__BB26", 1%N)]);
     ("core_fmt_rt_Argument__'___new_display_1_CALL", [("main__closure_1__BB12", 1%N)], [("main__closure_1__BB13", 1%N)]);
     ("core_fmt_rt_Argument__'___new_display_1_CALL_UNWIND", [("main__closure_1__BB12", 1%N)], [("main__closure_1__BB21", 1%N)]);
     ("main_DROP_10", [("main_BB10", 1%N)], [("main_BB11", 1%N)]);
     ("main_DROP_12", [("main_BB12", 1%N)], [("main_BB16", 1%N)]);
     ("main_DROP_13", [("main_BB13", 1%N)], [("main_BB14", 1%N)]);
     ("main_DROP_15", [("main_BB15", 1%N)], [("main_BB18", 1%N)]);
     ("main_DROP_17", [("main_BB17", 1%N)], [("main_BB13", 1%N)]);
     ("main_DROP_8", [("main_BB8", 1%N)], [("main_BB9", 1%N)]);
     ("main_DROP_9", [("main_BB9", 1%N)], [("main_BB10", 1%N)]);
     ("main_DROP_UNWIND_8", [("main_BB8", 1%N)], [("main_BB12", 1%N)]);
     ("main_DROP_UNWIND_9", [("main_BB9", 1%N)], [("main_BB16", 1%N)]);
     ("main_RETURN", [("main_BB11", 1%N)], [("PROGRAM_END", 1%N)]);
     ("main_SWITCH_INT_FROM_BB16_TO_BB15", [("main_BB16", 1%N)], [("main_BB15", 1%N)]);
     ("main_SWITCH_INT_FROM_BB16_TO_BB18", [("main_BB16", 1%N)], [("main_BB18", 1%N)]);
     ("main_SWITCH_INT_FROM_BB18_TO_BB13", [("main_BB18", 1%N)], [("main_BB13", 1%N)]);
     ("main_SWITCH_INT_FROM_BB18_TO_BB17", [("main_BB18", 1%N)], [("main_BB17", 1%N)]);
     ("main_UNWIND_14", [("main_BB14", 1%N)], [("PROGRAM_PANIC", 1%N)]);
     ("main__closure_0__DROP_20", [("main__closure_0__BB20", 1%N)], [("MUTEX_0", 1%N); ("main__closure_0__BB21", 1%N)]);
     ("main__closure_0__DROP_23", [("main__closure_0__BB23", 1%N)], [("main__closure_0__BB24", 1%N)]);
     ("main__closure_0__DROP_25", [("main__closure_0__BB25", 1%N)], [("MUTEX_0", 1%N); ("main__closure_0__BB23", 1%N)]);
     ("main__closure_0__DROP_6", [("main__closure_0__BB6", 1%N)], [("main__closure_0__BB22", 1%N)]);
     ("main__closure_0__DROP_UNWIND_20", [("main__closure_0__BB20", 1%N)], [("MUTEX_0", 1%N); ("main__closure_0__BB23", 1%N)]);
     ("main__closure_0__GOTO_1", [("main__closure_0__BB1", 1%N)], [("main__closure_0__BB2", 1%N)]);
     ("main__closure_0__GOTO_14", [("main__closure_0__BB14", 1%N)], [("main__closure_0__BB10", 1%N)]);
     ("main__closure_0__GOTO_21", [("main__closure_0__BB21", 1%N)], [("main__closure_0__BB2", 1%N)]);
     ("main__closure_0__GOTO_9", [("main__closure_0__BB9", 1%N)], [("main__closure_0__BB10", 1%N)]);
     ("main__closure_0__RETURN", [("main__closure_0__BB22", 1%N)], [("THREAD_0_END", 1%N)]);
     ("main__closure_0__SWITCH_INT_FROM_BB11_TO_BB12", [("main__closure_0__BB11", 1%N)], [("main__closure_0__BB12", 1%N)]);
     ("main__closure_0__SWITCH_INT_FROM_BB11_TO_BB15", [("main__closure_0__BB11", 1%N)], [("main__closure_0__BB15", 1%N)]);
     ("main__closure_0__SWITCH_INT_FROM_BB26_TO_BB23", [("main__closure_0__BB26", 1%N)], [("main__closure_0__BB23", 1%N)]);
     ("main__closure_0__SWITCH_INT_FROM_BB26_TO_BB25", [("main__closure_0__BB26", 1%N)], [("main__closure_0__BB25", 1%N)]);
     ("main__closure_0__SWITCH_INT_FROM_BB3_TO_BB4", [("main__closure_0__BB3", 1%N)], [("main__closure_0__BB4", 1%N)]);
     ("main__closure_0__SWITCH_INT_FROM_BB3_TO_BB5", [("main__closure_0__BB3", 1%N)], [("main__closure_0__BB5", 1%N)]);
     ("main__closure_0__SWITCH_INT_FROM_BB3_TO_BB6", [("main__closure_0__BB3", 1%N)], [("main__closure_0__BB6", 1%N)]);
     ("main__closure_0__UNREACHABLE_4", [("main__closure_0__BB4", 1%N)], [("PROGRAM_END", 1%N)]);
     ("main__closure_0__UNWIND_24", [("main__closure_0__BB24", 1%N)], [("THREAD_0_END", 1%N)]);
     ("main__closure_1__DROP_16", [("main__closure_1__BB16", 1%N)], [("MUTEX_0", 1%N); ("main__closure_1__BB17", 1%N)]);
     ("main__closure_1__DROP_18", [("main__closure_1__BB18", 1%N)], [("main__closure_1__BB19", 1%N)]);
     ("main__closure_1__DROP_20", [("main__closure_1__BB20", 1%N)], [("MUTEX_0", 1%N); ("main__closure_1__BB18", 1%N)]);
     ("main__closure_1__DROP_UNWIND_16", [("main__closure_1__BB16", 1%N)], [("MUTEX_0", 1%N); ("main__closure_1__BB18", 1%N)]);
     ("main__closure_1__GOTO_0", [("THREAD_1_START", 1%N)], [("main__closure_1__BB1", 1%N)]);
     ("main__closure_1__GOTO_17", [("main__closure_1__BB17", 1%N)], [("main__closure_1__BB1", 1%N)]);
     ("main__closure_1__GOTO_4", [("main__closure_1__BB4", 1%N)], [("main__closure_1__BB5", 1%N)]);
     ("main__closure_1__GOTO_9", [("main__closure_1__BB9", 1%N)], [("main__closure_1__BB5", 1%N)]);
     ("main__closure_1__SWITCH_INT_FROM_BB21_TO_BB18", [("main__closure_1__BB21", 1%N)], [("main__closure_1__BB18", 1%N)]);
     ("main__closure_1__SWITCH_INT_FROM_BB21_TO_BB20", [("main__closure_1__BB21", 1%N)], [("main__closure_1__BB20", 1%N)]);
     ("main__closure_1__SWITCH_INT_FROM_BB6_TO_BB10", [("main__closure_1__BB6", 1%N)], [("main__closure_1__BB10", 1%N)]);
     ("main__closure_1__SWITCH_INT_FROM_BB6_TO_BB7", [("main__closure_1__BB6", 1%N)], [("main__closure_1__BB7", 1%N)]);
     ("main__closure_1__UNWIND_19", [("main__closure_1__BB19", 1%N)], [("THREAD_1_END", 1%N)]);
     ("std_clone_Clone_clone_0_CALL", [("main_BB4", 1%N)], [("main_BB5", 1%N)]);
     ("std_clone_Clone_clone_0_CALL_UNWIND", [("main_BB4", 1%N)], [("main_BB13", 1%N)]);
     ("std_clone_Clone_clone_1_CALL", [("main_BB5", 1%N)], [("main_BB6", 1%N)]);
     ("std_clone_Clone_clone_1_CALL_UNWIND", [("main_BB5", 1%N)], [("main_BB18", 1%N)]);
     ("std_fmt_Arguments_a_new_v1_0_CALL", [("main__closure_0__BB17", 1%N)], [("main__closure_0__BB18", 1%N)]);
     ("std_fmt_Arguments_a_new_v1_0_CALL_UNWIND", [("main__closure_0__BB17", 1%N)], [("main__closure_0__BB26", 1%N)]);
     ("std_fmt_Arguments_a_new_v1_1_CALL", [("main__closure_1__BB13", 1%N)], [("main__closure_1__BB14", 1%N)]);
     ("std_fmt_Arguments_a_new_v1_1_CALL_UNWIND", [("main__closure_1__BB13", 1%N)], [("main__closure_1__BB21", 1%N)]);
     ("std_io__print_0_CALL", [("main__closure_0__BB18", 1%N)], [("main__closure_0__BB19", 1%N)]);
     ("std_io__print_0_CALL_UNWIND", [("main__closure_0__BB18", 1%N)], [("main__closure_0__BB26", 1%N)]);
     ("std_io__print_1_CALL", [("main__closure_1__BB14", 1%N)], [("main__closure_1__BB15", 1%N)]);
     ("std_io__print_1_CALL_UNWIND", [("main__closure_1__BB14", 1%N)], [("main__closure_1__BB21", 1%N)]);
     ("std_iter_IntoIterator_into_iter_0_CALL", [("THREAD_0_START", 1%N)], [("main__closure_0__BB1", 1%N)]);
     ("std_iter_IntoIterator_into_iter_0_CALL_UNWIND", [("THREAD_0_START", 1%N)], [("main__closure_0__BB23", 1%N)]);
     ("std_iter_Iterator_next_0_CALL", [("main__closure_0__BB2", 1%N)], [("main__closure_0__BB3", 1%N)]);
     ("std_iter_Iterator_next_0_CALL_UNWIND", [("main__closure_0__BB2", 1%N)], [("main__closure_0__BB23", 1%N)]);
     ("std_ops_DerefMut_deref_mut_0_CALL", [("MUTEX_0_CONDITION_NOT_SET", 1%N); ("MUTEX_1_CONDITION_NOT_SET", 1%N); ("main__closure_0__BB15", 1%N)], [("MUTEX_0_CONDITION_SET", 1%N); ("MUTEX_1_CONDITION_SET", 1%N); ("main__closure_0__BB16", 1%N)]);
     ("std_ops_DerefMut_deref_mut_1_CALL", [("MUTEX_0_CONDITION_NOT_SET", 1%N); ("MUTEX_1_CONDITION_NOT_SET", 1%N); ("main__closure_1__BB11", 1%N)], [("MUTEX_0_CONDITION_SET", 1%N); ("MUTEX_1_CONDITION_SET", 1%N); ("main__closure_1__BB12", 1%N)]);
     ("std_ops_Deref_deref_0_CALL", [("main__closure_0__BB5", 1%N)], [("main__closure_0__BB7", 1%N)]);
     ("std_ops_Deref_deref_1_CALL", [("main__closure_0__BB10", 1%N)], [("main__closure_0__BB11", 1%N)]);
     ("std_ops_Deref_deref_2_CALL", [("main__closure_1__BB1", 1%N)], [("main__closure_1__BB2", 1%N)]);
     ("std_ops_Deref_deref_3_CALL", [("main__closure_1__BB5", 1%N)], [("main__closure_1__BB6", 1%N)]);
     ("std_ops_Deref_deref_4_CALL", [("main__closure_1__BB10", 1%N)], [("main__closure_1__BB11", 1%N)]);
     ("std_result_Result_unwrap_0_CALL", [("main__closure_0__BB8", 1%N)], [("main__closure_0__BB9", 1%N)]);
     ("std_result_Result_unwrap_1_CALL", [("main__closure_0__BB13", 1%N)], [("main__closure_0__BB14", 1%N)]);
     ("std_result_Result_unwrap_2_CALL", [("main__closure_1__BB3", 1%N)], [("main__closure_1__BB4", 1%N)]);
     ("std_result_Result_unwrap_3_CALL", [("main__closure_1__BB8", 1%N)], [("main__closure_1__BB9", 1%N)]);
     ("std_sync_Arc_T_new_0_CALL", [("main_BB3", 1%N)], [("main_BB4", 1%N)]);
     ("std_sync_Condvar_new_0_CALL", [("main_BB1", 1%N)], [("main_BB2", 1%N)]);
     ("std_sync_Condvar_new_1_CALL", [("main_BB2", 1%N)], [("main_BB3", 1%N)]);
     ("std_sync_Condvar_notify_one_0_CALL", [("main__closure_0__BB19", 1%N)], [("CONDVAR_1_NOTIFY", 1%N); ("main__closure_0__BB20", 1%N)]);
     ("std_sync_Condvar_notify_one_1_CALL", [("main__closure_1__BB15", 1%N)], [("CONDVAR_0_NOTIFY", 1%N); ("main__closure_1__BB16", 1%N)]);
     ("std_sync_Mutex_T_lock_0_CALL", [("MUTEX_0", 1%N); ("main__closure_0__BB7", 1%N)], [("main__closure_0__BB8", 1%N)]);
     ("std_sync_Mutex_T_lock_1_CALL", [("MUTEX_0", 1%N); ("main__closure_1__BB2", 1%N)], [("main__closure_1__BB3", 1%N)]);
     ("std_sync_Mutex_T_new_0_CALL", [("PROGRAM_START", 1%N)], [("main_BB1", 1%N)]);
     ("std_thread_spawn_0_CALL", [("main_BB6", 1%N)], [("THREAD_0_START", 1%N); ("main_BB7", 1%N)]);
     ("std_thread_spawn_0_CALL_UNWIND", [("main_BB6", 1%N)], [("main_BB16", 1%N)]);
     ("std_thread_spawn_1_CALL", [("main_BB7", 1%N)], [("THREAD_1_START", 1%N); ("main_BB8", 1%N)]);
     ("std_thread_spawn_1_CALL_UNWIND", [("main_BB7", 1%N)], [("main_BB12", 1%N)])]).

(** examples/results/thread/shared_counter/net.lola *)
Definition shared_counter_net : Listing := (
    [("MUTEX_0", 1); ("PROGRAM_END", 0); ("PROGRAM_PANIC", 0); ("PROGRAM_START", 1); ("THREAD_0_END", 0);
     ("THREAD_0_START", 0); ("THREAD_1_END", 0); ("THREAD_1_START", 0); ("main_BB1", 0); ("main_BB10", 0);
     ("main_BB11", 0); ("main_BB12", 0); ("main_BB13", 0); ("main_BB14", 0); ("main_BB15", 0); ("main_BB16", 0);
     ("main_BB17", 0); ("main_BB18", 0); ("main_BB19", 0); ("main_BB2", 0); ("main_BB20", 0); ("main_BB21", 0);
     ("main_BB22", 0); ("main_BB23", 0); ("main_BB24", 0); ("main_BB25", 0); ("main_BB26", 0); ("main_BB27", 0);
     ("main_BB28", 0); ("main_BB29", 0); ("main_BB3", 0); ("main_BB30", 0); ("main_BB4", 0); ("main_BB5", 0);
     ("main_BB6", 0); ("main_BB7", 0); ("main_BB8", 0); ("main_BB9", 0); ("main__closure_0__BB1", 0);
     ("main__closure_0__BB10", 0); ("main__closure_0__BB11", 0); ("main__closure_0__BB12", 0);
     ("main__closure_0__BB13", 0); ("main__closure_0__BB14", 0); ("main__closure_0__BB2", 0);
     ("main__closure_0__BB3", 0); ("main__closure_0__BB4", 0); ("main__closure_0__BB5", 0);
     ("main__closure_0__BB6", 0); ("main__closure_0__BB7", 0); ("main__closure_0__BB8", 0);
     ("main__closure_0__BB9", 0); ("main__closure_1__BB1", 0); ("main__closure_1__BB10", 0);
     ("main__closure_1__BB11", 0); ("main__closure_1__BB12", 0); ("main__closure_1__BB13", 0);
     ("main__closure_1__BB14", 0); ("main__closure_1__BB2", 0); ("main__closure_1__BB3", 0);
     ("main__closure_1__BB4", 0); ("main__closure_1__BB5", 0); ("main__closure_1__BB6", 0);
     ("main__closure_1__BB7", 0); ("main__closure_1__BB8", 0); ("main__closure_1__BB9", 0)]%N,
    [("core_fmt_rt_Argument__'___new_display_0_CALL", [("main_BB14", 1%N)], [("main_BB15", 1%N)]);
     ("core_fmt_rt_Argument__'___new_display_0_CALL_UNWIND", [("main_BB14", 1%N)], [("main_BB20", 1%N)]);
     ("main_DROP_17", [("main_BB17", 1%N)], [("MUTEX_0", 1%N); ("main_BB18", 1%N)]);
     ("main_DROP_18", [("main_BB18", 1%N)], [("main_BB19", 1%N)]);
     ("main_DROP_20", [("main_BB20", 1%N)], [("MUTEX_0", 1%N); ("main_BB24", 1%N)]);
     ("main_DROP_21", [("main_BB21", 1%N)], [("main_BB22", 1%N)]);
     ("main_DROP_23", [("main_BB23", 1%N)], [("main_BB26", 1%N)]);
     ("main_DROP_25", [("main_BB25", 1%N)], [("main_BB28", 1%N)]);
     ("main_DROP_27", [("main_BB27", 1%N)], [("main_BB30", 1%N)]);
     ("main_DROP_29", [("main_BB29", 1%N)], [("main_BB21", 1%N)]);
     ("main_DROP_UNWIND_17", [("main_BB17", 1%N)], [("MUTEX_0", 1%N); ("main_BB24", 1%N)]);
     ("main_RETURN", [("main_BB19", 1%N)], [("PROGRAM_END", 1%N)]);
     ("main_SWITCH_INT_FROM_BB24_TO_BB23", [("main_BB24", 1%N)], [("main_BB23", 1%N)]);
     ("main_SWITCH_INT_FROM_BB24_TO_BB26", [("main_BB24", 1%N)], [("main_BB26", 1%N)]);
     ("main_SWITCH_INT_FROM_BB26_TO_BB25", [("main_BB26", 1%N)], [("main_BB25", 1%N)]);
     ("main_SWITCH_INT_FROM_BB26_TO_BB28", [("main_BB26", 1%N)], [("main_BB28", 1%N)]);
     ("main_SWITCH_INT_FROM_BB28_TO_BB27", [("main_BB28", 1%N)], [("main_BB27", 1%N)]);
     ("main_SWITCH_INT_FROM_BB28_TO_BB30", [("main_BB28", 1%N)], [("main_BB30", 1%N)]);
     ("main_SWITCH_INT_FROM_BB30_TO_BB21", [("main_BB30", 1%N)], [("main_BB21", 1%N)]);
     ("main_SWITCH_INT_FROM_BB30_TO_BB29", [("main_BB30", 1%N)], [("main_BB29", 1%N)]);
     ("main_UNWIND_22", [("main_BB22", 1%N)], [("PROGRAM_PANIC", 1%N)]);
     ("main__closure_0__ASSERT_8", [("main__closure_0__BB8", 1%N)], [("main__closure_0__BB9", 1%N)]);
     ("main__closure_0__ASSERT_CLEANUP_8", [("main__closure_0__BB8", 1%N)], [("main__closure_0__BB12", 1%N)]);
     ("main__closure_0__DROP_10", [("main__closure_0__BB10", 1%N)], [("main__closure_0__BB11", 1%N)]);
     ("main__closure_0__DROP_12", [("main__closure_0__BB12", 1%N)], [("MUTEX_0", 1%N); ("main__closure_0__BB13", 1%N)]);
     ("main__closure_0__DROP_13", [("main__closure_0__BB13", 1%N)], [("main__closure_0__BB14", 1%N)]);
     ("main__closure_0__DROP_6", [("main__closure_0__BB6", 1%N)], [("MUTEX_0", 1%N); ("main__closure_0__BB10", 1%N)]);
     ("main__closure_0__DROP_9", [("main__closure_0__BB9", 1%N)], [("MUTEX_0", 1%N); ("main__closure_0__BB1", 1%N)]);
     ("main__closure_0__DROP_UNWIND_6", [("main__closure_0__BB6", 1%N)], [("MUTEX_0", 1%N); ("main__closure_0__BB13", 1%N)]);
     ("main__closure_0__DROP_UNWIND_9", [("main__closure_0__BB9", 1%N)], [("MUTEX_0", 1%N); ("main__closure_0__BB13", 1%N)]);
     ("main__closure_0__GOTO_0", [("THREAD_0_START", 1%N)], [("main__closure_0__BB1", 1%N)]);
     ("main__closure_0__RETURN", [("main__closure_0__BB11", 1%N)], [("THREAD_0_END", 1%N)]);
     ("main__closure_0__SWITCH_INT_FROM_BB5_TO_BB6", [("main__closure_0__BB5", 1%N)], [("main__closure_0__BB6", 1%N)]);
     ("main__closure_0__SWITCH_INT_FROM_BB5_TO_BB7", [("main__closure_0__BB5", 1%N)], [("main__closure_0__BB7", 1%N)]);
     ("main__closure_0__UNWIND_14", [("main__closure_0__BB14", 1%N)], [("THREAD_0_END", 1%N)]);
     ("main__closure_1__ASSERT_8", [("main__closure_1__BB8", 1%N)], [("main__closure_1__BB9", 1%N)]);
     ("main__closure_1__ASSERT_CLEANUP_8", [("main__closure_1__BB8", 1%N)], [("main__closure_1__BB12", 1%N)]);
     ("main__closure_1__DROP_10", [("main__closure_1__BB10", 1%N)], [("main__closure_1__BB11", 1%N)]);
     ("main__closure_1__DROP_12", [("main__closure_1__BB12", 1%N)], [("MUTEX_0", 1%N); ("main__closure_1__BB13", 1%N)]);
     ("main__closure_1__DROP_13", [("main__closure_1__BB13", 1%N)], [("main__closure_1__BB14", 1%N)]);
     ("main__closure_1__DROP_6", [("main__closure_1__BB6", 1%N)], [("MUTEX_0", 1%N); ("main__closure_1__BB10", 1%N)]);
     ("main__closure_1__DROP_9", [("main__closure_1__BB9", 1%N)], [("MUTEX_0", 1%N); ("main__closure_1__BB1", 1%N)]);
     ("main__closure_1__DROP_UNWIND_6", [("main__closure_1__BB6", 1%N)], [("MUTEX_0", 1%N); ("main__closure_1__BB13", 1%N)]);
     ("main__closure_1__DROP_UNWIND_9", [("main__closure_1__BB9", 1%N)], [("MUTEX_0", 1%N); ("main__closure_1__BB13", 1%N)]);
     ("main__closure_1__GOTO_0", [("THREAD_1_START", 1%N)], [("main__closure_1__BB1", 1%N)]);
     ("main__closure_1__RETURN", [("main__closure_1__BB11", 1%N)], [("THREAD_1_END", 1%N)]);
     ("main__closure_1__SWITCH_INT_FROM_BB5_TO_BB6", [("main__closure_1__BB5", 1%N)], [("main__closure_1__BB6", 1%N)]);
     ("main__closure_1__SWITCH_INT_FROM_BB5_TO_BB7", [("main__closure_1__BB5", 1%N)], [("main__closure_1__BB7", 1%N)]);
     ("main__closure_1__UNWIND_14", [("main__closure_1__BB14", 1%N)], [("THREAD_1_END", 1%N)]);
     ("std_clone_Clone_clone_0_CALL", [("main_BB2", 1%N)], [("main_BB3", 1%N)]);
     ("std_clone_Clone_clone_0_CALL_UNWIND", [("main_BB2", 1%N)], [("main_BB21", 1%N)]);
     ("std_clone_Clone_clone_1_CALL", [("main_BB3", 1%N)], [("main_BB4", 1%N)]);
     ("std_clone_Clone_clone_1_CALL_UNWIND", [("main_BB3", 1%N)], [("main_BB30", 1%N)]);
     ("std_fmt_Arguments_a_new_v1_0_CALL", [("main_BB15", 1%N)], [("main_BB16", 1%N)]);
     ("std_fmt_Arguments_a_new_v1_0_CALL_UNWIND", [("main_BB15", 1%N)], [("main_BB20", 1%N)]);
     ("std_io__print_0_CALL", [("main_BB16", 1%N)], [("main_BB17", 1%N)]);
     ("std_io__print_0_CALL_UNWIND", [("main_BB16", 1%N)], [("main_BB20", 1%N)]);
     ("std_ops_DerefMut_deref_mut_0_CALL", [("main__closure_0__BB7", 1%N)], [("main__closure_0__BB8", 1%N)]);
     ("std_ops_DerefMut_deref_mut_1_CALL", [("main__closure_1__BB7", 1%N)], [("main__closure_1__BB8", 1%N)]);
     ("std_ops_Deref_deref_0_CALL", [("main_BB10", 1%N)], [("main_BB11", 1%N)]);
     ("std_ops_Deref_deref_1_CALL", [("main_BB13", 1%N)], [("main_BB14", 1%N)]);
     ("std_ops_Deref_deref_2_CALL", [("main__closure_0__BB1", 1%N)], [("main__closure_0__BB2", 1%N)]);
     ("std_ops_Deref_deref_3_CALL", [("main__closure_0__BB4", 1%N)], [("main__closure_0__BB5", 1%N)]);
     ("std_ops_Deref_deref_4_CALL", [("main__closure_1__BB1", 1%N)], [("main__closure_1__BB2", 1%N)]);
     ("std_ops_Deref_deref_5_CALL", [("main__closure_1__BB4", 1%N)], [("main__closure_1__BB5", 1%N)]);
     ("std_result_Result_unwrap_0_CALL", [("main_BB7", 1%N)], [("main_BB8", 1%N)]);
     ("std_result_Result_unwrap_0_CALL_UNWIND", [("main_BB7", 1%N)], [("main_BB24", 1%N)]);
     ("std_result_Result_unwrap_1_CALL", [("main_BB9", 1%N)], [("main_BB10", 1%N)]);
     ("std_result_Result_unwrap_1_CALL_UNWIND", [("main_BB9", 1%N)], [("main_BB24", 1%N)]);
     ("std_result_Result_unwrap_2_CALL", [("main_BB12", 1%N)], [("main_BB13", 1%N)]);
     ("std_result_Result_unwrap_3_CALL", [("main__closure_0__BB3", 1%N)], [("main__closure_0__BB4", 1%N)]);
     ("std_result_Result_unwrap_4_CALL", [("main__closure_1__BB3", 1%N)], [("main__closure_1__BB4", 1%N)]);
     ("std_sync_Arc_T_new_0_CALL", [("main_BB1", 1%N)], [("main_BB2", 1%N)]);
     ("std_sync_Mutex_T_lock_0_CALL", [("MUTEX_0", 1%N); ("main_BB11", 1%N)], [("main_BB12", 1%N)]);
     ("std_sync_Mutex_T_lock_1_CALL", [("MUTEX_0", 1%N); ("main__closure_0__BB2", 1%N)], [("main__closure_0__BB3", 1%N)]);
     ("std_sync_Mutex_T_lock_2_CALL", [("MUTEX_0", 1%N); ("main__closure_1__BB2", 1%N)], [("main__closure_1__BB3", 1%N)]);
     ("std_sync_Mutex_T_new_0_CALL", [("PROGRAM_START", 1%N)], [("main_BB1", 1%N)]);
     ("std_thread_JoinHandle_T_join_0_CALL", [("THREAD_0_END", 1%N); ("main_BB6", 1%N)], [("main_BB7", 1%N)]);
     ("std_thread_JoinHandle_T_join_1_CALL", [("THREAD_1_END", 1%N); ("main_BB8", 1%N)], [("main_BB9", 1%N)]);
     ("std_thread_spawn_0_CALL", [("main_BB4", 1%N)], [("THREAD_0_START", 1%N); ("main_BB5", 1%N)]);
     ("std_thread_spawn_0_CALL_UNWIND", [("main_BB4", 1%N)], [("main_BB28", 1%N)]);
     ("std_thread_spawn_1_CALL", [("main_BB5", 1%N)], [("THREAD_1_START", 1%N); ("main_BB6", 1%N)]);
     ("std_thread_spawn_1_CALL_UNWIND", [("main_BB5", 1%N)], [("main_BB26", 1%N)])]).

(** examples/results/thread/dating_philosophers/net.lola *)
Definition dating_philosophers_net : Listing := (
    [("MUTEX_0", 1); ("MUTEX_1", 1); ("PROGRAM_END", 0); ("PROGRAM_PANIC", 0); ("PROGRAM_START", 1);
     ("THREAD_0_END", 0); ("THREAD_0_START", 0); ("THREAD_1_END", 0); ("THREAD_1_START", 0); ("main_BB1", 0);
     ("main_BB10", 0); ("main_BB11", 0); ("main_BB12", 0); ("main_BB13", 0); ("main_BB14", 0); ("main_BB15", 0);
     ("main_BB16", 0); ("main_BB17", 0); ("main_BB18", 0); ("main_BB19", 0); ("main_BB2", 0); ("main_BB20", 0);
     ("main_BB21", 0); ("main_BB22", 0); ("main_BB23", 0); ("main_BB24", 0); ("main_BB25", 0); ("main_BB26", 0);
     ("main_BB27", 0); ("main_BB3", 0); ("main_BB4", 0); ("main_BB5", 0); ("main_BB6", 0); ("main_BB7", 0);
     ("main_BB8", 0); ("main_BB9", 0); ("main__closure_0__BB1", 0); ("main__closure_0__BB10", 0);
     ("main__closure_0__BB11", 0); ("main__closure_0__BB12", 0); ("main__closure_0__BB2", 0);
     ("main__closure_0__BB3", 0); ("main__closure_0__BB4", 0); ("main__closure_0__BB5", 0);
     ("main__closure_0__BB6", 0); ("main__closure_0__BB7", 0); ("main__closure_0__BB8", 0);
     ("main__closure_0__BB9", 0); ("main__closure_1__BB1", 0); ("main__closure_1__BB10", 0);
     ("main__closure_1__BB11", 0); ("main__closure_1__BB12", 0); ("main__closure_1__BB2", 0);
     ("main__closure_1__BB3", 0); ("main__closure_1__BB4", 0); ("main__closure_1__BB5", 0);
     ("main__closure_1__BB6", 0); ("main__closure_1__BB7", 0); ("main__closure_1__BB8", 0);
     ("main__closure_1__BB9", 0)]%N,
    [("main_DROP_14", [("main_BB14", 1%N)], [("main_BB15", 1%N)]);
     ("main_DROP_15", [("main_BB15", 1%N)], [("main_BB16", 1%N)]);
     ("main_DROP_18", [("main_BB18", 1%N)], [("main_BB19", 1%N)]);
     ("main_DROP_19", [("main_BB19", 1%N)], [("main_BB20", 1%N)]);
     ("main_DROP_21", [("main_BB21", 1%N)], [("main_BB17", 1%N)]);
     ("main_DROP_23", [("main_BB23", 1%N)], [("main_BB17", 1%N)]);
     ("main_DROP_25", [("main_BB25", 1%N)], [("main_BB18", 1%N)]);
     ("main_DROP_26", [("main_BB26", 1%N)], [("main_BB18", 1%N)]);
     ("main_DROP_UNWIND_14", [("main_BB14", 1%N)], [("main_BB19", 1%N)]);
     ("main_RETURN", [("main_BB16", 1%N)], [("PROGRAM_END", 1%N)]);
     ("main_SWITCH_INT_FROM_BB17_TO_BB18", [("main_BB17", 1%N)], [("main_BB18", 1%N)]);
     ("main_SWITCH_INT_FROM_BB17_TO_BB25", [("main_BB17", 1%N)], [("main_BB25", 1%N)]);
     ("main_SWITCH_INT_FROM_BB22_TO_BB17", [("main_BB22", 1%N)], [("main_BB17", 1%N)]);
     ("main_SWITCH_INT_FROM_BB22_TO_BB21", [("main_BB22", 1%N)], [("main_BB21", 1%N)]);
     ("main_SWITCH_INT_FROM_BB24_TO_BB17", [("main_BB24", 1%N)], [("main_BB17", 1%N)]);
     ("main_SWITCH_INT_FROM_BB24_TO_BB23", [("main_BB24", 1%N)], [("main_BB23", 1%N)]);
     ("main_SWITCH_INT_FROM_BB27_TO_BB18", [("main_BB27", 1%N)], [("main_BB18", 1%N)]);
     ("main_SWITCH_INT_FROM_BB27_TO_BB26", [("main_BB27", 1%N)], [("main_BB26", 1%N)]);
     ("main_UNWIND_20", [("main_BB20", 1%N)], [("PROGRAM_PANIC", 1%N)]);
     ("main__closure_0__DROP_10", [("main__closure_0__BB10", 1%N)], [("MUTEX_0", 1%N); ("main__closure_0__BB11", 1%N)]);
     ("main__closure_0__DROP_11", [("main__closure_0__BB11", 1%N)], [("main__closure_0__BB12", 1%N)]);
     ("main__closure_0__DROP_6", [("main__closure_0__BB6", 1%N)], [("MUTEX_1", 1%N); ("main__closure_0__BB7", 1%N)]);
     ("main__closure_0__DROP_7", [("main__closure_0__BB7", 1%N)], [("MUTEX_0", 1%N); ("main__closure_0__BB8", 1%N)]);
     ("main__closure_0__DROP_8", [("main__closure_0__BB8", 1%N)], [("main__closure_0__BB9", 1%N)]);
     ("main__closure_0__DROP_UNWIND_6", [("main__closure_0__BB6", 1%N)], [("MUTEX_1", 1%N); ("main__closure_0__BB10", 1%N)]);
     ("main__closure_0__DROP_UNWIND_7", [("main__closure_0__BB7", 1%N)], [("MUTEX_0", 1%N); ("main__closure_0__BB11", 1%N)]);
     ("main__closure_0__RETURN", [("main__closure_0__BB9", 1%N)], [("THREAD_0_END", 1%N)]);
     ("main__closure_0__UNWIND_12", [("main__closure_0__BB12", 1%N)], [("THREAD_0_END", 1%N)]);
     ("main__closure_1__DROP_10", [("main__closure_1__BB10", 1%N)], [("MUTEX_1", 1%N); ("main__closure_1__BB11", 1%N)]);
     ("main__closure_1__DROP_11", [("main__closure_1__BB11", 1%N)], [("main__closure_1__BB12", 1%N)]);
     ("main__closure_1__DROP_6", [("main__closure_1__BB6", 1%N)], [("MUTEX_0", 1%N); ("main__closure_1__BB7", 1%N)]);
     ("main__closure_1__DROP_7", [("main__closure_1__BB7", 1%N)], [("MUTEX_1", 1%N); ("main__closure_1__BB8", 1%N)]);
     ("main__closure_1__DROP_8", [("main__closure_1__BB8", 1%N)], [("main__closure_1__BB9", 1%N)]);
     ("main__closure_1__DROP_UNWIND_6", [("main__closure_1__BB6", 1%N)], [("MUTEX_0", 1%N); ("main__closure_1__BB10", 1%N)]);
     ("main__closure_1__DROP_UNWIND_7", [("main__closure_1__BB7", 1%N)], [("MUTEX_1", 1%N); ("main__closure_1__BB11", 1%N)]);
     ("main__closure_1__RETURN", [("main__closure_1__BB9", 1%N)], [("THREAD_1_END", 1%N)]);
     ("main__closure_1__UNWIND_12", [("main__closure_1__BB12", 1%N)], [("THREAD_1_END", 1%N)]);
     ("std_clone_Clone_clone_0_CALL", [("main_BB4", 1%N)], [("main_BB5", 1%N)]);
     ("std_clone_Clone_clone_0_CALL_UNWIND", [("main_BB4", 1%N)], [("main_BB18", 1%N)]);
     ("std_clone_Clone_clone_1_CALL", [("main_BB5", 1%N)], [("main_BB6", 1%N)]);
     ("std_clone_Clone_clone_1_CALL_UNWIND", [("main_BB5", 1%N)], [("main_BB27", 1%N)]);
     ("std_clone_Clone_clone_2_CALL", [("main_BB7", 1%N)], [("main_BB8", 1%N)]);
     ("std_clone_Clone_clone_2_CALL_UNWIND", [("main_BB7", 1%N)], [("main_BB17", 1%N)]);
     ("std_clone_Clone_clone_3_CALL", [("main_BB8", 1%N)], [("main_BB9", 1%N)]);
     ("std_clone_Clone_clone_3_CALL_UNWIND", [("main_BB8", 1%N)], [("main_BB24", 1%N)]);
     ("std_ops_Deref_deref_0_CALL", [("THREAD_0_START", 1%N)], [("main__closure_0__BB1", 1%N)]);
     ("std_ops_Deref_deref_1_CALL", [("main__closure_0__BB3", 1%N)], [("main__closure_0__BB4", 1%N)]);
     ("std_ops_Deref_deref_2_CALL", [("THREAD_1_START", 1%N)], [("main__closure_1__BB1", 1%N)]);
     ("std_ops_Deref_deref_3_CALL", [("main__closure_1__BB3", 1%N)], [("main__closure_1__BB4", 1%N)]);
     ("std_result_Result_unwrap_0_CALL", [("main_BB11", 1%N)], [("main_BB12", 1%N)]);
     ("std_result_Result_unwrap_0_CALL_UNWIND", [("main_BB11", 1%N)], [("main_BB22", 1%N)]);
     ("std_result_Result_unwrap_1_CALL", [("main_BB13", 1%N)], [("main_BB14", 1%N)]);
     ("std_result_Result_unwrap_1_CALL_UNWIND", [("main_BB13", 1%N)], [("main_BB22", 1%N)]);
     ("std_result_Result_unwrap_2_CALL", [("main__closure_0__BB2", 1%N)], [("main__closure_0__BB3", 1%N)]);
     ("std_result_Result_unwrap_3_CALL", [("main__closure_0__BB5", 1%N)], [("main__closure_0__BB6", 1%N)]);
     ("std_result_Result_unwrap_4_CALL", [("main__closure_1__BB2", 1%N)], [("main__closure_1__BB3", 1%N)]);
     ("std_result_Result_unwrap_5_CALL", [("main__closure_1__BB5", 1%N)], [("main__closure_1__BB6", 1%N)]);
     ("std_sync_Arc_T_new_0_CALL", [("main_BB1", 1%N)], [("main_BB2", 1%N)]);
     ("std_sync_Arc_T_new_1_CALL", [("main_BB3", 1%N)], [("main_BB4", 1%N)]);
     ("std_sync_Arc_T_new_1_CALL_UNWIND", [("main_BB3", 1%N)], [("main_BB19", 1%N)]);
     ("std_sync_Mutex_T_lock_0_CALL", [("MUTEX_0", 1%N); ("main__closure_0__BB1", 1%N)], [("main__closure_0__BB2", 1%N)]);
     ("std_sync_Mutex_T_lock_1_CALL", [("MUTEX_1", 1%N); ("main__closure_0__BB4", 1%N)], [("main__closure_0__BB5", 1%N)]);
     ("std_sync_Mutex_T_lock_2_CALL", [("MUTEX_1", 1%N); ("main__closure_1__BB1", 1%N)], [("main__closure_1__BB2", 1%N)]);
     ("std_sync_Mutex_T_lock_3_CALL", [("MUTEX_0", 1%N); ("main__closure_1__BB4", 1%N)], [("main__closure_1__BB5", 1%N)]);
     ("std_sync_Mutex_T_new_0_CALL", [("PROGRAM_START", 1%N)], [("main_BB1", 1%N)]);
     ("std_sync_Mutex_T_new_1_CALL", [("main_BB2", 1%N)], [("main_BB3", 1%N)]);
     ("std_sync_Mutex_T_new_1_CALL_UNWIND", [("main_BB2", 1%N)], [("main_BB19", 1%N)]);
     ("std_thread_JoinHandle_T_join_0_CALL", [("THREAD_0_END", 1%N); ("main_BB10", 1%N)], [("main_BB11", 1%N)]);
     ("std_thread_JoinHandle_T_join_1_CALL", [("THREAD_1_END", 1%N); ("main_BB12", 1%N)], [("main_BB13", 1%N)]);
     ("std_thread_spawn_0_CALL", [("main_BB6", 1%N)], [("THREAD_0_START", 1%N); ("main_BB7", 1%N)]);
     ("std_thread_spawn_0_CALL_UNWIND", [("main_BB6", 1%N)], [("main_BB27", 1%N)]);
     ("std_thread_spawn_1_CALL", [("main_BB9", 1%N)], [("THREAD_1_START", 1%N); ("main_BB10", 1%N)]);
     ("std_thread_spawn_1_CALL_UNWIND", [("main_BB9", 1%N)], [("main_BB24", 1%N)])]).

(** examples/results/thread/dining_philosophers/net.lola *)
Definition dining_philosophers_net : Listing := (
    [("MUTEX_0", 1); ("MUTEX_1", 1); ("MUTEX_2", 1); ("MUTEX_3", 1); ("MUTEX_4", 1); ("PROGRAM_END", 0);
     ("PROGRAM_PANIC", 0); ("PROGRAM_START", 1); ("THREAD_0_END", 0); ("THREAD_0_START", 0); ("THREAD_1_END", 0);
     ("THREAD_1_START", 0); ("THREAD_2_END", 0); ("THREAD_2_START", 0); ("THREAD_3_END", 0);
     ("THREAD_3_START", 0); ("THREAD_4_END", 0); ("THREAD_4_START", 0); ("main_BB1", 0); ("main_BB10", 0);
     ("main_BB11", 0); ("main_BB12", 0); ("main_BB13", 0); ("main_BB14", 0); ("main_BB15", 0); ("main_BB16", 0);
     ("main_BB17", 0); ("main_BB18", 0); ("main_BB19", 0); ("main_BB2", 0); ("main_BB20", 0); ("main_BB21", 0);
     ("main_BB22", 0); ("main_BB23", 0); ("main_BB24", 0); ("main_BB25", 0); ("main_BB26", 0); ("main_BB27", 0);
     ("main_BB28", 0); ("main_BB29", 0); ("main_BB3", 0); ("main_BB30", 0); ("main_BB31", 0); ("main_BB32", 0);
     ("main_BB33", 0); ("main_BB34", 0); ("main_BB35", 0); ("main_BB36", 0); ("main_BB37", 0); ("main_BB38", 0);
     ("main_BB39", 0); ("main_BB4", 0); ("main_BB40", 0); ("main_BB41", 0); ("main_BB42", 0); ("main_BB43", 0);
     ("main_BB44", 0); ("main_BB45", 0); ("main_BB46", 0); ("main_BB47", 0); ("main_BB48", 0); ("main_BB49", 0);
     ("main_BB5", 0); ("main_BB50", 0); ("main_BB51", 0); ("main_BB52", 0); ("main_BB53", 0); ("main_BB54", 0);
     ("main_BB55", 0); ("main_BB56", 0); ("main_BB57", 0); ("main_BB58", 0); ("main_BB59", 0); ("main_BB6", 0);
     ("main_BB60", 0); ("main_BB61", 0); ("main_BB62", 0); ("main_BB63", 0); ("main_BB64", 0); ("main_BB65", 0);
     ("main_BB66", 0); ("main_BB7", 0); ("main_BB8", 0); ("main_BB9", 0); ("main__closure_0__BB1", 0);
     ("main__closure_0__BB10", 0); ("main__closure_0__BB11", 0); ("main__closure_0__BB12", 0);
     ("main__closure_0__BB13", 0); ("main__closure_0__BB14", 0); ("main__closure_0__BB15", 0);
     ("main__closure_0__BB16", 0); ("main__closure_0__BB17", 0); ("main__closure_0__BB18", 0);
     ("main__closure_0__BB19", 0); ("main__closure_0__BB2", 0); ("main__closure_0__BB20", 0);
     ("main__closure_0__BB21", 0); ("main__closure_0__BB22", 0); ("main__closure_0__BB23", 0);
     ("main__closure_0__BB24", 0); ("main__closure_0__BB25", 0); ("main__closure_0__BB26", 0);
     ("main__closure_0__BB27", 0); ("main__closure_0__BB28", 0); ("main__closure_0__BB29", 0);
     ("main__closure_0__BB3", 0); ("main__closure_0__BB4", 0); ("main__closure_0__BB5", 0);
     ("main__closure_0__BB6", 0); ("main__closure_0__BB7", 0); ("main__closure_0__BB8", 0);
     ("main__closure_0__BB9", 0); ("main__closure_1__BB1", 0); ("main__closure_1__BB10", 0);
     ("main__closure_1__BB11", 0); ("main__closure_1__BB12", 0); ("main__closure_1__BB13", 0);
     ("main__closure_1__BB14", 0); ("main__closure_1__BB15", 0); ("main__closure_1__BB16", 0);
     ("main__closure_1__BB17", 0); ("main__closure_1__BB18", 0); ("main__closure_1__BB19", 0);
     ("main__closure_1__BB2", 0); ("main__closure_1__BB20", 0); ("main__closure_1__BB21", 0);
     ("main__closure_1__BB22", 0); ("main__closure_1__BB23", 0); ("main__closure_1__BB24", 0);
     ("main__closure_1__BB25", 0); ("main__closure_1__BB26", 0); ("main__closure_1__BB27", 0);
     ("main__closure_1__BB28", 0); ("main__closure_1__BB29", 0); ("main__closure_1__BB3", 0);
     ("main__closure_1__BB4", 0); ("main__closure_1__BB5", 0); ("main__closure_1__BB6", 0);
     ("main__closure_1__BB7", 0); ("main__closure_1__BB8", 0); ("main__closure_1__BB9", 0);
     ("main__closure_2__BB1", 0); ("main__closure_2__BB10", 0); ("main__closure_2__BB11", 0);
     ("main__closure_2__BB12", 0); ("main__closure_2__BB13", 0); ("main__closure_2__BB14", 0);
     ("main__closure_2__BB15", 0); ("main__closure_2__BB16", 0); ("main__closure_2__BB17", 0);
     ("main__closure_2__BB18", 0); ("main__closure_2__BB19", 0); ("main__closure_2__BB2", 0);
     ("main__closure_2__BB20", 0); ("main__closure_2__BB21", 0); ("main__closure_2__BB22", 0);
     ("main__closure_2__BB23", 0); ("main__closure_2__BB24", 0); ("main__closure_2__BB25", 0);
     ("main__closure_2__BB26", 0); ("main__closure_2__BB27", 0); ("main__closure_2__BB28", 0);
     ("main__closure_2__BB29", 0); ("main__closure_2__BB3", 0); ("main__closure_2__BB4", 0);
     ("main__closure_2__BB5", 0); ("main__closure_2__BB6", 0); ("main__closure_2__BB7", 0);
     ("main__closure_2__BB8", 0); ("main__closure_2__BB9", 0); ("main__closure_3__BB1", 0);
     ("main__closure_3__BB10", 0); ("main__closure_3__BB11", 0); ("main__closure_3__BB12", 0);
     ("main__closure_3__BB13", 0); ("main__closure_3__BB14", 0); ("main__closure_3__BB15", 0);
     ("main__closure_3__BB16", 0); ("main__closure_3__BB17", 0); ("main__closure_3__BB18", 0);
     ("main__closure_3__BB19", 0); ("main__closure_3__BB2", 0); ("main__closure_3__BB20", 0);
     ("main__closure_3__BB21", 0); ("main__closure_3__BB22", 0); ("main__closure_3__BB23", 0);
     ("main__closure_3__BB24", 0); ("main__closure_3__BB25", 0); ("main__closure_3__BB26", 0);
     ("main__closure_3__BB27", 0); ("main__closure_3__BB28", 0); ("main__closure_3__BB29", 0);
     ("main__closure_3__BB3", 0); ("main__closure_3__BB4", 0); ("main__closure_3__BB5", 0);
     ("main__closure_3__BB6", 0); ("main__closure_3__BB7", 0); ("main__closure_3__BB8", 0);
     ("main__closure_3__BB9", 0); ("main__closure_4__BB1", 0); ("main__closure_4__BB10", 0);
     ("main__closure_4__BB11", 0); ("main__closure_4__BB12", 0); ("main__closure_4__BB13", 0);
     ("main__closure_4__BB14", 0); ("main__closure_4__BB15", 0); ("main__closure_4__BB16", 0);
     ("main__closure_4__BB17", 0); ("main__closure_4__BB18", 0); ("main__closure_4__BB19", 0);
     ("main__closure_4__BB2", 0); ("main__closure_4__BB20", 0); ("main__closure_4__BB21", 0);
     ("main__closure_4__BB22", 0); ("main__closure_4__BB23", 0); ("main__closure_4__BB24", 0);
     ("main__closure_4__BB25", 0); ("main__closure_4__BB26", 0); ("main__closure_4__BB27", 0);
     ("main__closure_4__BB28", 0); ("main__closure_4__BB29", 0); ("main__closure_4__BB3", 0);
     ("main__closure_4__BB4", 0); ("main__closure_4__BB5", 0); ("main__closure_4__BB6", 0);
     ("main__closure_4__BB7", 0); ("main__closure_4__BB8", 0); ("main__closure_4__BB9", 0)]%N,
    [("core_fmt_rt_Argument__'___new_display_0_CALL", [("main__closure_0__BB7", 1%N)], [("main__closure_0__BB8", 1%N)]);
     ("core_fmt_rt_Argument__'___new_display_0_CALL_UNWIND", [("main__closure_0__BB7", 1%N)], [("main__closure_0__BB27", 1%N)]);
     ("core_fmt_rt_Argument__'___new_display_1_CALL", [("main__closure_0__BB13", 1%N)], [("main__closure_0__BB14", 1%N)]);
     ("core_fmt_rt_Argument__'___new_display_1_CALL_UNWIND", [("main__closure_0__BB13", 1%N)], [("main__closure_0__BB26", 1%N)]);
     ("core_fmt_rt_Argument__'___new_display_2_CALL", [("main__closure_1__BB7", 1%N)], [("main__closure_1__BB8", 1%N)]);
     ("core_fmt_rt_Argument__'___new_display_2_CALL_UNWIND", [("main__closure_1__BB7", 1%N)], [("main__closure_1__BB27", 1%N)]);
     ("core_fmt_rt_Argument__'___new_display_3_CALL", [("main__closure_1__BB13", 1%N)], [("main__closure_1__BB14", 1%N)]);
     ("core_fmt_rt_Argument__'___new_display_3_CALL_UNWIND", [("main__closure_1__BB13", 1%N)], [("main__closure_1__BB26", 1%N)]);
     ("core_fmt_rt_Argument__'___new_display_4_CALL", [("main__closure_2__BB7", 1%N)], [("main__closure_2__BB8", 1%N)]);
     ("core_fmt_rt_Argument__'___new_display_4_CALL_UNWIND", [("main__closure_2__BB7", 1%N)], [("main__closure_2__BB27", 1%N)]);
     ("core_fmt_rt_Argument__'___new_display_5_CALL", [("main__closure_2__BB13", 1%N)], [("main__closure_2__BB14", 1%N)]);
     ("core_fmt_rt_Argument__'___new_display_5_CALL_UNWIND", [("main__closure_2__BB13", 1%N)], [("main__closure_2__BB26", 1%N)]);
     ("core_fmt_rt_Argument__'___new_display_6_CALL", [("main__closure_3__BB7", 1%N)], [("main__closure_3__BB8", 1%N)]);
     ("core_fmt_rt_Argument__'___new_display_6_CALL_UNWIND", [("main__closure_3__BB7", 1%N)], [("main__closure_3__BB27", 1%N)]);
     ("core_fmt_rt_Argument__'___new_display_7_CALL", [("main__closure_3__BB13", 1%N)], [("main__closure_3__BB14", 1%N)]);
     ("core_fmt_rt_Argument__'___new_display_7_CALL_UNWIND", [("main__closure_3__BB13", 1%N)], [("main__closure_3__BB26", 1%N)]);
     ("core_fmt_rt_Argument__'___new_display_8_CALL", [("main__closure_4__BB7", 1%N)], [("main__closure_4__BB8", 1%N)]);
     ("core_fmt_rt_Argument__'___new_display_8_CALL_UNWIND", [("main__closure_4__BB7", 1%N)], [("main__closure_4__BB27", 1%N)]);
     ("core_fmt_rt_Argument__'___new_display_9_CALL", [("main__closure_4__BB13", 1%N)], [("main__closure_4__BB14", 1%N)]);
     ("core_fmt_rt_Argument__'___new_display_9_CALL_UNWIND", [("main__closure_4__BB13", 1%N)], [("main__closure_4__BB26", 1%N)]);
     ("main_DROP_35", [("main_BB35", 1%N)], [("main_BB36", 1%N)]);
     ("main_DROP_36", [("main_BB36", 1%N)], [("main_BB37", 1%N)]);
     ("main_DROP_37", [("main_BB37", 1%N)], [("main_BB38", 1%N)]);
     ("main_DROP_38", [("main_BB38", 1%N)], [("main_BB39", 1%N)]);
     ("main_DROP_39", [("main_BB39", 1%N)], [("main_BB40", 1%N)]);
     ("main_DROP_45", [("main_BB45", 1%N)], [("main_BB46", 1%N)]);
     ("main_DROP_46", [("main_BB46", 1%N)], [("main_BB47", 1%N)]);
     ("main_DROP_47", [("main_BB47", 1%N)], [("main_BB48", 1%N)]);
     ("main_DROP_48", [("main_BB48", 1%N)], [("main_BB49", 1%N)]);
     ("main_DROP_49", [("main_BB49", 1%N)], [("main_BB50", 1%N)]);
     ("main_DROP_51", [("main_BB51", 1%N)], [("main_BB41", 1%N)]);
     ("main_DROP_53", [("main_BB53", 1%N)], [("main_BB41", 1%N)]);
     ("main_DROP_55", [("main_BB55", 1%N)], [("main_BB42", 1%N)]);
     ("main_DROP_56", [("main_BB56", 1%N)], [("main_BB42", 1%N)]);
     ("main_DROP_58", [("main_BB58", 1%N)], [("main_BB43", 1%N)]);
     ("main_DROP_59", [("main_BB59", 1%N)], [("main_BB43", 1%N)]);
     ("main_DROP_61", [("main_BB61", 1%N)], [("main_BB44", 1%N)]);
     ("main_DROP_62", [("main_BB62", 1%N)], [("main_BB44", 1%N)]);
     ("main_DROP_64", [("main_BB64", 1%N)], [("main_BB45", 1%N)]);
     ("main_DROP_65", [("main_BB65", 1%N)], [("main_BB45", 1%N)]);
     ("main_DROP_UNWIND_35", [("main_BB35", 1%N)], [("main_BB46", 1%N)]);
     ("main_DROP_UNWIND_36", [("main_BB36", 1%N)], [("main_BB47", 1%N)]);
     ("main_DROP_UNWIND_37", [("main_BB37", 1%N)], [("main_BB48", 1%N)]);
     ("main_DROP_UNWIND_38", [("main_BB38", 1%N)], [("main_BB49", 1%N)]);
     ("main_RETURN", [("main_BB40", 1%N)], [("PROGRAM_END", 1%N)]);
     ("main_SWITCH_INT_FROM_BB41_TO_BB42", [("main_BB41", 1%N)], [("main_BB42", 1%N)]);
     ("main_SWITCH_INT_FROM_BB41_TO_BB55", [("main_BB41", 1%N)], [("main_BB55", 1%N)]);
     ("main_SWITCH_INT_FROM_BB42_TO_BB43", [("main_BB42", 1%N)], [("main_BB43", 1%N)]);
     ("main_SWITCH_INT_FROM_BB42_TO_BB58", [("main_BB42", 1%N)], [("main_BB58", 1%N)]);
     ("main_SWITCH_INT_FROM_BB43_TO_BB44", [("main_BB43", 1%N)], [("main_BB44", 1%N)]);
     ("main_SWITCH_INT_FROM_BB43_TO_BB61", [("main_BB43", 1%N)], [("main_BB61", 1%N)]);
     ("main_SWITCH_INT_FROM_BB44_TO_BB45", [("main_BB44", 1%N)], [("main_BB45", 1%N)]);
     ("main_SWITCH_INT_FROM_BB44_TO_BB64", [("main_BB44", 1%N)], [("main_BB64", 1%N)]);
     ("main_SWITCH_INT_FROM_BB52_TO_BB41", [("main_BB52", 1%N)], [("main_BB41", 1%N)]);
     ("main_SWITCH_INT_FROM_BB52_TO_BB51", [("main_BB52", 1%N)], [("main_BB51", 1%N)]);
     ("main_SWITCH_INT_FROM_BB54_TO_BB41", [("main_BB54", 1%N)], [("main_BB41", 1%N)]);
     ("main_SWITCH_INT_FROM_BB54_TO_BB53", [("main_BB54", 1%N)], [("main_BB53", 1%N)]);
     ("main_SWITCH_INT_FROM_BB57_TO_BB42", [("main_BB57", 1%N)], [("main_BB42", 1%N)]);
     ("main_SWITCH_INT_FROM_BB57_TO_BB56", [("main_BB57", 1%N)], [("main_BB56", 1%N)]);
     ("main_SWITCH_INT_FROM_BB60_TO_BB43", [("main_BB60", 1%N)], [("main_BB43", 1%N)]);
     ("main_SWITCH_INT_FROM_BB60_TO_BB59", [("main_BB60", 1%N)], [("main_BB59", 1%N)]);
     ("main_SWITCH_INT_FROM_BB63_TO_BB44", [("main_BB63", 1%N)], [("main_BB44", 1%N)]);
     ("main_SWITCH_INT_FROM_BB63_TO_BB62", [("main_BB63", 1%N)], [("main_BB62", 1%N)]);
     ("main_SWITCH_INT_FROM_BB66_TO_BB45", [("main_BB66", 1%N)], [("main_BB45", 1%N)]);
     ("main_SWITCH_INT_FROM_BB66_TO_BB65", [("main_BB66", 1%N)], [("main_BB65", 1%N)]);
     ("main_UNWIND_50", [("main_BB50", 1%N)], [("PROGRAM_PANIC", 1%N)]);
     ("main__closure_0__DROP_22", [("main__closure_0__BB22", 1%N)], [("MUTEX_0", 1%N); ("main__closure_0__BB23", 1%N)]);
     ("main__closure_0__DROP_23", [("main__closure_0__BB23", 1%N)], [("MUTEX_4", 1%N); ("main__closure_0__BB24", 1%N)]);
     ("main__closure_0__DROP_24", [("main__closure_0__BB24", 1%N)], [("main__closure_0__BB25", 1%N)]);
     ("main__closure_0__DROP_26", [("main__closure_0__BB26", 1%N)], [("MUTEX_0", 1%N); ("main__closure_0__BB27", 1%N)]);
     ("main__closure_0__DROP_27", [("main__closure_0__BB27", 1%N)], [("MUTEX_4", 1%N); ("main__closure_0__BB28", 1%N)]);
     ("main__closure_0__DROP_28", [("main__closure_0__BB28", 1%N)], [("main__closure_0__BB29", 1%N)]);
     ("main__closure_0__DROP_UNWIND_22", [("main__closure_0__BB22", 1%N)], [("MUTEX_0", 1%N); ("main__closure_0__BB27", 1%N)]);
     ("main__closure_0__DROP_UNWIND_23", [("main__closure_0__BB23", 1%N)], [("MUTEX_4", 1%N); ("main__closure_0__BB28", 1%N)]);
     ("main__closure_0__RETURN", [("main__closure_0__BB25", 1%N)], [("THREAD_0_END", 1%N)]);
     ("main__closure_0__UNWIND_29", [("main__closure_0__BB29", 1%N)], [("THREAD_0_END", 1%N)]);
     ("main__closure_1__DROP_22", [("main__closure_1__BB22", 1%N)], [("MUTEX_1", 1%N); ("main__closure_1__BB23", 1%N)]);
     ("main__closure_1__DROP_23", [("main__closure_1__BB23", 1%N)], [("MUTEX_0", 1%N); ("main__closure_1__BB24", 1%N)]);
     ("main__closure_1__DROP_24", [("main__closure_1__BB24", 1%N)], [("main__closure_1__BB25", 1%N)]);
     ("main__closure_1__DROP_26", [("main__closure_1__BB26", 1%N)], [("MUTEX_1", 1%N); ("main__closure_1__BB27", 1%N)]);
     ("main__closure_1__DROP_27", [("main__closure_1__BB27", 1%N)], [("MUTEX_0", 1%N); ("main__closure_1__BB28", 1%N)]);
     ("main__closure_1__DROP_28", [("main__closure_1__BB28", 1%N)], [("main__closure_1__BB29", 1%N)]);
     ("main__closure_1__DROP_UNWIND_22", [("main__closure_1__BB22", 1%N)], [("MUTEX_1", 1%N); ("main__closure_1__BB27", 1%N)]);
     ("main__closure_1__DROP_UNWIND_23", [("main__closure_1__BB23", 1%N)], [("MUTEX_0", 1%N); ("main__closure_1__BB28", 1%N)]);
     ("main__closure_1__RETURN", [("main__closure_1__BB25", 1%N)], [("THREAD_1_END", 1%N)]);
     ("main__closure_1__UNWIND_29", [("main__closure_1__BB29", 1%N)], [("THREAD_1_END", 1%N)]);
     ("main__closure_2__DROP_22", [("main__closure_2__BB22", 1%N)], [("MUTEX_2", 1%N); ("main__closure_2__BB23", 1%N)]);
     ("main__closure_2__DROP_23", [("main__closure_2__BB23", 1%N)], [("MUTEX_1", 1%N); ("main__closure_2__BB24", 1%N)]);
     ("main__closure_2__DROP_24", [("main__closure_2__BB24", 1%N)], [("main__closure_2__BB25", 1%N)]);
     ("main__closure_2__DROP_26", [("main__closure_2__BB26", 1%N)], [("MUTEX_2", 1%N); ("main__closure_2__BB27", 1%N)]);
     ("main__closure_2__DROP_27", [("main__closure_2__BB27", 1%N)], [("MUTEX_1", 1%N); ("main__closure_2__BB28", 1%N)]);
     ("main__closure_2__DROP_28", [("main__closure_2__BB28", 1%N)], [("main__closure_2__BB29", 1%N)]);
     ("main__closure_2__DROP_UNWIND_22", [("main__closure_2__BB22", 1%N)], [("MUTEX_2", 1%N); ("main__closure_2__BB27", 1%N)]);
     ("main__closure_2__DROP_UNWIND_23", [("main__closure_2__BB23", 1%N)], [("MUTEX_1", 1%N); ("main__closure_2__BB28", 1%N)]);
     ("main__closure_2__RETURN", [("main__closure_2__BB25", 1%N)], [("THREAD_2_END", 1%N)]);
     ("main__closure_2__UNWIND_29", [("main__closure_2__BB29", 1%N)], [("THREAD_2_END", 1%N)]);
     ("main__closure_3__DROP_22", [("main__closure_3__BB22", 1%N)], [("MUTEX_3", 1%N); ("main__closure_3__BB23", 1%N)]);
     ("main__closure_3__DROP_23", [("main__closure_3__BB23", 1%N)], [("MUTEX_2", 1%N); ("main__closure_3__BB24", 1%N)]);
     ("main__closure_3__DROP_24", [("main__closure_3__BB24", 1%N)], [("main__closure_3__BB25", 1%N)]);
     ("main__closure_3__DROP_26", [("main__closure_3__BB26", 1%N)], [("MUTEX_3", 1%N); ("main__closure_3__BB27", 1%N)]);
     ("main__closure_3__DROP_27", [("main__closure_3__BB27", 1%N)], [("MUTEX_2", 1%N); ("main__closure_3__BB28", 1%N)]);
     ("main__closure_3__DROP_28", [("main__closure_3__BB28", 1%N)], [("main__closure_3__BB29", 1%N)]);
     ("main__closure_3__DROP_UNWIND_22", [("main__closure_3__BB22", 1%N)], [("MUTEX_3", 1%N); ("main__closure_3__BB27", 1%N)]);
     ("main__closure_3__DROP_UNWIND_23", [("main__closure_3__BB23", 1%N)], [("MUTEX_2", 1%N); ("main__closure_3__BB28", 1%N)]);
     ("main__closure_3__RETURN", [("main__closure_3__BB25", 1%N)], [("THREAD_3_END", 1%N)]);
     ("main__closure_3__UNWIND_29", [("main__closure_3__BB29", 1%N)], [("THREAD_3_END", 1%N)]);
     ("main__closure_4__DROP_22", [("main__closure_4__BB22", 1%N)], [("MUTEX_4", 1%N); ("main__closure_4__BB23", 1%N)]);
     ("main__closure_4__DROP_23", [("main__closure_4__BB23", 1%N)], [("MUTEX_3", 1%N); ("main__closure_4__BB24", 1%N)]);
     ("main__closure_4__DROP_24", [("main__closure_4__BB24", 1%N)], [("main__closure_4__BB25", 1%N)]);
     ("main__closure_4__DROP_26", [("main__closure_4__BB26", 1%N)], [("MUTEX_4", 1%N); ("main__closure_4__BB27", 1%N)]);
     ("main__closure_4__DROP_27", [("main__closure_4__BB27", 1%N)], [("MUTEX_3", 1%N); ("main__closure_4__BB28", 1%N)]);
     ("main__closure_4__DROP_28", [("main__closure_4__BB28", 1%N)], [("main__closure_4__BB29", 1%N)]);
     ("main__closure_4__DROP_UNWIND_22", [("main__closure_4__BB22", 1%N)], [("MUTEX_4", 1%N); ("main__closure_4__BB27", 1%N)]);
     ("main__closure_4__DROP_UNWIND_23", [("main__closure_4__BB23", 1%N)], [("MUTEX_3", 1%N); ("main__closure_4__BB28", 1%N)]);
     ("main__closure_4__RETURN", [("main__closure_4__BB25", 1%N)], [("THREAD_4_END", 1%N)]);
     ("main__closure_4__UNWIND_29", [("main__closure_4__BB29", 1%N)], [("THREAD_4_END", 1%N)]);
     ("std_clone_Clone_clone_0_CALL", [("main_BB10", 1%N)], [("main_BB11", 1%N)]);
     ("std_clone_Clone_clone_0_CALL_UNWIND", [("main_BB10", 1%N)], [("main_BB45", 1%N)]);
     ("std_clone_Clone_clone_1_CALL", [("main_BB11", 1%N)], [("main_BB12", 1%N)]);
     ("std_clone_Clone_clone_1_CALL_UNWIND", [("main_BB11", 1%N)], [("main_BB66", 1%N)]);
     ("std_clone_Clone_clone_2_CALL", [("main_BB13", 1%N)], [("main_BB14", 1%N)]);
     ("std_clone_Clone_clone_2_CALL_UNWIND", [("main_BB13", 1%N)], [("main_BB44", 1%N)]);
     ("std_clone_Clone_clone_3_CALL", [("main_BB14", 1%N)], [("main_BB15", 1%N)]);
     ("std_clone_Clone_clone_3_CALL_UNWIND", [("main_BB14", 1%N)], [("main_BB63", 1%N)]);
     ("std_clone_Clone_clone_4_CALL", [("main_BB16", 1%N)], [("main_BB17", 1%N)]);
     ("std_clone_Clone_clone_4_CALL_UNWIND", [("main_BB16", 1%N)], [("main_BB43", 1%N)]);
     ("std_clone_Clone_clone_5_CALL", [("main_BB17", 1%N)], [("main_BB18", 1%N)]);
     ("std_clone_Clone_clone_5_CALL_UNWIND", [("main_BB17", 1%N)], [("main_BB60", 1%N)]);
     ("std_clone_Clone_clone_6_CALL", [("main_BB19", 1%N)], [("main_BB20", 1%N)]);
     ("std_clone_Clone_clone_6_CALL_UNWIND", [("main_BB19", 1%N)], [("main_BB42", 1%N)]);
     ("std_clone_Clone_clone_7_CALL", [("main_BB20", 1%N)], [("main_BB21", 1%N)]);
     ("std_clone_Clone_clone_7_CALL_UNWIND", [("main_BB20", 1%N)], [("main_BB57", 1%N)]);
     ("std_clone_Clone_clone_8_CALL", [("main_BB22", 1%N)], [("main_BB23", 1%N)]);
     ("std_clone_Clone_clone_8_CALL_UNWIND", [("main_BB22", 1%N)], [("main_BB41", 1%N)]);
     ("std_clone_Clone_clone_9_CALL", [("main_BB23", 1%N)], [("main_BB24", 1%N)]);
     ("std_clone_Clone_clone_9_CALL_UNWIND", [("main_BB23", 1%N)], [("main_BB54", 1%N)]);
     ("std_fmt_Arguments_a_new_const_0_CALL", [("THREAD_0_START", 1%N)], [("main__closure_0__BB1", 1%N)]);
     ("std_fmt_Arguments_a_new_const_0_CALL_UNWIND", [("THREAD_0_START", 1%N)], [("main__closure_0__BB28", 1%N)]);
     ("std_fmt_Arguments_a_new_const_10_CALL", [("main__closure_3__BB16", 1%N)], [("main__closure_3__BB17", 1%N)]);
     ("std_fmt_Arguments_a_new_const_10_CALL_UNWIND", [("main__closure_3__BB16", 1%N)], [("main__closure_3__BB26", 1%N)]);
     ("std_fmt_Arguments_a_new_const_11_CALL", [("main__closure_3__BB20", 1%N)], [("main__closure_3__BB21", 1%N)]);
     ("std_fmt_Arguments_a_new_const_11_CALL_UNWIND", [("main__closure_3__BB20", 1%N)], [("main__closure_3__BB26", 1%N)]);
     ("std_fmt_Arguments_a_new_const_12_CALL", [("THREAD_4_START", 1%N)], [("main__closure_4__BB1", 1%N)]);
     ("std_fmt_Arguments_a_new_const_12_CALL_UNWIND", [("THREAD_4_START", 1%N)], [("main__closure_4__BB28", 1%N)]);
     ("std_fmt_Arguments_a_new_const_13_CALL", [("main__closure_4__BB16", 1%N)], [("main__closure_4__BB17", 1%N)]);
     ("std_fmt_Arguments_a_new_const_13_CALL_UNWIND", [("main__closure_4__BB16", 1%N)], [("main__closure_4__BB26", 1%N)]);
     ("std_fmt_Arguments_a_new_const_14_CALL", [("main__closure_4__BB20", 1%N)], [("main__closure_4__BB21", 1%N)]);
     ("std_fmt_Arguments_a_new_const_14_CALL_UNWIND", [("main__closure_4__BB20", 1%N)], [("main__closure_4__BB26", 1%N)]);
     ("std_fmt_Arguments_a_new_const_1_CALL", [("main__closure_0__BB16", 1%N)], [("main__closure_0__BB17", 1%N)]);
     ("std_fmt_Arguments_a_new_const_1_CALL_UNWIND", [("main__closure_0__BB16", 1%N)], [("main__closure_0__BB26", 1%N)]);
     ("std_fmt_Arguments_a_new_const_2_CALL", [("main__closure_0__BB20", 1%N)], [("main__closure_0__BB21", 1%N)]);
     ("std_fmt_Arguments_a_new_const_2_CALL_UNWIND", [("main__closure_0__BB20", 1%N)], [("main__closure_0__BB26", 1%N)]);
     ("std_fmt_Arguments_a_new_const_3_CALL", [("THREAD_1_START", 1%N)], [("main__closure_1__BB1", 1%N)]);
     ("std_fmt_Arguments_a_new_const_3_CALL_UNWIND", [("THREAD_1_START", 1%N)], [("main__closure_1__BB28", 1%N)]);
     ("std_fmt_Arguments_a_new_const_4_CALL", [("main__closure_1__BB16", 1%N)], [("main__closure_1__BB17", 1%N)]);
     ("std_fmt_Arguments_a_new_const_4_CALL_UNWIND", [("main__closure_1__BB16", 1%N)], [("main__closure_1__BB26", 1%N)]);
     ("std_fmt_Arguments_a_new_const_5_CALL", [("main__closure_1__BB20", 1%N)], [("main__closure_1__BB21", 1%N)]);
     ("std_fmt_Arguments_a_new_const_5_CALL_UNWIND", [("main__closure_1__BB20", 1%N)], [("main__closure_1__BB26", 1%N)]);
     ("std_fmt_Arguments_a_new_const_6_CALL", [("THREAD_2_START", 1%N)], [("main__closure_2__BB1", 1%N)]);
     ("std_fmt_Arguments_a_new_const_6_CALL_UNWIND", [("THREAD_2_START", 1%N)], [("main__closure_2__BB28", 1%N)]);
     ("std_fmt_Arguments_a_new_const_7_CALL", [("main__closure_2__BB16", 1%N)], [("main__closure_2__BB17", 1%N)]);
     ("std_fmt_Arguments_a_new_const_7_CALL_UNWIND", [("main__closure_2__BB16", 1%N)], [("main__closure_2__BB26", 1%N)]);
     ("std_fmt_Arguments_a_new_const_8_CALL", [("main__closure_2__BB20", 1%N)], [("main__closure_2__BB21", 1%N)]);
     ("std_fmt_Arguments_a_new_const_8_CALL_UNWIND", [("main__closure_2__BB20", 1%N)], [("main__closure_2__BB26", 1%N)]);
     ("std_fmt_Arguments_a_new_const_9_CALL", [("THREAD_3_START", 1%N)], [("main__closure_3__BB1", 1%N)]);
     ("std_fmt_Arguments_a_new_const_9_CALL_UNWIND", [("THREAD_3_START", 1%N)], [("main__closure_3__BB28", 1%N)]);
     ("std_fmt_Arguments_a_new_v1_0_CALL", [("main__closure_0__BB8", 1%N)], [("main__closure_0__BB9", 1%N)]);
     ("std_fmt_Arguments_a_new_v1_0_CALL_UNWIND", [("main__closure_0__BB8", 1%N)], [("main__closure_0__BB27", 1%N)]);
     ("std_fmt_Arguments_a_new_v1_1_CALL", [("main__closure_0__BB14", 1%N)], [("main__closure_0__BB15", 1%N)]);
     ("std_fmt_Arguments_a_new_v1_1_CALL_UNWIND", [("main__closure_0__BB14", 1%N)], [("main__closure_0__BB26", 1%N)]);
     ("std_fmt_Arguments_a_new_v1_2_CALL", [("main__closure_1__BB8", 1%N)], [("main__closure_1__BB9", 1%N)]);
     ("std_fmt_Arguments_a_new_v1_2_CALL_UNWIND", [("main__closure_1__BB8", 1%N)], [("main__closure_1__BB27", 1%N)]);
     ("std_fmt_Arguments_a_new_v1_3_CALL", [("main__closure_1__BB14", 1%N)], [("main__closure_1__BB15", 1%N)]);
     ("std_fmt_Arguments_a_new_v1_3_CALL_UNWIND", [("main__closure_1__BB14", 1%N)], [("main__closure_1__BB26", 1%N)]);
     ("std_fmt_Arguments_a_new_v1_4_CALL", [("main__closure_2__BB8", 1%N)], [("main__closure_2__BB9", 1%N)]);
     ("std_fmt_Arguments_a_new_v1_4_CALL_UNWIND", [("main__closure_2__BB8", 1%N)], [("main__closure_2__BB27", 1%N)]);
     ("std_fmt_Arguments_a_new_v1_5_CALL", [("main__closure_2__BB14", 1%N)], [("main__closure_2__BB15", 1%N)]);
     ("std_fmt_Arguments_a_new_v1_5_CALL_UNWIND", [("main__closure_2__BB14", 1%N)], [("main__closure_2__BB26", 1%N)]);
     ("std_fmt_Arguments_a_new_v1_6_CALL", [("main__closure_3__BB8", 1%N)], [("main__closure_3__BB9", 1%N)]);
     ("std_fmt_Arguments_a_new_v1_6_CALL_UNWIND", [("main__closure_3__BB8", 1%N)], [("main__closure_3__BB27", 1%N)]);
     ("std_fmt_Arguments_a_new_v1_7_CALL", [("main__closure_3__BB14", 1%N)], [("main__closure_3__BB15", 1%N)]);
     ("std_fmt_Arguments_a_new_v1_7_CALL_UNWIND", [("main__closure_3__BB14", 1%N)], [("main__closure_3__BB26", 1%N)]);
     ("std_fmt_Arguments_a_new_v1_8_CALL", [("main__closure_4__BB8", 1%N)], [("main__closure_4__BB9", 1%N)]);
     ("std_fmt_Arguments_a_new_v1_8_CALL_UNWIND", [("main__closure_4__BB8", 1%N)], [("main__closure_4__BB27", 1%N)]);
     ("std_fmt_Arguments_a_new_v1_9_CALL", [("main__closure_4__BB14", 1%N)], [("main__closure_4__BB15", 1%N)]);
     ("std_fmt_Arguments_a_new_v1_9_CALL_UNWIND", [("main__closure_4__BB14", 1%N)], [("main__closure_4__BB26", 1%N)]);
     ("std_io__print_0_CALL", [("main__closure_0__BB1", 1%N)], [("main__closure_0__BB2", 1%N)]);
     ("std_io__print_0_CALL_UNWIND", [("main__closure_0__BB1", 1%N)], [("main__closure_0__BB28", 1%N)]);
     ("std_io__print_10_CALL", [("main__closure_2__BB1", 1%N)], [("main__closure_2__BB2", 1%N)]);
     ("std_io__print_10_CALL_UNWIND", [("main__closure_2__BB1", 1%N)], [("main__closure_2__BB28", 1%N)]);
     ("std_io__print_11_CALL", [("main__closure_2__BB9", 1%N)], [("main__closure_2__BB10", 1%N)]);
     ("std_io__print_11_CALL_UNWIND", [("main__closure_2__BB9", 1%N)], [("main__closure_2__BB27", 1%N)]);
     ("std_io__print_12_CALL", [("main__closure_2__BB15", 1%N)], [("main__closure_2__BB16", 1%N)]);
     ("std_io__print_12_CALL_UNWIND", [("main__closure_2__BB15", 1%N)], [("main__closure_2__BB26", 1%N)]);
     ("std_io__print_13_CALL", [("main__closure_2__BB17", 1%N)], [("main__closure_2__BB18", 1%N)]);
     ("std_io__print_13_CALL_UNWIND", [("main__closure_2__BB17", 1%N)], [("main__closure_2__BB26", 1%N)]);
     ("std_io__print_14_CALL", [("main__closure_2__BB21", 1%N)], [("main__closure_2__BB22", 1%N)]);
     ("std_io__print_14_CALL_UNWIND", [("main__closure_2__BB21", 1%N)], [("main__closure_2__BB26", 1%N)]);
     ("std_io__print_15_CALL", [("main__closure_3__BB1", 1%N)], [("main__closure_3__BB2", 1%N)]);
     ("std_io__print_15_CALL_UNWIND", [("main__closure_3__BB1", 1%N)], [("main__closure_3__BB28", 1%N)]);
     ("std_io__print_16_CALL", [("main__closure_3__BB9", 1%N)], [("main__closure_3__BB10", 1%N)]);
     ("std_io__print_16_CALL_UNWIND", [("main__closure_3__BB9", 1%N)], [("main__closure_3__BB27", 1%N)]);
     ("std_io__print_17_CALL", [("main__closure_3__BB15", 1%N)], [("main__closure_3__BB16", 1%N)]);
     ("std_io__print_17_CALL_UNWIND", [("main__closure_3__BB15", 1%N)], [("main__closure_3__BB26", 1%N)]);
     ("std_io__print_18_CALL", [("main__closure_3__BB17", 1%N)], [("main__closure_3__BB18", 1%N)]);
     ("std_io__print_18_CALL_UNWIND", [("main__closure_3__BB17", 1%N)], [("main__closure_3__BB26", 1%N)]);
     ("std_io__print_19_CALL", [("main__closure_3__BB21", 1%N)], [("main__closure_3__BB22", 1%N)]);
     ("std_io__print_19_CALL_UNWIND", [("main__closure_3__BB21", 1%N)], [("main__closure_3__BB26", 1%N)]);
     ("std_io__print_1_CALL", [("main__closure_0__BB9", 1%N)], [("main__closure_0__BB10", 1%N)]);
     ("std_io__print_1_CALL_UNWIND", [("main__closure_0__BB9", 1%N)], [("main__closure_0__BB27", 1%N)]);
     ("std_io__print_20_CALL", [("main__closure_4__BB1", 1%N)], [("main__closure_4__BB2", 1%N)]);
     ("std_io__print_20_CALL_UNWIND", [("main__closure_4__BB1", 1%N)], [("main__closure_4__BB28", 1%N)]);
     ("std_io__print_21_CALL", [("main__closure_4__BB9", 1%N)], [("main__closure_4__BB10", 1%N)]);
     ("std_io__print_21_CALL_UNWIND", [("main__closure_4__BB9", 1%N)], [("main__closure_4__BB27", 1%N)]);
     ("std_io__print_22_CALL", [("main__closure_4__BB15", 1%N)], [("main__closure_4__BB16", 1%N)]);
     ("std_io__print_22_CALL_UNWIND", [("main__closure_4__BB15", 1%N)], [("main__closure_4__BB26", 1%N)]);
     ("std_io__print_23_CALL", [("main__closure_4__BB17", 1%N)], [("main__closure_4__BB18", 1%N)]);
     ("std_io__print_23_CALL_UNWIND", [("main__closure_4__BB17", 1%N)], [("main__closure_4__BB26", 1%N)]);
     ("std_io__print_24_CALL", [("main__closure_4__BB21", 1%N)], [("main__closure_4__BB22", 1%N)]);
     ("std_io__print_24_CALL_UNWIND", [("main__closure_4__BB21", 1%N)], [("main__closure_4__BB26", 1%N)]);
     ("std_io__print_2_CALL", [("main__closure_0__BB15", 1%N)], [("main__closure_0__BB16", 1%N)]);
     ("std_io__print_2_CALL_UNWIND", [("main__closure_0__BB15", 1%N)], [("main__closure_0__BB26", 1%N)]);
     ("std_io__print_3_CALL", [("main__closure_0__BB17", 1%N)], [("main__closure_0__BB18", 1%N)]);
     ("std_io__print_3_CALL_UNWIND", [("main__closure_0__BB17", 1%N)], [("main__closure_0__BB26", 1%N)]);
     ("std_io__print_4_CALL", [("main__closure_0__BB21", 1%N)], [("main__closure_0__BB22", 1%N)]);
     ("std_io__print_4_CALL_UNWIND", [("main__closure_0__BB21", 1%N)], [("main__closure_0__BB26", 1%N)]);
     ("std_io__print_5_CALL", [("main__closure_1__BB1", 1%N)], [("main__closure_1__BB2", 1%N)]);
     ("std_io__print_5_CALL_UNWIND", [("main__closure_1__BB1", 1%N)], [("main__closure_1__BB28", 1%N)]);
     ("std_io__print_6_CALL", [("main__closure_1__BB9", 1%N)], [("main__closure_1__BB10", 1%N)]);
     ("std_io__print_6_CALL_UNWIND", [("main__closure_1__BB9", 1%N)], [("main__closure_1__BB27", 1%N)]);
     ("std_io__print_7_CALL", [("main__closure_1__BB15", 1%N)], [("main__closure_1__BB16", 1%N)]);
     ("std_io__print_7_CALL_UNWIND", [("main__closure_1__BB15", 1%N)], [("main__closure_1__BB26", 1%N)]);
     ("std_io__print_8_CALL", [("main__closure_1__BB17", 1%N)], [("main__closure_1__BB18", 1%N)]);
     ("std_io__print_8_CALL_UNWIND", [("main__closure_1__BB17", 1%N)], [("main__closure_1__BB26", 1%N)]);
     ("std_io__print_9_CALL", [("main__closure_1__BB21", 1%N)], [("main__closure_1__BB22", 1%N)]);
     ("std_io__print_9_CALL_UNWIND", [("main__closure_1__BB21", 1%N)], [("main__closure_1__BB26", 1%N)]);
     ("std_ops_Deref_deref_0_CALL", [("main__closure_0__BB4", 1%N)], [("main__closure_0__BB5", 1%N)]);
     ("std_ops_Deref_deref_1_CALL", [("main__closure_0__BB10", 1%N)], [("main__closure_0__BB11", 1%N)]);
     ("std_ops_Deref_deref_2_CALL", [("main__closure_1__BB4", 1%N)], [("main__closure_1__BB5", 1%N)]);
     ("std_ops_Deref_deref_3_CALL", [("main__closure_1__BB10", 1%N)], [("main__closure_1__BB11", 1%N)]);
     ("std_ops_Deref_deref_4_CALL", [("main__closure_2__BB4", 1%N)], [("main__closure_2__BB5", 1%N)]);
     ("std_ops_Deref_deref_5_CALL", [("main__closure_2__BB10", 1%N)], [("main__closure_2__BB11", 1%N)]);
     ("std_ops_Deref_deref_6_CALL", [("main__closure_3__BB4", 1%N)], [("main__closure_3__BB5", 1%N)]);
     ("std_ops_Deref_deref_7_CALL", [("main__closure_3__BB10", 1%N)], [("main__closure_3__BB11", 1%N)]);
     ("std_ops_Deref_deref_8_CALL", [("main__closure_4__BB4", 1%N)], [("main__closure_4__BB5", 1%N)]);
     ("std_ops_Deref_deref_9_CALL", [("main__closure_4__BB10", 1%N)], [("main__closure_4__BB11", 1%N)]);
     ("std_result_Result_unwrap_0_CALL", [("main_BB26", 1%N)], [("main_BB27", 1%N)]);
     ("std_result_Result_unwrap_0_CALL_UNWIND", [("main_BB26", 1%N)], [("main_BB52", 1%N)]);
     ("std_result_Result_unwrap_10_CALL", [("main__closure_2__BB12", 1%N)], [("main__closure_2__BB13", 1%N)]);
     ("std_result_Result_unwrap_11_CALL", [("main__closure_3__BB6", 1%N)], [("main__closure_3__BB7", 1%N)]);
     ("std_result_Result_unwrap_12_CALL", [("main__closure_3__BB12", 1%N)], [("main__closure_3__BB13", 1%N)]);
     ("std_result_Result_unwrap_13_CALL", [("main__closure_4__BB6", 1%N)], [("main__closure_4__BB7", 1%N)]);
     ("std_result_Result_unwrap_14_CALL", [("main__closure_4__BB12", 1%N)], [("main__closure_4__BB13", 1%N)]);
     ("std_result_Result_unwrap_1_CALL", [("main_BB28", 1%N)], [("main_BB29", 1%N)]);
     ("std_result_Result_unwrap_1_CALL_UNWIND", [("main_BB28", 1%N)], [("main_BB52", 1%N)]);
     ("std_result_Result_unwrap_2_CALL", [("main_BB30", 1%N)], [("main_BB31", 1%N)]);
     ("std_result_Result_unwrap_2_CALL_UNWIND", [("main_BB30", 1%N)], [("main_BB52", 1%N)]);
     ("std_result_Result_unwrap_3_CALL", [("main_BB32", 1%N)], [("main_BB33", 1%N)]);
     ("std_result_Result_unwrap_3_CALL_UNWIND", [("main_BB32", 1%N)], [("main_BB52", 1%N)]);
     ("std_result_Result_unwrap_4_CALL", [("main_BB34", 1%N)], [("main_BB35", 1%N)]);
     ("std_result_Result_unwrap_4_CALL_UNWIND", [("main_BB34", 1%N)], [("main_BB52", 1%N)]);
     ("std_result_Result_unwrap_5_CALL", [("main__closure_0__BB6", 1%N)], [("main__closure_0__BB7", 1%N)]);
     ("std_result_Result_unwrap_6_CALL", [("main__closure_0__BB12", 1%N)], [("main__closure_0__BB13", 1%N)]);
     ("std_result_Result_unwrap_7_CALL", [("main__closure_1__BB6", 1%N)], [("main__closure_1__BB7", 1%N)]);
     ("std_result_Result_unwrap_8_CALL", [("main__closure_1__BB12", 1%N)], [("main__closure_1__BB13", 1%N)]);
     ("std_result_Result_unwrap_9_CALL", [("main__closure_2__BB6", 1%N)], [("main__closure_2__BB7", 1%N)]);
     ("std_sync_Arc_T_new_0_CALL", [("main_BB1", 1%N)], [("main_BB2", 1%N)]);
     ("std_sync_Arc_T_new_1_CALL", [("main_BB3", 1%N)], [("main_BB4", 1%N)]);
     ("std_sync_Arc_T_new_1_CALL_UNWIND", [("main_BB3", 1%N)], [("main_BB49", 1%N)]);
     ("std_sync_Arc_T_new_2_CALL", [("main_BB5", 1%N)], [("main_BB6", 1%N)]);
     ("std_sync_Arc_T_new_2_CALL_UNWIND", [("main_BB5", 1%N)], [("main_BB48", 1%N)]);
     ("std_sync_Arc_T_new_3_CALL", [("main_BB7", 1%N)], [("main_BB8", 1%N)]);
     ("std_sync_Arc_T_new_3_CALL_UNWIND", [("main_BB7", 1%N)], [("main_BB47", 1%N)]);
     ("std_sync_Arc_T_new_4_CALL", [("main_BB9", 1%N)], [("main_BB10", 1%N)]);
     ("std_sync_Arc_T_new_4_CALL_UNWIND", [("main_BB9", 1%N)], [("main_BB46", 1%N)]);
     ("std_sync_Mutex_T_lock_0_CALL", [("MUTEX_4", 1%N); ("main__closure_0__BB5", 1%N)], [("main__closure_0__BB6", 1%N)]);
     ("std_sync_Mutex_T_lock_1_CALL", [("MUTEX_0", 1%N); ("main__closure_0__BB11", 1%N)], [("main__closure_0__BB12", 1%N)]);
     ("std_sync_Mutex_T_lock_2_CALL", [("MUTEX_0", 1%N); ("main__closure_1__BB5", 1%N)], [("main__closure_1__BB6", 1%N)]);
     ("std_sync_Mutex_T_lock_3_CALL", [("MUTEX_1", 1%N); ("main__closure_1__BB11", 1%N)], [("main__closure_1__BB12", 1%N)]);
     ("std_sync_Mutex_T_lock_4_CALL", [("MUTEX_1", 1%N); ("main__closure_2__BB5", 1%N)], [("main__closure_2__BB6", 1%N)]);
     ("std_sync_Mutex_T_lock_5_CALL", [("MUTEX_2", 1%N); ("main__closure_2__BB11", 1%N)], [("main__closure_2__BB12", 1%N)]);
     ("std_sync_Mutex_T_lock_6_CALL", [("MUTEX_2", 1%N); ("main__closure_3__BB5", 1%N)], [("main__closure_3__BB6", 1%N)]);
     ("std_sync_Mutex_T_lock_7_CALL", [("MUTEX_3", 1%N); ("main__closure_3__BB11", 1%N)], [("main__closure_3__BB12", 1%N)]);
     ("std_sync_Mutex_T_lock_8_CALL", [("MUTEX_3", 1%N); ("main__closure_4__BB5", 1%N)], [("main__closure_4__BB6", 1%N)]);
     ("std_sync_Mutex_T_lock_9_CALL", [("MUTEX_4", 1%N); ("main__closure_4__BB11", 1%N)], [("main__closure_4__BB12", 1%N)]);
     ("std_sync_Mutex_T_new_0_CALL", [("PROGRAM_START", 1%N)], [("main_BB1", 1%N)]);
     ("std_sync_Mutex_T_new_1_CALL", [("main_BB2", 1%N)], [("main_BB3", 1%N)]);
     ("std_sync_Mutex_T_new_1_CALL_UNWIND", [("main_BB2", 1%N)], [("main_BB49", 1%N)]);
     ("std_sync_Mutex_T_new_2_CALL", [("main_BB4", 1%N)], [("main_BB5", 1%N)]);
     ("std_sync_Mutex_T_new_2_CALL_UNWIND", [("main_BB4", 1%N)], [("main_BB48", 1%N)]);
     ("std_sync_Mutex_T_new_3_CALL", [("main_BB6", 1%N)], [("main_BB7", 1%N)]);
     ("std_sync_Mutex_T_new_3_CALL_UNWIND", [("main_BB6", 1%N)], [("main_BB47", 1%N)]);
     ("std_sync_Mutex_T_new_4_CALL", [("main_BB8", 1%N)], [("main_BB9", 1%N)]);
     ("std_sync_Mutex_T_new_4_CALL_UNWIND", [("main_BB8", 1%N)], [("main_BB46", 1%N)]);
     ("std_thread_JoinHandle_T_join_0_CALL", [("THREAD_0_END", 1%N); ("main_BB25", 1%N)], [("main_BB26", 1%N)]);
     ("std_thread_JoinHandle_T_join_1_CALL", [("THREAD_1_END", 1%N); ("main_BB27", 1%N)], [("main_BB28", 1%N)]);
     ("std_thread_JoinHandle_T_join_2_CALL", [("THREAD_2_END", 1%N); ("main_BB29", 1%N)], [("main_BB30", 1%N)]);
     ("std_thread_JoinHandle_T_join_3_CALL", [("THREAD_3_END", 1%N); ("main_BB31", 1%N)], [("main_BB32", 1%N)]);
     ("std_thread_JoinHandle_T_join_4_CALL", [("THREAD_4_END", 1%N); ("main_BB33", 1%N)], [("main_BB34", 1%N)]);
     ("std_thread_sleep_0_CALL", [("main__closure_0__BB3", 1%N)], [("main__closure_0__BB4", 1%N)]);
     ("std_thread_sleep_0_CALL_UNWIND", [("main__closure_0__BB3", 1%N)], [("main__closure_0__BB28", 1%N)]);
     ("std_thread_sleep_1_CALL", [("main__closure_0__BB19", 1%N)], [("main__closure_0__BB20", 1%N)]);
     ("std_thread_sleep_1_CALL_UNWIND", [("main__closure_0__BB19", 1%N)], [("main__closure_0__BB26", 1%N)]);
     ("std_thread_sleep_2_CALL", [("main__closure_1__BB3", 1%N)], [("main__closure_1__BB4", 1%N)]);
     ("std_thread_sleep_2_CALL_UNWIND", [("main__closure_1__BB3", 1%N)], [("main__closure_1__BB28", 1%N)]);
     ("std_thread_sleep_3_CALL", [("main__closure_1__BB19", 1%N)], [("main__closure_1__BB20", 1%N)]);
     ("std_thread_sleep_3_CALL_UNWIND", [("main__closure_1__BB19", 1%N)], [("main__closure_1__BB26", 1%N)]);
     ("std_thread_sleep_4_CALL", [("main__closure_2__BB3", 1%N)], [("main__closure_2__BB4", 1%N)]);
     ("std_thread_sleep_4_CALL_UNWIND", [("main__closure_2__BB3", 1%N)], [("main__closure_2__BB28", 1%N)]);
     ("std_thread_sleep_5_CALL", [("main__closure_2__BB19", 1%N)], [("main__closure_2__BB20", 1%N)]);
     ("std_thread_sleep_5_CALL_UNWIND", [("main__closure_2__BB19", 1%N)], [("main__closure_2__BB26", 1%N)]);
     ("std_thread_sleep_6_CALL", [("main__closure_3__BB3", 1%N)], [("main__closure_3__BB4", 1%N)]);
     ("std_thread_sleep_6_CALL_UNWIND", [("main__closure_3__BB3", 1%N)], [("main__closure_3__BB28", 1%N)]);
     ("std_thread_sleep_7_CALL", [("main__closure_3__BB19", 1%N)], [("main__closure_3__BB20", 1%N)]);
     ("std_thread_sleep_7_CALL_UNWIND", [("main__closure_3__BB19", 1%N)], [("main__closure_3__BB26", 1%N)]);
     ("std_thread_sleep_8_CALL", [("main__closure_4__BB3", 1%N)], [("main__closure_4__BB4", 1%N)]);
     ("std_thread_sleep_8_CALL_UNWIND", [("main__closure_4__BB3", 1%N)], [("main__closure_4__BB28", 1%N)]);
     ("std_thread_sleep_9_CALL", [("main__closure_4__BB19", 1%N)], [("main__closure_4__BB20", 1%N)]);
     ("std_thread_sleep_9_CALL_UNWIND", [("main__closure_4__BB19", 1%N)], [("main__closure_4__BB26", 1%N)]);
     ("std_thread_spawn_0_CALL", [("main_BB12", 1%N)], [("THREAD_0_START", 1%N); ("main_BB13", 1%N)]);
     ("std_thread_spawn_0_CALL_UNWIND", [("main_BB12", 1%N)], [("main_BB66", 1%N)]);
     ("std_thread_spawn_1_CALL", [("main_BB15", 1%N)], [("THREAD_1_START", 1%N); ("main_BB16", 1%N)]);
     ("std_thread_spawn_1_CALL_UNWIND", [("main_BB15", 1%N)], [("main_BB63", 1%N)]);
     ("std_thread_spawn_2_CALL", [("main_BB18", 1%N)], [("THREAD_2_START", 1%N); ("main_BB19", 1%N)]);
     ("std_thread_spawn_2_CALL_UNWIND", [("main_BB18", 1%N)], [("main_BB60", 1%N)]);
     ("std_thread_spawn_3_CALL", [("main_BB21", 1%N)], [("THREAD_3_START", 1%N); ("main_BB22", 1%N)]);
     ("std_thread_spawn_3_CALL_UNWIND", [("main_BB21", 1%N)], [("main_BB57", 1%N)]);
     ("std_thread_spawn_4_CALL", [("main_BB24", 1%N)], [("THREAD_4_START", 1%N); ("main_BB25", 1%N)]);
     ("std_thread_spawn_4_CALL_UNWIND", [("main_BB24", 1%N)], [("main_BB54", 1%N)]);
     ("std_time_Duration_from_secs_0_CALL", [("main__closure_0__BB2", 1%N)], [("main__closure_0__BB3", 1%N)]);
     ("std_time_Duration_from_secs_0_CALL_UNWIND", [("main__closure_0__BB2", 1%N)], [("main__closure_0__BB28", 1%N)]);
     ("std_time_Duration_from_secs_1_CALL", [("main__closure_0__BB18", 1%N)], [("main__closure_0__BB19", 1%N)]);
     ("std_time_Duration_from_secs_1_CALL_UNWIND", [("main__closure_0__BB18", 1%N)], [("main__closure_0__BB26", 1%N)]);
     ("std_time_Duration_from_secs_2_CALL", [("main__closure_1__BB2", 1%N)], [("main__closure_1__BB3", 1%N)]);
     ("std_time_Duration_from_secs_2_CALL_UNWIND", [("main__closure_1__BB2", 1%N)], [("main__closure_1__BB28", 1%N)]);
     ("std_time_Duration_from_secs_3_CALL", [("main__closure_1__BB18", 1%N)], [("main__closure_1__BB19", 1%N)]);
     ("std_time_Duration_from_secs_3_CALL_UNWIND", [("main__closure_1__BB18", 1%N)], [("main__closure_1__BB26", 1%N)]);
     ("std_time_Duration_from_secs_4_CALL", [("main__closure_2__BB2", 1%N)], [("main__closure_2__BB3", 1%N)]);
     ("std_time_Duration_from_secs_4_CALL_UNWIND", [("main__closure_2__BB2", 1%N)], [("main__closure_2__BB28", 1%N)]);
     ("std_time_Duration_from_secs_5_CALL", [("main__closure_2__BB18", 1%N)], [("main__closure_2__BB19", 1%N)]);
     ("std_time_Duration_from_secs_5_CALL_UNWIND", [("main__closure_2__BB18", 1%N)], [("main__closure_2__BB26", 1%N)]);
     ("std_time_Duration_from_secs_6_CALL", [("main__closure_3__BB2", 1%N)], [("main__closure_3__BB3", 1%N)]);
     ("std_time_Duration_from_secs_6_CALL_UNWIND", [("main__closure_3__BB2", 1%N)], [("main__closure_3__BB28", 1%N)]);
     ("std_time_Duration_from_secs_7_CALL", [("main__closure_3__BB18", 1%N)], [("main__closure_3__BB19", 1%N)]);
     ("std_time_Duration_from_secs_7_CALL_UNWIND", [("main__closure_3__BB18", 1%N)], [("main__closure_3__BB26", 1%N)]);
     ("std_time_Duration_from_secs_8_CALL", [("main__closure_4__BB2", 1%N)], [("main__closure_4__BB3", 1%N)]);
     ("std_time_Duration_from_secs_8_CALL_UNWIND", [("main__closure_4__BB2", 1%N)], [("main__closure_4__BB28", 1%N)]);
     ("std_time_Duration_from_secs_9_CALL", [("main__closure_4__BB18", 1%N)], [("main__closure_4__BB19", 1%N)]);
     ("std_time_Duration_from_secs_9_CALL_UNWIND", [("main__closure_4__BB18", 1%N)], [("main__closure_4__BB26", 1%N)])]).
