(* ===== verification/ExpectedResults.v ===== *)
(** * The example programs with their expected results

    Every program of examples/programs that has a stored net, with the net and
    the answer that tests/lola.rs expects of the model checker, and the way in
    which that answer is established. *)

From S2P Require Import Prelude RustStr Naming Netcrab NetModel Rustc Translator.
From S2P Require Import Programs ThreadPrograms ConsolePrograms SharedPrograms StoredNets StoredSharedNets Certificates.

(** The programs with their stored nets and expected verdicts: [true] if a
    deadlock can be reached. *)
Definition expected_results : list (Program * Listing * bool) := [
  (empty_main, empty_main_net, false);
  (panic, panic_net, false);
  (abort, abort_net, true);
  (infinite_loop, infinite_loop_net, false);
  (match_stmt, match_stmt_net, false);
  (in_a_loop, in_a_loop_net, false);
  (two_calls_same_function, two_calls_same_function_net, false);
  (double_lock_deadlock, double_lock_deadlock_net, true);
  (double_lock_deadlock_in_function, double_lock_deadlock_in_function_net, true);
  (drop_mutex_guard_manually, drop_mutex_guard_manually_net, false);
  (two_threads_sharing_mutex, two_threads_sharing_mutex_net, false);
  (spawn_with_empty_closure, spawn_with_empty_closure_net, false);
  (detached, detached_net, false);
  (diverging_thread, diverging_thread_net, false);
  (infinite_wait_deadlock, infinite_wait_deadlock_net, true);
  (self_notify_lost_signal, self_notify_lost_signal_net, true);
  (set_condition_before_wait, set_condition_before_wait_net, false);
  (hello_world, hello_world_net, false);
  (greet, greet_net, false);
  (calculator, calculator_net, false);
  (option_stmt, option_stmt_net, false);
  (empty_function, empty_function_net, false);
  (diverging_function, diverging_function_net, true);
  (find_even, find_even_net, false);
  (double_lock_deadlock_with_arc, double_lock_deadlock_with_arc_net, true);
  (drop_mutex_guard_in_arc_manually, drop_mutex_guard_in_arc_manually_net, false);
  (wait, wait_net, false);
  (wait_while, wait_while_net, false);
  (producer_consumer, producer_consumer_net, false);
  (shared_counter, shared_counter_net, false);
  (dating_philosophers, dating_philosophers_net, true);
  (dining_philosophers, dining_philosophers_net, true)].

(** The places of the main thread.  The producer and the consumer are never
    joined, so a token there can always move. *)
Definition of_main (label : string) : bool := String.prefix "main_BB" label || String.prefix "PROGRAM_" label.

(** [main] spawns the philosophers and waits for the first; each of them takes
    the left fork and waits for the right one. *)
Definition everyone_takes_left : list string := [
  "std_sync_Mutex_T_new_0_CALL"; "std_sync_Arc_T_new_0_CALL"; "std_sync_Mutex_T_new_1_CALL";
  "std_sync_Arc_T_new_1_CALL"; "std_sync_Mutex_T_new_2_CALL"; "std_sync_Arc_T_new_2_CALL";
  "std_sync_Mutex_T_new_3_CALL"; "std_sync_Arc_T_new_3_CALL"; "std_sync_Mutex_T_new_4_CALL";
  "std_sync_Arc_T_new_4_CALL"; "std_clone_Clone_clone_0_CALL"; "std_clone_Clone_clone_1_CALL";
  "std_thread_spawn_0_CALL"; "std_clone_Clone_clone_2_CALL"; "std_clone_Clone_clone_3_CALL";
  "std_thread_spawn_1_CALL"; "std_clone_Clone_clone_4_CALL"; "std_clone_Clone_clone_5_CALL";
  "std_thread_spawn_2_CALL"; "std_clone_Clone_clone_6_CALL"; "std_clone_Clone_clone_7_CALL";
  "std_thread_spawn_3_CALL"; "std_clone_Clone_clone_8_CALL"; "std_clone_Clone_clone_9_CALL";
  "std_thread_spawn_4_CALL"; "std_fmt_Arguments_a_new_const_0_CALL"; "std_io__print_0_CALL";
  "std_time_Duration_from_secs_0_CALL"; "std_thread_sleep_0_CALL"; "std_ops_Deref_deref_0_CALL";
  "std_sync_Mutex_T_lock_0_CALL"; "std_result_Result_unwrap_5_CALL";
  "core_fmt_rt_Argument__'___new_display_0_CALL"; "std_fmt_Arguments_a_new_v1_0_CALL";
  "std_io__print_1_CALL"; "std_ops_Deref_deref_1_CALL"; "std_fmt_Arguments_a_new_const_3_CALL";
  "std_io__print_5_CALL"; "std_time_Duration_from_secs_2_CALL"; "std_thread_sleep_2_CALL";
  "std_ops_Deref_deref_2_CALL"; "std_sync_Mutex_T_lock_2_CALL"; "std_result_Result_unwrap_7_CALL";
  "core_fmt_rt_Argument__'___new_display_2_CALL"; "std_fmt_Arguments_a_new_v1_2_CALL";
  "std_io__print_6_CALL"; "std_ops_Deref_deref_3_CALL"; "std_fmt_Arguments_a_new_const_6_CALL";
  "std_io__print_10_CALL"; "std_time_Duration_from_secs_4_CALL"; "std_thread_sleep_4_CALL";
  "std_ops_Deref_deref_4_CALL"; "std_sync_Mutex_T_lock_4_CALL"; "std_result_Result_unwrap_9_CALL";
  "core_fmt_rt_Argument__'___new_display_4_CALL"; "std_fmt_Arguments_a_new_v1_4_CALL";
  "std_io__print_11_CALL"; "std_ops_Deref_deref_5_CALL"; "std_fmt_Arguments_a_new_const_9_CALL";
  "std_io__print_15_CALL"; "std_time_Duration_from_secs_6_CALL"; "std_thread_sleep_6_CALL";
  "std_ops_Deref_deref_6_CALL"; "std_sync_Mutex_T_lock_6_CALL"; "std_result_Result_unwrap_11_CALL";
  "core_fmt_rt_Argument__'___new_display_6_CALL"; "std_fmt_Arguments_a_new_v1_6_CALL";
  "std_io__print_16_CALL"; "std_ops_Deref_deref_7_CALL"; "std_fmt_Arguments_a_new_const_12_CALL";
  "std_io__print_20_CALL"; "std_time_Duration_from_secs_8_CALL"; "std_thread_sleep_8_CALL";
  "std_ops_Deref_deref_8_CALL"; "std_sync_Mutex_T_lock_8_CALL"; "std_result_Result_unwrap_13_CALL";
  "core_fmt_rt_Argument__'___new_display_8_CALL"; "std_fmt_Arguments_a_new_v1_8_CALL";
  "std_io__print_21_CALL"; "std_ops_Deref_deref_9_CALL"].

(** How the verdict of each program is checked, in the order of
    [expected_results]: by visiting all markings unless these are too many. *)
Definition evidence : list Evidence := [
  Search 5000; Search 5000; Search 5000; Search 5000; Search 5000; Search 5000; Search 5000; Search 5000;
  Search 5000; Search 5000; Search 5000; Search 5000; Search 5000; Search 5000; Search 5000; Search 5000;
  Search 5000; Search 5000; Search 5000; Search 5000; Search 5000; Search 5000; Search 5000; Search 5000;
  Search 5000; Search 5000; Search 5000; Search 5000; Progress of_main; Search 5000; Search 5000;
  Schedule everyone_takes_left].
