(* ===== verification/World.v ===== *)
(** * Well-formed worlds and how they evolve

    The invariant of the state shared by all frames ([wf_world]): every
    reference an object holds is a node of the net, every [Rc] names an object.
    And the order in which the state evolves ([world_le X]): the net grows, the
    objects keep their identity, and a transition that no object refers to
    keeps its arcs, except those in [X], the ones the operation was given.

    These two carry all the properties of the translation that follow. *)

From S2P Require Import Prelude Netcrab Rustc Heap.

(** Whether running out of fuel is an acceptable end: it is for the safety
    properties, which hold for every fuel, and not for the termination ones. *)
Class FuelPolicy := fuel_may_run_out : Prop.

(** Faults that an operation may end in: anything but an arc or token that the
    net library refuses, a reference without an object, an empty call stack and
    a block that is missing from its frame or added to it twice. *)
Definition allowed `{FP : FuelPolicy} (f : fault) : Prop :=
  match f with
  | Panic AddArcPlaceTransitionFailed | Panic AddArcTransitionPlaceFailed
  | Panic AddTokenFailed | Dangling
  | Panic PeekOnEmptyStack | Panic PeekMutOnEmptyStack
  | Panic BasicBlockAddedTwice | Panic BasicBlockNotRetrieved
  | Panic TargetBlockNotRetrieved => False
  | OutOfFuel => fuel_may_run_out
  | Panic _ => True
  end.

Section world.
Context `{LL : PetriNetLaws}.
Implicit Types (n : PetriNet) (h : Heap) (w : World) (t : TransitionRef) (p : PlaceRef).

(** A transition that a shared object holds. *)
Definition refd h t : Prop :=
  (∃ m, m ∈ mutexes h ∧ t ∈ deref_mut m) ∨
  (∃ c, c ∈ condvars h ∧ (t = wait_start c ∨ t = notify_received c)) ∨
  (∃ th, th ∈ threads_ h ∧ (t = spawn_transition th ∨ join_transition th = Some t)).

(** References that name an object. *)
Inductive wf_value h : Value → Prop :=
  | wf_VMutex r : mutex_loc r < length (mutexes h) → wf_value h (VMutex r)
  | wf_VMutexGuard r : guard_loc r < length (guards h) → wf_value h (VMutexGuard r)
  | wf_VJoinHandle r : thread_loc r < length (threads_ h) → wf_value h (VJoinHandle r)
  | wf_VCondvar r : condvar_loc r < length (condvars h) → wf_value h (VCondvar r)
  | wf_VAggregate vs : (∀ v, v ∈ vs → wf_value h v) → wf_value h (VAggregate vs).

Definition wf_mutex n (m : Mutex) : Prop :=
  has_place n (mutex m) ∧ ∀ t, t ∈ deref_mut m → has_transition n t.
Definition wf_guard h (g : Guard) : Prop := mutex_loc (guard_mutex g) < length (mutexes h).
Definition wf_condvar n (c : Condvar) : Prop :=
  has_transition n (wait_start c) ∧ has_place n (notify c) ∧ has_transition n (notify_received c).
Definition wf_thread n h (th : Thread) : Prop :=
  has_transition n (spawn_transition th) ∧
  (∀ t, join_transition th = Some t → has_transition n t) ∧
  (∀ v, v ∈ aggregate th → wf_value h v).

Record wf_world w : Prop := {
  wf_mutexes m : m ∈ mutexes (heap w) → wf_mutex (net w) m;
  wf_guards g : g ∈ guards (heap w) → wf_guard (heap w) g;
  wf_condvars c : c ∈ condvars (heap w) → wf_condvar (net w) c;
  wf_threads th : th ∈ threads_ (heap w) → wf_thread (net w) (heap w) th;
}.

(** *** Evolution of the objects *)

Record mutex_le (m m' : Mutex) : Prop := {
  mutex_le_place : mutex m' = mutex m;
  mutex_le_deref : deref_mut m `prefix_of` deref_mut m';
}.
Record condvar_le (c c' : Condvar) : Prop := {
  condvar_le_wait_start : wait_start c' = wait_start c;
  condvar_le_notify : notify c' = notify c;
  condvar_le_notify_received : notify_received c' = notify_received c;
  condvar_le_linked u : already_linked_to_call c = Some u → already_linked_to_call c' = Some u;
}.
Record thread_le (th th' : Thread) : Prop := {
  thread_le_spawn : spawn_transition th' = spawn_transition th;
  thread_le_def_id : thread_def_id th' = thread_def_id th;
  thread_le_aggregate : aggregate th' = aggregate th;
  thread_le_index : thread_index th' = thread_index th;
  thread_le_join t : join_transition th = Some t → join_transition th' = Some t;
}.

#[global] Instance mutex_le_preorder : PreOrder mutex_le.
Proof. split; [done|]. intros x y z [] []. split; [congruence|by etransitivity]. Qed.
#[global] Instance condvar_le_preorder : PreOrder condvar_le.
Proof. split; [done|]. intros x y z [] []. split; try congruence; eauto. Qed.
#[global] Instance thread_le_preorder : PreOrder thread_le.
Proof. split; [done|]. intros x y z [] []. split; try congruence; eauto. Qed.

(** A list of objects evolves: each position keeps its object, and new
    objects are appended. *)
Definition objs_le {A} (R : A → A → Prop) (l l' : list A) : Prop :=
  ∀ i x, l !! i = Some x → ∃ x', l' !! i = Some x' ∧ R x x'.

#[global] Instance objs_le_preorder {A} (R : A → A → Prop) :
  PreOrder R → PreOrder (objs_le R).
Proof.
  intros HR. split.
  - intros l i x Hx. by exists x.
  - intros l1 l2 l3 H12 H23 i x Hx. destruct (H12 _ _ Hx) as (y & Hy & Hxy).
    destruct (H23 _ _ Hy) as (z & Hz & Hyz). exists z. split; [done|by etransitivity].
Qed.

Lemma objs_le_app {A} (R : A → A → Prop) `{!Reflexive R} l k : objs_le R l (l ++ k).
Proof. intros i x Hx. exists x. split; [by apply lookup_app_l_Some|done]. Qed.

Lemma objs_le_insert {A} (R : A → A → Prop) `{!Reflexive R} l i x x' :
  l !! i = Some x → R x x' → objs_le R l (<[i := x']> l).
Proof.
  intros Hx HR j y Hy. destruct (decide (i = j)) as [->|Hne].
  - simplify_eq. exists x'. split; [|done].
    apply list_lookup_insert_eq. by eapply lookup_lt_Some.
  - exists y. by rewrite list_lookup_insert_ne.
Qed.

Lemma objs_le_length {A} (R : A → A → Prop) l l' : objs_le R l l' → length l ≤ length l'.
Proof.
  intros H. destruct (decide (length l = 0)) as [->|]; [lia|].
  destruct (lookup_lt_is_Some_2 l (length l - 1)) as [x Hx]; [lia|].
  destruct (H _ _ Hx) as (x' & Hx' & _). apply lookup_lt_Some in Hx'. lia.
Qed.

Record heap_le h h' : Prop := {
  heap_le_mutexes : objs_le mutex_le (mutexes h) (mutexes h');
  heap_le_guards : objs_le eq (guards h) (guards h');
  heap_le_condvars : objs_le condvar_le (condvars h) (condvars h');
  heap_le_threads : objs_le thread_le (threads_ h) (threads_ h');
}.

#[global] Instance heap_le_preorder : PreOrder heap_le.
Proof.
  split; [by split|]. intros h1 h2 h3 [] [].
  split; (etransitivity; [eassumption|done]).
Qed.

Lemma wf_value_mono h h' v : heap_le h h' → wf_value h v → wf_value h' v.
Proof.
  intros [Hm Hg Hc Ht] Hv. apply objs_le_length in Hm, Hg, Hc, Ht.
  induction Hv; constructor; try lia; auto.
Qed.

(** *** Evolution of the world *)

Record world_le (X : TransitionRef → Prop) w w' : Prop := {
  world_le_net : net_grows (net w) (net w');
  world_le_heap : heap_le (heap w) (heap w');
  world_le_frame t : has_transition (net w) t → ¬ refd (heap w) t → ¬ X t →
    (∀ p, pre (net w') t p = pre (net w) t p ∧ post (net w') t p = post (net w) t p) ∧
    ¬ refd (heap w') t;
}.

Definition none : TransitionRef → Prop := λ _, False.

#[global] Instance world_le_preorder : PreOrder (world_le none).
Proof.
  split.
  - intros w. by split.
  - intros w1 w2 w3 [N1 H1 F1] [N2 H2 F2]. split; [by etransitivity..|].
    intros t Ht Hr HX. destruct (F1 t Ht Hr HX) as [Ha Hr2].
    destruct (F2 t (grows_transition _ _ N1 _ Ht) Hr2 HX) as [Hb Hr3].
    split; [|done]. intros p. destruct (Ha p), (Hb p). split; congruence.
Qed.

Lemma world_le_refl X w : world_le X w w.
Proof. by split. Qed.

(** Operations compose; what the second may touch is new, or touched by the
    first, or in [Z]. *)
Lemma world_le_trans X Y Z w1 w2 w3 :
  world_le X w1 w2 → world_le Y w2 w3 →
  (∀ t, has_transition (net w1) t → X t ∨ Y t → Z t) → world_le Z w1 w3.
Proof.
  intros [N1 H1 F1] [N2 H2 F2] HZ. split; [by etransitivity..|].
  intros t Ht Hr HnZ. destruct (F1 t Ht Hr) as [Ha Hr2]; [eauto|].
  destruct (F2 t (grows_transition _ _ N1 _ Ht) Hr2) as [Hb Hr3]; [eauto|].
  split; [|done]. intros p. destruct (Ha p), (Hb p). split; congruence.
Qed.

Lemma world_le_weaken (X Y : TransitionRef → Prop) w w' :
  (∀ t, X t → Y t) → world_le X w w' → world_le Y w w'.
Proof. intros HXY [N H F]. split; [done..|]. eauto. Qed.

(** The wf predicates survive. *)
Lemma wf_mutex_mono n n' m : net_grows n n' → wf_mutex n m → wf_mutex n' m.
Proof. intros G [H1 H2]. split; [by eapply grows_place|]. intros t Ht. eapply grows_transition; eauto. Qed.
Lemma wf_condvar_mono n n' c : net_grows n n' → wf_condvar n c → wf_condvar n' c.
Proof.
  intros G (H1 & H2 & H3).
  split; [by eapply grows_transition|split; [by eapply grows_place|by eapply grows_transition]].
Qed.
Lemma wf_thread_mono n n' h h' th :
  net_grows n n' → heap_le h h' → wf_thread n h th → wf_thread n' h' th.
Proof.
  intros G Hh (H1 & H2 & H3). split; [by eapply grows_transition|].
  split; [intros t Ht; eapply grows_transition; eauto|]. eauto using wf_value_mono.
Qed.

(** A change of the net alone. *)
Lemma wf_world_net n n' h : net_grows n n' → wf_world (mkWorld n h) → wf_world (mkWorld n' h).
Proof.
  intros G [Hm Hg Hc Ht]. split; simpl in *; eauto using wf_mutex_mono, wf_condvar_mono.
  intros th Hth. by eapply wf_thread_mono; [..|apply Ht].
Qed.

Lemma world_le_on_net X n n' h :
  net_grows n n' →
  (∀ t, has_transition n t → ¬ X t →
     ∀ p, pre n' t p = pre n t p ∧ post n' t p = post n t p) →
  world_le X (mkWorld n h) (mkWorld n' h).
Proof. intros G F. by split; simpl; [| |eauto]. Qed.

Lemma flow_world_le n n' h t s e :
  flow n n' t s e → world_le none (mkWorld n h) (mkWorld n' h).
Proof.
  intros F. apply world_le_on_net; [by eapply flow_grows|]. intros u Hu _ p.
  assert (u ≠ t) by (intros ->; by eapply flow_fresh in Hu).
  split; [by eapply flow_pre_other|by eapply flow_post_other].
Qed.
End world.
