(* ===== verification/WorldSpec.v ===== *)
(** * Specifications of the primitive operations on a world

    Each rule states what one primitive does to a well-formed world; the
    specifications of the sync functions, of the frames and of the translator
    are built from these. *)

From S2P Require Import Prelude Netcrab Rustc Function Heap World.

Section world_spec.
Context `{LL : PetriNetLaws} {FP : FuelPolicy}.
Implicit Types (w : World) (t : TransitionRef) (p s e : PlaceRef).

(** ** Edges of the control flow

    [plain w t s e]: the transition needs exactly one token in [s] and puts
    one in [e] (and perhaps others elsewhere).  An [edge] is such a
    transition that no object holds, so that nothing can be added to its
    input later. *)
Definition plain w t s e : Prop :=
  has_transition (net w) t ∧
  (∀ p, pre (net w) t p = if decide (p = s) then 1%N else 0%N) ∧
  (0 < post (net w) t e)%N.

Definition edge w s e : Prop := ∃ t, plain w t s e ∧ ¬ refd (heap w) t.

Lemma edge_mono w w' s e : world_le none w w' → edge w s e → edge w' s e.
Proof.
  intros [N H F] (t & (Ht & Hpre & Hpost) & Hr). exists t.
  destruct (F t Ht Hr) as [Ha Hr']; [by intros []|]. split; [|done].
  split; [by eapply grows_transition|]. split.
  - intros p. destruct (Ha p) as [-> _]. apply Hpre.
  - destruct (Ha e) as [_ ->]. done.
Qed.

Lemma refd_has_transition w t : wf_world w → refd (heap w) t → has_transition (net w) t.
Proof.
  intros [Hm Hg Hc Ht] [(m & Hin & Htm)|[(c & Hin & [->| ->])|(th & Hin & [->|Htj])]].
  - by apply (Hm m Hin).
  - by destruct (Hc c Hin) as (? & ? & ?).
  - by destruct (Hc c Hin) as (? & ? & ?).
  - by destruct (Ht th Hin) as (? & ? & ?).
  - destruct (Ht th Hin) as (? & Hj & ?). by apply Hj.
Qed.

Lemma flow_plain w w' t s e :
  flow (net w) (net w') t s e → plain w' t s e.
Proof.
  intros F. split; [apply (flow_transitions _ _ _ _ _ F); by left|].
  split; [apply (flow_pre _ _ _ _ _ F)|]. rewrite (flow_post _ _ _ _ _ F), decide_True by done. lia.
Qed.

Lemma flow_edge w w' t s e :
  wf_world w → heap w' = heap w → flow (net w) (net w') t s e → edge w' s e.
Proof.
  intros Hwf Hh F. exists t. split; [by eapply flow_plain|]. rewrite Hh.
  intros Hr%refd_has_transition; [|done]. by eapply flow_fresh in Hr.
Qed.

(** ** The net *)

Lemma wp_on_net {A} (m : ST PetriNet A) (Q : A → World → Prop) w :
  wp m allowed (λ a n', Q a (mkWorld n' (heap w))) (net w) → wp (on_net m) allowed Q w.
Proof. intros H. by apply wp_zoom. Qed.

Lemma wp_on_heap {A} (m : ST Heap A) (Q : A → World → Prop) w :
  wp m allowed (λ a h', Q a (mkWorld (net w) h')) (heap w) → wp (on_heap m) allowed Q w.
Proof. intros H. by apply wp_zoom. Qed.

Lemma wp_on_net_connect s e l (Q : TransitionRef → World → Prop) w :
  wf_world w → has_place (net w) s → has_place (net w) e →
  (∀ t w', wf_world w' → world_le none w w' → heap w' = heap w →
     flow (net w) (net w') t s e → Q t w') →
  wp (on_net (connect_places s e l)) allowed Q w.
Proof.
  intros Hwf Hs He HQ. apply wp_on_net, wp_connect_places; [done..|].
  intros t n' F. destruct w as [n h]; simpl in *. apply HQ; [|by eapply flow_world_le|done..].
  eapply wf_world_net; [by eapply flow_grows|done].
Qed.

(** The steps of a computation on the net, seen on the world. *)
Lemma wp_on_net_bind {A B} (m : ST PetriNet A) (k : A → ST PetriNet B) (Q : B → World → Prop) w :
  wp (on_net m) allowed (λ a w', wp (on_net (k a)) allowed Q w') w →
  wp (on_net (m ≫= k)) allowed Q w.
Proof.
  unfold wp, on_net, zoom, mbind, st_bind. by destruct (m (net w)) as [[a n]|].
Qed.
Lemma wp_on_net_ret {A} (a : A) (Q : A → World → Prop) w : Q a w → wp (on_net (mret a)) allowed Q w.
Proof. by destruct w. Qed.
Lemma wp_on_net_lift {A} (o : outcome A) (Q : A → World → Prop) w :
  owp o allowed (λ a, Q a w) → wp (on_net (lift o)) allowed Q w.
Proof. unfold wp, on_net, zoom, lift. destruct o; by destruct w. Qed.

Lemma wp_on_net_add_place l (Q : PlaceRef → World → Prop) w :
  wf_world w →
  (∀ p w', wf_world w' → world_le none w w' → heap w' = heap w →
     has_place (net w') p → Q p w') →
  wp (on_net (add_place l)) allowed Q w.
Proof.
  intros Hwf HQ. apply wp_on_net, wp_add_place. intros p n' _ _ Hp _ _ _ [A B] G.
  destruct w as [n h]; simpl in *. apply HQ; [by eapply wf_world_net| |done|done].
  apply world_le_on_net; auto.
Qed.

Lemma wp_on_net_for_each {A} (l : list A) (body : A → ST PetriNet unit) (I : World → Prop) w :
  I w → (∀ x w, x ∈ l → I w → wp (on_net (body x)) allowed (λ _, I) w) →
  wp (on_net (for_each l body)) allowed (λ _, I) w.
Proof.
  revert w. induction l as [|x l IH]; intros w HI Hb; [by apply wp_on_net_ret|].
  apply wp_on_net_bind. eapply wp_mono; [apply Hb; [by left|done]|done|].
  intros [] w' HI'. apply IH; [done|]. intros y w'' Hy. apply Hb. by right.
Qed.

(** The arc rules; the transition is the one that may change. *)
Lemma wp_on_net_arc_place_transition p t (Q : unit → World → Prop) w :
  wf_world w → has_place (net w) p → has_transition (net w) t →
  (∀ w', wf_world w' → world_le (.= t) w w' → heap w' = heap w →
     (∀ u q, (u, q) ≠ (t, p) → pre (net w') u q = pre (net w) u q) →
     (pre (net w) t p = 0%N → pre (net w') t p = 1%N) →
     (∀ u q, post (net w') u q = post (net w) u q) → Q tt w') →
  wp (on_net (add_arc_place_transition p t)) allowed Q w.
Proof.
  intros Hwf Hp Ht HQ. apply wp_on_net, wp_add_arc_place_transition; [done..|].
  intros n' Hps Hts Hm Hpre Hnew Hpost G. destruct w as [n h]; simpl in *.
  apply HQ; [by eapply wf_world_net| |done..]. apply world_le_on_net; [done|].
  intros u Hu Hne q. split; [|done]. apply Hpre. intros [= -> ->]. by apply Hne.
Qed.

Lemma wp_on_net_arc_transition_place t p (Q : unit → World → Prop) w :
  wf_world w → has_transition (net w) t → has_place (net w) p →
  (∀ w', wf_world w' → world_le (.= t) w w' → heap w' = heap w →
     (∀ u q, (u, q) ≠ (t, p) → post (net w') u q = post (net w) u q) →
     (post (net w) t p = 0%N → post (net w') t p = 1%N) →
     (∀ u q, pre (net w') u q = pre (net w) u q) → Q tt w') →
  wp (on_net (add_arc_transition_place t p)) allowed Q w.
Proof.
  intros Hwf Ht Hp HQ. apply wp_on_net, wp_add_arc_transition_place; [done..|].
  intros n' Hps Hts Hm Hpost Hnew Hpre G. destruct w as [n h]; simpl in *.
  apply HQ; [by eapply wf_world_net| |done..]. apply world_le_on_net; [done|].
  intros u Hu Hne q. split; [done|]. apply Hpost. intros [= -> ->]. by apply Hne.
Qed.

(** Adding an output keeps a transition plain. *)
Lemma plain_more_post w w' u s e :
  net_grows (net w) (net w') → (∀ t q, pre (net w') t q = pre (net w) t q) →
  plain w u s e → plain w' u s e.
Proof.
  intros G Hpre (Ht & Hp & Hpost). split; [by eapply grows_transition|].
  split; [intros q; by rewrite Hpre|]. pose proof (grows_post _ _ G u e). lia.
Qed.

(** ** Shared objects *)

Lemma wp_read_mutex r (Q : Mutex → World → Prop) w :
  wf_world w → mutex_loc r < length (mutexes (heap w)) →
  (∀ m, mutexes (heap w) !! mutex_loc r = Some m → wf_mutex (net w) m → Q m w) →
  wp (on_heap (read_mutex r)) allowed Q w.
Proof.
  intros Hwf [m Hm]%lookup_lt_is_Some_2 HQ. apply wp_on_heap.
  unfold wp, read_mutex, lift, deref. rewrite Hm. simpl. destruct w; apply HQ; [done|].
  apply Hwf. by eapply list_elem_of_lookup_2.
Qed.

Lemma wp_read_guard r (Q : Guard → World → Prop) w :
  wf_world w → guard_loc r < length (guards (heap w)) →
  (∀ g, guards (heap w) !! guard_loc r = Some g → wf_guard (heap w) g → Q g w) →
  wp (on_heap (read_guard r)) allowed Q w.
Proof.
  intros Hwf [m Hm]%lookup_lt_is_Some_2 HQ. apply wp_on_heap.
  unfold wp, read_guard, lift, deref. rewrite Hm. simpl. destruct w; apply HQ; [done|].
  apply Hwf. by eapply list_elem_of_lookup_2.
Qed.

Lemma wp_read_condvar r (Q : Condvar → World → Prop) w :
  wf_world w → condvar_loc r < length (condvars (heap w)) →
  (∀ c, condvars (heap w) !! condvar_loc r = Some c → wf_condvar (net w) c → Q c w) →
  wp (on_heap (read_condvar r)) allowed Q w.
Proof.
  intros Hwf [m Hm]%lookup_lt_is_Some_2 HQ. apply wp_on_heap.
  unfold wp, read_condvar, lift, deref. rewrite Hm. simpl. destruct w; apply HQ; [done|].
  apply Hwf. by eapply list_elem_of_lookup_2.
Qed.

Lemma wp_read_thread r (Q : Thread → World → Prop) w :
  wf_world w → thread_loc r < length (threads_ (heap w)) →
  (∀ th, threads_ (heap w) !! thread_loc r = Some th → wf_thread (net w) (heap w) th → Q th w) →
  wp (on_heap (read_thread r)) allowed Q w.
Proof.
  intros Hwf [m Hm]%lookup_lt_is_Some_2 HQ. apply wp_on_heap.
  unfold wp, read_thread, lift, deref. rewrite Hm. simpl. destruct w; apply HQ; [done|].
  apply Hwf. by eapply list_elem_of_lookup_2.
Qed.

(** A change of the heap that appends or updates objects; [T] are the
    transitions that become held. *)
Lemma heap_change w h' (T : TransitionRef → Prop) :
  wf_world w → heap_le (heap w) h' →
  (∀ m, m ∈ mutexes h' → wf_mutex (net w) m) →
  (∀ g, g ∈ guards h' → wf_guard h' g) →
  (∀ c, c ∈ condvars h' → wf_condvar (net w) c) →
  (∀ th, th ∈ threads_ h' → wf_thread (net w) h' th) →
  (∀ t, refd h' t → refd (heap w) t ∨ T t) →
  wf_world (mkWorld (net w) h') ∧ world_le T w (mkWorld (net w) h').
Proof.
  intros Hwf Hle Hm Hg Hc Ht Hr. split; [by split|]. split; [done|done|].
  intros t _ Hnr HnT. split; [done|]. simpl. intros [?|?]%Hr; done.
Qed.

(** [wf_guard] and [wf_thread] survive a heap change. *)
Lemma wf_guard_mono h h' g : heap_le h h' → wf_guard h g → wf_guard h' g.
Proof. intros [Hm _ _ _] Hg. apply objs_le_length in Hm. unfold wf_guard in *. lia. Qed.
End world_spec.
