(* ===== verification/SyncSpec.v ===== *)
(** * Specifications of the memory and of the sync functions

    Every operation of memory.rs and sync/*.rs keeps the world well-formed,
    lets it evolve, touches no transition but its own, and faults only with an
    allowed fault. *)

From S2P Require Import Prelude RustStr Netcrab Naming Rustc Function Heap Memory Sync World.
From S2P Require Import WorldSpec.

Section memory_spec.
Context `{LL : PetriNetLaws} {FP : FuelPolicy}.
Implicit Types (h : Heap) (m : Memory).

Definition wf_memory h m : Prop := ∀ p v, map m !! p = Some v → wf_value h v.

Lemma wf_memory_mono h h' m : heap_le h h' → wf_memory h m → wf_memory h' m.
Proof. intros Hle Hm p v Hv. eapply wf_value_mono; eauto. Qed.

Lemma wf_memory_insert h m p v : wf_memory h m → wf_value h v → wf_memory h (insert_value m p v).
Proof.
  intros Hm Hv q v' Hq. unfold insert_value in Hq. simpl in Hq.
  destruct (decide (p = q)) as [->|]; simplify_map_eq; eauto.
Qed.

Lemma wf_memory_empty h : wf_memory h empty_memory.
Proof. intros p v Hv. simpl in Hv. by rewrite lookup_empty in Hv. Qed.

Lemma owp_get_linked_value h m p :
  wf_memory h m → owp (get_linked_value m p) allowed (wf_value h).
Proof. intros Hm. apply owp_expect; [eauto|done]. Qed.

Lemma owp_get_mutex h m p :
  wf_memory h m → owp (get_mutex m p) allowed (λ r, mutex_loc r < length (mutexes h)).
Proof.
  intros Hm. apply owp_bind. eapply owp_mono; [by apply owp_get_linked_value|done|].
  intros v Hv. by destruct Hv.
Qed.
Lemma owp_get_mutex_guard h m p :
  wf_memory h m → owp (get_mutex_guard m p) allowed (λ r, guard_loc r < length (guards h)).
Proof.
  intros Hm. apply owp_bind. eapply owp_mono; [by apply owp_get_linked_value|done|].
  intros v Hv. by destruct Hv.
Qed.
Lemma owp_get_join_handle h m p :
  wf_memory h m → owp (get_join_handle m p) allowed (λ r, thread_loc r < length (threads_ h)).
Proof.
  intros Hm. apply owp_bind. eapply owp_mono; [by apply owp_get_linked_value|done|].
  intros v Hv. by destruct Hv.
Qed.
Lemma owp_get_condvar h m p :
  wf_memory h m → owp (get_condvar m p) allowed (λ r, condvar_loc r < length (condvars h)).
Proof.
  intros Hm. apply owp_bind. eapply owp_mono; [by apply owp_get_linked_value|done|].
  intros v Hv. by destruct Hv.
Qed.

Lemma owp_unpack_aggregate h v :
  wf_value h v → owp (unpack_aggregate v) allowed (λ vs, ∀ v, v ∈ vs → wf_value h v).
Proof. by destruct 1. Qed.

Lemma owp_copy_aggregate h m p :
  wf_memory h m → owp (copy_aggregate m p) allowed (λ vs, ∀ v, v ∈ vs → wf_value h v).
Proof.
  intros Hm. apply owp_bind, owp_expect; [|done]. intros v Hv. apply owp_unpack_aggregate. eauto.
Qed.

Lemma owp_link_aggregate h m p vs :
  wf_memory h m → (∀ v, v ∈ vs → wf_value h v) →
  owp (link_aggregate m p vs) allowed (wf_memory h).
Proof.
  intros Hm Hvs. unfold link_aggregate. case_match; [done|].
  apply wf_memory_insert; [done|]. by constructor.
Qed.

Lemma owp_create_aggregate h m p ps :
  wf_memory h m → owp (create_aggregate m p ps) allowed (wf_memory h).
Proof.
  intros Hm. apply owp_bind.
  assert (Hc : owp (collect_values m ps) allowed (λ vs, ∀ v, v ∈ vs → wf_value h v)).
  { induction ps as [|q ps IH]; simpl; [by intros v ?%not_elem_of_nil|].
    apply owp_bind. eapply owp_mono; [by apply owp_get_linked_value|done|]. intros v Hv.
    apply owp_bind. eapply owp_mono; [apply IH|done|]. intros vs Hvs u.
    rewrite elem_of_cons. intros [->|]; auto. }
  eapply owp_mono; [apply Hc|done|]. intros vs Hvs. by apply owp_link_aggregate.
Qed.

Lemma owp_link_field_in_aggregate h m p q i :
  wf_memory h m → owp (link_field_in_aggregate m p q i) allowed (wf_memory h).
Proof.
  intros Hm. apply owp_bind, owp_expect; [|done]. intros v Hv.
  apply owp_bind. eapply owp_mono; [apply owp_unpack_aggregate; eauto|done|]. intros vs Hvs.
  apply owp_bind, owp_expect; [|done]. intros u Hu. case_match; [done|].
  apply wf_memory_insert; [done|]. apply Hvs. by eapply list_elem_of_lookup_2.
Qed.

Lemma owp_link_place_to_same_value h m p q :
  wf_memory h m → owp (link_place_to_same_value m p q) allowed (wf_memory h).
Proof.
  intros Hm. apply owp_bind, owp_expect; [|done]. intros v Hv. apply wf_memory_insert; eauto.
Qed.

Lemma owp_link_if_sync_variable tcx h p q m d :
  wf_memory h m → owp (link_if_sync_variable tcx p q m d) allowed (wf_memory h).
Proof.
  intros Hm. unfold link_if_sync_variable. case_match; [done|]. case_match.
  - apply owp_bind, owp_expect; [|done]. intros. by apply owp_link_field_in_aggregate.
  - by apply owp_link_place_to_same_value.
Qed.

Lemma owp_link_return_value tcx h args p m d :
  wf_memory h m → owp (link_return_value_if_sync_variable tcx args p m d) allowed (wf_memory h).
Proof.
  intros Hm. unfold link_return_value_if_sync_variable. case_match; [|done].
  by apply owp_link_if_sync_variable.
Qed.

Lemma owp_handle_aggregate_assignment tcx h p ops m d :
  wf_memory h m → owp (handle_aggregate_assignment tcx p ops m d) allowed (wf_memory h).
Proof.
  intros Hm. unfold handle_aggregate_assignment. case_match; [done|].
  by apply owp_create_aggregate.
Qed.

Lemma owp_move_sync_variables tcx h (th : Thread) m :
  wf_memory h m → (∀ v, v ∈ aggregate th → wf_value h v) →
  owp (move_sync_variables tcx th m) allowed (wf_memory h).
Proof.
  intros Hm Hth. apply owp_bind. eapply owp_mono; [by apply owp_link_aggregate|done|].
  clear m Hm. intros m Hm. revert m Hm.
  induction (var_debug_info tcx (thread_def_id th)) as [|[p|] infos IH]; intros m Hm; simpl;
    [done| |by apply IH].
  case_bool_decide; [by apply IH|].
  apply owp_bind, owp_expect; [|done]. intros i _. apply owp_bind.
  eapply owp_mono; [by apply owp_link_field_in_aggregate|done|]. apply IH.
Qed.
End memory_spec.

(** ** Linking new objects *)

Section link_spec.
Context `{LL : PetriNetLaws} {FP : FuelPolicy}.
Implicit Types (h : Heap) (w : World) (m : Memory) (t : TransitionRef).

(** The transitions an object holds. *)
Definition mutex_holds (x : Mutex) t : Prop := t ∈ deref_mut x.
Definition condvar_holds (c : Condvar) t : Prop := t = wait_start c ∨ t = notify_received c.
Definition thread_holds (th : Thread) t : Prop :=
  t = spawn_transition th ∨ join_transition th = Some t.

(** Allocation is an append to one of the object lists. *)
Lemma heap_append w ms gs cs ths :
  wf_world w →
  let h := heap w in
  let h' := mkHeap (mutexes h ++ ms) (guards h ++ gs) (condvars h ++ cs) (threads_ h ++ ths) in
  (∀ x, x ∈ ms → wf_mutex (net w) x) → (∀ g, g ∈ gs → wf_guard h' g) →
  (∀ c, c ∈ cs → wf_condvar (net w) c) → (∀ th, th ∈ ths → wf_thread (net w) h' th) →
  heap_le h h' ∧ wf_world (mkWorld (net w) h') ∧
  world_le (λ t, (∃ x, x ∈ ms ∧ mutex_holds x t) ∨ (∃ c, c ∈ cs ∧ condvar_holds c t) ∨
                 (∃ th, th ∈ ths ∧ thread_holds th t)) w (mkWorld (net w) h').
Proof.
  intros Hwf h h' Hm Hg Hc Ht.
  assert (Hle : heap_le h h') by (split; apply objs_le_app; apply _).
  split; [done|]. apply heap_change; [done..| | | | |].
  - intros x. simpl. rewrite elem_of_app. intros [?|?]; [by apply Hwf|auto].
  - intros g. simpl. rewrite elem_of_app. intros [?|?]; [|auto].
    eapply wf_guard_mono; [done|]. by apply Hwf.
  - intros c. simpl. rewrite elem_of_app. intros [?|?]; [by apply Hwf|auto].
  - intros th. simpl. rewrite elem_of_app. intros [?|?]; [|auto].
    eapply wf_thread_mono; [done|done|]. by apply Hwf.
  - unfold refd, mutex_holds, condvar_holds, thread_holds. simpl. set_solver.
Qed.

Lemma get_linked_value_insert m p v : get_linked_value (insert_value m p v) p = Ok v.
Proof. unfold get_linked_value, insert_value. simpl. by rewrite lookup_insert_eq. Qed.

Ltac solve_append :=
  try (by intros ? ?%not_elem_of_nil); try (intros ? ->%list_elem_of_singleton).

Lemma wp_link_mutex m p x (Q : MutexRef * Memory → World → Prop) w :
  wf_world w → wf_memory (heap w) m → wf_mutex (net w) x →
  (∀ r m' w', wf_world w' → world_le (mutex_holds x) w w' → net w' = net w →
     wf_memory (heap w') m' → mutex_loc r < length (mutexes (heap w')) → Q (r, m') w') →
  wp (on_heap (link_mutex m p x)) allowed Q w.
Proof.
  intros Hwf Hm Hx HQ.
  destruct (heap_append w [x] [] [] [] Hwf) as (Hle & Hwf' & Hwle); [solve_append; done..|].
  rewrite !app_nil_r in Hle, Hwf', Hwle.
  apply wp_on_heap. unfold link_mutex. wp_steps. unfold wp, new_mutex_rc. wp_steps.
  rewrite get_linked_value_insert. wp_steps. apply HQ; [done| |done| |].
  - eapply world_le_weaken; [|apply Hwle]. intros t. unfold mutex_holds. set_solver.
  - apply wf_memory_insert; [by eapply wf_memory_mono|]. constructor. simpl. rewrite length_app. simpl. lia.
  - simpl. rewrite length_app. simpl. lia.
Qed.

Lemma wp_link_mutex_guard m p g (Q : MutexGuardRef * Memory → World → Prop) w :
  wf_world w → wf_memory (heap w) m → wf_guard (heap w) g →
  (∀ r m' w', wf_world w' → world_le none w w' → net w' = net w →
     wf_memory (heap w') m' → Q (r, m') w') →
  wp (on_heap (link_mutex_guard m p g)) allowed Q w.
Proof.
  intros Hwf Hm Hx HQ.
  destruct (heap_append w [] [g] [] [] Hwf) as (Hle & Hwf' & Hwle).
  1-4: solve_append.
  { unfold wf_guard in *. simpl. by rewrite app_nil_r. }
  rewrite !app_nil_r in Hle, Hwf', Hwle.
  apply wp_on_heap. unfold link_mutex_guard. wp_steps. unfold wp, new_guard_rc. wp_steps.
  rewrite get_linked_value_insert. wp_steps. apply HQ; [done| |done|].
  - eapply world_le_weaken; [|apply Hwle]. intros t. set_solver.
  - apply wf_memory_insert; [by eapply wf_memory_mono|]. constructor. simpl. rewrite length_app. simpl. lia.
Qed.

Lemma wp_link_condvar m p c (Q : CondvarRef * Memory → World → Prop) w :
  wf_world w → wf_memory (heap w) m → wf_condvar (net w) c →
  (∀ r m' w', wf_world w' → world_le (condvar_holds c) w w' → net w' = net w →
     wf_memory (heap w') m' → Q (r, m') w') →
  wp (on_heap (link_condvar m p c)) allowed Q w.
Proof.
  intros Hwf Hm Hx HQ.
  destruct (heap_append w [] [] [c] [] Hwf) as (Hle & Hwf' & Hwle); [solve_append; done..|].
  rewrite !app_nil_r in Hle, Hwf', Hwle.
  apply wp_on_heap. unfold link_condvar. wp_steps. unfold wp, new_condvar_rc. wp_steps.
  rewrite get_linked_value_insert. wp_steps. apply HQ; [done| |done|].
  - eapply world_le_weaken; [|apply Hwle]. intros t. set_solver.
  - apply wf_memory_insert; [by eapply wf_memory_mono|]. constructor. simpl. rewrite length_app. simpl. lia.
Qed.

Lemma wp_link_join_handle m p th (Q : ThreadRef * Memory → World → Prop) w :
  wf_world w → wf_memory (heap w) m → wf_thread (net w) (heap w) th →
  (∀ r m' w', wf_world w' → world_le (thread_holds th) w w' → net w' = net w →
     wf_memory (heap w') m' → thread_loc r < length (threads_ (heap w')) → Q (r, m') w') →
  wp (on_heap (link_join_handle m p th)) allowed Q w.
Proof.
  intros Hwf Hm Hx HQ.
  assert (Hle0 : heap_le (heap w) (mkHeap (mutexes (heap w) ++ []) (guards (heap w) ++ [])
    (condvars (heap w) ++ []) (threads_ (heap w) ++ [th]))) by (split; apply objs_le_app; apply _).
  destruct (heap_append w [] [] [] [th] Hwf) as (Hle & Hwf' & Hwle).
  1-4: solve_append.
  { eapply wf_thread_mono; [done|apply Hle0|done]. }
  rewrite !app_nil_r in Hle, Hwf', Hwle.
  apply wp_on_heap. unfold link_join_handle. wp_steps. unfold wp, new_thread_rc. wp_steps.
  rewrite get_linked_value_insert. wp_steps. apply HQ; [done| |done| |].
  - eapply world_le_weaken; [|apply Hwle]. intros t. set_solver.
  - apply wf_memory_insert; [by eapply wf_memory_mono|]. constructor. simpl. rewrite length_app. simpl. lia.
  - simpl. rewrite length_app. simpl. lia.
Qed.
End link_spec.

(** ** Updating objects *)

Section update_spec.
Context `{LL : PetriNetLaws} {FP : FuelPolicy}.
Implicit Types (w : World) (t : TransitionRef).

(** Add an operation that touches only transitions new since [w0]. *)
Lemma world_le_snoc X w0 w1 w2 :
  world_le none w0 w1 → world_le X w1 w2 →
  (∀ t, has_transition (net w0) t → ¬ X t) → world_le none w0 w2.
Proof. intros H1 H2 HX. eapply world_le_trans; [done..|]. intros t Ht [[]|?]. by eapply HX. Qed.

Lemma world_le_snoc_eq u w0 w1 w2 :
  world_le none w0 w1 → world_le (.= u) w1 w2 → ¬ has_transition (net w0) u →
  world_le none w0 w2.
Proof. intros H1 H2 Hu. eapply world_le_snoc; [done..|]. by intros t Ht ->. Qed.

(** A held transition may change: it is outside the frame. *)
Lemma world_le_held u w0 w1 w2 :
  world_le none w0 w1 → world_le (.= u) w1 w2 → refd (heap w0) u → world_le none w0 w2.
Proof.
  intros [N1 H1 F1] [N2 H2 F2] Hu. split; [by etransitivity..|].
  intros t Ht Hr HX. destruct (F1 t Ht Hr HX) as [Ha Hr2].
  destruct (F2 t (grows_transition _ _ N1 _ Ht) Hr2) as [Hb Hr3]; [by intros ->|].
  split; [|done]. intros p. destruct (Ha p), (Hb p). split; congruence.
Qed.

Lemma refd_mono h h' t : heap_le h h' → refd h t → refd h' t.
Proof.
  intros [Hm Hg Hc Hth] [(m & [i Hi]%list_elem_of_lookup & Ht)|[(c & [i Hi]%list_elem_of_lookup & Ht)
    |(th & [i Hi]%list_elem_of_lookup & Ht)]].
  - destruct (Hm _ _ Hi) as (m' & Hi' & [_ [k Hk]]). left. exists m'.
    split; [by eapply list_elem_of_lookup_2|]. rewrite Hk. set_solver.
  - destruct (Hc _ _ Hi) as (c' & Hi' & [H1 H2 H3 _]). right; left. exists c'.
    split; [by eapply list_elem_of_lookup_2|]. rewrite H1, H3. done.
  - destruct (Hth _ _ Hi) as (th' & Hi' & [H1 _ _ _ H2]). right; right. exists th'.
    split; [by eapply list_elem_of_lookup_2|]. rewrite H1. destruct Ht; eauto.
Qed.

Lemma elem_of_list_insert {A} (l : list A) i x y : y ∈ <[i := x]> l → y = x ∨ y ∈ l.
Proof.
  intros [j Hj]%list_elem_of_lookup. apply list_lookup_insert_Some in Hj
    as [(-> & -> & _)|[_ Hj]]; [by left|right]. by eapply list_elem_of_lookup_2.
Qed.

Lemma wp_add_deref_mut_transition r t (Q : unit → World → Prop) w :
  wf_world w → mutex_loc r < length (mutexes (heap w)) → has_transition (net w) t →
  (∀ w', wf_world w' → world_le (.= t) w w' → net w' = net w → Q tt w') →
  wp (on_heap (add_deref_mut_transition r t)) allowed Q w.
Proof.
  intros Hwf Hr Ht HQ. destruct (lookup_lt_is_Some_2 _ _ Hr) as [m Hm].
  assert (Hin : m ∈ mutexes (heap w)) by by eapply list_elem_of_lookup_2.
  apply wp_on_heap. unfold add_deref_mut_transition, read_mutex. wp_steps.
  unfold wp, lift at 1, deref. rewrite Hm. simpl.
  set (m' := mkMutex (mutex m) (deref_mut m ++ [t])).
  set (h' := mkHeap (<[mutex_loc r := m']> (mutexes (heap w))) (guards (heap w))
               (condvars (heap w)) (threads_ (heap w))).
  assert (Hle : heap_le (heap w) h').
  { split; [|done..]. eapply objs_le_insert; [apply _|done|]. split; [done|]. by apply prefix_app_r. }
  destruct (heap_change w h' (.= t)) as [Hwf' Hwle]; [done|done|..].
  - intros x [->|Hx]%elem_of_list_insert; [|by apply Hwf].
    destruct (wf_mutexes _ Hwf m Hin) as [H1 H2]. split; [done|]. simpl. set_solver.
  - intros g Hg. eapply wf_guard_mono; [done|]. by apply Hwf.
  - apply Hwf.
  - intros th Hth. eapply wf_thread_mono; [done|done|]. by apply Hwf.
  - intros u [(x & [->|Hx]%elem_of_list_insert & Hu)|Hu].
    + simpl in Hu. apply elem_of_app in Hu as [Hu|Hu]; [left; left; eauto|right; set_solver].
    + left. left. eauto.
    + left. right. done.
  - by apply HQ.
Qed.

Lemma wp_set_join_transition r t (Q : unit → World → Prop) w :
  wf_world w → thread_loc r < length (threads_ (heap w)) → has_transition (net w) t →
  (∀ w', wf_world w' → world_le (.= t) w w' → net w' = net w → Q tt w') →
  wp (on_heap (set_join_transition r t)) allowed Q w.
Proof.
  intros Hwf Hr Ht HQ. destruct (lookup_lt_is_Some_2 _ _ Hr) as [th Hth].
  assert (Hin : th ∈ threads_ (heap w)) by by eapply list_elem_of_lookup_2.
  apply wp_on_heap. unfold set_join_transition, read_thread. wp_steps.
  unfold wp, lift at 1, deref. rewrite Hth. simpl.
  destruct (join_transition th) eqn:Hj; [done|]. simpl.
  set (th' := mkThread _ _ _ (Some t) _).
  set (h' := mkHeap (mutexes (heap w)) (guards (heap w)) (condvars (heap w))
               (<[thread_loc r := th']> (threads_ (heap w)))).
  assert (Hle : heap_le (heap w) h').
  { split; [done..|]. eapply objs_le_insert; [apply _|done|]. split; try done. congruence. }
  destruct (wf_threads _ Hwf th Hin) as (H1 & H2 & H3).
  destruct (heap_change w h' (.= t)) as [Hwf' Hwle]; [done|done|apply Hwf|..].
  - intros g Hg. eapply wf_guard_mono; [done|]. by apply Hwf.
  - apply Hwf.
  - intros x [->|Hx]%elem_of_list_insert; [|eapply wf_thread_mono; [done|done|]; by apply Hwf].
    split; [done|]. split; [by intros ? [= ->]|]. intros v Hv. eapply wf_value_mono; eauto.
  - intros u [Hu|[Hu|(x & [->|Hx]%elem_of_list_insert & Hu)]];
      [by left; left|by left; right; left| |left; right; right; eauto].
    destruct Hu as [->|[= ->]]; [left; right; right; exists th; eauto|by right].
  - by apply HQ.
Qed.

Lemma wp_write_condvar_linked r c (Q : unit → World → Prop) w :
  wf_world w → condvars (heap w) !! condvar_loc r = Some c →
  (∀ w', wf_world w' → world_le none w w' → net w' = net w → Q tt w') →
  wp (on_heap (write_condvar r
        (mkCondvar (wait_start c) (notify c) (notify_received c) (Some tt)))) allowed Q w.
Proof.
  intros Hwf Hc HQ. assert (Hin : c ∈ condvars (heap w)) by by eapply list_elem_of_lookup_2.
  apply wp_on_heap. unfold wp, write_condvar, modify.
  set (c' := mkCondvar _ _ _ _). set (h' := mkHeap _ _ _ _).
  assert (Hle : heap_le (heap w) h').
  { split; [done|done| |done]. eapply objs_le_insert; [apply _|done|]. split; try done. by intros []. }
  destruct (heap_change w h' none) as [Hwf' Hwle]; [done|done|apply Hwf|..].
  - intros g Hg. eapply wf_guard_mono; [done|]. by apply Hwf.
  - intros x [->|Hx]%elem_of_list_insert; [|by apply Hwf]. by apply (wf_condvars _ Hwf c).
  - intros th Hth. eapply wf_thread_mono; [done|done|]. by apply Hwf.
  - intros u [Hu|[(x & [->|Hx]%elem_of_list_insert & Hu)|Hu]];
      left; [by left|right; left; by exists c|right; left; by eauto|by right; right].
  - by apply HQ.
Qed.
End update_spec.
