(* ===== verification/Gadgets.v ===== *)
(** * The net fragments of mutexes, condition variables and conditions

    The exact nodes, tokens and arcs that [Mutex::new], [Condvar::new] and
    [Mutex::link_to_condvar] add to a net. *)

From S2P Require Import Prelude RustStr Netcrab Naming Rustc Function Heap Memory Sync.

Section gadgets.
Context `{LL : PetriNetLaws}.
Implicit Types (n : PetriNet) (t u : TransitionRef) (p q : PlaceRef) (E : fault → Prop).

(** Exact forms of the arc rules, for an arc that was not there. *)
Lemma wp_new_arc_place_transition p t E (Q : unit → PetriNet → Prop) n :
  has_place n p → has_transition n t → pre n t p = 0%N →
  (∀ n', (∀ q, has_place n' q ↔ has_place n q) →
     (∀ u, has_transition n' u ↔ has_transition n u) →
     (∀ q, marking n' q = marking n q) →
     (∀ u q, pre n' u q = if decide (u = t ∧ q = p) then 1%N else pre n u q) →
     (∀ u q, post n' u q = post n u q) → Q tt n') →
  wp (add_arc_place_transition p t) E Q n.
Proof.
  intros Hp Ht H0 HQ. apply wp_add_arc_place_transition; [done..|].
  intros n' H1 H2 H3 H4 H5 H6 _. apply HQ; try done.
  intros u q. case_decide as Hd; [destruct Hd as [-> ->]; auto|]. apply H4. naive_solver.
Qed.

Lemma wp_new_arc_transition_place t p E (Q : unit → PetriNet → Prop) n :
  has_transition n t → has_place n p → post n t p = 0%N →
  (∀ n', (∀ q, has_place n' q ↔ has_place n q) →
     (∀ u, has_transition n' u ↔ has_transition n u) →
     (∀ q, marking n' q = marking n q) →
     (∀ u q, pre n' u q = pre n u q) →
     (∀ u q, post n' u q = if decide (u = t ∧ q = p) then 1%N else post n u q) → Q tt n') →
  wp (add_arc_transition_place t p) E Q n.
Proof.
  intros Ht Hp H0 HQ. apply wp_add_arc_transition_place; [done..|].
  intros n' H1 H2 H3 H4 H5 H6 _. apply HQ; try done.
  intros u q. case_decide as Hd; [destruct Hd as [-> ->]; auto|]. apply H4. naive_solver.
Qed.

Lemma wp_new_place l E (Q : PlaceRef → PetriNet → Prop) n :
  (∀ p n', ¬ has_place n p → (∀ q, has_place n' q ↔ q = p ∨ has_place n q) →
     (∀ t, has_transition n' t ↔ has_transition n t) →
     (∀ q, marking n' q = marking n q) →
     (∀ u q, pre n' u q = pre n u q) → (∀ u q, post n' u q = post n u q) → Q p n') →
  wp (add_place l) E Q n.
Proof. intros HQ. apply wp_add_place. intros p n' _ H1 _ H2 H3 H4 [H5 H6] _. by apply HQ. Qed.

Lemma wp_new_transition l E (Q : TransitionRef → PetriNet → Prop) n :
  (∀ t n', ¬ has_transition n t → (∀ u, has_transition n' u ↔ u = t ∨ has_transition n u) →
     (∀ q, has_place n' q ↔ has_place n q) →
     (∀ q, marking n' q = marking n q) →
     (∀ u q, pre n' u q = pre n u q) → (∀ u q, post n' u q = post n u q) → Q t n') →
  wp (add_transition l) E Q n.
Proof. intros HQ. apply wp_add_transition. intros t n' H1 _ H2 H3 H4 [H5 H6] _. by apply HQ. Qed.

(** Tokens in a place that was just created. *)
Lemma wp_first_token p E (Q : unit → PetriNet → Prop) n :
  has_place n p → marking n p = 0%N →
  (∀ n', (∀ q, has_place n' q ↔ has_place n q) →
     (∀ t, has_transition n' t ↔ has_transition n t) →
     (∀ q, marking n' q = if decide (q = p) then 1%N else marking n q) →
     (∀ u q, pre n' u q = pre n u q) → (∀ u q, post n' u q = post n u q) → Q tt n') →
  wp (add_token p 1) E Q n.
Proof.
  intros Hp H0 HQ. apply wp_add_token; [done|rewrite H0; done|].
  intros n' H1 H2 H3 [H4 H5]. apply HQ; try done.
  intros q. rewrite H3. case_decide; [by rewrite H0|done].
Qed.

(** ** [Mutex::new]: one new place with one token *)

Record mutex_gadget n n' (x : Mutex) : Prop := {
  mg_fresh : ¬ has_place n (mutex x);
  mg_places q : has_place n' q ↔ q = mutex x ∨ has_place n q;
  mg_transitions u : has_transition n' u ↔ has_transition n u;
  mg_marking q : marking n' q = if decide (q = mutex x) then 1%N else marking n q;
  mg_pre u q : pre n' u q = pre n u q;
  mg_post u q : post n' u q = post n u q;
  mg_deref_mut : deref_mut x = [];
}.

Lemma wp_mutex_new i E (Q : Mutex → PetriNet → Prop) n :
  (∀ x n', mutex_gadget n n' x → Q x n') → wp (mutex_new i) E Q n.
Proof.
  intros HQ. unfold mutex_new. wp_steps. apply wp_new_place. intros p n1 Hf P1 T1 M1 A1 B1.
  wp_steps. apply wp_first_token; [apply P1; by left|rewrite M1; by apply no_place_marking|].
  intros n2 P2 T2 M2 A2 B2. wp_steps. apply HQ. split; simpl; try done; intros.
  - by rewrite P2, P1.
  - by rewrite T2, T1.
  - rewrite M2, M1. done.
  - by rewrite A2, A1.
  - by rewrite B2, B1.
Qed.

(** ** Two new places, the first with a token

    [Condvar::new] and [Mutex::link_to_condvar] both begin like this. *)

Record marked_pair n n' p1 p2 : Prop := {
  mp_fresh : ¬ has_place n p1 ∧ ¬ has_place n p2 ∧ p1 ≠ p2;
  mp_places q : has_place n' q ↔ q = p1 ∨ q = p2 ∨ has_place n q;
  mp_transitions u : has_transition n' u ↔ has_transition n u;
  mp_marking q : marking n' q = if decide (q = p1) then 1%N else marking n q;
  mp_pre u q : pre n' u q = pre n u q;
  mp_post u q : post n' u q = post n u q;
}.

Lemma wp_marked_pair {A} l1 l2 (k : PlaceRef → PlaceRef → ST PetriNet A) E (Q : A → PetriNet → Prop) n :
  (∀ p1 p2 n', marked_pair n n' p1 p2 → wp (k p1 p2) E Q n') →
  wp (p1 ← add_place l1; p2 ← add_place l2; add_token p1 1;; k p1 p2) E Q n.
Proof.
  intros HQ. apply wp_bind, wp_new_place. intros p1 n1 F1 P1 T1 M1 A1 B1.
  apply wp_bind, wp_new_place. intros p2 n2 F2 P2 T2 M2 A2 B2. rewrite P1 in F2.
  apply wp_bind, wp_first_token; [rewrite P2, P1; auto|rewrite M2, M1; by apply no_place_marking|].
  intros n3 P3 T3 M3 A3 B3. apply HQ. split.
  - split_and!; [done|tauto|]. intros ->. tauto.
  - intros q. rewrite P3, P2, P1. tauto.
  - intros u. by rewrite T3, T2, T1.
  - intros q. by rewrite M3, M2, M1.
  - intros u q. by rewrite A3, A2, A1.
  - intros u q. by rewrite B3, B2, B1.
Qed.

Lemma marked_pair_grows n n' p1 p2 : marked_pair n n' p1 p2 → net_grows n n'.
Proof.
  intros [(F1 & F2 & D) P T M A B]. split; intros; rewrite ?P, ?T, ?A, ?B; auto; try lia.
  rewrite M, decide_False; [done|]. by intros ->.
Qed.

(** Three new transitions. *)
Record new_triple n n' t1 t2 t3 : Prop := {
  nt_fresh : ¬ has_transition n t1 ∧ ¬ has_transition n t2 ∧ ¬ has_transition n t3;
  nt_distinct : t1 ≠ t2 ∧ t1 ≠ t3 ∧ t2 ≠ t3;
  nt_transitions u : has_transition n' u ↔ u = t1 ∨ u = t2 ∨ u = t3 ∨ has_transition n u;
  nt_places q : has_place n' q ↔ has_place n q;
  nt_marking q : marking n' q = marking n q;
  nt_pre u q : pre n' u q = pre n u q;
  nt_post u q : post n' u q = post n u q;
}.

Lemma wp_new_triple {A} l1 l2 l3 (k : TransitionRef → TransitionRef → TransitionRef → ST PetriNet A)
    E (Q : A → PetriNet → Prop) n :
  (∀ t1 t2 t3 n', new_triple n n' t1 t2 t3 → wp (k t1 t2 t3) E Q n') →
  wp (t1 ← add_transition l1; t2 ← add_transition l2; t3 ← add_transition l3; k t1 t2 t3) E Q n.
Proof.
  intros HQ. apply wp_bind, wp_new_transition. intros t1 n1 F1 T1 P1 M1 A1 B1.
  apply wp_bind, wp_new_transition. intros t2 n2 F2 T2 P2 M2 A2 B2. rewrite T1 in F2.
  apply wp_bind, wp_new_transition. intros t3 n3 F3 T3 P3 M3 A3 B3. rewrite T2, T1 in F3.
  apply HQ. split.
  - tauto.
  - split_and!; intros ->; tauto.
  - intros u. rewrite T3, T2, T1. tauto.
  - intros q. by rewrite P3, P2, P1.
  - intros q. by rewrite M3, M2, M1.
  - intros u q. by rewrite A3, A2, A1.
  - intros u q. by rewrite B3, B2, B1.
Qed.

(** ** [Condvar::new]: two places and three transitions *)

Record condvar_gadget n n' (c : Condvar) (wait_enabled : PlaceRef) (lost_signal : TransitionRef) : Prop := {
  cg_fresh_places : ¬ has_place n wait_enabled ∧ ¬ has_place n (notify c);
  cg_distinct_places : wait_enabled ≠ notify c;
  cg_fresh_transitions : ¬ has_transition n (wait_start c) ∧ ¬ has_transition n lost_signal ∧
    ¬ has_transition n (notify_received c);
  cg_distinct_transitions : wait_start c ≠ lost_signal ∧ wait_start c ≠ notify_received c ∧
    lost_signal ≠ notify_received c;
  cg_places q : has_place n' q ↔ q = wait_enabled ∨ q = notify c ∨ has_place n q;
  cg_transitions u : has_transition n' u ↔
    u = wait_start c ∨ u = lost_signal ∨ u = notify_received c ∨ has_transition n u;
  cg_marking q : marking n' q = if decide (q = wait_enabled) then 1%N else marking n q;
  cg_wait_start q : pre n' (wait_start c) q = (if decide (q = wait_enabled) then 1%N else 0%N) ∧
    post n' (wait_start c) q = 0%N;
  cg_lost_signal q :
    pre n' lost_signal q = (if decide (q = wait_enabled ∨ q = notify c) then 1%N else 0%N) ∧
    post n' lost_signal q = (if decide (q = wait_enabled) then 1%N else 0%N);
  cg_notify_received q :
    pre n' (notify_received c) q = (if decide (q = notify c) then 1%N else 0%N) ∧
    post n' (notify_received c) q = (if decide (q = wait_enabled) then 1%N else 0%N);
  cg_others u q : has_transition n u → pre n' u q = pre n u q ∧ post n' u q = post n u q;
  cg_not_linked : already_linked_to_call c = None;
  cg_grows : net_grows n n';
}.

(** The fragment from its arcs. *)
Lemma condvar_gadget_arcs n n1 n2 n' c we ls :
  marked_pair n n1 we (notify c) → new_triple n1 n2 (wait_start c) ls (notify_received c) →
  already_linked_to_call c = None →
  (∀ q, has_place n' q ↔ has_place n2 q) → (∀ u, has_transition n' u ↔ has_transition n2 u) →
  (∀ q, marking n' q = marking n2 q) →
  (∀ u q, pre n' u q = if decide (u = notify_received c ∧ q = notify c) then 1%N
     else if decide (u = wait_start c ∧ q = we) then 1%N else if decide (u = ls ∧ q = notify c) then 1%N
     else if decide (u = ls ∧ q = we) then 1%N else pre n2 u q) →
  (∀ u q, post n' u q = if decide (u = notify_received c ∧ q = we) then 1%N
     else if decide (u = ls ∧ q = we) then 1%N else post n2 u q) →
  condvar_gadget n n' c we ls.
Proof.
  intros [(F1 & F2 & D) P1 T1 M1 A1 B1] [(F4 & F5 & F6) (N1 & N2 & N3) T2 P2 M2 A2 B2] Hl P T M HA HB.
  rewrite T1 in F4, F5, F6.
  assert (Hz : ∀ u q, u = wait_start c ∨ u = ls ∨ u = notify_received c →
    pre n2 u q = 0%N ∧ post n2 u q = 0%N).
  { intros u q Hu. rewrite A2, A1, B2, B1. apply no_transition_arcs.
    destruct Hu as [->|[->| ->]]; done. }
  assert (HP : ∀ q, has_place n' q ↔ q = we ∨ q = notify c ∨ has_place n q)
    by (intros q; by rewrite P, P2, P1).
  assert (HT : ∀ u, has_transition n' u ↔
    u = wait_start c ∨ u = ls ∨ u = notify_received c ∨ has_transition n u)
    by (intros u; by rewrite T, T2, T1).
  split; try done.
  - intros q. by rewrite M, M2, M1.
  - intros q. rewrite HA, HB. destruct (Hz (wait_start c) q) as [-> ->]; [auto|].
    split; repeat case_decide; first [done|intuition congruence].
  - intros q. rewrite HA, HB. destruct (Hz ls q) as [-> ->]; [auto|].
    split; repeat case_decide; first [done|intuition congruence].
  - intros q. rewrite HA, HB. destruct (Hz (notify_received c) q) as [-> ->]; [auto|].
    split; repeat case_decide; first [done|intuition congruence].
  - intros u q Hu. rewrite HA, HB, !decide_False by (intros [-> _]; tauto). by rewrite A2, A1, B2, B1.
  - split; intros; rewrite ?HP, ?HT; auto.
    + rewrite M, M2, M1, decide_False; [done|]. by intros ->.
    + rewrite HA, <-A1, <-A2. repeat case_decide; destruct_and?; subst; try lia.
      all: match goal with |- (pre _ ?u ?q ≤ _)%N => rewrite (proj1 (Hz u q ltac:(auto))); lia end.
    + rewrite HB, <-B1, <-B2. repeat case_decide; destruct_and?; subst; try lia.
      all: match goal with |- (post _ ?u ?q ≤ _)%N => rewrite (proj2 (Hz u q ltac:(auto))); lia end.
Qed.

Lemma wp_condvar_new i E (Q : Condvar → PetriNet → Prop) n :
  (∀ c we ls n', condvar_gadget n n' c we ls → Q c n') → wp (condvar_new i) E Q n.
Proof.
  intros HQ. unfold condvar_new. cbn [condvar.place_labels condvar.transition_labels].
  apply wp_marked_pair. intros we nt n1 M1. apply wp_new_triple. intros ws ls nr n2 T2.
  assert (HP : has_place n2 we ∧ has_place n2 nt).
  { rewrite !(nt_places _ _ _ _ _ T2), !(mp_places _ _ _ _ M1). auto. }
  assert (HT : has_transition n2 ws ∧ has_transition n2 ls ∧ has_transition n2 nr).
  { rewrite !(nt_transitions _ _ _ _ _ T2). auto 10. }
  assert (Hz : ∀ u q, u = ws ∨ u = ls ∨ u = nr → pre n2 u q = 0%N ∧ post n2 u q = 0%N).
  { intros u q Hu. rewrite (nt_pre _ _ _ _ _ T2), (nt_post _ _ _ _ _ T2). apply no_transition_arcs.
    destruct (nt_fresh _ _ _ _ _ T2) as (? & ? & ?). destruct Hu as [->|[->| ->]]; done. }
  destruct HP as [Hwe Hnt], HT as (Hws & Hls & Hnr).
  destruct (nt_distinct _ _ _ _ _ T2) as (N1 & N2 & N3), (mp_fresh _ _ _ _ M1) as (_ & _ & N4).
  apply wp_bind, wp_new_arc_place_transition; [done|done|by apply Hz; auto|].
  intros n7 P7 T7 M7 A7 B7. apply wp_bind, wp_new_arc_place_transition; [by apply P7|by apply T7| |].
  { rewrite A7, decide_False by (intros [? ?]; congruence). apply Hz; auto. }
  intros n8 P8 T8 M8 A8 B8.
  apply wp_bind, wp_new_arc_transition_place; [by apply T8, T7|by apply P8, P7| |].
  { rewrite B8, B7. apply Hz; auto. }
  intros n9 P9 T9 M9 A9 B9.
  apply wp_bind, wp_new_arc_place_transition; [by apply P9, P8, P7|by apply T9, T8, T7| |].
  { rewrite A9, A8, A7, !decide_False by (intros [? ?]; congruence). apply Hz; auto. }
  intros n10 P10 T10 M10 A10 B10.
  apply wp_bind, wp_new_arc_place_transition; [by apply P10, P9, P8, P7|by apply T10, T9, T8, T7| |].
  { rewrite A10, A9, A8, A7, !decide_False by (intros [? ?]; congruence). apply Hz; auto. }
  intros n11 P11 T11 M11 A11 B11.
  apply wp_bind, wp_new_arc_transition_place; [by apply T11, T10, T9, T8, T7|by apply P11, P10, P9, P8, P7| |].
  { rewrite B11, B10, B9, !decide_False by (intros [? ?]; congruence). rewrite B8, B7. apply Hz; auto. }
  intros n12 P12 T12 M12 A12 B12. apply wp_ret, (HQ _ we ls).
  apply (condvar_gadget_arcs _ n1 n2); [done|done|done|..]; simpl.
  - intros q. by rewrite P12, P11, P10, P9, P8, P7.
  - intros u. by rewrite T12, T11, T10, T9, T8, T7.
  - intros q. by rewrite M12, M11, M10, M9, M8, M7.
  - intros u q. by rewrite A12, A11, A10, A9, A8, A7.
  - intros u q. by rewrite B12, B11, B10, B9, B8, B7.
Qed.
End gadgets.
