(* ===== verification/SyncCalls.v ===== *)
(** * Specifications of the handlers of sync.rs and its submodules

    Built from the rules of [WorldSpec] and [SyncSpec]: whatever a handler is
    given, the world stays well-formed, evolves, and no transition that was
    there and that no object holds is touched. *)

From S2P Require Import Prelude RustStr Netcrab Naming Rustc Function Heap Memory Sync World.
From S2P Require Import WorldSpec SyncSpec Gadgets.

Section calls.
Context `{LL : PetriNetLaws} {FP : FuelPolicy}.
Implicit Types (w : World) (t : TransitionRef) (m : Memory).

Definition wf_places n (ps : Places) : Prop :=
  match ps with
  | PBasic s e => has_place n s ∧ has_place n e
  | PWithCleanup s e c => has_place n s ∧ has_place n e ∧ has_place n c
  end.

Lemma wf_places_mono n n' ps : net_grows n n' → wf_places n ps → wf_places n' ps.
Proof. intros G. destruct ps; simpl; naive_solver eauto using grows_place. Qed.

Lemma wf_places_ignore n ps : wf_places n ps → wf_places n (ignore_cleanup_place ps).
Proof. destruct ps; simpl; tauto. Qed.

(** The transitions of a call are new and plain. *)
Definition call_transitions w w' (ps : Places) (ts : Transitions) : Prop :=
  match ps, ts with
  | PBasic s e, TBasic d => ¬ has_transition (net w) d ∧ plain w' d s e
  | PWithCleanup s e c, TWithCleanup d cl =>
      ¬ has_transition (net w) d ∧ plain w' d s e ∧
      ¬ has_transition (net w) cl ∧ plain w' cl s c
  | _, _ => False
  end.

Lemma call_transitions_default w w' ps ts :
  call_transitions w w' ps ts →
  ¬ has_transition (net w) (get_default ts) ∧
  plain w' (get_default ts) (get_start_end_place ps).1 (get_start_end_place ps).2.
Proof. destruct ps, ts; simpl; tauto. Qed.

Lemma wp_call_foreign_function f i ps (Q : Transitions → World → Prop) w :
  wf_world w → wf_places (net w) ps →
  (∀ ts w', wf_world w' → world_le none w w' → heap w' = heap w →
     call_transitions w w' ps ts → Q ts w') →
  wp (on_net (call_foreign_function f i ps)) allowed Q w.
Proof.
  intros Hwf Hps HQ. unfold call_foreign_function. cbn [function.foreign_call_transition_labels].
  destruct ps as [s e|s e c]; simpl in Hps.
  - destruct Hps as [Hs He]. apply wp_on_net. wp_steps.
    apply wp_connect_places; [done..|]. intros t n' F. wp_steps. destruct w as [n h]; simpl in *.
    apply HQ; [by eapply wf_world_net; [eapply flow_grows|]|by eapply flow_world_le|done|].
    simpl. split; [by eapply flow_fresh|]. by apply (flow_plain (mkWorld n h)).
  - destruct Hps as (Hs & He & Hc). apply wp_on_net. wp_steps.
    apply wp_connect_places; [done..|]. intros t n1 F1. wp_steps.
    pose proof (flow_grows _ _ _ _ _ F1) as G1.
    apply wp_connect_places; [by eapply grows_place..|]. intros u n2 F2. wp_steps.
    pose proof (flow_grows _ _ _ _ _ F2) as G2. destruct w as [n h]; simpl in *.
    apply HQ; [eapply wf_world_net; [etransitivity; [exact G1|exact G2]|done]| |done|].
    + transitivity (mkWorld n1 h); by eapply flow_world_le.
    + pose proof (flow_plain (mkWorld n h) (mkWorld n1 h) _ _ _ F1) as (Ht & Ha & Hb).
      simpl in *. assert (t ≠ u) by (intros ->; by eapply flow_fresh in Ht).
      split; [by eapply flow_fresh|]. split; [|split].
      * split; [by eapply grows_transition|]. simpl.
        split; [intros p; rewrite (flow_pre_other _ _ _ _ _ F2) by done; apply Ha|].
        by rewrite (flow_post_other _ _ _ _ _ F2).
      * intros Hu. eapply (flow_fresh _ _ _ _ _ F2). by eapply grows_transition.
      * by apply (flow_plain (mkWorld n1 h)).
Qed.

(** Faults of [expect] on anything but the net are allowed. *)
Lemma wp_expect {A} p (o : option A) (Q : A → World → Prop) w :
  allowed (Panic p) → (∀ a, o = Some a → Q a w) → wp (lift (expect p o)) allowed Q w.
Proof. intros. apply wp_lift, owp_expect; eauto. Qed.

Lemma wp_owp {A} (o : outcome A) (P : A → Prop) (Q : A → World → Prop) w :
  owp o allowed P → (∀ a, P a → Q a w) → wp (lift o) allowed Q w.
Proof. intros. apply wp_lift. eapply owp_mono; eauto. Qed.

(** ** Mutexes *)

Lemma wp_handle_mutex_guard_drop p t m (Q : unit → World → Prop) w :
  wf_world w → wf_memory (heap w) m → has_transition (net w) t →
  (∀ w', wf_world w' → world_le (.= t) w w' → heap w' = heap w →
     (∀ u q, pre (net w') u q = pre (net w) u q) → Q tt w') →
  wp (handle_mutex_guard_drop p t m) allowed Q w.
Proof.
  intros Hwf Hm Ht HQ. unfold handle_mutex_guard_drop. case_match.
  - apply wp_bind. eapply wp_owp; [by apply owp_get_mutex_guard|]. intros g Hg.
    apply wp_bind. apply wp_read_guard; [done..|]. intros x _ Hx.
    apply wp_bind. apply wp_read_mutex; [done..|]. intros mx _ [Hmx _].
    apply wp_on_net_arc_transition_place; [done..|].
    intros w' Hwf' Hle Hh _ _ Hpre. by apply HQ.
  - apply HQ; [done|apply world_le_refl|done..].
Qed.

Lemma wp_call_lock f i args dest ps m (Q : Memory → World → Prop) w :
  wf_world w → wf_places (net w) ps → wf_memory (heap w) m →
  (∀ m' w', wf_world w' → world_le none w w' → wf_memory (heap w') m' → Q m' w') →
  wp (call_lock f i args dest ps m) allowed Q w.
Proof.
  intros Hwf Hps Hm HQ. unfold call_lock. apply wp_bind.
  apply wp_call_foreign_function; [done|by apply wf_places_ignore|].
  intros ts w1 Hwf1 Hle1 Hh1 [Hf (Ht & _)]%call_transitions_default.
  apply wp_bind, wp_expect; [done|]. intros self _.
  apply wp_bind. eapply wp_owp; [apply (owp_get_mutex (heap w1)); by rewrite Hh1|]. intros r Hr.
  apply wp_bind. apply wp_read_mutex; [done..|]. intros mx _ [Hmx _].
  apply wp_bind. apply wp_on_net_arc_place_transition; [done..|].
  intros w2 Hwf2 Hle2 Hh2 _ _ _. apply wp_bind.
  apply wp_link_mutex_guard; [done|by rewrite ?Hh2, ?Hh1|unfold wf_guard; simpl; by rewrite ?Hh2|].
  intros r' m' w3 Hwf3 Hle3 Hn3 Hm3. wp_steps. apply HQ; [done| |done].
  etransitivity; [|exact Hle3]. by eapply world_le_snoc_eq.
Qed.

Lemma mutex_gadget_world n n' x h :
  wf_world (mkWorld n h) → mutex_gadget n n' x →
  wf_world (mkWorld n' h) ∧ world_le none (mkWorld n h) (mkWorld n' h) ∧ wf_mutex n' x.
Proof.
  intros Hwf [F P T M A B D].
  assert (G : net_grows n n').
  { split; intros; rewrite ?P, ?T, ?A, ?B; auto; try lia.
    rewrite M, decide_False; [done|]. by intros ->. }
  split; [by eapply wf_world_net|]. split; [by apply world_le_on_net|].
  split; [apply P; by left|]. rewrite D. by intros t ?%not_elem_of_nil.
Qed.

Definition wf_task w (task : PostprocessingTask) : Prop :=
  match task with
  | LinkMutexToCondvar priority _ s e ws =>
      priority = 1%N ∧ has_place (net w) s ∧ has_place (net w) e ∧ refd (heap w) ws
  | NewMutex priority r => priority = 2%N ∧ mutex_loc r < length (mutexes (heap w))
  end.

Lemma wf_task_mono X w w' task : world_le X w w' → wf_task w task → wf_task w' task.
Proof.
  intros [G H _]. destruct task; simpl.
  - intros (Hp & Hs & He & Hr). split_and!; [done|by eapply grows_place..|by eapply refd_mono].
  - destruct H as [Hm _ _ _]. apply objs_le_length in Hm. intros [-> ?]. split; [done|lia].
Qed.

Lemma wp_call_new_mutex f i dest ps m (Q : PostprocessingTask * Memory → World → Prop) w :
  wf_world w → wf_places (net w) ps → wf_memory (heap w) m →
  (∀ task m' w', wf_world w' → world_le none w w' → wf_memory (heap w') m' →
     wf_task w' task → Q (task, m') w') →
  wp (call_new_mutex f i dest ps m) allowed Q w.
Proof.
  intros Hwf Hps Hm HQ. unfold call_new_mutex. apply wp_bind.
  apply wp_call_foreign_function; [done..|]. intros ts w1 Hwf1 Hle1 Hh1 _.
  apply wp_bind, wp_on_net, wp_mutex_new. intros x n2 Hx. destruct w1 as [n1 h1]; simpl in *.
  destruct (mutex_gadget_world _ _ _ _ Hwf1 Hx) as (Hwf2 & Hle2 & Hwx).
  apply wp_bind, wp_link_mutex; [done|simpl; by rewrite Hh1|done|].
  intros r m' w3 Hwf3 Hle3 Hn3 Hm3 Hr3. wp_steps. apply HQ; try done.
  eapply world_le_snoc; [transitivity (mkWorld n1 h1); eassumption|exact Hle3|].
  intros t _. unfold mutex_holds. rewrite (mg_deref_mut _ _ _ Hx). apply not_elem_of_nil.
Qed.

(** ** Condition variables *)

Lemma condvar_gadget_world n n' c we ls h :
  wf_world (mkWorld n h) → condvar_gadget n n' c we ls →
  wf_world (mkWorld n' h) ∧ world_le none (mkWorld n h) (mkWorld n' h) ∧ wf_condvar n' c.
Proof.
  intros Hwf C. pose proof (cg_grows _ _ _ _ _ C) as G.
  split; [by eapply wf_world_net|]. split.
  - apply world_le_on_net; [done|]. intros t Ht _ p. by apply (cg_others _ _ _ _ _ C).
  - unfold wf_condvar. rewrite !(cg_transitions _ _ _ _ _ C), (cg_places _ _ _ _ _ C). auto 6.
Qed.

Lemma wp_call_new_condvar f i dest ps m (Q : Memory → World → Prop) w :
  wf_world w → wf_places (net w) ps → wf_memory (heap w) m →
  (∀ m' w', wf_world w' → world_le none w w' → wf_memory (heap w') m' → Q m' w') →
  wp (call_new_condvar f i dest ps m) allowed Q w.
Proof.
  intros Hwf Hps Hm HQ. unfold call_new_condvar. apply wp_bind.
  apply wp_call_foreign_function; [done..|]. intros ts w1 Hwf1 Hle1 Hh1 _.
  apply wp_bind, wp_on_net, wp_condvar_new. intros c we ls n2 Hc. destruct w1 as [n1 h1]; simpl in *.
  destruct (condvar_gadget_world _ _ _ _ _ _ Hwf1 Hc) as (Hwf2 & Hle2 & Hwc).
  apply wp_bind, wp_link_condvar; [done|simpl; by rewrite Hh1|done|].
  intros r m' w3 Hwf3 Hle3 Hn3 Hm3. wp_steps. apply HQ; try done.
  eapply world_le_snoc; [transitivity (mkWorld n1 h1); eassumption|exact Hle3|].
  destruct (cg_fresh_transitions _ _ _ _ _ Hc) as (F1 & _ & F2).
  intros t Ht [->| ->]; [apply F1|apply F2]; by eapply (grows_transition _ _ (world_le_net _ _ _ Hle1)).
Qed.

Lemma wp_call_notify_one f i args ps m (Q : unit → World → Prop) w :
  wf_world w → wf_places (net w) ps → wf_memory (heap w) m →
  (∀ w', wf_world w' → world_le none w w' → heap w' = heap w → Q tt w') →
  wp (call_notify_one f i args ps m) allowed Q w.
Proof.
  intros Hwf Hps Hm HQ. unfold call_notify_one. apply wp_bind.
  apply wp_call_foreign_function; [done|by apply wf_places_ignore|].
  intros ts w1 Hwf1 Hle1 Hh1 [Hf (Ht & _)]%call_transitions_default.
  apply wp_bind, wp_expect; [done|]. intros self _.
  apply wp_bind. eapply wp_owp; [apply (owp_get_condvar (heap w1)); by rewrite Hh1|]. intros r Hr.
  apply wp_bind. apply wp_read_condvar; [done..|]. intros c _ (_ & Hn & _).
  apply wp_on_net_arc_transition_place; [done..|].
  intros w2 Hwf2 Hle2 Hh2 _ _ _. apply HQ; [done| |congruence]. by eapply world_le_snoc_eq.
Qed.

Lemma condvar_refd h r c :
  condvars h !! condvar_loc r = Some c → refd h (wait_start c) ∧ refd h (notify_received c).
Proof. intros Hc%list_elem_of_lookup_2. split; right; left; eauto. Qed.

Lemma wp_link_to_wait_call r s e g (Q : unit → World → Prop) w :
  wf_world w → has_place (net w) s → has_place (net w) e →
  condvar_loc r < length (condvars (heap w)) → guard_loc g < length (guards (heap w)) →
  (∀ w', wf_world w' → world_le none w w' → Q tt w') →
  wp (link_to_wait_call r s e g) allowed Q w.
Proof.
  intros Hwf Hs He Hr Hg HQ. unfold link_to_wait_call. apply wp_bind.
  apply wp_read_condvar; [done..|]. intros c Hc (Hws & Hnt & Hnr).
  destruct (condvar_refd _ _ _ Hc) as [R1 R2].
  destruct (already_linked_to_call c); [done|].
  apply wp_bind. apply wp_on_net_arc_place_transition; [done..|].
  intros w1 Hwf1 Hle1 Hh1 _ _ _.
  assert (L1 : world_le none w w1) by (eapply world_le_held; [reflexivity|done..]).
  apply wp_bind. apply wp_on_net_arc_transition_place;
    [done|by eapply grows_transition, Hnr; apply L1|by eapply grows_place, He; apply L1|].
  intros w2 Hwf2 Hle2 Hh2 _ _ _.
  assert (L2 : world_le none w w2) by (eapply world_le_held; [exact L1|done..]).
  apply wp_bind. apply wp_read_guard; [done|by rewrite Hh2, Hh1|]. intros gd _ Hgd.
  apply wp_bind. apply wp_read_mutex; [done..|]. intros mx _ [Hmx _].
  apply wp_bind. apply wp_on_net_arc_transition_place;
    [done|by eapply grows_transition, Hws; apply L2|done|].
  intros w3 Hwf3 Hle3 Hh3 _ _ _.
  assert (L3 : world_le none w w3) by (eapply world_le_held; [exact L2|done..]).
  apply wp_bind. apply wp_on_net_arc_place_transition;
    [done|by eapply grows_place, Hmx; apply Hle3|by eapply grows_transition, Hnr; apply L3|].
  intros w4 Hwf4 Hle4 Hh4 _ _ _.
  assert (L4 : world_le none w w4) by (eapply world_le_held; [exact L3|done..]).
  apply wp_bind. apply wp_read_condvar; [done|by rewrite Hh4, Hh3, Hh2, Hh1|]. intros c' Hc' _.
  destruct (already_linked_to_call c'); [done|].
  apply wp_write_condvar_linked; [done..|]. intros w5 Hwf5 Hle5 _.
  apply HQ; [done|]. by transitivity w4.
Qed.

Lemma wp_call_wait f i args dest ps m (Q : PostprocessingTask * Memory → World → Prop) w :
  wf_world w → wf_places (net w) ps → wf_memory (heap w) m →
  (∀ task m' w', wf_world w' → world_le none w w' → wf_memory (heap w') m' →
     wf_task w' task → Q (task, m') w') →
  wp (call_wait f i args dest ps m) allowed Q w.
Proof.
  intros Hwf Hps Hm HQ. unfold call_wait.
  apply wp_bind, wp_expect; [done|]. intros self _.
  apply wp_bind. eapply wp_owp; [by apply owp_get_condvar|]. intros r Hr.
  apply wp_bind, wp_expect; [done|]. intros gp _.
  apply wp_bind. eapply wp_owp; [by apply owp_get_mutex_guard|]. intros g Hg.
  apply wf_places_ignore in Hps.
  destruct (get_start_end_place (ignore_cleanup_place ps)) as [s e] eqn:Hse.
  assert (has_place (net w) s ∧ has_place (net w) e) as [Hs He].
  { destruct ps; simpl in *; simplify_eq; done. }
  apply wp_bind, wp_link_to_wait_call; [done..|]. intros w1 Hwf1 Hle1.
  apply wp_bind. apply wp_read_condvar; [done| |].
  { destruct (world_le_heap _ _ _ Hle1) as [_ _ Hc _]. apply objs_le_length in Hc. simpl in Hr. lia. }
  intros c Hc _. apply wp_bind. eapply wp_owp.
  { apply owp_link_place_to_same_value. eapply wf_memory_mono; [apply Hle1|done]. }
  intros m' Hm'. wp_steps. apply HQ; try done. simpl.
  split; [done|]. split; [by eapply grows_place; [apply Hle1|]|].
  split; [by eapply grows_place; [apply Hle1|]|]. by eapply condvar_refd.
Qed.

(** ** Threads *)

Lemma wp_call_join f i args ps m (Q : unit → World → Prop) w :
  wf_world w → wf_places (net w) ps → wf_memory (heap w) m →
  (∀ w', wf_world w' → world_le none w w' → Q tt w') →
  wp (call_join f i args ps m) allowed Q w.
Proof.
  intros Hwf Hps Hm HQ. unfold call_join. apply wp_bind.
  apply wp_call_foreign_function; [done|by apply wf_places_ignore|].
  intros ts w1 Hwf1 Hle1 Hh1 [Hf (Ht & _)]%call_transitions_default.
  apply wp_bind, wp_expect; [done|]. intros self _.
  apply wp_bind. eapply wp_owp; [apply (owp_get_join_handle (heap w1)); by rewrite Hh1|]. intros r Hr.
  apply wp_set_join_transition; [done..|]. intros w2 Hwf2 Hle2 _.
  apply HQ; [done|]. by eapply world_le_snoc_eq.
Qed.

(** ** The dispatcher *)

Lemma wp_sync_call_function f i args dest ps m
    (Q : option PostprocessingTask * Memory → World → Prop) w :
  wf_world w → wf_places (net w) ps → wf_memory (heap w) m →
  (∀ task m' w', wf_world w' → world_le none w w' → wf_memory (heap w') m' →
     (∀ k, task = Some k → wf_task w' k) → Q (task, m') w') →
  wp (sync_call_function f i args dest ps m) allowed Q w.
Proof.
  intros Hwf Hps Hm HQ. unfold sync_call_function.
  repeat match goal with |- wp (if ?b then _ else _) _ _ _ => destruct b end.
  - apply wp_bind, wp_call_new_condvar; [done..|]. intros. wp_steps. by apply HQ.
  - apply wp_bind, wp_call_notify_one; [done..|]. intros w' ? ? Hh. wp_steps.
    apply HQ; try done. by rewrite Hh.
  - apply wp_bind, wp_call_wait; [done..|]. intros. wp_steps. apply HQ; try done. by intros ? [= ->].
  - apply wp_bind, wp_call_lock; [done..|]. intros. wp_steps. by apply HQ.
  - apply wp_bind, wp_call_new_mutex; [done..|]. intros. wp_steps. apply HQ; try done. by intros ? [= ->].
  - apply wp_bind, wp_call_join; [done..|]. intros w' ? Hle. wp_steps. apply HQ; try done.
    eapply wf_memory_mono; [apply Hle|done].
  - done.
Qed.

(** ** Post-processing and threads *)

Lemma refd_keep u w0 w1 w2 :
  world_le none w0 w1 → refd (heap w0) u → world_le (.= u) w1 w2 → world_le none w0 w2.
Proof. intros. by eapply world_le_held. Qed.

(** The two condition places are new, and one of them gets a token. *)
Lemma wp_condition_places {A} l1 l2 (k : PlaceRef → PlaceRef → ST PetriNet A)
    (Q : A → World → Prop) w :
  wf_world w →
  (∀ p1 p2 w', wf_world w' → world_le none w w' → heap w' = heap w →
     has_place (net w') p1 → has_place (net w') p2 →
     wp (on_net (k p1 p2)) allowed Q w') →
  wp (on_net (p1 ← add_place l1; p2 ← add_place l2; add_token p1 1;; k p1 p2)) allowed Q w.
Proof.
  intros Hwf HQ. apply wp_on_net, wp_marked_pair. intros p1 p2 n' Hmp.
  assert (G := marked_pair_grows _ _ _ _ Hmp). destruct Hmp as [_ P _ _ Hpre Hpost].
  destruct w as [n h]; simpl in *.
  assert (Hk : wp (on_net (k p1 p2)) allowed Q (mkWorld n' h)).
  { apply HQ; simpl; [by eapply wf_world_net| |done|apply P; auto..].
    apply world_le_on_net; [done|]. intros t _ _ p. by rewrite Hpre, Hpost. }
  revert Hk. unfold wp, on_net, zoom. simpl. by destruct (k p1 p2 n') as [[]|].
Qed.

(** Arcs on a transition that was held in [w]. *)
Lemma wp_held_input p u w w1 w2 :
  wf_world w2 → world_le none w1 w2 → heap w2 = heap w → heap w1 = heap w →
  has_place (net w1) p → refd (heap w) u →
  wp (on_net (add_arc_place_transition p u)) allowed (λ _ w3,
    wf_world w3 ∧ world_le none w1 w3 ∧ heap w3 = heap w) w2.
Proof.
  intros Hwf2 Hle2 Hh2 Hh1 Hp Hu. apply wp_on_net_arc_place_transition;
    [done|eapply grows_place; [apply Hle2|done]|apply refd_has_transition; congruence|].
  intros w3 Hwf3 Hle3 Hh3 _ _ _. split_and!; [done| |congruence].
  eapply refd_keep; [done| |done]. congruence.
Qed.
Lemma wp_held_output p u w w1 w2 :
  wf_world w2 → world_le none w1 w2 → heap w2 = heap w → heap w1 = heap w →
  has_place (net w1) p → refd (heap w) u →
  wp (on_net (add_arc_transition_place u p)) allowed (λ _ w3,
    wf_world w3 ∧ world_le none w1 w3 ∧ heap w3 = heap w) w2.
Proof.
  intros Hwf2 Hle2 Hh2 Hh1 Hp Hu. apply wp_on_net_arc_transition_place;
    [done|apply refd_has_transition; congruence|eapply grows_place; [apply Hle2|done]|].
  intros w3 Hwf3 Hle3 Hh3 _ _ _. split_and!; [done| |congruence].
  eapply refd_keep; [done| |done]. congruence.
Qed.

Lemma wp_link_to_condvar x i s e ws (Q : unit → World → Prop) w :
  wf_world w → (∀ t, t ∈ deref_mut x → refd (heap w) t) →
  has_place (net w) s → has_place (net w) e → refd (heap w) ws →
  (∀ w', wf_world w' → world_le none w w' → heap w' = heap w → Q tt w') →
  wp (on_net (link_to_condvar x i s e ws)) allowed Q w.
Proof.
  intros Hwf Hx Hs He Hws HQ. unfold link_to_condvar.
  destruct (deref_mut x) as [|t0 ts].
  { apply wp_on_net_ret, HQ; done. }
  cbn [mutex.condition_place_labels].
  apply wp_condition_places; [done|]. intros cns cs w1 Hwf1 Hle1 Hh1 Hc1 Hc2.
  apply wp_on_net_bind. eapply wp_mono.
  { apply (wp_on_net_for_each _ _ (λ w2, wf_world w2 ∧ world_le none w1 w2 ∧ heap w2 = heap w));
      [by split_and!|].
    intros t w2 Ht (? & ? & ?). apply wp_on_net_bind.
    eapply wp_mono; [by apply (wp_held_input _ _ w w1); eauto|done|].
    intros [] w3 (? & ? & ?). by apply (wp_held_output _ _ w w1); eauto. }
  { done. }
  intros [] w2 (? & ? & ?). apply wp_on_net_bind. eapply wp_mono; [by apply (wp_held_input _ _ w w1)|done|].
  intros [] w3 (? & ? & ?). apply wp_on_net_bind. eapply wp_mono; [by apply (wp_held_output _ _ w w1)|done|].
  intros [] w4 (? & Hle4 & ?). assert (Hle04 : world_le none w w4) by by transitivity w1.
  apply wp_on_net_bind, wp_on_net_connect;
    [done|eapply grows_place; [apply Hle04|done]|eapply grows_place; [apply Hle04|done]|].
  intros t w5 Hwf5 Hle5 Hh5 F. assert (Hfr := flow_fresh _ _ _ _ _ F).
  assert (Ht : has_transition (net w5) t) by (apply (flow_transitions _ _ _ _ _ F); by left).
  assert (Hcs5 : has_place (net w5) cs).
  { eapply grows_place; [apply Hle5|]. eapply grows_place; [apply Hle4|done]. }
  apply wp_on_net_bind, wp_on_net_arc_place_transition; [done..|].
  intros w6 Hwf6 Hle6 Hh6 _ _ _.
  assert (Hle46 : world_le none w4 w6) by by eapply world_le_snoc_eq.
  apply wp_on_net_arc_transition_place;
    [done|eapply grows_transition; [apply Hle6|done]|eapply grows_place; [apply Hle6|done]|].
  intros w7 Hwf7 Hle7 Hh7 _ _ _. apply HQ; [done| |congruence].
  transitivity w4; [done|]. by eapply world_le_snoc_eq.
Qed.

(** An arc that was just added is there. *)
Lemma arc_added (a b : N) : (a ≤ b)%N → (a = 0 → b = 1)%N → (0 < b)%N.
Proof. intros. destruct (decide (a = 0)%N); [rewrite H0; lia|lia]. Qed.

Lemma wp_prepare_for_translation (th : Thread) (Q : DefId * PlaceRef * PlaceRef → World → Prop) w :
  wf_world w → th ∈ threads_ (heap w) →
  (∀ s e w', wf_world w' → world_le none w w' → heap w' = heap w →
     has_place (net w') s → has_place (net w') e →
     (0 < post (net w') (spawn_transition th) s)%N →
     (∀ j, join_transition th = Some j → (0 < pre (net w') j e)%N) →
     Q (thread_def_id th, s, e) w') →
  wp (on_net (prepare_for_translation th)) allowed Q w.
Proof.
  intros Hwf Hth HQ. destruct (wf_threads _ Hwf _ Hth) as (Hsp & Hj & _).
  apply wp_on_net_bind, wp_on_net_add_place; [done|]. intros s w1 Hwf1 Hle1 Hh1 Hs.
  apply wp_on_net_bind, wp_on_net_add_place; [done|]. intros e w2 Hwf2 Hle2 Hh2 He.
  assert (Hle02 : world_le none w w2) by by transitivity w1.
  apply wp_on_net_bind, wp_on_net_arc_transition_place;
    [done|eapply grows_transition; [apply Hle02|done]|eapply grows_place; [apply Hle2|done]|].
  intros w3 Hwf3 Hle3 Hh3 _ Hnew3 _.
  assert (G3 := world_le_net _ _ _ Hle3).
  assert (Hpost := arc_added _ _ (grows_post _ _ G3 _ _) Hnew3).
  assert (Hs3 : has_place (net w3) s) by (eapply grows_place, grows_place, Hs; [done|apply Hle2]).
  assert (He3 : has_place (net w3) e) by by eapply grows_place.
  assert (Hle03 : world_le none w w3).
  { eapply refd_keep; [done| |done]. right; right. eauto. }
  apply wp_on_net_bind. destruct (join_transition th) as [t|] eqn:Ht.
  - apply wp_on_net_arc_place_transition;
      [done|done|eapply grows_transition; [apply Hle03|by apply Hj]|].
    intros w4 Hwf4 Hle4 Hh4 _ Hnew4 Hp4. assert (G4 := world_le_net _ _ _ Hle4).
    apply wp_on_net_ret, HQ; [done| |congruence|by eapply grows_place..|by rewrite Hp4|].
    + eapply refd_keep; [done| |done]. right; right. eauto.
    + intros j [= <-]. exact (arc_added _ _ (grows_pre _ _ G4 _ _) Hnew4).
  - apply wp_on_net_ret, wp_on_net_ret, HQ; [done|done|congruence|done..].
Qed.
End calls.
