(* ===== verification/FrameSpec.v ===== *)
(** * Specifications of the frames: mir_function.rs and terminator.rs

    A frame keeps its identity and its blocks ([fn_le]) and refers only to
    nodes of the net and live objects ([wf_function]).  Each terminator method
    leaves an [edge] of the control flow behind, from the place of the active
    block to the place of its target. *)

From S2P Require Import Prelude RustStr Netcrab Naming Rustc Function Heap Memory MirFunction World.
From S2P Require Import WorldSpec SyncSpec.

Section frames.
Context `{LL : PetriNetLaws} {FP : FuelPolicy}.
Implicit Types (w : World) (t : TransitionRef) (p s e : PlaceRef) (f : MirFunction).

Record wf_function w f : Prop := {
  wf_fn_start : has_place (net w) (start_place f);
  wf_fn_end : has_place (net w) (end_place f);
  wf_fn_blocks b blk : basic_blocks f !! b = Some blk → has_place (net w) (bb_place blk);
  wf_fn_memory : wf_memory (heap w) (memory f);
}.

Record fn_le f f' : Prop := {
  fn_le_def_id : def_id f' = def_id f;
  fn_le_name : name f' = name f;
  fn_le_start : start_place f' = start_place f;
  fn_le_end : end_place f' = end_place f;
  fn_le_blocks : basic_blocks f ⊆ basic_blocks f';
}.

#[global] Instance fn_le_preorder : PreOrder fn_le.
Proof. split; [done|]. intros f1 f2 f3 [] []. split; try congruence. by etransitivity. Qed.

Lemma wf_function_mono X w w' f : world_le X w w' → wf_function w f → wf_function w' f.
Proof.
  intros [G H _] [Hs He Hb Hm]. split; eauto using grows_place, wf_memory_mono.
Qed.

Lemma wf_function_memory w f m :
  wf_function w f → wf_memory (heap w) m → wf_function w (set_memory f m).
Proof. intros [] ?. by split. Qed.

(** The place of a block. *)
Definition block_at f (b : N) p : Prop := ∃ blk, basic_blocks f !! b = Some blk ∧ bb_place blk = p.

Lemma block_at_mono f f' b p : fn_le f f' → block_at f b p → block_at f' b p.
Proof. intros Hle (blk & Hb & Hp). exists blk. split; [|done]. eapply lookup_weaken; [done|apply Hle]. Qed.

Lemma block_at_unique f b p p' : block_at f b p → block_at f b p' → p = p'.
Proof. intros (blk & Hb & <-) (blk' & Hb' & <-). by simplify_eq. Qed.

Lemma block_at_place w f b p : wf_function w f → block_at f b p → has_place (net w) p.
Proof. intros Hf (blk & Hb & <-). by eapply wf_fn_blocks. Qed.

(** Paths of control-flow edges, at least one edge long. *)
Definition path w : PlaceRef → PlaceRef → Prop := tc (edge w).

Lemma path_mono w w' s e : world_le none w w' → path w s e → path w' s e.
Proof.
  intros Hle. induction 1 as [s e H|s x e H _ IH].
  - apply tc_once. by eapply edge_mono.
  - eapply tc_l; [by eapply edge_mono|done].
Qed.

Lemma path_edge w s e : edge w s e → path w s e.
Proof. apply tc_once. Qed.

(** There is a path from the place of one block to the place of another. *)
Definition linked w f b b' : Prop := ∃ p p', block_at f b p ∧ block_at f b' p' ∧ path w p p'.
(** There is a path from the place of a block to another place. *)
Definition leads w f b p' : Prop := ∃ p, block_at f b p ∧ path w p p'.

Lemma linked_mono w w' f f' b b' :
  world_le none w w' → fn_le f f' → linked w f b b' → linked w' f' b b'.
Proof.
  intros Hw Hf (p & p' & H1 & H2 & H3). exists p, p'. split_and!; eauto using block_at_mono, path_mono.
Qed.
Lemma leads_mono w w' f f' b p :
  world_le none w w' → fn_le f f' → leads w f b p → leads w' f' b p.
Proof. intros Hw Hf (p' & H1 & H2). exists p'. split; eauto using block_at_mono, path_mono. Qed.

(** ** Blocks *)

(** What the methods that may add a block guarantee. *)
Record grown f f' w w' : Prop := {
  gr_wf : wf_world w';
  gr_le : world_le none w w';
  gr_heap : heap w' = heap w;
  gr_fn : wf_function w' f';
  gr_fn_le : fn_le f f';
  gr_active : active_block f' = active_block f;
  gr_memory : memory f' = memory f;
}.

Lemma grown_trans f1 f2 f3 w1 w2 w3 :
  grown f1 f2 w1 w2 → grown f2 f3 w2 w3 → grown f1 f3 w1 w3.
Proof.
  intros [? ? H1 ? ? A1 M1] [? ? H2 ? ? A2 M2]. split; try congruence; by etransitivity.
Qed.

Lemma grown_refl f w : wf_world w → wf_function w f → grown f f w w.
Proof. by split. Qed.

Lemma wp_ensure_basic_block f b (Q : MirFunction → World → Prop) w :
  wf_world w → wf_function w f →
  (∀ f' w' p, grown f f' w w' → block_at f' b p →
     (basic_blocks f = ∅ → p = start_place f) → Q f' w') →
  wp (on_net (ensure_basic_block f b)) allowed Q w.
Proof.
  intros Hwf Hf HQ. unfold ensure_basic_block. destruct (basic_blocks f !! b) as [blk|] eqn:Hb.
  { apply wp_on_net_ret. apply (HQ f _ (bb_place blk)); [by apply grown_refl|by exists blk|].
    intros E. by rewrite E, lookup_empty in Hb. }
  assert (Hle : ∀ blk, fn_le f (set_basic_blocks f (<[b := blk]> (basic_blocks f)))).
  { intros blk. split; try done. by apply insert_subseteq. }
  assert (Hgr : ∀ blk w', wf_world w' → world_le none w w' → heap w' = heap w →
    has_place (net w') (bb_place blk) →
    grown f (set_basic_blocks f (<[b := blk]> (basic_blocks f))) w w').
  { intros blk w' Hwf' Hwle Hh Hp. destruct (wf_function_mono _ _ _ _ Hwle Hf) as [H1 H2 H3 H4].
    split; try done. split; try done. simpl. intros b' blk' Hb'.
    destruct (decide (b = b')) as [->|]; simplify_map_eq; eauto. }
  unfold add_basic_block, prepare_start_place_for_next_basic_block, basic_block_new.
  case_bool_decide as He.
  - apply wp_on_net_bind, wp_on_net_bind, wp_on_net_ret, wp_on_net_ret. rewrite Hb.
    apply wp_on_net_ret. eapply HQ; [apply Hgr; [done|done|done|simpl; apply Hf]| |done].
    eexists. split; [apply lookup_insert_eq|done].
  - apply wp_on_net_bind, wp_on_net_bind, wp_on_net_add_place; [done|].
    intros p w' Hwf' Hwle Hh Hp. apply wp_on_net_ret. rewrite Hb. apply wp_on_net_ret.
    eapply (HQ _ _ p); [by apply Hgr| |done]. eexists. split; [apply lookup_insert_eq|done].
Qed.

Lemma owp_get_active_block f :
  owp (get_active_block f) allowed
    (λ blk, ∃ b, active_block f = Some b ∧ basic_blocks f !! b = Some blk).
Proof.
  apply owp_bind, owp_expect; [|done]. intros b Hb. apply owp_expect; [|done]. eauto.
Qed.

Lemma wp_get_or_add_basic_block f b (Q : BasicBlock * MirFunction → World → Prop) w :
  wf_world w → wf_function w f →
  (∀ blk f' w', grown f f' w w' → basic_blocks f' !! b = Some blk → Q (blk, f') w') →
  wp (on_net (get_or_add_basic_block f b)) allowed Q w.
Proof.
  intros Hwf Hf HQ. apply wp_on_net_bind, wp_ensure_basic_block; [done..|].
  intros f' w' p Hg Hb _. apply wp_on_net_bind, wp_on_net_lift, owp_expect; [|by destruct Hb as (blk & -> & _)].
  intros blk Hblk. apply wp_on_net_ret. by apply HQ.
Qed.

Lemma wp_get_end_place f b (Q : PlaceRef * MirFunction → World → Prop) w :
  wf_world w → wf_function w f →
  (∀ p f' w', grown f f' w w' → block_at f' b p → Q (p, f') w') →
  wp (on_net (get_end_place_for_function_call f b)) allowed Q w.
Proof.
  intros Hwf Hf HQ. apply wp_on_net_bind, wp_get_or_add_basic_block; [done..|].
  intros blk f' w' Hg Hblk. apply wp_on_net_ret. apply HQ; [done|]. by exists blk.
Qed.

Lemma wp_activate_block f b (Q : MirFunction → World → Prop) w :
  wf_world w → wf_function w f →
  (∀ f' w' p, wf_world w' → world_le none w w' → wf_function w' f' → fn_le f f' →
     active_block f' = Some b → block_at f' b p →
     (basic_blocks f = ∅ → p = start_place f) → Q f' w') →
  wp (on_net (activate_block f b)) allowed Q w.
Proof.
  intros Hwf Hf HQ. apply wp_on_net_bind, wp_ensure_basic_block; [done..|].
  intros f' w' p [? ? ? [] [] ? ?] Hb Hs. apply wp_on_net_ret.
  by apply (HQ (set_active_block f' (Some b)) _ p).
Qed.

(** Both blocks of a terminator: the active one and its target. *)
Lemma wp_get_pair f b (Q : BasicBlock * BasicBlock * MirFunction → World → Prop) w :
  wf_world w → wf_function w f →
  (∀ a blk f' w' i, grown f f' w w' → active_block f = Some i →
     basic_blocks f' !! i = Some a → basic_blocks f' !! b = Some blk → Q (a, blk, f') w') →
  wp (on_net (get_pair_active_block_target_block f b)) allowed Q w.
Proof.
  intros Hwf Hf HQ. apply wp_on_net_bind, wp_ensure_basic_block; [done..|].
  intros f' w' p Hg Hb _. apply wp_on_net_bind, wp_on_net_lift, owp_expect; [|by destruct Hb as (blk & -> & _)].
  intros blk Hblk. apply wp_on_net_bind, wp_on_net_lift.
  eapply owp_mono; [apply owp_get_active_block|done|]. intros a (i & Hi & Ha).
  apply wp_on_net_ret. rewrite (gr_active _ _ _ _ Hg) in Hi. by eapply HQ.
Qed.

(** A transition was added between two places of the net. *)
Lemma grown_flow f f1 w w1 w2 t s e :
  grown f f1 w w1 → wf_world w2 → world_le none w1 w2 → heap w2 = heap w1 →
  flow (net w1) (net w2) t s e → grown f f1 w w2 ∧ edge w2 s e.
Proof.
  intros [H1 H2 H3 H4 H5 H6 H7] Hwf Hle Hh F. split; [|eapply flow_edge; [exact H1|done..]].
  split; try done; [by etransitivity|congruence|by eapply wf_function_mono].
Qed.

(** The transition between the places of two blocks, and the link it makes. *)
Definition step_edge w w' f' i b t : Prop :=
  ¬ has_transition (net w) t ∧
  ∃ p p', block_at f' i p ∧ block_at f' b p' ∧ plain w' t p p' ∧ ¬ refd (heap w') t.

Lemma step_edge_linked w w' f' i b t : step_edge w w' f' i b t → linked w' f' i b.
Proof.
  intros (_ & p & p' & H1 & H2 & H3 & H4). exists p, p'. split_and!; [done..|].
  apply path_edge. by exists t.
Qed.

Lemma step_edge_mono w w1 w2 f1 f2 i b t :
  step_edge w w1 f1 i b t → world_le none w1 w2 → fn_le f1 f2 → step_edge w w2 f2 i b t.
Proof.
  intros (Hf & p & p' & H1 & H2 & (Ht & Hpre & Hpost) & H4) Hw Hfn. split; [done|]. exists p, p'.
  split_and!; [by eapply block_at_mono..| |].
  - destruct (world_le_frame _ _ _ Hw t Ht H4) as [Ha _]; [by intros []|].
    split; [eapply grows_transition; [apply Hw|done]|]. split.
    + intros q. destruct (Ha q) as [-> _]. done.
    + by destruct (Ha p') as [_ ->].
  - by destruct (world_le_frame _ _ _ Hw t Ht H4) as [_ ?]; [intros []|].
Qed.

Lemma wp_connect_pair f f1 w w1 i b a blk l (Q : TransitionRef → World → Prop) :
  grown f f1 w w1 → basic_blocks f1 !! i = Some a → basic_blocks f1 !! b = Some blk →
  (∀ t w2, grown f f1 w w2 → step_edge w w2 f1 i b t → world_le none w1 w2 → Q t w2) →
  wp (on_net (connect_places (bb_place a) (bb_place blk) l)) allowed Q w1.
Proof.
  intros Hg Ha Hb HQ. apply wp_on_net_connect; [eauto using gr_wf, wf_fn_blocks, gr_fn..|].
  intros t w2 Hwf2 Hle2 Hh2 F. destruct (grown_flow _ _ _ _ _ _ _ _ Hg Hwf2 Hle2 Hh2 F) as [Hg2 He].
  apply HQ; [done| |done]. split.
  - intros Ht. eapply (flow_fresh _ _ _ _ _ F). eapply grows_transition; [apply Hg|done].
  - exists (bb_place a), (bb_place blk). split_and!; [by exists a|by exists blk|by eapply flow_plain|].
    rewrite Hh2. intros Hr%refd_has_transition; [|apply Hg]. by eapply flow_fresh in Hr.
Qed.

(** ** terminator.rs *)

Lemma wp_goto f b (Q : MirFunction → World → Prop) w :
  wf_world w → wf_function w f →
  (∀ f' w' i, grown f f' w w' → active_block f = Some i → linked w' f' i b → Q f' w') →
  wp (on_net (goto f b)) allowed Q w.
Proof.
  intros Hwf Hf HQ. apply wp_on_net_bind, wp_get_pair; [done..|].
  intros a blk f1 w1 i Hg Hi Ha Hb. apply wp_on_net_bind, wp_on_net_bind.
  eapply wp_connect_pair; [done..|]. intros t w2 Hg2 He _. apply wp_on_net_ret, wp_on_net_ret.
  eapply HQ; eauto using step_edge_linked.
Qed.

Lemma wp_switch_int f bs (Q : MirFunction → World → Prop) w :
  wf_world w → wf_function w f →
  (∀ f' w', grown f f' w w' →
     (∀ i b, active_block f = Some i → b ∈ bs → linked w' f' i b) → Q f' w') →
  wp (on_net (switch_int f bs)) allowed Q w.
Proof.
  revert f w. induction bs as [|b bs IH]; intros f w Hwf Hf HQ.
  { apply wp_on_net_ret, HQ; [by apply grown_refl|]. by intros ? ? _ ?%not_elem_of_nil. }
  apply wp_on_net_bind, wp_on_net_bind, wp_get_pair; [done..|].
  intros a blk f1 w1 i Hg Hi Ha Hb. apply wp_on_net_bind, wp_on_net_bind.
  eapply wp_connect_pair; [done..|]. intros t w2 Hg2 He _. apply wp_on_net_ret, wp_on_net_ret.
  apply IH; [apply Hg2..|]. intros f3 w3 Hg3 Hbs. apply HQ; [by eapply grown_trans|].
  intros j b' Hj [->|Hb']%elem_of_cons; simplify_eq.
  - eapply linked_mono; [apply Hg3|apply Hg3|by eapply step_edge_linked].
  - apply Hbs; [|done]. by rewrite (gr_active _ _ _ _ Hg2).
Qed.

(** A transition from the active block to a given place. *)
Lemma wp_connect_active f p l (Q : TransitionRef → World → Prop) w :
  wf_world w → wf_function w f → has_place (net w) p →
  (∀ t w' i, grown f f w w' → active_block f = Some i → leads w' f i p → Q t w') →
  wp (on_net (a ← lift (get_active_block f); connect_places (bb_place a) p (l a))) allowed Q w.
Proof.
  intros Hwf Hf Hp HQ. apply wp_on_net_bind, wp_on_net_lift.
  eapply owp_mono; [apply owp_get_active_block|done|]. intros a (i & Hi & Ha).
  apply wp_on_net_connect; [by eauto using wf_fn_blocks..|].
  intros t w2 Hwf2 Hle2 Hh2 F.
  destruct (grown_flow _ _ _ _ _ _ _ _ (grown_refl _ _ Hwf Hf) Hwf2 Hle2 Hh2 F) as [Hg He].
  eapply HQ; [done..|]. exists (bb_place a). split; [by exists a|by apply path_edge].
Qed.

Lemma wp_unwind f p (Q : TransitionRef → World → Prop) w :
  wf_world w → wf_function w f → has_place (net w) p →
  (∀ t w' i, grown f f w w' → active_block f = Some i → leads w' f i p → Q t w') →
  wp (on_net (unwind f p)) allowed Q w.
Proof. apply wp_connect_active. Qed.

Lemma wp_unreachable f p (Q : unit → World → Prop) w :
  wf_world w → wf_function w f → has_place (net w) p →
  (∀ w' i, grown f f w w' → active_block f = Some i → leads w' f i p → Q tt w') →
  wp (on_net (unreachable f p)) allowed Q w.
Proof.
  intros Hwf Hf Hp HQ. apply wp_on_net_bind, wp_on_net_lift.
  eapply owp_mono; [apply owp_get_active_block|done|]. intros a (i & Hi & Ha).
  apply wp_on_net_bind, wp_on_net_connect; [by eauto using wf_fn_blocks..|].
  intros t w2 Hwf2 Hle2 Hh2 F. apply wp_on_net_ret.
  destruct (grown_flow _ _ _ _ _ _ _ _ (grown_refl _ _ Hwf Hf) Hwf2 Hle2 Hh2 F) as [Hg He].
  eapply HQ; [done..|]. exists (bb_place a). split; [by exists a|by apply path_edge].
Qed.

Lemma wp_return_statement f (Q : unit → World → Prop) w :
  wf_world w → wf_function w f →
  (∀ w', grown f f w w' →
     (∀ i p, active_block f = Some i → block_at f i p → leads w' f i (end_place f)) → Q tt w') →
  wp (on_net (return_statement f)) allowed Q w.
Proof.
  intros Hwf Hf HQ. apply wp_on_net_bind, wp_on_net_lift.
  apply (owp_mono _ allowed _ (λ s, has_place (net w) s ∧
    ∀ i p, active_block f = Some i → block_at f i p → block_at f i s)); [|done|].
  { unfold prepare_start_place_for_return_statement. case_bool_decide as He.
    - split; [apply Hf|]. intros i p _ (blk & Hb & _). by rewrite He, lookup_empty in Hb.
    - apply owp_bind. eapply owp_mono; [apply owp_get_active_block|done|]. intros a (i & Hi & Ha).
      split; [by eauto using wf_fn_blocks|]. intros j p Hj _. simplify_eq. by exists a. }
  intros s [Hs Hblk]. apply wp_on_net_bind, wp_on_net_connect; [done|done|apply Hf|].
  intros t w2 Hwf2 Hle2 Hh2 F. apply wp_on_net_ret.
  destruct (grown_flow _ _ _ _ _ _ _ _ (grown_refl _ _ Hwf Hf) Hwf2 Hle2 Hh2 F) as [Hg He].
  apply HQ; [done|]. intros i p Hi Hb. exists s. split; [by eapply Hblk|by apply path_edge].
Qed.

Lemma wp_drop f b cleanup (Q : TransitionRef * option TransitionRef * MirFunction → World → Prop) w :
  wf_world w → wf_function w f →
  (∀ t ct f' w' i, grown f f' w w' → active_block f = Some i → step_edge w w' f' i b t →
     match cleanup, ct with
     | Some c, Some t' => step_edge w w' f' i c t'
     | None, None => True
     | _, _ => False
     end → Q (t, ct, f') w') →
  wp (on_net (drop f b cleanup)) allowed Q w.
Proof.
  intros Hwf Hf HQ. apply wp_on_net_bind, wp_get_pair; [done..|].
  intros a blk f1 w1 i Hg Hi Ha Hb. apply wp_on_net_bind.
  eapply wp_connect_pair; [done..|]. intros t w2 Hg2 He _. destruct cleanup as [c|].
  - apply wp_on_net_bind, wp_get_pair; [apply Hg2..|].
    intros a' blk' f3 w3 i' Hg3 Hi' Ha' Hb'. apply wp_on_net_bind.
    eapply (wp_connect_pair _ _ w); [by eapply grown_trans|done..|].
    intros t' w4 Hg4 He' Hle4. apply wp_on_net_ret.
    rewrite (gr_active _ _ _ _ Hg2), Hi in Hi'. simplify_eq.
    eapply HQ; [done..| |done]. eapply step_edge_mono; [done| |apply Hg3].
    etransitivity; [apply Hg3|done].
  - apply wp_on_net_ret. by eapply HQ.
Qed.

Lemma wp_assert f b cleanup (Q : MirFunction → World → Prop) w :
  wf_world w → wf_function w f →
  (∀ f' w' i, grown f f' w w' → active_block f = Some i → linked w' f' i b →
     (∀ c, cleanup = Some c → linked w' f' i c) → Q f' w') →
  wp (on_net (assert f b cleanup)) allowed Q w.
Proof.
  intros Hwf Hf HQ. apply wp_on_net_bind, wp_get_pair; [done..|].
  intros a blk f1 w1 i Hg Hi Ha Hb. apply wp_on_net_bind, wp_on_net_bind.
  eapply wp_connect_pair; [done..|]. intros t w2 Hg2 He _. apply wp_on_net_ret.
  apply step_edge_linked in He. destruct cleanup as [c|].
  - apply wp_on_net_bind, wp_get_pair; [apply Hg2..|].
    intros a' blk' f3 w3 i' Hg3 Hi' Ha' Hb'. apply wp_on_net_bind, wp_on_net_bind.
    eapply (wp_connect_pair _ _ w); [by eapply grown_trans|done..|].
    intros t' w4 Hg4 He' Hle4. apply wp_on_net_ret, wp_on_net_ret.
    rewrite (gr_active _ _ _ _ Hg2), Hi in Hi'. simplify_eq.
    eapply HQ; [done..| |intros ? [= ->]; by eapply step_edge_linked].
    eapply linked_mono; [|apply Hg3|done]. etransitivity; [apply Hg3|done].
  - apply wp_on_net_ret. by eapply HQ.
Qed.
End frames.
