(* ===== verification/ControlFlow.v ===== *)
(** * The control flow of a MIR program

    A specification independent of the translation: the successors of a block
    and which functions can return, given by what the compiler's visitor is
    shown.  Synchronization is left out on purpose: only steps that wait for
    nothing count. *)

From S2P Require Import Prelude RustStr Netcrab Naming Rustc Function Heap Memory Sync.

Section control_flow.
Context (tcx : TyCtxt).

(** The blocks of a visited body with their terminators: a terminator belongs
    to the block visited last. *)
Fixpoint terminators (active : option N) (visits : list VisitorCall) : list (N * TerminatorKind) :=
  match visits with
  | [] => []
  | VisitBasicBlockData b :: visits' => terminators (Some b) visits'
  | VisitTerminator k :: visits' =>
      match active with
      | Some b => (b, k) :: terminators active visits'
      | None => terminators active visits'
      end
  | VisitAssign _ _ :: visits' => terminators active visits'
  end.

Definition blocks (d : DefId) : list (N * TerminatorKind) := terminators None (body_visits tcx d).

(** The block in which the body of a function begins. *)
Definition entry (d : DefId) (b : N) : Prop :=
  head (body_visits tcx d) = Some (VisitBasicBlockData b).

(** Function names that the translator handles specially before it asks
    whether a function is foreign. *)
Definition special_name (name : string) : bool :=
  bool_decide (name ∈ ["std::ops::Deref::deref"; "std::ops::DerefMut::deref_mut";
                       "std::result::Result::<T, E>::unwrap"; "std::thread::spawn"])
  || is_supported_function name.

(** A call that behaves like a single step: [std::mem::drop], or a function
    without MIR that is no synchronization primitive. *)
Definition opaque_call (d : DefId) : bool :=
  let name := def_path_str tcx d in
  bool_decide (name = "std::mem::drop")
  || negb (special_name name) && is_foreign_function d name tcx.

(** A call to a function whose MIR is translated in turn. *)
Definition mir_call (d : DefId) : bool :=
  let name := def_path_str tcx d in
  negb (bool_decide (name = "std::mem::drop")) && negb (special_name name)
  && negb (is_foreign_function d name tcx).

(** The block to go to when a call, drop or assertion unwinds. *)
Definition cleanup_block (u : UnwindAction) : option N :=
  match u with UnwindCleanup c => Some c | _ => None end.

(** [plain_succ d k b']: a block of [d] that ends in [k] can go on in [b'],
    whatever other functions do. *)
Definition plain_succ (d : DefId) (k : TerminatorKind) (b' : N) : Prop :=
  match k with
  | Goto target => b' = target
  | SwitchInt targets => b' ∈ targets
  | Drop _ target u | Assert target u => b' = target ∨ cleanup_block u = Some b'
  | Call func _ _ target u =>
      ∃ callee, extract_def_id_of_called_function_from_operand tcx func d = Ok callee ∧
        opaque_call callee = true ∧ (target = Some b' ∨ cleanup_block u = Some b')
  | _ => False
  end.

(** [returns d b]: from block [b] of function [d] control can reach a
    [Return] without waiting. *)
Inductive returns : DefId → N → Prop :=
  | returns_return d b :
      (b, Return) ∈ blocks d → returns d b
  | returns_succ d b k b' :
      (b, k) ∈ blocks d → plain_succ d k b' → returns d b' → returns d b
  | returns_call d b func args destination b' u callee b0 :
      (b, Call func args destination (Some b') u) ∈ blocks d →
      extract_def_id_of_called_function_from_operand tcx func d = Ok callee →
      mir_call callee = true →
      entry callee b0 → returns callee b0 →
      returns d b' → returns d b.

(** [panics d b]: from block [b] of function [d] control can reach, without
    waiting, the end of an unwinding or a call of a panic function with neither
    target nor cleanup.  These are not all panics of the MIR: an assertion, a
    drop or an opaque call whose unwind action is [UnwindContinue] can panic
    too, which the translation leaves out. *)
Inductive panics : DefId → N → Prop :=
  | panics_unwind d b k :
      (b, k) ∈ blocks d → k = UnwindResume ∨ k = UnwindTerminate → panics d b
  | panics_panic d b func args destination callee :
      (b, Call func args destination None UnwindContinue) ∈ blocks d →
      extract_def_id_of_called_function_from_operand tcx func d = Ok callee →
      is_panic_function (def_path_str tcx callee) = true → panics d b
  | panics_succ d b k b' :
      (b, k) ∈ blocks d → plain_succ d k b' → panics d b' → panics d b
  | panics_after_call d b func args destination b' u callee b0 :
      (b, Call func args destination (Some b') u) ∈ blocks d →
      extract_def_id_of_called_function_from_operand tcx func d = Ok callee →
      mir_call callee = true →
      entry callee b0 → returns callee b0 →
      panics d b' → panics d b
  | panics_in_call d b func args destination target u callee b0 :
      (b, Call func args destination target u) ∈ blocks d →
      (target, u) ≠ (None, UnwindContinue) →
      extract_def_id_of_called_function_from_operand tcx func d = Ok callee →
      mir_call callee = true →
      entry callee b0 → panics callee b0 → panics d b.

(** [calls_via d k callee]: a terminator [k] of [d] calls [callee], whose MIR
    is translated in turn; [calls] is the call graph. *)
Definition calls_via (d : DefId) (k : TerminatorKind) (callee : DefId) : Prop :=
  ∃ func args destination target u, k = Call func args destination target u ∧
    (target, u) ≠ (None, UnwindContinue) ∧
    extract_def_id_of_called_function_from_operand tcx func d = Ok callee ∧
    mir_call callee = true.

Definition calls (d callee : DefId) : Prop :=
  ∃ k, VisitTerminator k ∈ body_visits tcx d ∧ calls_via d k callee.

(** A function can return, or panic, from its entry. *)
Definition can_return (d : DefId) : Prop := ∃ b0, entry d b0 ∧ returns d b0.
Definition can_panic (d : DefId) : Prop := ∃ b0, entry d b0 ∧ panics d b0.
End control_flow.
