(* ===== verification/SequentialFlow.v ===== *)
(** * How the functions of a sequential program are left

    [ControlFlow] says what a program can do without waiting, whatever else it
    does.  For a program that does not synchronize nothing waits, and the net has
    a path for each of these steps and for no others: how functions are left,
    where calls return and unwind to, and which blocks are reached.  The steps
    are those that the translation follows, which is not all that MIR allows (see
    [jumps]); [Cfg] relates them to the control-flow graph of the program, in
    terms of which the theorems are stated. *)

From S2P Require Import Prelude RustStr Netcrab Naming Rustc Function Heap Memory Sync ControlFlow.

Section sequential_flow.
Context (tcx : TyCtxt).
Implicit Types (d callee : DefId) (b : N) (k : TerminatorKind).

(** ** Where control goes *)

(** Ways to leave a function: panics, the end of the program at an unreachable
    point, and calls that never come back pass through its callers. *)
Inductive exit : Type := Returning | Panicking | Ending | Diverging.
#[global] Instance exit_eq_dec : EqDecision exit.
Proof. solve_decision. Defined.

(** Where control goes on: at a block of the function, or out of it. *)
Inductive dest : Type := ToBlock (b : N) | Out (o : exit).

(** Where a call goes on when the callee returns.  A call without a target is of
    a function that never returns; what it names for unwinding takes the place
    of the target. *)
Definition returns_to (target : option N) (u : UnwindAction) : option dest :=
  match target, u with
  | Some b, _ => Some (ToBlock b)
  | None, UnwindCleanup c => Some (ToBlock c)
  | None, UnwindActionTerminate => Some (Out Panicking)
  | None, UnwindUnreachable => Some (Out Ending)
  | None, UnwindContinue => None
  end.

(** Where it goes on when it unwinds. *)
Definition unwinds_to (target : option N) (u : UnwindAction) : option dest :=
  match target, u with
  | Some _, UnwindCleanup c => Some (ToBlock c)
  | Some _, UnwindActionTerminate => Some (Out Panicking)
  | Some _, UnwindUnreachable => Some (Out Ending)
  | _, _ => None
  end.

(** The first argument is a mutex or a guard; methods of these do not unwind. *)
Definition mutex_self d (args : list Operand) : bool :=
  match extract_nth_argument_as_place args 0 with
  | Some place => check_substring_in_place_type tcx place "std::sync::MutexGuard<" d
                  || check_substring_in_place_type tcx place "std::sync::Mutex<" d
  | None => false
  end.
Definition mutex_access d callee (args : list Operand) : bool :=
  bool_decide (def_path_str tcx callee ∈ ["std::ops::Deref::deref"; "std::ops::DerefMut::deref_mut";
                                          "std::result::Result::<T, E>::unwrap"])
  && mutex_self d args.

Definition callee_of d (func : Operand) callee : Prop :=
  extract_def_id_of_called_function_from_operand tcx func d = Ok callee.

(** One step that the translation follows: everything but what the MIR of a
    callee does.  It leaves out what the translation leaves out: a drop, an
    assertion or an opaque call that unwinds without a cleanup block, and that a
    call with no block to go on in may panic in the callee. *)
Definition jumps d k (x : dest) : Prop :=
  match k with
  | Goto target => x = ToBlock target
  | SwitchInt targets => ∃ b, b ∈ targets ∧ x = ToBlock b
  | Return => x = Out Returning
  | UnwindResume | UnwindTerminate => x = Out Panicking
  | Unreachable => x = Out Ending
  | Drop _ target u | Assert target u =>
      x = ToBlock target ∨ (∃ c, u = UnwindCleanup c ∧ x = ToBlock c) ∨
      (u = UnwindUnreachable ∧ x = Out Ending)
  | Call func args _ target u => ∃ callee, callee_of d func callee ∧
      ((returns_to target u = None ∧
        x = Out (if is_panic_function (def_path_str tcx callee) then Panicking else Diverging)) ∨
       (returns_to target u = Some x ∧ mir_call tcx callee = false) ∨
       (unwinds_to target u = Some x ∧ mutex_access d callee args = false))
  | _ => False
  end.

(** [may o d b]: from block [b], function [d] may be left through [o]. *)
Inductive may : exit → DefId → N → Prop :=
  | may_out o d b k : (b, k) ∈ blocks tcx d → jumps d k (Out o) → may o d b
  | may_go o d b k b' : (b, k) ∈ blocks tcx d → jumps d k (ToBlock b') → may o d b' → may o d b
  | may_return_out o d b func args destination target u callee b0 :
      (b, Call func args destination target u) ∈ blocks tcx d →
      callee_of d func callee → mir_call tcx callee = true →
      returns_to target u = Some (Out o) →
      entry tcx callee b0 → may Returning callee b0 → may o d b
  | may_return_go o d b func args destination target u callee b0 b' :
      (b, Call func args destination target u) ∈ blocks tcx d →
      callee_of d func callee → mir_call tcx callee = true →
      returns_to target u = Some (ToBlock b') →
      entry tcx callee b0 → may Returning callee b0 → may o d b' → may o d b
  | may_in_call o d b func args destination target u callee b0 :
      (b, Call func args destination target u) ∈ blocks tcx d →
      callee_of d func callee → mir_call tcx callee = true →
      returns_to target u ≠ None → o ≠ Returning →
      entry tcx callee b0 → may o callee b0 → may o d b.

Definition can (o : exit) d : Prop := ∃ b0, entry tcx d b0 ∧ may o d b0.

(** One step, with the calls that it makes. *)
Definition next d k (x : dest) : Prop :=
  jumps d k x ∨
  ∃ func args destination target u callee,
    k = Call func args destination target u ∧ callee_of d func callee ∧ mir_call tcx callee = true ∧
    ((returns_to target u = Some x ∧ can Returning callee) ∨
     (returns_to target u ≠ None ∧ ∃ o, o ≠ Returning ∧ x = Out o ∧ can o callee)).

Lemma may_next_out o d b k : (b, k) ∈ blocks tcx d → next d k (Out o) → may o d b.
Proof.
  intros Hb [Hj|(func & args & dest & target & u & callee & -> & Hc & Hm & [[Hr (b0 & He & H)]|(Hr & o' & Ho & [= <-] & b0 & He & H)])].
  - by eapply may_out.
  - by eapply may_return_out.
  - by eapply may_in_call.
Qed.
Lemma may_next_go o d b k b' : (b, k) ∈ blocks tcx d → next d k (ToBlock b') → may o d b' → may o d b.
Proof.
  intros Hb [Hj|(func & args & dest & target & u & callee & -> & Hc & Hm & [[Hr (b0 & He & H)]|(_ & o' & _ & ? & _)])] Hmay;
    [by eapply may_go|by eapply may_return_go|done].
Qed.

(** Leaving a function, step by step. *)
Lemma may_ind_next (P : exit → DefId → N → Prop) :
  (∀ o d b k, (b, k) ∈ blocks tcx d → next d k (Out o) → P o d b) →
  (∀ o d b k b', (b, k) ∈ blocks tcx d → next d k (ToBlock b') → P o d b' → P o d b) →
  ∀ o d b, may o d b → P o d b.
Proof.
  intros Hout Hgo o d b. induction 1.
  - eapply Hout; [done|]. by left.
  - eapply Hgo; [done|by left|done].
  - eapply Hout; [done|]. right. eexists _, _, _, _, _, _. split_and!; [done..|]. left. split; [done|]. by eexists.
  - eapply Hgo; [done| |done]. right. eexists _, _, _, _, _, _. split_and!; [done..|]. left. split; [done|]. by eexists.
  - eapply Hout; [done|]. right. eexists _, _, _, _, _, _. split_and!; [done..|]. right. split; [done|].
    eexists. split_and!; [done..|]. by eexists.
Qed.

(** The blocks that may be reached from the entry. *)
Inductive reaches d : N → Prop :=
  | reaches_entry b0 : entry tcx d b0 → reaches d b0
  | reaches_next b k b' : reaches d b → (b, k) ∈ blocks tcx d → next d k (ToBlock b') → reaches d b'.

Lemma reaches_may o d b : reaches d b → may o d b → can o d.
Proof.
  induction 1 as [b0 H|b k b' _ IH Hk Hs]; intros Ho; [by exists b0|]. apply IH. by eapply may_next_go.
Qed.

(** ** Complete bodies *)

(** The blocks that a terminator names. *)
Definition targets (k : TerminatorKind) : list N :=
  match k with
  | Goto target => [target]
  | SwitchInt targets => targets
  | Drop _ target u | Assert target u => target :: option_list (cleanup_block u)
  | Call _ _ _ target u => option_list target ++ option_list (cleanup_block u)
  | _ => []
  end.

Lemma jumps_targets d k b : jumps d k (ToBlock b) → b ∈ targets k.
Proof.
  assert (Hopt : ∀ o, b ∈ option_list o ↔ o = Some b) by (intros [x|]; simpl; set_solver).
  destruct k as [| | | | | |p t u|func args dest target u|t u| | | | | |]; simpl;
    rewrite ?elem_of_cons, ?elem_of_app, ?elem_of_nil, ?Hopt; try naive_solver.
  intros (callee & _ & [[_ ?]|[[H _]|[H _]]]); [done|destruct target, u; naive_solver..].
Qed.
Lemma next_targets d k b : next d k (ToBlock b) → b ∈ targets k.
Proof.
  intros [H|(func & args & dest & target & u & callee & -> & _ & _ & [[H _]|(_ & o & _ & ? & _)])];
    [by eapply jumps_targets| |done].
  assert (Hopt : ∀ o, b ∈ option_list o ↔ o = Some b) by (intros [x|]; simpl; set_solver).
  simpl. rewrite elem_of_app, !Hopt. destruct target, u; simpl in H; naive_solver.
Qed.

(** A body as the compiler builds it: it has an entry, every block ends in a
    terminator, the blocks that terminators name are blocks of the body, and a
    switch has a case. *)
Record complete_body (d : DefId) : Prop := {
  cb_entry : ∃ b, entry tcx d b;
  cb_terminator b : VisitBasicBlockData b ∈ body_visits tcx d → ∃ k, (b, k) ∈ blocks tcx d;
  cb_targets b k b' : (b, k) ∈ blocks tcx d → b' ∈ targets k → VisitBasicBlockData b' ∈ body_visits tcx d;
  cb_switch b l : (b, SwitchInt l) ∈ blocks tcx d → l ≠ [];
}.
(** All bodies that are translated from [d] on. *)
Definition complete (d : DefId) : Prop := ∀ d', rtc (calls tcx) d d' → complete_body d'.

Lemma complete_here d : complete d → complete_body d.
Proof. intros H. by apply H. Qed.
Lemma complete_callee d callee : complete d → calls tcx d callee → complete callee.
Proof. intros H Hc d' Hd. apply H. by eapply rtc_l. Qed.

(** The same as a computation. *)
Definition has_block (visits : list VisitorCall) (b : N) : bool :=
  existsb (λ v, match v with VisitBasicBlockData b' => (b =? b')%N | _ => false end) visits.
Definition ends_well (visits : list VisitorCall) (x : N * TerminatorKind) : bool :=
  forallb (has_block visits) (targets x.2) && match x.2 with SwitchInt [] => false | _ => true end.
Definition complete_visits (visits : list VisitorCall) : bool :=
  match visits with VisitBasicBlockData _ :: _ => true | _ => false end
  && forallb (λ v, match v with
                   | VisitBasicBlockData b => existsb (λ x, (x.1 =? b)%N) (terminators None visits)
                   | _ => true
                   end) visits
  && forallb (ends_well visits) (terminators None visits).

Lemma has_block_spec visits b : has_block visits b = true → VisitBasicBlockData b ∈ visits.
Proof.
  unfold has_block. rewrite existsb_exists. intros ([b'| |] & Hv & Hb); try done.
  apply N.eqb_eq in Hb as ->. by apply list_elem_of_In.
Qed.

Lemma complete_visits_spec d : complete_visits (body_visits tcx d) = true → complete_body d.
Proof.
  unfold complete_visits. rewrite !andb_true_iff, !forallb_forall. intros [[Hentry Hterm] Hends].
  assert (Hends' : ∀ b k, (b, k) ∈ blocks tcx d → ends_well (body_visits tcx d) (b, k) = true).
  { intros b k Hk. by apply Hends, list_elem_of_In. }
  split.
  - unfold entry. destruct (body_visits tcx d) as [|[b| |] visits]; try done. by exists b.
  - intros b Hb%list_elem_of_In. specialize (Hterm _ Hb). simpl in Hterm.
    apply existsb_exists in Hterm as ([b' k] & Hin & Heq%N.eqb_eq). simpl in Heq. subst.
    exists k. by apply list_elem_of_In.
  - intros b k b' Hk Hb'. apply Hends' in Hk. apply andb_true_iff in Hk as [Hk _]. simpl in Hk.
    rewrite forallb_forall in Hk. apply has_block_spec, Hk. by apply list_elem_of_In.
  - intros b l Hk ->. apply Hends' in Hk. by apply andb_true_iff in Hk as [_ Hk].
Qed.

(** A set of functions that is closed under calls. *)
Lemma complete_closed (P : DefId → Prop) d :
  (∀ d', P d' → complete_body d') → (∀ d' callee, P d' → calls tcx d' callee → P callee) → P d → complete d.
Proof. intros Hb Hc HP d' Hd. apply Hb. induction Hd as [|d1 d2 d3 H _ IH]; [done|]. eauto. Qed.

(** Blocks that a body has or names. *)
Definition named (d : DefId) (b : N) : Prop :=
  VisitBasicBlockData b ∈ body_visits tcx d ∨ ∃ a k, (a, k) ∈ blocks tcx d ∧ b ∈ targets k.

Lemma complete_named d b : complete_body d → named d b → ∃ k, (b, k) ∈ blocks tcx d.
Proof. intros H [Hb|(a & k & Ha & Hb)]; [by apply H|]. by eapply (cb_terminator _ H), cb_targets. Qed.

Lemma terminators_visited active visits b k :
  (b, k) ∈ terminators active visits → VisitTerminator k ∈ visits.
Proof.
  revert active. induction visits as [|[b'|p r|k'] visits IH]; intros active; simpl; [by intros ?%not_elem_of_nil|..].
  - intros H%IH. by right.
  - intros H%IH. by right.
  - destruct active; rewrite ?elem_of_cons; [intros [[= _ ->]|H%IH]|intros H%IH]; auto.
Qed.
End sequential_flow.
