(* ===== verification/Cfg.v ===== *)
(** * The control-flow graph of a sequential program

    The reference for the exact theorems, in terms of MIR alone: the blocks to
    which a terminator can pass control, those that one activation of a function
    comes to, and those that a program comes to through its calls.  As in MIR, a
    call, drop or assertion may always unwind, and unwinding goes on in the
    cleanup block if the terminator names one; a call goes on in its target once
    the callee has come to a [Return].  The graph knows nothing of nets; how
    [SequentialFlow] leaves functions is shown to be what it allows. *)

From S2P Require Import Prelude RustStr Netcrab Naming Rustc Function Heap Memory Sync ControlFlow SequentialFlow.

Section graph.
Context (tcx : TyCtxt).
Implicit Types (d callee : DefId) (b r : N) (k : TerminatorKind).

(** [passes d k b']: whatever the MIR of a callee does, a block of [d] that ends
    in [k] can pass control to [b']. *)
Definition passes d k (b' : N) : Prop :=
  match k with
  | Goto target => b' = target
  | SwitchInt targets => b' ∈ targets
  | Drop _ target u | Assert target u => b' = target ∨ u = UnwindCleanup b'
  | Call func _ _ target u => ∃ callee, callee_of tcx d func callee ∧
      (u = UnwindCleanup b' ∨ target = Some b' ∧ mir_call tcx callee = false)
  | _ => False
  end.

(** The blocks that an activation of a function comes to. *)
Inductive within : DefId → N → Prop :=
  | within_entry d b : entry tcx d b → within d b
  | within_edge d b k b' : within d b → (b, k) ∈ blocks tcx d → passes d k b' → within d b'
  | within_return d b func args destination b' u callee r :
      within d b → (b, Call func args destination (Some b') u) ∈ blocks tcx d →
      callee_of tcx d func callee → mir_call tcx callee = true →
      within callee r → (r, Return) ∈ blocks tcx callee → within d b'.

(** The function can return. *)
Definition returning d : Prop := ∃ r, within d r ∧ (r, Return) ∈ blocks tcx d.

(** The blocks that a program comes to when [d] is called. *)
Inductive comes d : DefId → N → Prop :=
  | comes_within b : within d b → comes d d b
  | comes_call d' b func args destination target u callee b' :
      comes d d' b → (b, Call func args destination target u) ∈ blocks tcx d' →
      callee_of tcx d' func callee → mir_call tcx callee = true →
      within callee b' → comes d callee b'.

(** Control comes to a terminator of this kind, in [d] or in what it calls. *)
Definition comes_to d (ev : DefId → TerminatorKind → Prop) : Prop :=
  ∃ d' b k, comes d d' b ∧ (b, k) ∈ blocks tcx d' ∧ ev d' k.

(** ** What can be come to *)

(** A call of [callee] with this target and this unwind action. *)
Definition calls_with d k (target : option N) (u : UnwindAction) callee : Prop :=
  ∃ func args destination, k = Call func args destination target u ∧ callee_of tcx d func callee.

(** A point that MIR declares unreachable: the terminator, or unwinding there. *)
Definition unreachable_point d k : Prop :=
  k = Unreachable ∨ (∃ p target, k = Drop p target UnwindUnreachable) ∨
  (∃ target, k = Assert target UnwindUnreachable) ∨
  ∃ target callee, calls_with d k target UnwindUnreachable callee.

(** The end of an unwinding; a call of one of the panic functions of the standard
    library that has no block to go on in, neither to return to nor for cleaning
    up; or a call that must not unwind. *)
Definition shown_panic d k : Prop :=
  k = UnwindResume ∨ k = UnwindTerminate ∨
  (∃ callee, calls_with d k None UnwindContinue callee ∧ is_panic_function (def_path_str tcx callee) = true) ∨
  ∃ target callee, calls_with d k target UnwindActionTerminate callee.

(** A call that has no block to go on in, of any other function. *)
Definition dead_end d k : Prop :=
  ∃ callee, calls_with d k None UnwindContinue callee ∧ is_panic_function (def_path_str tcx callee) = false.

(** ** Programs for which the graph is exact *)

(** No call is a method of a mutex, and a function with MIR that is called
    without a target is called without cleanup, too. *)
Record plain_calls : Prop := {
  pc_mutex d b func args destination target u callee :
    (b, Call func args destination target u) ∈ blocks tcx d → callee_of tcx d func callee →
    mutex_access tcx d callee args = false;
  pc_cleanup d b func args destination u callee :
    (b, Call func args destination None u) ∈ blocks tcx d → callee_of tcx d func callee →
    mir_call tcx callee = true → u = UnwindContinue;
}.

(** Functions with MIR are called only where they can return to. *)
Definition calls_have_targets : Prop :=
  ∀ d b func args destination u callee,
    (b, Call func args destination None u) ∈ blocks tcx d → callee_of tcx d func callee →
    mir_call tcx callee = false.

(** ** The graph and the ways to leave a function *)

Definition event (o : exit) : DefId → TerminatorKind → Prop :=
  match o with
  | Returning => λ _ k, k = Return
  | Panicking => shown_panic
  | Ending => unreachable_point
  | Diverging => dead_end
  end.

Lemma comes_trans d d1 b callee d2 b2 func args destination target u :
  comes d d1 b → (b, Call func args destination target u) ∈ blocks tcx d1 →
  callee_of tcx d1 func callee → mir_call tcx callee = true → comes callee d2 b2 → comes d d2 b2.
Proof. intros H1 Hk Hc Hm. induction 1; by eapply comes_call. Qed.

Lemma jumps_edge d k b' : jumps tcx d k (ToBlock b') → passes d k b'.
Proof.
  destruct k as [| | | | | |p t u|func args dest target u|t u| | | | | |]; simpl; try naive_solver.
  intros (callee & Hc & [[_ ?]|[[Hr Hm]|[Hr _]]]); [done|..]; exists callee; (split; [done|]);
    destruct target, u; naive_solver.
Qed.

Lemma jumps_event d k o : jumps tcx d k (Out o) → event o d k.
Proof.
  unfold event, unreachable_point, shown_panic, dead_end, calls_with.
  destruct k as [| | | | | |p t u|func args dest target u|t u| | | | | |]; simpl; try naive_solver.
  intros (callee & Hc & [[Hr Ho]|[[Hr _]|[Hr _]]]).
  - destruct target, u; try done. destruct (is_panic_function _) eqn:Hp; injection Ho as ->; simpl; eauto 15.
  - destruct target, u; try done; injection Hr as <-; simpl; eauto 15.
  - destruct target, u; try done; injection Hr as <-; simpl; eauto 15.
Qed.

Lemma returns_to_within d b func args destination target u callee b' r :
  within d b → (b, Call func args destination target u) ∈ blocks tcx d → callee_of tcx d func callee →
  mir_call tcx callee = true → within callee r → (r, Return) ∈ blocks tcx callee →
  returns_to target u = Some (ToBlock b') → within d b'.
Proof.
  intros Hw Hk Hc Hm Hr Hret. destruct target as [t|]; simpl; [intros [= <-]; by eapply within_return|].
  destruct u; try done. intros [= <-]. eapply within_edge; [done..|]. simpl. eauto.
Qed.

(** How a function is left is what control comes to in it. *)
Lemma may_comes o d b : may tcx o d b → within d b → if decide (o = Returning) then returning d else comes_to d (event o).
Proof.
  assert (Hev : ∀ o d b k, within d b → (b, k) ∈ blocks tcx d → event o d k →
    if decide (o = Returning) then returning d else comes_to d (event o)).
  { intros o' d' b' k Hw Hk He. case_decide as Ho; [subst; simpl in He; subst; by exists b'|].
    exists d', b', k. split_and!; [by apply comes_within|done..]. }
  induction 1 as [o d b k Hk Hj|o d b k b' Hk Hj _ IH|o d b func args dest target u callee b0 Hk Hc Hm Hr He _ IH
    |o d b func args dest target u callee b0 b' Hk Hc Hm Hr He _ IH1 _ IH2
    |o d b func args dest target u callee b0 Hk Hc Hm Hr Ho He _ IH]; intros Hw.
  - by eapply Hev, jumps_event.
  - apply IH. by eapply within_edge, jumps_edge.
  - eapply Hev; [done..|]. unfold event, shown_panic, unreachable_point, calls_with.
    destruct target, u; try done; injection Hr as <-; simpl; eauto 15.
  - apply IH2. destruct (IH1 (within_entry _ _ He)) as (r & Hr1 & Hr2). by eapply returns_to_within.
  - rewrite decide_False in IH |- * by done. destruct (IH (within_entry _ _ He)) as (d2 & b2 & k & H2 & Hk2 & He2).
    exists d2, b2, k. split_and!; [|done..]. eapply comes_trans; [by apply comes_within|done..].
Qed.

Lemma can_comes o d : o ≠ Returning → can tcx o d → comes_to d (event o).
Proof.
  intros Ho (b & He & Hm). apply may_comes in Hm; [|by apply within_entry]. by rewrite decide_False in Hm.
Qed.
Lemma can_returning d : can tcx Returning d → returning d.
Proof. intros (b & He & Hm). by apply may_comes in Hm; [|by apply within_entry]. Qed.

(** Nothing else can be come to. *)
Section exact.
Context (Hplain : plain_calls).

Lemma edge_next d b k b' : (b, k) ∈ blocks tcx d → passes d k b' → next tcx d k (ToBlock b').
Proof.
  intros Hk He. left.
  destruct k as [| | | | | |p t u|func args dest target u|t u| | | | | |]; simpl in *; try naive_solver.
  destruct He as (callee & Hc & He). exists callee. split; [done|]. right.
  pose proof (pc_mutex Hplain _ _ _ _ _ _ _ _ Hk Hc) as Hm. destruct He as [->|[-> He]].
  - destruct target; [by right|]. left. split; [done|]. apply not_true_is_false. intros Hmir.
    by apply (pc_cleanup Hplain _ _ _ _ _ _ _ Hk Hc) in Hmir.
  - by left.
Qed.

Lemma within_reaches d b : within d b → reaches tcx d b.
Proof.
  induction 1 as [d b He|d b k b' _ IH Hk He|d b func args dest b' u callee r _ IH Hk Hc Hm _ IHr Hr].
  - by apply reaches_entry.
  - eapply reaches_next; [done..|]. by eapply edge_next.
  - eapply reaches_next; [done..|]. right. eexists _, _, _, _, _, _. split_and!; [done..|]. left. split; [done|].
    eapply reaches_may; [done|]. by eapply may_out.
Qed.

Lemma returning_can d : returning d → can tcx Returning d.
Proof. intros (r & Hw & Hr). eapply reaches_may; [by apply within_reaches|]. by eapply may_out. Qed.

(** Calls that go on somewhere if they unwind. *)
Lemma unwinding_call d b func args destination target u callee x :
  (b, Call func args destination target u) ∈ blocks tcx d → callee_of tcx d func callee →
  returns_to None u = Some x → unwinds_to (Some 0%N) u = Some x →
  jumps tcx d (Call func args destination target u) x.
Proof.
  intros Hk Hc Hr Hu. exists callee. split; [done|]. right.
  pose proof (pc_mutex Hplain _ _ _ _ _ _ _ _ Hk Hc) as Hm. destruct target; [by right|].
  left. split; [done|]. apply not_true_is_false. intros Hmir.
  by apply (pc_cleanup Hplain _ _ _ _ _ _ _ Hk Hc) in Hmir as ->.
Qed.

Lemma event_may o d b k : o ≠ Returning → (b, k) ∈ blocks tcx d → event o d k → may tcx o d b.
Proof.
  intros Ho Hk He. apply (may_out _ _ _ _ k Hk). destruct o; [done|..].
  - destruct He as [->|[->|[(callee & (func & args & dest & -> & Hc) & Hp)|(target & callee & func & args & dest & -> & Hc)]]];
      [done..| |by eapply unwinding_call].
    exists callee. split; [done|]. left. by rewrite Hp.
  - destruct He as [->|[(p & target & ->)|[(target & ->)|(target & callee & func & args & dest & -> & Hc)]]];
      [done|by do 2 right..|by eapply unwinding_call].
  - destruct He as (callee & (func & args & dest & -> & Hc) & Hp). exists callee. split; [done|]. left. by rewrite Hp.
Qed.

(** A function with MIR is none of the panic functions. *)
Lemma mir_call_no_panic callee : mir_call tcx callee = true → is_panic_function (def_path_str tcx callee) = false.
Proof.
  unfold mir_call. intros [_ Hf]%andb_true_iff. apply not_true_is_false. intros Hp. revert Hf.
  unfold is_panic_function in Hp. apply bool_decide_eq_true in Hp. unfold is_foreign_function.
  repeat (apply elem_of_cons in Hp as [->|Hp]; [done|]). by apply not_elem_of_nil in Hp.
Qed.

(** What control comes to through calls is a way to leave [d]; a call without a
    target is one itself. *)
Lemma comes_can o d d' b :
  o ≠ Returning → (o = Diverging ∨ calls_have_targets) → comes d d' b → may tcx o d' b → can tcx o d.
Proof.
  intros Ho Hor. induction 1 as [b Hw|d' b func args dest target u callee b' Hd IH Hk Hc Hm Hw]; intros Hmay.
  - eapply reaches_may; [by apply within_reaches|done].
  - apply IH. assert (Hcan : can tcx o callee) by (eapply reaches_may; [by apply within_reaches|done]).
    destruct Hcan as (b0 & He & Hmay0). destruct (returns_to target u) as [x|] eqn:Hr.
    + eapply may_in_call; [exact Hk|exact Hc|exact Hm|by rewrite Hr|exact Ho|exact He|exact Hmay0].
    + destruct target; [done|]. destruct u; try done. destruct Hor as [->|Ht].
      * eapply may_out; [done|]. exists callee. split; [done|]. left. by rewrite mir_call_no_panic.
      * by rewrite (Ht _ _ _ _ _ _ _ Hk Hc) in Hm.
Qed.

Lemma comes_to_can o d :
  o ≠ Returning → (o = Diverging ∨ calls_have_targets) → comes_to d (event o) → can tcx o d.
Proof. intros Ho Hor (d' & b & k & Hd & Hk & He). eapply comes_can; [done..|]. by eapply event_may. Qed.

Lemma can_dead_end d : can tcx Diverging d ↔ comes_to d dead_end.
Proof. split; [by apply can_comes|]. by apply (comes_to_can Diverging); [|left]. Qed.
Lemma can_return_iff d : can tcx Returning d ↔ returning d.
Proof. split; [apply can_returning|apply returning_can]. Qed.
Lemma can_end_iff d : calls_have_targets → can tcx Ending d ↔ comes_to d unreachable_point.
Proof. split; [by apply can_comes|]. by apply (comes_to_can Ending); [|right]. Qed.
Lemma can_panic_iff d : calls_have_targets → can tcx Panicking d ↔ comes_to d shown_panic.
Proof. split; [by apply can_comes|]. by apply (comes_to_can Panicking); [|right]. Qed.
End exact.
End graph.
