(* ===== verification/Invariants.v ===== *)
(** * Invariants of the net under construction

    A property of nets that the building steps keep holds of every translated
    net.  The building steps of frames are the same for all programs
    ([NetInvariant]); what synchronization adds is asked for only if the program
    synchronizes ([sync] of [WorldInvariant]).  The theorems about the shape of
    nets are in Shape.v. *)

From S2P Require Import Prelude RustStr DataStructures PriorityQueue Netcrab Naming Rustc Function.
From S2P Require Import Heap Memory Sync MirFunction Translator.

(** ** Frames *)

(** The steps that frames build nets with. *)
Class NetInvariant `{L : PetriNetLib} (I : PetriNet → Prop) := {
  inv_add_place l : keeps I (add_place l);
  inv_connect_places s e l : keeps I (connect_places s e l);
  inv_diverging s f : keeps I (call_diverging_function s f);
}.
#[export] Hint Resolve inv_add_place inv_connect_places inv_diverging : keeps.

Section frames.
Context `{L : PetriNetLib} (I : PetriNet → Prop) {NI : NetInvariant I}.
Implicit Types (f : MirFunction).

Lemma foreign_call_keeps name i ps : keeps I (call_foreign_function name i ps).
Proof. unfold call_foreign_function. destruct (function.foreign_call_transition_labels _ _), ps; solve_keeps. Qed.
Lemma panic_call_keeps s u name : keeps I (call_panic_function s u name).
Proof. unfold call_panic_function. solve_keeps. Qed.

Lemma ensure_block_keeps f b : keeps I (ensure_basic_block f b).
Proof. unfold ensure_basic_block, add_basic_block, basic_block_new. solve_keeps. Qed.
#[local] Hint Resolve ensure_block_keeps : keeps.
Lemma get_or_add_keeps f b : keeps I (get_or_add_basic_block f b).
Proof. unfold get_or_add_basic_block. solve_keeps. Qed.
Lemma get_pair_keeps f b : keeps I (get_pair_active_block_target_block f b).
Proof. unfold get_pair_active_block_target_block. solve_keeps. Qed.
Lemma activate_keeps f b : keeps I (activate_block f b).
Proof. unfold activate_block. solve_keeps. Qed.
#[local] Hint Resolve get_or_add_keeps get_pair_keeps : keeps.
Lemma end_place_keeps f b : keeps I (get_end_place_for_function_call f b).
Proof. unfold get_end_place_for_function_call. solve_keeps. Qed.

Lemma goto_keeps f b : keeps I (goto f b).
Proof. unfold goto, bb_goto. solve_keeps. Qed.
Lemma switch_int_keeps f l : keeps I (switch_int f l).
Proof. unfold switch_int, bb_switch_int. solve_keeps. Qed.
Lemma unwind_keeps f p : keeps I (MirFunction.unwind f p).
Proof. unfold MirFunction.unwind, bb_unwind. solve_keeps. Qed.
Lemma drop_keeps f b c : keeps I (drop f b c).
Proof. unfold drop, bb_drop, bb_drop_cleanup. solve_keeps. Qed.
Lemma assert_keeps f b c : keeps I (assert f b c).
Proof. unfold assert, bb_assert, bb_assert_cleanup. solve_keeps. Qed.
Lemma return_keeps f : keeps I (return_statement f).
Proof. unfold return_statement. solve_keeps. Qed.
Lemma unreachable_keeps f p : keeps I (unreachable f p).
Proof. unfold unreachable, bb_unreachable. solve_keeps. Qed.
End frames.
#[export] Hint Resolve foreign_call_keeps panic_call_keeps activate_keeps end_place_keeps goto_keeps
  switch_int_keeps unwind_keeps drop_keeps assert_keeps return_keeps unreachable_keeps : keeps.

(** ** The world *)

(** Names of the functions that create or use shared objects. *)
Definition synchronizes (function_name : string) : bool :=
  bool_decide (function_name = "std::thread::spawn") || is_supported_function function_name.

(** An invariant of the net and the objects.  With [sync] all operations keep
    it, without only those of programs that do not synchronize. *)
Class WorldInvariant `{L : PetriNetLib} (sync : bool) (I : World → Prop) := {
  wi_net (m : Heap) : NetInvariant (λ n, I (mkWorld n m));
  wi_guard_drop p t m : keeps I (handle_mutex_guard_drop p t m);
  wi_deref_mut r t : keeps I (guard ← on_heap (read_guard r);
                              on_heap (add_deref_mut_transition (guard_mutex guard) t));
  wi_sync_call name i args d ps m :
    sync = true → keeps I (sync_call_function name i args d ps m);
  wi_join_handle m p th : sync = true → keeps I (on_heap (link_join_handle m p th));
  wi_thread th : sync = true → keeps I (on_net (prepare_for_translation th));
  wi_task l k : sync = true → keeps I (run_task l k);
}.

Section worlds.
Context `{L : PetriNetLib} (sync : bool) (I : World → Prop) {WI : WorldInvariant sync I}.

Lemma on_net_keeps {A} (m : ST PetriNet A) :
  (∀ J, NetInvariant J → keeps J m) → keeps I (on_net m).
Proof.
  intros Hm w a w' HI. unfold on_net, zoom. destruct (m (net w)) as [[a' n]|] eqn:E; [|done].
  intros [= _ <-]. eapply (Hm _ (wi_net (heap w))), E. by destruct w.
Qed.
Lemma read_thread_keeps r : keeps I (on_heap (read_thread r)).
Proof.
  intros w a w' HI. unfold on_heap, zoom, read_thread, lift.
  destruct (_ !! _); simpl; [|done]. intros [= _ <-]. by destruct w.
Qed.
End worlds.
#[export] Hint Extern 1 (keeps _ (on_net _)) => eapply on_net_keeps; [eassumption|intros] : keeps.
#[export] Hint Resolve wi_guard_drop read_thread_keeps : keeps.

(** Without shared objects there is no guard to drop. *)
Lemma read_guard_empty `{L : PetriNetLib} r (w : World) :
  heap w = empty_heap → on_heap (read_guard r) w = Err Dangling.
Proof. intros H. unfold on_heap, zoom, read_guard. by rewrite H. Qed.
Lemma guard_drop_empty `{L : PetriNetLib} p t m (w : World) x w' :
  heap w = empty_heap → handle_mutex_guard_drop p t m w = Ok (x, w') → w' = w.
Proof.
  intros Hh. unfold handle_mutex_guard_drop. destruct (is_mutex_guard m p); [|by intros [= _ <-]].
  intros (r & w1 & [_ ->]%lift_ok & H)%st_bind_ok. apply st_bind_ok in H as (g & w2 & H & _).
  by rewrite (read_guard_empty r w Hh) in H.
Qed.

(** ** The translator *)

(** What [on_top] did if it returned. *)
Lemma on_top_ok `{L : PetriNetLib} {A} (m : MirFunction → ST World (A * MirFunction)) rest f t a t' :
  call_stack t = Stack.push rest f → on_top m t = Ok (a, t') →
  ∃ f' w', m f (world t) = Ok ((a, f'), w') ∧ t' = set_call_stack (Stack.push rest f') (set_world w' t).
Proof.
  intros Hs Hrun. apply st_bind_ok in Hrun as (s & t1 & [= <- <-] & Hrun).
  apply st_bind_ok in Hrun as ([f0 put] & t2 & Hp & Hrun). rewrite Hs in Hp.
  destruct (Stack.peek_mut_push rest f) as (w & Hw & Hput). unfold lift in Hp. rewrite Hw in Hp.
  injection Hp as <- <- <-. apply st_bind_ok in Hrun as ([a' f'] & t3 & Hm & Hrun).
  apply st_bind_ok in Hrun as ([] & t4 & [= <-] & [= -> <-]).
  unfold on_world, zoom in Hm. destruct (m f (world t)) as [[[a' f''] w']|]; [|done].
  injection Hm as -> -> <-. exists f', w'. by rewrite Hput.
Qed.

(** A program that does not synchronize: whatever a call of its MIR resolves
    to is no function that creates or uses shared objects. *)
Definition sequential (tcx : TyCtxt) : Prop :=
  ∀ d d' func args destination target unwind callee,
    VisitTerminator (Call func args destination target unwind) ∈ body_visits tcx d →
    extract_def_id_of_called_function_from_operand tcx func d' = Ok callee →
    synchronizes (def_path_str tcx callee) = false.

Section translator.
Context `{L : PetriNetLib} (sync : bool) (I : World → Prop) {WI : WorldInvariant sync I} (tcx : TyCtxt).

(** Without synchronization nothing is ever queued. *)
Definition inv (t : Translator) : Prop :=
  I (world t) ∧ (sync = false → threads t = [] ∧ postprocessing t = BinaryHeap.new).

Lemma on_world_keeps {A} (m : ST World A) : keeps I m → keeps inv (on_world m).
Proof. apply keeps_zoom; [by intros t []|]. by intros t w [_ H] Hw. Qed.
#[local] Hint Resolve on_world_keeps : keeps.
Lemma modify_keeps g :
  (∀ t, world (g t) = world t ∧ threads (g t) = threads t ∧ postprocessing (g t) = postprocessing t) →
  keeps inv (modify g).
Proof.
  intros Hg. apply keeps_modify. intros t [H1 H2]. destruct (Hg t) as (E1 & E2 & E3).
  unfold inv. by rewrite E1, E2, E3.
Qed.
#[local] Hint Extern 1 (keeps inv (modify _)) => by apply modify_keeps : keeps.
(** Queues grow only in programs that synchronize. *)
Lemma modify_sync_keeps g : (∀ t, world (g t) = world t) → sync = true → keeps inv (modify g).
Proof.
  intros Hg Hs. apply keeps_modify. intros t [H1 _]. split; [by rewrite Hg|]. by rewrite Hs.
Qed.

Lemma on_top_keeps {A} (m : MirFunction → ST World (A * MirFunction)) :
  (∀ f, keeps I (m f)) → keeps inv (on_top m).
Proof. intros Hm. unfold on_top. solve_keeps. Qed.
#[local] Hint Extern 1 (keeps inv (on_top _)) => apply on_top_keeps; intros : keeps.
Lemma get_count_inv name : keeps inv (get_count name).
Proof. unfold get_count. solve_keeps. Qed.
Lemma peek_top_keeps : keeps inv peek_top.
Proof. unfold peek_top. solve_keeps. Qed.
#[local] Hint Resolve get_count_inv peek_top_keeps : keeps.

Lemma translator_foreign_keeps name args d ps :
  keeps inv (translator_call_foreign_function tcx name args d ps).
Proof. unfold translator_call_foreign_function. solve_keeps. Qed.
#[local] Hint Resolve translator_foreign_keeps : keeps.
Lemma mem_drop_keeps name args d ps : keeps inv (call_mem_drop tcx name args d ps).
Proof. unfold call_mem_drop. solve_keeps. Qed.
Lemma deref_mutex_keeps name args d ps : keeps inv (call_deref_mutex tcx name args d ps).
Proof.
  unfold call_deref_mutex. apply keeps_bind; [solve_keeps|]. intros a. case_bool_decide; [|solve_keeps].
  apply keeps_bind; [solve_keeps|]. intros r. apply on_top_keeps. intros f.
  apply keeps_bind; [solve_keeps|]. intros g w x w' HI (gd & w1 & H1 & Hw1)%st_bind_ok.
  apply st_bind_ok in Hw1 as ([] & w2 & H2 & [= _ <-]).
  eapply (wi_deref_mut g (get_default a)); [exact HI|]. unfold mbind, st_bind. rewrite H1. exact H2.
Qed.
Lemma unwrap_mutex_keeps name args d ps : keeps inv (call_unwrap_mutex tcx name args d ps).
Proof. unfold call_unwrap_mutex. solve_keeps. Qed.
Lemma self_ref_keeps b args : keeps inv (and_then b (is_self_ref_mutex tcx args)).
Proof. unfold and_then, is_self_ref_mutex. solve_keeps. Qed.
#[local] Hint Resolve mem_drop_keeps deref_mutex_keeps unwrap_mutex_keeps self_ref_keeps : keeps.

Lemma thread_spawn_keeps name args d ps : sync = true → keeps inv (call_thread_spawn tcx name args d ps).
Proof.
  intros Hs. unfold call_thread_spawn. do 2 (apply keeps_bind; [solve_keeps|intros]).
  apply keeps_bind; [|intros; by apply modify_sync_keeps].
  assert (Hj := λ m p th, wi_join_handle m p th Hs). solve_keeps.
Qed.
Lemma sync_function_keeps name args d ps : sync = true → keeps inv (call_sync_function name args d ps).
Proof.
  intros Hs. unfold call_sync_function. apply keeps_bind; [solve_keeps|intros i].
  assert (Hj := λ args d ps m, wi_sync_call name i args d ps m Hs).
  apply keeps_bind; [solve_keeps|]. intros [task|]; [|solve_keeps]. by apply modify_sync_keeps.
Qed.

Section open_recursion.
Context (rec : ST Translator unit) (Hrec : keeps inv rec).

Lemma mir_function_keeps d name ps : keeps inv (call_mir_function rec d name ps).
Proof. unfold call_mir_function. solve_keeps. Qed.
#[local] Hint Resolve mir_function_keeps : keeps.

Lemma start_call_keeps d name args dest ps :
  sync = true ∨ synchronizes name = false → keeps inv (start_function_call tcx rec d name args dest ps).
Proof.
  intros Hs. unfold start_function_call. case_bool_decide; [solve_keeps|].
  apply keeps_bind; [solve_keeps|]. intros [|]; [solve_keeps|].
  apply keeps_bind; [solve_keeps|]. intros [|]; [solve_keeps|]. unfold synchronizes in Hs.
  case_bool_decide; [apply thread_spawn_keeps; naive_solver|].
  destruct (is_supported_function name); [apply sync_function_keeps; naive_solver|]. solve_keeps.
Qed.

Lemma call_places_keeps target u f s pe pp : keeps I (call_places target u f s pe pp).
Proof. unfold call_places. destruct target, u; solve_keeps. Qed.
#[local] Hint Resolve call_places_keeps : keeps.

Lemma on_top_runs {A} (m : MirFunction → ST World (A * MirFunction)) t a t' :
  on_top m t = Ok (a, t') → ∃ f f' w', m f (world t) = Ok ((a, f'), w').
Proof.
  intros (s & t1 & [= <- <-] & H)%st_bind_ok. apply st_bind_ok in H as ([f put] & t2 & [_ ->]%lift_ok & H).
  apply st_bind_ok in H as ([a' f'] & t3 & H3 & H). apply st_bind_ok in H as ([] & t4 & _ & [= -> _]).
  exists f, f'. unfold on_world, zoom in H3. destruct (m f (world t)) as [[? w']|]; [|done].
  injection H3 as -> _. by exists w'.
Qed.

Lemma call_function_keeps func args dest target u :
  (∀ d callee, extract_def_id_of_called_function_from_operand tcx func d = Ok callee →
     sync = true ∨ synchronizes (def_path_str tcx callee) = false) →
  keeps inv (call_function tcx rec func args dest target u).
Proof.
  intros Hs t [] t' HI (pe & t1 & [= <- <-] & H)%st_bind_ok.
  apply st_bind_ok in H as (pp & t2 & [= <- <-] & H).
  apply st_bind_ok in H as ([[d name] ps] & t3 & H3 & H).
  assert (Hd : ∃ d0, extract_def_id_of_called_function_from_operand tcx func d0 = Ok d ∧ name = def_path_str tcx d).
  { apply on_top_runs in H3 as (f & f' & w' & H3).
    apply st_bind_ok in H3 as (d' & w1 & Hd & H3). apply st_bind_ok in H3 as (s & w2 & _ & H3).
    apply st_bind_ok in H3 as ([ps' f3] & w3 & _ & H3). apply st_bind_ok in H3 as ([] & w4 & _ & [= -> -> _ _ _]).
    exists (def_id f). apply lift_ok in Hd as [Hd _]. by rewrite Hd. }
  assert (H3' : inv t3).
  { revert H3. apply (on_top_keeps _); [|done]. intros f. solve_keeps. }
  destruct Hd as (d0 & Hd & ->). destruct ps as [ps|]; [|by injection H as <-].
  revert H. apply keeps_bind; [|solve_keeps|done]. by apply start_call_keeps, (Hs d0).
Qed.

Lemma visit_keeps d call :
  (sync = false → sequential tcx) → call ∈ body_visits tcx d → keeps inv (visit tcx rec call).
Proof.
  intros Hseq Hin. destruct call as [b|p rv|k]; simpl.
  - unfold visit_basic_block_data. solve_keeps.
  - unfold visit_assign. destruct rv as [[]| | |]; solve_keeps.
  - destruct k; simpl; unfold visit_drop, visit_assert;
      lazymatch goal with |- keeps _ (call_function _ _ _ _ _ _ _) => idtac | _ => solve_keeps end.
    apply call_function_keeps. intros d' callee Hc. destruct sync; [by left|right]. by eapply Hseq.
Qed.
End open_recursion.

Lemma translate_top_keeps fuel :
  (sync = false → sequential tcx) → keeps inv (translate_top_call_stack tcx fuel).
Proof.
  intros Hseq. induction fuel as [|fuel IH]; simpl; [solve_keeps|].
  apply keeps_bind; [solve_keeps|]. intros f. apply keeps_bind; [|solve_keeps].
  apply keeps_for_each. intros call Hc. by eapply visit_keeps.
Qed.

Lemma translate_threads_keeps fuel queue_fuel :
  (sync = false → sequential tcx) → keeps inv (translate_threads tcx fuel queue_fuel).
Proof.
  intros Hseq. assert (Htop := translate_top_keeps fuel Hseq).
  induction queue_fuel as [|q IH]; [solve_keeps|]. simpl.
  intros t [] t' HI (queue & t1 & [= <- <-] & H)%st_bind_ok. destruct (threads t) as [|th queue] eqn:Hq.
  { by injection H as <-. }
  assert (Hs : sync = true).
  { apply not_false_iff_true. intros E. destruct HI as [_ H']. destruct (H' E) as [H'' _]. congruence. }
  revert HI H. apply keeps_bind; [by apply modify_sync_keeps|]. intros _. apply keeps_bind; [|done].
  unfold translate_thread. apply keeps_bind; [solve_keeps|]. intros thread.
  assert (Hth := wi_thread thread Hs). unfold push_function_to_call_stack. solve_keeps.
Qed.

Lemma postprocessing_keeps : keeps inv translation_postprocessing.
Proof.
  intros t [] t' HI (h & t1 & [= <- <-] & H)%st_bind_ok.
  assert (Hcase : sync = true ∨ postprocessing t = BinaryHeap.new).
  { destruct (decide (sync = true)) as [|Hf%not_true_iff_false]; [by left|]. right. by apply HI. }
  destruct Hcase as [Hs|Hnew].
  - revert HI H. generalize (S (length (BinaryHeap.data (postprocessing t)))), (@nil MutexRef).
    intros fuel l. revert l t. induction fuel as [|fuel IH]; intros l t HI; [done|]. simpl.
    intros (h & t2 & [= <- <-] & H)%st_bind_ok. destruct (BinaryHeap.pop _ _) as [task h'].
    apply st_bind_ok in H as ([] & t3 & H3 & H).
    assert (HI3 : inv t3) by (eapply (modify_sync_keeps _); [..|exact HI|exact H3]; done).
    destruct task as [k|]; [|by injection H as <-].
    apply st_bind_ok in H as (l' & t4 & H4 & H). eapply IH, H.
    eapply on_world_keeps; [by apply wi_task|exact HI3|exact H4].
  - rewrite Hnew in H. apply st_bind_ok in H as (h & t2 & [= <- <-] & H). rewrite Hnew in H.
    injection H as <-. destruct HI as [H1 H2]. split; [done|]. intros Hs. split; [by apply H2|done].
Qed.

Lemma translator_new_empty t :
  translator_new = Ok t → heap (world t) = empty_heap ∧ threads t = [] ∧ postprocessing t = BinaryHeap.new.
Proof.
  unfold translator_new. intros H. apply outcome_bind_ok in H as ([[[s e] p] n] & _ & [= <-]). done.
Qed.

(** The invariant holds at the end if it holds at the start. *)
Lemma translate_keeps fuel queue_fuel t n :
  (sync = false → sequential tcx) → translator_new = Ok t → I (world t) →
  translate tcx fuel queue_fuel = Ok n → ∃ h, I (mkWorld n h).
Proof.
  intros Hseq Ht HI. unfold translate. rewrite Ht. simpl.
  destruct (run tcx fuel queue_fuel t) as [[[] t']|] eqn:Hrun; [|done]. intros [= <-].
  assert (Hinv : inv t').
  { revert Hrun. apply (keeps_bind inv); [solve_keeps| |].
    - intros main. unfold push_function_to_call_stack.
      assert (H1 := translate_top_keeps fuel Hseq). assert (H2 := translate_threads_keeps fuel queue_fuel Hseq).
      assert (H3 := postprocessing_keeps). solve_keeps.
    - split; [done|]. intros _. by destruct (translator_new_empty _ Ht) as (_ & ? & ?). }
  exists (heap (world t')). destruct Hinv as [H _]. by destruct (world t').
Qed.
End translator.
