(* ===== verification/Shape.v ===== *)
(** * The shape of translated nets

    Two invariants of the net under construction.  For every program: each
    transition consumes a token, so that nothing happens without a cause.  For
    programs that do not synchronize: the net is a state machine, one token
    moves through it. *)

From S2P Require Import Prelude RustStr DataStructures PriorityQueue Netcrab Naming Rustc Function.
From S2P Require Import Heap Memory Sync MirFunction Translator TokenGame Invariants.

Section shape.
Context `{LL : PetriNetLaws}.
Implicit Types (n : PetriNet) (t u : TransitionRef) (p q s e : PlaceRef) (m : Marking).

(** ** Every transition consumes *)

Definition consumes n : Prop := ∀ t, has_transition n t → ∃ p, (0 < pre n t p)%N.

Lemma consumes_add_place l : keeps consumes (add_place l).
Proof.
  intros n p n' HI (_ & _ & _ & Ht & Ha)%add_place_ok u Hu%Ht. destruct (HI u Hu) as (q & Hq).
  exists q. by rewrite (same_pre _ _ Ha).
Qed.
Lemma consumes_grows n n' : (∀ u, has_transition n' u ↔ has_transition n u) → net_grows n n' → consumes n → consumes n'.
Proof.
  intros Ht G HI u Hu%Ht. destruct (HI u Hu) as (q & Hq). exists q. pose proof (grows_pre _ _ G u q). lia.
Qed.
Lemma consumes_arc_pt p t : keeps consumes (add_arc_place_transition p t).
Proof. intros n a n' HI (Ht & _ & _ & _ & _ & G)%add_arc_pt_ok. by eapply consumes_grows. Qed.
Lemma consumes_arc_tp t p : keeps consumes (add_arc_transition_place t p).
Proof. intros n a n' HI (Ht & _ & _ & _ & _ & G)%add_arc_tp_ok. by eapply consumes_grows. Qed.
Lemma consumes_connect s e l : keeps consumes (connect_places s e l).
Proof.
  intros n t n' HI F%connect_places_ok u [->|Hu]%(flow_transitions _ _ _ _ _ F).
  - exists s. rewrite (flow_pre _ _ _ _ _ F), decide_True by done. lia.
  - destruct (HI u Hu) as (q & Hq). exists q. pose proof (grows_pre _ _ (flow_grows _ _ _ _ _ F) u q). lia.
Qed.
#[local] Hint Resolve consumes_add_place consumes_arc_pt consumes_arc_tp consumes_connect : keeps.

(** A transition may be added before its input, if the input follows. *)
Definition consumes_but (X : list TransitionRef) n : Prop :=
  ∀ t, has_transition n t → t ∈ X ∨ ∃ p, (0 < pre n t p)%N.

Lemma consumes_but_nil n : consumes_but [] n ↔ consumes n.
Proof. unfold consumes_but, consumes. setoid_rewrite elem_of_nil. naive_solver. Qed.
Lemma consumes_add_transition X l n t n' :
  consumes_but X n → add_transition l n = Ok (t, n') → consumes_but (t :: X) n' ∧ has_transition n' t.
Proof.
  intros HI (_ & Ht & _ & Ha)%add_transition_ok. split; [|apply Ht; by left].
  intros u [->|Hu]%Ht; [left; by left|]. destruct (HI u Hu) as [|(q & Hq)]; [left; by right|right].
  exists q. by rewrite (same_pre _ _ Ha).
Qed.
Lemma consumes_new_input p t X Y n a n' :
  consumes_but X n → add_arc_place_transition p t n = Ok (a, n') →
  (∀ u, u ∈ X → u = t ∨ u ∈ Y) → consumes_but Y n'.
Proof.
  intros HI Ha HX. revert Ha. intros (Ht & _ & Hpre & Hnew & _ & G)%add_arc_pt_ok u Hu%Ht. destruct (decide (u = t)) as [->|Hne].
  - right. exists p. destruct (decide (pre n t p = 0%N)) as [H0|H0]; [rewrite Hnew by done; lia|].
    pose proof (grows_pre _ _ G t p). lia.
  - destruct (HI u Hu) as [[|]%HX|(q & Hq)]; [done|by left|right].
    exists q. pose proof (grows_pre _ _ G u q). lia.
Qed.
Lemma consumes_but_arc_pt X p t : keeps (consumes_but X) (add_arc_place_transition p t).
Proof.
  intros n a n' HI (Ht & _ & _ & _ & _ & G)%add_arc_pt_ok u Hu%Ht.
  destruct (HI u Hu) as [|(q & Hq)]; [by left|right]. exists q. pose proof (grows_pre _ _ G u q). lia.
Qed.
Lemma consumes_but_arc_tp X t p : keeps (consumes_but X) (add_arc_transition_place t p).
Proof.
  intros n a n' HI (Ht & _ & _ & _ & _ & G)%add_arc_tp_ok u Hu%Ht.
  destruct (HI u Hu) as [|(q & Hq)]; [by left|right]. exists q. pose proof (grows_pre _ _ G u q). lia.
Qed.
Lemma consumes_token p k : keeps consumes (add_token p k).
Proof.
  intros n a n' HI (Ht & Ha & _)%add_token_ok u Hu%Ht. destruct (HI u Hu) as (q & Hq).
  exists q. by rewrite (same_pre _ _ Ha).
Qed.
#[local] Hint Resolve consumes_token : keeps.

Lemma consumes_diverging s name : keeps consumes (call_diverging_function s name).
Proof.
  intros n a n' HI%consumes_but_nil (t & n1 & H1 & H2)%st_bind_ok. apply consumes_but_nil.
  eapply consumes_new_input; [by eapply consumes_add_transition|done|set_solver].
Qed.

Lemma consumes_condvar_new i : keeps consumes (condvar_new i).
Proof.
  intros n c n' HI. unfold condvar_new. destruct (condvar.place_labels i) as [l1 l2].
  intros (w & n1 & H1 & H)%st_bind_ok. apply st_bind_ok in H as (no & n2 & H2 & H).
  apply st_bind_ok in H as ([] & n3 & H3 & H). destruct (condvar.transition_labels i) as [[k1 k2] k3].
  apply st_bind_ok in H as (ws & n4 & H4 & H). apply st_bind_ok in H as (ls & n5 & H5 & H).
  apply st_bind_ok in H as (nr & n6 & H6 & H).
  assert (HI3 : consumes_but [] n3).
  { apply consumes_but_nil. eapply consumes_token, H3. eapply consumes_add_place, H2. by eapply consumes_add_place, H1. }
  assert (HI6 : consumes_but [nr; ls; ws] n6).
  { eapply consumes_add_transition, H6. eapply consumes_add_transition, H5. by eapply consumes_add_transition, H4. }
  clear -HI6 H. apply st_bind_ok in H as ([] & m1 & H1 & H). apply st_bind_ok in H as ([] & m2 & H2 & H).
  apply st_bind_ok in H as ([] & m3 & H3 & H). apply st_bind_ok in H as ([] & m4 & H4 & H).
  apply st_bind_ok in H as ([] & m5 & H5 & H). apply st_bind_ok in H as ([] & m6 & H6 & [= _ <-]).
  apply consumes_but_nil.
  eapply consumes_but_arc_tp, H6. eapply (consumes_new_input _ _ [nr]); [|done|set_solver].
  eapply (consumes_new_input _ _ [nr; ws]); [|done|set_solver]. eapply consumes_but_arc_tp, H3.
  eapply consumes_but_arc_pt, H2. eapply consumes_new_input; [done..|set_solver].
Qed.
#[local] Hint Resolve consumes_diverging consumes_condvar_new : keeps.

#[local] Instance consumes_net : NetInvariant consumes.
Proof. split; intros; solve_keeps. Qed.
#[local] Hint Resolve consumes_net : keeps.

(** The invariant of worlds: whatever the objects are. *)
Definition world_consumes (w : World) : Prop := consumes (net w).

Lemma on_net_consumes {A} (c : ST PetriNet A) : keeps consumes c → keeps world_consumes (on_net c).
Proof. apply keeps_zoom; [done|]. by intros w n _ Hn. Qed.
Lemma on_heap_consumes {A} (c : ST Heap A) : keeps world_consumes (on_heap c).
Proof. apply (keeps_zoom (λ _, True)); [done|by intros w h Hw _|done]. Qed.
#[local] Hint Resolve on_net_consumes on_heap_consumes : keeps.

Lemma sync_call_consumes name i args d ps h :
  keeps world_consumes (sync_call_function name i args d ps h).
Proof.
  unfold sync_call_function. repeat case_match.
  - unfold call_new_condvar. solve_keeps.
  - unfold call_notify_one, link_to_notify_one_call. solve_keeps.
  - unfold call_wait, link_to_wait_call, add_lock_arc, add_unlock_arc. solve_keeps.
  - unfold call_lock, add_lock_arc. solve_keeps.
  - unfold call_new_mutex, mutex_new. solve_keeps.
  - unfold call_join. solve_keeps.
  - solve_keeps.
Qed.

#[local] Instance consumes_world : WorldInvariant true world_consumes.
Proof.
  split.
  - intros h. apply consumes_net.
  - intros. unfold handle_mutex_guard_drop, add_unlock_arc. solve_keeps.
  - intros. solve_keeps.
  - intros. apply sync_call_consumes.
  - intros. solve_keeps.
  - intros. unfold prepare_for_translation. solve_keeps.
  - intros l k _. unfold run_task, link_to_condvar. solve_keeps.
Qed.

Lemma translator_new_consumes (t : Translator) : translator_new = Ok t → consumes (net (world t)).
Proof.
  unfold translator_new. intros H. apply outcome_bind_ok in H as ([[[s e] p] n] & H & [= <-]). simpl.
  revert H. assert (H0 : consumes net_new) by (intros u Hu; by apply new_no_transition in Hu).
  intros H. refine (_ H0 H). match goal with |- consumes _ → ?c _ = _ → _ => assert (Hk : keeps consumes c) by solve_keeps end.
  apply Hk.
Qed.

Lemma translate_consumes tcx fuel queue_fuel n : translate tcx fuel queue_fuel = Ok n → consumes n.
Proof.
  intros Hn. assert (Hn' := Hn). apply outcome_bind_ok in Hn' as (t & Ht & _).
  destruct (translate_keeps true world_consumes tcx fuel queue_fuel t n) as (h & H); try done.
  by apply translator_new_consumes.
Qed.

Lemma consumes_dead n m : consumes n → (∀ p, m p = 0%N) → dead n m.
Proof. intros Hc Hm t [Ht He]. destruct (Hc t Ht) as (p & Hp). specialize (He p). rewrite Hm in He. lia. Qed.

(** C12: nothing happens without a cause: every transition of a translated net
    consumes a token, so that a marking without tokens is dead. *)
Theorem transitions_consume tcx fuel queue_fuel n :
  translate tcx fuel queue_fuel = Ok n →
  (∀ t, has_transition n t → ∃ p, (0 < pre n t p)%N) ∧
  ∀ m, (∀ p, m p = 0%N) → dead n m.
Proof.
  intros Hc%translate_consumes.
  split; [exact Hc|]. intros m. by apply consumes_dead.
Qed.

(** ** Programs that do not synchronize *)

(** One token on a place, and none elsewhere. *)
Definition single (p : PlaceRef) : Marking := λ q, if decide (q = p) then 1%N else 0%N.
Definition nothing : Marking := λ _, 0%N.

(** Each transition takes one token from one place and moves it to another, or
    loses it. *)
Definition moves_one n t : Prop :=
  ∃ p, (∀ q, pre n t q = single p q) ∧ ((∀ q, post n t q = 0%N) ∨ ∃ p', ∀ q, post n t q = single p' q).
Record state_machine (s : PlaceRef) n : Prop := {
  sm_moves t : has_transition n t → moves_one n t;
  sm_start p : marking n p = single s p;
}.

Lemma moves_one_same n n' t :
  (∀ q, pre n' t q = pre n t q) → (∀ q, post n' t q = post n t q) → moves_one n t → moves_one n' t.
Proof.
  intros H1 H2 (p & Hp & Hpost). exists p. split; [intros q; by rewrite H1|].
  destruct Hpost as [H0|(p' & Hp')]; [left; intros q; by rewrite H2|right]. exists p'. intros q. by rewrite H2.
Qed.

#[local] Instance state_machine_net s : NetInvariant (state_machine s).
Proof.
  split.
  - intros l n p n' [HI HM] (_ & _ & Hm & Ht & [H1 H2])%add_place_ok. split; [|intros q; by rewrite Hm].
    intros t Ht'%Ht. by apply (moves_one_same n), HI.
  - intros s1 e l n t n' [HI HM] F%connect_places_ok.
    split; [|intros q; by rewrite (flow_marking _ _ _ _ _ F)].
    intros u Hu. destruct (decide (u = t)) as [->|Hne].
    + exists s1. split; [apply (flow_pre _ _ _ _ _ F)|]. right. exists e. apply (flow_post _ _ _ _ _ F).
    + apply (flow_transitions _ _ _ _ _ F) in Hu as [|Hu]; [done|]. apply (moves_one_same n); [..|by apply HI].
      * intros q. by apply (flow_pre_other _ _ _ _ _ F).
      * intros q. by apply (flow_post_other _ _ _ _ _ F).
  - intros s1 name n a n' [HI HM] (t & n1 & H1 & H2)%st_bind_ok.
    assert (Ht0 := H1). apply add_transition_ok in H1 as (Hf & Ht & Hm & [A1 A2]).
    apply add_arc_pt_ok in H2 as (Ht2 & Hm2 & Hpre & Hnew & Hpost & _).
    destruct (no_transition_arcs n t s1 Hf) as [Hz _].
    split; [|intros q; by rewrite Hm2, Hm]. intros u [->|Hu]%Ht2%Ht.
    + exists s1. split.
      * intros q. unfold single. case_decide; subst; [rewrite Hnew; [done|by rewrite A1]|].
        rewrite Hpre by congruence. rewrite A1. by apply no_transition_arcs.
      * left. intros q. rewrite Hpost, A2. by apply no_transition_arcs.
    + assert (u ≠ t) by (intros ->; done). apply (moves_one_same n); [..|by apply HI].
      * intros q. by rewrite Hpre, A1 by congruence.
      * intros q. by rewrite Hpost, A2.
Qed.

(** Without shared objects no guard can be dropped. *)
Definition sequential_world (s : PlaceRef) (w : World) : Prop :=
  state_machine s (net w) ∧ heap w = empty_heap.

#[local] Instance state_machine_world s : WorldInvariant false (sequential_world s).
Proof.
  split; try done.
  - intros h. destruct (state_machine_net s) as [H1 H2 H3].
    split; [intros l|intros s1 e l|intros s1 name]; intros n a n' [HI Hh] H; (split; [|done]); simpl in *;
      [by eapply H1|by eapply H2|by eapply H3].
  - intros p t h w a w' [HI Hh] ->%guard_drop_empty; done.
  - intros r t w [] w' [HI Hh] (g & w2 & H & _)%st_bind_ok. by rewrite (read_guard_empty r w Hh) in H.
Qed.

Lemma state_machine_reachable s n m :
  state_machine s n → reachable n (marking n) m → (∃ p, m ≡ single p) ∨ m ≡ nothing.
Proof.
  intros [HI HM] Hr. revert Hr. apply (reachable_invariant n (λ m, (∃ p, m ≡ single p) ∨ m ≡ nothing)).
  - intros m1 m2 Heq [[p Hp]|H0]; [left; exists p; by rewrite <-Heq|right; by rewrite <-Heq].
  - intros m1 t Hm [Ht He]. destruct (HI t Ht) as (p & Hp & Hpost).
    assert (Hm1 : m1 ≡ single p).
    { specialize (He p). rewrite Hp in He. unfold single in He. rewrite decide_True in He by done.
      destruct Hm as [[p1 Hp1]|H0]; [|rewrite (H0 p) in He; unfold nothing in He; lia].
      rewrite (Hp1 p) in He. unfold single in He. case_decide as Heq; [by rewrite Heq|lia]. }
    destruct Hpost as [H0|(p' & Hp')].
    + right. intros q. unfold fire. rewrite H0, Hp, (Hm1 q). unfold nothing. lia.
    + left. exists p'. intros q. unfold fire. rewrite Hp', Hp, (Hm1 q). lia.
  - left. exists s. exact HM.
Qed.

Lemma translator_new_single (t : Translator) :
  translator_new = Ok t → state_machine (program_start t) (net (world t)).
Proof.
  unfold translator_new. intros H. apply outcome_bind_ok in H as ([[[s e] p] n] & H & [= <-]). simpl.
  apply st_bind_ok in H as (p1 & n1 & H1 & H). apply st_bind_ok in H as (p2 & n2 & H2 & H).
  apply st_bind_ok in H as (p3 & n3 & H3 & H). apply st_bind_ok in H as ([] & n4 & H4 & [= -> _ _ <-]).
  apply add_place_ok in H1 as (_ & _ & M1 & T1 & _), H2 as (_ & _ & M2 & T2 & _), H3 as (_ & _ & M3 & T3 & _).
  apply add_token_ok in H4 as (T4 & _ & M4).
  assert (H0 : ∀ q, marking net_new q = 0%N).
  { intros q. apply no_place_marking, new_no_place. }
  split.
  - intros u Hu%T4%T3%T2%T1. by apply new_no_transition in Hu.
  - intros q. rewrite M4. unfold single. by case_decide; rewrite M3, M2, M1, H0.
Qed.

Lemma translate_state_machine tcx fuel queue_fuel (t : Translator) n :
  sequential tcx → translator_new = Ok t → translate tcx fuel queue_fuel = Ok n →
  state_machine (program_start t) n.
Proof.
  intros Hseq Ht Hn.
  destruct (translate_keeps false (sequential_world (program_start t)) tcx fuel queue_fuel t n) as (h & [H _]);
    [done|done| |done|done].
  split; [by apply translator_new_single|]. by apply translator_new_empty.
Qed.
End shape.
