(* ===== verification/Reflect.v ===== *)
(** * Frames do what control flow does

    For programs that do not synchronize the net does exactly what the control
    flow of the program can do ([SequentialFlow]).  Every place is given a
    meaning, a proposition about the program, when it is created; a net is sound
    for a meaning if each of its transitions leads from a meaning to one it
    implies.  The other way round, each step of control flow is a path of the
    net.  Here: what the operations of a frame do to a sound net, and the paths
    they add. *)

From S2P Require Import Prelude RustStr Netcrab Naming Rustc Function Heap Memory Sync MirFunction.
From S2P Require Import ControlFlow SequentialFlow TokenGame.

Section reflect.
Context `{LL : PetriNetLaws} (tcx : TyCtxt).
Implicit Types (n : PetriNet) (t : TransitionRef) (p q s e : PlaceRef) (A : PlaceRef → Prop) (f : MirFunction).

(** What a call that never comes back implies, and the two places where the
    program ends. *)
Context (D : Prop) (pe pp : PlaceRef).

(** ** Sound nets *)

(** Each transition leads from places that hold to places that hold; it leads
    somewhere unless [D]. *)
Record sound A n : Prop := {
  so_flow t p q : (0 < pre n t p)%N → (0 < post n t q)%N → A p → A q;
  so_lossy t p : has_transition n t → (0 < pre n t p)%N → A p → D ∨ ∃ q, (0 < post n t q)%N;
}.

(** Later nets have the old places, with their meaning. *)
Definition extends n A n' A' : Prop :=
  ∀ q, has_place n q → has_place n' q ∧ (A' q ↔ A q).

Lemma extends_refl n A : extends n A n A.
Proof. by intros q Hq. Qed.
Lemma extends_trans n1 A1 n2 A2 n3 A3 :
  extends n1 A1 n2 A2 → extends n2 A2 n3 A3 → extends n1 A1 n3 A3.
Proof. intros H1 H2 q [Hq Hq1]%H1. destruct (H2 q Hq) as [H3 H4]. split; [done|]. by rewrite H4. Qed.

(** Some transition takes a token from the place; it can be the one that takes
    it to another place, or the one that loses it. *)
Definition consumed n p : Prop := ∃ t, has_transition n t ∧ (0 < pre n t p)%N.
Definition edge n p q : Prop := ∃ t, has_transition n t ∧ (0 < pre n t p)%N ∧ (0 < post n t q)%N.
Definition path n : PlaceRef → PlaceRef → Prop := rtc (edge n).
Definition lost n p : Prop := ∃ t, has_transition n t ∧ (0 < pre n t p)%N ∧ ∀ q, post n t q = 0%N.

(** How nets grow here: what a transition produces is decided when it is added. *)
Record builds n n' : Prop := {
  bu_grows : net_grows n n';
  bu_post t q : has_transition n t → post n' t q = post n t q;
}.
#[global] Instance builds_preorder : PreOrder builds.
Proof.
  split; [done|]. intros n1 n2 n3 [G1 P1] [G2 P2]. split; [by transitivity n2|].
  intros t q Ht. rewrite P2; [by apply P1|by apply (grows_transition _ _ G1)].
Qed.

Lemma consumed_builds n n' p : builds n n' → consumed n p → consumed n' p.
Proof.
  intros [G _] (t & Ht & Hp). exists t. split; [by apply (grows_transition _ _ G)|].
  pose proof (grows_pre _ _ G t p). lia.
Qed.
Lemma edge_builds n n' p q : builds n n' → edge n p q → edge n' p q.
Proof.
  intros [G _] (t & Ht & Hp & Hq). exists t.
  pose proof (grows_pre _ _ G t p). pose proof (grows_post _ _ G t q).
  split; [by apply (grows_transition _ _ G)|]. split; lia.
Qed.
Lemma path_builds n n' p q : builds n n' → path n p q → path n' p q.
Proof. intros B. apply rtc_subrel. intros p' q'. by apply edge_builds. Qed.
Lemma lost_builds n n' p : builds n n' → lost n p → lost n' p.
Proof.
  intros [G P] (t & Ht & Hp & Hq). exists t. split_and!; [by apply (grows_transition _ _ G)| |].
  - pose proof (grows_pre _ _ G t p). lia.
  - intros q. by rewrite P.
Qed.

Lemma edge_consumed n p q : edge n p q → consumed n p.
Proof. intros (t & Ht & Hp & _). by exists t. Qed.
Lemma lost_consumed n p : lost n p → consumed n p.
Proof. intros (t & Ht & Hp & _). by exists t. Qed.
Lemma edge_path n p q : edge n p q → path n p q.
Proof. apply rtc_once. Qed.

(** ** Building steps *)

Lemma pre_has_place n t p : (0 < pre n t p)%N → ¬ ¬ has_place n p.
Proof. intros H Hn. destruct (no_place_arcs n t p Hn) as [H1 _]. lia. Qed.
Lemma post_has_place n t p : (0 < post n t p)%N → ¬ ¬ has_place n p.
Proof. intros H Hn. destruct (no_place_arcs n t p Hn) as [_ H2]. lia. Qed.

(** A new place can mean anything. *)
Lemma add_place_sound (P : Prop) l A n p n' :
  sound A n → add_place l n = Ok (p, n') →
  ∃ A', sound A' n' ∧ extends n A n' A' ∧ has_place n' p ∧ (A' p ↔ P) ∧
    builds n n' ∧ ∀ q, has_place n' q → q = p ∨ has_place n q.
Proof.
  intros HA Hadd. assert (G := add_place_grows _ _ _ _ Hadd).
  apply add_place_ok in Hadd as (Hf & Hp & _ & Ht & [H1 H2]).
  exists (λ q, if decide (q = p) then P else A q). split_and!; [split|..].
  - intros t q q'. rewrite H1, H2. intros Hq Hq'.
    rewrite !decide_False; [by eapply HA| |]; intros ->.
    + by apply (post_has_place _ _ _ Hq').
    + by apply (pre_has_place _ _ _ Hq).
  - intros t q. rewrite H1. intros Htr%Ht Hq. rewrite decide_False.
    + intros HAq. destruct (so_lossy _ _ HA t q) as [|(q' & Hq')]; [done..|by left|right].
      exists q'. by rewrite H2.
    + intros ->. by apply (pre_has_place _ _ _ Hq).
  - intros q Hq. split; [apply Hp; by right|]. rewrite decide_False; [done|]. by intros ->.
  - apply Hp. by left.
  - by rewrite decide_True.
  - by split.
  - intros q. apply Hp.
Qed.

(** A new transition from [s]: no place is new. *)
Record leaves A n n' s : Prop := {
  lv_sound : sound A n';
  lv_builds : builds n n';
  lv_places q : has_place n' q ↔ has_place n q;
}.
Lemma leaves_extends A n n' s : leaves A n n' s → extends n A n' A.
Proof. intros [_ _ H] q Hq. split; [by apply H|done]. Qed.

(** Connecting places is sound if the first means the second. *)
Lemma connect_sound s e l A n t n' :
  sound A n → connect_places s e l n = Ok (t, n') → (A s → A e) → leaves A n n' s ∧ edge n' s e.
Proof.
  intros HA F%connect_places_ok Hse. split; [split; [split|..]|].
  - intros u p q. destruct (decide (u = t)) as [->|Hne].
    + rewrite (flow_pre _ _ _ _ _ F), (flow_post _ _ _ _ _ F). do 2 case_decide; subst; by try lia.
    + rewrite (flow_pre_other _ _ _ _ _ F), (flow_post_other _ _ _ _ _ F) by done. apply HA.
  - intros u p. destruct (decide (u = t)) as [->|Hne].
    + intros _ _ _. right. exists e. by rewrite (flow_post _ _ _ _ _ F), decide_True.
    + intros [|Hu]%(flow_transitions _ _ _ _ _ F); [done|]. rewrite (flow_pre_other _ _ _ _ _ F) by done.
      intros Hp Ap. destruct (so_lossy _ _ HA u p) as [|(q & Hq)]; [done..|by left|right].
      exists q. by rewrite (flow_post_other _ _ _ _ _ F).
  - split; [apply F|]. intros u q Hu. rewrite (flow_post_other _ _ _ _ _ F); [done|].
    intros ->. by apply (flow_fresh _ _ _ _ _ F).
  - apply F.
  - exists t. split; [apply (flow_transitions _ _ _ _ _ F); by left|].
    by rewrite (flow_pre _ _ _ _ _ F), (flow_post _ _ _ _ _ F), !decide_True.
Qed.

Lemma diverging_sound s name A n a n' :
  sound A n → call_diverging_function s name n = Ok (a, n') → (A s → D) → leaves A n n' s ∧ lost n' s.
Proof.
  intros HA (t & n1 & H1 & H2)%st_bind_ok Hs. destruct (add_transition_grows _ _ _ _ H1) as [G1 Pl1].
  apply add_transition_ok in H1 as (Hf & Ht1 & _ & [P1 Q1]).
  assert (H2' := H2). apply add_arc_pt_ok in H2 as (Ht2 & _ & Hpre & Hnew & Hpost & G2).
  destruct (no_transition_arcs n t s Hf) as [Hz _]. split; [split; [split|..]|].
  - intros u p q Hp Hq. rewrite Hpost, Q1 in Hq. destruct (decide (u = t)) as [->|Hne].
    + destruct (no_transition_arcs n t q Hf) as [_ H0]. lia.
    + rewrite Hpre, P1 in Hp by congruence. by eapply HA.
  - intros u p Hu Hp Ap. destruct (decide (u = t)) as [->|Hne].
    + destruct (decide (p = s)) as [->|Hps]; [left; auto|]. rewrite Hpre, P1 in Hp by congruence.
      destruct (no_transition_arcs n t p Hf) as [H0 _]. lia.
    + apply Ht2, Ht1 in Hu as [|Hu]; [done|]. rewrite Hpre, P1 in Hp by congruence.
      destruct (so_lossy _ _ HA u p) as [|(q & Hq)]; [done..|by left|right]. exists q. by rewrite Hpost, Q1.
  - split; [by transitivity n1|]. intros u q _. by rewrite Hpost, Q1.
  - intros q. rewrite <-Pl1. by eapply add_arc_pt_places.
  - exists t. split_and!; [by apply Ht2, Ht1; left|rewrite Hnew; [done|by rewrite P1]|].
    intros q. rewrite Hpost, Q1. by apply no_transition_arcs.
Qed.


(** ** Frames *)

(** What leaving a frame through [o] means. *)
Definition exit_holds A f (o : exit) : Prop :=
  match o with
  | Returning => A (end_place f)
  | Panicking => A pp
  | Ending => A pe
  | Diverging => D
  end.

(** A frame whose start place means [A (start_place f)]: the place of a block
    means that the frame was started and the block can be reached in it, and the
    places outside mean what leaving the frame implies. *)
Record frame_ok A n f : Prop := {
  fo_start : has_place n (start_place f);
  fo_end : has_place n (end_place f);
  fo_outside : has_place n pe ∧ has_place n pp;
  fo_block b blk : basic_blocks f !! b = Some blk →
    has_place n (bb_place blk) ∧ (A (bb_place blk) ↔ A (start_place f) ∧ reaches tcx (def_id f) b);
  fo_active b : active_block f = Some b → is_Some (basic_blocks f !! b);
  fo_named b : is_Some (basic_blocks f !! b) → named tcx (def_id f) b;
  fo_first : basic_blocks f ≠ ∅ → ∃ b blk, entry tcx (def_id f) b ∧
    basic_blocks f !! b = Some blk ∧ bb_place blk = start_place f;
  fo_out o : A (start_place f) → can tcx o (def_id f) → exit_holds A f o;
}.

(** What the operations of a frame keep. *)
Record same_frame f f' : Prop := {
  sf_def_id : def_id f' = def_id f;
  sf_start : start_place f' = start_place f;
  sf_end : end_place f' = end_place f;
  sf_active : active_block f' = active_block f;
}.
Lemma same_frame_refl f : same_frame f f.
Proof. done. Qed.
Lemma same_frame_trans f1 f2 f3 : same_frame f1 f2 → same_frame f2 f3 → same_frame f1 f3.
Proof. intros [] []. split; congruence. Qed.

(** A frame and the net grow together: new places are places of new blocks, or
    a transition takes their token.  The latter is known of the places of
    callees, if the bodies are complete. *)
Record frame_grows n f n' f' : Prop := {
  fg_builds : builds n n';
  fg_block b blk : basic_blocks f !! b = Some blk → basic_blocks f' !! b = Some blk;
  fg_place q : complete tcx (def_id f) → has_place n' q →
    has_place n q ∨ consumed n' q ∨ ∃ b blk, basic_blocks f' !! b = Some blk ∧ bb_place blk = q;
}.
Lemma frame_grows_refl n f : frame_grows n f n f.
Proof. split; [done..|]. intros q _ Hq. by left. Qed.
Lemma frame_grows_trans n1 f1 n2 f2 n3 f3 :
  def_id f2 = def_id f1 → frame_grows n1 f1 n2 f2 → frame_grows n2 f2 n3 f3 → frame_grows n1 f1 n3 f3.
Proof.
  intros Hd [G1 B1 P1] [G2 B2 P2]. split; [by transitivity n2|auto|]. rewrite Hd in P2.
  intros q Hc [Hq|[Hq|Hq]]%P2; [|by auto..|done].
  destruct (P1 q Hc Hq) as [|[Hq'|(b & blk & Hb & Hp)]]; [by left|right; left|right; right; by eauto].
  by eapply consumed_builds.
Qed.

Lemma frame_ok_extends A n A' n' f : extends n A n' A' → frame_ok A n f → frame_ok A' n' f.
Proof.
  intros E [H1 H2 [Hpe Hpp] H3 H4 H5 H6 H7]. split; [by apply E|by apply E|split; by apply E| |done..|].
  - intros b blk Hb. destruct (H3 b blk Hb) as [Hp Hm]. destruct (E _ Hp) as [Hp' Hm'].
    split; [done|]. rewrite Hm', Hm. destruct (E _ H1) as [_ ->]. done.
  - intros o. destruct (E _ H1) as [_ ->]. intros Hs Hc. specialize (H7 o Hs Hc).
    destruct o; simpl in *; [by apply E|by apply E|by apply E|done].
Qed.

Lemma frame_ok_memory A n f m : frame_ok A n f → frame_ok A n (set_memory f m).
Proof. by intros []. Qed.

(** The result of an operation on a frame. *)
Record frame_step A n f A' n' f' : Prop := {
  fs_sound : sound A' n';
  fs_extends : extends n A n' A';
  fs_ok : frame_ok A' n' f';
  fs_same : same_frame f f';
  fs_grows : frame_grows n f n' f';
}.

Lemma frame_step_refl A n f : sound A n → frame_ok A n f → frame_step A n f A n f.
Proof. by split; [|apply extends_refl| |apply same_frame_refl|apply frame_grows_refl]. Qed.
Lemma frame_step_trans A1 n1 f1 A2 n2 f2 A3 n3 f3 :
  frame_step A1 n1 f1 A2 n2 f2 → frame_step A2 n2 f2 A3 n3 f3 → frame_step A1 n1 f1 A3 n3 f3.
Proof.
  intros [_ E1 _ S1 G1] [H2 E2 F2 S2 G2].
  split; [done|by eapply extends_trans|done|by eapply same_frame_trans|eapply frame_grows_trans, G2; [apply S1|done]].
Qed.
Lemma leaves_step A n f n' s : leaves A n n' s → frame_ok A n f → frame_step A n f A n' f.
Proof.
  intros HL Hf. assert (E := leaves_extends _ _ _ _ HL). destruct HL as [H1 H2 H3].
  split; [done|done|by eapply frame_ok_extends|apply same_frame_refl|].
  split; [done..|]. intros q _ Hq%H3. by left.
Qed.

(** A frame that has no blocks yet begins with the entry block. *)
Lemma ensure_block_sound A n f b f' n' :
  sound A n → frame_ok A n f → (basic_blocks f = ∅ → entry tcx (def_id f) b) → named tcx (def_id f) b →
  ensure_basic_block f b n = Ok (f', n') →
  ∃ A', frame_step A n f A' n' f' ∧ is_Some (basic_blocks f' !! b).
Proof.
  intros HA Hf Hentry Hnamed. unfold ensure_basic_block. destruct (basic_blocks f !! b) as [blk|] eqn:Hb.
  { intros [= <- <-]. exists A. split; [by apply frame_step_refl|]. by rewrite Hb. }
  unfold add_basic_block. intros (blk & n1 & H1 & H2)%st_bind_ok. rewrite Hb in H2. injection H2 as <- <-.
  apply st_bind_ok in H1 as (p & n2 & H2 & [= <- <-]).
  assert (∃ A', sound A' n2 ∧ extends n A n2 A' ∧ has_place n2 p ∧
    (A' p ↔ A (start_place f) ∧ reaches tcx (def_id f) b) ∧ builds n n2 ∧
    (∀ q, has_place n2 q → q = p ∨ has_place n q) ∧
    (basic_blocks f = ∅ → p = start_place f)) as (A' & HA' & E & Hp & Hm & G & Hnew & Hfirst).
  { unfold prepare_start_place_for_next_basic_block in H2. case_bool_decide as Hempty.
    - injection H2 as <- <-. exists A. split_and!; [done|apply extends_refl|apply Hf| |done|auto|done].
      split; [intros H; split; [done|]|tauto]. by apply reaches_entry, Hentry.
    - eapply add_place_sound in H2 as (A' & ? & ? & ? & ? & ? & ?); [|done]. exists A'. by split_and!. }
  assert (Hf' := frame_ok_extends _ _ _ _ _ E Hf). destruct Hf' as [F1 F2 F2' F3 F4 F5 F6 F7].
  exists A'. split; [|simpl; by rewrite lookup_insert_eq]. split; simpl; [done|done| |done|].
  - split; simpl; [done|done|done|..|done].
    + intros b0 blk. rewrite lookup_insert_Some. intros [[<- <-]|[_ Hb0]]; [|by apply F3].
      simpl. split; [done|]. rewrite Hm. by destruct (E _ (fo_start _ _ _ Hf)) as [_ ->].
    + intros b0 Hb0. rewrite lookup_insert_is_Some'. right. by apply F4.
    + intros b0. rewrite lookup_insert_is_Some'. intros [<-|Hb0]; [done|by apply F5].
    + intros _. destruct (decide (basic_blocks f = ∅)) as [He|He].
      * eexists b, _. rewrite lookup_insert_eq, Hfirst by done. split; [by apply Hentry|done].
      * destruct (F6 He) as (b0 & blk & He0 & Hb0 & Hbp). exists b0, blk. split_and!; [done| |done].
        rewrite lookup_insert_ne; [done|congruence].
  - split; simpl; [done| |].
    + intros b0 blk Hb0. rewrite lookup_insert_ne; [done|]. congruence.
    + intros q _ [->|Hq]%Hnew; [right; right|by left]. eexists b, _. by rewrite lookup_insert_eq.
Qed.

(** ** Meaning and paths *)

(** A place that means that a block can be reached in a frame. *)
Definition means A n f b p : Prop :=
  has_place n p ∧ (A p ↔ A (start_place f) ∧ reaches tcx (def_id f) b).

(** The place to which control goes; after a call that never comes back there
    is none. *)
Definition dest_place f (x : dest) (p : PlaceRef) : Prop :=
  match x with
  | ToBlock b => ∃ blk, basic_blocks f !! b = Some blk ∧ bb_place blk = p
  | Out Returning => p = end_place f
  | Out Panicking => p = pp
  | Out Ending => p = pe
  | Out Diverging => False
  end.

(** The net can take the token from [p] to where control goes, or lose it. *)
Definition arrives n f p (x : dest) : Prop :=
  (∃ q, dest_place f x q ∧ path n p q) ∨ (x = Out Diverging ∧ ∃ q, path n p q ∧ lost n q).

Lemma dest_has_place A n f x p : frame_ok A n f → dest_place f x p → has_place n p.
Proof.
  intros Hf. destruct x as [b|[| | |]]; simpl; [|intros ->; apply Hf..|done].
  intros (blk & Hb & <-). by apply (fo_block _ _ _ Hf b).
Qed.
Lemma dest_place_grows n f n' f' x p :
  frame_grows n f n' f' → end_place f' = end_place f → dest_place f x p → dest_place f' x p.
Proof.
  intros [_ B _] He. destruct x as [b|[| | |]]; simpl; rewrite ?He; try done.
  intros (blk & Hb & <-). exists blk. auto.
Qed.
Lemma arrives_grows n f n' f' p x :
  frame_grows n f n' f' → end_place f' = end_place f → arrives n f p x → arrives n' f' p x.
Proof.
  intros G He. assert (B := fg_builds _ _ _ _ G).
  intros [(q & Hq & Hp)|(-> & q & Hp & Hq)]; [left|right; split; [done|]]; exists q.
  - split; [by eapply dest_place_grows|by eapply path_builds].
  - split; [by eapply path_builds|by eapply lost_builds].
Qed.

Lemma arrives_after n f p q x : path n p q → arrives n f q x → arrives n f p x.
Proof.
  intros Hp [(r & Hr & Hq)|(-> & r & Hq & Hr)]; [left|right; split; [done|]]; exists r.
  - split; [done|by etransitivity].
  - split; [by etransitivity|done].
Qed.

(** A step of control flow leads from what holds to what holds. *)
Lemma next_holds A n f a s k x p :
  frame_ok A n f → means A n f a s → (a, k) ∈ blocks tcx (def_id f) → next tcx (def_id f) k x →
  dest_place f x p → A s → A p.
Proof.
  intros Hf [_ Hs] Ha Hx Hp As. apply Hs in As as [As Hr]. destruct x as [b|o].
  - destruct Hp as (blk & Hb & <-). apply (fo_block _ _ _ Hf b blk Hb). split; [done|]. by eapply reaches_next.
  - assert (Ho : exit_holds A f o) by (eapply fo_out, reaches_may, may_next_out; done).
    destruct o; simpl in Hp; [by subst..|done].
Qed.
Lemma next_diverges A n f a s k :
  frame_ok A n f → means A n f a s → (a, k) ∈ blocks tcx (def_id f) →
  next tcx (def_id f) k (Out Diverging) → A s → D.
Proof.
  intros Hf [_ Hs] Ha Hx As. apply Hs in As as [As Hr].
  apply (fo_out _ _ _ Hf Diverging As). by eapply reaches_may, may_next_out.
Qed.

Lemma active_block_ok f ab :
  get_active_block f = Ok ab ↔ ∃ a, active_block f = Some a ∧ basic_blocks f !! a = Some ab.
Proof.
  unfold get_active_block, expect. destruct (active_block f) as [a|]; simpl; [|naive_solver].
  destruct (basic_blocks f !! a) eqn:E; split; naive_solver.
Qed.
Lemma active_means A n f ab :
  frame_ok A n f → get_active_block f = Ok ab →
  ∃ a, active_block f = Some a ∧ means A n f a (bb_place ab).
Proof. intros Hf (a & Ha & Hab)%active_block_ok. exists a. split; [done|]. by apply Hf. Qed.

(** The active block and its place stay. *)
Lemma active_block_step A n f A' n' f' ab :
  frame_ok A n f → frame_step A n f A' n' f' →
  get_active_block f' = Ok ab ↔ get_active_block f = Ok ab.
Proof.
  intros Hf [_ _ _ [_ _ _ Ha] [_ B _]]. rewrite !active_block_ok, Ha. split; intros (a & Hact & Hab); exists a.
  - split; [done|]. destruct (fo_active _ _ _ Hf a Hact) as [ab' Hab']. rewrite (B _ _ Hab') in Hab. congruence.
  - auto.
Qed.

(** The token of the active block can go on, and to where it can go. *)
Definition active_consumed n f : Prop := ∀ ab, get_active_block f = Ok ab → consumed n (bb_place ab).
Definition active_arrives n f (x : dest) : Prop :=
  ∀ ab, get_active_block f = Ok ab → arrives n f (bb_place ab) x.

Lemma active_consumed_step A n f A' n' f' :
  frame_ok A n f → frame_step A n f A' n' f' → active_consumed n f → active_consumed n' f'.
Proof.
  intros Hf HS H ab Hab. eapply consumed_builds; [apply HS|]. apply H. by apply (active_block_step _ _ _ _ _ _ _ Hf HS).
Qed.
Lemma active_arrives_step A n f A' n' f' x :
  frame_ok A n f → frame_step A n f A' n' f' → active_arrives n f x → active_arrives n' f' x.
Proof.
  intros Hf HS H ab Hab. eapply arrives_grows; [apply HS..|]. apply H. by apply (active_block_step _ _ _ _ _ _ _ Hf HS).
Qed.

(** The active block ends in the terminator [k]. *)
Definition at_terminator f (k : TerminatorKind) : Prop :=
  ∀ a, active_block f = Some a → (a, k) ∈ blocks tcx (def_id f).

Lemma at_terminator_same f f' k : same_frame f f' → at_terminator f k → at_terminator f' k.
Proof. intros [H1 _ _ H2] H a. rewrite H1, H2. apply H. Qed.

(** A transition from the active block to where its terminator goes. *)
Lemma edge_to A n f k x p ab l t n' :
  sound A n → frame_ok A n f → at_terminator f k → get_active_block f = Ok ab →
  next tcx (def_id f) k x → dest_place f x p → connect_places (bb_place ab) p l n = Ok (t, n') →
  frame_step A n f A n' f ∧ active_arrives n' f x ∧ active_consumed n' f.
Proof.
  intros HA Hf Hk Hab Hx Hp Hc. destruct (active_means _ _ _ _ Hf Hab) as (a & Ha & Hm).
  destruct (connect_sound _ _ _ _ _ _ _ HA Hc) as [HL He]; [by eapply next_holds, Hp; [..|apply Hk|]|].
  split; [by eapply leaves_step|]. split; intros ab'; rewrite Hab; intros [= <-].
  - left. exists p. split; [done|]. by apply edge_path.
  - by eapply edge_consumed.
Qed.

Lemma ensure_block_active f b f' n n' :
  ensure_basic_block f b n = Ok (f', n') → active_block f' = active_block f.
Proof.
  unfold ensure_basic_block. destruct (basic_blocks f !! b) eqn:Hb; [by intros [= <- _]|].
  intros (blk & m1 & _ & H1)%st_bind_ok. rewrite Hb in H1. by injection H1 as <- _.
Qed.

(** A block that the terminator of the active block names. *)
Lemma target_block_sound A n f k b f' n' :
  sound A n → frame_ok A n f → at_terminator f k → b ∈ targets k → is_Some (active_block f) →
  ensure_basic_block f b n = Ok (f', n') → ∃ A', frame_step A n f A' n' f' ∧ is_Some (basic_blocks f' !! b).
Proof.
  intros HA Hf Hk Hb [a Ha]. apply ensure_block_sound; [done|done| |].
  - intros E. destruct (fo_active _ _ _ Hf a Ha) as [ab Hab]. by rewrite E in Hab.
  - right. exists a, k. split; [by apply Hk|done].
Qed.

(** The block at which a call goes on. *)
Lemma end_place_sound A n f k b p f' n' :
  sound A n → frame_ok A n f → at_terminator f k → b ∈ targets k → is_Some (active_block f) →
  get_end_place_for_function_call f b n = Ok ((p, f'), n') →
  ∃ A', frame_step A n f A' n' f' ∧ dest_place f' (ToBlock b) p.
Proof.
  intros HA Hf Hk Hb Ha ([blk f1] & n1 & H1 & [= <- <- <-])%st_bind_ok.
  apply st_bind_ok in H1 as (f2 & n2 & H1 & H). apply st_bind_ok in H as (blk' & n3 & [Hblk ->]%lift_ok & [= -> -> ->]).
  destruct (target_block_sound A n f k b f1 n1) as (A' & S & _); [done..|].
  exists A'. split; [done|]. exists blk. split; [|done].
  unfold expect in Hblk. by destruct (basic_blocks f1 !! b); [injection Hblk as ->|].
Qed.

(** A transition from the active block to another one. *)
Lemma edge_sound A n f b k ab tb f1 n1 l t n' :
  sound A n → frame_ok A n f → at_terminator f k → next tcx (def_id f) k (ToBlock b) →
  get_pair_active_block_target_block f b n = Ok ((ab, tb, f1), n1) →
  connect_places (bb_place ab) (bb_place tb) l n1 = Ok (t, n') →
  ∃ A', frame_step A n f A' n' f1 ∧ active_arrives n' f1 (ToBlock b) ∧ active_consumed n' f1.
Proof.
  intros HA Hf Hk Hx (f2 & n2 & H1 & H)%st_bind_ok Hc.
  apply st_bind_ok in H as (tb' & n3 & [Ht ->]%lift_ok & H).
  apply st_bind_ok in H as (ab' & n4 & [Hab ->]%lift_ok & [= -> -> -> ->]).
  assert (Hact : is_Some (active_block f)).
  { rewrite <-(ensure_block_active _ _ _ _ _ H1). apply active_block_ok in Hab as (a & -> & _). by exists a. }
  destruct (target_block_sound A n f k b f1 n1) as (A' & S & _); [done|done|done|by eapply next_targets|done..|].
  assert (S' := S). destruct S' as [HA1 _ F1 SF1 _].
  destruct (edge_to A' n1 f1 k (ToBlock b) (bb_place tb) ab l t n') as (S2 & Harr & Hcons);
    [done|done|by eapply at_terminator_same|done|by rewrite (sf_def_id _ _ SF1)| |done|].
  { exists tb. split; [|done]. unfold expect in Ht. by destruct (basic_blocks f1 !! b); [injection Ht as ->|]. }
  exists A'. split; [by eapply frame_step_trans|done].
Qed.

(** ** The operations *)

Lemma activate_sound A n f b f' n' :
  sound A n → frame_ok A n f → (basic_blocks f = ∅ → entry tcx (def_id f) b) →
  VisitBasicBlockData b ∈ body_visits tcx (def_id f) → activate_block f b n = Ok (f', n') →
  ∃ A' f1, frame_step A n f A' n' f1 ∧ f' = set_active_block f1 (Some b) ∧ frame_ok A' n' f'.
Proof.
  intros HA Hf He Hb (f1 & n1 & H1 & [= <- <-])%st_bind_ok.
  destruct (ensure_block_sound _ _ _ _ _ _ HA Hf He (or_introl Hb) H1) as (A' & S & Hblk).
  exists A', f1. split_and!; [done..|]. destruct (fs_ok _ _ _ _ _ _ S). split; [done..| |done|done|done].
  by intros b' [= <-].
Qed.

Lemma goto_sound A n f target f' n' :
  sound A n → frame_ok A n f → at_terminator f (Goto target) → goto f target n = Ok (f', n') →
  ∃ A', frame_step A n f A' n' f' ∧ active_arrives n' f' (ToBlock target) ∧ active_consumed n' f'.
Proof.
  intros HA Hf Hk ([[ab tb] f1] & n1 & H1 & H)%st_bind_ok.
  apply st_bind_ok in H as ([] & n2 & (t & n3 & Hc & [= <-])%st_bind_ok & [= <- <-]).
  eapply edge_sound; [done..|by left|done|done].
Qed.

Lemma switch_int_sound A n f targets f' n' :
  sound A n → frame_ok A n f → at_terminator f (SwitchInt targets) →
  switch_int f targets n = Ok (f', n') →
  ∃ A', frame_step A n f A' n' f' ∧ (∀ b, b ∈ targets → active_arrives n' f' (ToBlock b)) ∧
    (targets ≠ [] → active_consumed n' f').
Proof.
  unfold switch_int. intros HA Hf Hk.
  assert (Hsub : ∀ b, b ∈ targets → b ∈ targets) by done. revert Hsub.
  generalize targets at 1 3 4 5 as l. intros l. revert A n f HA Hf Hk.
  induction l as [|b l IH]; intros A n f HA Hf Hk Hsub; simpl.
  - intros [= <- <-]. exists A. split_and!; [by apply frame_step_refl|by intros b ?%not_elem_of_nil|done].
  - intros (f1 & n1 & H1 & H)%st_bind_ok.
    apply st_bind_ok in H1 as ([[ab tb] f2] & n2 & H1 & H2).
    apply st_bind_ok in H2 as ([] & n3 & (t & n4 & Hc & [= <-])%st_bind_ok & [= <- <-]).
    assert (Hx : next tcx (def_id f) (SwitchInt targets) (ToBlock b)).
    { left. exists b. split; [|done]. apply Hsub. by left. }
    destruct (edge_sound _ _ _ _ _ _ _ _ _ _ _ _ HA Hf Hk Hx H1 Hc) as (A1 & S1 & R1 & C1).
    assert (S1' := S1). destruct S1' as [HA1 _ F1 SF1 _].
    destruct (IH A1 n4 f2) as (A2 & S2 & R2 & _); [done|done|by eapply at_terminator_same| |done|].
    { intros b' Hb'. apply Hsub. by right. }
    exists A2. split_and!; [by eapply frame_step_trans| |intros _; by eapply active_consumed_step].
    intros b' [->|Hb']%elem_of_cons; [by eapply active_arrives_step|by apply R2].
Qed.

(** Dropping and asserting: a transition to the target and one to the cleanup. *)
Lemma two_edges A n f k b c ab tb f1 n1 l t n2 ab' cb f2 n3 l' t' n' :
  sound A n → frame_ok A n f → at_terminator f k →
  next tcx (def_id f) k (ToBlock b) → next tcx (def_id f) k (ToBlock c) →
  get_pair_active_block_target_block f b n = Ok ((ab, tb, f1), n1) →
  connect_places (bb_place ab) (bb_place tb) l n1 = Ok (t, n2) →
  get_pair_active_block_target_block f1 c n2 = Ok ((ab', cb, f2), n3) →
  connect_places (bb_place ab') (bb_place cb) l' n3 = Ok (t', n') →
  ∃ A', frame_step A n f A' n' f2 ∧ active_arrives n' f2 (ToBlock b) ∧
    active_arrives n' f2 (ToBlock c) ∧ active_consumed n' f2.
Proof.
  intros HA Hf Hk Hb Hc H1 H2 H3 H4.
  destruct (edge_sound _ _ _ _ _ _ _ _ _ _ _ _ HA Hf Hk Hb H1 H2) as (A1 & S1 & R1 & _).
  assert (S1' := S1). destruct S1' as [HA1 _ F1 SF1 _]. rewrite <-(sf_def_id _ _ SF1) in Hc.
  destruct (edge_sound _ _ _ _ _ _ _ _ _ _ _ _ HA1 F1 (at_terminator_same _ _ _ SF1 Hk) Hc H3 H4) as (A2 & S2 & R2 & C2).
  exists A2. split_and!; [by eapply frame_step_trans|by eapply active_arrives_step|done|done].
Qed.

(** The cleanup block of a drop or an assertion. *)
Definition cleans_up (u : UnwindAction) (c : option N) : Prop := ∀ b, u = UnwindCleanup b ↔ c = Some b.

Lemma drop_sound A n f place target u c r f' n' :
  sound A n → frame_ok A n f → at_terminator f (Drop place target u) → cleans_up u c →
  drop f target c n = Ok ((r, f'), n') →
  ∃ A', frame_step A n f A' n' f' ∧ active_arrives n' f' (ToBlock target) ∧
    (∀ b, u = UnwindCleanup b → active_arrives n' f' (ToBlock b)) ∧ active_consumed n' f'.
Proof.
  intros HA Hf Hk Hc ([[ab tb] f1] & n1 & H1 & H)%st_bind_ok. apply st_bind_ok in H as (t & n2 & H2 & H).
  assert (Ht : next tcx (def_id f) (Drop place target u) (ToBlock target)) by (left; by left).
  destruct c as [cb|].
  - assert (Hu : u = UnwindCleanup cb) by by apply Hc. subst u.
    apply st_bind_ok in H as ([[ab2 cb2] f2] & n3 & H3 & H). apply st_bind_ok in H as (t2 & n4 & H4 & [= _ <- <-]).
    assert (Hx : next tcx (def_id f) (Drop place target (UnwindCleanup cb)) (ToBlock cb)).
    { left; right; left. by exists cb. }
    destruct (two_edges _ _ _ _ _ _ _ _ _ _ _ _ _ _ _ _ _ _ _ _ HA Hf Hk Ht Hx H1 H2 H3 H4) as (A' & S & R1 & R2 & C).
    exists A'. split_and!; [done|done| |done]. by intros b [= <-].
  - injection H as _ <- <-. destruct (edge_sound _ _ _ _ _ _ _ _ _ _ _ _ HA Hf Hk Ht H1 H2) as (A' & S & R & C).
    exists A'. split_and!; [done|done| |done]. by intros b Hb%Hc.
Qed.

Lemma assert_sound A n f target u c f' n' :
  sound A n → frame_ok A n f → at_terminator f (Assert target u) → cleans_up u c →
  assert f target c n = Ok (f', n') →
  ∃ A', frame_step A n f A' n' f' ∧ active_arrives n' f' (ToBlock target) ∧
    (∀ b, u = UnwindCleanup b → active_arrives n' f' (ToBlock b)) ∧ active_consumed n' f'.
Proof.
  intros HA Hf Hk Hc ([[ab tb] f1] & n1 & H1 & H)%st_bind_ok.
  apply st_bind_ok in H as ([] & n2 & (t & n2' & H2 & [= <-])%st_bind_ok & H).
  assert (Ht : next tcx (def_id f) (Assert target u) (ToBlock target)) by (left; by left).
  destruct c as [cb|].
  - assert (Hu : u = UnwindCleanup cb) by by apply Hc. subst u.
    apply st_bind_ok in H as ([[ab2 cb2] f2] & n3 & H3 & H).
    apply st_bind_ok in H as ([] & n4 & (t2 & n4' & H4 & [= <-])%st_bind_ok & [= <- <-]).
    assert (Hx : next tcx (def_id f) (Assert target (UnwindCleanup cb)) (ToBlock cb)).
    { left; right; left. by exists cb. }
    destruct (two_edges _ _ _ _ _ _ _ _ _ _ _ _ _ _ _ _ _ _ _ _ HA Hf Hk Ht Hx H1 H2 H3 H4) as (A' & S & R1 & R2 & C).
    exists A'. split_and!; [done|done| |done]. by intros b [= <-].
  - injection H as <- <-. destruct (edge_sound _ _ _ _ _ _ _ _ _ _ _ _ HA Hf Hk Ht H1 H2) as (A' & S & R & C).
    exists A'. split_and!; [done|done| |done]. by intros b Hb%Hc.
Qed.

Lemma unwind_sound A n f k t n' :
  sound A n → frame_ok A n f → at_terminator f k → next tcx (def_id f) k (Out Panicking) →
  MirFunction.unwind f pp n = Ok (t, n') →
  frame_step A n f A n' f ∧ active_arrives n' f (Out Panicking) ∧ active_consumed n' f.
Proof. intros HA Hf Hk Hx (ab & n1 & [Hab ->]%lift_ok & Hc)%st_bind_ok. by eapply edge_to, Hc. Qed.

Lemma unreachable_sound A n f k x n' :
  sound A n → frame_ok A n f → at_terminator f k → next tcx (def_id f) k (Out Ending) →
  unreachable f pe n = Ok (x, n') →
  frame_step A n f A n' f ∧ active_arrives n' f (Out Ending) ∧ active_consumed n' f.
Proof.
  intros HA Hf Hk Hx (ab & n1 & [Hab ->]%lift_ok & H)%st_bind_ok.
  apply st_bind_ok in H as (t & n2 & Hc & [= _ <-]). by eapply edge_to, Hc.
Qed.

Lemma return_sound A n f x n' :
  sound A n → frame_ok A n f → at_terminator f Return → is_Some (active_block f) →
  return_statement f n = Ok (x, n') →
  frame_step A n f A n' f ∧ active_arrives n' f (Out Returning) ∧ active_consumed n' f.
Proof.
  intros HA Hf Hk [a Ha] (s & n1 & [Hs ->]%lift_ok & H)%st_bind_ok.
  apply st_bind_ok in H as (t & n2 & Hc & [= _ <-]).
  destruct (fo_active _ _ _ Hf a Ha) as [blk Hblk]. unfold prepare_start_place_for_return_statement in Hs.
  rewrite bool_decide_eq_false_2 in Hs by (intros E; by rewrite E in Hblk).
  apply outcome_bind_ok in Hs as (ab & Hab & [= <-]). eapply edge_to, Hc; try done. by left.
Qed.
End reflect.
