(* ===== verification/Calls.v ===== *)
(** * Calls do what control flow does

    The operations on the call stack, for nets that are sound in the sense of
    Reflect.v and programs that do not synchronize: a call is a transition, or
    two, or the translation of the callee between two places that mean what
    its return means. *)

From S2P Require Import Prelude RustStr DataStructures PriorityQueue Netcrab Naming Rustc Function.
From S2P Require Import Heap Memory Sync MirFunction Translator ControlFlow SequentialFlow TokenGame Invariants.
From S2P Require Import Reflect.

Section calls.
Context `{LL : PetriNetLaws} (tcx : TyCtxt) (D : Prop) (pe pp : PlaceRef).
Implicit Types (n : PetriNet) (t : Translator) (p s : PlaceRef) (A : PlaceRef → Prop) (f g : MirFunction).

Abbreviation sound := (sound D).
Abbreviation frame_ok := (frame_ok tcx D pe pp).
Abbreviation frame_step := (frame_step tcx D pe pp).
Abbreviation dest_place := (dest_place pe pp).
Abbreviation arrives := (arrives pe pp).

(** ** The translator with a sound net *)

Record at_top rest f A t : Prop := {
  top_stack : call_stack t = Stack.push rest f;
  top_sound : sound A (net (world t));
  top_heap : heap (world t) = empty_heap;
  top_frame : frame_ok A (net (world t)) f;
  top_end : program_end t = pe;
  top_panic : program_panic t = pp;
}.

(** A step with frame [f] on top, which becomes [f']. *)
Record moves rest f A t f' A' t' : Prop := {
  mo_top : at_top rest f' A' t';
  mo_step : frame_step A (net (world t)) f A' (net (world t')) f';
}.

Lemma moves_refl rest f A t : at_top rest f A t → moves rest f A t f A t.
Proof. intros H. split; [done|apply frame_step_refl; apply H]. Qed.
Lemma moves_trans rest f1 A1 t1 f2 A2 t2 f3 A3 t3 :
  moves rest f1 A1 t1 f2 A2 t2 → moves rest f2 A2 t2 f3 A3 t3 → moves rest f1 A1 t1 f3 A3 t3.
Proof. intros [_ S1] [H2 S2]. split; [done|by eapply frame_step_trans]. Qed.

(** A step of the top frame. *)
Lemma at_top_step rest f A t A' f' w' :
  at_top rest f A t → frame_step A (net (world t)) f A' (net w') f' → heap w' = empty_heap →
  moves rest f A t f' A' (set_call_stack (Stack.push rest f') (set_world w' t)).
Proof. intros [] S Hh. split; [|done]. destruct S. by split. Qed.

Lemma on_net_ok {B} (c : ST PetriNet B) (w w' : World) b :
  on_net c w = Ok (b, w') → ∃ n', c (net w) = Ok (b, n') ∧ w' = mkWorld n' (heap w).
Proof. unfold on_net, zoom. destruct (c (net w)) as [[b' n']|]; [|done]. intros [= -> <-]. by exists n'. Qed.

(** An operation on the top frame that only builds the net. *)
Lemma on_top_moves {B} (R : PetriNet → MirFunction → Prop) (m : MirFunction → ST World (B * MirFunction))
    rest f A t b t' :
  at_top rest f A t → on_top m t = Ok (b, t') →
  (∀ f' w', m f (world t) = Ok ((b, f'), w') → ∃ A',
     (frame_step A (net (world t)) f A' (net w') f' ∧ R (net w') f') ∧ heap w' = heap (world t)) →
  ∃ A' f', moves rest f A t f' A' t' ∧ R (net (world t')) f'.
Proof.
  intros HT Hrun Hm. destruct (on_top_ok _ _ _ _ _ _ (top_stack _ _ _ _ HT) Hrun) as (f' & w' & H & ->).
  destruct (Hm _ _ H) as (A' & [S HR] & Hh). exists A', f'. split; [|exact HR]. eapply at_top_step; [done..|].
  by rewrite Hh, (top_heap _ _ _ _ HT).
Qed.
(** An operation on the memory of the top frame. *)
Lemma on_top_memory {B} (m : MirFunction → ST World (B * MirFunction)) rest f A t b t' :
  at_top rest f A t → on_top m t = Ok (b, t') →
  (∀ f' w', m f (world t) = Ok ((b, f'), w') → w' = world t ∧ ∃ mem, f' = set_memory f mem) →
  ∃ f', moves rest f A t f' A t'.
Proof.
  intros HT Hrun Hm. destruct (on_top_ok _ _ _ _ _ _ (top_stack _ _ _ _ HT) Hrun) as (f' & w' & H & ->).
  destruct (Hm _ _ H) as (-> & mem & ->). exists (set_memory f mem).
  apply at_top_step; [done| |apply HT].
  split; [apply HT|apply extends_refl|apply frame_ok_memory, HT|done|]. split; [done..|]. intros q _ Hq. by left.
Qed.

Lemma consumed_moves rest f A t f' A' t' s :
  moves rest f A t f' A' t' → consumed (net (world t)) s → consumed (net (world t')) s.
Proof. intros [_ [_ _ _ _ [B _ _]]]. by apply consumed_builds. Qed.

(** A connection between places of the net. *)
Lemma on_world_connect rest f A t s e l u t' :
  at_top rest f A t → (A s → A e) → on_world (on_net (connect_places s e l)) t = Ok (u, t') →
  moves rest f A t f A t' ∧ edge (net (world t')) s e.
Proof.
  intros HT Hse. unfold on_world, zoom. destruct (on_net _ _) as [[u' w']|] eqn:Hc; [|done].
  intros [= <- <-]. apply on_net_ok in Hc as (n' & Hc & ->).
  destruct (connect_sound _ _ _ _ _ _ _ _ (top_sound _ _ _ _ HT) Hc Hse) as [HL He].
  assert (Hs : call_stack t = Stack.push rest f) by apply HT. split; [|exact He].
  replace (set_world _ t) with (set_call_stack (Stack.push rest f) (set_world (mkWorld n' (heap (world t))) t))
    by (destruct t; simpl in *; by rewrite Hs).
  apply at_top_step; [done| |apply HT]. eapply leaves_step; [done|apply HT].
Qed.

(** Bookkeeping that leaves the net, the stack and the two places alone. *)
Lemma at_top_ext rest f A t t' :
  at_top rest f A t → call_stack t' = call_stack t → world t' = world t →
  program_end t' = program_end t → program_panic t' = program_panic t → moves rest f A t f A t'.
Proof.
  intros HT H1 H2 H3 H4. split; [|rewrite H2; apply frame_step_refl; apply HT].
  destruct HT. by split; rewrite ?H1, ?H2, ?H3, ?H4.
Qed.
Lemma get_count_moves rest f A t name i t' :
  at_top rest f A t → get_count name t = Ok (i, t') → moves rest f A t f A t'.
Proof.
  intros HT (c & t1 & [= <- <-] & H)%st_bind_ok. destruct (HashMapCounter.get_count _ _) as [k c'].
  injection H as _ <-. by apply at_top_ext.
Qed.

(** ** The places of a call *)

(** The places are those of where the callee returns to and unwinds to. *)
Definition placed f (target : option N) (u : UnwindAction) (ps : Places) : Prop :=
  (∃ x, returns_to target u = Some x ∧ dest_place f x (get_start_end_place ps).2) ∧
  match ps with
  | PBasic _ _ => unwinds_to target u = None
  | PWithCleanup _ _ c => ∃ x, unwinds_to target u = Some x ∧ dest_place f x c
  end.

Lemma placed_step A n f A' n' f' target u ps :
  frame_step A n f A' n' f' → placed f target u ps → placed f' target u ps.
Proof.
  intros [_ _ _ [_ _ He _] G] [(x & Hx & Hp) Hcl].
  split; [exists x; split; [done|by eapply dest_place_grows]|].
  destruct ps as [s e|s e c]; [done|]. destruct Hcl as (y & Hy & Hc). exists y. split; [done|by eapply dest_place_grows].
Qed.

(** A frame at a call. *)
Record calling A n f k s : Prop := {
  ca_sound : sound A n;
  ca_frame : frame_ok A n f;
  ca_at : at_terminator tcx f k;
  ca_start : ∃ ab, get_active_block f = Ok ab ∧ bb_place ab = s;
}.

Lemma calling_block A n f k s b e f' n' :
  calling A n f k s → b ∈ targets k → get_end_place_for_function_call f b n = Ok ((e, f'), n') →
  ∃ A', frame_step A n f A' n' f' ∧ calling A' n' f' k s ∧ dest_place f' (ToBlock b) e.
Proof.
  intros [HA Hf Hk (ab & Hab & Hs)] Hb H.
  destruct (end_place_sound tcx D pe pp A n f k b e f' n') as (A' & S & He); [done..| |done|].
  { apply active_block_ok in Hab as (a & Ha & _). by exists a. }
  exists A'. split_and!; [done| |done]. assert (S' := S). destruct S' as [HA' _ F SF _].
  split; [done|done|by eapply at_terminator_same|]. exists ab. split; [|done].
  by apply (active_block_step _ _ _ _ _ _ _ _ _ _ _ Hf S).
Qed.

Lemma call_places_sound func args dest target u A f s ps f' (w w' : World) :
  calling A (net w) f (Call func args dest target u) s →
  call_places target u f s pe pp w = Ok ((ps, f'), w') →
  ∃ A', frame_step A (net w) f A' (net w') f' ∧ calling A' (net w') f' (Call func args dest target u) s ∧
    heap w' = heap w ∧
    match ps with Some ps => (get_start_end_place ps).1 = s ∧ placed f' target u ps
                | None => returns_to target u = None ∧ w' = w ∧ A' = A ∧ f' = f end.
Proof.
  intros HC. assert (Href : frame_step A (net w) f A (net w) f) by (apply frame_step_refl; apply HC).
  destruct target as [r|]; simpl.
  - (* the target block comes first *)
    intros H. assert (∃ e f1 n1, get_end_place_for_function_call f r (net w) = Ok ((e, f1), n1) ∧
      match u with
      | UnwindCleanup c => ∃ cp n2, get_end_place_for_function_call f1 c n1 = Ok ((cp, f'), n2) ∧
          w' = mkWorld n2 (heap w) ∧ ps = Some (PWithCleanup s e cp)
      | _ => f' = f1 ∧ w' = mkWorld n1 (heap w) ∧ ps = Some (match u with
          | UnwindContinue => PBasic s e | UnwindUnreachable => PWithCleanup s e pe
          | _ => PWithCleanup s e pp end)
      end) as (e & f1 & n1 & H1 & H2).
    { destruct u; apply st_bind_ok in H as ([e f1] & w1 & (n1 & H1 & ->)%on_net_ok & H); exists e, f1, n1;
        (split; [done|]); try by injection H as <- <- <-.
      apply st_bind_ok in H as ([cp f2] & w2 & (n2 & H2 & ->)%on_net_ok & [= <- <- <-]). by exists cp, n2. }
    assert (Hr : r ∈ targets (Call func args dest (Some r) u)) by (simpl; left).
    destruct (calling_block _ _ _ _ _ _ _ _ _ HC Hr H1) as (A1 & S1 & C1 & M1).
    destruct u as [| | |c]; [destruct H2 as (-> & -> & ->)..|].
    1-3: exists A1; split_and!; try done; split; [by exists (ToBlock r)|]; try done.
    + by exists (Out Ending).
    + by exists (Out Panicking).
    + destruct H2 as (cp & n2 & H2 & -> & ->).
      assert (Hc : c ∈ targets (Call func args dest (Some r) (UnwindCleanup c))) by (simpl; set_solver).
      destruct (calling_block _ _ _ _ _ _ _ _ _ C1 Hc H2) as (A2 & S2 & C2 & M2).
      exists A2. split_and!; [by eapply frame_step_trans|done|done|done|]. split.
      * exists (ToBlock r). split; [done|]. eapply dest_place_grows, M1; apply S2.
      * by exists (ToBlock c).
  - destruct u as [| | |c].
    + intros [= <- <- <-]. by exists A.
    + intros [= <- <- <-]. exists A. split_and!; try done. split; [|done]. by exists (Out Ending).
    + intros [= <- <- <-]. exists A. split_and!; try done. split; [|done]. by exists (Out Panicking).
    + intros ([e f1] & w1 & (n1 & H1 & ->)%on_net_ok & [= <- <- <-])%st_bind_ok.
      assert (Hc : c ∈ targets (Call func args dest None (UnwindCleanup c))) by (simpl; set_solver).
      destruct (calling_block _ _ _ _ _ _ _ _ _ HC Hc H1) as (A1 & S1 & C1 & M1).
      exists A1. split_and!; try done. split; [|done]. by exists (ToBlock c).
Qed.

(** What the callee's ways to end mean and reach, other than its return. *)
Definition end_holds A (o : exit) : Prop :=
  match o with Returning => True | Panicking => A pp | Ending => A pe | Diverging => D end.
Definition end_reached n (s : PlaceRef) (o : exit) : Prop :=
  match o with
  | Returning => True
  | Panicking => path n s pp
  | Ending => path n s pe
  | Diverging => ∃ q, path n s q ∧ lost n q
  end.

Section callee.
Context (callee : DefId) (mutex : bool).

(** The places of a call mean what the callee does; [mutex]: it accesses a
    mutex, and does not unwind. *)
Record places_ok A n (ps : Places) : Prop := {
  po_start : has_place n (get_start_end_place ps).1;
  po_end : has_place n (get_start_end_place ps).2;
  po_outside : has_place n pe ∧ has_place n pp;
  po_return : mir_call tcx callee = false ∨ can tcx Returning callee →
    A (get_start_end_place ps).1 → A (get_start_end_place ps).2;
  po_cleanup s e c : ps = PWithCleanup s e c → mutex = false → A s → A c;
  po_inside o : mir_call tcx callee = true → o ≠ Returning → can tcx o callee →
    A (get_start_end_place ps).1 → end_holds A o;
}.

(** What the net of a call can do. *)
Record called n (ps : Places) : Prop := {
  cd_return : mir_call tcx callee = false ∨ can tcx Returning callee →
    path n (get_start_end_place ps).1 (get_start_end_place ps).2;
  cd_cleanup s e c : ps = PWithCleanup s e c → mutex = false → path n s c;
  cd_inside o : mir_call tcx callee = true → o ≠ Returning → can tcx o callee →
    end_reached n (get_start_end_place ps).1 o;
}.

Lemma end_reached_builds n n' s o : builds n n' → end_reached n s o → end_reached n' s o.
Proof.
  intros B. destruct o; simpl; try done; try by apply path_builds.
  intros (q & Hp & Hq). exists q. split; [by eapply path_builds|by eapply lost_builds].
Qed.
Lemma called_builds n n' ps : builds n n' → called n ps → called n' ps.
Proof.
  intros B [H1 H2 H3]. split.
  - intros Hr. by eapply path_builds, H1.
  - intros s e c Hps Hm. by eapply path_builds, H2.
  - intros o Hm Ho Hc. by eapply end_reached_builds, H3.
Qed.
End callee.

(** The step that a call is, from what the callee does. *)
Lemma call_places_mean func args dest target u callee A n f s ps :
  calling A n f (Call func args dest target u) s → callee_of tcx (def_id f) func callee →
  (get_start_end_place ps).1 = s → placed f target u ps →
  places_ok callee (mutex_access tcx (def_id f) callee args) A n ps.
Proof.
  intros [HA Hf Hk (ab & Hab & Hs)] Hc Hst [(x & Hx & He) Hcl].
  destruct (active_means _ _ _ _ _ _ _ _ Hf Hab) as (a & Ha & Hm). rewrite Hs, <-Hst in Hm. apply Hk in Ha.
  assert (Hret : mir_call tcx callee = false ∨ can tcx Returning callee →
    next tcx (def_id f) (Call func args dest target u) x).
  { intros Hr. destruct (mir_call tcx callee) eqn:Hmir.
    - destruct Hr as [|Hr]; [done|]. right. eexists _, _, _, _, _, _. split_and!; [done..|]. by left.
    - left. exists callee. split; [done|]. auto. }
  split; [apply Hm|by eapply dest_has_place|apply Hf|..].
  - intros Hr. eapply next_holds; [done|done|done|by apply Hret|done].
  - intros s' e c -> Hmut. destruct Hcl as (y & Hy & Hp). eapply next_holds; [done|exact Hm|done| |done].
    left. exists callee. split; [done|]. auto.
  - intros o Hmir Ho Hcan As.
    assert (Hn : next tcx (def_id f) (Call func args dest target u) (Out o)).
    { right. eexists _, _, _, _, _, _. split_and!; [done..|]. right. split; [by rewrite Hx|]. by exists o. }
    destruct o; simpl; [done| | |by eapply next_diverges].
    + by eapply (next_holds _ _ _ _ _ _ _ _ _ _ (Out Panicking) pp Hf Hm Ha Hn).
    + by eapply (next_holds _ _ _ _ _ _ _ _ _ _ (Out Ending) pe Hf Hm Ha Hn).
Qed.

Lemma called_arrives func args dest target u callee n f ps x :
  callee_of tcx (def_id f) func callee → placed f target u ps → returns_to target u ≠ None →
  called callee (mutex_access tcx (def_id f) callee args) n ps →
  next tcx (def_id f) (Call func args dest target u) x → arrives n f (get_start_end_place ps).1 x.
Proof.
  intros Hc [(y & Hy & He) Hcl] Hne [H1 H2 H3] Hx. unfold callee_of in Hc.
  destruct Hx as [(c & Hc' & [[? _]|[[Hr Hm]|[Hu Hm]]])|(func' & args' & dest' & target' & u' & c & [= <- <- <- <- <-] & Hc' & Hm & [[Hr Hcan]|(_ & o & Ho & -> & Hcan)])];
    [done|unfold callee_of in Hc'; rewrite Hc in Hc'; injection Hc' as <-..].
  - left. exists (get_start_end_place ps).2. split; [congruence|]. auto.
  - destruct ps as [s e|s e cp]; [congruence|]. destruct Hcl as (z & Hz & Hp). left. exists cp.
    split; [congruence|]. by eapply H2.
  - left. exists (get_start_end_place ps).2. split; [congruence|]. auto.
  - specialize (H3 o Hm Ho Hcan). destruct o; simpl in H3; [done|left; by exists pp|left; by exists pe|by right].
Qed.
(** ** The calls of a sequential program *)

(** [special_name]s belong to the standard library. *)
Lemma special_name_foreign d name : special_name name = true → is_foreign_function d name tcx = true.
Proof.
  unfold special_name, is_supported_function, is_foreign_function. intros H.
  rewrite orb_true_iff, !bool_decide_eq_true, !elem_of_cons, elem_of_nil in H. intuition (subst; done).
Qed.

Section open_call.
Context (rec : ST Translator unit).
Context (callee : DefId) (name : string) (args : list Operand) (destination : Place).

(** A call that is one transition, or two. *)
Definition opaque (mutex : bool) (c : Places → ST Translator unit) : Prop :=
  ∀ ps rest f A t t', at_top rest f A t → mir_call tcx callee = false →
    places_ok callee mutex A (net (world t)) ps → c ps t = Ok (tt, t') →
    ∃ f', moves rest f A t f' A t' ∧ called callee mutex (net (world t')) ps ∧
      consumed (net (world t')) (get_start_end_place ps).1.

(** One transition to the end place, and one to the cleanup. *)
Lemma foreign_net_moves i ps rest f A t ts t' :
  at_top rest f A t → mir_call tcx callee = false → places_ok callee false A (net (world t)) ps →
  on_world (on_net (call_foreign_function name i ps)) t = Ok (ts, t') →
  moves rest f A t f A t' ∧ called callee false (net (world t')) ps ∧
    consumed (net (world t')) (get_start_end_place ps).1.
Proof.
  intros HT Hmir [_ _ _ Hr Hcl _] H2. specialize (Hr (or_introl Hmir)).
  unfold call_foreign_function in H2. destruct (function.foreign_call_transition_labels _ _) as [l1 l2].
  unfold on_world, zoom in H2. destruct (on_net _ _) as [[x w2]|] eqn:H; [|done]. injection H2 as _ <-.
  apply on_net_ok in H as (n2 & H & ->). destruct ps as [s e|s e c]; simpl in *.
  - apply st_bind_ok in H as (u & n3 & H & [= _ <-]).
    destruct (on_world_connect rest f A t s e l1 u (set_world (mkWorld n3 (heap (world t))) t)) as [M E];
      [done|done|unfold on_world, on_net, zoom; by rewrite H|].
    split_and!; [done| |by eapply edge_consumed]. split; simpl; [|done|congruence]. intros _. by apply edge_path.
  - apply st_bind_ok in H as (u & n3 & H & H'). apply st_bind_ok in H' as (v & n4 & H' & [= _ <-]).
    destruct (on_world_connect rest f A t s e l1 u (set_world (mkWorld n3 (heap (world t))) t)) as [M E];
      [done|done|unfold on_world, on_net, zoom; by rewrite H|].
    destruct (on_world_connect rest f A (set_world (mkWorld n3 (heap (world t))) t) s c l2 v
      (set_world (mkWorld n4 (heap (world t))) t)) as [M' E']; [apply M|by eapply Hcl| |].
    { unfold on_world, on_net, zoom. simpl. by rewrite H'. }
    assert (M2 := moves_trans _ _ _ _ _ _ _ _ _ _ M M'). assert (B := fg_builds _ _ _ _ _ (fs_grows _ _ _ _ _ _ _ _ _ _ (mo_step _ _ _ _ _ _ _ M'))).
    split_and!; [done| |by eapply edge_consumed]. split; simpl; [| |congruence].
    + intros _. by eapply path_builds, edge_path.
    + intros s' e' c' [= <- <- <-] _. by apply edge_path.
Qed.

Lemma foreign_call_moves ps rest f A t ts t' :
  at_top rest f A t → mir_call tcx callee = false → places_ok callee false A (net (world t)) ps →
  translator_call_foreign_function tcx name args destination ps t = Ok (ts, t') →
  ∃ f', moves rest f A t f' A t' ∧ called callee false (net (world t')) ps ∧
    consumed (net (world t')) (get_start_end_place ps).1.
Proof.
  intros HT Hmir Hps (i & t1 & H1 & H)%st_bind_ok. assert (M1 := get_count_moves _ _ _ _ _ _ _ HT H1).
  assert (Ht1 : world t1 = world t).
  { apply st_bind_ok in H1 as (c & t2 & [= <- <-] & H1). destruct (HashMapCounter.get_count _ _) as [k c'].
    by injection H1 as _ <-. }
  apply st_bind_ok in H as (ts1 & t2 & H2 & H). rewrite <-Ht1 in Hps.
  destruct (foreign_net_moves _ _ _ _ _ _ _ _ (mo_top _ _ _ _ _ _ _ M1) Hmir Hps H2) as (M2 & R2 & C2).
  apply st_bind_ok in H as ([] & t3 & H3 & [= _ <-]).
  destruct (on_top_memory _ _ _ _ _ _ _ (mo_top _ _ _ _ _ _ _ M2) H3) as (f' & M3).
  { intros f' w' (m & w1 & [_ ->]%lift_ok & [= <- <-])%st_bind_ok. split; [done|]. by exists m. }
  assert (B := fg_builds _ _ _ _ _ (fs_grows _ _ _ _ _ _ _ _ _ _ (mo_step _ _ _ _ _ _ _ M3))).
  exists f'. split_and!; [|by eapply called_builds|by eapply consumed_moves]. eapply moves_trans; [|done]. by eapply moves_trans.
Qed.

Lemma mem_drop_opaque : opaque false (call_mem_drop tcx name args destination).
Proof.
  intros ps rest f A t t' HT Hmir Hps (ts & t1 & H1 & H)%st_bind_ok.
  destruct (foreign_call_moves _ _ _ _ _ _ _ HT Hmir Hps H1) as (f1 & M1 & R1 & C1).
  apply st_bind_ok in H as (p & t2 & [_ ->]%lift_ok & H).
  destruct (on_top_memory _ _ _ _ _ _ _ (mo_top _ _ _ _ _ _ _ M1) H) as (f2 & M2).
  { intros f2 w2 ([] & w3 & H3 & [= <- <-])%st_bind_ok. split; [|by exists (memory f1); destruct f1].
    assert (Hh := top_heap _ _ _ _ (mo_top _ _ _ _ _ _ _ M1)). destruct ts as [u|u v].
    - by apply guard_drop_empty in H3.
    - apply st_bind_ok in H3 as ([] & w4 & ->%guard_drop_empty & H3); [|done].
      by apply guard_drop_empty in H3. }
  assert (B := fg_builds _ _ _ _ _ (fs_grows _ _ _ _ _ _ _ _ _ _ (mo_step _ _ _ _ _ _ _ M2))).
  exists f2. split_and!; [by eapply moves_trans|by eapply called_builds|by eapply consumed_moves].
Qed.

(** Methods of mutexes have no cleanup. *)
Lemma places_ok_ignore A n ps :
  places_ok callee true A n ps → places_ok callee false A n (ignore_cleanup_place ps).
Proof. destruct ps as [s e|s e c]; intros []; by split. Qed.
Lemma called_ignore n ps :
  called callee false n (ignore_cleanup_place ps) → called callee true n ps.
Proof. destruct ps as [s e|s e c]; intros []; by split. Qed.
Lemma start_ignore ps : (get_start_end_place (ignore_cleanup_place ps)).1 = (get_start_end_place ps).1.
Proof. by destruct ps. Qed.

Lemma unwrap_mutex_opaque : opaque true (call_unwrap_mutex tcx name args destination).
Proof.
  intros ps rest f A t t' HT Hmir Hps%places_ok_ignore (ts & t1 & H1 & [= <-])%st_bind_ok.
  rewrite <-start_ignore. destruct (foreign_call_moves _ _ _ _ _ _ _ HT Hmir Hps H1) as (f1 & M1 & R1%called_ignore & C1).
  by exists f1.
Qed.

Lemma deref_mutex_opaque : opaque true (call_deref_mutex tcx name args destination).
Proof.
  intros ps rest f A t t' HT Hmir Hps%places_ok_ignore (ts & t1 & H1 & H)%st_bind_ok.
  destruct (foreign_call_moves _ _ _ _ _ _ _ HT Hmir Hps H1) as (f1 & M1 & R1%called_ignore & C1).
  rewrite start_ignore in C1. exists f1.
  case_bool_decide; [|by injection H as <-]. assert (Hh := top_heap _ _ _ _ (mo_top _ _ _ _ _ _ _ M1)).
  apply st_bind_ok in H as (p & t2 & [_ ->]%lift_ok & H).
  destruct (on_top_ok _ _ _ _ _ _ (top_stack _ _ _ _ (mo_top _ _ _ _ _ _ _ M1)) H) as (f2 & w2 & H2 & _).
  apply st_bind_ok in H2 as (r & w3 & [_ ->]%lift_ok & H2). apply st_bind_ok in H2 as (g & w4 & H2 & _).
  by rewrite (read_guard_empty r (world t1) Hh) in H2.
Qed.

Lemma foreign_opaque :
  opaque false (λ ps, translator_call_foreign_function tcx name args destination ps;; mret tt).
Proof.
  intros ps rest f A t t' HT Hmir Hps (ts & t1 & H1 & [= <-])%st_bind_ok. by eapply foreign_call_moves.
Qed.

Lemma self_ref_ok b rest f A t r t' :
  at_top rest f A t → and_then b (is_self_ref_mutex tcx args) t = Ok (r, t') →
  t' = t ∧ r = b && mutex_self tcx (def_id f) args.
Proof.
  intros HT. destruct b; simpl; [|by intros [= <- <-]]. intros (p & t1 & [Hp ->]%lift_ok & H)%st_bind_ok.
  apply st_bind_ok in H as (f' & t2 & H & [= <- <-]). apply st_bind_ok in H as (s & t3 & [= <- <-] & H).
  apply lift_ok in H as [H ->]. rewrite (top_stack _ _ _ _ HT), Stack.peek_push in H. injection H as <-.
  split; [done|]. unfold mutex_self. by destruct (extract_nth_argument_as_place args 0); [injection Hp as ->|].
Qed.

(** The translation of a function whose frame is on top. *)
Record translated g A t (rest : Stack.Stack MirFunction) A' t' : Prop := {
  tr_extends : extends (net (world t)) A (net (world t')) A';
  tr_builds : builds (net (world t)) (net (world t'));
  tr_sound : sound A' (net (world t'));
  tr_heap : heap (world t') = empty_heap;
  tr_stack : call_stack t' = rest;
  tr_end : program_end t' = pe;
  tr_panic : program_panic t' = pp;
  tr_returns : can tcx Returning (def_id g) → path (net (world t')) (start_place g) (end_place g);
  tr_ends o : can tcx o (def_id g) → end_reached (net (world t')) (start_place g) o;
  tr_consumed : complete tcx (def_id g) → consumed (net (world t')) (start_place g) ∧
    ∀ q, has_place (net (world t')) q → has_place (net (world t)) q ∨ consumed (net (world t')) q;
}.
Definition reflects : Prop :=
  ∀ rest g A t t', at_top rest g A t → basic_blocks g = ∅ → active_block g = None → rec t = Ok (tt, t') →
    ∃ A', translated g A t rest A' t'.

Context (Hrec : reflects).

(** A call into a function with MIR. *)
Lemma mir_function_moves ps rest f A t t' :
  at_top rest f A t → mir_call tcx callee = true → (complete tcx (def_id f) → complete tcx callee) →
  places_ok callee false A (net (world t)) ps → call_mir_function rec callee name ps t = Ok (tt, t') →
  ∃ A', moves rest f A t f A' t' ∧ called callee false (net (world t')) ps ∧
    (complete tcx (def_id f) → consumed (net (world t')) (get_start_end_place ps).1).
Proof.
  intros HT Hmir Hcomp [Hs He [Hpe Hpp] Hr Hcl Hin] (i & t1 & H1 & H)%st_bind_ok.
  assert (M1 := get_count_moves _ _ _ _ _ _ _ HT H1).
  set (s := (get_start_end_place ps).1) in *. set (e := (get_start_end_place ps).2) in *.
  set (g := mir_function_new callee (function.indexed_mir_function_name name i) s e).
  assert (∃ t2, moves rest f A t f A t2 ∧ (∀ s e c, ps = PWithCleanup s e c → edge (net (world t2)) s c) ∧
    rec (set_call_stack (Stack.push (call_stack t2) g) t2) = Ok (tt, t')) as (t2 & M2 & Ecl & H2).
  { destruct ps as [s' e'|s' e' c]; simpl in *.
    - apply st_bind_ok in H as ([] & t2 & [= <-] & H). by exists t1.
    - apply st_bind_ok in H as ([] & t2 & H2 & H). apply st_bind_ok in H2 as (u & t3 & H3 & [= <-]).
      destruct (on_world_connect rest f A t1 s' c (function.indexed_mir_function_cleanup_label name i) u t3)
        as [M3 E3]; [apply M1|by eapply Hcl|exact H3|].
      exists t3. split_and!; [by eapply moves_trans|by intros ? ? ? [= <- <- <-]|exact H]. }
  assert (E2 := fs_extends _ _ _ _ _ _ _ _ _ _ (mo_step _ _ _ _ _ _ _ M2)).
  assert (HT2 := mo_top _ _ _ _ _ _ _ M2).
  assert (Hg : at_top (Stack.push rest f) g A (set_call_stack (Stack.push (call_stack t2) g) t2)).
  { destruct HT2. split; simpl; try done; [by rewrite top_stack0|].
    split; simpl; [by apply E2|by apply E2|split; by apply E2|done|done|by intros b [? ?]|done|].
    intros o As Hcan. destruct (decide (o = Returning)) as [->|Ho]; [by apply Hr; [right|]|].
    specialize (Hin o Hmir Ho Hcan As). by destruct o. }
  destruct (Hrec _ _ _ _ _ Hg eq_refl eq_refl H2) as (A' & [E B HA Hh Hst Hend Hpan Hret Hends Hcons]). simpl in *.
  exists A'. split_and!; [| |intros Hc; by apply Hcons, Hcomp].
  - eapply moves_trans; [exact M2|].
    assert (F2 : frame_ok A' (net (world t')) f) by (eapply frame_ok_extends; [done|apply HT2]).
    split; [by split|]. split; [done|done|done|apply same_frame_refl|].
    split; [done..|]. intros q Hc Hq. destruct (Hcons (Hcomp Hc)) as [_ H3]. destruct (H3 q Hq); auto.
  - split; [|intros s' e' c -> _; by eapply path_builds, edge_path, Ecl|intros o _ _; apply Hends].
    intros [Hm|Hc]; [congruence|by apply Hret].
Qed.

Lemma start_call_moves ps rest f A t t' :
  at_top rest f A t → synchronizes (def_path_str tcx callee) = false → name = def_path_str tcx callee →
  (mir_call tcx callee = true → complete tcx (def_id f) → complete tcx callee) →
  places_ok callee (mutex_access tcx (def_id f) callee args) A (net (world t)) ps →
  start_function_call tcx rec callee name args destination ps t = Ok (tt, t') →
  ∃ A' f', moves rest f A t f' A' t' ∧
    called callee (mutex_access tcx (def_id f) callee args) (net (world t')) ps ∧
    (complete tcx (def_id f) → consumed (net (world t')) (get_start_end_place ps).1).
Proof.
  intros HT Hsync Hname Hcomp Hps. unfold synchronizes in Hsync. apply orb_false_iff in Hsync as [Hspawn Hsup].
  rewrite <-Hname in Hspawn, Hsup.
  assert (Hmir : mir_call tcx callee = negb (bool_decide (name = "std::mem::drop")) && negb (special_name name)
            && negb (is_foreign_function callee name tcx)) by (by rewrite Hname).
  assert (Hstd : special_name name = true → mir_call tcx callee = false).
  { intros H. rewrite Hmir, H. by rewrite andb_false_r. }
  set (mutex := mutex_access tcx (def_id f) callee args) in *.
  assert (Hmutex : mutex = (bool_decide (name = "std::ops::Deref::deref") || bool_decide (name = "std::ops::DerefMut::deref_mut")
    || bool_decide (name = "std::result::Result::<T, E>::unwrap")) && mutex_self tcx (def_id f) args).
  { unfold mutex, mutex_access. rewrite <-Hname. f_equal. apply eq_true_iff_eq.
    rewrite !orb_true_iff, !bool_decide_eq_true. set_solver. }
  clearbody mutex.
  assert (Hop : ∀ m c, opaque m c → mutex = m → mir_call tcx callee = false → c ps t = Ok (tt, t') →
    ∃ A' f', moves rest f A t f' A' t' ∧ called callee mutex (net (world t')) ps ∧
      (complete tcx (def_id f) → consumed (net (world t')) (get_start_end_place ps).1)).
  { intros m c Hc <- Hm H. destruct (Hc _ _ _ _ _ _ HT Hm Hps H) as (f' & M & R & C). by exists A, f'. }
  unfold start_function_call. destruct (bool_decide_reflect (name = "std::mem::drop")) as [Hdrop|Hdrop].
  { apply (Hop _ _ mem_drop_opaque); [by rewrite Hmutex, Hdrop|by rewrite Hmir]. }
  intros (deref & t1 & Hd & H)%st_bind_ok. destruct (self_ref_ok _ _ _ _ _ _ _ HT Hd) as [-> Hderef]. destruct deref.
  { symmetry in Hderef. apply andb_true_iff in Hderef as [Hb Hself].
    revert H. apply (Hop _ _ deref_mutex_opaque); [by rewrite Hmutex, Hb, Hself|]. apply Hstd. unfold special_name.
    apply orb_true_iff in Hb as [Hb%bool_decide_eq_true|Hb%bool_decide_eq_true]; by rewrite Hb. }
  apply st_bind_ok in H as (unw & t1 & Hu & H). destruct (self_ref_ok _ _ _ _ _ _ _ HT Hu) as [-> Hunw]. destruct unw.
  { symmetry in Hunw. apply andb_true_iff in Hunw as [Hb Hself].
    revert H. apply (Hop _ _ unwrap_mutex_opaque); [by rewrite Hmutex, Hb, Hself, orb_true_r|]. apply Hstd.
    apply bool_decide_eq_true in Hb. by rewrite Hb. }
  assert (Hfalse : mutex = false).
  { rewrite Hmutex. rewrite andb_orb_distrib_l, <-Hderef, <-Hunw. done. }
  rewrite Hspawn, Hsup in H. destruct (is_foreign_function callee name tcx) eqn:Hf.
  { apply (Hop _ _ foreign_opaque); [done|by rewrite Hmir, andb_false_r|exact H]. }
  assert (Hm : mir_call tcx callee = true).
  { rewrite Hmir. destruct (special_name name) eqn:Hsp; [|done].
    apply (special_name_foreign callee) in Hsp. by rewrite Hf in Hsp. }
  rewrite Hfalse in Hps |- *.
  destruct (mir_function_moves ps rest f A t t') as (A' & M & R & C); [done|done|auto|done|done|].
  by exists A', f.
Qed.
End open_call.
End calls.
