(* ===== verification/TranslatorSpec.v ===== *)
(** * Specifications of the translator's calls and visits

    The invariant of the translator ([wf_translator]) and the contract of
    everything that runs on its top frame ([moved]): the frames below are
    untouched, the top frame keeps its identity, the world evolves.  On top of
    it, what each call and terminator leaves in the net: the paths of the
    control flow that [ControlFlow] describes. *)

From S2P Require Import Prelude RustStr DataStructures PriorityQueue Netcrab Naming Rustc Function.
From S2P Require Import Heap Memory Sync MirFunction Translator World WorldSpec SyncSpec Gadgets.
From S2P Require Import SyncCalls FrameSpec ControlFlow.

Section translator_spec.
Context `{LL : PetriNetLaws} {FP : FuelPolicy} (tcx : TyCtxt).
Implicit Types (w : World) (p s e : PlaceRef) (f : MirFunction) (t : Translator)
  (rest : Stack.Stack MirFunction) (d : DefId).

Record wf_translator t : Prop := {
  wt_world : wf_world (world t);
  wt_start : has_place (net (world t)) (program_start t);
  wt_end : has_place (net (world t)) (program_end t);
  wt_panic : has_place (net (world t)) (program_panic t);
  wt_frames f : f ∈ Stack.stack (call_stack t) → wf_function (world t) f;
  wt_threads r : r ∈ threads t → thread_loc r < length (threads_ (heap (world t)));
  wt_tasks k : k ∈ BinaryHeap.data (postprocessing t) → wf_task (world t) k;
  wt_heap : BinaryHeap.heap_ok get_priority (postprocessing t);
}.

Record moved X rest f f' t t' : Prop := {
  mv_wf : wf_translator t';
  mv_stack : call_stack t' = Stack.push rest f';
  mv_fn : fn_le f f';
  mv_active : active_block f' = active_block f;
  mv_world : world_le X (world t) (world t');
  mv_start : program_start t' = program_start t;
  mv_end : program_end t' = program_end t;
  mv_panic : program_panic t' = program_panic t;
}.

Lemma moved_refl rest f t : wf_translator t → call_stack t = Stack.push rest f → moved none rest f f t t.
Proof. by split. Qed.

Lemma moved_trans X Y Z rest f1 f2 f3 t1 t2 t3 :
  moved X rest f1 f2 t1 t2 → moved Y rest f2 f3 t2 t3 →
  (∀ u, has_transition (net (world t1)) u → X u ∨ Y u → Z u) → moved Z rest f1 f3 t1 t3.
Proof.
  intros [? ? ? ? ? ? ? ?] [? ? ? ? ? ? ? ?] HZ. split; try congruence; try done.
  - by transitivity f2.
  - by eapply world_le_trans.
Qed.

Lemma moved_none_trans rest f1 f2 f3 t1 t2 t3 :
  moved none rest f1 f2 t1 t2 → moved none rest f2 f3 t2 t3 → moved none rest f1 f3 t1 t3.
Proof. intros H1 H2. eapply moved_trans; [done..|]. by intros u _ [?|?]. Qed.

(** The second operation touches a transition that the first one made. *)
Lemma moved_new_trans u rest f1 f2 f3 t1 t2 t3 :
  moved none rest f1 f2 t1 t2 → moved (.= u) rest f2 f3 t2 t3 →
  ¬ has_transition (net (world t1)) u → moved none rest f1 f3 t1 t3.
Proof. intros H1 H2 Hu. eapply moved_trans; [done..|]. intros v Hv [?|Hy]; [done|]. simpl in Hy. by subst. Qed.

Lemma wf_translator_frames t rest f :
  wf_translator t → call_stack t = Stack.push rest f →
  wf_function (world t) f ∧ ∀ g, g ∈ Stack.stack rest → wf_function (world t) g.
Proof.
  intros Hwf Hs. split; [|intros g Hg]; apply Hwf; rewrite Hs; simpl; set_solver.
Qed.

(** The top frame is well-formed. *)
Lemma wf_top rest f t : wf_translator t → call_stack t = Stack.push rest f → wf_function (world t) f.
Proof. intros H1 H2. by destruct (wf_translator_frames _ _ _ H1 H2). Qed.

(** Parts of the state that the specifications do not look at. *)
Lemma moved_function_counter X rest f f' t t' c :
  moved X rest f f' t t' → moved X rest f f' t (set_function_counter c t').
Proof. intros [[]]. by split. Qed.

(** ** The top frame *)

Lemma wp_peek_top rest f (Q : MirFunction → Translator → Prop) t :
  call_stack t = Stack.push rest f → Q f t → wp peek_top allowed Q t.
Proof.
  intros Hs HQ. unfold peek_top. wp_steps. rewrite Hs, Stack.peek_push. done.
Qed.

Lemma wf_translator_world X w' t :
  wf_translator t → wf_world w' → world_le X (world t) w' → wf_translator (set_world w' t).
Proof.
  intros [H1 H2 H3 H4 H5 H6 H7 H8] Hw Hle. split; simpl; [done|..|done].
  1-3: eapply grows_place; [apply Hle|done].
  - intros f Hf%H5. by eapply wf_function_mono.
  - intros r Hr%H6. destruct (world_le_heap _ _ _ Hle) as [_ _ _ Ht].
    apply objs_le_length in Ht. lia.
  - intros k Hk%H7. by eapply wf_task_mono.
Qed.

Lemma wf_translator_top X rest f f' w' t :
  wf_translator t → call_stack t = Stack.push rest f →
  wf_world w' → world_le X (world t) w' → wf_function w' f' →
  wf_translator (set_call_stack (Stack.push rest f') (set_world w' t)).
Proof.
  intros Hwf Hs Hw Hle Hf'.
  destruct (wf_translator_world X w' t Hwf Hw Hle) as [H1 H2 H3 H4 H5 H6 H7 H8]. split; try done.
  intros g. simpl. rewrite elem_of_app, list_elem_of_singleton. intros [Hg| ->]; [|done].
  apply H5. simpl. rewrite Hs. simpl. set_solver.
Qed.

Lemma wp_on_top {A} X (m : MirFunction → ST World (A * MirFunction)) rest f
    (Q : A → Translator → Prop) t :
  wf_translator t → call_stack t = Stack.push rest f →
  wp (m f) allowed (λ x w',
    wf_world w' ∧ world_le X (world t) w' ∧ wf_function w' x.2 ∧ fn_le f x.2 ∧
    (∀ t', wf_translator t' → call_stack t' = Stack.push rest x.2 → world t' = w' →
       program_start t' = program_start t → program_end t' = program_end t →
       program_panic t' = program_panic t → Q x.1 t')) (world t) →
  wp (on_top m) allowed Q t.
Proof.
  intros Hwf Hs Hm. destruct (Stack.peek_mut_push rest f) as (put & Hput & Hputs).
  unfold on_top. wp_steps. rewrite Hs, Hput. cbn beta iota delta [owp]. apply wp_bind, wp_zoom.
  eapply wp_mono; [apply Hm|done|]. intros [a f'] w' (Hw' & Hle & Hf' & Hfn & HQ). wp_steps.
  simpl in HQ. rewrite Hputs. by apply HQ; [eapply wf_translator_top|..].
Qed.

(** The usual case: the active block stays, and the rest is [moved]. *)
Lemma wp_on_top_moved {A} X (m : MirFunction → ST World (A * MirFunction)) rest f
    (Q : A → Translator → Prop) t :
  wf_translator t → call_stack t = Stack.push rest f →
  wp (m f) allowed (λ x w',
    wf_world w' ∧ world_le X (world t) w' ∧ wf_function w' x.2 ∧ fn_le f x.2 ∧
    active_block x.2 = active_block f ∧
    (∀ t', moved X rest f x.2 t t' → world t' = w' → Q x.1 t')) (world t) →
  wp (on_top m) allowed Q t.
Proof.
  intros Hwf Hs Hm. eapply wp_on_top; [done..|]. eapply wp_mono; [apply Hm|done|].
  intros [a f'] w' (H1 & H2 & H3 & H4 & H5 & HQ). split_and!; [done..|].
  intros t' ? ? <- ? ? ?. by apply HQ; [split|].
Qed.

(** An operation that only rewrites the frame's memory. *)
Lemma wp_on_top_memory (o : MirFunction → outcome Memory) rest f (Q : unit → Translator → Prop) t :
  wf_translator t → call_stack t = Stack.push rest f →
  owp (o f) allowed (wf_memory (heap (world t))) →
  (∀ f' t', moved none rest f f' t t' → world t' = world t → basic_blocks f' = basic_blocks f →
     Q tt t') →
  wp (on_top (λ f, m ← lift (o f); mret (tt, set_memory f m))) allowed Q t.
Proof.
  intros Hwf Hs Ho HQ. eapply (wp_on_top_moved none); [done..|].
  apply wp_bind. eapply wp_owp; [done|]. intros m Hm. wp_steps. simpl.
  split_and!; [apply Hwf|done|..]; [|done|done|].
  - apply wf_function_memory; [|done]. by eapply wf_top.
  - intros t' Hmv Hw. by eapply HQ.
Qed.


Lemma wp_get_count name rest f (Q : N → Translator → Prop) t :
  wf_translator t → call_stack t = Stack.push rest f →
  (∀ i t', moved none rest f f t t' → world t' = world t → Q i t') →
  wp (get_count name) allowed Q t.
Proof.
  intros Hwf Hs HQ. unfold get_count. apply wp_bind, wp_gets.
  destruct (HashMapCounter.get_count _ _) as [i c]. apply wp_bind, wp_modify, wp_ret.
  apply HQ; [|done]. by apply moved_function_counter, moved_refl.
Qed.

(** A computation on the world that leaves the stack alone. *)
Lemma wp_on_world_moved {A} X (m : ST World A) rest f (Q : A → Translator → Prop) t :
  wf_translator t → call_stack t = Stack.push rest f →
  wp m allowed (λ a w', wf_world w' ∧ world_le X (world t) w' ∧
    (∀ t', moved X rest f f t t' → world t' = w' → Q a t')) (world t) →
  wp (on_world m) allowed Q t.
Proof.
  intros Hwf Hs Hm. apply wp_zoom. eapply wp_mono; [apply Hm|done|].
  intros a w' (Hw' & Hle & HQ). apply HQ; [|done].
  split; try done. by eapply wf_translator_world.
Qed.

(** ** Calls *)

(** The edges of a call that behaves like a single step. *)
Definition call_edges w (ps : Places) : Prop :=
  match ps with
  | PBasic s e => edge w s e
  | PWithCleanup s e c => edge w s e ∧ edge w s c
  end.

Lemma call_edges_mono w w' ps : world_le none w w' → call_edges w ps → call_edges w' ps.
Proof. intros Hle. destruct ps; simpl; naive_solver eauto using edge_mono. Qed.

Lemma call_transitions_edges w w' ps ts :
  wf_world w → heap w' = heap w → call_transitions w w' ps ts → call_edges w' ps.
Proof.
  intros Hwf Hh. assert (Hnr : ∀ u, ¬ has_transition (net w) u → ¬ refd (heap w') u).
  { rewrite Hh. intros u Hu Hr. apply Hu. by eapply refd_has_transition. }
  destruct ps, ts; simpl; try done.
  - intros [H1 H2]. exists default. auto.
  - intros (H1 & H2 & H3 & H4). split; eexists; eauto.
Qed.

Lemma wp_translator_call_foreign name args dest ps rest f (Q : Transitions → Translator → Prop) t :
  wf_translator t → call_stack t = Stack.push rest f → wf_places (net (world t)) ps →
  (∀ ts f' t', moved none rest f f' t t' → heap (world t') = heap (world t) →
     call_transitions (world t) (world t') ps ts → Q ts t') →
  wp (translator_call_foreign_function tcx name args dest ps) allowed Q t.
Proof.
  intros Hwf Hs Hps HQ. apply wp_bind. eapply wp_get_count; [done..|]. intros i t1 M1 E1.
  apply wp_bind. eapply (wp_on_world_moved none); [apply M1..|].
  apply wp_call_foreign_function; [apply M1|by rewrite E1|].
  intros ts w2 Hw2 Hle2 Hh2 Hts. split_and!; [done..|]. intros t2 M2 <-.
  apply wp_bind. eapply wp_on_top_memory; [apply M2|apply M2| |].
  - apply owp_link_return_value. apply (wf_top _ _ _ (mv_wf _ _ _ _ _ _ M2) (mv_stack _ _ _ _ _ _ M2)).
  - intros f3 t3 M3 E3 _. apply wp_ret. eapply HQ; [by do 2 (eapply moved_none_trans; [done|])|..].
    + by rewrite E3, Hh2, E1.
    + by rewrite E3, <-E1.
Qed.

(** More outputs on the transitions of a call keep it a single step. *)
Lemma call_transitions_more_post w0 w w' ps ts :
  net_grows (net w) (net w') → (∀ u q, pre (net w') u q = pre (net w) u q) →
  call_transitions w0 w ps ts → call_transitions w0 w' ps ts.
Proof.
  intros G Hpre. destruct ps, ts; simpl; try done.
  - intros [? ?]. split; [done|]. by eapply plain_more_post.
  - intros (? & ? & ? & ?). split_and!; [done| |done|]; by eapply plain_more_post.
Qed.

(** The transitions that are not in [w]. *)
Definition new_since w (u : TransitionRef) : Prop := ¬ has_transition (net w) u.

Lemma wp_drop_new_transition w0 dp m u (Q : unit → World → Prop) w :
  wf_world w → wf_memory (heap w) m → has_transition (net w) u → new_since w0 u →
  (∀ w', wf_world w' → world_le (new_since w0) w w' → heap w' = heap w →
     (∀ u q, pre (net w') u q = pre (net w) u q) → Q tt w') →
  wp (handle_mutex_guard_drop dp u m) allowed Q w.
Proof.
  intros Hwf Hm Hu Hnew HQ. apply wp_handle_mutex_guard_drop; [done..|].
  intros w' Hwf' Hle Hh Hpre. apply HQ; try done. eapply world_le_weaken; [|done]. by intros v ->.
Qed.

(** [call_mem_drop] returns the lock on every transition of the call. *)
Lemma wp_drop_transitions w0 dp m ps ts (Q : unit → World → Prop) w :
  wf_world w → wf_memory (heap w) m → call_transitions w0 w ps ts →
  (∀ w', wf_world w' → world_le (new_since w0) w w' → heap w' = heap w →
     call_transitions w0 w' ps ts → Q tt w') →
  wp (match ts with
      | TBasic default => handle_mutex_guard_drop dp default m
      | TWithCleanup default cleanup =>
          handle_mutex_guard_drop dp default m;; handle_mutex_guard_drop dp cleanup m
      end) allowed Q w.
Proof.
  intros Hwf Hm Hct HQ.
  assert (Hstep : ∀ u w1 Q', has_transition (net w) u → new_since w0 u →
    wf_world w1 → world_le (new_since w0) w w1 → heap w1 = heap w → call_transitions w0 w1 ps ts →
    (∀ w2, wf_world w2 → world_le (new_since w0) w w2 → heap w2 = heap w →
       call_transitions w0 w2 ps ts → Q' tt w2) →
    wp (handle_mutex_guard_drop dp u m) allowed Q' w1).
  { intros u w1 Q' Hu Hnew Hw1 Hle1 Hh1 Hct1 HQ'. apply (wp_drop_new_transition w0);
      [done|by rewrite Hh1|eapply grows_transition; [apply Hle1|done]|done|].
    intros w2 Hw2 Hle2 Hh2 Hpre. apply HQ'; [done| |congruence|].
    - eapply world_le_trans; [done..|]. tauto.
    - eapply call_transitions_more_post; [apply Hle2|done..]. }
  assert (Hrefl := world_le_refl (new_since w0) w).
  destruct ps, ts; try done.
  - pose proof Hct as (? & ? & _). by apply Hstep.
  - pose proof Hct as (? & [? _] & ? & [? _]). apply wp_bind. apply Hstep; [done..|].
    intros w1 Hw1 Hle1 Hh1 Hct1. by apply Hstep.
Qed.

Lemma wp_call_mem_drop name args dest ps rest f (Q : unit → Translator → Prop) t :
  wf_translator t → call_stack t = Stack.push rest f → wf_places (net (world t)) ps →
  (∀ f' t', moved none rest f f' t t' → call_edges (world t') ps → Q tt t') →
  wp (call_mem_drop tcx name args dest ps) allowed Q t.
Proof.
  intros Hwf Hs Hps HQ. apply wp_bind. eapply wp_translator_call_foreign; [done..|].
  intros ts f1 t1 M1 Hh1 Hts. apply wp_bind. apply wp_lift, owp_expect; [|done]. intros dp _.
  assert (Hf1 := wf_top _ _ _ (mv_wf _ _ _ _ _ _ M1) (mv_stack _ _ _ _ _ _ M1)).
  eapply wp_on_top_moved; [apply M1..|]. apply wp_bind.
  eapply wp_drop_transitions; [apply M1|apply Hf1|done|].
  intros w2 Hw2 Hle2 Hh2 Hct. apply wp_ret. split_and!; try done.
  - by eapply wf_function_mono.
  - intros t2 M2 <-. eapply HQ.
    + eapply moved_trans; [done..|]. by intros u Hu [?|[]].
    + eapply call_transitions_edges; [apply Hwf|congruence|done].
Qed.

Lemma wp_call_deref_mutex name args dest ps rest f (Q : unit → Translator → Prop) t :
  wf_translator t → call_stack t = Stack.push rest f → wf_places (net (world t)) ps →
  (∀ f' t', moved none rest f f' t t' → Q tt t') →
  wp (call_deref_mutex tcx name args dest ps) allowed Q t.
Proof.
  intros Hwf Hs Hps HQ. apply wf_places_ignore in Hps.
  apply wp_bind. eapply wp_translator_call_foreign; [done..|].
  intros ts f1 t1 M1 Hh1 [Hnew (Hd & _)]%call_transitions_default.
  case_bool_decide; [|apply wp_ret; by eapply HQ].
  apply wp_bind. apply wp_lift, owp_expect; [|done]. intros dp _.
  assert (Hf1 := wf_top _ _ _ (mv_wf _ _ _ _ _ _ M1) (mv_stack _ _ _ _ _ _ M1)).
  eapply wp_on_top_moved; [apply M1..|].
  apply wp_bind. eapply wp_owp; [apply owp_get_mutex_guard, Hf1|]. intros g Hg.
  apply wp_bind. apply wp_read_guard; [apply M1|done|]. intros gd _ Hgd.
  apply wp_bind. apply wp_add_deref_mut_transition; [apply M1|done..|].
  intros w2 Hw2 Hle2 Hn2. apply wp_ret. split_and!; try done.
  - by eapply wf_function_mono.
  - intros t2 M2 _. eapply HQ. by eapply moved_new_trans.
Qed.

Lemma wp_call_unwrap_mutex name args dest ps rest f (Q : unit → Translator → Prop) t :
  wf_translator t → call_stack t = Stack.push rest f → wf_places (net (world t)) ps →
  (∀ f' t', moved none rest f f' t t' → Q tt t') →
  wp (call_unwrap_mutex tcx name args dest ps) allowed Q t.
Proof.
  intros Hwf Hs Hps HQ. apply wf_places_ignore in Hps.
  apply wp_bind. eapply wp_translator_call_foreign; [done..|].
  intros ts f1 t1 M1 _ _. apply wp_ret. by eapply HQ.
Qed.

Lemma owp_extract_def_id op d :
  owp (extract_def_id_of_called_function_from_operand tcx op d) allowed (λ _, True).
Proof. unfold extract_def_id_of_called_function_from_operand. by destruct (ty_kind _ _). Qed.

Lemma owp_extract_closure args : owp (extract_closure args) allowed (λ _, True).
Proof.
  apply owp_bind, owp_expect; [|done]. intros [|?|c] _; [done..|].
  destruct (user_ty c); [done|]. destruct (const_ c) as [| |v]; [done..|]. by destruct v.
Qed.

Lemma moved_threads X rest f f' t t' q :
  moved X rest f f' t t' →
  (∀ r, r ∈ q → thread_loc r < length (threads_ (heap (world t')))) →
  moved X rest f f' t (set_threads q t').
Proof. intros [[]] Hq. by split. Qed.

Lemma wp_call_thread_spawn name args dest ps rest f (Q : unit → Translator → Prop) t :
  wf_translator t → call_stack t = Stack.push rest f → wf_places (net (world t)) ps →
  (∀ f' t', moved none rest f f' t t' → Q tt t') →
  wp (call_thread_spawn tcx name args dest ps) allowed Q t.
Proof.
  intros Hwf Hs Hps HQ. apply wp_bind. eapply wp_translator_call_foreign; [done..|].
  intros ts f1 t1 M1 Hh1 [Hnew (Hd & _)]%call_transitions_default.
  apply wp_bind, wp_gets.
  assert (Hf1 := wf_top _ _ _ (mv_wf _ _ _ _ _ _ M1) (mv_stack _ _ _ _ _ _ M1)).
  apply wp_bind. eapply (wp_on_top_moved (.= get_default ts)); [apply M1..|].
  apply wp_bind, wp_expect; [done|]. intros op _.
  apply wp_bind. eapply (wp_owp _ (λ _, True)); [by apply owp_extract_def_id|]. intros d _.
  apply wp_bind. eapply (wp_owp _ (λ _, True)); [by apply owp_extract_closure|]. intros cl _.
  apply wp_bind. eapply (wp_mono _ allowed _ (λ vs w', w' = world t1 ∧
    ∀ v, v ∈ vs → wf_value (heap (world t1)) v)); [|done|].
  { destruct cl as [p|]; [|apply wp_ret; split; [done|by intros v ?%not_elem_of_nil]].
    eapply wp_owp; [apply owp_copy_aggregate, Hf1|]. done. }
  intros vs w' [-> Hvs]. apply wp_bind, wp_link_join_handle; [apply M1|apply Hf1|by split_and!|].
  intros r m w2 Hw2 Hle2 Hn2 Hm2 Hr2. apply wp_ret. simpl.
  split_and!; [done|eapply world_le_weaken, Hle2; by intros u [->|[=]]| |done|done|].
  - apply wf_function_memory; [|done]. by eapply wf_function_mono.
  - intros t2 M2 E2. apply wp_modify. eapply HQ. apply moved_threads.
    + by eapply moved_new_trans.
    + intros r'. rewrite elem_of_app, list_elem_of_singleton.
      intros [?| ->]; [by apply M2|by rewrite E2].
Qed.
End translator_spec.
