(* ===== verification/VisitSpec.v ===== *)
(** * The visits of a body, and the translation of a whole call

    What [start_function_call], [call_function] and each visit method leave in
    the net, and by induction on the fuel what translating the top frame does:
    if the function can return in the sense of [ControlFlow], there is a path
    of control-flow edges from the frame's start place to its end place, and if
    it can panic, one to the panic place. *)

From S2P Require Import Prelude RustStr DataStructures PriorityQueue Netcrab Naming Rustc Function.
From S2P Require Import Heap Memory Sync MirFunction Translator World WorldSpec SyncSpec Gadgets.
From S2P Require Import SyncCalls FrameSpec ControlFlow TranslatorSpec.

Section visit_spec.
Context `{LL : PetriNetLaws} {FP : FuelPolicy} (tcx : TyCtxt).
Implicit Types (w : World) (p s e : PlaceRef) (f : MirFunction) (t : Translator)
  (rest : Stack.Stack MirFunction) (d : DefId).

(** What translating the fresh top frame [f] achieves; the frame is popped. *)
Record translated rest f t t' : Prop := {
  tr_wf : wf_translator t';
  tr_stack : call_stack t' = rest;
  tr_world : world_le none (world t) (world t');
  tr_start : program_start t' = program_start t;
  tr_end : program_end t' = program_end t;
  tr_panic : program_panic t' = program_panic t;
  tr_returns : can_return tcx (def_id f) → path (world t') (start_place f) (end_place f);
  tr_panics : can_panic tcx (def_id f) → path (world t') (start_place f) (program_panic t);
}.

(** [rec_ok P rec]: [rec] translates the top frame if its function is in [P]. *)
Definition rec_ok (P : DefId → Prop) (rec : ST Translator unit) : Prop :=
  ∀ rest f t, P (def_id f) → wf_translator t → call_stack t = Stack.push rest f →
    basic_blocks f = ∅ → active_block f = None →
    wp rec allowed (λ _, translated rest f t) t.

(** What a call leaves behind, by the kind of the callee. *)
Definition call_flow w (panic : PlaceRef) d (ps : Places) : Prop :=
  (opaque_call tcx d = true → call_edges w ps) ∧
  (mir_call tcx d = true →
     let '(s, e) := get_start_end_place ps in
     (can_return tcx d → path w s e) ∧ (can_panic tcx d → path w s panic)).

Lemma call_flow_mono w w' panic d ps :
  world_le none w w' → call_flow w panic d ps → call_flow w' panic d ps.
Proof.
  intros Hle [H1 H2]. split; [eauto using call_edges_mono|]. intros Hm. specialize (H2 Hm).
  destruct (get_start_end_place ps). naive_solver eauto using path_mono.
Qed.

Lemma moved_postprocessing X rest f f' t t' h :
  moved X rest f f' t t' → (∀ k, k ∈ BinaryHeap.data h → wf_task (world t') k) →
  BinaryHeap.heap_ok get_priority h →
  moved X rest f f' t (set_postprocessing h t').
Proof. intros [[]] Hq Hh. by split. Qed.

Lemma wp_call_sync_function name args dest ps rest f (Q : unit → Translator → Prop) t :
  wf_translator t → call_stack t = Stack.push rest f → wf_places (net (world t)) ps →
  (∀ f' t', moved none rest f f' t t' → Q tt t') →
  wp (call_sync_function name args dest ps) allowed Q t.
Proof.
  intros Hwf Hs Hps HQ. apply wp_bind. eapply wp_get_count; [done..|]. intros i t1 M1 E1.
  apply wp_bind. eapply (wp_on_top_moved none); [apply M1..|].
  assert (Hf1 := wf_top _ _ _ (mv_wf _ _ _ _ _ _ M1) (mv_stack _ _ _ _ _ _ M1)).
  apply wp_bind, wp_sync_call_function; [apply M1|by rewrite E1|apply Hf1|].
  intros task m w2 Hw2 Hle2 Hm2 Htask. apply wp_ret. split_and!; try done.
  - apply wf_function_memory; [|done]. by eapply wf_function_mono.
  - intros t2 M2 E2. assert (M : moved none rest f (set_memory f m) t t2)
      by by eapply moved_none_trans. simpl.
    destruct task as [task|]; [|apply wp_ret; by eapply HQ].
    apply wp_modify. eapply HQ. apply moved_postprocessing; [done| |by apply BinaryHeap.push_ok, M].
    intros k. rewrite BinaryHeap.push_permutation, elem_of_cons.
    intros [->|Hk]; [rewrite E2; by apply Htask|by apply M].
Qed.

(** Pushing a frame whose places are in the net. *)
Lemma wf_translator_push t f :
  wf_translator t → wf_function (world t) f →
  wf_translator (set_call_stack (Stack.push (call_stack t) f) t).
Proof.
  intros [] Hf. split; simpl; try done.
  intros g. rewrite elem_of_app, list_elem_of_singleton. intros [?| ->]; auto.
Qed.

Lemma wf_function_new w d n s e :
  has_place (net w) s → has_place (net w) e → wf_function w (mir_function_new d n s e).
Proof.
  intros. split; simpl; [done|done| |apply wf_memory_empty].
  intros b blk Hb. by rewrite lookup_empty in Hb.
Qed.

(** A pushed frame that was translated leaves the caller's frame on top. *)
Lemma translated_moved rest f g t0 t t' :
  moved none rest f f t0 t →
  translated (call_stack t) g (set_call_stack (Stack.push (call_stack t) g) t) t' →
  moved none rest f f t0 t'.
Proof.
  intros [? ? ? ? ? ? ? ?] [? ? Hle ? ? ? ? ?]. simpl in *. split; try congruence; try done.
  by etransitivity.
Qed.

Section with_rec.
Context (P : DefId → Prop) (rec : ST Translator unit) (Hrec : rec_ok P rec).

(** Push a frame and translate it. *)
Lemma wp_push_and_translate d n s e rest f (Q : unit → Translator → Prop) t0 t :
  P d → moved none rest f f t0 t → has_place (net (world t)) s → has_place (net (world t)) e →
  (∀ t', moved none rest f f t0 t' → world_le none (world t) (world t') →
     (can_return tcx d → path (world t') s e) →
     (can_panic tcx d → path (world t') s (program_panic t0)) → Q tt t') →
  wp (modify (λ t, set_call_stack (Stack.push (call_stack t) (mir_function_new d n s e)) t);; rec)
    allowed Q t.
Proof.
  intros HP M Hs He HQ. apply wp_bind, wp_modify. eapply wp_mono.
  { apply (Hrec (call_stack t) (mir_function_new d n s e)); [done| |done..]. apply wf_translator_push; [apply M|by apply wf_function_new]. }
  { done. }
  intros [] t' Ht'. apply HQ; [eapply translated_moved; [exact M|exact Ht']|apply Ht'|apply Ht'|].
  intros Hp. rewrite <-(mv_panic _ _ _ _ _ _ M). by apply Ht'.
Qed.

Lemma wp_call_mir_function d name ps rest f (Q : unit → Translator → Prop) t :
  P d → wf_translator t → call_stack t = Stack.push rest f → wf_places (net (world t)) ps →
  (∀ f' t', moved none rest f f' t t' →
     (let '(s, e) := get_start_end_place ps in
      (can_return tcx d → path (world t') s e) ∧
      (can_panic tcx d → path (world t') s (program_panic t))) → Q tt t') →
  wp (call_mir_function rec d name ps) allowed Q t.
Proof.
  intros HP Hwf Hs Hps HQ. apply wp_bind. eapply wp_get_count; [done..|]. intros i t1 M1 E1.
  rewrite <-E1 in Hps. destruct ps as [s e|s e c].
  - destruct Hps as [Hps Hpe]. eapply wp_push_and_translate; [done..|]. intros t' M' _ H1 H2.
    eapply HQ; [done|]. by split.
  - destruct Hps as (Hps & Hpe & Hpc).
    cut (wp (on_world (on_net (connect_places s c (function.indexed_mir_function_cleanup_label name i))))
      allowed (λ _ t2, wp (modify (λ t, set_call_stack (Stack.push (call_stack t)
        (mir_function_new d (function.indexed_mir_function_name name i) s e)) t);; rec) allowed Q t2) t1).
    { unfold wp, mbind, st_bind. by destruct (on_world _ t1) as [[? t2]|]. }
    eapply (wp_on_world_moved none); [apply M1..|]. apply wp_on_net_connect; [apply M1|done..|].
    intros u w2 Hw2 Hle2 Hh2 F. split_and!; [done..|]. intros t2 M2 E2.
    eapply wp_push_and_translate; [done|exact (moved_none_trans _ _ _ _ _ _ _ M1 M2)| | |].
    1-2: rewrite E2; eapply grows_place; [apply Hle2|done].
    intros t' M' _ H1 H2. eapply HQ; [done|]. by split.
Qed.

(** The conditions of [start_function_call] that look at the first argument. *)
Lemma wp_and_then_self_ref b args rest f (Q : bool → Translator → Prop) t :
  call_stack t = Stack.push rest f →
  (∀ r, (r = true → b = true) → Q r t) →
  wp (and_then b (is_self_ref_mutex tcx args)) allowed Q t.
Proof.
  intros Hs HQ. destruct b; simpl; [|by apply wp_ret, HQ].
  apply wp_bind. apply wp_lift, owp_expect; [|done]. intros sr _.
  apply wp_bind. eapply wp_peek_top; [done|]. apply wp_ret. by apply HQ.
Qed.

(** The names handled specially are all names of the standard library. *)
Lemma foreign_special d :
  is_foreign_function d (def_path_str tcx d) tcx = false → special_name (def_path_str tcx d) = false.
Proof.
  intros Hf. apply not_true_is_false. intros Hs.
  assert (Hn : starts_with "std::" (def_path_str tcx d) = true).
  { unfold special_name, is_supported_function in Hs. apply orb_prop in Hs as [Hs|Hs];
      apply bool_decide_eq_true in Hs; revert Hs; generalize (def_path_str tcx d) as n;
      intros n Hs; repeat (apply elem_of_cons in Hs as [->|Hs]; [done|]); by apply not_elem_of_nil in Hs. }
  unfold is_foreign_function in Hf. by rewrite Hn in Hf.
Qed.

(** A name that is dispatched before the question whether it is foreign is
    neither an opaque nor a MIR call. *)
Lemma call_flow_special w panic d ps :
  def_path_str tcx d ≠ "std::mem::drop" → special_name (def_path_str tcx d) = true →
  call_flow w panic d ps.
Proof.
  intros Hd Hs. unfold call_flow, opaque_call, mir_call.
  rewrite Hs, (bool_decide_eq_false_2 _ Hd). done.
Qed.

Lemma mir_call_true d :
  def_path_str tcx d ≠ "std::mem::drop" →
  is_foreign_function d (def_path_str tcx d) tcx = false → mir_call tcx d = true.
Proof.
  intros H1 H2. unfold mir_call. by rewrite (bool_decide_eq_false_2 _ H1), (foreign_special _ H2), H2.
Qed.

Lemma wp_start_function_call d args dest ps rest f (Q : unit → Translator → Prop) t :
  (mir_call tcx d = true → P d) → wf_translator t → call_stack t = Stack.push rest f → wf_places (net (world t)) ps →
  (∀ f' t', moved none rest f f' t t' → call_flow (world t') (program_panic t) d ps → Q tt t') →
  wp (start_function_call tcx rec d (def_path_str tcx d) args dest ps) allowed Q t.
Proof.
  intros HP Hwf Hs Hps HQ. unfold start_function_call.
  case_bool_decide as Hdrop.
  { eapply wp_call_mem_drop; [done..|]. intros f' t' M He. eapply HQ; [done|]. split; [done|].
    unfold mir_call. by rewrite Hdrop. }
  assert (Hspec : ∀ f' t', special_name (def_path_str tcx d) = true →
    moved none rest f f' t t' → Q tt t').
  { intros f' t' Hn M. eapply HQ; [done|]. by apply call_flow_special. }
  apply wp_bind. eapply wp_and_then_self_ref; [done|]. intros r1 Hr1. destruct r1.
  { eapply wp_call_deref_mutex; [done..|]. intros f' t'. apply Hspec. unfold special_name.
    specialize (Hr1 eq_refl). apply orb_prop in Hr1 as [H|H]; apply bool_decide_eq_true in H;
      by rewrite H. }
  apply wp_bind. eapply wp_and_then_self_ref; [done|]. intros r2 Hr2. destruct r2.
  { eapply wp_call_unwrap_mutex; [done..|]. intros f' t'. apply Hspec. unfold special_name.
    specialize (Hr2 eq_refl). apply bool_decide_eq_true in Hr2. by rewrite Hr2. }
  clear Hr1 Hr2. case_bool_decide as Hspawn.
  { eapply wp_call_thread_spawn; [done..|]. intros f' t'. apply Hspec. by rewrite Hspawn. }
  destruct (is_supported_function (def_path_str tcx d)) eqn:Hsup.
  { eapply wp_call_sync_function; [done..|]. intros f' t'. apply Hspec. unfold special_name.
    by rewrite Hsup, orb_true_r. }
  destruct (is_foreign_function d (def_path_str tcx d) tcx) eqn:Hfor.
  - apply wp_bind. eapply wp_translator_call_foreign; [done..|]. intros ts f' t' M Hh Hts.
    apply wp_ret. eapply HQ; [done|]. split.
    + intros _. eapply call_transitions_edges; [apply Hwf|done..].
    + unfold mir_call. rewrite Hfor. by rewrite andb_false_r.
  - eapply wp_call_mir_function; [|done..|].
    { apply HP, mir_call_true; done. }
    intros f' t' M H. eapply HQ; [done|]. split; [|done].
    unfold opaque_call. by rewrite (bool_decide_eq_false_2 _ Hdrop), Hfor, andb_false_r.
Qed.

(** ** [call_function] *)

(** The places of a call belong to the blocks it may continue in. *)
Record places_for w f s (target : option N) (u : UnwindAction) (ps : Places) : Prop := {
  pf_wf : wf_places (net w) ps;
  pf_start : (get_start_end_place ps).1 = s;
  pf_target b : target = Some b → block_at f b (get_start_end_place ps).2;
  pf_cleanup b : cleanup_block u = Some b →
    (∃ e c, ps = PWithCleanup s e c ∧ block_at f b c) ∨ (∃ e, ps = PBasic s e ∧ block_at f b e);
  pf_continues : (target, u) ≠ (None, UnwindContinue);
}.

Lemma places_for_mono w w' f f' s target u ps :
  net_grows (net w) (net w') → fn_le f f' →
  places_for w f s target u ps → places_for w' f' s target u ps.
Proof.
  intros G Hf [H1 H2 H3 H4 H5]. split; eauto using wf_places_mono, block_at_mono.
  intros b Hb. destruct (H4 b Hb) as [(e & c & ? & ?)|(e & ? & ?)]; [left|right]; eauto 6 using block_at_mono.
Qed.

Lemma wp_call_places target u f s p_end p_panic (Q : option Places * MirFunction → World → Prop) w :
  wf_world w → wf_function w f → has_place (net w) s →
  has_place (net w) p_end → has_place (net w) p_panic →
  (∀ ps f' w', grown f f' w w' →
     match ps with
     | Some ps => places_for w' f' s target u ps
     | None => target = None ∧ u = UnwindContinue
     end → Q (ps, f') w') →
  wp (call_places target u f s p_end p_panic) allowed Q w.
Proof.
  intros Hwf Hf Hs He Hp HQ.
  assert (Hret : ∀ b f1 w1 (Q' : PlaceRef * MirFunction → World → Prop), grown f f1 w w1 →
    (∀ p f' w', grown f f' w w' → world_le none w1 w' → fn_le f1 f' → block_at f' b p →
       has_place (net w') p → Q' (p, f') w') →
    wp (on_net (get_end_place_for_function_call f1 b)) allowed Q' w1).
  { intros b f1 w1 Q' Hg HQ'. apply wp_get_end_place; [apply Hg..|]. intros p f2 w2 Hg2 Hb.
    apply HQ'; [by eapply grown_trans|apply Hg2|apply Hg2|done|].
    eapply block_at_place; [apply Hg2|done]. }
  assert (Hmono : ∀ w' p, world_le none w w' → has_place (net w) p → has_place (net w') p).
  { intros w' p Hle. apply grows_place, Hle. }
  unfold call_places. destruct target as [b|], u as [| | |c].
  all: try (apply wp_bind, Hret; [by apply grown_refl|]; intros p f1 w1 Hg1 Hle1 Hfn1 Hb1 Hp1).
  all: try (apply wp_bind; eapply Hret; [done|]; intros p2 f2 w2 Hg2 Hle2 Hfn2 Hb2 Hp2).
  all: apply wp_ret; apply HQ; [try done; by apply grown_refl|].
  all: try done.
  all: split; simpl; try done.
  all: try (split_and!; try done; try (eapply Hmono; [|done]; by eapply gr_le)).
  all: try (intros b0 [= ->]); try done; eauto using block_at_mono.
  eapply grows_place; [apply Hle2|done].
Qed.

(** ** What a terminator leaves behind *)

Record handled w (panic : PlaceRef) f b (k : TerminatorKind) : Prop := {
  hd_succ b' : plain_succ tcx (def_id f) k b' → linked w f b b';
  hd_return : k = Return → leads w f b (end_place f);
  hd_unwind : k = UnwindResume ∨ k = UnwindTerminate → leads w f b panic;
  hd_panic func args dest callee :
    k = Call func args dest None UnwindContinue →
    extract_def_id_of_called_function_from_operand tcx func (def_id f) = Ok callee →
    is_panic_function (def_path_str tcx callee) = true → leads w f b panic;
  hd_call_panics func args dest target u callee :
    k = Call func args dest target u → (target, u) ≠ (None, UnwindContinue) →
    extract_def_id_of_called_function_from_operand tcx func (def_id f) = Ok callee →
    mir_call tcx callee = true → can_panic tcx callee → leads w f b panic;
  hd_call_returns func args dest b' u callee :
    k = Call func args dest (Some b') u →
    extract_def_id_of_called_function_from_operand tcx func (def_id f) = Ok callee →
    mir_call tcx callee = true → can_return tcx callee → linked w f b b';
}.

Lemma handled_mono w w' panic f f' b k :
  world_le none w w' → fn_le f f' → handled w panic f b k → handled w' panic f' b k.
Proof.
  intros Hw Hf [H1 H2 H3 H4 H5 H6].
  split; rewrite ?(fn_le_def_id _ _ Hf), ?(fn_le_end _ _ Hf);
    eauto using linked_mono, leads_mono.
Qed.

(** A terminator other than a call that leaves the links it should. *)
Lemma handled_simple w panic f b k :
  match k with Call _ _ _ _ _ => False | _ => True end →
  (∀ b', plain_succ tcx (def_id f) k b' → linked w f b b') →
  (k = Return → leads w f b (end_place f)) →
  (k = UnwindResume ∨ k = UnwindTerminate → leads w f b panic) →
  handled w panic f b k.
Proof. intros Hk H1 H2 H3. split; try done; intros; by subst. Qed.

Lemma handled_call w panic f s b func args dest target u callee ps :
  extract_def_id_of_called_function_from_operand tcx func (def_id f) = Ok callee →
  block_at f b s → places_for w f s target u ps → call_flow w panic callee ps →
  handled w panic f b (Call func args dest target u).
Proof.
  intros Hc Hb [_ Hs Ht Hu Hne] [Hop Hmir]. split; try done.
  - intros b' (callee' & Hc' & Ho & Hb'). assert (callee' = callee) as -> by congruence.
    specialize (Hop Ho). assert (∃ p', block_at f b' p' ∧ edge w s p') as (p' & ? & ?).
    { destruct Hb' as [Hb'|Hb'].
      - exists (get_start_end_place ps).2. split; [eauto|]. destruct ps; simpl in *; subst; tauto.
      - destruct (Hu _ Hb') as [(e & c & -> & ?)|(e & -> & ?)]; simpl in *; naive_solver. }
    exists s, p'. split_and!; [done..|by apply path_edge].
  - by intros [|].
  - intros ? ? ? ? [=]. by subst.
  - intros ? ? ? ? ? callee' [=] _ Hc' Hm Hp. subst. assert (callee' = callee) as -> by congruence.
    specialize (Hmir Hm).
    destruct (get_start_end_place ps) as [s' e'] eqn:Hse; simpl in *; subst.
    exists s'. split; [done|]. by apply Hmir.
  - intros ? ? ? b' ? callee' [=] Hc' Hm Hr. subst. assert (callee' = callee) as -> by congruence.
    specialize (Hmir Hm).
    destruct (get_start_end_place ps) as [s' e'] eqn:Hse; simpl in *; subst.
    exists s', e'. split_and!; [done|eauto|by apply Hmir].
Qed.

Lemma handled_diverging w panic f b func args dest callee :
  extract_def_id_of_called_function_from_operand tcx func (def_id f) = Ok callee →
  (is_panic_function (def_path_str tcx callee) = true → leads w f b panic) →
  handled w panic f b (Call func args dest None UnwindContinue).
Proof.
  intros Hc Hp. split; try done.
  - intros b' (c & _ & _ & [|]); done.
  - by intros [|].
  - intros ? ? ? c [=] Hc' Hpc. subst. assert (c = callee) as -> by congruence. auto.
  - intros ? ? ? ? ? ? [=] Hne. by subst.
Qed.

Definition active_ok f : Prop := ∀ i, active_block f = Some i → ∃ p, block_at f i p.

(** What a visit of a terminator or statement guarantees. *)
Definition visited rest f k t t' : Prop :=
  ∃ f', moved none rest f f' t t' ∧
    ∀ b, active_block f = Some b → handled (world t') (program_panic t) f' b k.

(** A call that neither returns nor unwinds. *)
Lemma wp_no_return f i s d p_panic (Q : unit → World → Prop) w :
  wf_world w → wf_function w f → block_at f i s → has_place (net w) p_panic →
  (∀ w', grown f f w w' →
     (is_panic_function (def_path_str tcx d) = true → leads w' f i p_panic) → Q tt w') →
  wp (if is_panic_function (def_path_str tcx d) then
        on_net (call_panic_function s p_panic (name f))
      else on_net (call_diverging_function s (def_path_str tcx d))) allowed Q w.
Proof.
  intros Hwf Hf Hb Hp HQ. assert (Hs := block_at_place _ _ _ _ Hf Hb).
  destruct (is_panic_function _).
  - apply wp_on_net_bind, wp_on_net_connect; [done..|]. intros u w' Hw' Hle Hh F.
    destruct (grown_flow _ _ _ _ _ _ _ _ (grown_refl _ _ Hwf Hf) Hw' Hle Hh F) as [Hg He].
    apply wp_on_net_ret, HQ; [done|]. intros _. exists s. split; [done|by apply path_edge].
  - apply wp_on_net_bind. apply wp_on_net, wp_add_transition.
    intros u n1 Hu1 Hu2 _ _ _ [A B] G. destruct w as [n h]; simpl in *.
    assert (Hw1 : wf_world (mkWorld n1 h)) by by eapply wf_world_net.
    assert (Hle1 : world_le none (mkWorld n h) (mkWorld n1 h)) by (apply world_le_on_net; auto).
    apply wp_on_net_arc_place_transition; [done|by eapply grows_place|done|].
    intros w2 Hw2 Hle2 Hh2 _ _ _. apply HQ; [|done].
    assert (Hle02 : world_le none (mkWorld n h) w2) by by eapply world_le_snoc_eq.
    split; try done. by eapply wf_function_mono.
Qed.

Lemma wp_call_function func args dest target u rest f (Q : unit → Translator → Prop) t :
  (∀ d, calls_via tcx (def_id f) (Call func args dest target u) d → P d) →
  wf_translator t → call_stack t = Stack.push rest f →
  (∀ t', visited rest f (Call func args dest target u) t t' → Q tt t') →
  wp (call_function tcx rec func args dest target u) allowed Q t.
Proof.
  intros HP Hwf Hs HQ. apply wp_bind, wp_gets, wp_bind, wp_gets, wp_bind.
  assert (Hf := wf_top _ _ _ Hwf Hs). eapply (wp_on_top_moved none); [done..|].
  apply wp_bind. destruct (extract_def_id_of_called_function_from_operand tcx func (def_id f))
    as [d|] eqn:Hd; [|by pose proof (owp_extract_def_id tcx func (def_id f)) as H; rewrite Hd in H].
  apply wp_lift, wp_bind. eapply wp_owp.
  { apply owp_bind. eapply owp_mono; [apply owp_get_active_block|done|].
    intros a (i & Hi & Ha). instantiate (1 := λ s, ∃ i, active_block f = Some i ∧ block_at f i s).
    exists i. split; [done|by exists a]. }
  intros s (i & Hi & Hb). apply wp_bind, wp_call_places; [apply Hwf|done| |apply Hwf..|].
  { by eapply block_at_place. }
  intros ps f1 w1 Hg Hps. assert (Hfn := gr_fn_le _ _ _ _ Hg).
  assert (Hb1 := block_at_mono _ _ _ _ Hfn Hb).
  assert (Hd1 : ∀ g, fn_le f g → extract_def_id_of_called_function_from_operand tcx func (def_id g) = Ok d)
    by (intros g Hfg; by rewrite (fn_le_def_id _ _ Hfg)).
  destruct ps as [ps|].
  - apply wp_bind, wp_ret, wp_ret. simpl. split_and!; [apply Hg..|]. intros t1 M1 E1.
    apply wp_bind. eapply wp_start_function_call; [|apply M1..|rewrite E1; apply Hps|].
    { intros Hm. apply HP. exists func, args, dest, target, u. split_and!; [done|apply Hps|done|done]. }
    intros f2 t2 M2 Hcf. assert (M := moved_none_trans _ _ _ _ _ _ _ M1 M2).
    apply wp_modify. apply HQ. exists f2. split; [by apply moved_function_counter|].
    intros b Hb'. assert (b = i) as -> by congruence. rewrite (mv_panic _ _ _ _ _ _ M1) in Hcf. simpl.
    eapply handled_call; [apply Hd1, M|eapply block_at_mono; [apply M|done]| |done].
    eapply places_for_mono; [|apply M2|done]. rewrite <-E1. apply M2.
  - destruct Hps as [-> ->].
    assert (Hpan : has_place (net w1) (program_panic t)).
    { eapply grows_place; [apply Hg|apply Hwf]. }
    apply wp_bind. rewrite <-(fn_le_name _ _ Hfn).
    eapply wp_no_return; [apply Hg|apply Hg|done..|].
    intros w2 Hg2 Hl. apply wp_ret. simpl. assert (Hg02 := grown_trans _ _ _ _ _ _ Hg Hg2).
    split_and!; [apply Hg02..|]. intros t1 M1 <-. apply wp_ret, HQ. exists f1. split; [done|].
    intros b Hb'. assert (b = i) as -> by congruence. by eapply handled_diverging; [apply Hd1|].
Qed.
End with_rec.
End visit_spec.
