(* ===== verification/SameThreads.v ===== *)
(** * Operations that leave the queue of threads alone

    Of everything the translator does at a call, a statement or a terminator,
    only [std::thread::spawn] appends to the queue of threads, and only
    [translate_threads] takes from it.  The rules are in the hint database
    [threads]. *)

From S2P Require Import Prelude RustStr DataStructures PriorityQueue Netcrab Naming Rustc Function.
From S2P Require Import Heap Memory Sync MirFunction Translator World WorldSpec ControlFlow VisitSpec.

Section same_threads.
Context `{L : PetriNetLib}.
Implicit Types (t : Translator).

Definition same_threads {A} (m : ST Translator A) : Prop :=
  ∀ t a t', m t = Ok (a, t') → threads t' = threads t.

Lemma same_threads_ret {A} (a : A) : same_threads (mret a).
Proof. by intros t a' t' [= _ <-]. Qed.
Lemma same_threads_bind {A B} (m : ST Translator A) (k : A → ST Translator B) :
  same_threads m → (∀ a, same_threads (k a)) → same_threads (m ≫= k).
Proof.
  intros Hm Hk t b t' (a & t1 & H1 & H2)%st_bind_ok. by rewrite (Hk _ _ _ _ H2), (Hm _ _ _ H1).
Qed.
Lemma same_threads_lift {A} (o : outcome A) : same_threads (lift o).
Proof. intros t a t'. unfold lift. destruct o; [|done]. by intros [= _ <-]. Qed.
Lemma same_threads_gets {A} (f : Translator → A) : same_threads (gets f).
Proof. by intros t a t' [= _ <-]. Qed.
Lemma same_threads_modify g : (∀ t, threads (g t) = threads t) → same_threads (modify g).
Proof. intros Hg t [] t' [= <-]. apply Hg. Qed.
Lemma same_threads_fail {A} f : same_threads (fail f : ST Translator A).
Proof. by intros t a t'. Qed.
Lemma same_threads_on_world {A} (m : ST World A) : same_threads (on_world m).
Proof.
  intros t a t'. unfold on_world, zoom. destruct (m (world t)) as [[? w]|]; [|done]. by intros [= _ <-].
Qed.
End same_threads.

Create HintDb threads discriminated.
#[export] Hint Resolve same_threads_ret same_threads_bind same_threads_lift same_threads_gets
  same_threads_fail same_threads_on_world : threads.
#[export] Hint Extern 1 (same_threads (modify _)) => by apply same_threads_modify : threads.
#[export] Hint Extern 2 (same_threads (let '(_, _) := ?x in _)) => destruct x : threads.
#[export] Hint Extern 2 (same_threads (if ?b then _ else _)) => destruct b : threads.
#[export] Hint Extern 2 (same_threads (match ?x with _ => _ end)) => destruct x : threads.
Ltac solve_threads := eauto 20 with threads.

Section same_threads_ops.
Context `{L : PetriNetLib} (tcx : TyCtxt).

Lemma on_top_threads {A} (m : MirFunction → ST World (A * MirFunction)) : same_threads (on_top m).
Proof. unfold on_top. solve_threads. Qed.
Lemma get_count_threads name : same_threads (get_count name).
Proof. unfold get_count. solve_threads. Qed.
Lemma peek_top_threads : same_threads peek_top.
Proof. unfold peek_top. solve_threads. Qed.
#[local] Hint Resolve on_top_threads get_count_threads peek_top_threads : threads.

Lemma call_foreign_threads name args dest ps :
  same_threads (translator_call_foreign_function tcx name args dest ps).
Proof. unfold translator_call_foreign_function. solve_threads. Qed.
#[local] Hint Resolve call_foreign_threads : threads.

Lemma call_mem_drop_threads name args dest ps : same_threads (call_mem_drop tcx name args dest ps).
Proof. unfold call_mem_drop. solve_threads. Qed.
Lemma call_deref_mutex_threads name args dest ps : same_threads (call_deref_mutex tcx name args dest ps).
Proof. unfold call_deref_mutex. solve_threads. Qed.
Lemma call_unwrap_mutex_threads name args dest ps : same_threads (call_unwrap_mutex tcx name args dest ps).
Proof. unfold call_unwrap_mutex. solve_threads. Qed.
Lemma call_sync_function_threads name args dest ps : same_threads (call_sync_function name args dest ps).
Proof. unfold call_sync_function. solve_threads. Qed.
Lemma self_ref_threads b args : same_threads (and_then b (is_self_ref_mutex tcx args)).
Proof. unfold and_then, is_self_ref_mutex. solve_threads. Qed.
#[local] Hint Resolve call_mem_drop_threads call_deref_mutex_threads call_unwrap_mutex_threads
  call_sync_function_threads self_ref_threads : threads.

(** A call that is neither a spawn nor translated in turn queues no thread. *)
Lemma start_function_call_threads rec d args dest ps :
  mir_call tcx d = false → def_path_str tcx d ≠ "std::thread::spawn" →
  same_threads (start_function_call tcx rec d (def_path_str tcx d) args dest ps).
Proof.
  intros Hm Hsp. unfold start_function_call. case_bool_decide as Hd; [solve_threads|].
  apply same_threads_bind; [solve_threads|]. intros [|]; [solve_threads|].
  apply same_threads_bind; [solve_threads|]. intros [|]; [solve_threads|].
  rewrite (bool_decide_eq_false_2 (_ = "std::thread::spawn")) by done.
  destruct (is_supported_function _) eqn:Hsup; [solve_threads|].
  destruct (is_foreign_function _ _ _) eqn:Hf; [solve_threads|]. exfalso.
  unfold mir_call in Hm. rewrite Hf, (foreign_special _ _ Hf) in Hm.
  by rewrite bool_decide_eq_false_2 in Hm.
Qed.

Lemma visit_assign_threads place rv : same_threads (visit_assign tcx place rv).
Proof. unfold visit_assign. destruct rv as [[]| | |]; solve_threads. Qed.
Lemma visit_basic_block_threads b : same_threads (visit_basic_block_data b).
Proof. unfold visit_basic_block_data. solve_threads. Qed.
Lemma visit_other_threads rec k :
  (∀ func args dest target u, k ≠ Call func args dest target u) → same_threads (visit_terminator tcx rec k).
Proof.
  intros Hk. destruct k; simpl; unfold visit_drop, visit_assert; solve_threads. naive_solver.
Qed.
(** A call that neither returns nor unwinds ends before any dispatch. *)
Lemma diverging_call_threads rec func args dest :
  same_threads (call_function tcx rec func args dest None UnwindContinue).
Proof.
  intros t [] t' (pe & t1 & [= <- <-] & H)%st_bind_ok. apply st_bind_ok in H as (pp & t2 & [= <- <-] & H).
  apply st_bind_ok in H as ([[d name] ps] & t3 & H3 & H). assert (threads t3 = threads t) as <- by by eapply on_top_threads.
  assert (ps = None) as ->; [|by injection H as <-].
  apply st_bind_ok in H3 as (s & t4 & _ & H3). apply st_bind_ok in H3 as ([f put] & t5 & _ & H3).
  apply st_bind_ok in H3 as ([a f'] & t6 & H6 & H3). apply st_bind_ok in H3 as ([] & t7 & _ & H3).
  injection H3 as -> _. revert H6. unfold on_world, zoom. 
  destruct ((_ : ST World _) (world t5)) as [[[a' f''] w]|] eqn:Hin; [|done]. intros [= -> -> _].
  apply st_bind_ok in Hin as (d' & w1 & _ & Hin). apply st_bind_ok in Hin as (st & w2 & _ & Hin).
  apply st_bind_ok in Hin as ([ps' f3] & w3 & Hp & Hin). injection Hp as <- _ _.
  apply st_bind_ok in Hin as ([] & w4 & _ & Hin). by injection Hin.
Qed.
End same_threads_ops.

(** Combined with what else is known of a run. *)
Lemma wp_with_threads `{L : PetriNetLib} {A} (m : ST Translator A) E (Q : A → Translator → Prop) t :
  same_threads m → wp m E (λ a t', threads t' = threads t → Q a t') t → wp m E Q t.
Proof. intros Hm. apply wp_and. intros a t'. apply Hm. Qed.
