(* ===== verification/BodySpec.v ===== *)
(** * Translating a whole body

    The visit methods of mir_visitor.rs, the loop over a body, and
    [translate_top_call_stack] by induction on its fuel. *)

From S2P Require Import Prelude RustStr DataStructures PriorityQueue Netcrab Naming Rustc Function.
From S2P Require Import Heap Memory Sync MirFunction Translator World WorldSpec SyncSpec Gadgets.
From S2P Require Import SyncCalls FrameSpec ControlFlow TranslatorSpec VisitSpec.

Section body_spec.
Context `{LL : PetriNetLaws} {FP : FuelPolicy} (tcx : TyCtxt).
Implicit Types (w : World) (p s e : PlaceRef) (f : MirFunction) (t : Translator)
  (rest : Stack.Stack MirFunction) (d : DefId).

Abbreviation visited := (visited tcx).
Abbreviation handled := (handled tcx).

(** A method of the frame that grows it and handles the terminator. *)
Lemma wp_on_top_visited (m : MirFunction → ST World (unit * MirFunction)) rest f k
    (Q : unit → Translator → Prop) t :
  wf_translator t → call_stack t = Stack.push rest f →
  wp (m f) allowed (λ x w', grown f x.2 (world t) w' ∧
    ∀ b, active_block f = Some b → handled w' (program_panic t) x.2 b k) (world t) →
  (∀ t', visited rest f k t t' → Q tt t') →
  wp (on_top m) allowed Q t.
Proof.
  intros Hwf Hs Hm HQ. eapply (wp_on_top_moved none); [done..|].
  eapply wp_mono; [apply Hm|done|]. intros [[] f'] w' [Hg Hh]. simpl in *.
  split_and!; [apply Hg..|]. intros t' M <-. apply HQ. by exists f'.
Qed.

(** Drops: the transitions of the drop get the arc that releases the lock. *)
Lemma wp_drop_transition w0 dp m u (Q : unit → World → Prop) w :
  wf_world w → world_le none w0 w → wf_memory (heap w) m →
  has_transition (net w) u → new_since w0 u →
  (∀ w', wf_world w' → world_le none w0 w' → world_le (.= u) w w' → heap w' = heap w →
     (∀ v q, pre (net w') v q = pre (net w) v q) → Q tt w') →
  wp (handle_mutex_guard_drop dp u m) allowed Q w.
Proof.
  intros Hwf Hle Hm Hu Hnew HQ. apply wp_handle_mutex_guard_drop; [done..|].
  intros w' Hw' Hle' Hh Hpre. apply HQ; try done. by eapply world_le_snoc_eq.
Qed.

Lemma step_edge_more_post w0 w w' f i b u :
  net_grows (net w) (net w') → heap w' = heap w →
  (∀ v q, pre (net w') v q = pre (net w) v q) →
  step_edge w0 w f i b u → step_edge w0 w' f i b u.
Proof.
  intros G Hh Hpre (H1 & p & p' & H2 & H3 & H4 & H5). split; [done|]. exists p, p'.
  split_and!; [done..|by eapply plain_more_post|by rewrite Hh].
Qed.

Lemma grown_later f f' w w1 w2 :
  grown f f' w w1 → wf_world w2 → net_grows (net w1) (net w2) → heap w2 = heap w1 →
  world_le none w w2 → grown f f' w w2.
Proof.
  intros [? ? ? [H1 H2 H3 H4] ? ? ?] ? G Hh ?. split; try done; [congruence|].
  split; [by eapply grows_place..|eauto using grows_place|by rewrite Hh].
Qed.

Lemma step_edge_has w0 w f i b u : step_edge w0 w f i b u → new_since w0 u ∧ has_transition (net w) u.
Proof. intros (H1 & p & p' & _ & _ & (H2 & _) & _). done. Qed.

(** The [Drop] arm after its transitions were made. *)
Lemma wp_drop_finish f f' w0 dp target cleanup i u cu w :
  grown f f' w0 w → step_edge w0 w f' i target u →
  match cleanup, cu with
  | Some c, Some u' => step_edge w0 w f' i c u' | None, None => True | _, _ => False
  end →
  wp (handle_mutex_guard_drop dp u (memory f');;
      match cu with
      | Some u' => handle_mutex_guard_drop dp u' (memory f')
      | None => mret tt
      end;;
      mret (tt, f')) allowed (λ x w', grown f x.2 w0 w' ∧ linked w' x.2 i target ∧
        ∀ c, cleanup = Some c → linked w' x.2 i c) w.
Proof.
  intros Hg Hu Hcu. destruct (step_edge_has _ _ _ _ _ _ Hu) as [Hnew Hhas].
  apply wp_bind, (wp_drop_transition w0); [apply Hg|apply Hg|apply Hg|done..|].
  intros w1 Hw1 Hle1 Hle1' Hh1 Hpre1.
  assert (G1 := world_le_net _ _ _ Hle1'). assert (Hg1 := grown_later _ _ _ _ _ Hg Hw1 G1 Hh1 Hle1).
  assert (Hu1 := step_edge_more_post _ _ _ _ _ _ _ G1 Hh1 Hpre1 Hu).
  apply wp_bind. destruct cleanup as [c|], cu as [u'|]; try done.
  - destruct (step_edge_has _ _ _ _ _ _ Hcu) as [Hnew' Hhas'].
    apply (wp_drop_transition w0); [apply Hg1|apply Hg1|apply Hg1|by eapply grows_transition|done|].
    intros w2 Hw2 Hle2 Hle2' Hh2 Hpre2. assert (G2 := world_le_net _ _ _ Hle2').
    apply wp_ret. split_and!; simpl.
    + by eapply grown_later.
    + eapply step_edge_linked. by eapply step_edge_more_post.
    + intros ? [= <-]. eapply step_edge_linked. do 2 (eapply step_edge_more_post; [done..|]). done.
  - apply wp_ret, wp_ret. split_and!; [done|by eapply step_edge_linked|done].
Qed.

Lemma handled_drop w panic f i dp target u :
  linked w f i target → (∀ c, cleanup_block u = Some c → linked w f i c) →
  handled w panic f i (Drop dp target u).
Proof. intros H1 H2. apply handled_simple; try done; [|by intros [|]]. intros b' [->|?]; auto. Qed.
Lemma handled_assert w panic f i target u :
  linked w f i target → (∀ c, cleanup_block u = Some c → linked w f i c) →
  handled w panic f i (Assert target u).
Proof. intros H1 H2. apply handled_simple; try done; [|by intros [|]]. intros b' [->|?]; auto. Qed.

Lemma wp_visit_drop dp target u rest f (Q : unit → Translator → Prop) t :
  wf_translator t → call_stack t = Stack.push rest f →
  (∀ t', visited rest f (Drop dp target u) t t' → Q tt t') →
  wp (visit_drop dp target u) allowed Q t.
Proof.
  intros Hwf Hs HQ. apply wp_bind, wp_gets. assert (Hf := wf_top _ _ _ Hwf Hs).
  eapply wp_on_top_visited; [done..| |done]. apply wp_bind.
(* the transitions of the drop *)
apply (wp_mono _ allowed _ (λ x w1, ∃ i, grown f x.2 (world t) w1 ∧ active_block f = Some i ∧
  step_edge (world t) w1 x.2 i target x.1.1 ∧
  match cleanup_block u, x.1.2 with
  | Some c, Some u' => step_edge (world t) w1 x.2 i c u' | None, None => True | _, _ => False
  end)); [|done|].
- destruct u as [| | |c]; simpl.
  4: apply wp_drop; [apply Hwf|done|]; intros; eauto 10.
  1,3: apply wp_drop; [apply Hwf|done|]; intros u cu f' w' i Hg Hi He Hcu; exists i; by destruct cu.
  apply wp_bind, wp_unreachable; [apply Hwf|done|apply Hwf|]. intros w1 i Hg Hi _.
  apply wp_drop; [apply Hg..|]. intros u cu f' w' j Hg' Hj He Hcu. exists j.
  split_and!; [by eapply grown_trans|done| |by destruct cu].
  destruct He as (Hn & H). split; [|done]. intros Hu. apply Hn. eapply grows_transition; [apply Hg|done].
- intros [[u' cu] f'] w1 (i & Hg & Hi & He & Hcu). simpl in *.
  eapply wp_mono; [by eapply wp_drop_finish|done|]. intros [[] f''] w2 (Hg2 & Hl & Hlc). simpl in *.
  split; [done|]. intros b Hb. simplify_eq. by apply handled_drop.
Qed.

Lemma wp_visit_assert target u rest f (Q : unit → Translator → Prop) t :
  wf_translator t → call_stack t = Stack.push rest f →
  (∀ t', visited rest f (Assert target u) t t' → Q tt t') →
  wp (visit_assert target u) allowed Q t.
Proof.
  intros Hwf Hs HQ. apply wp_bind, wp_gets. assert (Hf := wf_top _ _ _ Hwf Hs).
  eapply wp_on_top_visited; [done..| |done]. apply wp_bind.
  apply (wp_mono _ allowed _ (λ f' w1, ∃ i, grown f f' (world t) w1 ∧ active_block f = Some i ∧
    linked w1 f' i target ∧ ∀ c, cleanup_block u = Some c → linked w1 f' i c)); [|done|].
  - destruct u as [| | |c]; simpl.
    1,3,4: apply wp_assert; [apply Hwf|done|]; intros; eauto 10.
    apply wp_bind, wp_assert; [apply Hwf|done|]. intros f1 w1 i Hg Hi Hl Hc.
    apply wp_bind, wp_unreachable; [apply Hg..|eapply grows_place; [apply Hg|apply Hwf]|].
    intros w2 j Hg2 Hj _. apply wp_ret. exists i. split_and!; [by eapply grown_trans|done| |done].
    eapply linked_mono; [apply Hg2|done|done].
  - intros f' w1 (i & Hg & Hi & Hl & Hc). apply wp_ret. split; [done|].
    intros b Hb. simplify_eq. by apply handled_assert.
Qed.

(** [unimplemented!], after the frame was looked up. *)
Lemma wp_unimplemented_terminator rest f (Q : unit → Translator → Prop) t :
  wf_translator t → call_stack t = Stack.push rest f →
  wp (on_top (λ function, mret (tt, function));; fail (Panic TerminatorNotImplemented)) allowed Q t.
Proof.
  intros Hwf Hs. eapply wp_bind, (wp_on_top_moved none); [done..|]. apply wp_ret.
  split_and!; try done; [apply Hwf|by eapply wf_top].
Qed.

Section with_rec.
Context (P : DefId → Prop) (rec : ST Translator unit) (Hrec : rec_ok tcx P rec).

Lemma wp_visit_terminator k rest f (Q : unit → Translator → Prop) t :
  (∀ d, calls_via tcx (def_id f) k d → P d) →
  wf_translator t → call_stack t = Stack.push rest f → active_ok f →
  (∀ t', visited rest f k t t' → Q tt t') →
  wp (visit_terminator tcx rec k) allowed Q t.
Proof.
  intros HP Hwf Hs Hact HQ. assert (Hf := wf_top _ _ _ Hwf Hs).
  assert (Hpan : has_place (net (world t)) (program_panic t)) by apply Hwf.
  assert (Hend : has_place (net (world t)) (program_end t)) by apply Hwf.
  destruct k; simpl; try (by eapply wp_unimplemented_terminator).
  - (* Goto *)
    eapply wp_on_top_visited; [done..| |done]. apply wp_bind, wp_goto; [apply Hwf|done|].
    intros f' w' i Hg Hi Hl. apply wp_ret. split; [done|]. intros b Hb. simplify_eq.
    apply handled_simple; try done; [by intros b' ->|by intros [|]].
  - (* SwitchInt *)
    eapply wp_on_top_visited; [done..| |done]. apply wp_bind, wp_switch_int; [apply Hwf|done|].
    intros f' w' Hg Hl. apply wp_ret. split; [done|]. intros b Hb.
    apply handled_simple; try done; [by intros b'; apply Hl|by intros [|]].
  - (* UnwindResume *)
    eapply wp_on_top_visited; [done..| |done]. apply wp_bind, wp_unwind; [apply Hwf|done..|].
    intros u w' i Hg Hi Hl. apply wp_ret. split; [done|]. intros b Hb. simplify_eq.
    by apply handled_simple.
  - (* UnwindTerminate *)
    eapply wp_on_top_visited; [done..| |done]. apply wp_bind, wp_unwind; [apply Hwf|done..|].
    intros u w' i Hg Hi Hl. apply wp_ret. split; [done|]. intros b Hb. simplify_eq.
    by apply handled_simple.
  - (* Return *)
    eapply wp_on_top_visited; [done..| |done]. apply wp_bind, wp_return_statement; [apply Hwf|done|].
    intros w' Hg Hl. apply wp_ret. split; [done|]. intros b Hb. destruct (Hact b Hb) as [p Hp].
    apply handled_simple; try done; [|by intros [|]]. intros _. by eapply Hl.
  - (* Unreachable *)
    eapply wp_on_top_visited; [done..| |done]. apply wp_bind, wp_unreachable; [apply Hwf|done..|].
    intros w' i Hg Hi Hl. apply wp_ret. split; [done|]. intros b Hb.
    apply handled_simple; try done. by intros [|].
  - by apply wp_visit_drop with rest f.
  - by apply wp_call_function with P rest f.
  - by apply wp_visit_assert with rest f.
Qed.

Lemma wp_visit_assign place rv rest f (Q : unit → Translator → Prop) t :
  wf_translator t → call_stack t = Stack.push rest f →
  (∀ f' t', moved none rest f f' t t' → basic_blocks f' = basic_blocks f → Q tt t') →
  wp (visit_assign tcx place rv) allowed Q t.
Proof.
  intros Hwf Hs HQ. assert (Hm := wf_fn_memory _ _ (wf_top _ _ _ Hwf Hs)).
  unfold visit_assign. destruct rv as [[rhs|rhs|c]|rhs|ops|].
  1,2,4,5: eapply wp_on_top_memory; [done..|
    by apply owp_link_if_sync_variable || apply owp_handle_aggregate_assignment|
    intros f' t' M _; by apply HQ].
  all: apply wp_ret, (HQ f); [by apply moved_refl|done].
Qed.

Lemma wp_visit_basic_block_data b rest f (Q : unit → Translator → Prop) t :
  wf_translator t → call_stack t = Stack.push rest f →
  (∀ f' t' p, wf_translator t' → call_stack t' = Stack.push rest f' → fn_le f f' →
     world_le none (world t) (world t') → program_start t' = program_start t →
     program_end t' = program_end t → program_panic t' = program_panic t →
     active_block f' = Some b → block_at f' b p →
     (basic_blocks f = ∅ → p = start_place f) → Q tt t') →
  wp (visit_basic_block_data b) allowed Q t.
Proof.
  intros Hwf Hs HQ. eapply (wp_on_top none); [done..|]. assert (Hf := wf_top _ _ _ Hwf Hs).
  apply wp_bind, wp_activate_block; [apply Hwf|done|].
  intros f' w' p Hw' Hle Hf' Hfn Ha Hb Hst. apply wp_ret. split_and!; [done..|].
  intros t' ? ? <- ? ? ?. by eapply HQ.
Qed.

(** ** The loop over a body *)

Record body_done rest f (ks : list (N * TerminatorKind)) t t' : Prop := {
  bd_wf : wf_translator t';
  bd_world : world_le none (world t) (world t');
  bd_start : program_start t' = program_start t;
  bd_end : program_end t' = program_end t;
  bd_panic : program_panic t' = program_panic t;
  bd_frame : ∃ f', call_stack t' = Stack.push rest f' ∧ fn_le f f' ∧
    active_ok f' ∧ ∀ b k, (b, k) ∈ ks → handled (world t') (program_panic t) f' b k;
}.

Lemma body_done_step rest f f1 t t1 t' ks ks' :
  wf_translator t1 → fn_le f f1 → world_le none (world t) (world t1) →
  program_start t1 = program_start t → program_end t1 = program_end t →
  program_panic t1 = program_panic t →
  (∀ b k, (b, k) ∈ ks → (b, k) ∈ ks' ∨ handled (world t1) (program_panic t) f1 b k) →
  body_done rest f1 ks' t1 t' → body_done rest f ks t t'.
Proof.
  intros Hwf Hf Hw H1 H2 H3 Hks [? ? ? ? Hp (f' & Hs & Hf' & Ha & Hh)].
  split; [done|by etransitivity|congruence..|]. exists f'.
  split_and!; [done|by etransitivity|done|]. intros b k [Hk|Hk]%Hks.
  - rewrite <-H3. auto.
  - by eapply handled_mono.
Qed.

Lemma wp_visits visits rest f (Q : unit → Translator → Prop) t :
  (∀ k d, VisitTerminator k ∈ visits → calls_via tcx (def_id f) k d → P d) →
  wf_translator t → call_stack t = Stack.push rest f → active_ok f →
  (∀ t', body_done rest f (terminators (active_block f) visits) t t' → Q tt t') →
  wp (for_each visits (visit tcx rec)) allowed Q t.
Proof.
  revert f t Q. induction visits as [|v visits IH]; intros f t Q HP Hwf Hs Hact HQ.
  { apply wp_ret, HQ. split; try done. exists f. split_and!; [done..|].
    by intros b k ?%not_elem_of_nil. }
  assert (HP' : ∀ f' k d, fn_le f f' → VisitTerminator k ∈ visits → calls_via tcx (def_id f') k d → P d).
  { intros f' k d Hfn Hk. rewrite (fn_le_def_id _ _ Hfn). apply HP. by right. }
  simpl. apply wp_bind. destruct v as [b|place rv|k]; simpl.
  - eapply wp_visit_basic_block_data; [done..|]. intros f' t' p ? ? Hfn ? ? ? ? Ha Hb _.
    eapply IH; [by intros; eapply HP'|done..| |].
    { intros i Hi. exists p. by simplify_eq. }
    intros t'' Hd. apply HQ. eapply body_done_step; [..|exact Hd]; try done. rewrite Ha. auto.
  - eapply wp_visit_assign; [done..|]. intros f' t' M E. eapply IH; [intros; eapply HP'; [apply M|done..]|apply M..| |].
    { intros i. unfold block_at. rewrite (mv_active _ _ _ _ _ _ M), E. apply Hact. }
    intros t'' Hd. apply HQ. eapply body_done_step; [..|exact Hd]; try apply M.
    rewrite (mv_active _ _ _ _ _ _ M). auto.
  - eapply wp_visit_terminator; [intros d; apply HP; by left|done..|]. intros t' (f' & M & Hh). eapply IH; [intros; eapply HP'; [apply M|done..]|apply M..| |].
    { intros i. rewrite (mv_active _ _ _ _ _ _ M). intros [p Hp]%Hact. exists p.
      eapply block_at_mono; [apply M|done]. }
    intros t'' Hd. apply HQ. eapply body_done_step; [..|exact Hd]; try apply M.
    rewrite (mv_active _ _ _ _ _ _ M). intros b k' Hk.
    destruct (active_block f) as [a|]; [|by left].
    apply elem_of_cons in Hk as [[= -> ->]|?]; [right; auto|by left].
Qed.

(** ** The frame, from its entry to its end *)

Lemma handled_returns w panic f :
  (∀ b k, (b, k) ∈ blocks tcx (def_id f) → handled w panic f b k) →
  ∀ d b, returns tcx d b → d = def_id f → leads w f b (end_place f).
Proof.
  intros Hh d b Hr. induction Hr as [d b Hk|d b k b' Hk Hs _ IH|
    d b func args dest b' u callee b0 Hk Hc Hm He Hr0 _ _ IH]; intros ->.
  - by eapply hd_return; [apply Hh|].
  - destruct (IH eq_refl) as (q & Hq & Hp).
    destruct (hd_succ _ _ _ _ _ _ (Hh _ _ Hk) _ Hs) as (p & q' & H1 & H2 & H3).
    exists p. split; [done|]. rewrite (block_at_unique _ _ _ _ H2 Hq) in H3. by eapply tc_transitive.
  - destruct (IH eq_refl) as (q & Hq & Hp).
    edestruct (hd_call_returns _ _ _ _ _ _ (Hh _ _ Hk)) as (p & q' & H1 & H2 & H3); [done..|by exists b0|].
    exists p. split; [done|]. rewrite (block_at_unique _ _ _ _ H2 Hq) in H3. by eapply tc_transitive.
Qed.

Lemma handled_panics w panic f :
  (∀ b k, (b, k) ∈ blocks tcx (def_id f) → handled w panic f b k) →
  ∀ d b, panics tcx d b → d = def_id f → leads w f b panic.
Proof.
  intros Hh d b Hr. induction Hr as [d b k Hk Hu|d b func args dest callee Hk Hc Hp|
    d b k b' Hk Hs _ IH|d b func args dest b' u callee b0 Hk Hc Hm He Hr0 _ IH|
    d b func args dest target u callee b0 Hk Hne Hc Hm He Hp _]; intros ->.
  - by eapply hd_unwind; [apply Hh|].
  - by eapply hd_panic; [apply Hh|..].
  - destruct (IH eq_refl) as (q & Hq & Hp).
    destruct (hd_succ _ _ _ _ _ _ (Hh _ _ Hk) _ Hs) as (p & q' & H1 & H2 & H3).
    exists p. split; [done|]. rewrite (block_at_unique _ _ _ _ H2 Hq) in H3. by eapply tc_transitive.
  - destruct (IH eq_refl) as (q & Hq & Hp).
    edestruct (hd_call_returns _ _ _ _ _ _ (Hh _ _ Hk)) as (p & q' & H1 & H2 & H3); [done..|by exists b0|].
    exists p. split; [done|]. rewrite (block_at_unique _ _ _ _ H2 Hq) in H3. by eapply tc_transitive.
  - eapply hd_call_panics; [by apply Hh|done..|by exists b0].
Qed.
End with_rec.

(** Popping the frame that was translated. *)
Lemma body_done_pop rest f t t' :
  body_done rest f (blocks tcx (def_id f)) t t' →
  (∀ b0, entry tcx (def_id f) b0 → ∃ f', call_stack t' = Stack.push rest f' ∧ block_at f' b0 (start_place f)) →
  translated tcx rest f t (set_call_stack (Stack.pop (call_stack t')).2 t').
Proof.
  intros [[] ? ? ? Hp (f' & Hs & Hfn & _ & Hh)] Hent. rewrite Hs, Stack.pop_push. simpl.
  assert (Hlead : ∀ b0 q, entry tcx (def_id f) b0 → leads (world t') f' b0 q →
    path (world t') (start_place f) q).
  { intros b0 q He (p & Hb & Hpath). destruct (Hent b0 He) as (f'' & Hs' & Hb0).
    rewrite Hs in Hs'. assert (f'' = f') as ->.
    { unfold Stack.push in Hs'. injection Hs' as H'. by apply app_inj_tail in H' as [_ ->]. }
    by rewrite (block_at_unique _ _ _ _ Hb0 Hb). }
  rewrite <-(fn_le_def_id _ _ Hfn) in Hh.
  split; simpl; try done.
  - split; try done. intros g Hg. apply wt_frames. rewrite Hs. simpl. set_solver.
  - intros (b0 & He & Hr). apply (Hlead b0); [done|]. rewrite <-(fn_le_end _ _ Hfn).
    eapply handled_returns; [done|done|by rewrite (fn_le_def_id _ _ Hfn)].
  - intros (b0 & He & Hr). apply (Hlead b0); [done|].
    eapply handled_panics; [done|done|by rewrite (fn_le_def_id _ _ Hfn)].
Qed.

(** The functions that [fuel] nested calls are enough for: any, if running
    out of fuel is acceptable. *)
Fixpoint enough_fuel (fuel : nat) d : Prop :=
  match fuel with
  | 0 => fuel_may_run_out
  | S fuel' => ∀ callee, calls tcx d callee → enough_fuel fuel' callee
  end.

Lemma translate_top_call_stack_ok fuel :
  rec_ok tcx (enough_fuel fuel) (translate_top_call_stack tcx fuel).
Proof.
  induction fuel as [|fuel IH]; [by intros rest f t HP _ _ _ _|]. intros rest f t HP Hwf Hs Hb Ha. simpl.
  apply wp_bind. eapply wp_peek_top; [done|]. apply wp_bind.
  assert (Hact : active_ok f) by (intros i; by rewrite Ha).
  assert (HP' : ∀ k d, VisitTerminator k ∈ body_visits tcx (def_id f) →
    calls_via tcx (def_id f) k d → enough_fuel fuel d).
  { intros k d Hk Hc. apply HP. by exists k. }
  destruct (body_visits tcx (def_id f)) as [|v vs] eqn:Hv.
  - apply wp_ret, wp_modify, body_done_pop.
    + split; try done. exists f. split_and!; [done..|]. unfold blocks. rewrite Hv.
      by intros b k ?%not_elem_of_nil.
    + unfold entry. by rewrite Hv.
  - assert ((∃ b0, v = VisitBasicBlockData b0) ∨ ∀ b0, v ≠ VisitBasicBlockData b0)
      as [[b0 ->]|Hne] by (destruct v; eauto).
    + simpl. apply wp_bind. eapply wp_visit_basic_block_data; [done..|].
      intros f1 t1 p ? ? Hfn1 ? ? ? ? Ha1 Hb1 Hst. eapply wp_visits; [done| |done..| |].
      { intros k d Hk. rewrite (fn_le_def_id _ _ Hfn1). apply HP'. by right. }
      { intros i Hi. exists p. by simplify_eq. }
      intros t2 Hd. apply wp_modify, body_done_pop.
      * eapply body_done_step; [..|exact Hd]; try done.
        unfold blocks. rewrite Hv, Ha1. simpl. auto.
      * intros b1. unfold entry. rewrite Hv. intros [= <-].
        destruct (bd_frame _ _ _ _ _ Hd) as (f2 & Hs2 & Hfn2 & _). exists f2. split; [done|].
        rewrite <-(Hst Hb). by eapply block_at_mono.
    + eapply wp_visits; [done..|]. intros t2 Hd. apply wp_modify, body_done_pop.
      * unfold blocks. by rewrite Hv, <-Ha.
      * intros b1. unfold entry. rewrite Hv. intros [= ->]. by destruct (Hne b1).
Qed.
End body_spec.
