(* ===== verification/ProgramSpec.v ===== *)
(** * The translation of a program

    [translate_threads], [translation_postprocessing], [run] and the query of
    lib.rs, from the specification of one frame. *)

From S2P Require Import Prelude RustStr DataStructures PriorityQueue Netcrab Naming Rustc Function.
From S2P Require Import Heap Memory Sync MirFunction Translator World WorldSpec SyncSpec Gadgets.
From S2P Require Import SyncCalls FrameSpec ControlFlow TranslatorSpec VisitSpec SameThreads BodySpec.
From S2P Require Import TokenGame.

Section program_spec.
Context `{LL : PetriNetLaws} {FP : FuelPolicy} (tcx : TyCtxt).
Implicit Types (w : World) (p s e : PlaceRef) (f : MirFunction) (t : Translator) (d : DefId).

(** The state goes on with the same call stack and program places; the place
    for panics may be another one. *)
Record advanced t t' : Prop := {
  ad_wf : wf_translator t';
  ad_stack : call_stack t' = call_stack t;
  ad_world : world_le none (world t) (world t');
  ad_start : program_start t' = program_start t;
  ad_end : program_end t' = program_end t;
}.

Lemma advanced_trans t1 t2 t3 : advanced t1 t2 → advanced t2 t3 → advanced t1 t3.
Proof. intros [] []. split; [done|congruence|by etransitivity|congruence..]. Qed.

Lemma advanced_refl t : wf_translator t → advanced t t.
Proof. by split. Qed.

Lemma enough_fuel_any fuel d : fuel_may_run_out → enough_fuel tcx fuel d.
Proof. intros H. revert d. induction fuel; simpl; auto. Qed.

(** Threads start where they are spawned, and a join waits for their end. *)
Definition thread_flow w (th : Thread) : Prop :=
  ∃ s e, (0 < post (net w) (spawn_transition th) s)%N ∧
    (∀ j, join_transition th = Some j → (0 < pre (net w) j e)%N) ∧
    (can_return tcx (thread_def_id th) → path w s e).

Lemma thread_flow_mono w w' th : world_le none w w' → thread_flow w th → thread_flow w' th.
Proof.
  intros Hle (s & e & H1 & H2 & H3). assert (G := world_le_net _ _ _ Hle). exists s, e. split_and!.
  - pose proof (grows_post _ _ G (spawn_transition th) s). lia.
  - intros j Hj. pose proof (grows_pre _ _ G j e). specialize (H2 j Hj). lia.
  - eauto using path_mono.
Qed.

(** The state in which a thread's function is translated. *)
Lemma wp_thread_prefix fuel r th (Q : unit → Translator → Prop) t :
  wf_translator t → threads_ (heap (world t)) !! thread_loc r = Some th →
  (∀ f t1, wf_translator t1 → call_stack t1 = Stack.push (call_stack t) f →
     def_id f = thread_def_id th → basic_blocks f = ∅ → active_block f = None →
     threads t1 = threads t → program_start t1 = program_start t → program_end t1 = program_end t →
     world_le none (world t) (world t1) →
     (0 < post (net (world t1)) (spawn_transition th) (start_place f))%N →
     (∀ j, join_transition th = Some j → (0 < pre (net (world t1)) j (end_place f))%N) →
     wp (translate_top_call_stack tcx fuel) allowed Q t1) →
  wp (translate_thread tcx fuel r) allowed Q t.
Proof.
  intros Hwf Hth HQ. apply wp_bind, wp_zoom. apply wp_read_thread; [apply Hwf|by eapply lookup_lt_Some|].
  intros th' Hth' Hwth. simplify_eq.
  assert (Hin : th ∈ threads_ (heap (world t))) by by eapply list_elem_of_lookup_2.
  apply wp_bind, wp_zoom. apply wp_prepare_for_translation; [apply Hwf|done|].
  intros s e w1 Hw1 Hle1 Hh1 Hs He Hsp Hj. apply wp_bind, wp_modify.
  apply wp_bind, wp_modify. apply wp_bind.
  set (f := mir_function_new _ _ s e). set (t1 := set_call_stack _ _).
  assert (Hwf1 : wf_translator t1).
  { apply (wf_translator_push (set_program_panic e (set_world w1 t))); [|by apply wf_function_new].
    destruct (wf_translator_world _ _ _ Hwf Hw1 Hle1). by split. }
  apply wp_with_threads; [apply on_top_threads|].
  eapply (wp_on_top none); [exact Hwf1|done|]. apply wp_bind. eapply wp_owp.
  { apply (owp_move_sync_variables tcx (heap w1)); [apply wf_memory_empty|].
    rewrite Hh1. apply Hwth. }
  intros m Hm. apply wp_ret. simpl. split_and!; [done|done| |done|].
  { apply wf_function_memory; [|done]. by apply wf_function_new. }
  intros t2 Hwf2 Hs2 Hw2 Est Een _ Ht2. eapply HQ; try done; rewrite ?Hw2; done.
Qed.

Lemma wp_translate_thread fuel r (Q : unit → Translator → Prop) t :
  (∀ th, threads_ (heap (world t)) !! thread_loc r = Some th →
     enough_fuel tcx fuel (thread_def_id th)) →
  wf_translator t → thread_loc r < length (threads_ (heap (world t))) →
  (∀ th t', threads_ (heap (world t)) !! thread_loc r = Some th →
     advanced t t' → thread_flow (world t') th → Q tt t') →
  wp (translate_thread tcx fuel r) allowed Q t.
Proof.
  intros Hfuel Hwf [th Hth]%lookup_lt_is_Some_2 HQ. eapply wp_thread_prefix; [done..|].
  intros f t1 Hwf1 Hs1 Hd Hb Ha _ Est Een Hle1 Hsp Hj. eapply wp_mono.
  { apply translate_top_call_stack_ok; [|done..]. rewrite Hd. by apply Hfuel. }
  { done. }
  intros [] t2 [? Hstk Hle2 Est2 Een2 _ Hret _]. assert (G := world_le_net _ _ _ Hle2).
  eapply HQ; [done|split; [done|done|by etransitivity|congruence..]|].
  exists (start_place f), (end_place f). rewrite <-Hd.
  split_and!; [|intros j Hj'; specialize (Hj j Hj')|done].
  - pose proof (grows_post _ _ G (spawn_transition th) (start_place f)). lia.
  - pose proof (grows_pre _ _ G j (end_place f)). lia.
Qed.

Lemma wp_translate_threads fuel queue_fuel (Q : unit → Translator → Prop) t :
  fuel_may_run_out → wf_translator t → (∀ t', advanced t t' → threads t' = [] → Q tt t') →
  wp (translate_threads tcx fuel queue_fuel) allowed Q t.
Proof.
  intros Hfuel. revert t Q. induction queue_fuel as [|queue_fuel IH]; intros t Q Hwf HQ; [done|].
  simpl. apply wp_bind, wp_gets. destruct (threads t) as [|r q] eqn:Hq.
  { apply wp_ret, HQ; [by apply advanced_refl|done]. }
  apply wp_bind, wp_modify, wp_bind.
  assert (Hwf1 : wf_translator (set_threads q t)).
  { destruct Hwf as [? ? ? ? ? H6 ? ?]. rewrite Hq in H6. split; try done. simpl. set_solver. }
  apply wp_translate_thread; [by intros; apply enough_fuel_any|done|apply Hwf; rewrite Hq; by left|].
  intros th t1 Hth Ha Hfl. apply IH; [apply Ha|]. intros t2 Ha2 Hq2. apply HQ; [|done].
  eapply advanced_trans; [|done]. by destruct Ha.
Qed.

(** ** Post-processing *)

Lemma wp_run_task ms task (Q : list MutexRef → World → Prop) w :
  wf_world w → wf_task w task →
  (∀ r, r ∈ ms → mutex_loc r < length (mutexes (heap w))) →
  (∀ ms' w', wf_world w' → world_le none w w' →
     (∀ r, r ∈ ms' → mutex_loc r < length (mutexes (heap w'))) → Q ms' w') →
  wp (run_task ms task) allowed Q w.
Proof.
  intros Hwf Htask Hms HQ. destruct task as [prio i s e ws|prio r]; simpl in *.
  - destruct Htask as (_ & Hs & He & Hws). apply wp_bind. eapply wp_mono.
    { apply (wp_for_each ms _ allowed (λ _ w', wf_world w' ∧ world_le none w w' ∧ heap w' = heap w));
        [done|]. intros r ms' w1 Hr (Hw1 & Hle1 & Hh1).
      apply wp_bind, wp_read_mutex; [done|rewrite Hh1; by apply Hms|]. intros x Hx _.
      apply wp_link_to_condvar; [done| |eapply grows_place; [apply Hle1|done]..|by rewrite Hh1|].
      - intros u Hu. left. exists x. split; [by eapply list_elem_of_lookup_2|done].
      - intros w2 Hw2 Hle2 Hh2. split_and!; [done|by transitivity w1|congruence]. }
    { done. }
    intros [] w' (Hw' & Hle' & Hh'). apply wp_ret, HQ; [done|done|by rewrite Hh'].
  - apply wp_ret, HQ; [done|done|]. intros r'. rewrite elem_of_app, list_elem_of_singleton.
    intros [?| ->]; [auto|apply Htask].
Qed.

Lemma wp_postprocessing_loop fuel ms (Q : unit → Translator → Prop) t :
  fuel_may_run_out ∨ length (BinaryHeap.data (postprocessing t)) < fuel →
  wf_translator t → (∀ r, r ∈ ms → mutex_loc r < length (mutexes (heap (world t)))) →
  (∀ t', advanced t t' → Q tt t') →
  wp (postprocessing_loop fuel ms) allowed Q t.
Proof.
  revert ms t Q. induction fuel as [|fuel IH]; intros ms t Q Hfuel Hwf Hms HQ; [destruct Hfuel; [done|lia]|].
  simpl. apply wp_bind, wp_gets.
  pose proof (BinaryHeap.pop_spec get_priority _ (wt_heap _ Hwf)) as Hpop.
  destruct (BinaryHeap.pop get_priority (postprocessing t)) as [[task|] h'].
  - destruct Hpop as (Hok & Hperm & _). apply wp_bind, wp_modify.
    assert (Htask : wf_task (world t) task) by (apply Hwf; rewrite Hperm; by left).
    assert (Hwf1 : wf_translator (set_postprocessing h' t)).
    { destruct Hwf as [? ? ? ? ? ? H7 ?]. split; try done. simpl. intros k Hk. apply H7.
      rewrite Hperm. by right. }
    apply wp_bind, wp_zoom, wp_run_task; [apply Hwf|done|done|].
    intros ms' w' Hw' Hle' Hms'. apply IH; [|by eapply wf_translator_world|done|].
    { destruct Hfuel as [?|Hlt]; [by left|right]. rewrite Hperm in Hlt. simpl in *. lia. }
    intros t' Ha. apply HQ. destruct Ha as [? ? Hle ? ?]. split; try done. simpl in *. by transitivity w'.
  - destruct Hpop as [-> _]. apply wp_bind, wp_modify, wp_ret, HQ. destruct Hwf; by do 2 split.
Qed.

(** ** [Translator::new] *)

(** The places that the model checker's property names. *)
Record program_places (n : PetriNet) (start end_ panic : PlaceRef) : Prop := {
  pp_start : has_place n start;
  pp_end : has_place n end_;
  pp_panic : has_place n panic;
  pp_start_label : place_ref_label start = PROGRAM_START;
  pp_end_label : place_ref_label end_ = PROGRAM_END;
  pp_panic_label : place_ref_label panic = PROGRAM_PANIC;
  pp_start_marking : marking n start = 1%N;
  pp_end_marking : marking n end_ = 0%N;
  pp_panic_marking : marking n panic = 0%N;
}.

Lemma program_places_mono n n' s e p :
  net_grows n n' → program_places n s e p → program_places n' s e p.
Proof.
  intros G []. split; try done; try (by eapply grows_place); by rewrite (grows_marking _ _ G).
Qed.

Lemma wf_world_empty n : wf_world (mkWorld n empty_heap).
Proof. split; simpl; by intros ? ?%not_elem_of_nil. Qed.

Lemma translator_new_spec :
  owp translator_new allowed (λ t, wf_translator t ∧ call_stack t = Stack.new ∧
    program_places (net (world t)) (program_start t) (program_end t) (program_panic t)).
Proof.
  unfold translator_new. apply owp_bind. eapply owp_mono; [apply (owp_wp _ _ (λ x n,
    let '(s, e, p) := x in program_places n s e p))|done|].
  2: { intros [[[s e] p] n] Hpp. split_and!; [|done|done]. destruct Hpp. split; simpl; try done.
    1: apply wf_world_empty. all: by intros ? ?%not_elem_of_nil. }
  wp_steps. apply wp_add_place. intros p n1 Hp _ _ P1 _ M1 _ _.
  pose proof (add_place_label_law _ _ _ _ Hp) as Lp. apply add_place_law in Hp as (F1 & _).
  wp_steps. apply wp_add_place. intros e n2 He F2 _ P2 _ M2 _ _.
  pose proof (add_place_label_law _ _ _ _ He) as Le.
  wp_steps. apply wp_add_place. intros s n3 Hs F3 Hs3 P3 _ M3 _ _.
  pose proof (add_place_label_law _ _ _ _ Hs) as Ls.
  assert (M0 : ∀ q, marking n3 q = 0%N).
  { intros q. rewrite M3, M2, M1. apply no_place_marking, new_no_place. }
  assert (Lp' : place_ref_label p = PROGRAM_PANIC).
  { apply Lp. by intros q ?%new_no_place. }
  assert (Le' : place_ref_label e = PROGRAM_END).
  { apply Le. intros q [->|?%new_no_place]%P1; [by rewrite Lp'|done]. }
  assert (Ls' : place_ref_label s = PROGRAM_START).
  { apply Ls. intros q [->|[->|?%new_no_place]%P1]%P2; [by rewrite Le'|by rewrite Lp'|done]. }
  wp_steps. apply wp_add_token; [done|by rewrite M0|]. intros n4 P4 _ M4 _. wp_steps.
  split; try done; rewrite ?P4, ?M4, ?M0.
  - done.
  - apply P3, or_intror, P2. by left.
  - apply P3, or_intror, P2, or_intror, P1. by left.
  - by rewrite decide_True.
  - rewrite decide_False; [done|]. intros ->. by rewrite Le' in Ls'.
  - rewrite decide_False; [done|]. intros ->. by rewrite Lp' in Ls'.
Qed.

(** ** [run] *)

Lemma wp_run fuel queue_fuel (Q : unit → Translator → Prop) t :
  fuel_may_run_out → wf_translator t →
  (∀ main t', entry_fn tcx = Some main → advanced t t' →
     (can_return tcx main → path (world t') (program_start t) (program_end t)) →
     (can_panic tcx main → path (world t') (program_start t) (program_panic t)) → Q tt t') →
  wp (run tcx fuel queue_fuel) allowed Q t.
Proof.
  intros Hfuel Hwf HQ. unfold run. apply wp_bind, wp_lift, owp_expect; [|done]. intros main Hmain.
  apply wp_bind, wp_gets, wp_bind, wp_gets, wp_bind, wp_modify, wp_bind. eapply wp_mono.
  { apply (translate_top_call_stack_ok tcx fuel (call_stack t)); [by apply enough_fuel_any| |done..].
    apply wf_translator_push; [done|]. apply wf_function_new; apply Hwf. }
  { done. }
  intros [] t1 [Hwf1 Hs1 Hle1 Est1 Een1 _ Hret Hpan]. simpl in *.
  apply wp_bind, wp_translate_threads; [done..|]. intros t2 [Hwf2 ? Hle2 ? ?] _.
  apply wp_bind, wp_gets, wp_postprocessing_loop; [right; lia|done|by intros ? ?%not_elem_of_nil|].
  intros t3 [? ? Hle3 ? ?]. assert (Hle13 : world_le none (world t1) (world t3)) by by transitivity (world t2).
  apply (HQ main); [done| |eauto using path_mono..].
  split; [done|congruence|by transitivity (world t1)|congruence..].
Qed.

(** ** Paths and tokens *)

Lemma edge_fires w s e (m : Marking) :
  edge w s e → (0 < m s)%N → ∃ m', step (net w) m m' ∧ (0 < m' e)%N.
Proof.
  intros (u & (Hu & Hpre & Hpost) & _) Hs. exists (fire (net w) u m). split.
  - apply (step_fire _ _ u); [|done]. split; [done|]. intros p. rewrite Hpre.
    case_decide; subst; lia.
  - unfold fire. lia.
Qed.

Lemma path_reachable w s e (m : Marking) :
  path w s e → (0 < m s)%N → ∃ m', reachable (net w) m m' ∧ (0 < m' e)%N.
Proof.
  intros Hp. revert m. induction Hp as [s e He|s x e He _ IH]; intros m Hm.
  - destruct (edge_fires _ _ _ _ He Hm) as (m' & Hst & Hm'). exists m'. split; [|done].
    eapply reachable_step; [done|by apply reachable_refl].
  - destruct (edge_fires _ _ _ _ He Hm) as (m1 & Hst & Hm1). destruct (IH m1 Hm1) as (m' & Hr & Hm').
    exists m'. split; [|done]. by eapply reachable_step.
Qed.

Definition markable (n : PetriNet) p : Prop := ∃ m, reachable n (marking n) m ∧ (0 < m p)%N.

(** ** The query *)

Lemma translate_spec fuel queue_fuel :
  fuel_may_run_out → owp (translate tcx fuel queue_fuel) allowed (λ n, ∃ main start end_ panic,
    entry_fn tcx = Some main ∧ program_places n start end_ panic ∧
    (can_return tcx main → markable n end_) ∧ (can_panic tcx main → markable n panic)).
Proof.
  intros Hfuel. unfold translate. apply owp_bind. eapply owp_mono; [apply translator_new_spec|done|].
  intros t (Hwf & Hs & Hpp). apply owp_bind.
  eapply owp_mono; [apply (owp_wp _ _ (λ _ t', ∃ main, entry_fn tcx = Some main ∧ advanced t t' ∧
     (can_return tcx main → path (world t') (program_start t) (program_end t)) ∧
     (can_panic tcx main → path (world t') (program_start t) (program_panic t))))|done|].
  { apply wp_run; eauto 10. }
  intros [[] t'] (main & Hmain & [_ _ Hle _ _] & Hret & Hpan). simpl in *.
  assert (Hpp' := program_places_mono _ _ _ _ _ (world_le_net _ _ _ Hle) Hpp).
  exists main, (program_start t), (program_end t), (program_panic t). split_and!; [done..| |].
  - intros Hc%Hret. eapply path_reachable; [done|]. rewrite (pp_start_marking _ _ _ _ Hpp'). lia.
  - intros Hc%Hpan. eapply path_reachable; [done|]. rewrite (pp_start_marking _ _ _ _ Hpp'). lia.
Qed.
End program_spec.
