(* ===== verification/Final.v ===== *)
(** * Programs that have ended stay ended

    No transition of a translated net, of any program, takes a token from
    PROGRAM_END or PROGRAM_PANIC.  The places that transitions consume from, the
    places of blocks, mutexes, condition variables and threads, are different
    from these two ([inner]); the translation keeps them so. *)

From S2P Require Import Prelude RustStr DataStructures PriorityQueue Netcrab Naming Rustc Function.
From S2P Require Import Heap Memory Sync MirFunction Translator TokenGame Invariants World ProgramSpec.

Section final.
Context `{LL : PetriNetLaws} (final : PlaceRef → Prop).
Implicit Types (n : PetriNet) (p q s e : PlaceRef) (f : MirFunction).

Definition inner p : Prop := ¬ final p.

(** ** The net *)

(** The final places exist, and nothing consumes from them. *)
Definition kept n : Prop := ∀ p, final p → has_place n p ∧ ∀ t, pre n t p = 0%N.

Lemma kept_grows n n' : net_grows n n' → (∀ t p, final p → pre n' t p = pre n t p) → kept n → kept n'.
Proof.
  intros G Hpre HI p Hp. destruct (HI p Hp) as [H1 H2]. split; [by apply (grows_place _ _ G)|].
  intros t. by rewrite Hpre.
Qed.

Lemma yields_add_place l : yields kept inner (add_place l).
Proof.
  intros n p n' HI H. assert (G := add_place_grows _ _ _ _ H). apply add_place_ok in H as (Hf & _ & _ & _ & [H1 _]). split.
  - eapply kept_grows; [done| |done]. auto.
  - intros Hp. apply Hf. by apply HI.
Qed.
Lemma yields_add_transition l : yields kept (λ _, True) (add_transition l).
Proof.
  apply yields_keeps. intros n t n' HI H. destruct (add_transition_grows _ _ _ _ H) as [G _].
  apply add_transition_ok in H as (_ & _ & _ & [H1 _]). eapply kept_grows; [done| |done]. auto.
Qed.
Lemma yields_add_token p k : yields kept (λ _, True) (add_token p k).
Proof.
  apply yields_keeps. intros n a n' HI H q Hq. destruct (HI q Hq) as [H1 H2].
  rewrite (add_token_places _ _ _ _ _ H). split; [done|]. apply add_token_ok in H as (_ & [H3 _] & _).
  intros t. by rewrite H3.
Qed.
Lemma yields_arc_pt p t : inner p → yields kept (λ _, True) (add_arc_place_transition p t).
Proof.
  intros Hp. apply yields_keeps. intros n a n' HI (_ & _ & Hpre & _ & _ & G)%add_arc_pt_ok.
  eapply kept_grows; [done| |done]. intros u q Hq. apply Hpre. by intros [= -> ->].
Qed.
Lemma yields_arc_tp t p : yields kept (λ _, True) (add_arc_transition_place t p).
Proof.
  apply yields_keeps. intros n a n' HI (_ & _ & _ & _ & Hpre & G)%add_arc_tp_ok. eapply kept_grows; [done| |done]. auto.
Qed.
Lemma yields_connect s e l : inner s → yields kept (λ _, True) (connect_places s e l).
Proof.
  intros Hs. unfold connect_places. eapply yields_bind; [apply yields_add_transition|]. intros t _.
  eapply yields_bind; [by apply yields_arc_pt|]. intros _ _.
  eapply yields_bind; [apply yields_arc_tp|]. intros _ _. by apply yields_ret.
Qed.

(** ** Calls *)

Definition inner_places (ps : Places) : Prop := inner (get_start_end_place ps).1.

Lemma inner_ignore ps : inner_places ps → inner_places (ignore_cleanup_place ps).
Proof. by destruct ps. Qed.
Lemma yields_foreign name i ps : inner_places ps → yields kept (λ _, True) (call_foreign_function name i ps).
Proof.
  intros Hs. unfold call_foreign_function. destruct (function.foreign_call_transition_labels _ _) as [l1 l2].
  destruct ps as [s e|s e c].
  - eapply yields_bind; [by apply yields_connect|]. intros t _. by apply yields_ret.
  - eapply yields_bind; [by apply yields_connect|]. intros t _.
    eapply yields_bind; [by apply yields_connect|]. intros u _. by apply yields_ret.
Qed.
Lemma yields_diverging s name : inner s → yields kept (λ _, True) (call_diverging_function s name).
Proof. intros Hs. eapply yields_bind; [apply yields_add_transition|]. intros t _. by apply yields_arc_pt. Qed.
Lemma yields_panic s u name : inner s → yields kept (λ _, True) (call_panic_function s u name).
Proof. intros Hs. eapply yields_bind; [by apply yields_connect|]. intros t _. by apply yields_ret. Qed.

(** ** Frames *)

Record inner_frame f : Prop := {
  if_start : inner (start_place f);
  if_block b blk : basic_blocks f !! b = Some blk → inner (bb_place blk);
}.

Lemma inner_frame_new d name s e : inner s → inner_frame (mir_function_new d name s e).
Proof. by split. Qed.
Lemma inner_frame_memory f m : inner_frame f → inner_frame (set_memory f m).
Proof. by intros []. Qed.

Lemma yields_ensure f b : inner_frame f → yields kept inner_frame (ensure_basic_block f b).
Proof.
  intros [Hs Hb]. unfold ensure_basic_block. destruct (basic_blocks f !! b) eqn:E; [by apply yields_ret|].
  eapply (yields_bind _ (λ blk, inner (bb_place blk))).
  - unfold basic_block_new. eapply (yields_bind _ inner); [|intros p Hp; by apply yields_ret].
    unfold prepare_start_place_for_next_basic_block. case_bool_decide; [by apply yields_ret|apply yields_add_place].
  - intros blk Hblk. rewrite E. apply yields_ret. split; simpl; [done|]. intros b' blk'.
    rewrite lookup_insert_Some. intros [[_ <-]|[_ H]]; [done|by eapply Hb].
Qed.
Lemma inner_block_expected f b blk fl :
  inner_frame f → expect fl (basic_blocks f !! b) = Ok blk → inner (bb_place blk).
Proof. intros [_ Hb] H. apply (Hb b). unfold expect in H. destruct (basic_blocks f !! b); [by injection H as ->|done]. Qed.
Lemma inner_active f blk : inner_frame f → get_active_block f = Ok blk → inner (bb_place blk).
Proof. intros Hf (a & _ & H)%outcome_bind_ok. by eapply inner_block_expected. Qed.

Lemma yields_pair f b :
  inner_frame f → yields kept (λ r, inner (bb_place r.1.1) ∧ inner_frame r.2) (get_pair_active_block_target_block f b).
Proof.
  intros Hf. eapply yields_bind; [by apply yields_ensure|]. intros f' Hf'.
  eapply yields_bind; [apply yields_lift|]. intros tb _. eapply yields_bind; [apply yields_lift|]. intros ab Hab.
  apply yields_ret. split; [by eapply inner_active|done].
Qed.
Lemma yields_end_place f b : inner_frame f → yields kept (λ r, inner_frame r.2) (get_end_place_for_function_call f b).
Proof.
  intros Hf. eapply (yields_bind _ (λ r, inner_frame r.2)); [|intros [blk f'] Hf'; by apply yields_ret].
  eapply yields_bind; [by apply yields_ensure|]. intros f' Hf'. eapply yields_bind; [apply yields_lift|].
  intros blk _. by apply yields_ret.
Qed.
Lemma yields_activate f b : inner_frame f → yields kept inner_frame (activate_block f b).
Proof. intros Hf. eapply yields_bind; [by apply yields_ensure|]. intros f' []. by apply yields_ret. Qed.

(** A transition from a block. *)
Lemma yields_connect_unit s e l : inner s → yields kept (λ _, True) (connect_places s e l;; mret tt).
Proof. intros Hs. eapply yields_bind; [by apply yields_connect|]. intros t _. by apply yields_ret. Qed.

Lemma yields_goto f b : inner_frame f → yields kept inner_frame (goto f b).
Proof.
  intros Hf. eapply yields_bind; [by apply yields_pair|]. intros [[ab tb] f'] [Ha Hf'].
  eapply yields_bind; [by apply yields_connect_unit|]. intros [] _. by apply yields_ret.
Qed.
Lemma yields_switch_int f l : inner_frame f → yields kept inner_frame (switch_int f l).
Proof.
  intros Hf. apply yields_fold_st; [done|]. intros f' b Hf'.
  eapply yields_bind; [by apply yields_pair|]. intros [[ab tb] f2] [Ha Hf2].
  eapply yields_bind; [by apply yields_connect_unit|]. intros [] _. by apply yields_ret.
Qed.
Lemma yields_drop f b c : inner_frame f → yields kept (λ r, inner_frame r.2) (drop f b c).
Proof.
  intros Hf. eapply yields_bind; [by apply yields_pair|]. intros [[ab tb] f'] [Ha Hf'].
  eapply yields_bind; [by apply yields_connect|]. intros t _. destruct c as [c|]; [|by apply yields_ret].
  eapply yields_bind; [by apply yields_pair|]. intros [[ab2 cb] f2] [Ha2 Hf2].
  eapply yields_bind; [by apply yields_connect|]. intros t2 _. by apply yields_ret.
Qed.
Lemma yields_assert f b c : inner_frame f → yields kept inner_frame (assert f b c).
Proof.
  intros Hf. eapply yields_bind; [by apply yields_pair|]. intros [[ab tb] f'] [Ha Hf'].
  eapply yields_bind; [by apply yields_connect_unit|]. intros [] _. destruct c as [c|]; [|by apply yields_ret].
  eapply yields_bind; [by apply yields_pair|]. intros [[ab2 cb] f2] [Ha2 Hf2].
  eapply yields_bind; [by apply yields_connect_unit|]. intros [] _. by apply yields_ret.
Qed.
Lemma yields_unwind f p : inner_frame f → yields kept (λ _, True) (MirFunction.unwind f p).
Proof.
  intros Hf. eapply yields_bind; [apply yields_lift|]. intros ab Hab. apply yields_connect. by eapply inner_active.
Qed.
Lemma yields_unreachable f p : inner_frame f → yields kept (λ _, True) (unreachable f p).
Proof.
  intros Hf. eapply yields_bind; [apply yields_lift|]. intros ab Hab. apply yields_connect_unit. by eapply inner_active.
Qed.
Lemma yields_return f : inner_frame f → yields kept (λ _, True) (return_statement f).
Proof.
  intros Hf. eapply yields_bind; [apply yields_lift|]. intros s Hs. apply yields_connect_unit.
  unfold prepare_start_place_for_return_statement in Hs. case_bool_decide; [injection Hs as <-; apply Hf|].
  apply outcome_bind_ok in Hs as (ab & Hab & [= <-]). by eapply inner_active.
Qed.

(** ** The world *)

(** The places of mutexes are inner ones as well. *)
Definition inner_heap (h : Heap) : Prop := ∀ m, m ∈ mutexes h → inner (mutex m).
Definition inner_world (w : World) : Prop := kept (net w) ∧ inner_heap (heap w).

Lemma yields_on_net {A} (P : A → Prop) m : yields kept P m → yields inner_world P (on_net m).
Proof. apply yields_zoom; [by intros w []|]. by intros w n [_ H] Hn. Qed.
Lemma yields_on_heap {A} (P : A → Prop) m : yields inner_heap P m → yields inner_world P (on_heap m).
Proof. apply yields_zoom; [by intros w []|]. by intros w h [H _] Hh. Qed.

Lemma yields_read_mutex r : yields inner_heap (λ m, inner (mutex m)) (read_mutex r).
Proof.
  intros h m h' HI. unfold read_mutex, lift, deref. destruct (_ !! _) as [m'|] eqn:E; [|done].
  intros [= -> <-]. split; [done|]. apply HI. by eapply list_elem_of_lookup_2.
Qed.
(** What leaves the mutexes alone. *)
Lemma yields_heap {A} (m : ST Heap A) :
  (∀ h a h', m h = Ok (a, h') → mutexes h' = mutexes h) → yields inner_heap (λ _, True) m.
Proof. intros Hm h a h' HI H. split; [|done]. unfold inner_heap. by rewrite (Hm _ _ _ H). Qed.
Lemma yields_read_guard r : yields inner_heap (λ _, True) (read_guard r).
Proof. apply yields_heap. intros h a h'. unfold read_guard, lift, deref. destruct (_ !! _); [|done]. by intros [= _ <-]. Qed.
Lemma yields_read_condvar r : yields inner_heap (λ _, True) (read_condvar r).
Proof. apply yields_heap. intros h a h'. unfold read_condvar, lift, deref. destruct (_ !! _); [|done]. by intros [= _ <-]. Qed.
Lemma yields_read_thread r : yields inner_heap (λ _, True) (read_thread r).
Proof. apply yields_heap. intros h a h'. unfold read_thread, lift, deref. destruct (_ !! _); [|done]. by intros [= _ <-]. Qed.

(** The mutex behind a guard. *)
Lemma yields_guard_mutex {A} (P : A → Prop) r (k : Mutex → ST World A) :
  (∀ m, inner (mutex m) → yields inner_world P (k m)) →
  yields inner_world P (guard ← on_heap (read_guard r); m ← on_heap (read_mutex (guard_mutex guard)); k m).
Proof.
  intros Hk. eapply yields_bind; [apply yields_on_heap, yields_read_guard|]. intros g _.
  eapply yields_bind; [apply yields_on_heap, yields_read_mutex|]. exact Hk.
Qed.

(** ** Synchronization *)

Lemma yields_link_mutex mem place m :
  inner (mutex m) → yields inner_heap (λ _, True) (link_mutex mem place m).
Proof.
  intros Hm. eapply (yields_bind _ (λ _, True)).
  - intros h r h' HI [= _ <-]. split; [|done]. intros m'. simpl. rewrite elem_of_app, list_elem_of_singleton.
    intros [H| ->]; [by apply HI|done].
  - intros r _. do 2 (eapply yields_bind; [apply yields_lift|intros ? _]). by apply yields_ret.
Qed.
Lemma yields_link_guard mem place g : yields inner_heap (λ _, True) (link_mutex_guard mem place g).
Proof.
  eapply yields_bind; [by apply yields_heap; intros h r h' [= _ <-]|]. intros r _.
  do 2 (eapply yields_bind; [apply yields_lift|intros ? _]). by apply yields_ret.
Qed.
Lemma yields_link_condvar mem place c : yields inner_heap (λ _, True) (link_condvar mem place c).
Proof.
  eapply yields_bind; [by apply yields_heap; intros h r h' [= _ <-]|]. intros r _.
  do 2 (eapply yields_bind; [apply yields_lift|intros ? _]). by apply yields_ret.
Qed.
Lemma yields_link_join mem place th : yields inner_heap (λ _, True) (link_join_handle mem place th).
Proof.
  eapply yields_bind; [by apply yields_heap; intros h r h' [= _ <-]|]. intros r _.
  do 2 (eapply yields_bind; [apply yields_lift|intros ? _]). by apply yields_ret.
Qed.

Lemma yields_mutex_new i : yields kept (λ m, inner (mutex m)) (mutex_new i).
Proof.
  eapply yields_bind; [apply yields_add_place|]. intros p Hp.
  eapply yields_bind; [apply yields_add_token|]. intros _ _. by apply yields_ret.
Qed.
Lemma yields_deref_mut r t : yields inner_heap (λ _, True) (add_deref_mut_transition r t).
Proof.
  eapply yields_bind; [apply yields_read_mutex|]. intros m Hm h a h' HI [= _ <-]. split; [|done].
  intros m' [i Hi]%list_elem_of_lookup. simpl in Hi.
  destruct (decide (i = mutex_loc r)) as [->|Hne].
  - apply list_lookup_insert_Some in Hi as [(_ & <- & _)|[? _]]; done.
  - rewrite list_lookup_insert_ne in Hi by done. apply HI. by eapply list_elem_of_lookup_2.
Qed.

Lemma yields_guard_drop place t mem : yields inner_world (λ _, True) (handle_mutex_guard_drop place t mem).
Proof.
  unfold handle_mutex_guard_drop. destruct (is_mutex_guard _ _); [|by apply yields_ret].
  eapply yields_bind; [apply yields_lift|]. intros r _. apply yields_guard_mutex. intros m Hm.
  apply yields_on_net, yields_arc_tp.
Qed.

Lemma yields_call_lock name i args d ps mem :
  inner_places ps → yields inner_world (λ _, True) (call_lock name i args d ps mem).
Proof.
  intros Hps%inner_ignore. eapply yields_bind; [by apply yields_on_net, yields_foreign|]. intros ts _.
  do 2 (eapply yields_bind; [apply yields_lift|intros ? _]).
  eapply yields_bind; [apply yields_on_heap, yields_read_mutex|]. intros m Hm.
  eapply yields_bind; [by apply yields_on_net, yields_arc_pt|]. intros _ _.
  eapply yields_bind; [apply yields_on_heap, yields_link_guard|]. intros [r mem'] _. by apply yields_ret.
Qed.

Lemma yields_condvar_new i : yields kept (λ _, True) (condvar_new i).
Proof.
  unfold condvar_new. destruct (condvar.place_labels i) as [p1 p2]. destruct (condvar.transition_labels i) as [[t1 t2] t3].
  eapply yields_bind; [apply yields_add_place|]. intros wait_enabled Hw.
  eapply yields_bind; [apply yields_add_place|]. intros notify Hn.
  eapply yields_bind; [apply yields_add_token|]. intros _ _.
  do 3 (eapply yields_bind; [apply yields_add_transition|intros ? _]).
  repeat (eapply yields_bind; [by first [apply yields_arc_pt|apply yields_arc_tp]|intros _ _]).
  by apply yields_ret.
Qed.

Lemma yields_link_wait r s e g : inner s → yields inner_world (λ _, True) (link_to_wait_call r s e g).
Proof.
  intros Hs. eapply yields_bind; [apply yields_on_heap, yields_read_condvar|]. intros c _.
  destruct (already_linked_to_call c); [by apply yields_fail|].
  eapply yields_bind; [by apply yields_on_net, yields_arc_pt|]. intros _ _.
  eapply yields_bind; [by apply yields_on_net, yields_arc_tp|]. intros _ _.
  apply yields_guard_mutex. intros m Hm.
  eapply yields_bind; [by apply yields_on_net, yields_arc_tp|]. intros _ _.
  eapply yields_bind; [by apply yields_on_net, yields_arc_pt|]. intros _ _.
  eapply yields_bind; [apply yields_on_heap, yields_read_condvar|]. intros c' _.
  destruct (already_linked_to_call c'); [by apply yields_fail|].
  apply yields_on_heap, yields_heap. by intros h a h' [= _ <-].
Qed.

(** Tasks remember the place of a wait. *)
Definition inner_task (k : PostprocessingTask) : Prop :=
  match k with LinkMutexToCondvar _ _ s _ _ => inner s | NewMutex _ _ => True end.

Lemma yields_sync_call name i args d ps mem :
  inner_places ps →
  yields inner_world (λ r, ∀ k, r.1 = Some k → inner_task k) (sync_call_function name i args d ps mem).
Proof.
  intros Hps. assert (Hps' := inner_ignore _ Hps). unfold sync_call_function. case_bool_decide; [|case_bool_decide; [|destruct (_ || _)]].
  - (* Condvar::new *)
    eapply (yields_bind _ (λ _, True)); [|intros m _; by apply yields_ret].
    eapply yields_bind; [by apply yields_on_net, yields_foreign|]. intros ts _.
    eapply yields_bind; [apply yields_on_net, yields_condvar_new|]. intros c _.
    eapply yields_bind; [apply yields_on_heap, yields_link_condvar|]. intros [r m] _. by apply yields_ret.
  - (* notify_one *)
    eapply (yields_bind _ (λ _, True)); [|intros m _; by apply yields_ret].
    eapply yields_bind; [by apply yields_on_net, yields_foreign|]. intros ts _.
    do 2 (eapply yields_bind; [apply yields_lift|intros ? _]).
    eapply yields_bind; [apply yields_on_heap, yields_read_condvar|]. intros c _. apply yields_on_net, yields_arc_tp.
  - (* wait *)
    eapply (yields_bind _ (λ r, inner_task r.1)); [|intros [k m] Hk; apply yields_ret; by intros k' [= <-]].
    unfold call_wait. do 4 (eapply yields_bind; [apply yields_lift|intros ? _]).
    unfold inner_places in Hps'. destruct (get_start_end_place _) as [s e].
    eapply yields_bind; [by apply yields_link_wait|]. intros _ _.
    eapply yields_bind; [apply yields_on_heap, yields_read_condvar|]. intros c _.
    eapply yields_bind; [apply yields_lift|]. intros m _. by apply yields_ret.
  - case_bool_decide; [|case_bool_decide; [|case_bool_decide; [|by apply yields_fail]]].
    + eapply yields_bind; [by apply yields_call_lock|]. intros m _. by apply yields_ret.
    + eapply (yields_bind _ (λ r, inner_task r.1)); [|intros [k m] Hk; apply yields_ret; by intros k' [= <-]].
      eapply yields_bind; [by apply yields_on_net, yields_foreign|]. intros ts _.
      eapply yields_bind; [apply yields_on_net, yields_mutex_new|]. intros m Hm.
      eapply yields_bind; [by apply yields_on_heap, yields_link_mutex|]. intros [r mem'] _. by apply yields_ret.
    + (* join *)
      eapply (yields_bind _ (λ _, True)); [|intros m _; by apply yields_ret].
      eapply yields_bind; [by apply yields_on_net, yields_foreign|]. intros ts _.
      do 2 (eapply yields_bind; [apply yields_lift|intros ? _]).
      apply yields_on_heap. eapply yields_bind; [apply yields_read_thread|]. intros th _.
      destruct (join_transition th); [by apply yields_fail|]. apply yields_heap. by intros h x h' [= _ <-].
Qed.

Lemma yields_prepare th : yields kept (λ r, inner r.1.2) (prepare_for_translation th).
Proof.
  eapply yields_bind; [apply yields_add_place|]. intros s Hs.
  eapply yields_bind; [apply yields_add_place|]. intros e He.
  eapply yields_bind; [apply yields_arc_tp|]. intros _ _.
  eapply (yields_bind _ (λ _, True)); [|intros _ _; by apply yields_ret].
  destruct (join_transition th); [by apply yields_arc_pt|by apply yields_ret].
Qed.

Lemma yields_link_to_condvar m i s e t : inner s → yields kept (λ _, True) (link_to_condvar m i s e t).
Proof.
  intros Hs. unfold link_to_condvar. destruct (deref_mut m) as [|u l]; [by apply yields_ret|].
  destruct (mutex.condition_place_labels i) as [p1 p2].
  eapply yields_bind; [apply yields_add_place|]. intros not_set Hn.
  eapply yields_bind; [apply yields_add_place|]. intros set_ Hset.
  eapply yields_bind; [apply yields_add_token|]. intros _ _.
  eapply (yields_bind _ (λ _, True)).
  { apply yields_keeps, keeps_for_each. intros v _. apply (keeps_yields _ (λ _, True)).
    eapply yields_bind; [by apply yields_arc_pt|]. intros _ _. apply yields_arc_tp. }
  intros _ _. eapply yields_bind; [by apply yields_arc_pt|]. intros _ _.
  eapply yields_bind; [by apply yields_arc_tp|]. intros _ _.
  eapply yields_bind; [by apply yields_connect|]. intros v _.
  eapply yields_bind; [by apply yields_arc_pt|]. intros _ _. apply yields_arc_tp.
Qed.

Lemma yields_run_task l k : inner_task k → yields inner_world (λ _, True) (run_task l k).
Proof.
  destruct k as [pr i s e t|pr r]; simpl; [|by intros _; apply yields_ret]. intros Hs.
  eapply (yields_bind _ (λ _, True)); [|intros _ _; by apply yields_ret].
  apply yields_keeps, keeps_for_each. intros r _. apply (keeps_yields _ (λ _, True)).
  eapply yields_bind; [apply yields_on_heap, yields_read_mutex|]. intros m _. by apply yields_on_net, yields_link_to_condvar.
Qed.

(** ** The translator *)

Record inner_translator (t : Translator) : Prop := {
  it_world : inner_world (world t);
  it_stack f : f ∈ Stack.stack (call_stack t) → inner_frame f;
  it_tasks k : k ∈ BinaryHeap.data (postprocessing t) → inner_task k;
  it_queue : BinaryHeap.heap_ok get_priority (postprocessing t);
}.
Abbreviation inner_t := inner_translator.

Lemma yields_on_world {A} (P : A → Prop) m : yields inner_world P m → yields inner_t P (on_world m).
Proof. apply yields_zoom; [by intros t []|]. intros t w [] Hw. by split. Qed.
Lemma yields_modify g : (∀ t, inner_t t → inner_t (g t)) → yields inner_t (λ _, True) (modify g).
Proof. intros Hg. by apply yields_keeps, keeps_modify. Qed.

Lemma elem_of_push (s : Stack.Stack MirFunction) f g :
  g ∈ Stack.stack (Stack.push s f) ↔ g ∈ Stack.stack s ∨ g = f.
Proof. unfold Stack.push. simpl. by rewrite elem_of_app, list_elem_of_singleton. Qed.

Lemma yields_push g :
  inner_frame g → yields inner_t (λ _, True) (modify (λ t, set_call_stack (Stack.push (call_stack t) g) t)).
Proof.
  intros Hg. apply yields_modify. intros t []. split; simpl; [done| |done..].
  intros f [?| ->]%elem_of_push; auto.
Qed.

Lemma yields_on_top {A} (P : A → Prop) (m : MirFunction → ST World (A * MirFunction)) :
  (∀ f, inner_frame f → yields inner_world (λ r, P r.1 ∧ inner_frame r.2) (m f)) →
  yields inner_t P (on_top m).
Proof.
  intros Hm t a t' [HW HS HT HQ] H. destruct (Stack.stack_inv (call_stack t)) as [E|(rest & f & E)].
  { unfold on_top in H. apply st_bind_ok in H as (s & t1 & [= <- <-] & H).
    apply st_bind_ok in H as (x & t1 & [H _]%lift_ok & _). by rewrite E in H. }
  destruct (on_top_ok _ _ _ _ _ _ E H) as (f' & w' & H1 & ->). rewrite E in HS.
  destruct (Hm f ltac:(apply HS, elem_of_push; auto) _ _ _ HW H1) as [HW' [Ha Hf']].
  split; [|done]. split; simpl; [done| |done..]. intros g [Hg| ->]%elem_of_push; [|done].
  apply HS, elem_of_push. by left.
Qed.
(** Changes of the memory alone. *)
Lemma yields_on_top_memory (o : MirFunction → outcome Memory) :
  yields inner_t (λ _, True) (on_top (λ f, m ← lift (o f); mret (tt, set_memory f m))).
Proof.
  apply yields_on_top. intros f Hf. eapply yields_bind; [apply yields_lift|]. intros m _.
  apply yields_ret. split; [done|by apply inner_frame_memory].
Qed.

Lemma yields_peek_top : yields inner_t (λ _, True) peek_top.
Proof. apply yields_keeps. unfold peek_top. solve_keeps. Qed.
Lemma yields_get_count name : yields inner_t (λ _, True) (get_count name).
Proof.
  eapply (yields_bind _ (λ _, True)); [by apply yields_gets|]. intros c _.
  destruct (HashMapCounter.get_count c name) as [i c']. eapply yields_bind; [|intros _ _; by apply yields_ret].
  apply yields_modify. intros t []. by split.
Qed.

Context (tcx : TyCtxt).

Lemma yields_translator_foreign name args d ps :
  inner_places ps → yields inner_t (λ _, True) (translator_call_foreign_function tcx name args d ps).
Proof.
  intros Hps. eapply yields_bind; [apply yields_get_count|]. intros i _.
  eapply yields_bind; [by apply yields_on_world, yields_on_net, yields_foreign|]. intros ts _.
  eapply yields_bind; [|intros _ _; by apply yields_ret].
  apply (yields_on_top_memory (λ f, link_return_value_if_sync_variable tcx args d (memory f) (def_id f))).
Qed.

Lemma yields_mem_drop name args d ps :
  inner_places ps → yields inner_t (λ _, True) (call_mem_drop tcx name args d ps).
Proof.
  intros Hps. eapply yields_bind; [by apply yields_translator_foreign|]. intros ts _.
  eapply yields_bind; [apply yields_lift|]. intros p _. apply yields_on_top. intros f Hf.
  eapply (yields_bind _ (λ _, True)); [|intros _ _; by apply yields_ret].
  destruct ts; [apply yields_guard_drop|]. eapply yields_bind; [apply yields_guard_drop|]. intros _ _. apply yields_guard_drop.
Qed.
Lemma yields_deref_mutex name args d ps :
  inner_places ps → yields inner_t (λ _, True) (call_deref_mutex tcx name args d ps).
Proof.
  intros Hps%inner_ignore. eapply yields_bind; [by apply yields_translator_foreign|]. intros ts _.
  case_bool_decide; [|by apply yields_ret]. eapply yields_bind; [apply yields_lift|]. intros p _.
  apply yields_on_top. intros f Hf. eapply yields_bind; [apply yields_lift|]. intros r _.
  eapply yields_bind; [apply yields_on_heap, yields_read_guard|]. intros g _.
  eapply yields_bind; [apply yields_on_heap, yields_deref_mut|]. intros _ _. by apply yields_ret.
Qed.
Lemma yields_unwrap_mutex name args d ps :
  inner_places ps → yields inner_t (λ _, True) (call_unwrap_mutex tcx name args d ps).
Proof.
  intros Hps%inner_ignore. eapply yields_bind; [by apply yields_translator_foreign|]. intros ts _. by apply yields_ret.
Qed.
Lemma yields_thread_spawn name args d ps :
  inner_places ps → yields inner_t (λ _, True) (call_thread_spawn tcx name args d ps).
Proof.
  intros Hps. eapply yields_bind; [by apply yields_translator_foreign|]. intros ts _.
  eapply (yields_bind _ (λ _, True)); [by apply yields_gets|]. intros queue _.
  eapply (yields_bind _ (λ _, True)); [|intros r _; apply yields_modify; intros t []; by split].
  apply yields_on_top. intros f Hf. do 3 (eapply yields_bind; [apply yields_lift|intros ? _]).
  eapply (yields_bind _ (λ _, True)).
  { destruct a1 as [pl|]; [|by apply yields_ret]. eapply yields_weaken; [apply yields_lift|done]. }
  intros l _. eapply yields_bind; [apply yields_on_heap, yields_link_join|]. intros [r m] _.
  apply yields_ret. split; [done|by apply inner_frame_memory].
Qed.
Lemma yields_sync_function name args d ps :
  inner_places ps → yields inner_t (λ _, True) (call_sync_function name args d ps).
Proof.
  intros Hps. eapply yields_bind; [apply yields_get_count|]. intros i _.
  eapply (yields_bind _ (λ task, ∀ k, task = Some k → inner_task k)).
  - apply yields_on_top. intros f Hf. eapply yields_bind; [by apply yields_sync_call|].
    intros [task m] Ht. apply yields_ret. split; [exact Ht|by apply inner_frame_memory].
  - intros [k|] Hk; [|by apply yields_ret]. apply yields_modify. intros t []. split; [done..| |].
    + intros k'. cbn [postprocessing set_postprocessing]. rewrite BinaryHeap.push_permutation, elem_of_cons.
      intros [->|?]; auto.
    + by apply BinaryHeap.push_ok.
Qed.

Section open_recursion.
Context (rec : ST Translator unit) (Hrec : yields inner_t (λ _, True) rec).

Lemma yields_mir_function d name ps :
  inner_places ps → yields inner_t (λ _, True) (call_mir_function rec d name ps).
Proof.
  intros Hps. eapply yields_bind; [apply yields_get_count|]. intros i _.
  eapply (yields_bind _ (λ _, True)); [|intros _ _; done]. destruct ps as [s e|s e c].
  - by apply yields_push, inner_frame_new.
  - eapply yields_bind; [by apply yields_on_world, yields_on_net, yields_connect|]. intros _ _.
    by apply yields_push, inner_frame_new.
Qed.
Lemma yields_self_ref b args : yields inner_t (λ _, True) (and_then b (is_self_ref_mutex tcx args)).
Proof.
  destruct b; simpl; [|by apply yields_ret]. eapply yields_bind; [apply yields_lift|]. intros p _.
  eapply yields_bind; [apply yields_peek_top|]. intros f _. by apply yields_ret.
Qed.

Lemma yields_start_call d name args dest ps :
  inner_places ps → yields inner_t (λ _, True) (start_function_call tcx rec d name args dest ps).
Proof.
  intros Hps. unfold start_function_call. case_bool_decide; [by apply yields_mem_drop|].
  eapply yields_bind; [apply yields_self_ref|]. intros [] _; [by apply yields_deref_mutex|].
  eapply yields_bind; [apply yields_self_ref|]. intros [] _; [by apply yields_unwrap_mutex|].
  case_bool_decide; [by apply yields_thread_spawn|].
  destruct (is_supported_function name); [by apply yields_sync_function|].
  destruct (is_foreign_function d name tcx); [|by apply yields_mir_function].
  eapply yields_bind; [by apply yields_translator_foreign|]. intros _ _. by apply yields_ret.
Qed.

Lemma yields_call_places target u f s e p :
  inner_frame f → inner s →
  yields inner_world (λ r, (∀ ps, r.1 = Some ps → inner_places ps) ∧ inner_frame r.2) (call_places target u f s e p).
Proof.
  intros Hf Hs. unfold call_places.
  destruct target, u; try (apply yields_ret; split; [by intros ps [= <-]|done]);
    (eapply yields_bind; [by apply yields_on_net, yields_end_place|]); intros [q f'] Hf';
    try (apply yields_ret; split; [by intros ps [= <-]|done]).
  eapply yields_bind; [by apply yields_on_net, yields_end_place|]. intros [q' f2] Hf2.
  apply yields_ret; split; [by intros ps [= <-]|done].
Qed.

Lemma yields_call_function func args dest target u :
  yields inner_t (λ _, True) (call_function tcx rec func args dest target u).
Proof.
  do 2 (eapply (yields_bind _ (λ _, True)); [by apply yields_gets|intros ? _]).
  eapply (yields_bind _ (λ r, ∀ ps, r.2 = Some ps → inner_places ps)).
  - apply yields_on_top. intros f Hf. eapply yields_bind; [apply yields_lift|]. intros d _.
    eapply yields_bind; [apply yields_lift|]. intros s (ab & Hab & [= <-])%outcome_bind_ok.
    assert (Hs : inner (bb_place ab)) by (by eapply inner_active).
    eapply yields_bind; [by apply yields_call_places|]. intros [ps f'] [Hps Hf'].
    eapply (yields_bind _ (λ _, True)); [|intros _ _; by apply yields_ret].
    destruct ps; [by apply yields_ret|].
    destruct (is_panic_function _); [by apply yields_on_net, yields_panic|by apply yields_on_net, yields_diverging].
  - intros [[d name] [ps|]] Hps; [|by apply yields_ret].
    eapply yields_bind; [by apply yields_start_call, Hps|]. intros _ _. apply yields_modify. intros t []. by split.
Qed.

(** A frame operation that is one computation on the net. *)
Lemma yields_frame_op {A} (P : A → Prop) (c : MirFunction → ST PetriNet A) (g : MirFunction → A → MirFunction) :
  (∀ f, inner_frame f → yields kept P (c f)) → (∀ f a, inner_frame f → P a → inner_frame (g f a)) →
  yields inner_t (λ _, True) (on_top (λ f, a ← on_net (c f); mret (tt, g f a))).
Proof.
  intros Hc Hg. apply yields_on_top. intros f Hf. eapply yields_bind; [by apply yields_on_net, Hc|].
  intros a Ha. apply yields_ret. split; [done|by apply Hg].
Qed.

Lemma yields_visit_drop place target u : yields inner_t (λ _, True) (visit_drop place target u).
Proof.
  eapply (yields_bind _ (λ _, True)); [by apply yields_gets|]. intros e _. apply yields_on_top. intros f Hf.
  eapply (yields_bind _ (λ r, inner_frame r.2)).
  - destruct u; try by apply yields_on_net, yields_drop.
    eapply yields_bind; [by apply yields_on_net, yields_unreachable|]. intros _ _. by apply yields_on_net, yields_drop.
  - intros [[t c] f'] Hf'. eapply yields_bind; [apply yields_guard_drop|]. intros _ _.
    eapply (yields_bind _ (λ _, True)); [|intros _ _; by apply yields_ret].
    destruct c; [apply yields_guard_drop|by apply yields_ret].
Qed.
Lemma yields_visit_assert target u : yields inner_t (λ _, True) (visit_assert target u).
Proof.
  eapply (yields_bind _ (λ _, True)); [by apply yields_gets|]. intros e _. apply yields_on_top. intros f Hf.
  eapply (yields_bind _ inner_frame); [|intros f' Hf'; by apply yields_ret].
  destruct u; try by apply yields_on_net, yields_assert.
  eapply yields_bind; [by apply yields_on_net, yields_assert|]. intros f' Hf'.
  eapply yields_bind; [by apply yields_on_net, yields_unreachable|]. intros _ _. by apply yields_ret.
Qed.

Lemma yields_visit call : yields inner_t (λ _, True) (visit tcx rec call).
Proof.
  destruct call as [b|p rv|k]; simpl.
  - apply (yields_frame_op inner_frame (λ f, activate_block f b) (λ _ f, f)); [|done]. intros f. apply yields_activate.
  - unfold visit_assign. destruct rv as [[]| | |]; try (by apply yields_ret); apply yields_on_top_memory.
  - destruct k; simpl;
      try (eapply (yields_bind _ (λ _, True)); [|intros _ _; by apply yields_fail];
           apply yields_on_top; intros f Hf; by apply yields_ret).
    + apply (yields_frame_op inner_frame (λ f, goto f target) (λ _ f, f)); [|done]. intros f. apply yields_goto.
    + apply (yields_frame_op inner_frame (λ f, switch_int f targets) (λ _ f, f)); [|done]. intros f. apply yields_switch_int.
    + eapply (yields_bind _ (λ _, True)); [by apply yields_gets|]. intros e _.
      apply (yields_frame_op (λ _, True) (λ f, MirFunction.unwind f e) (λ f _, f)); [|done]. intros f. apply yields_unwind.
    + eapply (yields_bind _ (λ _, True)); [by apply yields_gets|]. intros e _.
      apply (yields_frame_op (λ _, True) (λ f, MirFunction.unwind f e) (λ f _, f)); [|done]. intros f. apply yields_unwind.
    + apply (yields_frame_op (λ _, True) return_statement (λ f _, f)); [|done]. intros f. apply yields_return.
    + eapply (yields_bind _ (λ _, True)); [by apply yields_gets|]. intros e _.
      apply (yields_frame_op (λ _, True) (λ f, unreachable f e) (λ f _, f)); [|done]. intros f. apply yields_unreachable.
    + apply yields_visit_drop.
    + apply yields_call_function.
    + apply yields_visit_assert.
Qed.
End open_recursion.

Lemma yields_translate_top fuel : yields inner_t (λ _, True) (translate_top_call_stack tcx fuel).
Proof.
  induction fuel as [|fuel IH]; [by apply yields_fail|]. simpl.
  eapply yields_bind; [apply yields_peek_top|]. intros f _. eapply (yields_bind _ (λ _, True)).
  - apply yields_keeps, keeps_for_each. intros call _. eapply keeps_yields, yields_visit, IH.
  - intros _ _. apply yields_modify. intros t [HW HS HT HQ]. split; simpl; [done| |done..].
    destruct (Stack.stack_inv (call_stack t)) as [E|(rest & g & E)]; rewrite E in *; [done|].
    rewrite Stack.pop_push. intros f' Hf'. apply HS, elem_of_push. by left.
Qed.

Lemma yields_threads fuel queue_fuel : yields inner_t (λ _, True) (translate_threads tcx fuel queue_fuel).
Proof.
  induction queue_fuel as [|q IH]; [by apply yields_fail|]. simpl.
  eapply (yields_bind _ (λ _, True)); [by apply yields_gets|]. intros [|r queue] _; [by apply yields_ret|].
  eapply yields_bind; [apply yields_modify; intros t []; by split|]. intros _ _.
  eapply (yields_bind _ (λ _, True)); [|intros _ _; apply IH].
  eapply yields_bind; [apply yields_on_world, yields_on_heap, yields_read_thread|]. intros th _.
  eapply yields_bind; [apply yields_on_world, yields_on_net, yields_prepare|]. intros [[d s] e] Hs.
  eapply yields_bind; [apply yields_modify; intros t []; by split|]. intros _ _.
  eapply yields_bind; [by apply yields_push, inner_frame_new|]. intros _ _.
  eapply yields_bind; [apply yields_on_top_memory|]. intros _ _. apply yields_translate_top.
Qed.

Lemma yields_postprocessing : yields inner_t (λ _, True) translation_postprocessing.
Proof.
  eapply (yields_bind _ (λ _, True)); [by apply yields_gets|]. intros h _.
  generalize (S (length (BinaryHeap.data h))), (@nil MutexRef). intros fuel.
  induction fuel as [|fuel IH]; intros l; [by apply yields_fail|]. simpl.
  intros t a t' HI (h' & t1 & [= <- <-] & H)%st_bind_ok.
  assert (Hpop := BinaryHeap.pop_spec get_priority _ (it_queue _ HI)).
  destruct (BinaryHeap.pop _ _) as [[k|] h']; [|by destruct Hpop as [-> _]; apply st_bind_ok in H as ([] & t1 & [= <-] & [= _ <-]); destruct HI].
  destruct Hpop as (Hok & Hperm & _). destruct HI as [HW HS HT HQ].
  assert (Hk : inner_task k) by (apply HT; rewrite Hperm; by left).
  apply st_bind_ok in H as ([] & t1 & [= <-] & H).
  assert (Hrest : yields inner_t (λ _, True) (l' ← on_world (run_task l k); postprocessing_loop fuel l')).
  { eapply yields_bind; [by apply yields_on_world, yields_run_task|]. intros l' _. apply IH. }
  apply Hrest in H; [done|]. split; [done|done| |done]. intros k' Hk'. apply HT. rewrite Hperm. by right.
Qed.

Lemma yields_whole_run fuel queue_fuel t t' :
  inner_t t → inner (program_start t) →
  run tcx fuel queue_fuel t = Ok (tt, t') → inner_t t'.
Proof.
  intros HI Hs (main' & t1 & [_ ->]%lift_ok & H)%st_bind_ok.
  apply st_bind_ok in H as (s & t1 & [= <- <-] & H). apply st_bind_ok in H as (e & t1 & [= <- <-] & H).
  assert (Hrest : yields inner_t (λ _, True)
    (push_function_to_call_stack tcx main' (program_start t) (program_end t);;
     translate_top_call_stack tcx fuel;; translate_threads tcx fuel queue_fuel;; translation_postprocessing)).
  { eapply yields_bind; [by apply yields_push, inner_frame_new|]. intros _ _.
    eapply yields_bind; [apply yields_translate_top|]. intros _ _.
    eapply yields_bind; [apply yields_threads|]. intros _ _. apply yields_postprocessing. }
  by apply Hrest in H as [H _].
Qed.
End final.

(** ** The program *)

Section ended.
Context `{LL : PetriNetLaws}.
Implicit Types (n : PetriNet) (m : Marking).

#[local] Instance any_fuel : FuelPolicy := True.

Definition end_or_panic (t : Translator) (p : PlaceRef) : Prop := p = program_end t ∨ p = program_panic t.

Lemma translator_new_inner t :
  translator_new = Ok t → inner_translator (end_or_panic t) t ∧ inner (end_or_panic t) (program_start t).
Proof.
  intros Ht. pose proof translator_new_spec as Hspec. rewrite Ht in Hspec.
  destruct Hspec as (_ & Hstack & [_ He Hp Ls Le Lp _ _ _]).
  destruct (translator_new_empty _ Ht) as (Hh & _ & Hpost).
  assert (Hnone : ∀ u, ¬ has_transition (net (world t)) u).
  { unfold translator_new in Ht. apply outcome_bind_ok in Ht as ([[[s e] p] n] & H & [= <-]). simpl.
    apply st_bind_ok in H as (p1 & n1 & (_ & _ & _ & H1 & _)%add_place_ok & H).
    apply st_bind_ok in H as (p2 & n2 & (_ & _ & _ & H2 & _)%add_place_ok & H).
    apply st_bind_ok in H as (p3 & n3 & (_ & _ & _ & H3 & _)%add_place_ok & H).
    apply st_bind_ok in H as ([] & n4 & (H4 & _)%add_token_ok & [= _ _ _ <-]).
    intros u. rewrite H4, H3, H2, H1. apply new_no_transition. }
  split; [split|].
  - split; [|rewrite Hh; by intros m ?%not_elem_of_nil]. intros q Hq. split; [by destruct Hq as [->| ->]|].
    intros u. by apply no_transition_arcs.
  - rewrite Hstack. by intros f ?%not_elem_of_nil.
  - rewrite Hpost. by intros k ?%not_elem_of_nil.
  - rewrite Hpost. apply BinaryHeap.new_ok.
  - intros [Hs|Hs]; [by rewrite Hs, Le in Ls|by rewrite Hs, Lp in Ls].
Qed.

(** C10: what has ended stays ended: no transition of a translated net takes a
    token from [PROGRAM_END] or [PROGRAM_PANIC], so however the net goes on, a
    marking in which the program has returned or panicked leads to no deadlock
    in the sense of the model checker's query. *)
Theorem ended_stays_ended tcx fuel queue_fuel n :
  translate tcx fuel queue_fuel = Ok n →
  ∃ end_ panic : PlaceRef,
    (has_place n end_ ∧ place_ref_label end_ = PROGRAM_END) ∧
    (has_place n panic ∧ place_ref_label panic = PROGRAM_PANIC) ∧
    (∀ t, pre n t end_ = 0%N ∧ pre n t panic = 0%N) ∧
    ∀ m m', reachable n m m' → (0 < m end_)%N ∨ (0 < m panic)%N → (0 < m' end_)%N ∨ (0 < m' panic)%N.
Proof.
  intros Hn. unfold translate in Hn. apply outcome_bind_ok in Hn as (t & Ht & Hrun).
  apply outcome_bind_ok in Hrun as ([[] t'] & Hrun & [= Hnet]).
  pose proof translator_new_spec as Hspec. rewrite Ht in Hspec. destruct Hspec as (_ & _ & [_ _ _ _ Le Lp _ _ _]).
  destruct (translator_new_inner _ Ht) as [HI Hs].
  destruct (it_world _ _ (yields_whole_run _ tcx _ _ _ _ HI Hs Hrun)) as [HK _]. rewrite Hnet in HK.
  destruct (HK (program_end t)) as [He Hpe]; [by left|]. destruct (HK (program_panic t)) as [Hp Hpp]; [by right|].
  exists (program_end t), (program_panic t). split_and!; [done..| |]; [by split|].
  intros m m' Hr Hm. revert Hr.
  apply (reachable_invariant n (λ m, (0 < m (program_end t))%N ∨ (0 < m (program_panic t))%N)); [..|exact Hm].
  - intros m1 m2 Heq. by rewrite (Heq (program_end t)), (Heq (program_panic t)).
  - intros m1 u Hm1 _. unfold fire. rewrite Hpe, Hpp. lia.
Qed.
End ended.
