(* ===== verification/Sequential.v ===== *)
(** * Programs that do not synchronize

    The net of a sequential program against its control-flow graph: the loop over
    a body, the whole translation, and the theorems.  Calls are in Calls.v, frames
    in Reflect.v; the graph that the theorems speak of is in Cfg.v, and how
    functions are left, which the proofs go through, in SequentialFlow.v. *)

From S2P Require Import Prelude RustStr DataStructures PriorityQueue Netcrab Naming Rustc Function.
From S2P Require Import Heap Memory Sync MirFunction Translator ControlFlow SequentialFlow Cfg TokenGame.
From S2P Require Import Invariants Shape Reflect Calls World ProgramSpec.

Section sequential.
Context `{LL : PetriNetLaws} (tcx : TyCtxt) (D : Prop) (pe pp : PlaceRef).
Implicit Types (n : PetriNet) (t : Translator) (p s : PlaceRef) (A : PlaceRef → Prop) (f g : MirFunction).

Abbreviation at_top := (at_top tcx D pe pp).
Abbreviation moves := (moves tcx D pe pp).
Abbreviation reflects := (reflects tcx D pe pp).
Abbreviation arrives := (arrives pe pp).
Abbreviation active_arrives := (active_arrives pe pp).
Abbreviation frame_step := (frame_step tcx D pe pp).

(** ** The terminators *)

(** From its active block, which ends in [k], the net goes where control does. *)
Definition goes n f k : Prop := ∀ x, next tcx (def_id f) k x → active_arrives n f x.

Section visits.
Context (rec : ST Translator unit) (Hrec : reflects rec) (Hseq : sequential tcx).

(** A terminator was visited. *)
Definition visited_on rest f A t k A' f' t' : Prop :=
  moves rest f A t f' A' t' ∧ goes (net (world t')) f' k ∧
  (complete tcx (def_id f) → active_consumed (net (world t')) f').

(** A call that is translated. *)
Lemma translated_call_moves func args dest target u callee ps rest f A t f1 A1 w1 ab t' :
  at_top rest f A t → VisitTerminator (Call func args dest target u) ∈ body_visits tcx (def_id f) →
  callee_of tcx (def_id f) func callee → get_active_block f = Ok ab →
  frame_step A (net (world t)) f A1 (net w1) f1 → heap w1 = heap (world t) →
  calling tcx D pe pp A1 (net w1) f1 (Call func args dest target u) (bb_place ab) →
  (get_start_end_place ps).1 = bb_place ab → placed pe pp f1 target u ps →
  (start_function_call tcx rec callee (def_path_str tcx callee) args dest ps;;
   modify (λ t, set_function_counter
     (HashMapCounter.increment (function_counter t) (def_path_str tcx callee)) t))
    (set_call_stack (Stack.push rest f1) (set_world w1 t)) = Ok (tt, t') →
  ∃ A' f', visited_on rest f A t (Call func args dest target u) A' f' t'.
Proof.
  intros HT Hin Hc Hab S1 Hh C1 Hst Hpl ([] & t4 & H & [= <-])%st_bind_ok.
  assert (Hd : def_id f1 = def_id f) by apply S1. rewrite <-Hd in Hc, Hin.
  assert (M := at_top_step _ _ _ _ _ _ _ _ _ _ _ HT S1). rewrite Hh in M. specialize (M (top_heap _ _ _ _ _ _ _ _ HT)).
  assert (Hne : returns_to target u ≠ None) by (destruct Hpl as [(x & -> & _) _]; done).
  assert (Hcomp : mir_call tcx callee = true → complete tcx (def_id f1) → complete tcx callee).
  { intros Hmir Hcf. eapply complete_callee; [done|].
    eexists. split; [done|]. eexists _, _, _, _, _. split_and!; [done| |done..]. intros [= -> ->]. by apply Hne. }
  destruct (start_call_moves tcx D pe pp rec callee _ args dest Hrec ps rest f1 A1 _ _ (mo_top _ _ _ _ _ _ _ _ _ _ _ M)
    (Hseq _ _ _ _ _ _ _ _ Hin Hc) eq_refl Hcomp (call_places_mean _ _ _ _ _ _ _ _ _ _ _ _ _ _ _ C1 Hc Hst Hpl) H)
    as (A2 & f3 & M2 & R2 & C2).
  assert (M3 : moves rest f A t f3 A2 t4) by (by eapply moves_trans). exists A2, f3.
  assert (S3 := mo_step _ _ _ _ _ _ _ _ _ _ _ M3). assert (S2 := mo_step _ _ _ _ _ _ _ _ _ _ _ M2).
  assert (Hab' : ∀ ab', get_active_block f3 = Ok ab' → ab' = ab).
  { intros ab' Ha. apply (active_block_step _ _ _ _ _ _ _ _ _ _ _ (top_frame _ _ _ _ _ _ _ _ HT) S3) in Ha. congruence. }
  split_and!.
  - eapply moves_trans; [exact M3|]. by apply at_top_ext; [apply M3|..].
  - intros x Hx ab' ->%Hab'. rewrite <-Hst. rewrite (sf_def_id _ _ (fs_same _ _ _ _ _ _ _ _ _ _ S2)) in Hx.
    rewrite <-(sf_def_id _ _ (fs_same _ _ _ _ _ _ _ _ _ _ S2)) in Hc, Hx, R2. eapply called_arrives; [done| |done..].
    by eapply placed_step.
  - rewrite <-Hd. intros Hcf ab' ->%Hab'. rewrite <-Hst. by apply C2.
Qed.

(** A call that never comes back. *)
Lemma diverging_call_moves func args dest target u callee rest f A t ab w' t' :
  at_top rest f A t → at_terminator tcx f (Call func args dest target u) →
  callee_of tcx (def_id f) func callee → get_active_block f = Ok ab → returns_to target u = None →
  (if is_panic_function (def_path_str tcx callee)
   then on_net (call_panic_function (bb_place ab) pp (name f))
   else on_net (call_diverging_function (bb_place ab) (def_path_str tcx callee))) (world t) = Ok (tt, w') →
  (mret tt : ST Translator unit) (set_call_stack (Stack.push rest f) (set_world w' t)) = Ok (tt, t') →
  ∃ A' f', visited_on rest f A t (Call func args dest target u) A' f' t'.
Proof.
  intros HT Hk Hc Hab Hr H [= <-]. assert (Hf := top_frame _ _ _ _ _ _ _ _ HT).
  destruct (active_means _ _ _ _ _ _ _ _ Hf Hab) as (a & Ha & Hm). apply Hk in Ha.
  set (o := if is_panic_function (def_path_str tcx callee) then Panicking else Diverging).
  assert (Hx : next tcx (def_id f) (Call func args dest target u) (Out o)).
  { left. exists callee. split; [done|]. left. by split. }
  assert (∃ n', leaves D A (net (world t)) n' (bb_place ab) ∧ consumed n' (bb_place ab) ∧
    arrives n' f (bb_place ab) (Out o) ∧ w' = mkWorld n' (heap (world t))) as (n' & HL & Hcons & Harr & ->).
  { subst o. destruct (is_panic_function (def_path_str tcx callee)); apply on_net_ok in H as (n' & H & ->); exists n'.
    - apply st_bind_ok in H as (v & n2 & H & [= <-]).
      apply connect_sound with (D := D) (A := A) in H as [HL He]; [|apply HT|by eapply (next_holds _ _ _ _ _ _ _ _ _ _ (Out Panicking))].
      split_and!; [done|by eapply edge_consumed| |done]. left. exists pp. split; [done|by apply edge_path].
    - apply diverging_sound with (D := D) (A := A) in H as [HL Hl]; [|apply HT|by eapply next_diverges].
      split_and!; [done|by apply lost_consumed| |done]. right. split; [done|]. exists (bb_place ab). split; [apply rtc_refl|done]. }
  exists A, f. split_and!.
  - eapply at_top_step; [done| |apply HT]. by eapply leaves_step.
  - intros x Hx' ab' Hab'. rewrite Hab in Hab'. injection Hab' as <-.
    destruct Hx' as [(c & Hc' & [[_ ->]|[[Hr' _]|[Hu _]]])|(func' & args' & dest' & target' & u' & c & [= <- <- <- <- <-] & _ & _ & [[Hr' _]|[Hr' _]])];
      [|by rewrite Hr in Hr'|by destruct target, u|by rewrite Hr in Hr'|done].
    unfold callee_of in Hc, Hc'. rewrite Hc in Hc'. by injection Hc' as <-.
  - intros _ ab' Hab'. rewrite Hab in Hab'. by injection Hab' as <-.
Qed.

Lemma call_function_moves func args dest target u rest f A t t' :
  at_top rest f A t → at_terminator tcx f (Call func args dest target u) →
  VisitTerminator (Call func args dest target u) ∈ body_visits tcx (def_id f) →
  call_function tcx rec func args dest target u t = Ok (tt, t') →
  ∃ A' f', visited_on rest f A t (Call func args dest target u) A' f' t'.
Proof.
  intros HT Hk Hin (pe' & t1 & [= <- <-] & H)%st_bind_ok. apply st_bind_ok in H as (pp' & t2 & [= <- <-] & H).
  apply st_bind_ok in H as ([[callee name] ps] & t3 & H3 & H).
  destruct (on_top_ok _ _ _ _ _ _ (top_stack _ _ _ _ _ _ _ _ HT) H3) as (f1 & w1 & H1 & ->). clear H3.
  apply st_bind_ok in H1 as (callee' & w2 & [Hc ->]%lift_ok & H1).
  apply st_bind_ok in H1 as (s & w3 & [Hs ->]%lift_ok & H1).
  apply st_bind_ok in H1 as ([ps' f2] & w4 & H4 & H1).
  apply st_bind_ok in H1 as ([] & w5 & H5 & [= -> <- -> -> ->]).
  apply outcome_bind_ok in Hs as (ab & Hab & [= <-]).
  rewrite (top_end _ _ _ _ _ _ _ _ HT), (top_panic _ _ _ _ _ _ _ _ HT) in *.
  assert (HC : calling tcx D pe pp A (net (world t)) f (Call func args dest target u) (bb_place ab)).
  { split; try apply HT; [done|]. by exists ab. }
  destruct (call_places_sound _ _ _ _ _ _ _ _ _ _ _ _ _ _ _ _ HC H4) as (A1 & S1 & C1 & Hh & Hps).
  destruct ps as [ps|].
  - injection H5 as <-. destruct Hps as [Hst Hpl]. by eapply translated_call_moves.
  - destruct Hps as (Hr & -> & -> & ->). by eapply diverging_call_moves.
Qed.
(** Terminators that are no calls go where they jump. *)
Lemma goes_jumps n f k :
  (∀ func args destination target u, k ≠ Call func args destination target u) →
  (∀ x, jumps tcx (def_id f) k x → active_arrives n f x) → goes n f k.
Proof.
  intros Hk H x [Hx|(func & args & destination & target & u & _ & -> & _)]; [by apply H|].
  by destruct (Hk func args destination target u).
Qed.

(** Drops and assertions go to their target or unwind. *)
Lemma goes_unwinding n f k target u :
  (∃ place, k = Drop place target u) ∨ k = Assert target u →
  active_arrives n f (ToBlock target) → (∀ b, u = UnwindCleanup b → active_arrives n f (ToBlock b)) →
  (u = UnwindUnreachable → active_arrives n f (Out Ending)) → goes n f k.
Proof.
  intros Hk H1 H2 H3. apply goes_jumps; [destruct Hk as [(? & ->)| ->]; done|].
  intros x Hx. assert (Hx' : x = ToBlock target ∨ (∃ c, u = UnwindCleanup c ∧ x = ToBlock c) ∨
    (u = UnwindUnreachable ∧ x = Out Ending)) by (destruct Hk as [(? & ->)| ->]; exact Hx).
  destruct Hx' as [->|[(c & Hu & ->)|[Hu ->]]]; auto.
Qed.

(** Dropping, with the guards that an empty heap does not have. *)
Lemma visit_drop_moves place target u rest f A t t' :
  at_top rest f A t → at_terminator tcx f (Drop place target u) →
  visit_drop place target u t = Ok (tt, t') → ∃ A' f', visited_on rest f A t (Drop place target u) A' f' t'.
Proof.
  intros HT Hk (pe' & t1 & [= <- <-] & H)%st_bind_ok. rewrite (top_end _ _ _ _ _ _ _ _ HT) in H.
  destruct (on_top_moves tcx D pe pp (λ n f, goes n f (Drop place target u) ∧ active_consumed n f) _ _ _ _ _ _ _ HT H)
    as (A' & f' & M & G & C); [|by exists A', f'].
  intros f' w' ([[tr ctr] f1] & w1 & H1 & H2)%st_bind_ok.
  assert (Hd : ∃ A', (frame_step A (net (world t)) f A' (net w1) f1 ∧
      goes (net w1) f1 (Drop place target u) ∧ active_consumed (net w1) f1) ∧ heap w1 = heap (world t)).
  { assert (HA := top_sound _ _ _ _ _ _ _ _ HT). assert (Hf := top_frame _ _ _ _ _ _ _ _ HT).
    assert (Hk' : (∃ o, Drop place target u = Drop o target u) ∨ Drop place target u = Assert target u) by (left; by exists place).
    destruct u as [| | |c].
    1,3: apply on_net_ok in H1 as (n1 & H1 & ->); eapply drop_sound in H1 as (A' & S & R1 & R2 & C); [|done..];
      exists A'; split_and!; [done|by eapply goes_unwinding|done|done].
    - apply st_bind_ok in H1 as (x & w2 & (n2 & H1 & ->)%on_net_ok & (n3 & H3 & ->)%on_net_ok).
      eapply unreachable_sound in H1 as (S1 & R0 & _); [|done..|by left; right; right].
      assert (S1' := S1). destruct S1' as [HA1 _ F1 _ _].
      eapply drop_sound in H3 as (A' & S & R1 & R2 & C); [|done..]. exists A'.
      split_and!; [by eapply frame_step_trans| |done|done].
      eapply goes_unwinding; [done..|]. intros _. by eapply active_arrives_step.
    - apply on_net_ok in H1 as (n1 & H1 & ->).
      eapply drop_sound in H1 as (A' & S & R1 & R2 & C); [|done|done|done|by intros b; split; intros [= ->]].
      exists A'. split_and!; [done|by eapply goes_unwinding|done|done]. }
  destruct Hd as (A' & S & Hh). exists A'. assert (Hh' : heap w1 = empty_heap) by (rewrite Hh; apply HT).
  apply st_bind_ok in H2 as ([] & w2 & ->%guard_drop_empty & H2); [|done].
  apply st_bind_ok in H2 as ([] & w3 & H3 & [= <- <-]). destruct ctr as [ctr|].
  - by apply guard_drop_empty in H3 as ->.
  - by injection H3 as <-.
Qed.

Lemma visit_assert_moves target u rest f A t t' :
  at_top rest f A t → at_terminator tcx f (Assert target u) →
  visit_assert target u t = Ok (tt, t') → ∃ A' f', visited_on rest f A t (Assert target u) A' f' t'.
Proof.
  intros HT Hk (pe' & t1 & [= <- <-] & H)%st_bind_ok. rewrite (top_end _ _ _ _ _ _ _ _ HT) in H.
  destruct (on_top_moves tcx D pe pp (λ n f, goes n f (Assert target u) ∧ active_consumed n f) _ _ _ _ _ _ _ HT H)
    as (A' & f' & M & G & C); [|by exists A', f'].
  intros f' w' (f1 & w1 & H1 & [= <- <-])%st_bind_ok.
  assert (HA := top_sound _ _ _ _ _ _ _ _ HT). assert (Hf := top_frame _ _ _ _ _ _ _ _ HT).
  assert (Hk' : (∃ o, Assert target u = Drop o target u) ∨ Assert target u = Assert target u) by by right.
  destruct u as [| | |c].
  1,3: apply on_net_ok in H1 as (n1 & H1 & ->); eapply assert_sound in H1 as (A' & S & R1 & R2 & C); [|done..];
    exists A'; split_and!; [done|by eapply goes_unwinding|done|done].
  - apply st_bind_ok in H1 as (f2 & w2 & (n2 & H1 & ->)%on_net_ok & H2).
    apply st_bind_ok in H2 as (x & w3 & (n3 & H3 & ->)%on_net_ok & [= -> <-]).
    eapply assert_sound in H1 as (A' & S & R1 & R2 & _); [|done..]. assert (S' := S). destruct S' as [HA1 E F1 SF _].
    eapply unreachable_sound in H3 as (S2 & R0 & C); [|done|done|by eapply at_terminator_same|by left; right; right].
    exists A'. split_and!; [by eapply frame_step_trans| |done|done].
    eapply goes_unwinding; [done|by eapply active_arrives_step|done|done].
  - apply on_net_ok in H1 as (n1 & H1 & ->).
    eapply assert_sound in H1 as (A' & S & R1 & R2 & C); [|done|done|done|by intros b; split; intros [= ->]].
    exists A'. split_and!; [done|by eapply goes_unwinding|done|done].
Qed.

(** A frame operation that is one computation on the net. *)
Lemma frame_op_moves {B} (c : MirFunction → ST PetriNet B) (g : MirFunction → B → MirFunction) rest f A t k t' :
  at_top rest f A t → on_top (λ f, b ← on_net (c f); mret (tt, g f b)) t = Ok (tt, t') →
  (∀ b n', c f (net (world t)) = Ok (b, n') → ∃ A', frame_step A (net (world t)) f A' n' (g f b) ∧
     goes n' (g f b) k ∧ (complete tcx (def_id f) → active_consumed n' (g f b))) →
  ∃ A' f', visited_on rest f A t k A' f' t'.
Proof.
  intros HT H Hc.
  apply (on_top_moves tcx D pe pp (λ n f', goes n f' k ∧ (complete tcx (def_id f) → active_consumed n f')) _ _ _ _ _ _ _ HT H).
  intros f' w' (b & w1 & (n' & H1 & ->)%on_net_ok & [= <- <-])%st_bind_ok.
  destruct (Hc _ _ H1) as (A' & S). by exists A'.
Qed.

Lemma visit_terminator_moves k rest f A t t' :
  at_top rest f A t → at_terminator tcx f k → is_Some (active_block f) →
  VisitTerminator k ∈ body_visits tcx (def_id f) →
  visit_terminator tcx rec k t = Ok (tt, t') → ∃ A' f', visited_on rest f A t k A' f' t'.
Proof.
  intros HT Hk Hact Hin. assert (HA := top_sound _ _ _ _ _ _ _ _ HT). assert (Hf := top_frame _ _ _ _ _ _ _ _ HT).
  assert (Hend := top_end _ _ _ _ _ _ _ _ HT). assert (Hpan := top_panic _ _ _ _ _ _ _ _ HT).
  destruct k; simpl; intros H; try (by apply st_bind_ok in H as ([] & ? & _ & ?)).
  - (* Goto *)
    apply (frame_op_moves (λ f, goto f target) (λ _ f', f') _ _ _ _ _ _ HT H). intros f' n' H1.
    eapply goto_sound in H1 as (A' & S & R & C); [|done..]. exists A'. split_and!; [done| |done].
    apply goes_jumps; [done|]. by intros x ->.
  - (* SwitchInt *)
    apply (frame_op_moves (λ f, switch_int f targets) (λ _ f', f') _ _ _ _ _ _ HT H). intros f' n' H1.
    eapply switch_int_sound in H1 as (A' & S & R & C); [|done..]. exists A'. split_and!; [done|..].
    + apply goes_jumps; [done|]. intros x (b & Hb & ->). by apply R.
    + intros Hc%complete_here. apply C. destruct Hact as [a Ha]. by apply (cb_switch _ _ Hc a), Hk.
  - (* UnwindResume *)
    apply st_bind_ok in H as (pp' & t1 & [= <- <-] & H). rewrite Hpan in H.
    apply (frame_op_moves (λ f, MirFunction.unwind f pp) (λ f' _, f') _ _ _ _ _ _ HT H). intros u n' H1. exists A.
    eapply unwind_sound in H1 as (S & R & C); [|done|done|done|by left]. split_and!; [done| |done].
    apply goes_jumps; [done|]. by intros x ->.
  - (* UnwindTerminate *)
    apply st_bind_ok in H as (pp' & t1 & [= <- <-] & H). rewrite Hpan in H.
    apply (frame_op_moves (λ f, MirFunction.unwind f pp) (λ f' _, f') _ _ _ _ _ _ HT H). intros u n' H1. exists A.
    eapply unwind_sound in H1 as (S & R & C); [|done|done|done|by left]. split_and!; [done| |done].
    apply goes_jumps; [done|]. by intros x ->.
  - (* Return *)
    apply (frame_op_moves (return_statement) (λ f' _, f') _ _ _ _ _ _ HT H). intros u n' H1. exists A.
    eapply return_sound in H1 as (S & R & C); [|done..]. split_and!; [done| |done].
    apply goes_jumps; [done|]. by intros x ->.
  - (* Unreachable *)
    apply st_bind_ok in H as (pp' & t1 & [= <- <-] & H). rewrite Hend in H.
    apply (frame_op_moves (λ f, unreachable f pe) (λ f' _, f') _ _ _ _ _ _ HT H). intros u n' H1. exists A.
    eapply unreachable_sound in H1 as (S & R & C); [|done|done|done|by left]. split_and!; [done| |done].
    apply goes_jumps; [done|]. by intros x ->.
  - destruct (visit_drop_moves _ _ _ _ _ _ _ _ HT Hk H) as (A' & f' & V). by exists A', f'.
  - by eapply call_function_moves.
  - destruct (visit_assert_moves _ _ _ _ _ _ _ HT Hk H) as (A' & f' & V). by exists A', f'.
Qed.

Lemma visit_assign_moves place rv rest f A t t' :
  at_top rest f A t → visit_assign tcx place rv t = Ok (tt, t') → ∃ f', moves rest f A t f' A t'.
Proof.
  intros HT H. unfold visit_assign in H. destruct rv as [[rhs|rhs|c]|rhs|ops|];
    try (injection H as <-; exists f; by apply moves_refl);
    (eapply on_top_memory; [done..|]; intros f' w' (m & w1 & [_ ->]%lift_ok & [= <- <-])%st_bind_ok;
     split; [done|by exists m]).
Qed.

(** ** The loop over a body *)

(** The frame on top may have another active block at the end. *)
Record goes_on rest f A t f' A' t' : Prop := {
  go_top : at_top rest f' A' t';
  go_extends : extends (net (world t)) A (net (world t')) A';
  go_grows : frame_grows tcx (net (world t)) f (net (world t')) f';
  go_def_id : def_id f' = def_id f;
  go_start : start_place f' = start_place f;
  go_end : end_place f' = end_place f;
}.
Lemma moves_goes_on rest f A t f' A' t' : moves rest f A t f' A' t' → goes_on rest f A t f' A' t'.
Proof. by intros [? [? ? ? [] ?]]. Qed.
Lemma goes_on_trans rest f1 A1 t1 f2 A2 t2 f3 A3 t3 :
  goes_on rest f1 A1 t1 f2 A2 t2 → goes_on rest f2 A2 t2 f3 A3 t3 → goes_on rest f1 A1 t1 f3 A3 t3.
Proof.
  intros [_ E1 G1 ? ? ?] [H2 E2 G2 ? ? ?].
  split; [done|by eapply extends_trans|by eapply frame_grows_trans|congruence..].
Qed.

(** From a block that ends in [k], the net goes where control does; its token
    can go on. *)
Definition block_done n f b k : Prop := ∃ blk, basic_blocks f !! b = Some blk ∧
  (∀ x, next tcx (def_id f) k x → arrives n f (bb_place blk) x) ∧
  (complete tcx (def_id f) → consumed n (bb_place blk)).

Lemma block_done_grows rest f A t f' A' t' b k :
  goes_on rest f A t f' A' t' → block_done (net (world t)) f b k → block_done (net (world t')) f' b k.
Proof.
  intros [_ _ G Hd _ He] (blk & Hb & Ha & Hc). exists blk. rewrite Hd. split_and!.
  - by apply (fg_block _ _ _ _ _ G).
  - intros x Hx. eapply arrives_grows; [done..|]. by apply Ha.
  - intros Hcf. eapply consumed_builds; [apply G|]. by apply Hc.
Qed.

(** The blocks that end in these terminators are done. *)
Definition all_done n f (l : list (N * TerminatorKind)) : Prop := ∀ b k, (b, k) ∈ l → block_done n f b k.

Lemma visit_block_goes_on b rest f A t t' :
  at_top rest f A t → (basic_blocks f = ∅ → entry tcx (def_id f) b) →
  VisitBasicBlockData b ∈ body_visits tcx (def_id f) → visit_basic_block_data b t = Ok (tt, t') →
  ∃ A' f', goes_on rest f A t f' A' t' ∧ active_block f' = Some b.
Proof.
  intros HT He Hb H. destruct (on_top_ok _ _ _ _ _ _ (top_stack _ _ _ _ _ _ _ _ HT) H) as (f' & w' & H1 & ->).
  apply st_bind_ok in H1 as (f2 & w1 & (n' & H1 & ->)%on_net_ok & [= -> <-]).
  eapply activate_sound in H1 as (A' & f1 & [HA E F [Hd Hs Hend _] G] & -> & F'); [|apply HT|apply HT|done|done].
  exists A', (set_active_block f1 (Some b)). split; [|done]. split; simpl; try done; [|by destruct G].
  destruct HT. by split.
Qed.

Lemma visits_go_on visits rest f A t t' :
  at_top rest f A t → is_Some (active_block f) →
  (∀ a k, (a, k) ∈ terminators (active_block f) visits → (a, k) ∈ blocks tcx (def_id f)) →
  (∀ v, v ∈ visits → v ∈ body_visits tcx (def_id f)) →
  for_each visits (visit tcx rec) t = Ok (tt, t') →
  ∃ A' f', goes_on rest f A t f' A' t' ∧
    all_done (net (world t')) f' (terminators (active_block f) visits).
Proof.
  revert f A t. induction visits as [|v visits IH]; intros f A t HT Hact Hblocks Hin.
  { intros [= <-]. exists A, f. split; [by apply moves_goes_on, moves_refl|].
    intros a k Hk. by apply not_elem_of_nil in Hk. }
  intros ([] & t1 & H1 & H)%st_bind_ok.
  (* each visit, and then the others *)
  assert (Hnext : ∀ A1 f1, goes_on rest f A t f1 A1 t1 → is_Some (active_block f1) →
    (∀ a k, (a, k) ∈ terminators (active_block f1) visits → (a, k) ∈ blocks tcx (def_id f)) →
    ∃ A' f', goes_on rest f A t f' A' t' ∧ goes_on rest f1 A1 t1 f' A' t' ∧
      all_done (net (world t')) f' (terminators (active_block f1) visits)).
  { intros A1 f1 G1 Ha1 Hb1.
    destruct (IH f1 A1 t1) as (A2 & f2 & G2 & C2); [apply G1|done|by rewrite (go_def_id _ _ _ _ _ _ _ G1)| |done|].
    - rewrite (go_def_id _ _ _ _ _ _ _ G1). intros k Hk. apply Hin. by right.
    - exists A2, f2. split_and!; [by eapply goes_on_trans|done|done]. }
  destruct v as [b|place rv|k]; simpl in H1.
  - assert (Hne : basic_blocks f = ∅ → entry tcx (def_id f) b).
    { intros E. destruct Hact as [a Ha].
      destruct (fo_active _ _ _ _ _ _ _ (top_frame _ _ _ _ _ _ _ _ HT) a Ha) as [ab Hab]. by rewrite E in Hab. }
    destruct (visit_block_goes_on _ _ _ _ _ _ HT Hne (Hin _ (list_elem_of_here _ _)) H1) as (A1 & f1 & G1 & Ha1).
    destruct (Hnext _ _ G1) as (A2 & f2 & G2 & _ & C2); [by rewrite Ha1|by rewrite Ha1|].
    exists A2, f2. split; [done|]. by rewrite Ha1 in C2.
  - destruct (visit_assign_moves _ _ _ _ _ _ _ HT H1) as (f1 & M1).
    assert (Ha1 := sf_active _ _ (fs_same _ _ _ _ _ _ _ _ _ _ (mo_step _ _ _ _ _ _ _ _ _ _ _ M1))).
    destruct (Hnext _ _ (moves_goes_on _ _ _ _ _ _ _ M1)) as (A2 & f2 & G2 & _ & C2); [by rewrite Ha1..|].
    exists A2, f2. split; [done|]. by rewrite Ha1 in C2.
  - destruct Hact as [a Ha]. rewrite Ha in Hblocks |- *. simpl in Hblocks |- *.
    destruct (visit_terminator_moves k rest f A t t1) as (A1 & f1 & M1 & R1 & C1);
      [done| |by exists a|apply Hin; by left|done|].
    { intros a' Ha'. rewrite Ha in Ha'. injection Ha' as <-. apply Hblocks. by left. }
    assert (SF := fs_same _ _ _ _ _ _ _ _ _ _ (mo_step _ _ _ _ _ _ _ _ _ _ _ M1)).
    assert (Ha1 : active_block f1 = Some a) by by rewrite (sf_active _ _ SF).
    destruct (Hnext _ _ (moves_goes_on _ _ _ _ _ _ _ M1)) as (A2 & f2 & G2 & G3 & C2).
    { by rewrite Ha1. } { rewrite Ha1. intros a' k' Hk. apply Hblocks. by right. }
    exists A2, f2. split; [done|]. rewrite Ha1 in C2. intros a' k' [[= -> ->]|Hk]%elem_of_cons; [|by apply C2].
    eapply block_done_grows; [exact G3|].
    destruct (fo_active _ _ _ _ _ _ _ (top_frame _ _ _ _ _ _ _ _ (mo_top _ _ _ _ _ _ _ _ _ _ _ M1)) a Ha1) as [ab Hab].
    assert (Hact : get_active_block f1 = Ok ab) by (apply active_block_ok; by exists a).
    exists ab. split_and!; [done|intros x Hx; by apply R1|].
    rewrite (sf_def_id _ _ SF). intros Hc. by apply C1.
Qed.
End visits.

(** The compiler's visitor presents the blocks of a body one after another:
    what it visits first, if anything, is a block. *)
Definition visits_begin_with_block : Prop :=
  ∀ d v, head (body_visits tcx d) = Some v → ∃ b, v = VisitBasicBlockData b.

Context (Hseq : sequential tcx) (Hbegin : visits_begin_with_block).

(** When all blocks of a body have been visited, *)
Section body.
Context rest g A t f A' t' (HG : goes_on rest g A t f A' t') (Hne : basic_blocks f ≠ ∅).
Context (Hall : all_done (net (world t')) f (blocks tcx (def_id g))).

(** the net leaves it in every way that control does, *)
Lemma may_arrives o d b :
  may tcx o d b → d = def_id g →
  ∃ blk, basic_blocks f !! b = Some blk ∧ arrives (net (world t')) f (bb_place blk) (Out o).
Proof.
  assert (Hd := go_def_id _ _ _ _ _ _ _ HG).
  revert o d b. apply (may_ind_next tcx (λ o d b, d = def_id g → _)).
  - intros o d b k Hk Hx ->. destruct (Hall _ _ Hk) as (blk & Hb & Ha & _). rewrite Hd in Ha. eauto.
  - intros o d b k b' Hk Hx IH ->. destruct (IH eq_refl) as (blk' & Hb' & Harr).
    destruct (Hall _ _ Hk) as (blk & Hb & Ha & _). rewrite Hd in Ha. exists blk. split; [done|].
    destruct (Ha _ Hx) as [(q & (blk2 & Hb2 & <-) & Hp)|[? _]]; [|done].
    rewrite Hb' in Hb2. injection Hb2 as <-. by eapply arrives_after.
Qed.

Lemma body_arrives o : can tcx o (def_id g) → arrives (net (world t')) f (start_place g) (Out o).
Proof.
  intros (b0 & He & (blk & Hb & Harr)%may_arrives); [|done].
  assert (F := top_frame _ _ _ _ _ _ _ _ (go_top _ _ _ _ _ _ _ HG)).
  destruct (fo_first _ _ _ _ _ _ _ F Hne) as (b1 & blk1 & He1 & Hb1 & Hp1).
  rewrite (go_def_id _ _ _ _ _ _ _ HG) in He1. rewrite (go_start _ _ _ _ _ _ _ HG) in Hp1.
  assert (b1 = b0) as -> by (unfold entry in *; congruence).
  rewrite Hb in Hb1. injection Hb1 as <-. by rewrite <-Hp1.
Qed.

(** and all its tokens go on. *)
Lemma body_consumed :
  complete tcx (def_id g) → consumed (net (world t')) (start_place g) ∧
  ∀ q, has_place (net (world t')) q → has_place (net (world t)) q ∨ consumed (net (world t')) q.
Proof.
  destruct HG as [HT E G Hd Hs _]. intros Hc. assert (F := top_frame _ _ _ _ _ _ _ _ HT).
  assert (Hblk : ∀ b blk, basic_blocks f !! b = Some blk → consumed (net (world t')) (bb_place blk)).
  { intros b blk Hb. assert (Hn := fo_named _ _ _ _ _ _ _ F b (ex_intro _ _ Hb)). rewrite Hd in Hn.
    destruct (complete_named _ _ _ (complete_here _ _ Hc) Hn) as (k & Hk).
    destruct (Hall _ _ Hk) as (blk' & Hb' & _ & Hcons). rewrite Hd in Hcons. simplify_eq. auto. }
  split.
  - destruct (fo_first _ _ _ _ _ _ _ F Hne) as (b & blk & _ & Hb & Hp). rewrite <-Hs, <-Hp. by eapply Hblk.
  - intros q Hq. destruct (fg_place _ _ _ _ _ G q Hc Hq) as [|[|(b & blk & Hb & <-)]]; [by left|by right|right].
    by eapply Hblk.
Qed.
End body.

Lemma no_entry_cannot d o : body_visits tcx d = [] → ¬ can tcx o d.
Proof. intros Hd (b0 & He & _). unfold entry in He. by rewrite Hd in He. Qed.

Lemma translate_top_reflects fuel : reflects (translate_top_call_stack tcx fuel).
Proof.
  induction fuel as [|fuel IH]; [done|]. intros rest g A t t' HT Hb Ha. simpl.
  intros (g' & t1 & H1 & H)%st_bind_ok. apply st_bind_ok in H1 as (s & t2 & [= <- <-] & H1).
  apply lift_ok in H1 as [Hg ->]. rewrite (top_stack _ _ _ _ _ _ _ _ HT), Stack.peek_push in Hg. injection Hg as <-.
  apply st_bind_ok in H as ([] & t1 & H1 & [= <-]).
  assert (∃ A' f', goes_on rest g A t f' A' t1 ∧
    (basic_blocks f' ≠ ∅ ∧ all_done (net (world t1)) f' (blocks tcx (def_id g)) ∨ body_visits tcx (def_id g) = []))
    as (A' & f' & G & C).
  { assert (Hv := Hbegin (def_id g)). destruct (body_visits tcx (def_id g)) as [|v visits] eqn:Hvs.
    { injection H1 as <-. exists A, g. split; [by apply moves_goes_on, moves_refl|by right]. }
    destruct (Hv v eq_refl) as [b ->]. apply st_bind_ok in H1 as ([] & t2 & H1 & H2).
    assert (He : entry tcx (def_id g) b) by (unfold entry; by rewrite Hvs).
    destruct (visit_block_goes_on b rest g A t t2 HT) as (A1 & f1 & G1 & Ha1); [done| |done|].
    { rewrite Hvs. by left. }
    assert (Hd := go_def_id _ _ _ _ _ _ _ G1).
    assert (Hbl : blocks tcx (def_id g) = terminators (Some b) visits) by (unfold blocks; by rewrite Hvs).
    destruct (visits_go_on _ IH Hseq visits rest f1 A1 t2 t1) as (A2 & f2 & G2 & C2);
      [apply G1|by rewrite Ha1| | |done|].
    - by rewrite Ha1, Hd, Hbl.
    - rewrite Hd, Hvs. intros v Hin. by right.
    - exists A2, f2. split; [by eapply goes_on_trans|]. left. rewrite Ha1, <-Hbl in C2. split; [|done].
      destruct (fo_active _ _ _ _ _ _ _ (top_frame _ _ _ _ _ _ _ _ (go_top _ _ _ _ _ _ _ G1)) b Ha1) as [blk Hblk].
      apply (fg_block _ _ _ _ _ (go_grows _ _ _ _ _ _ _ G2)) in Hblk. intros E. by rewrite E in Hblk. }
  exists A'. assert (G' := G). destruct G' as [[] E Gr Hd Hs Hend].
  assert (Harr : ∀ o, can tcx o (def_id g) → arrives (net (world t1)) f' (start_place g) (Out o)).
  { intros o Hcan. destruct C as [[Hne Hall]|Hnone]; [by eapply body_arrives|]. by eapply no_entry_cannot in Hcan. }
  split; simpl; try done.
  - apply Gr.
  - by rewrite top_stack, Stack.pop_push.
  - intros [(q & Hq & Hp)|[? _]]%Harr; [|done]. simpl in Hq. by rewrite <-Hend, <-Hq.
  - intros o [(q & Hq & Hp)|([= ->] & Hl)]%Harr; [|done]. destruct o; simpl in *; by try subst q.
  - intros Hc. destruct C as [[Hne Hall]|Hnone]; [by eapply body_consumed|].
    destruct (cb_entry _ _ (complete_here _ _ Hc)) as (b & He). unfold entry in He. by rewrite Hnone in He.
Qed.
End sequential.

(** ** The program *)

Section program.
Context `{LL : PetriNetLaws} (tcx : TyCtxt) (Hseq : sequential tcx) (Hbegin : visits_begin_with_block tcx).
Implicit Types (n : PetriNet) (t : Translator) (p : PlaceRef) (A : PlaceRef → Prop).

(** [Translator::new] builds a sound net of three places, whatever two of them
    mean. *)
Lemma translator_new_sound (D P Q : Prop) t :
  translator_new = Ok t → ∃ A, sound D A (net (world t)) ∧ A (program_start t) ∧
    (A (program_end t) ↔ P) ∧ (A (program_panic t) ↔ Q) ∧
    ∀ q, has_place (net (world t)) q → q = program_start t ∨ q = program_end t ∨ q = program_panic t.
Proof.
  unfold translator_new. intros H. apply outcome_bind_ok in H as ([[[s e] p] n] & H & [= <-]). simpl.
  apply st_bind_ok in H as (p1 & n1 & H1 & H). apply st_bind_ok in H as (p2 & n2 & H2 & H).
  apply st_bind_ok in H as (p3 & n3 & H3 & H). apply st_bind_ok in H as ([] & n4 & H4 & [= -> -> -> ->]).
  assert (H0 : sound D (λ _, True) net_new).
  { split; [done|]. intros u q Hu. by apply new_no_transition in Hu. }
  apply (add_place_sound D Q) with (1 := H0) in H1 as (A1 & S1 & _ & Hp & Ap & _ & N1).
  apply (add_place_sound D P) with (1 := S1) in H2 as (A2 & S2 & E2 & He & Ae & _ & N2).
  apply (add_place_sound D True) with (1 := S2) in H3 as (A3 & S3 & E3 & Hs & As & _ & N3).
  assert (N4 := add_token_places _ _ _ _ _ H4). apply add_token_ok in H4 as (T4 & [G1 G2] & _).
  exists A3. split_and!.
  - split.
    + intros u q q'. rewrite G1, G2. apply S3.
    + intros u q Hu%T4. rewrite G1. intros Hq Aq. destruct (so_lossy _ _ _ S3 u q) as [|(q' & Hq')]; [done..|by left|right].
      exists q'. by rewrite G2.
  - by apply As.
  - destruct (E3 _ He) as [_ ->]. done.
  - destruct (E3 p) as [_ ->]; [by apply E2|]. by destruct (E2 p Hp) as [_ ->].
  - intros q [->|[->|[->|?%new_no_place]%N1]%N2]%N4%N3; tauto.
Qed.

#[local] Instance nothing_world : WorldInvariant false (λ _, True).
Proof. by split. Qed.

Lemma run_sound fuel queue_fuel main A t t' :
  translator_new = Ok t → entry_fn tcx = Some main → program_places (net (world t)) (program_start t) (program_end t) (program_panic t) →
  sound (can tcx Diverging main) A (net (world t)) →
  (can tcx Returning main ∨ can tcx Ending main → A (program_end t)) →
  (can tcx Panicking main → A (program_panic t)) →
  run tcx fuel queue_fuel t = Ok (tt, t') →
  ∃ A', translated tcx (can tcx Diverging main) (program_end t) (program_panic t)
    (mir_function_new main (def_path_str tcx main) (program_start t) (program_end t)) A t (call_stack t) A' t'.
Proof.
  intros Ht Hmain [Hps Hpe Hpp] HA Ae Ap H. destruct (translator_new_empty _ Ht) as (Hh & Hth & Hpost).
  apply st_bind_ok in H as (main' & t1 & [Hm ->]%lift_ok & H). rewrite Hmain in Hm. injection Hm as <-.
  apply st_bind_ok in H as (s & t1 & [= <- <-] & H). apply st_bind_ok in H as (e & t1 & [= <- <-] & H).
  apply st_bind_ok in H as ([] & t1 & [= <-] & H). apply st_bind_ok in H as ([] & t2 & H2 & H).
  set (f := mir_function_new main (def_path_str tcx main) (program_start t) (program_end t)) in *.
  set (t1 := set_call_stack (Stack.push (call_stack t) f) t) in *.
  assert (HT : at_top tcx (can tcx Diverging main) (program_end t) (program_panic t) (call_stack t) f A t1).
  { split; simpl; try done. split; simpl; try done; [by intros b [? ?]|]. intros o _ Hc. destruct o; simpl; tauto. }
  destruct (translate_top_reflects tcx _ _ _ Hseq Hbegin fuel _ f A t1 t2 HT eq_refl eq_refl H2) as (A' & HT').
  exists A'. assert (inv false (λ _, True) t2) as [_ Hq].
  { refine (translate_top_keeps false _ tcx fuel (λ _, Hseq) t1 tt t2 _ H2). done. }
  destruct (Hq eq_refl) as [Hth2 Hpost2]. apply st_bind_ok in H as ([] & t3 & H3 & H).
  assert (t3 = t2) as ->.
  { destruct queue_fuel; [done|]. apply st_bind_ok in H3 as (q & t4 & [= <- <-] & H3).
    rewrite Hth2 in H3. by injection H3 as <-. }
  apply st_bind_ok in H as (h & t4 & [= <- <-] & H). rewrite Hpost2 in H.
  apply st_bind_ok in H as (h & t4 & [= <- <-] & H). rewrite Hpost2 in H. injection H as <-. by destruct HT'.
Qed.

(** ** The token of a sequential program *)

(** Tokens are only where places mean something true. *)
Lemma sound_reachable (D : Prop) A n m :
  consumes n → sound D A n → (∀ p, (0 < marking n p)%N → A p) →
  reachable n (marking n) m → ∀ p, (0 < m p)%N → A p.
Proof.
  intros Hc HA H0. apply (reachable_invariant n (λ m, ∀ p, (0 < m p)%N → A p)); [..|exact H0].
  - intros m1 m2 Heq Hm p. rewrite <-(Heq p). apply Hm.
  - intros m1 t Hm [Ht He] q. unfold fire. intros Hq.
    destruct (decide (post n t q = 0%N)) as [Hz|Hz]; [apply Hm; lia|].
    destruct (Hc t Ht) as (p & Hp). apply (so_flow _ _ _ HA t p q); [done|lia|]. apply Hm. specialize (He p). lia.
Qed.

(** What the proofs need of the net of a program. *)
Record program_net main n (A : PlaceRef → Prop) (start end_ panic : PlaceRef) : Prop := {
  pn_places : program_places n start end_ panic;
  pn_machine : state_machine start n;
  pn_sound : sound (can tcx Diverging main) A n;
  pn_start : A start;
  pn_end : A end_ → can tcx Returning main ∨ can tcx Ending main;
  pn_panic : A panic → can tcx Panicking main;
  pn_returns : can tcx Returning main → path n start end_;
  pn_ends o : can tcx o main → end_reached end_ panic n start o;
  pn_consumed : complete tcx main → ∀ q, has_place n q → q = end_ ∨ q = panic ∨ consumed n q;
}.

#[local] Instance any_fuel : FuelPolicy := True.

Lemma translate_program_net fuel queue_fuel n main :
  entry_fn tcx = Some main → translate tcx fuel queue_fuel = Ok n →
  ∃ A start end_ panic, program_net main n A start end_ panic.
Proof.
  intros Hmain Hn. assert (Hn' := Hn). unfold translate in Hn'. apply outcome_bind_ok in Hn' as (t & Ht & Hrun).
  apply outcome_bind_ok in Hrun as ([[] t'] & Hrun & [= Hnet]).
  pose proof translator_new_spec as Hspec. rewrite Ht in Hspec. destruct Hspec as (_ & _ & Hpl).
  assert (Hpl' := Hpl). destruct Hpl'.
  destruct (translator_new_sound (can tcx Diverging main) (can tcx Returning main ∨ can tcx Ending main)
    (can tcx Panicking main) t Ht) as (A & HA & As & Ae & Ap & Hall).
  destruct (run_sound fuel queue_fuel main A t t') as (A' & [E _ HA' _ _ _ _ Hret Hends Hcons]);
    [done..|by apply Ae|by apply Ap|done|]. simpl in Hret, Hends, Hcons.
  rewrite Hnet in HA', E, Hcons, Hret, Hends. destruct (E _ pp_start) as [_ As']. destruct (E _ pp_end) as [Pe Ae'].
  destruct (E _ pp_panic) as [Pp Ap']. exists A', (program_start t), (program_end t), (program_panic t).
  assert (SM := translate_state_machine _ _ _ _ _ Hseq Ht Hn).
  split; [|done|done|by apply As'|by rewrite Ae', Ae|by rewrite Ap', Ap|done|done|].
  - split; try done; [by apply E|..]; rewrite (sm_start _ _ SM); unfold single; case_decide as Heq; try done.
    + by rewrite Heq, pp_start_label in pp_end_label.
    + by rewrite Heq, pp_start_label in pp_panic_label.
  - intros [Hstart Hq]%Hcons q [[->|Hq']%Hall|Hq']%Hq; tauto.
Qed.

(** The token is on a place of the net that means something true; otherwise
    it was lost in a call that does not return. *)
Definition token main n A (m : Marking) : Prop :=
  can tcx Diverging main ∨ ∃ p, m ≡ single p ∧ ¬ ¬ has_place n p ∧ A p.

Lemma token_step main n A start end_ panic m u :
  program_net main n A start end_ panic → token main n A m → enabled n m u → token main n A (fire n u m).
Proof.
  intros [_ SM HA _ _ _ _ _ _] [HD|(p & Hm & _ & Ap)] [Hu He]; [by left|].
  destruct (sm_moves _ _ SM u Hu) as (p1 & Hpre & Hpost).
  assert (p1 = p) as ->.
  { specialize (He p1). rewrite Hpre, (Hm p1) in He. unfold single in He. rewrite decide_True in He by done.
    case_decide; [done|lia]. }
  assert (Hp : (0 < pre n u p)%N) by (rewrite Hpre; unfold single; by rewrite decide_True).
  destruct (so_lossy _ _ _ HA u p Hu Hp Ap) as [HD|(q & Hq)]; [by left|right].
  destruct Hpost as [H0|(p' & Hp')]; [by rewrite H0 in Hq|].
  assert (q = p') as -> by (rewrite Hp' in Hq; unfold single in Hq; case_decide; [done|lia]).
  exists p'. split_and!; [|by eapply post_has_place|by eapply (so_flow _ _ _ HA u p p')].
  intros q. unfold fire. rewrite Hp', Hpre, (Hm q). lia.
Qed.

Lemma token_reachable main n A start end_ panic m :
  program_net main n A start end_ panic → reachable n (marking n) m → token main n A m.
Proof.
  intros PN. apply (reachable_invariant n (token main n A)).
  - intros m1 m2 Heq [HD|(p & Hm & Hp)]; [by left|right]. exists p. split; [|done]. by rewrite <-Heq.
  - intros m1 u Hm He. by eapply token_step.
  - right. exists start. destruct PN as [[] [_ Hs] _ As _ _ _ _ _]. split_and!; [exact Hs|auto|done].
Qed.

(** The token follows the paths of the net. *)
Lemma moves_from start n u p :
  state_machine start n → has_transition n u → (0 < pre n u p)%N → ∀ q, pre n u q = single p q.
Proof.
  intros SM Hu Hpre. destruct (sm_moves _ _ SM u Hu) as (p1 & Hp1 & _).
  assert (p1 = p) as ->; [|done]. rewrite Hp1 in Hpre. unfold single in Hpre. case_decide; [done|lia].
Qed.

Lemma token_path start n p q :
  state_machine start n → path n p q → reachable n (single p) (single q).
Proof.
  intros SM. induction 1 as [p|p q r (u & Hu & Hpre & Hpost) _ IH]; [by apply reachable_refl|].
  assert (Hp := moves_from _ _ _ _ SM Hu Hpre). eapply reachable_step; [|exact IH].
  apply step_fire with u; [split; [done|]; intros q'; by rewrite Hp|].
  destruct (sm_moves _ _ SM u Hu) as (_ & _ & [H0|(p' & Hp')]); [by rewrite H0 in Hpost|].
  assert (p' = q) as ->.
  { rewrite Hp' in Hpost. unfold single in Hpost. case_decide; [done|lia]. }
  intros q'. unfold fire. rewrite Hp, Hp'. lia.
Qed.

Lemma lost_reachable start n p : state_machine start n → lost n p → reachable n (single p) nothing.
Proof.
  intros SM (u & Hu & Hpre & Hpost). assert (Hp := moves_from _ _ _ _ SM Hu Hpre).
  eapply reachable_step; [|by apply reachable_refl].
  apply step_fire with u; [split; [done|]; intros q'; by rewrite Hp|].
  intros q'. unfold fire, nothing. rewrite Hp, Hpost. lia.
Qed.

Lemma program_reaches main n A start end_ panic q :
  program_net main n A start end_ panic → path n start q → ∃ m, reachable n (marking n) m ∧ (0 < m q)%N.
Proof.
  intros PN Hp. assert (SM := pn_machine _ _ _ _ _ _ PN). exists (single q).
  split; [|unfold single; by rewrite decide_True].
  assert (Hs : marking n ≡ single start) by (intros q'; apply SM). rewrite Hs. by eapply token_path.
Qed.

(** C5: the net of a program that does not synchronize does what its control-flow
    graph ([Cfg]) does, if functions with MIR are called only where they can
    return to: a marking with a token in [PROGRAM_END] is reachable exactly if
    [main] can return, or control comes to a point that MIR declares unreachable;
    and one with a token in [PROGRAM_PANIC] exactly if control comes to the end
    of an unwinding, to a call of a panic function that has no block to go on
    in, or to a call that must not unwind.  A panic that unwinds through an
    assertion, a drop or a call without a cleanup block is none of these. *)
Theorem sequential_net_follows_graph fuel queue_fuel n main :
  plain_calls tcx → calls_have_targets tcx →
  entry_fn tcx = Some main → translate tcx fuel queue_fuel = Ok n →
  ∃ end_ panic : PlaceRef,
    (has_place n end_ ∧ place_ref_label end_ = PROGRAM_END) ∧
    (has_place n panic ∧ place_ref_label panic = PROGRAM_PANIC) ∧
    ((∃ m, reachable n (marking n) m ∧ (0 < m end_)%N) ↔
       returning tcx main ∨ comes_to tcx main (unreachable_point tcx)) ∧
    ((∃ m, reachable n (marking n) m ∧ (0 < m panic)%N) ↔ comes_to tcx main (shown_panic tcx)).
Proof.
  intros Hplain Htargets Hmain Hn. destruct (translate_program_net _ _ _ _ Hmain Hn) as (A & s & e & p & PN).
  assert (PN' := PN). destruct PN' as [[] SM HA As Ae Ap Hret Hends _]. exists e, p.
  rewrite <-can_return_iff, <-can_end_iff, <-can_panic_iff by done.
  assert (Hall : ∀ m, reachable n (marking n) m → ∀ q, (0 < m q)%N → A q).
  { intros m. apply (sound_reachable (can tcx Diverging main) A n m); [by eapply translate_consumes|done|].
    intros q. rewrite (sm_start _ _ SM). unfold single. case_decide; [by subst|lia]. }
  split_and!; [done..| |]; (split; [intros (m & Hm & Hpos); eauto|]).
  - intros Hc. eapply program_reaches; [done|]. by destruct Hc as [Hc|Hc%Hends]; [apply Hret|].
  - intros Hc%Hends. by eapply program_reaches.
Qed.

(** C11: the net of a program that neither spawns threads nor uses mutexes or
    condition variables moves one token: in every reachable marking one token is
    on one place, or there is none, and then the program can come to a call that
    has no block to go on in and is of none of the panic functions. *)
Theorem sequential_net_moves_one_token fuel queue_fuel n main m :
  entry_fn tcx = Some main → translate tcx fuel queue_fuel = Ok n → reachable n (marking n) m →
  (∃ p, ∀ q, m q = if decide (q = p) then 1%N else 0%N) ∨
  ((∀ q, m q = 0%N) ∧ comes_to tcx main (dead_end tcx)).
Proof.
  intros Hmain Hn Hr. destruct (translate_program_net _ _ _ _ Hmain Hn) as (A & s & e & p & PN).
  destruct (state_machine_reachable _ _ _ (pn_machine _ _ _ _ _ _ PN) Hr) as [|H0]; [by left|right].
  split; [exact H0|]. apply (can_comes tcx Diverging); [done|].
  destruct (token_reachable _ _ _ _ _ _ _ PN Hr) as [|(q & Hq & _)]; [done|].
  specialize (Hq q). rewrite (H0 q) in Hq. unfold single, nothing in Hq. by rewrite decide_True in Hq.
Qed.

(** The deadlocks of the net are the calls that do not come back. *)
Lemma program_net_deadlock main n A start end_ panic :
  program_net main n A start end_ panic → consumes n → complete tcx main →
  deadlock_reachable n end_ panic ↔ can tcx Diverging main.
Proof.
  intros PN Hcn Hc. assert (PN' := PN). destruct PN' as [[] SM _ _ _ _ _ Hends Hcons]. split.
  - intros (m & Hm & Hdead & He & Hp).
    destruct (token_reachable _ _ _ _ _ _ _ PN Hm) as [|(q & Hq & Hpl & _)]; [done|].
    assert (Hone : m q = 1%N) by (rewrite (Hq q); unfold single; by rewrite decide_True).
    exfalso. apply Hpl. intros Hplace. destruct (Hcons Hc q Hplace) as [->|[->|(u & Hu & Hpre)]]; [lia|lia|].
    apply (Hdead u). split; [done|]. intros q'. by rewrite (moves_from _ _ _ _ SM Hu Hpre), (Hq q').
  - intros (q & Hp & Hl)%Hends. exists nothing. split_and!; [|by apply consumes_dead|done..].
    assert (Hs : marking n ≡ single start) by (intros q'; apply SM). rewrite Hs.
    eapply reachable_trans; [by eapply token_path|by eapply lost_reachable].
Qed.

(** C4: what is reported as a deadlock of a program that does not synchronize, and
    whose bodies are complete: the model checker's query holds exactly if
    control can come, in [main] or in what it calls, to a call that has no block
    to go on in, neither one to return to nor one for cleaning up, and is of
    none of the panic functions of the standard library.  [std::process::abort]
    is such a call; a function of the program that only panics is one, too. *)
Theorem sequential_deadlock_is_dead_end fuel queue_fuel n main :
  plain_calls tcx → entry_fn tcx = Some main → complete tcx main → translate tcx fuel queue_fuel = Ok n →
  ∃ end_ panic : PlaceRef,
    (has_place n end_ ∧ place_ref_label end_ = PROGRAM_END) ∧
    (has_place n panic ∧ place_ref_label panic = PROGRAM_PANIC) ∧
    (deadlock_reachable n end_ panic ↔ comes_to tcx main (dead_end tcx)).
Proof.
  intros Hplain Hmain Hc Hn. destruct (translate_program_net _ _ _ _ Hmain Hn) as (A & s & e & p & PN).
  assert (PN' := PN). destruct PN' as [[] _ _ _ _ _ _ _ _]. exists e, p. split_and!; [done..|].
  rewrite <-can_dead_end by done. eapply program_net_deadlock; [done|by eapply translate_consumes|done].
Qed.
End program.
