(* ===== verification/EndToEnd.v ===== *)
(** * From the source file to the verdict

    The command line ([CliSpec]) composed with the translation ([Sequential]):
    what a run prints about a program that does not synchronize. *)

From S2P Require Import Prelude RustStr RustPath Netcrab Naming Rustc Translator Cli CliSpec.
From S2P Require Import ControlFlow SequentialFlow Cfg TokenGame Invariants Shape Sequential.

Section end_to_end.
Context `{X : Exporters} `{T : Tools} {LL : PetriNetLaws} {FL : FileSystemLaws} (fuel queue_fuel : nat).

(** The compiler presents a file as the program [tcx]. *)
Definition compiles_to (filepath : string) (tcx : TyCtxt) : Prop :=
  ∀ sysroot, run_compiler (prepare_rustc_config sysroot filepath) = Some (Some tcx).

Lemma lib_run_program filepath tcx n :
  compiles_to filepath tcx → lib_run fuel queue_fuel filepath = Ok (inl n) →
  translate tcx fuel queue_fuel = Ok n.
Proof.
  intros Hc. unfold lib_run. destruct get_from_rustc as [sysroot|err]; [|done]. rewrite Hc.
  intros (n' & Hn & [= ->])%outcome_bind_ok. done.
Qed.

(** C8: what the tool says of programs that do not synchronize: a run with exit
    code 0 that does not skip the analysis prints that a deadlock can be reached
    if control can come, in [main] or in what it calls, to a call that has no
    block to go on in (neither to return to nor for cleaning up) and is of none
    of the panic functions of the standard library, and otherwise that the
    program is free of deadlocks. *)
Theorem sequential_verdict tcx main_id args fs out err fs' :
  sequential tcx → plain_calls tcx → visits_begin_with_block tcx → entry_fn tcx = Some main_id → complete tcx main_id →
  compiles_to (path args) tcx → (∀ n, translate tcx fuel queue_fuel = Ok n → lola_answers n) →
  (∀ f g, f ≠ g → ¬ same_file (output_path f (filename args) (output_folder args))
                                (output_path g (filename args) (output_folder args))) →
  skip_analysis args = false →
  main fuel queue_fuel (CheckDeadlock args) fs = Ok ((0%N, out, err), fs') →
  (out = "Result: " ^+ deadlock_message ^+ nl ∧ comes_to tcx main_id (dead_end tcx)) ∨
  (out = "Result: " ^+ deadlock_free_message ^+ nl ∧ ¬ comes_to tcx main_id (dead_end tcx)).
Proof.
  intros Hseq Hplain Hbegin Hmain Hcomplete Hcomp Hlola Hdiff Hskip Hrun.
  destruct (run_verdict _ _ _ _ _ _ _ Hdiff Hskip Hrun) as (n & Hn & Hv).
  apply (lib_run_program _ _ _ Hcomp) in Hn. specialize (Hv (Hlola n Hn)).
  destruct (translate_program_net tcx Hseq Hbegin _ _ _ _ Hmain Hn) as (A & s & e & p & PN).
  assert (PN' := PN). destruct PN' as [[] _ _ _ _ _ _ _ _].
  unfold verdict in Hv. rewrite <-can_dead_end by done.
  rewrite <-(program_net_deadlock tcx _ _ _ _ _ _ PN (translate_consumes _ _ _ _ Hn) Hcomplete).
  by apply Hv.
Qed.
End end_to_end.
