(* ===== verification/CallSpec.v ===== *)
(** * Calls, up to the recursive translation

    What the translator does at a call before it translates the callee, for any
    property [R] that the recursive translation has: the callee's frame is new,
    and neither the queue of threads nor the frames below have changed.  The
    theorems on recursion and on the thread queue instantiate [R]. *)

From S2P Require Import Prelude RustStr DataStructures PriorityQueue Netcrab Naming Rustc Function.
From S2P Require Import Heap Memory Sync MirFunction Translator World WorldSpec SyncSpec Gadgets.
From S2P Require Import SyncCalls FrameSpec ControlFlow TranslatorSpec VisitSpec SameThreads BodySpec.
From S2P Require Import ProgramSpec.

(** ** Up to the recursive translation *)

Section entering.
Context `{LL : PetriNetLaws} {FP : FuelPolicy} (tcx : TyCtxt).
Implicit Types (w : World) (p s e : PlaceRef) (f g : MirFunction) (t : Translator)
  (rest : Stack.Stack MirFunction) (d : DefId).

(** The state in which a call is dispatched. *)
Lemma wp_call_prefix rec func args dest target u callee rest f (Q : unit → Translator → Prop) t :
  (target, u) ≠ (None, UnwindContinue) →
  extract_def_id_of_called_function_from_operand tcx func (def_id f) = Ok callee →
  wf_translator t → call_stack t = Stack.push rest f →
  (∀ ps f1 t1, moved none rest f f1 t t1 → threads t1 = threads t → wf_places (net (world t1)) ps →
     wp (start_function_call tcx rec callee (def_path_str tcx callee) args dest ps) allowed
       (λ _ t2, ∀ c, Q tt (set_function_counter c t2)) t1) →
  wp (call_function tcx rec func args dest target u) allowed Q t.
Proof.
  intros Hne Hd Hwf Hs HQ. apply wp_bind, wp_gets, wp_bind, wp_gets, wp_bind.
  assert (Hf := wf_top _ _ _ Hwf Hs). apply wp_with_threads; [apply on_top_threads|].
  eapply (wp_on_top_moved none); [done..|]. apply wp_bind. rewrite Hd. apply wp_lift, wp_bind. eapply wp_owp.
  { apply owp_bind. eapply owp_mono; [apply owp_get_active_block|done|].
    intros a (i & Hi & Ha). instantiate (1 := has_place (net (world t))). simpl.
    by eapply wf_fn_blocks. }
  intros s Hb. apply wp_bind, wp_call_places; [apply Hwf|done|done|apply Hwf..|].
  intros ps f1 w1 Hg Hps. destruct ps as [ps|]; [|by destruct Hps as [-> ->]].
  apply wp_bind, wp_ret, wp_ret. simpl. split_and!; [apply Hg..|]. intros t1 M1 E1 Ht1.
  apply wp_bind. eapply wp_mono; [apply (HQ ps f1 t1 M1 Ht1); rewrite E1; apply Hps|done|].
  intros [] t2 H2. apply wp_modify, H2.
Qed.

Section with_post.
(** The recursive translation of functions in [P] has the property [R]. *)
Context (P : DefId → Prop) (R : MirFunction → Translator → Translator → Prop) (rec : ST Translator unit).
Context (Hpost : ∀ rest f t, P (def_id f) → wf_translator t → call_stack t = Stack.push rest f →
  basic_blocks f = ∅ → active_block f = None → wp rec allowed (λ _ t', R f t t') t).

(** Between [t] and [t'] the frame of [d] was pushed and translated. *)
Definition entered d t t' : Prop := ∃ g t1, def_id g = d ∧ threads t1 = threads t ∧ R g t1 t'.

Lemma wp_push_post d n s e t :
  P d → wf_translator t → has_place (net (world t)) s → has_place (net (world t)) e →
  wp (modify (λ t, set_call_stack (Stack.push (call_stack t) (mir_function_new d n s e)) t);; rec)
    allowed (λ _ t', entered d t t') t.
Proof.
  intros HP Hwf Hs He. apply wp_bind, wp_modify. eapply wp_mono.
  - apply (Hpost (call_stack t) (mir_function_new d n s e)); [done| |done..].
    by apply wf_translator_push, wf_function_new.
  - done.
  - intros [] t' HR. eexists _, _. split_and!; [| |exact HR]; done.
Qed.

Lemma wp_call_mir_post d name ps rest f t :
  P d → wf_translator t → call_stack t = Stack.push rest f → wf_places (net (world t)) ps →
  wp (call_mir_function rec d name ps) allowed (λ _ t', entered d t t') t.
Proof.
  intros HP Hwf Hs Hps. apply wp_bind. apply wp_with_threads; [apply get_count_threads|].
  eapply wp_get_count; [done..|]. intros i t1 M1 E1 Ht1. rewrite <-E1 in Hps.
  assert (Hent : ∀ t2, threads t2 = threads t1 → ∀ t', entered d t2 t' → entered d t t').
  { intros t2 Ht2 t' (g & t3 & ? & ? & ?). exists g, t3. split_and!; [done|congruence|done]. }
  destruct ps as [s e|s e c].
  { destruct Hps. eapply wp_mono; [apply wp_push_post; [done|apply M1|done..]|done|].
    intros []. by apply Hent. }
  destruct Hps as (Hps & Hpe & Hpc).
  cut (wp (on_world (on_net (connect_places s c (function.indexed_mir_function_cleanup_label name i))))
    allowed (λ _ t2, wp (modify (λ t, set_call_stack (Stack.push (call_stack t)
      (mir_function_new d (function.indexed_mir_function_name name i) s e)) t);; rec)
      allowed (λ _ t', entered d t t') t2) t1).
  { unfold wp, mbind, st_bind. by destruct (on_world _ t1) as [[? t2]|]. }
  apply wp_with_threads; [apply same_threads_on_world|].
  eapply (wp_on_world_moved none); [apply M1..|]. apply wp_on_net_connect; [apply M1|done..|].
  intros u w2 Hw2 Hle2 Hh2 F. split_and!; [done..|]. intros t2 M2 E2 Ht2.
  eapply wp_mono; [apply wp_push_post; [done|apply M2|rewrite E2; (eapply grows_place; [apply Hle2|done])..]|done|].
  intros []. by apply Hent.
Qed.

Lemma start_function_call_mir d args dest ps :
  mir_call tcx d = true →
  start_function_call tcx rec d (def_path_str tcx d) args dest ps =
  call_mir_function rec d (def_path_str tcx d) ps.
Proof.
  unfold mir_call. intros [[H1%negb_true_iff H2%negb_true_iff]%andb_prop H3%negb_true_iff]%andb_prop.
  unfold special_name in H2. apply orb_false_iff in H2 as [H2 H4]. apply bool_decide_eq_false in H2.
  unfold start_function_call. rewrite H1, H4, H3.
  rewrite !bool_decide_eq_false_2 by (intros H; rewrite H in H2; apply H2; set_solver).
  done.
Qed.

Lemma wp_terminator_post k callee rest f t :
  calls_via tcx (def_id f) k callee → P callee → wf_translator t → call_stack t = Stack.push rest f →
  wp (visit_terminator tcx rec k) allowed
    (λ _ t', ∃ c t1, t' = set_function_counter c t1 ∧ entered callee t t1) t.
Proof.
  intros (func & args & dest & target & u & -> & Hne & Hd & Hm) HP Hwf Hs. simpl.
  eapply wp_call_prefix; [done..|]. intros ps f1 t1 M1 Ht1 Hps. rewrite start_function_call_mir by done.
  eapply wp_mono; [eapply wp_call_mir_post; [done|apply M1..|done]|done|].
  intros [] t2 (g & t3 & H1 & H2 & H3) c. exists c, t2. split; [done|]. exists g, t3.
  split_and!; [done|congruence|done].
Qed.
End with_post.
End entering.
