(* ===== verification/Fuel.v ===== *)
(** * Fuel only bounds the recursion

    The recursion of [translate_top_call_stack] and the loop over the thread
    queue carry fuel.  Here: fuel is a bound and nothing else.  A computation
    that does not run out of it has the same result with any larger amount. *)

From S2P Require Import Prelude RustStr DataStructures PriorityQueue Netcrab Naming Rustc Function.
From S2P Require Import Heap Memory Sync MirFunction Translator.

(** [m1 ⊑ m2]: where [m1] does not run out of fuel, [m2] does the same. *)
Definition refines {S A} (m1 m2 : ST S A) : Prop := ∀ s, m1 s = Err OutOfFuel ∨ m1 s = m2 s.

Section refines_rules.
Context {S : Type}.

Lemma refines_refl {A} (m : ST S A) : refines m m.
Proof. by right. Qed.

Lemma refines_bind {A B} (m1 m2 : ST S A) (k1 k2 : A → ST S B) :
  refines m1 m2 → (∀ a, refines (k1 a) (k2 a)) → refines (m1 ≫= k1) (m2 ≫= k2).
Proof.
  intros Hm Hk s. unfold mbind, st_bind. destruct (Hm s) as [->| ->]; [by left|].
  destruct (m2 s) as [[a s']|]; [apply Hk|by right].
Qed.

Lemma refines_for_each {A} (l : list A) (b1 b2 : A → ST S unit) :
  (∀ x, refines (b1 x) (b2 x)) → refines (for_each l b1) (for_each l b2).
Proof.
  intros Hb. induction l as [|x l IH]; simpl; [apply refines_refl|]. by apply refines_bind.
Qed.
End refines_rules.

Create HintDb refines discriminated.
#[export] Hint Resolve refines_refl refines_bind refines_for_each | 5 : refines.
#[export] Hint Extern 4 (refines (if ?b then _ else _) _) => destruct b : refines.
#[export] Hint Extern 4 (refines (match ?x with _ => _ end) _) => destruct x : refines.
Ltac solve_refines := eauto 20 with refines.

Section fuel.
Context `{L : PetriNetLib} (tcx : TyCtxt).

Section open_recursion.
Context (rec1 rec2 : ST Translator unit) (Hrec : refines rec1 rec2).

Lemma call_mir_function_refines d name ps :
  refines (call_mir_function rec1 d name ps) (call_mir_function rec2 d name ps).
Proof. unfold call_mir_function. solve_refines. Qed.
Hint Resolve call_mir_function_refines : refines.

Lemma start_function_call_refines d name args dest ps :
  refines (start_function_call tcx rec1 d name args dest ps) (start_function_call tcx rec2 d name args dest ps).
Proof. unfold start_function_call. solve_refines. Qed.
Hint Resolve start_function_call_refines : refines.

Lemma call_function_refines func args dest target u :
  refines (call_function tcx rec1 func args dest target u) (call_function tcx rec2 func args dest target u).
Proof.
  unfold call_function. do 2 (apply refines_bind; [apply refines_refl|intros ?]).
  apply refines_bind; [apply refines_refl|]. intros [[d name] places]. solve_refines.
Qed.
Hint Resolve call_function_refines : refines.

Lemma visit_refines v : refines (visit tcx rec1 v) (visit tcx rec2 v).
Proof. destruct v as [b|p r|k]; simpl; [solve_refines..|]. destruct k; simpl; solve_refines. Qed.
End open_recursion.

Lemma top_call_stack_refines fuel fuel' :
  fuel ≤ fuel' → refines (translate_top_call_stack tcx fuel) (translate_top_call_stack tcx fuel').
Proof.
  revert fuel'. induction fuel as [|fuel IH]; intros [|fuel'] Hle; [apply refines_refl|by left|lia|].
  simpl. apply refines_bind; [apply refines_refl|]. intros f.
  apply refines_bind; [|intros _; apply refines_refl].
  apply refines_for_each. intros v. apply visit_refines, IH. lia.
Qed.

Lemma translate_thread_refines fuel fuel' r :
  fuel ≤ fuel' → refines (translate_thread tcx fuel r) (translate_thread tcx fuel' r).
Proof.
  intros Hle. unfold translate_thread. apply refines_bind; [apply refines_refl|]. intros th.
  apply refines_bind; [apply refines_refl|]. intros [[d s] e].
  do 3 (apply refines_bind; [apply refines_refl|]; intros _). by apply top_call_stack_refines.
Qed.

Lemma translate_threads_refines fuel fuel' q q' :
  fuel ≤ fuel' → q ≤ q' → refines (translate_threads tcx fuel q) (translate_threads tcx fuel' q').
Proof.
  intros Hf. revert q'. induction q as [|q IH]; intros [|q'] Hq; [apply refines_refl|by left|lia|].
  simpl. apply refines_bind; [apply refines_refl|]. intros [|r rs]; [apply refines_refl|].
  apply refines_bind; [apply refines_refl|]. intros _.
  apply refines_bind; [by apply translate_thread_refines|]. intros _. apply IH. lia.
Qed.

Lemma run_refines fuel fuel' q q' :
  fuel ≤ fuel' → q ≤ q' → refines (run tcx fuel q) (run tcx fuel' q').
Proof.
  intros Hf Hq. unfold run. do 3 (apply refines_bind; [apply refines_refl|]; intros ?).
  apply refines_bind; [apply refines_refl|]. intros _.
  apply refines_bind; [by apply top_call_stack_refines|]. intros _.
  apply refines_bind; [by apply translate_threads_refines|]. intros _. apply refines_refl.
Qed.

(** Fuel is only a bound: if the translation of a program does not run out
    of it, whether it returns a net or panics, then it does the same with any
    larger amounts. *)
Lemma translate_fuel_irrelevant (fuel fuel' queue_fuel queue_fuel' : nat) :
  fuel ≤ fuel' → queue_fuel ≤ queue_fuel' →
  translate tcx fuel queue_fuel ≠ Err OutOfFuel →
  translate tcx fuel' queue_fuel' = translate tcx fuel queue_fuel.
Proof.
  intros Hf Hq. unfold translate. destruct translator_new as [t|]; [|done]. simpl.
  destruct (run_refines _ _ _ _ Hf Hq t) as [->| ->]; done.
Qed.
End fuel.
