(* ===== verification/Threads.v ===== *)
(** * Spawning threads

    What [call_thread_spawn] (src/translator.rs) leaves behind: the thread at
    the end of the queue, with the function to run, the captured variables and
    its index, and the join handle in the memory of the spawning function. *)

From S2P Require Import Prelude RustStr DataStructures PriorityQueue Netcrab Naming Rustc Function.
From S2P Require Import Heap Memory Sync MirFunction Translator World WorldSpec SyncSpec Gadgets.
From S2P Require Import SyncCalls FrameSpec TranslatorSpec SameThreads Invariants.

Section threads.
Context `{LL : PetriNetLaws} (tcx : TyCtxt).
Implicit Types (t : Translator) (w : World) (f : MirFunction) (th : Thread).

#[local] Instance any_fault : FuelPolicy := True.

(** A new thread is a new object, and the place holds its handle. *)
Lemma link_join_handle_ok (m : Memory) dest th w r m' w' :
  on_heap (link_join_handle m dest th) w = Ok ((r, m'), w') →
  threads_ (heap w) !! thread_loc r = None ∧ threads_ (heap w') !! thread_loc r = Some th ∧
  get_join_handle m' dest = Ok r ∧ net w' = net w.
Proof.
  unfold on_heap, zoom, link_join_handle, new_thread_rc, get_join_handle, mbind, st_bind, get_linked_value,
    insert_value, lift.
  simpl. rewrite lookup_insert_eq. simpl. intros [= <- <- <-]. simpl.
  rewrite lookup_app_r, Nat.sub_diag, lookup_insert_eq by done. split_and!; try done.
  by apply lookup_ge_None.
Qed.

(** The memory of the caller after an opaque call. *)
Lemma call_foreign_ok name args dest ps rest f t ts t1 :
  wf_translator t → call_stack t = Stack.push rest f → wf_places (net (world t)) ps →
  translator_call_foreign_function tcx name args dest ps t = Ok (ts, t1) →
  threads t1 = threads t ∧ heap (world t1) = heap (world t) ∧
  call_transitions (world t) (world t1) ps ts ∧
  ∃ f1, call_stack t1 = Stack.push rest f1 ∧ def_id f1 = def_id f ∧
    link_return_value_if_sync_variable tcx args dest (memory f) (def_id f) = Ok (memory f1).
Proof.
  intros Hwf Hs Hps Hrun. split; [by eapply call_foreign_threads|].
  assert (H : heap (world t1) = heap (world t) ∧ call_transitions (world t) (world t1) ps ts).
  { revert Hrun. apply (wp_ok _ allowed (λ ts t1, heap (world t1) = heap (world t) ∧
      call_transitions (world t) (world t1) ps ts)).
    by eapply wp_translator_call_foreign. }
  destruct H. split_and!; [done..|].
  apply st_bind_ok in Hrun as (i & t2 & H2 & Hrun). apply st_bind_ok in Hrun as (ts' & t3 & H3 & Hrun).
  apply st_bind_ok in Hrun as ([] & t4 & H4 & [= _ <-]).
  assert (Hs3 : call_stack t3 = Stack.push rest f).
  { rewrite <-Hs. transitivity (call_stack t2).
    - unfold on_world, zoom in H3. by destruct (on_net _ (world t2)) as [[]|]; simplify_eq/=.
    - unfold get_count in H2. apply st_bind_ok in H2 as (c & t5 & [= <- <-] & H2).
      destruct (HashMapCounter.get_count _ _). by apply st_bind_ok in H2 as ([] & t6 & [= <-] & [= _ <-]). }
  destruct (on_top_ok _ _ _ _ _ _ Hs3 H4) as (f' & w' & Hin & ->).
  apply st_bind_ok in Hin as (m & w1 & [Hm ->]%lift_ok & [= <- <-]). by exists (set_memory f m).
Qed.

Lemma spawn_ok name args dest ps rest f t t' :
  wf_translator t → call_stack t = Stack.push rest f → wf_places (net (world t)) ps →
  call_thread_spawn tcx name args dest ps t = Ok (tt, t') →
  ∃ r th f' op cl m,
    threads t' = threads t ++ [r] ∧
    threads_ (heap (world t)) !! thread_loc r = None ∧ threads_ (heap (world t')) !! thread_loc r = Some th ∧
    thread_index th = N.of_nat (length (threads t)) ∧ join_transition th = None ∧
    head args = Some op ∧
    extract_def_id_of_called_function_from_operand tcx op (def_id f) = Ok (thread_def_id th) ∧
    link_return_value_if_sync_variable tcx args dest (memory f) (def_id f) = Ok m ∧
    extract_closure args = Ok cl ∧
    from_option (λ p, copy_aggregate m p = Ok (aggregate th)) (aggregate th = []) cl ∧
    call_stack t' = Stack.push rest f' ∧ get_join_handle (memory f') dest = Ok r ∧
    ¬ has_transition (net (world t)) (spawn_transition th) ∧
    plain (world t') (spawn_transition th) (get_start_end_place ps).1 (get_start_end_place ps).2.
Proof.
  intros Hwf Hs Hps (ts & t1 & H1 & Hrun)%st_bind_ok.
  destruct (call_foreign_ok _ _ _ _ _ _ _ _ _ Hwf Hs Hps H1)
    as (Ht1 & Hh1 & [Hnew Hplain]%call_transitions_default & f1 & Hs1 & Hd & Hm).
  apply st_bind_ok in Hrun as (q & t2 & [= <- <-] & Hrun).
  apply st_bind_ok in Hrun as (r & t3 & H3 & [= <-]).
  destruct (on_top_ok _ _ _ _ _ _ Hs1 H3) as (f' & w' & Hin & ->).
  apply st_bind_ok in Hin as (op & w1 & [Hop ->]%lift_ok & Hin).
  apply st_bind_ok in Hin as (c & w2 & [Hc ->]%lift_ok & Hin).
  apply st_bind_ok in Hin as (cl & w3 & [Hcl ->]%lift_ok & Hin).
  apply st_bind_ok in Hin as (vs & w4 & Hvs & Hin).
  assert (Hvs' : w4 = world t1 ∧ from_option (λ p, copy_aggregate (memory f1) p = Ok vs) (vs = []) cl).
  { destruct cl as [p|]; [by apply lift_ok in Hvs as [? ->]|by injection Hvs as <- <-]. }
  destruct Hvs' as [-> Hvs'].
  apply st_bind_ok in Hin as ([r' m'] & w5 & (L1 & L2 & L3 & L4)%link_join_handle_ok & [= -> <- <-]).
  exists r, (thread_new (get_default ts) c vs (N.of_nat (length (threads t1)))), (set_memory f1 m'), op, cl, (memory f1).
  rewrite <-Hh1, <-Hd. simpl. rewrite Ht1 in *. unfold plain in *. rewrite L4.
  split_and!; try done; [by destruct (head args); simplify_eq/=|by rewrite Hd|apply Hplain..].
Qed.

(** C29: spawning a thread: the call becomes a new transition between its two
    places, and a new thread with this transition, with the function that the
    first argument names and with the values that the closure captured is at the
    end of the queue; nothing has joined it yet, and the destination of the call
    holds its handle.  Its index is the number of threads that are in the queue
    at that moment, not the number of threads spawned so far. *)
Theorem thread_spawned name args dest ps rest f t t' :
  wf_translator t → call_stack t = Stack.push rest f → wf_places (net (world t)) ps →
  call_thread_spawn tcx name args dest ps t = Ok (tt, t') →
  ∃ r th f' op cl m,
    threads t' = threads t ++ [r] ∧
    threads_ (heap (world t)) !! thread_loc r = None ∧ threads_ (heap (world t')) !! thread_loc r = Some th ∧
    thread_index th = N.of_nat (length (threads t)) ∧ join_transition th = None ∧
    head args = Some op ∧
    extract_def_id_of_called_function_from_operand tcx op (def_id f) = Ok (thread_def_id th) ∧
    link_return_value_if_sync_variable tcx args dest (memory f) (def_id f) = Ok m ∧
    extract_closure args = Ok cl ∧
    from_option (λ p, copy_aggregate m p = Ok (aggregate th)) (aggregate th = []) cl ∧
    call_stack t' = Stack.push rest f' ∧ get_join_handle (memory f') dest = Ok r ∧
    ¬ has_transition (net (world t)) (spawn_transition th) ∧
    plain (world t') (spawn_transition th) (get_start_end_place ps).1 (get_start_end_place ps).2.
Proof. apply spawn_ok. Qed.
End threads.
