(* ===== verification/Soundness.v ===== *)
(** * What the translation of a program guarantees

    The theorems about [translate], the query that lib.rs runs: it never asks
    the net library for something it refuses and never loses a frame or a block, the initial marking is the one
    the model checker's property expects, and the net can follow the control
    flow of the program.  Recursive programs are never translated. *)

From S2P Require Import Prelude RustStr DataStructures PriorityQueue Netcrab Naming Rustc Function.
From S2P Require Import Heap Memory Sync MirFunction Translator World WorldSpec SyncSpec Gadgets.
From S2P Require Import SyncCalls FrameSpec ControlFlow TranslatorSpec VisitSpec BodySpec.
From S2P Require Import ProgramSpec CallSpec TokenGame.

(** ** For every fuel *)

Section any_fuel.
Context `{LL : PetriNetLaws} (tcx : TyCtxt).

#[local] Instance any_fuel : FuelPolicy := True.


(** C9: a translated program starts with one token in [PROGRAM_START] and
    none in [PROGRAM_END] and [PROGRAM_PANIC], three places of the net that
    carry these labels. *)
Theorem translate_initial_marking (fuel queue_fuel : nat) (n : PetriNet) :
  translate tcx fuel queue_fuel = Ok n →
  ∃ start end_ panic : PlaceRef,
    (has_place n start ∧ place_ref_label start = PROGRAM_START ∧ marking n start = 1%N) ∧
    (has_place n end_ ∧ place_ref_label end_ = PROGRAM_END ∧ marking n end_ = 0%N) ∧
    (has_place n panic ∧ place_ref_label panic = PROGRAM_PANIC ∧ marking n panic = 0%N).
Proof.
  intros Hn. pose proof (translate_spec tcx fuel queue_fuel I) as H. rewrite Hn in H.
  destruct H as (main & s & e & p & _ & [] & _ & _). exists s, e, p. by split_and!.
Qed.

(** C2: if the control flow of [main] can reach its [Return] through steps
    that wait for nothing (jumps, switches, drops, assertions, opaque calls
    and calls into functions that can return in the same sense), the net can
    reach a marking with a token in [PROGRAM_END]. *)
Theorem translate_can_return (fuel queue_fuel : nat) (n : PetriNet) (main : DefId) :
  translate tcx fuel queue_fuel = Ok n → entry_fn tcx = Some main → can_return tcx main →
  ∃ (end_ : PlaceRef) (m : Marking), place_ref_label end_ = PROGRAM_END ∧
    reachable n (marking n) m ∧ (0 < m end_)%N.
Proof.
  intros Hn Hm Hc. pose proof (translate_spec tcx fuel queue_fuel I) as H. rewrite Hn in H.
  destruct H as (main' & s & e & p & Hm' & [] & Hr & _). simplify_eq.
  destruct (Hr Hc) as (m & ? & ?). by exists e, m.
Qed.

(** C3: if steps that wait for nothing lead from the entry of [main], or of a
    function that it calls, to the end of an unwinding ([UnwindResume] or
    [UnwindTerminate]) or to a call of one of the panic functions that has
    neither a return target nor a cleanup, the net can reach a marking with a
    token in [PROGRAM_PANIC].  Assertions, drops and opaque calls that fail
    without a cleanup ([UnwindContinue]) are not among these panics: the
    translation does not follow them. *)
Theorem translate_can_panic (fuel queue_fuel : nat) (n : PetriNet) (main : DefId) :
  translate tcx fuel queue_fuel = Ok n → entry_fn tcx = Some main → can_panic tcx main →
  ∃ (panic : PlaceRef) (m : Marking), place_ref_label panic = PROGRAM_PANIC ∧
    reachable n (marking n) m ∧ (0 < m panic)%N.
Proof.
  intros Hn Hm Hc. pose proof (translate_spec tcx fuel queue_fuel I) as H. rewrite Hn in H.
  destruct H as (main' & s & e & p & Hm' & [] & _ & Hp). simplify_eq.
  destruct (Hp Hc) as (m & ? & ?). by exists p, m.
Qed.

(** ** Parts of a program *)

(** C14: translating a call: when [translate_top_call_stack] returns, the new
    frame has been popped and the frames below are as before; the net and the
    shared objects have only grown; and if the function can return there is a
    path of control-flow edges from the frame's start place to its end place,
    if it can panic one to the current panic place. *)
Theorem function_translated (fuel : nat) (t t' : Translator)
    (rest : Stack.Stack MirFunction) (f : MirFunction) :
  wf_translator t → call_stack t = Stack.push rest f →
  basic_blocks f = ∅ → active_block f = None →
  translate_top_call_stack tcx fuel t = Ok (tt, t') →
  call_stack t' = rest ∧ wf_translator t' ∧
  net_grows (net (world t)) (net (world t')) ∧ heap_le (heap (world t)) (heap (world t')) ∧
  (can_return tcx (def_id f) → path (world t') (start_place f) (end_place f)) ∧
  (can_panic tcx (def_id f) → path (world t') (start_place f) (program_panic t)).
Proof.
  intros Hwf Hs Hb Ha Hrun.
  pose proof (translate_top_call_stack_ok tcx fuel rest f t) as H. unfold wp in H. rewrite Hrun in H.
  destruct H as [? ? [G Hh _] ? ? ? ? ?]; [by apply enough_fuel_any|done..|]. by split_and!.
Qed.

(** C16: translating a thread: the spawn puts a token into the thread's start
    place, a join needs one in its end place, and if the thread's function can
    return there is a path from the one to the other. *)
Theorem thread_translated (fuel : nat) (r : ThreadRef) (th : Thread) (t t' : Translator) :
  wf_translator t → threads_ (heap (world t)) !! thread_loc r = Some th →
  translate_thread tcx fuel r t = Ok (tt, t') →
  ∃ s e : PlaceRef,
    (0 < post (net (world t')) (spawn_transition th) s)%N ∧
    (∀ j, join_transition th = Some j → (0 < pre (net (world t')) j e)%N) ∧
    (can_return tcx (thread_def_id th) → path (world t') s e).
Proof.
  intros Hwf Hth Hrun.
  pose proof (wp_translate_thread tcx fuel r (λ _ t', thread_flow tcx (world t') th) t) as H.
  unfold wp in H. rewrite Hrun in H. apply H; [by intros; apply enough_fuel_any|done| |].
  - by eapply lookup_lt_Some.
  - intros th' t1 Hth' _ Hfl. by simplify_eq.
Qed.

(** C15: a visited terminator follows the control flow: for the active block
    there is a path to the place of every successor that needs no waiting, a
    [Return] leads to the end place of the function and the end of an
    unwinding to the panic place; blocks keep their places. *)
Theorem terminator_translated (fuel : nat) (k : TerminatorKind) (b : N) (t t' : Translator)
    (rest : Stack.Stack MirFunction) (f : MirFunction) (p : PlaceRef) :
  wf_translator t → call_stack t = Stack.push rest f →
  active_block f = Some b → block_at f b p →
  visit_terminator tcx (translate_top_call_stack tcx fuel) k t = Ok (tt, t') →
  ∃ f', call_stack t' = Stack.push rest f' ∧ basic_blocks f ⊆ basic_blocks f' ∧
    (∀ b', plain_succ tcx (def_id f) k b' → linked (world t') f' b b') ∧
    (k = Return → path (world t') p (end_place f)) ∧
    (k = UnwindResume ∨ k = UnwindTerminate → path (world t') p (program_panic t)).
Proof.
  intros Hwf Hs Ha Hb Hrun.
  pose proof (wp_visit_terminator tcx (enough_fuel tcx fuel) (translate_top_call_stack tcx fuel)
    (translate_top_call_stack_ok tcx fuel) k rest f (λ _ t', visited tcx rest f k t t') t) as H.
  unfold wp in H. rewrite Hrun in H. destruct H as (f' & M & Hh); try done.
  { intros. by apply enough_fuel_any. }
  { intros i Hi. exists p. by simplify_eq. }
  destruct (Hh b Ha) as [H1 H2 H3 _ _ _]. assert (Hb' := block_at_mono _ _ _ _ (mv_fn _ _ _ _ _ _ M) Hb).
  assert (Hlead : ∀ q, leads (world t') f' b q → path (world t') p q).
  { intros q (p' & Hp' & Hq). by rewrite (block_at_unique _ _ _ _ Hb' Hp'). }
  exists f'. rewrite <-(fn_le_def_id _ _ (mv_fn _ _ _ _ _ _ M)), <-(fn_le_end _ _ (mv_fn _ _ _ _ _ _ M)).
  split_and!; [apply M|apply (mv_fn _ _ _ _ _ _ M)|done|auto..].
Qed.

(** C13: what the translator holds stays well-formed: every place and transition
    that it names is in the net, every shared reference names an object, and
    the active block of the top frame has a place.  Any callback of the visitor
    keeps this or panics, for a reason other than these references; the frames
    below stay, and the top frame keeps its function and its blocks. *)
Theorem visit_well_formed (fuel : nat) (call : VisitorCall) (t : Translator)
    (rest : Stack.Stack MirFunction) (f : MirFunction) :
  wf_translator t → call_stack t = Stack.push rest f → active_ok f →
  match visit tcx (translate_top_call_stack tcx fuel) call t with
  | Ok (_, t') => wf_translator t' ∧ ∃ f', call_stack t' = Stack.push rest f' ∧ active_ok f' ∧
      def_id f' = def_id f ∧ basic_blocks f ⊆ basic_blocks f'
  | Err e => e ≠ Panic AddArcPlaceTransitionFailed ∧ e ≠ Panic AddArcTransitionPlaceFailed ∧
      e ≠ Panic AddTokenFailed ∧ e ≠ Dangling
  end.
Proof.
  intros Hwf Hs Ha.
  assert (H : wp (for_each [call] (visit tcx (translate_top_call_stack tcx fuel))) allowed
    (λ _ t', body_done tcx rest f (terminators (active_block f) [call]) t t') t).
  { eapply wp_visits; [apply translate_top_call_stack_ok| |done..]. intros. by apply enough_fuel_any. }
  unfold wp in H. simpl in H. unfold mbind, st_bind in H.
  destruct (visit tcx _ call t) as [[[] t']|e]; [|destruct e as [[]| |]; by split_and!].
  destruct H as [Hwf' _ _ _ _ (f' & Hs' & Hf' & Ha' & _)]. split; [done|]. exists f'.
  split_and!; [done|done|by rewrite (fn_le_def_id _ _ Hf')|apply Hf'].
Qed.

(** ** Calls in a cycle *)

(** A set of functions each of which calls one of the set. *)
Definition call_cycle (P : DefId → Prop) : Prop :=
  ∀ d, P d → ∃ callee, calls tcx d callee ∧ P callee.

(** [rec] returns for no function of [P]. *)
Definition never_returns (P : DefId → Prop) (rec : ST Translator unit) : Prop :=
  ∀ rest f t, P (def_id f) → wf_translator t → call_stack t = Stack.push rest f →
    basic_blocks f = ∅ → active_block f = None → wp rec allowed (λ _ _, False) t.

Section cycle.
Context (P : DefId → Prop) (rec : ST Translator unit).
Context (Hok : rec_ok tcx (λ _, True) rec) (Hnever : never_returns P rec).

Lemma terminator_never k callee rest f t :
  calls_via tcx (def_id f) k callee → P callee → wf_translator t → call_stack t = Stack.push rest f →
  wp (visit_terminator tcx rec k) allowed (λ _ _, False) t.
Proof.
  intros. eapply wp_mono.
  - by eapply (wp_terminator_post tcx P (λ _ _ _, False)).
  - done.
  - by intros [] t' (c & t1 & _ & g & t2 & _ & _ & []).
Qed.

Lemma visits_never visits k callee rest f t :
  VisitTerminator k ∈ visits → calls_via tcx (def_id f) k callee → P callee →
  wf_translator t → call_stack t = Stack.push rest f → active_ok f →
  wp (for_each visits (visit tcx rec)) allowed (λ _ _, False) t.
Proof.
  intros Hk Hc HP. revert f t Hk Hc. induction visits as [|v visits IH]; intros f t Hk Hc Hwf Hs Ha;
    [by apply not_elem_of_nil in Hk|].
  apply elem_of_cons in Hk as [<-|Hk].
  { simpl. apply wp_bind. eapply wp_mono; [by eapply terminator_never|done|]. by intros [] t1. }
  cut (wp (for_each [v] (visit tcx rec);; for_each visits (visit tcx rec)) allowed (λ _ _, False) t).
  { unfold wp. simpl. unfold mbind, st_bind. by destruct (visit tcx rec v t) as [[]|]. }
  apply wp_bind. eapply wp_visits; [done..|]. intros t1 Hd.
  destruct (bd_frame _ _ _ _ _ _ Hd) as (f1 & Hs1 & Hf1 & Ha1 & _).
  apply (IH f1); [done| |apply Hd|done|done]. by rewrite (fn_le_def_id _ _ Hf1).
Qed.
End cycle.

Lemma cycle_never P fuel : call_cycle P → never_returns P (translate_top_call_stack tcx fuel).
Proof.
  intros HP. induction fuel as [|fuel IH]; [done|]. intros rest f t HPf Hwf Hs Hb Ha. simpl.
  apply wp_bind. eapply wp_peek_top; [done|]. apply wp_bind.
  destruct (HP _ HPf) as (callee & (k & Hk & Hc) & HPc). eapply wp_mono.
  { eapply (visits_never P); [|done..|]; [|by intros i; rewrite Ha].
    intros rest' f' t' _. apply translate_top_call_stack_ok. by apply enough_fuel_any. }
  { done. }
  by intros [] t1.
Qed.

(** C17: if [main] lies on a cycle of calls, direct or mutual recursion, the
    translation of the program returns no net, whatever the fuel: the
    translator unfolds every call site into a copy of the callee and does not
    end. *)
Theorem recursion_never_translated (P : DefId → Prop) (main : DefId) (fuel queue_fuel : nat)
    (n : PetriNet) :
  call_cycle P → P main → entry_fn tcx = Some main → translate tcx fuel queue_fuel ≠ Ok n.
Proof.
  intros HP HPm Hm Hn.
  cut (owp (translate tcx fuel queue_fuel) allowed (λ _, False)); [by rewrite Hn|].
  unfold translate. apply owp_bind. eapply owp_mono; [apply translator_new_spec|done|].
  intros t (Hwf & Hs & Hpp). apply owp_bind. eapply (owp_mono _ allowed).
  { apply (owp_wp _ _ (λ _ _, False)). unfold run. apply wp_bind, wp_lift, owp_expect; [|done].
    intros main' Hm'. simplify_eq. apply wp_bind, wp_gets, wp_bind, wp_gets, wp_bind, wp_modify, wp_bind.
    eapply (wp_mono _ allowed); [|done|].
    - eapply (cycle_never P fuel HP (call_stack t)); [|..|done|done|done]; [done|].
      apply wf_translator_push; [done|]. apply wf_function_new; apply Hwf.
    - by intros []. }
  { done. }
  by intros [].
Qed.
End any_fuel.
