(* ===== verification/Termination.v ===== *)
(** * The translation ends

    A program whose functions neither call nor spawn each other in a cycle is
    translated: there is an amount of fuel from which on the result, a net or a
    panic, is always the same.  Nested calls are bounded by a rank of functions;
    the loop over the thread queue ends because a thread queues only threads of
    smaller rank. *)

From S2P Require Import Prelude RustStr DataStructures PriorityQueue Netcrab Naming Rustc Function.
From S2P Require Import Heap Memory Sync MirFunction Translator World WorldSpec SyncSpec Gadgets.
From S2P Require Import SyncCalls FrameSpec ControlFlow TranslatorSpec VisitSpec SameThreads BodySpec.
From S2P Require Import ProgramSpec CallSpec Fuel Invariants Threads.

(** ** A queue in which every element is replaced by smaller ones ends *)

Inductive queue_step : list nat → list nat → Prop :=
  | queue_step_intro n ns ms : Forall (λ m, m < n) ms → queue_step (ns ++ ms) (n :: ns).

(** With the elements before the first one equal to [n] still to come. *)
Lemma queue_acc_first n qs ps :
  (∀ ms, Forall (λ m, m < n) ms → Acc queue_step (qs ++ ms)) →
  Forall (λ m, m < n) ps → ∀ ms, Forall (λ m, m < n) ms → Acc queue_step (ps ++ n :: qs ++ ms).
Proof.
  intros Hqs Hps. induction Hps as [|p ps Hp Hps IH]; intros ms Hms; simpl; constructor; intros y Hy;
    inversion Hy as [? ? ms' Hms' Heq]; subst.
  - rewrite <-app_assoc. apply Hqs. by apply Forall_app.
  - rewrite <-app_assoc. simpl. rewrite <-app_assoc. apply IH. apply Forall_app. split; [done|].
    eapply Forall_impl; [done|]. simpl. lia.
Qed.

Lemma split_first n ns :
  n ∈ ns → Forall (λ m, m ≤ n) ns → ∃ ps qs, ns = ps ++ n :: qs ∧ Forall (λ m, m < n) ps.
Proof.
  induction ns as [|x ns IH]; intros Hin Hle; [by apply not_elem_of_nil in Hin|].
  apply Forall_cons in Hle as [Hx Hle]. destruct (decide (x = n)) as [->|Hne]; [by exists [], ns|].
  apply elem_of_cons in Hin as [?|Hin]; [done|]. destruct IH as (ps & qs & -> & Hps); [done..|].
  exists (x :: ps), qs. split; [done|]. constructor; [lia|done].
Qed.

Lemma queue_acc_below bound : ∀ ns, Forall (λ m, m < bound) ns → Acc queue_step ns.
Proof.
  induction bound as [|n IHn]; intros ns Hns.
  { destruct ns as [|x ns]; [|apply Forall_cons in Hns as [? _]; lia].
    constructor. intros y Hy. inversion Hy. }
  remember (length (filter (n =.) ns)) as k eqn:Hk. revert ns Hns Hk.
  induction k as [k IHk] using lt_wf_ind. intros ns Hns Hk.
  destruct (decide (n ∈ ns)) as [Hin|Hni].
  - destruct (split_first n ns) as (ps & qs & -> & Hps); [done|by eapply Forall_impl; [done|]; simpl; lia|].
    rewrite Forall_app, Forall_cons in Hns. destruct Hns as (_ & _ & Hqs).
    rewrite filter_app, filter_cons_True, length_app in Hk by done. simpl in Hk.
    rewrite <-(app_nil_r qs). apply queue_acc_first; [|done|done]. intros ms Hms.
    eapply IHk; [|apply Forall_app; split; [done|by eapply Forall_impl; [done|]; simpl; lia]|done].
    rewrite filter_app, length_app.
    assert (filter (n =.) ms = []) as ->; [|simpl; lia].
    clear -Hms. induction Hms; [done|]. rewrite filter_cons_False by lia. done.
  - apply IHn. rewrite Forall_forall in *. intros x Hx. specialize (Hns x Hx).
    destruct (decide (x = n)) as [->|]; [done|lia].
Qed.

Lemma queue_step_wf : well_founded queue_step.
Proof.
  intros ns. apply (queue_acc_below (S (max_list ns))). apply Forall_forall.
  intros x Hx%max_list_elem_of_le. lia.
Qed.

(** ** Which threads a function starts *)

Section spawning.
Context (tcx : TyCtxt).

(** A terminator of [d] spawns a thread that runs [c]. *)
Definition spawns_via (d : DefId) (k : TerminatorKind) (c : DefId) : Prop :=
  ∃ func args dest target u callee op, k = Call func args dest target u ∧
    (target, u) ≠ (None, UnwindContinue) ∧
    extract_def_id_of_called_function_from_operand tcx func d = Ok callee ∧
    def_path_str tcx callee = "std::thread::spawn" ∧ head args = Some op ∧
    extract_def_id_of_called_function_from_operand tcx op d = Ok c.

Definition spawns (d c : DefId) : Prop := ∃ k, VisitTerminator k ∈ body_visits tcx d ∧ spawns_via d k c.

(** Running [d] starts a thread that runs [c]: [d] or a function it calls. *)
Definition starts (d c : DefId) : Prop := ∃ d', rtc (calls tcx) d d' ∧ spawns d' c.
End spawning.

Section queue.
Context `{LL : PetriNetLaws} (tcx : TyCtxt).
Implicit Types (f g : MirFunction) (t : Translator) (rest : Stack.Stack MirFunction) (d c : DefId).

#[local] Instance any_result : FuelPolicy := True.

(** [r] refers to a thread that runs a function in [B]. *)
Definition runs (B : DefId → Prop) t (r : ThreadRef) : Prop :=
  ∃ th, threads_ (heap (world t)) !! thread_loc r = Some th ∧ B (thread_def_id th).

(** Between [t] and [t'] only threads that run functions in [B] were queued. *)
Definition queued (B : DefId → Prop) t t' : Prop :=
  ∃ rs, threads t' = threads t ++ rs ∧ Forall (runs B t') rs.

Lemma runs_mono B B' t t' r :
  heap_le (heap (world t)) (heap (world t')) → (∀ c, B c → B' c) → runs B t r → runs B' t' r.
Proof.
  intros Hle HB (th & Hth & Hc). destruct (heap_le_threads _ _ Hle _ _ Hth) as (th' & Hth' & Hl).
  exists th'. split; [done|]. rewrite (thread_le_def_id _ _ Hl). auto.
Qed.

Lemma queued_same B t t' : threads t' = threads t → queued B t t'.
Proof. intros E. exists []. by rewrite E, app_nil_r. Qed.

Lemma queued_weaken B B' t t' : queued B t t' → (∀ c, B c → B' c) → queued B' t t'.
Proof.
  intros (rs & E & H) HB. exists rs. split; [done|]. eapply Forall_impl; [done|]. intros r. by apply runs_mono.
Qed.

Lemma queued_trans B t1 t2 t3 :
  heap_le (heap (world t2)) (heap (world t3)) → queued B t1 t2 → queued B t2 t3 → queued B t1 t3.
Proof.
  intros Hle (rs & E & H) (rs' & E' & H'). exists (rs ++ rs'). split; [by rewrite E', E, app_assoc|].
  apply Forall_app. split; [|done]. eapply Forall_impl; [done|]. intros r. by apply runs_mono.
Qed.

(** ** [std::thread::spawn] *)

Lemma spawn_queues name args dest ps rest f t t' :
  wf_translator t → call_stack t = Stack.push rest f → wf_places (net (world t)) ps →
  call_thread_spawn tcx name args dest ps t = Ok (tt, t') →
  queued (λ c, ∃ op, head args = Some op ∧
    extract_def_id_of_called_function_from_operand tcx op (def_id f) = Ok c) t t'.
Proof.
  intros Hwf Hs Hps Hrun.
  destruct (spawn_ok tcx _ _ _ _ _ _ _ _ Hwf Hs Hps Hrun) as (r & th & f' & op & cl & m & ? & _ & ? & _ & _ & ? & ? & _).
  exists [r]. split; [done|]. apply Forall_singleton. exists th. split; [done|]. by exists op.
Qed.

(** ** The threads that a function queues *)

Lemma starts_spawn d k c :
  VisitTerminator k ∈ body_visits tcx d → spawns_via tcx d k c → starts tcx d c.
Proof. intros Hk Hc. exists d. split; [done|]. by exists k. Qed.

Lemma starts_call d callee c : calls tcx d callee → starts tcx callee c → starts tcx d c.
Proof. intros Hd (d' & Hr & Hc). exists d'. split; [by eapply rtc_l|done]. Qed.

(** [rec] queues only threads that the function of the top frame starts. *)
Definition queues (rec : ST Translator unit) : Prop :=
  ∀ rest f t, wf_translator t → call_stack t = Stack.push rest f → basic_blocks f = ∅ →
    active_block f = None → wp rec allowed (λ _ t', queued (starts tcx (def_id f)) t t') t.

Section with_rec.
Context (rec : ST Translator unit) (Hok : rec_ok tcx (λ _, True) rec) (Hrec : queues rec).

Lemma call_queues func args dest target u rest f t t' :
  VisitTerminator (Call func args dest target u) ∈ body_visits tcx (def_id f) →
  wf_translator t → call_stack t = Stack.push rest f →
  visit_terminator tcx rec (Call func args dest target u) t = Ok (tt, t') →
  queued (starts tcx (def_id f)) t t'.
Proof.
  intros Hk Hwf Hs Hrun.
  destruct (decide ((target, u) = (None, UnwindContinue))) as [[= -> ->]|Hne].
  { apply queued_same. by eapply (diverging_call_threads tcx rec). }
  destruct (extract_def_id_of_called_function_from_operand tcx func (def_id f)) as [callee|] eqn:Hd.
  2: { exfalso. revert Hrun. simpl. intros (pe & t1 & [= <- <-] & H)%st_bind_ok.
       apply st_bind_ok in H as (pp & t2 & [= <- <-] & H). apply st_bind_ok in H as (x & t3 & H3 & _).
       destruct (on_top_ok _ _ _ _ _ _ Hs H3) as (f' & w' & Hin & _). rewrite Hd in Hin. discriminate. }
  destruct (mir_call tcx callee) eqn:Hm.
  { assert (Hc : calls_via tcx (def_id f) (Call func args dest target u) callee) by by eexists _, _, _, _, _.
    pose proof (wp_terminator_post tcx (λ _, True) (λ g t1 t2, queued (starts tcx (def_id g)) t1 t2) rec
      (λ rest f t _, Hrec rest f t) _ callee rest f t Hc I Hwf Hs) as H.
    apply (wp_ok _ _ _ _ _ _ H) in Hrun as (c & t1 & -> & g & t2 & <- & Ht2 & rs & E & HF).
    exists rs. simpl. split; [congruence|]. eapply Forall_impl; [done|].
    intros r Hr. apply (runs_mono (starts tcx (def_id g)) _ t1); [done| |done].
    intros c'. apply starts_call. by exists (Call func args dest target u). }
  revert Hrun. simpl.
  apply (wp_ok _ allowed (λ _ t', queued (starts tcx (def_id f)) t t')).
  eapply wp_call_prefix; [done..|]. intros ps f1 t1 M1 Ht1 Hps.
  apply (wp_and _ _ _ (λ _ t2, queued (starts tcx (def_id f)) t t2)).
  - intros [] t2 H2.
    destruct (decide (def_path_str tcx callee = "std::thread::spawn")) as [Hsp|Hsp].
    + assert (Hq : queued (λ c, ∃ op, head args = Some op ∧
        extract_def_id_of_called_function_from_operand tcx op (def_id f1) = Ok c) t1 t2).
      { eapply spawn_queues; [apply M1..|done|]. rewrite Hsp in H2. exact H2. }
      rewrite (fn_le_def_id _ _ (mv_fn _ _ _ _ _ _ M1)) in Hq. destruct Hq as (rs & E & HF).
      exists rs. split; [congruence|]. eapply Forall_impl; [done|]. intros r. apply runs_mono; [done|].
      intros c (op & Hop & Hc). eapply starts_spawn; [done|]. by eexists _, _, _, _, _, callee, op.
    + apply queued_same. rewrite <-Ht1. by eapply (start_function_call_threads tcx rec).
  - eapply (wp_start_function_call tcx (λ _, True) rec Hok); [done|apply M1..|done|].
    by intros f2 t2 _ _ Hq c.
Qed.

Lemma visit_queues v rest f t t' :
  (∀ k, v = VisitTerminator k → VisitTerminator k ∈ body_visits tcx (def_id f)) →
  wf_translator t → call_stack t = Stack.push rest f → visit tcx rec v t = Ok (tt, t') →
  queued (starts tcx (def_id f)) t t'.
Proof.
  intros Hv Hwf Hs Hrun. destruct v as [b|p rv|k]; simpl in Hrun.
  - apply queued_same. by eapply visit_basic_block_threads.
  - apply queued_same. by eapply (visit_assign_threads tcx).
  - assert ((∀ func args dest target u, k ≠ Call func args dest target u) ∨
      ∃ func args dest target u, k = Call func args dest target u) as [Hk|(?&?&?&?&?&->)]
      by (destruct k; try (by left); right; by eexists _, _, _, _, _).
    + apply queued_same. by eapply (visit_other_threads tcx rec).
    + eapply call_queues; [by apply Hv|done..].
Qed.

Lemma visits_queue visits rest f t t' :
  (∀ k, VisitTerminator k ∈ visits → VisitTerminator k ∈ body_visits tcx (def_id f)) →
  wf_translator t → call_stack t = Stack.push rest f → active_ok f →
  for_each visits (visit tcx rec) t = Ok (tt, t') → queued (starts tcx (def_id f)) t t'.
Proof.
  revert f t. induction visits as [|v visits IH]; intros f t Hv Hwf Hs Ha Hrun; simpl in Hrun.
  { injection Hrun as <-. by apply queued_same. }
  apply st_bind_ok in Hrun as ([] & t1 & H1 & Hrun).
  assert (Hq : queued (starts tcx (def_id f)) t t1).
  { eapply visit_queues; [|done..]. intros k ->. apply Hv. by left. }
  assert (Hd : body_done tcx rest f (terminators (active_block f) [v]) t t1).
  { assert (H1' : for_each [v] (visit tcx rec) t = Ok (tt, t1)) by (simpl; unfold mbind, st_bind; by rewrite H1).
    revert H1'. apply (wp_ok _ allowed (λ _ t1, body_done tcx rest f (terminators (active_block f) [v]) t t1)).
    by eapply (wp_visits tcx (λ _, True)). }
  destruct Hd as [Hwf1 Hle1 _ _ _ (f1 & Hs1 & Hf1 & Ha1 & _)].
  assert (Hq' : queued (starts tcx (def_id f1)) t1 t').
  { apply IH; try done. intros k Hk. rewrite (fn_le_def_id _ _ Hf1). apply Hv. by right. }
  rewrite (fn_le_def_id _ _ Hf1) in Hq'. eapply queued_trans; [|done..].
  revert Hrun. apply (wp_ok _ allowed (λ _ t', heap_le (heap (world t1)) (heap (world t')))).
  eapply (wp_visits tcx (λ _, True)); [done..|]. intros t2 Hd. by destruct (bd_world _ _ _ _ _ _ Hd).
Qed.
End with_rec.

Lemma top_call_stack_queues fuel : queues (translate_top_call_stack tcx fuel).
Proof.
  induction fuel as [|fuel IH]; [done|]. intros rest f t Hwf Hs Hb Ha.
  apply (wp_and _ _ _ (λ _ t', queued (starts tcx (def_id f)) t t')).
  - intros [] t' Hrun. simpl in Hrun. apply st_bind_ok in Hrun as (g & t1 & Hg & Hrun).
    assert (g = f ∧ t1 = t) as [-> ->].
    { apply (wp_ok _ allowed (λ g t1, g = f ∧ t1 = t) _ _ _) in Hg; [done|]. by eapply wp_peek_top. }
    apply st_bind_ok in Hrun as ([] & t2 & Hrun & [= <-]).
    assert (Hq : queued (starts tcx (def_id f)) t t2); [|done].
    eapply (visits_queue (translate_top_call_stack tcx fuel)); [|done|done|done|done| |exact Hrun].
    + intros rest' f' t' _. apply translate_top_call_stack_ok. by apply enough_fuel_any.
    + intros i. by rewrite Ha.
  - eapply wp_mono; [apply (translate_top_call_stack_ok tcx (S fuel) rest f); [by apply enough_fuel_any|done..]|done|].
    done.
Qed.

Lemma thread_queues fuel r th t t' :
  wf_translator t → threads_ (heap (world t)) !! thread_loc r = Some th →
  translate_thread tcx fuel r t = Ok (tt, t') →
  queued (starts tcx (thread_def_id th)) t t' ∧ wf_translator t' ∧
  heap_le (heap (world t)) (heap (world t')).
Proof.
  intros Hwf Hth Hrun. split.
  - revert Hrun. apply (wp_ok _ allowed (λ _ t', queued (starts tcx (thread_def_id th)) t t')).
    eapply wp_thread_prefix; [done..|]. intros f t1 Hwf1 Hs1 Hd Hb Ha Ht1 _ _ _ _ _.
    eapply wp_mono; [by eapply top_call_stack_queues|done|]. intros [] t2 (rs & E & H).
    exists rs. rewrite <-Hd. split; [congruence|done].
  - revert Hrun. apply (wp_ok _ allowed (λ _ t', wf_translator t' ∧ heap_le (heap (world t)) (heap (world t')))).
    apply wp_translate_thread; [by intros; apply enough_fuel_any|done|by eapply lookup_lt_Some|].
    intros th' t1 _ [? _ Hle _ _] _. split; [done|by destruct Hle].
Qed.
End queue.

(** ** The whole program *)

Section terminates.
Context `{LL : PetriNetLaws} (tcx : TyCtxt) (rank : DefId → nat).
Implicit Types (t : Translator) (d c : DefId).

#[local] Instance must_return : FuelPolicy := False.

(** Calls do not form a cycle: a rank decreases along them. *)
Context (Hcalls : ∀ d callee, calls tcx d callee → rank callee < rank d).

Lemma rank_enough_fuel fuel d : rank d < fuel → enough_fuel tcx fuel d.
Proof.
  revert d. induction fuel as [|fuel IH]; intros d Hd; [lia|]. simpl.
  intros callee Hc%Hcalls. apply IH. lia.
Qed.

(** Nested calls need no more fuel than the rank of the function. *)
Lemma acyclic_calls_terminate fuel t rest f :
  rank (def_id f) < fuel → wf_translator t → call_stack t = Stack.push rest f →
  basic_blocks f = ∅ → active_block f = None → translate_top_call_stack tcx fuel t ≠ Err OutOfFuel.
Proof.
  intros Hfuel Hwf Hs Hb Ha Herr.
  pose proof (translate_top_call_stack_ok tcx fuel rest f t) as H. unfold wp in H.
  rewrite Herr in H. apply H; try done. by apply rank_enough_fuel.
Qed.

Lemma thread_terminates fuel r th t :
  wf_translator t → threads_ (heap (world t)) !! thread_loc r = Some th →
  rank (thread_def_id th) < fuel → translate_thread tcx fuel r t ≠ Err OutOfFuel.
Proof.
  intros Hwf Hth Hfuel Herr. cut (wp (translate_thread tcx fuel r) allowed (λ _ _, True) t).
  { unfold wp. by rewrite Herr. }
  apply wp_translate_thread; [|done|by eapply lookup_lt_Some|done]. intros th' Hth'. simplify_eq.
  by apply rank_enough_fuel.
Qed.

(** Post-processing ends: as many iterations as there are tasks, and one more
    to see the empty queue, are enough. *)
Lemma postprocessing_terminates t : wf_translator t → translation_postprocessing t ≠ Err OutOfFuel.
Proof.
  intros Hwf Herr. cut (wp translation_postprocessing allowed (λ _ _, True) t).
  { unfold wp. by rewrite Herr. }
  apply wp_bind, wp_gets, wp_postprocessing_loop; [right; lia|done| |done].
  by intros r ?%not_elem_of_nil.
Qed.

(** Nor do spawns. *)
Context (Hspawns : ∀ d c, spawns tcx d c → rank c < rank d).

Lemma starts_rank d c : starts tcx d c → rank c < rank d.
Proof.
  intros (d' & Hr & Hc%Hspawns). cut (rank d' ≤ rank d); [lia|]. clear -Hr Hcalls.
  induction Hr as [|x y z Hxy%Hcalls _ IH]; lia.
Qed.

(** The ranks of the queued threads. *)
Definition ranked t (r : ThreadRef) (n : nat) : Prop := runs (λ c, rank c = n) t r.

Lemma queued_ranked d t t' q ns :
  heap_le (heap (world t)) (heap (world t')) → threads t = q → Forall2 (ranked t) q ns →
  queued (starts tcx d) t t' →
  ∃ ms, Forall2 (ranked t') (threads t') (ns ++ ms) ∧ Forall (λ m, m < rank d) ms.
Proof.
  intros Hle Hq Hns (rs & E & Hrs).
  assert (∃ ms, Forall2 (ranked t') rs ms ∧ Forall (λ m, m < rank d) ms) as (ms & H1 & H2).
  { clear E. induction Hrs as [|r rs (th & Hth & Hc%starts_rank) _ (ms & ? & ?)]; [by exists []|].
    exists (rank (thread_def_id th) :: ms). split; constructor; try done. by exists th. }
  exists ms. split; [|done]. rewrite E, Hq. apply Forall2_app; [|done].
  eapply Forall2_impl; [done|]. intros r n. by apply runs_mono.
Qed.

Lemma threads_terminate fuel ns t :
  wf_translator t → Forall2 (ranked t) (threads t) ns → Forall (λ n, n < fuel) ns →
  ∃ queue_fuel, translate_threads tcx fuel queue_fuel t ≠ Err OutOfFuel.
Proof.
  revert t. induction ns as [ns IH] using (well_founded_induction queue_step_wf). intros t Hwf Hns Hb.
  destruct (threads t) as [|r q] eqn:Hq.
  { exists 1. simpl. unfold mbind, st_bind, gets. by rewrite Hq. }
  apply Forall2_cons_inv_l in Hns as (n & ns' & (th & Hth & <-) & Hns & ->).
  apply Forall_cons in Hb as [Hn Hb].
  assert (Hwf1 : wf_translator (set_threads q t)).
  { destruct Hwf as [? ? ? ? ? H6 ? ?]. rewrite Hq in H6. split; try done. simpl. set_solver. }
  assert (Hstep : ∀ qf, translate_threads tcx fuel (S qf) t =
    ((translate_thread tcx fuel r;; translate_threads tcx fuel qf) : ST Translator unit) (set_threads q t)).
  { intros qf. simpl. unfold mbind, st_bind, gets, modify. by rewrite Hq. }
  destruct (translate_thread tcx fuel r (set_threads q t)) as [[[] t1]|e] eqn:Hrun.
  - destruct (thread_queues tcx fuel r th _ _ Hwf1 Hth Hrun) as (Hqd & Hwf2 & Hle).
    destruct (queued_ranked _ (set_threads q t) t1 q ns' Hle eq_refl Hns Hqd) as (ms & Hms & Hlt).
    destruct (IH (ns' ++ ms) (queue_step_intro _ _ _ Hlt) t1 Hwf2 Hms) as (qf & Hqf).
    { apply Forall_app. split; [done|]. eapply Forall_impl; [done|]. simpl. lia. }
    exists (S qf). rewrite Hstep. unfold mbind, st_bind. by rewrite Hrun.
  - exists 1. rewrite Hstep. unfold mbind, st_bind. rewrite Hrun. intros [= ->].
    by eapply (thread_terminates fuel r th (set_threads q t)).
Qed.

(** Main, all threads and post-processing. *)
Lemma run_terminates main t :
  entry_fn tcx = Some main → wf_translator t → call_stack t = Stack.new → threads t = [] →
  ∃ fuel queue_fuel, run tcx fuel queue_fuel t ≠ Err OutOfFuel.
Proof.
  intros Hm Hwf Hs Hq. exists (S (rank main)). set (fuel := S (rank main)).
  set (f := mir_function_new main (def_path_str tcx main) (program_start t) (program_end t)).
  set (t0 := set_call_stack (Stack.push (call_stack t) f) t).
  assert (Hwf0 : wf_translator t0) by (apply wf_translator_push; [done|apply wf_function_new; apply Hwf]).
  assert (Hrun : ∀ qf, run tcx fuel qf t = ((translate_top_call_stack tcx fuel;;
    translate_threads tcx fuel qf;; translation_postprocessing) : ST Translator unit) t0).
  { intros qf. unfold run, mbind, st_bind, lift, gets, modify. by rewrite Hm. }
  assert (Hmain := acyclic_calls_terminate fuel t0 (call_stack t) f (Nat.lt_succ_diag_r _) Hwf0 eq_refl eq_refl eq_refl).
  destruct (translate_top_call_stack tcx fuel t0) as [[[] t1]|e] eqn:Htop.
  2: { exists 0. rewrite Hrun. unfold mbind, st_bind. rewrite Htop. congruence. }
  pose proof (top_call_stack_queues tcx fuel (call_stack t) f t0 Hwf0 eq_refl eq_refl eq_refl) as Hqd.
  unfold wp in Hqd. rewrite Htop in Hqd.
  assert (Htr : translated tcx (call_stack t) f t0 t1).
  { pose proof (translate_top_call_stack_ok tcx fuel (call_stack t) f t0) as H. unfold wp in H.
    rewrite Htop in H. apply H; [|done..]. apply rank_enough_fuel. simpl. lia. }
  destruct Htr as [Hwf1 _ [_ Hle _] _ _ _ _ _].
  destruct (queued_ranked main t0 t1 [] [] Hle Hq (proj2 (Forall2_nil _) I) Hqd) as (ms & Hms & Hlt).
  destruct (threads_terminate fuel ms t1 Hwf1 Hms) as (qf & Hqf).
  { eapply Forall_impl; [done|]. simpl. unfold fuel. lia. }
  exists qf. rewrite Hrun. unfold mbind, st_bind. rewrite Htop.
  destruct (translate_threads tcx fuel qf t1) as [[[] t2]|e] eqn:Hth; [|congruence].
  apply postprocessing_terminates. revert Hth.
  apply (wp_ok _ (@allowed True) (λ _ t2, wf_translator t2)).
  apply (@wp_translate_threads _ _ True); [done|done|]. by intros t' [].
Qed.

Lemma translator_new_threads t : translator_new = Ok t → threads t = [].
Proof.
  unfold translator_new, mbind at 1, outcome_bind. case_match; [|done].
  by repeat case_match; intros [= <-].
Qed.

Lemma translate_some_result : ∃ fuel queue_fuel, translate tcx fuel queue_fuel ≠ Err OutOfFuel.
Proof.
  unfold translate. pose proof translator_new_spec as Hnew.
  destruct translator_new as [t|e] eqn:Ht; [|exists 0, 0; simpl in *; by intros [= ->]].
  destruct Hnew as (Hwf & Hs & _). simpl. destruct (entry_fn tcx) as [main|] eqn:Hm.
  - destruct (run_terminates main t Hm Hwf Hs) as (fuel & qf & H); [by apply translator_new_threads|].
    exists fuel, qf. destruct (run tcx fuel qf t) as [[[] t']|f]; simpl; congruence.
  - exists 0, 0. unfold run, mbind, st_bind, lift. by rewrite Hm.
Qed.
End terminates.

(** C6: the translation of every program in which functions neither call nor
    spawn each other in a cycle (a rank decreases along calls and spawns) ends:
    there is a result, a net or a panic, that the translation has for all
    sufficiently large amounts of fuel. *)
Theorem translate_terminates `{LL : PetriNetLaws} (tcx : TyCtxt) (rank : DefId → nat) :
  (∀ d callee, calls tcx d callee → rank callee < rank d) →
  (∀ d c, spawns tcx d c → rank c < rank d) →
  ∃ (fuel queue_fuel : nat) (r : outcome PetriNet), r ≠ Err OutOfFuel ∧
    ∀ fuel' queue_fuel', fuel ≤ fuel' → queue_fuel ≤ queue_fuel' →
      translate tcx fuel' queue_fuel' = r.
Proof.
  intros Hcalls Hspawns. destruct (translate_some_result tcx rank Hcalls Hspawns) as (fuel & qf & H).
  exists fuel, qf, (translate tcx fuel qf). split; [done|]. intros fuel' qf' Hf Hq.
  revert H. unfold translate. destruct translator_new as [t|]; [|done]. simpl.
  by destruct (run_refines tcx _ _ _ _ Hf Hq t) as [->| ->].
Qed.
