(* ===== verification/Postprocessing.v ===== *)
(** * The order of post-processing

    [translation_postprocessing] pops a binary heap of tasks.  Here: whatever
    the order in which the tasks were queued, every mutex of the program is
    known before the first condition variable is linked, so that each link sees
    all of them. *)

From S2P Require Import Prelude RustStr DataStructures PriorityQueue Netcrab Naming Rustc Function.
From S2P Require Import Heap Memory Sync MirFunction Translator.

Section postprocessing.
Context `{L : PetriNetLib}.
Implicit Types (task : PostprocessingTask) (ms : list MutexRef) (w : World) (t : Translator).

(** Tasks as their constructors make them. *)
Definition task_ok task : Prop :=
  match task with
  | LinkMutexToCondvar priority _ _ _ _ => priority = 1%N
  | NewMutex priority _ => priority = 2%N
  end.

Definition is_link task : Prop :=
  match task with LinkMutexToCondvar _ _ _ _ _ => True | NewMutex _ _ => False end.

(** The specification: run all link tasks, each with all the mutexes. *)
Definition link_all ms (links : list PostprocessingTask) : ST World unit :=
  for_each links (λ task, run_task ms task;; mret tt).

Definition finish t (o : outcome (unit * World)) : outcome (unit * Translator) :=
  match o with
  | Ok (_, w) => Ok (tt, set_postprocessing BinaryHeap.new (set_world w t))
  | Err f => Err f
  end.

Lemma links_only ms links :
  (∀ x, x ∈ (new_mutex <$> ms) ++ links → (get_priority x ≤ 1)%N) → ms = [].
Proof.
  destruct ms as [|r ms]; [done|]. intros H. specialize (H (new_mutex r)). simpl in H.
  assert (2 ≤ 1)%N; [|lia]. apply H. by left.
Qed.

Lemma run_task_link ms pr i s e ws w ms' w' :
  run_task ms (LinkMutexToCondvar pr i s e ws) w = Ok (ms', w') → ms' = ms.
Proof. unfold run_task, mbind, st_bind. destruct (for_each _ _ w) as [[]|]; [|done]. by intros [= -> _]. Qed.

Lemma postprocessing_loop_S fuel ms t :
  postprocessing_loop (S fuel) ms t =
  let '(task, h') := BinaryHeap.pop get_priority (postprocessing t) in
  match task with
  | None => Ok (tt, set_postprocessing h' t)
  | Some task =>
      match run_task ms task (world t) with
      | Ok (ms', w') => postprocessing_loop fuel ms' (set_world w' (set_postprocessing h' t))
      | Err f => Err f
      end
  end.
Proof.
  simpl. unfold mbind, st_bind, gets, modify, on_world, zoom.
  destruct (BinaryHeap.pop _ _) as [[x|] h']; [|done]. cbn [world set_postprocessing].
  by destruct (run_task ms x (world t)) as [[]|].
Qed.

Lemma link_all_cons ms x links w :
  link_all ms (x :: links) w =
  match run_task ms x w with Ok (_, w') => link_all ms links w' | Err f => Err f end.
Proof. unfold link_all. simpl. unfold mbind, st_bind. by destruct (run_task ms x w) as [[]|]. Qed.

Lemma postprocessing_loop_spec fuel ms t :
  BinaryHeap.heap_ok get_priority (postprocessing t) →
  (∀ x, x ∈ BinaryHeap.data (postprocessing t) → task_ok x) →
  length (BinaryHeap.data (postprocessing t)) < fuel →
  ∃ ms' links, BinaryHeap.data (postprocessing t) ≡ₚ (new_mutex <$> ms') ++ links ∧
    Forall is_link links ∧
    postprocessing_loop fuel ms t = finish t (link_all (ms ++ ms') links (world t)).
Proof.
  revert ms t. induction fuel as [|fuel IH]; intros ms t Hok Htasks Hlen; [lia|].
  pose proof (BinaryHeap.pop_spec get_priority _ Hok) as Hpop. rewrite postprocessing_loop_S.
  destruct (BinaryHeap.pop get_priority (postprocessing t)) as [[x|] h'].
  2: { destruct Hpop as [-> Hnil]. exists [], []. rewrite Hnil. split_and!; [done..|]. simpl.
       destruct t as [w ? ? ? ? ? ? [d]]; simpl in *. by subst. }
  destruct Hpop as (Hok' & Hperm & Hmax).
  assert (Hx : task_ok x) by (apply Htasks; rewrite Hperm; by left).
  assert (Hrest : ∀ ms1 w1, ∃ ms' links, BinaryHeap.data h' ≡ₚ (new_mutex <$> ms') ++ links ∧
    Forall is_link links ∧ postprocessing_loop fuel ms1 (set_world w1 (set_postprocessing h' t)) =
      finish t (link_all (ms1 ++ ms') links w1)).
  { intros ms1 w1. apply (IH ms1 (set_world w1 (set_postprocessing h' t))); simpl; [done| |].
    - intros y Hy. apply Htasks. rewrite Hperm. by right.
    - rewrite Hperm in Hlen. simpl in Hlen. lia. }
  destruct x as [pr i s e ws|pr r]; simpl in Hx; subst pr.
  - (* a link is popped: only links are left *)
    set (x := LinkMutexToCondvar 1 i s e ws) in *.
    assert (Hnone : ∀ ms' links, BinaryHeap.data h' ≡ₚ (new_mutex <$> ms') ++ links → ms' = []).
    { intros ms' links Hd. apply (links_only ms' links). intros y Hy. rewrite <-Hd in Hy.
      apply (Hmax y). rewrite Hperm. by right. }
    destruct (run_task ms x (world t)) as [[ms1 w1]|f] eqn:Hrun.
    + assert (ms1 = ms) as -> by by eapply run_task_link.
      destruct (Hrest ms w1) as (ms' & links & Hd & Hl & Heq). assert (ms' = []) as -> by by eapply Hnone.
      exists [], (x :: links). split_and!; [by rewrite Hperm, Hd|by constructor|].
      by rewrite Heq, link_all_cons, app_nil_r, Hrun.
    + destruct (Hrest ms (world t)) as (ms' & links & Hd & Hl & _). assert (ms' = []) as -> by by eapply Hnone.
      exists [], (x :: links). split_and!; [by rewrite Hperm, Hd|by constructor|].
      by rewrite link_all_cons, app_nil_r, Hrun.
  - (* a mutex is popped *)
    destruct (Hrest (ms ++ [r]) (world t)) as (ms' & links & Hd & Hl & Heq).
    exists (r :: ms'), links. split_and!; [by rewrite Hperm, Hd|done|].
    simpl. by rewrite Heq, <-app_assoc.
Qed.

(** C18: post-processing refines its specification: the queued tasks are some
    new mutexes and some links, and whatever order they were queued in, every
    link is made with all the mutexes; the queue is empty afterwards. *)
Theorem postprocessing_links_all_mutexes t :
  BinaryHeap.heap_ok get_priority (postprocessing t) →
  (∀ task, task ∈ BinaryHeap.data (postprocessing t) → task_ok task) →
  ∃ ms links, BinaryHeap.data (postprocessing t) ≡ₚ (new_mutex <$> ms) ++ links ∧
    Forall is_link links ∧
    translation_postprocessing t = finish t (link_all ms links (world t)).
Proof. intros Hok Htasks. apply (postprocessing_loop_spec _ []); [done..|lia]. Qed.
End postprocessing.
