(* ===== verification/SyncBehaviour.v ===== *)
(** * How the translated synchronization primitives behave

    The net fragments that the handlers of sync/*.rs build, seen through the
    token game: locking waits for the mutex, dropping a guard gives it back,
    waiting releases the mutex and a notification returns it, a signal without
    a waiter is lost, a join gives the thread its join transition.  And where the fragments allow more, or less, than the
    primitives they stand for. *)

From S2P Require Import Prelude RustStr Netcrab Naming Rustc Function Heap Memory Sync World.
From S2P Require Import WorldSpec SyncSpec Gadgets SyncCalls TokenGame.

Section sync_behaviour.
Context `{LL : PetriNetLaws}.
Implicit Types (n : PetriNet) (w : World) (t u : TransitionRef) (p q s e μ we : PlaceRef) (m : Marking).

#[local] Instance any_fault : FuelPolicy := True.

Lemma ignore_cleanup_basic ps s e :
  get_start_end_place ps = (s, e) → ignore_cleanup_place ps = PBasic s e.
Proof. destruct ps; simpl; by intros [= -> ->]. Qed.

Lemma wp_call_foreign_basic f i s e (Q : Transitions → World → Prop) w :
  wf_world w → has_place (net w) s → has_place (net w) e →
  (∀ t w', wf_world w' → world_le none w w' → heap w' = heap w →
     flow (net w) (net w') t s e → Q (TBasic t) w') →
  wp (on_net (call_foreign_function f i (PBasic s e))) allowed Q w.
Proof.
  intros Hwf Hs He HQ. apply wp_on_net_bind, wp_on_net_connect; [done..|].
  intros t w' Hw' Hle Hh F. by apply wp_on_net_ret, HQ.
Qed.

(** [takes n t ins outs]: the arcs of [t], each of multiplicity one. *)
Record takes n t (ins outs : list PlaceRef) : Prop := {
  tk_transition : has_transition n t;
  tk_pre p : pre n t p = if decide (p ∈ ins) then 1%N else 0%N;
  tk_post p : post n t p = if decide (p ∈ outs) then 1%N else 0%N;
}.

Lemma takes_enabled n t ins outs m :
  takes n t ins outs → enabled n m t ↔ ∀ p, p ∈ ins → (0 < m p)%N.
Proof.
  intros [Ht Hpre _]. split.
  - intros [_ H] p Hp. specialize (H p). rewrite Hpre, decide_True in H by done. lia.
  - intros H. split; [done|]. intros p. rewrite Hpre. case_decide; [apply N.lt_pred_le; by apply H|lia].
Qed.

(** Membership as a number, by comparing with each element in turn. *)
Fixpoint occurs p (l : list PlaceRef) : N :=
  match l with [] => 0 | q :: l' => if decide (p = q) then 1 else occurs p l' end.

Lemma occurs_spec p l : occurs p l = if decide (p ∈ l) then 1%N else 0%N.
Proof.
  induction l as [|q l IH]; cbn [occurs]; [by case_decide as H; [apply not_elem_of_nil in H|]|].
  rewrite IH. repeat case_decide; set_solver.
Qed.

Lemma takes_fire n t ins outs m p :
  takes n t ins outs → fire n t m p = (m p - occurs p ins + occurs p outs)%N.
Proof. intros [_ Hpre Hpost]. unfold fire. by rewrite Hpre, Hpost, !occurs_spec. Qed.

Lemma flow_takes n n' t s e : flow n n' t s e → takes n' t [s] [e].
Proof.
  intros F. split; [apply (flow_transitions _ _ _ _ _ F); by left|..]; intros p.
  - rewrite (flow_pre _ _ _ _ _ F). repeat case_decide; set_solver.
  - rewrite (flow_post _ _ _ _ _ F). repeat case_decide; set_solver.
Qed.

(** One more input, or output. *)
Lemma takes_more_in n n' t p ins outs :
  takes n t ins outs → net_grows n n' → p ∉ ins →
  (∀ u q, (u, q) ≠ (t, p) → pre n' u q = pre n u q) → (pre n t p = 0%N → pre n' t p = 1%N) →
  (∀ u q, post n' u q = post n u q) → takes n' t (p :: ins) outs.
Proof.
  intros [Ht Hpre Hpost] G Hp H1 H2 H3. split; [by eapply grows_transition|..]; intros q.
  - destruct (decide (q = p)) as [->|Hne].
    + rewrite decide_True by by left. apply H2. by rewrite Hpre, decide_False.
    + rewrite H1, Hpre by congruence. repeat case_decide; set_solver.
  - by rewrite H3.
Qed.
Lemma takes_more_out n n' t p ins outs :
  takes n t ins outs → net_grows n n' → p ∉ outs →
  (∀ u q, (u, q) ≠ (t, p) → post n' u q = post n u q) → (post n t p = 0%N → post n' t p = 1%N) →
  (∀ u q, pre n' u q = pre n u q) → takes n' t ins (p :: outs).
Proof.
  intros [Ht Hpre Hpost] G Hp H1 H2 H3. split; [by eapply grows_transition|..]; intros q.
  - by rewrite H3.
  - destruct (decide (q = p)) as [->|Hne].
    + rewrite decide_True by by left. apply H2. by rewrite Hpost, decide_False.
    + rewrite H1, Hpost by congruence. repeat case_decide; set_solver.
Qed.
(** Arcs of other transitions. *)
Lemma takes_other n n' t ins outs :
  takes n t ins outs → net_grows n n' →
  (∀ q, pre n' t q = pre n t q) → (∀ q, post n' t q = post n t q) → takes n' t ins outs.
Proof.
  intros [Ht Hpre Hpost] G H1 H2. split; [by eapply grows_transition|..]; intros q;
    by rewrite ?H1, ?H2, ?Hpre, ?Hpost.
Qed.

(** ** New primitives *)

(** [Mutex::new] adds one place with one token, the free mutex, and
    nothing else; no transition mutates its data yet. *)
Theorem new_mutex_is_free i n : ∃ x n', mutex_new i n = Ok (x, n') ∧ mutex_gadget n n' x.
Proof.
  pose proof (wp_mutex_new i (λ _, False) (λ x n', mutex_gadget n n' x) n) as H. unfold wp in H.
  destruct (mutex_new i n) as [[x n']|]; [by eauto|]. destruct H; auto.
Qed.

(** ** Locking *)

(** C19: [Mutex::lock] becomes a new transition with exactly two inputs, the
    place of the call and the place of the mutex behind the argument, and
    whose only output is where the call returns; so it fires exactly when
    control is at the call and the mutex is free, and takes the mutex. *)
Theorem lock_takes_mutex f i args dest ps (mem mem' : Memory) s e w w' :
  wf_world w → wf_places (net w) ps → wf_memory (heap w) mem →
  get_start_end_place ps = (s, e) →
  call_lock f i args dest ps mem w = Ok (mem', w') →
  ∃ t self r x,
    extract_nth_argument_as_place args 0 = Some self ∧ get_mutex mem self = Ok r ∧
    mutexes (heap w) !! mutex_loc r = Some x ∧ ¬ has_transition (net w) t ∧
    (s ≠ mutex x → takes (net w') t [mutex x; s] [e] ∧
       ∀ m, enabled (net w') m t ↔ (0 < m s ∧ 0 < m (mutex x))%N).
Proof.
  intros Hwf Hps Hm Hse Hrun. revert Hrun. apply (wp_ok _ allowed (λ _ w', ∃ t self r x,
    extract_nth_argument_as_place args 0 = Some self ∧ get_mutex mem self = Ok r ∧
    mutexes (heap w) !! mutex_loc r = Some x ∧ ¬ has_transition (net w) t ∧
    (s ≠ mutex x → takes (net w') t [mutex x; s] [e] ∧
       ∀ m, enabled (net w') m t ↔ (0 < m s ∧ 0 < m (mutex x))%N))).
  apply wf_places_ignore in Hps. unfold call_lock. rewrite (ignore_cleanup_basic _ _ _ Hse) in *.
  destruct Hps as [Hs He]. apply wp_bind, wp_call_foreign_basic; [done..|].
  intros t w1 Hw1 Hle1 Hh1 F. apply wp_bind, wp_expect; [done|]. intros self Hself. simpl.
  apply wp_bind. pose proof (owp_get_mutex (heap w1) mem self) as Hget. rewrite Hh1 in Hget at 1.
  specialize (Hget Hm). destruct (get_mutex mem self) as [r|] eqn:Hr; [|done].
  apply wp_lift. simpl in Hget |- *. apply wp_bind. apply wp_read_mutex; [done..|].
  intros x Hx [Hmx _]. assert (T1 := flow_takes _ _ _ _ _ F).
  apply wp_bind. apply wp_on_net_arc_place_transition; [done..|apply T1|].
  intros w2 Hw2 Hle2 Hh2 H1 H2 H3. apply wp_bind.
  apply wp_link_mutex_guard; [done|by rewrite Hh2, Hh1|unfold wf_guard; simpl; by rewrite Hh2|].
  intros r' m' w3 Hw3 Hle3 Hn3 _. apply wp_ret. exists t, self, r, x.
  split_and!; [done|done|by rewrite <-Hh1|by eapply flow_fresh|]. intros Hne. rewrite Hn3.
  assert (T : takes (net w2) t [mutex x; s] [e])
    by (eapply takes_more_in; [done|apply Hle2|set_solver|done..]).
  split; [done|]. intros m. rewrite (takes_enabled _ _ _ _ _ T). set_solver.
Qed.

(** ** Unlocking *)

(** C20: dropping a place that holds a mutex guard gives the mutex back: the
    drop's transition gets an arc to the place of the guard's mutex, every
    other arc stays; dropping anything else changes nothing. *)
Theorem guard_drop_releases_mutex place t (mem : Memory) w w' :
  wf_world w → wf_memory (heap w) mem → has_transition (net w) t →
  handle_mutex_guard_drop place t mem w = Ok (tt, w') →
  (is_mutex_guard mem place = false ∧ w' = w) ∨
  (is_mutex_guard mem place = true ∧ ∃ g gd x,
     get_mutex_guard mem place = Ok g ∧ guards (heap w) !! guard_loc g = Some gd ∧
     mutexes (heap w) !! mutex_loc (guard_mutex gd) = Some x ∧ heap w' = heap w ∧
     (0 < post (net w') t (mutex x))%N ∧
     (∀ u q, (u, q) ≠ (t, mutex x) → post (net w') u q = post (net w) u q) ∧
     (∀ u q, pre (net w') u q = pre (net w) u q)).
Proof.
  intros Hwf Hm Ht Hrun. unfold handle_mutex_guard_drop in Hrun.
  destruct (is_mutex_guard mem place); [right; split; [done|]|left; unfold mret, st_ret in Hrun; by simplify_eq].
  revert Hrun. apply (wp_ok _ allowed (λ _ w', ∃ g gd x,
     get_mutex_guard mem place = Ok g ∧ guards (heap w) !! guard_loc g = Some gd ∧
     mutexes (heap w) !! mutex_loc (guard_mutex gd) = Some x ∧ heap w' = heap w ∧
     (0 < post (net w') t (mutex x))%N ∧
     (∀ u q, (u, q) ≠ (t, mutex x) → post (net w') u q = post (net w) u q) ∧
     (∀ u q, pre (net w') u q = pre (net w) u q))).
  apply wp_bind. pose proof (owp_get_mutex_guard (heap w) mem place Hm) as Hget.
  destruct (get_mutex_guard mem place) as [g|]; [|done]. apply wp_lift. simpl in Hget |- *.
  apply wp_bind. apply wp_read_guard; [done..|]. intros gd Hgd Hwgd.
  apply wp_bind. apply wp_read_mutex; [done..|]. intros x Hx [Hmx _].
  apply wp_on_net_arc_transition_place; [done..|]. intros w1 Hw1 Hle1 Hh1 H1 H2 H3.
  exists g, gd, x. split_and!; try done.
  eapply arc_added, H2. apply grows_post, Hle1.
Qed.

(** ** Condition variables *)

(** The three transitions of a condition variable that no call is linked to. *)
Record condvar_net n (c : Condvar) we (ls : TransitionRef) : Prop := {
  cn_places : has_place n we ∧ has_place n (notify c) ∧ we ≠ notify c;
  cn_distinct : wait_start c ≠ notify_received c ∧ ls ≠ wait_start c ∧ ls ≠ notify_received c;
  cn_wait_start : takes n (wait_start c) [we] [];
  cn_lost_signal : takes n ls [we; notify c] [we];
  cn_notify_received : takes n (notify_received c) [notify c] [we];
}.

(** The same after a call to [wait] from [s] to [e] with the mutex at [μ]. *)
Record wait_net n (c : Condvar) we (ls : TransitionRef) s e μ : Prop := {
  wn_wait_start : takes n (wait_start c) [s; we] [μ];
  wn_lost_signal : takes n ls [we; notify c] [we];
  wn_notify_received : takes n (notify_received c) [μ; notify c] [e; we];
}.

Lemma condvar_gadget_net n n' c we ls : condvar_gadget n n' c we ls → condvar_net n' c we ls.
Proof.
  intros C. destruct (cg_distinct_transitions _ _ _ _ _ C) as (D1 & D2 & D3).
  split; [| |split|split|split]; rewrite ?(cg_transitions _ _ _ _ _ C); auto.
  - rewrite !(cg_places _ _ _ _ _ C). split_and!; [by left|by right; left|apply C].
  - intros p. destruct (cg_wait_start _ _ _ _ _ C p) as [-> _]. repeat case_decide; set_solver.
  - intros p. by destruct (cg_wait_start _ _ _ _ _ C p) as [_ ->].
  - intros p. destruct (cg_lost_signal _ _ _ _ _ C p) as [-> _]. repeat case_decide; set_solver.
  - intros p. destruct (cg_lost_signal _ _ _ _ _ C p) as [_ ->]. repeat case_decide; set_solver.
  - intros p. destruct (cg_notify_received _ _ _ _ _ C p) as [-> _]. repeat case_decide; set_solver.
  - intros p. destruct (cg_notify_received _ _ _ _ _ C p) as [_ ->]. repeat case_decide; set_solver.
Qed.

(** [Condvar::new] adds a place that allows one wait, with a token, an
    empty place for notifications, and the transitions that start a wait, lose
    a signal and receive one, with exactly these arcs; the rest of the net
    stays. *)
Theorem new_condvar_allows_wait i n :
  ∃ c we ls n', condvar_new i n = Ok (c, n') ∧ condvar_net n' c we ls ∧
    marking n' we = 1%N ∧ marking n' (notify c) = 0%N ∧ already_linked_to_call c = None ∧
    net_grows n n' ∧
    ∀ u q, has_transition n u → pre n' u q = pre n u q ∧ post n' u q = post n u q.
Proof.
  pose proof (wp_condvar_new i (λ _, False) (λ c n', ∃ we ls, condvar_gadget n n' c we ls) n) as H.
  unfold wp in H. destruct (condvar_new i n) as [[c n']|]; [|destruct H; eauto].
  destruct H as (we & ls & C); [by eauto|]. exists c, we, ls, n'.
  split_and!; [done|by eapply condvar_gadget_net|..|apply C|apply C|apply C].
  - rewrite (cg_marking _ _ _ _ _ C). by rewrite decide_True.
  - destruct (cg_fresh_places _ _ _ _ _ C) as [_ F2].
    rewrite (cg_marking _ _ _ _ _ C), decide_False by (symmetry; apply C). by apply no_place_marking.
Qed.

(** The other transitions keep their arcs. *)
Definition keeps_others w w' u : Prop :=
  ∀ t ins outs, t ≠ u → takes (net w) t ins outs → takes (net w') t ins outs.

Lemma wp_add_input p t ins outs (Q : unit → World → Prop) w :
  wf_world w → has_place (net w) p → takes (net w) t ins outs → p ∉ ins →
  (∀ w', wf_world w' → net_grows (net w) (net w') → heap w' = heap w →
     takes (net w') t (p :: ins) outs → keeps_others w w' t → Q tt w') →
  wp (on_net (add_arc_place_transition p t)) allowed Q w.
Proof.
  intros Hwf Hp T Hni HQ. apply wp_on_net_arc_place_transition; [done..|apply T|].
  intros w1 Hw1 [G1 _ _] Hh1 A1 A2 A3. apply HQ; try done.
  - by eapply takes_more_in.
  - intros u i o Hne Tu. eapply takes_other; [done..| |done]. intros q. apply A1. congruence.
Qed.
Lemma wp_add_output p t ins outs (Q : unit → World → Prop) w :
  wf_world w → has_place (net w) p → takes (net w) t ins outs → p ∉ outs →
  (∀ w', wf_world w' → net_grows (net w) (net w') → heap w' = heap w →
     takes (net w') t ins (p :: outs) → keeps_others w w' t → Q tt w') →
  wp (on_net (add_arc_transition_place t p)) allowed Q w.
Proof.
  intros Hwf Hp T Hni HQ. apply wp_on_net_arc_transition_place; [done|apply T|done|].
  intros w1 Hw1 [G1 _ _] Hh1 A1 A2 A3. apply HQ; try done.
  - by eapply takes_more_out.
  - intros u i o Hne Tu. eapply takes_other; [done..|]. intros q. apply A1. congruence.
Qed.

Lemma wp_link_to_wait_call_net r s e g c we ls gd x w :
  wf_world w → has_place (net w) s → has_place (net w) e →
  condvars (heap w) !! condvar_loc r = Some c → condvar_net (net w) c we ls →
  guards (heap w) !! guard_loc g = Some gd →
  mutexes (heap w) !! mutex_loc (guard_mutex gd) = Some x →
  s ≠ we → e ≠ we → mutex x ≠ notify c →
  wp (link_to_wait_call r s e g) allowed (λ _ w', wait_net (net w') c we ls s e (mutex x) ∧
    ∃ c', condvars (heap w') !! condvar_loc r = Some c' ∧ already_linked_to_call c' = Some tt) w.
Proof.
  intros Hwf Hs He Hc [_ (D1 & D2 & D3) Tw Tl Tn] Hg Hx N1 N2 N3.
  assert (Hmx : wf_mutex (net w) x) by by eapply Hwf, list_elem_of_lookup_2. destruct Hmx as [Hmx _].
  unfold link_to_wait_call. apply wp_bind.
  apply wp_read_condvar; [done|by eapply lookup_lt_Some|]. intros c0 Hc0 _. simplify_eq.
  destruct (already_linked_to_call c) eqn:Hal; [done|].
  apply wp_bind. eapply wp_add_input; [done..|set_solver|]. intros w1 Hw1 G1 Hh1 Tw1 K1.
  apply wp_bind. eapply wp_add_output;
    [done|by eapply grows_place|apply K1; [congruence|done]|set_solver|].
  intros w2 Hw2 G2 Hh2 Tn2 K2. assert (G02 : net_grows (net w) (net w2)) by by etransitivity.
  apply wp_bind. apply wp_read_guard; [done|rewrite Hh2, Hh1; by eapply lookup_lt_Some|].
  intros gd' Hgd' Hwgd. rewrite Hh2, Hh1, Hg in Hgd'. injection Hgd' as <-.
  apply wp_bind. apply wp_read_mutex; [done..|]. intros x' Hx' _.
  rewrite Hh2, Hh1, Hx in Hx'. injection Hx' as <-.
  apply wp_bind. eapply wp_add_output; [done|by eapply grows_place|apply K2; [congruence|done]|set_solver|].
  intros w3 Hw3 G3 Hh3 Tw3 K3. assert (G03 : net_grows (net w) (net w3)) by by etransitivity.
  apply wp_bind. eapply wp_add_input; [done|by eapply grows_place|apply K3; [congruence|done]|set_solver|].
  intros w4 Hw4 G4 Hh4 Tn4 K4. assert (Hh04 : heap w4 = heap w) by congruence.
  apply wp_bind. apply wp_read_condvar; [done|rewrite Hh04; by eapply lookup_lt_Some|].
  intros c' Hc' _. rewrite Hh04, Hc in Hc'. injection Hc' as <-. rewrite Hal.
  apply wp_on_heap, wp_modify. simpl. split.
  - split; [by apply K4| |done]. apply K4; [done|]. apply K3; [done|]. apply K2; [done|]. by apply K1.
  - eexists. split; [rewrite Hh04; apply list_lookup_insert_eq; by eapply lookup_lt_Some|done].
Qed.

(** C21: [Condvar::wait], linked to a condition variable that no call was
    linked to: [wait_start] now also needs control at the call and gives the
    mutex back, [notify_received] also needs the mutex and leads to where the
    call returns, the transition for lost signals stays; and the condition
    variable is marked as linked. *)
Theorem wait_call_linked r s e g c we ls gd x w w' :
  wf_world w → has_place (net w) s → has_place (net w) e →
  condvars (heap w) !! condvar_loc r = Some c → condvar_net (net w) c we ls →
  guards (heap w) !! guard_loc g = Some gd →
  mutexes (heap w) !! mutex_loc (guard_mutex gd) = Some x →
  s ≠ we → e ≠ we → mutex x ≠ notify c →
  link_to_wait_call r s e g w = Ok (tt, w') →
  wait_net (net w') c we ls s e (mutex x) ∧
  ∃ c', condvars (heap w') !! condvar_loc r = Some c' ∧ already_linked_to_call c' = Some tt.
Proof.
  intros. revert H9. eapply (wp_ok _ allowed (λ _ w', wait_net (net w') c we ls s e (mutex x) ∧
    ∃ c', condvars (heap w') !! condvar_loc r = Some c' ∧ already_linked_to_call c' = Some tt)).
  by eapply wp_link_to_wait_call_net.
Qed.

Lemma read_condvar_ok r w c w' :
  on_heap (read_condvar r) w = Ok (c, w') → w' = w ∧ condvars (heap w) !! condvar_loc r = Some c.
Proof.
  unfold on_heap, zoom, read_condvar, lift, deref. destruct w as [n h]. simpl.
  destruct (condvars h !! condvar_loc r); [|done]. by intros [= -> <-].
Qed.

(** C23: a condition variable is linked to at most one call of [wait]: after
    one was linked, linking another panics, whatever the call. *)
Theorem wait_linked_once r s e g w w' s2 e2 g2 :
  link_to_wait_call r s e g w = Ok (tt, w') →
  link_to_wait_call r s2 e2 g2 w' = Err (Panic MultipleWaitCallsNotSupported).
Proof.
  unfold link_to_wait_call at 1. intros (c & w1 & [-> Hc]%read_condvar_ok & Hrun)%st_bind_ok.
  destruct (already_linked_to_call c); [done|].
  apply st_bind_ok in Hrun as (? & ? & _ & Hrun). apply st_bind_ok in Hrun as (? & ? & _ & Hrun).
  apply st_bind_ok in Hrun as (? & ? & _ & Hrun). apply st_bind_ok in Hrun as (? & ? & _ & Hrun).
  apply st_bind_ok in Hrun as (? & ? & _ & Hrun). apply st_bind_ok in Hrun as (? & ? & _ & Hrun).
  apply st_bind_ok in Hrun as (c' & w2 & [-> Hc']%read_condvar_ok & Hrun).
  destruct (already_linked_to_call c'); [done|]. injection Hrun as <-.
  unfold link_to_wait_call, on_heap, zoom, read_condvar, lift, deref, mbind, st_bind. simpl.
  by rewrite list_lookup_insert_eq by by eapply lookup_lt_Some.
Qed.

(** ** The token game of a wait *)

Lemma wait_places_distinct s e μ we nt :
  NoDup [s; e; μ; we; nt] →
  (s ≠ e ∧ s ≠ μ ∧ s ≠ we ∧ s ≠ nt) ∧ (e ≠ μ ∧ e ≠ we ∧ e ≠ nt) ∧ (μ ≠ we ∧ μ ≠ nt) ∧ we ≠ nt.
Proof. rewrite !NoDup_cons. set_solver. Qed.

(** Evaluate [takes_fire] at distinct places. *)
Ltac fire_values :=
  cbn [occurs]; repeat first [rewrite decide_True by congruence | rewrite decide_False by congruence];
  try lia.
Ltac enables := intros p; rewrite !elem_of_cons, elem_of_nil; intros [->|[->|[]]]; lia.

(** What follows from the arcs of a linked wait. *)
Lemma wait_net_waits n c we ls s e μ m m1 :
  wait_net n c we ls s e μ → NoDup [s; e; μ; we; notify c] →
  m s = 1%N → m e = 0%N → m μ = 0%N → m we = 1%N → m (notify c) = 0%N →
  m1 ≡ fire n (wait_start c) m →
  enabled n m (wait_start c) ∧
  (m1 s = 0 ∧ m1 e = 0 ∧ m1 μ = 1 ∧ m1 we = 0)%N ∧
  ¬ enabled n m1 (notify_received c).
Proof.
  intros [Tw _ Tn] Hnd H1 H2 H3 H4 H5 Hm1.
  destruct (wait_places_distinct _ _ _ _ _ Hnd) as ((? & ? & ? & ?) & (? & ? & ?) & (? & ?) & ?).
  assert (Hf : ∀ p, m1 p = fire n (wait_start c) m p) by apply Hm1.
  assert (Ew := takes_enabled _ _ _ _ m Tw). assert (En := takes_enabled _ _ _ _ m1 Tn).
  assert (Fw := λ p, takes_fire _ _ _ _ m p Tw).
  split; [apply Ew; enables|].
  split; [rewrite !Hf, !Fw, H1, H2, H3, H4; by fire_values|].
  rewrite En. intros Hn. assert (Hlt : (0 < m1 (notify c))%N) by (apply Hn; right; by left).
  revert Hlt. rewrite Hf, Fw, H5. by fire_values.
Qed.
Lemma wait_net_notified n c we ls s e μ m :
  wait_net n c we ls s e μ → NoDup [s; e; μ; we; notify c] →
  m e = 0%N → m μ = 1%N → m we = 0%N → m (notify c) = 1%N →
  enabled n m (notify_received c) ∧ ¬ enabled n m ls ∧
  let m' := fire n (notify_received c) m in
  (m' e = 1 ∧ m' μ = 0 ∧ m' we = 1 ∧ m' (notify c) = 0)%N.
Proof.
  intros [_ Tl Tn] Hnd H2 H3 H4 H5.
  destruct (wait_places_distinct _ _ _ _ _ Hnd) as ((? & ? & ? & ?) & (? & ? & ?) & (? & ?) & ?).
  assert (En := takes_enabled _ _ _ _ m Tn). assert (El := takes_enabled _ _ _ _ m Tl).
  assert (Fn := λ p, takes_fire _ _ _ _ m p Tn).
  split; [apply En; enables|].
  split; [rewrite El; intros Hn; assert (0 < m we)%N by (apply Hn; by left); lia|].
  simpl. rewrite !Fn, H2, H3, H4, H5. by fire_values.
Qed.
Lemma wait_net_loses n c we ls s e μ m :
  wait_net n c we ls s e μ → we ≠ notify c → (0 < m we)%N → (0 < m (notify c))%N →
  enabled n m ls ∧ fire n ls m (notify c) = (m (notify c) - 1)%N ∧
  ∀ p, p ≠ notify c → fire n ls m p = m p.
Proof.
  intros [_ Tl _] Hne Hw Hn. split; [apply (takes_enabled _ _ _ _ _ Tl); enables|].
  split; [rewrite (takes_fire _ _ _ _ _ _ Tl); by fire_values|].
  intros p Hp. rewrite (takes_fire _ _ _ _ _ _ Tl). cbn [occurs].
  rewrite (decide_False (P := p = notify c)) by done. case_decide; subst; lia.
Qed.
Lemma wait_net_jumps n c we ls s e μ m :
  wait_net n c we ls s e μ → NoDup [s; e; μ; we; notify c] →
  m s = 0%N → m e = 0%N → m μ = 1%N → m we = 1%N → m (notify c) = 1%N →
  enabled n m (notify_received c) ∧
  let m' := fire n (notify_received c) m in
  (m' s = 0 ∧ m' e = 1 ∧ m' μ = 0 ∧ m' we = 2 ∧ m' (notify c) = 0)%N.
Proof.
  intros [_ _ Tn] Hnd H1 H2 H3 H4 H5.
  destruct (wait_places_distinct _ _ _ _ _ Hnd) as ((? & ? & ? & ?) & (? & ? & ?) & (? & ?) & ?).
  split; [apply (takes_enabled _ _ _ _ _ Tn); enables|].
  simpl. rewrite !(takes_fire _ _ _ _ _ _ Tn), H1, H2, H3, H4, H5. by fire_values.
Qed.

(** *** The code

    [Condvar::new] adds its places and transitions to a net [n]; later, when the
    transitions that it added still have the same arcs, [link_to_wait_call]
    links it to a call of [wait] from [s] to [e] with a guard of the mutex [x].
    [we] is the place that [Condvar::new] marks, [ls] the transition of it that
    the condition variable does not remember. *)
Section linked_wait.
Context (i : N) (n n1 : PetriNet) (c : Condvar) (we : PlaceRef) (ls : TransitionRef).
Context (Hnew : condvar_new i n = Ok (c, n1)).
Context (Hwe : ¬ has_place n we) (Hwe1 : marking n1 we = 1%N).
Context (Hls : ¬ has_transition n ls) (Hls1 : has_transition n1 ls).
Context (Hls2 : ls ≠ wait_start c) (Hls3 : ls ≠ notify_received c).
Context (w w' : World) (r : CondvarRef) (s e : PlaceRef) (g : MutexGuardRef) (gd : Guard) (x : Mutex).
Context (Hwf : wf_world w) (Hgrown : net_grows n1 (net w)).
Context (Hsame : ∀ t p, has_transition n1 t → ¬ has_transition n t →
  pre (net w) t p = pre n1 t p ∧ post (net w) t p = post n1 t p).
Context (Hs : has_place (net w) s) (He : has_place (net w) e).
Context (Hc : condvars (heap w) !! condvar_loc r = Some c).
Context (Hg : guards (heap w) !! guard_loc g = Some gd).
Context (Hx : mutexes (heap w) !! mutex_loc (guard_mutex gd) = Some x).
Context (Hnd : NoDup [s; e; mutex x; we; notify c]).
Context (Hlink : link_to_wait_call r s e g w = Ok (tt, w')).

Lemma new_condvar_net : condvar_net n1 c we ls ∧ ¬ has_transition n (wait_start c) ∧ ¬ has_transition n (notify_received c).
Proof.
  pose proof (wp_condvar_new i (λ _, False) (λ c n1, ∃ we ls, condvar_gadget n n1 c we ls) n) as H.
  unfold wp in H. rewrite Hnew in H. destruct H as (we' & ls' & C); [by eauto|].
  assert (we' = we) as ->.
  { rewrite (cg_marking _ _ _ _ _ C) in Hwe1. case_decide as Heq; [done|]. by rewrite no_place_marking in Hwe1. }
  assert (ls' = ls) as ->.
  { apply (cg_transitions _ _ _ _ _ C) in Hls1. naive_solver. }
  split; [by eapply condvar_gadget_net|]. by destruct (cg_fresh_transitions _ _ _ _ _ C) as (? & ? & ?).
Qed.

Lemma linked_wait_net : wait_net (net w') c we ls s e (mutex x).
Proof.
  destruct new_condvar_net as ([(P1 & P2 & P3) D Tw Tl Tn] & F1 & F2).
  destruct (wait_places_distinct _ _ _ _ _ Hnd) as ((? & ? & ? & ?) & (? & ? & ?) & (? & ?) & ?).
  assert (K : ∀ t ins outs, ¬ has_transition n t → takes n1 t ins outs → takes (net w) t ins outs).
  { intros t ins outs Ht T. eapply takes_other; [done|done| |]; intros q; (apply Hsame; [apply T|done]). }
  revert Hlink. eapply (wp_ok _ allowed (λ _ w', wait_net (net w') c we ls s e (mutex x))).
  eapply wp_mono; [eapply (wp_link_to_wait_call_net r s e g c we ls gd x); try done|done|by intros ? ? []].
  split; [|done|by apply K..]. split_and!; [by eapply grows_place|by eapply grows_place|done].
Qed.

(** C22: waiting and being notified, in the net after [Condvar::new] and
    [link_to_wait_call]: from a marking in which control is at the call, the
    thread holds the mutex and no wait is in progress, [wait_start] can fire;
    then the mutex is free and the call has not returned.  Once a notification
    has arrived and the mutex is free, [notify_received] can fire and the signal
    cannot be lost; the call then returns with the mutex taken, and the next wait
    is allowed. *)
Theorem wait_then_notify m :
  m s = 1%N → m e = 0%N → m (mutex x) = 0%N → m we = 1%N → m (notify c) = 0%N →
  let m1 := fire (net w') (wait_start c) m in
  enabled (net w') m (wait_start c) ∧
  (m1 s = 0 ∧ m1 e = 0 ∧ m1 (mutex x) = 1 ∧ m1 we = 0)%N ∧
  ¬ enabled (net w') m1 (notify_received c) ∧
  ∀ m2, m2 s = 0%N → m2 e = 0%N → m2 (mutex x) = 1%N → m2 we = 0%N → m2 (notify c) = 1%N →
    enabled (net w') m2 (notify_received c) ∧ ¬ enabled (net w') m2 ls ∧
    let m3 := fire (net w') (notify_received c) m2 in
    (m3 e = 1 ∧ m3 (mutex x) = 0 ∧ m3 we = 1 ∧ m3 (notify c) = 0)%N.
Proof.
  intros H1 H2 H3 H4 H5 m1.
  destruct (wait_net_waits _ _ _ _ _ _ _ m m1 linked_wait_net Hnd) as (? & ? & ?); [done..|].
  do 3 (split; [done|]). intros m2 _ G2 G3 G4 G5.
  by apply (wait_net_notified _ _ _ _ _ _ _ _ linked_wait_net Hnd).
Qed.

(** C24: a signal sent while no wait is in progress can be lost: in the net after
    [Condvar::new] and [link_to_wait_call], with a token in [notify] and one in
    [wait_enabled], [lost_signal] can fire; it consumes the notification and
    changes nothing else. *)
Theorem signal_can_be_lost m :
  (0 < m we)%N → (0 < m (notify c))%N →
  enabled (net w') m ls ∧ fire (net w') ls m (notify c) = (m (notify c) - 1)%N ∧
  ∀ p, p ≠ notify c → fire (net w') ls m p = m p.
Proof.
  apply (wait_net_loses _ _ _ _ _ _ _ _ linked_wait_net).
  by destruct (wait_places_distinct _ _ _ _ _ Hnd) as (_ & _ & _ & ?).
Qed.

(** C25: [notify_received] does not require that a wait has started: in the net
    after [Condvar::new] and [link_to_wait_call], with a notification and a free
    mutex it fires although control is not at the call of [wait] and no wait is
    in progress, and leaves a token where the call returns and two tokens in
    [wait_enabled]. *)
Theorem notify_received_without_wait m :
  m s = 0%N → m e = 0%N → m (mutex x) = 1%N → m we = 1%N → m (notify c) = 1%N →
  enabled (net w') m (notify_received c) ∧
  let m' := fire (net w') (notify_received c) m in
  (m' s = 0 ∧ m' e = 1 ∧ m' (mutex x) = 0 ∧ m' we = 2 ∧ m' (notify c) = 0)%N.
Proof. intros. by eapply wait_net_jumps; [apply linked_wait_net|..]. Qed.
End linked_wait.

(** ** Joining *)

Lemma wp_call_join_net f i args ps (mem : Memory) s e (Q : unit → World → Prop) w :
  wf_world w → wf_places (net w) ps → wf_memory (heap w) mem → get_start_end_place ps = (s, e) →
  (∀ t self r th w', extract_nth_argument_as_place args 0 = Some self → get_join_handle mem self = Ok r →
     threads_ (heap w) !! thread_loc r = Some th → join_transition th = None →
     ¬ has_transition (net w) t → takes (net w') t [s] [e] →
     heap w' = mkHeap (mutexes (heap w)) (guards (heap w)) (condvars (heap w))
       (<[thread_loc r := mkThread (spawn_transition th) (thread_def_id th) (aggregate th) (Some t) (thread_index th)]>
          (threads_ (heap w))) → Q tt w') →
  wp (call_join f i args ps mem) allowed Q w.
Proof.
  intros Hwf Hps Hm Hse HQ. apply wf_places_ignore in Hps. unfold call_join.
  rewrite (ignore_cleanup_basic _ _ _ Hse) in *. destruct Hps as [Hs He].
  apply wp_bind, wp_call_foreign_basic; [done..|]. intros t w1 Hw1 Hle1 Hh1 F.
  apply wp_bind, wp_expect; [done|]. intros self Hself. simpl.
  apply wp_bind. pose proof (owp_get_join_handle (heap w) mem self Hm) as Hget.
  destruct (get_join_handle mem self) as [r|] eqn:Hr; [|done]. apply wp_lift. simpl in Hget |- *.
  destruct (lookup_lt_is_Some_2 _ _ Hget) as [th Hth].
  apply wp_on_heap. unfold set_join_transition, read_thread, write_thread, wp, lift, deref, mbind, st_bind.
  rewrite Hh1, Hth. simpl. destruct (join_transition th) eqn:Hj; [done|]. simpl.
  apply (HQ t self r th); try done; [by eapply flow_fresh|by eapply flow_takes].
Qed.

(** C30: [JoinHandle::join] becomes a new transition from the place of the call
    to where it returns, and this transition is now the join transition of the
    thread whose handle is in the argument, which had none; nothing else about
    the thread, and no other shared object, changes.  Joining the thread again
    panics. *)
Theorem thread_joined f i args ps (mem : Memory) s e w w' :
  wf_world w → wf_places (net w) ps → wf_memory (heap w) mem → get_start_end_place ps = (s, e) →
  call_join f i args ps mem w = Ok (tt, w') →
  ∃ t self r th,
    extract_nth_argument_as_place args 0 = Some self ∧ get_join_handle mem self = Ok r ∧
    threads_ (heap w) !! thread_loc r = Some th ∧ join_transition th = None ∧
    ¬ has_transition (net w) t ∧ takes (net w') t [s] [e] ∧
    heap w' = mkHeap (mutexes (heap w)) (guards (heap w)) (condvars (heap w))
      (<[thread_loc r := mkThread (spawn_transition th) (thread_def_id th) (aggregate th) (Some t) (thread_index th)]>
         (threads_ (heap w))) ∧
    ∀ u, set_join_transition r u (heap w') = Err (Panic JoinTransitionSetTwice).
Proof.
  intros Hwf Hps Hm Hse. apply (wp_ok _ allowed (λ _ w', ∃ t self r th,
    extract_nth_argument_as_place args 0 = Some self ∧ get_join_handle mem self = Ok r ∧
    threads_ (heap w) !! thread_loc r = Some th ∧ join_transition th = None ∧
    ¬ has_transition (net w) t ∧ takes (net w') t [s] [e] ∧
    heap w' = mkHeap (mutexes (heap w)) (guards (heap w)) (condvars (heap w))
      (<[thread_loc r := mkThread (spawn_transition th) (thread_def_id th) (aggregate th) (Some t) (thread_index th)]>
         (threads_ (heap w))) ∧
    ∀ u, set_join_transition r u (heap w') = Err (Panic JoinTransitionSetTwice))).
  eapply wp_call_join_net; [done..|]. intros t self r th w1 H1 H2 H3 H4 H5 H6 Hh.
  exists t, self, r, th. split_and!; try done. intros u. rewrite Hh.
  unfold set_join_transition, read_thread, lift, deref, mbind, st_bind. simpl.
  by rewrite list_lookup_insert_eq by by eapply lookup_lt_Some.
Qed.
End sync_behaviour.
