(* ===== verification/ConditionSpec.v ===== *)
(** * The condition of a condition variable

    The fragment that [Mutex::link_to_condvar] adds (src/translator/sync/mutex.rs):
    two places for the value of the condition, set by the transitions that
    mutate the data behind the mutex, and the short circuit around the wait. *)

From S2P Require Import Prelude RustStr Netcrab Naming Rustc Function Heap Memory Sync Gadgets.
From S2P Require Import TokenGame.

Section condition.
Context `{LL : PetriNetLaws}.
Implicit Types (n : PetriNet) (t u ws : TransitionRef) (p q s e : PlaceRef) (m : Marking)
  (ts : list TransitionRef) (E : fault → Prop).

(** Same nodes and marking. *)
Record same_nodes n n' : Prop := {
  sn_places q : has_place n' q ↔ has_place n q;
  sn_transitions u : has_transition n' u ↔ has_transition n u;
  sn_marking q : marking n' q = marking n q;
}.

#[local] Instance same_nodes_preorder : PreOrder same_nodes.
Proof.
  split; [done|]. intros n1 n2 n3 [P1 T1 M1] [P2 T2 M2].
  split; intros; [by rewrite P2, P1|by rewrite T2, T1|by rewrite M2, M1].
Qed.

(** The loop over the transitions that set the condition. *)
Lemma wp_set_condition ts cns cs E (Q : unit → PetriNet → Prop) n :
  NoDup ts → has_place n cns → has_place n cs → (∀ u, u ∈ ts → has_transition n u) →
  (∀ u, u ∈ ts → pre n u cns = 0%N ∧ post n u cs = 0%N) →
  (∀ n', same_nodes n n' →
     (∀ u q, pre n' u q = if decide (u ∈ ts ∧ q = cns) then 1%N else pre n u q) →
     (∀ u q, post n' u q = if decide (u ∈ ts ∧ q = cs) then 1%N else post n u q) → Q tt n') →
  wp (for_each ts (λ t, add_arc_place_transition cns t;; add_arc_transition_place t cs)) E Q n.
Proof.
  revert n. induction ts as [|t ts IH]; intros n Hnd Hc1 Hc2 Hts Hz HQ.
  { apply wp_ret, HQ; [done| |]; intros u q; rewrite decide_False; try done;
      by intros [?%not_elem_of_nil _]. }
  apply NoDup_cons in Hnd as [Hni Hnd]. simpl. apply wp_bind, wp_bind.
  destruct (Hz t) as [Hz1 Hz2]; [by left|].
  apply wp_new_arc_place_transition; [done|by apply Hts; left|done|]. intros n1 P1 T1 M1 A1 B1.
  apply wp_new_arc_transition_place; [apply T1, Hts; by left|by apply P1|by rewrite B1|].
  intros n2 P2 T2 M2 A2 B2. apply IH; [done|by apply P2, P1|by apply P2, P1| | |].
  - intros u Hu. apply T2, T1, Hts. by right.
  - intros u Hu. assert (u ≠ t) by by intros ->. rewrite A2, A1, B2, B1.
    rewrite !decide_False by by intros [-> _]. apply Hz. by right.
  - intros n3 S3 A3 B3. apply HQ.
    + transitivity n2; [|done]. transitivity n1; split; intros; rewrite ?P2, ?T2, ?M2, ?P1, ?T1, ?M1; done.
    + intros u q. rewrite A3, A2, A1. repeat case_decide; try done; set_solver.
    + intros u q. rewrite B3, B2, B1. repeat case_decide; try done; set_solver.
Qed.

Record condition_net n n' ts s e ws cns cs (skip : TransitionRef) : Prop := {
  cd_fresh_places : ¬ has_place n cns ∧ ¬ has_place n cs ∧ cns ≠ cs;
  cd_fresh_skip : ¬ has_transition n skip;
  cd_places q : has_place n' q ↔ q = cns ∨ q = cs ∨ has_place n q;
  cd_transitions u : has_transition n' u ↔ u = skip ∨ has_transition n u;
  cd_marking q : marking n' q = if decide (q = cns) then 1%N else marking n q;
  cd_pre u q : has_transition n u → pre n' u q =
    if decide (q = cns) then (if decide (u ∈ ts ∨ u = ws) then 1%N else 0%N) else pre n u q;
  cd_post u q : has_transition n u → post n' u q =
    if decide (q = cns) then (if decide (u = ws) then 1%N else 0%N)
    else if decide (q = cs) then (if decide (u ∈ ts) then 1%N else 0%N) else post n u q;
  cd_skip_pre q : pre n' skip q = if decide (q = cs ∨ q = s) then 1%N else 0%N;
  cd_skip_post q : post n' skip q = if decide (q = cs ∨ q = e) then 1%N else 0%N;
}.

(** The transition around the wait, enabled while the condition is set. *)
Record guarded_skip n n' (skip : TransitionRef) s e cs : Prop := {
  gs_fresh : ¬ has_transition n skip;
  gs_places q : has_place n' q ↔ has_place n q;
  gs_transitions u : has_transition n' u ↔ u = skip ∨ has_transition n u;
  gs_marking q : marking n' q = marking n q;
  gs_pre q : pre n' skip q = if decide (q = cs ∨ q = s) then 1%N else 0%N;
  gs_post q : post n' skip q = if decide (q = cs ∨ q = e) then 1%N else 0%N;
  gs_pre_other u q : u ≠ skip → pre n' u q = pre n u q;
  gs_post_other u q : u ≠ skip → post n' u q = post n u q;
}.

Lemma wp_guarded_skip s e cs l E (Q : unit → PetriNet → Prop) n :
  has_place n s → has_place n e → has_place n cs → s ≠ cs → e ≠ cs →
  (∀ skip n', guarded_skip n n' skip s e cs → Q tt n') →
  wp (skip ← connect_places s e l;
      add_arc_place_transition cs skip;; add_arc_transition_place skip cs) E Q n.
Proof.
  intros Hs He Hcs D1 D2 HQ. apply wp_bind, wp_connect_places; [done..|].
  intros skip n1 [F1 T1 P1 M1 A1 B1 A1' B1' _].
  apply wp_bind, wp_new_arc_place_transition; [by apply P1|apply T1; by left| |].
  { rewrite A1, decide_False by congruence. done. }
  intros n2 P2 T2 M2 A2 B2.
  apply wp_new_arc_transition_place; [apply T2, T1; by left|by apply P2, P1| |].
  { rewrite B2, B1, decide_False by congruence. done. }
  intros n3 P3 T3 M3 A3 B3. apply (HQ skip). split.
  - done.
  - intros q. by rewrite P3, P2, P1.
  - intros u. by rewrite T3, T2, T1.
  - intros q. by rewrite M3, M2, M1.
  - intros q. rewrite A3, A2, A1. repeat case_decide; intuition congruence.
  - intros q. rewrite B3, B2, B1. repeat case_decide; intuition congruence.
  - intros u q Hu. rewrite A3, A2, decide_False by (intros [? _]; congruence). by apply A1'.
  - intros u q Hu. rewrite B3, decide_False, B2 by (intros [? _]; congruence). by apply B1'.
Qed.

Lemma wp_link_to_condvar_net x i s e ws E (Q : unit → PetriNet → Prop) n :
  deref_mut x ≠ [] → NoDup (deref_mut x) → ws ∉ deref_mut x →
  (∀ u, u ∈ deref_mut x → has_transition n u) → has_transition n ws →
  has_place n s → has_place n e →
  (∀ cns cs skip n', condition_net n n' (deref_mut x) s e ws cns cs skip → Q tt n') →
  wp (link_to_condvar x i s e ws) E Q n.
Proof.
  intros Hne Hnd Hws Hts Htw Hs He HQ. unfold link_to_condvar.
  destruct (deref_mut x) as [|t0 ts0]; [done|]. set (ts := t0 :: ts0) in *. clearbody ts.
  cbn [mutex.condition_place_labels]. apply wp_marked_pair.
  intros cns cs n3 [(F1 & F2 & D) P3 T3 M3 A3 B3].
  assert (Hz : ∀ u q, q = cns ∨ q = cs → pre n u q = 0%N ∧ post n u q = 0%N).
  { intros u q Hq. apply no_place_arcs. by destruct Hq as [->| ->]. }
  apply wp_bind. apply wp_set_condition; [done|apply P3; auto|apply P3; auto| | |].
  { intros u Hu. by apply T3, Hts. }
  { intros u Hu. rewrite A3, B3. split; apply Hz; auto. }
  intros n4 [P4 T4 M4] A4 B4.
  apply wp_bind, wp_new_arc_place_transition; [by apply P4, P3; left|by apply T4, T3| |].
  { rewrite A4, decide_False, A3 by tauto. apply Hz. auto. }
  intros n5 P5 T5 M5 A5 B5.
  apply wp_bind, wp_new_arc_transition_place; [by apply T5, T4, T3|by apply P5, P4, P3; left| |].
  { rewrite B5, B4, decide_False, B3 by tauto. apply Hz. auto. }
  intros n6 P6 T6 M6 A6 B6.
  apply wp_guarded_skip; [by apply P6, P5, P4, P3; auto..|by intros ->|by intros ->|].
  intros skip n7 [F7 P7 T7 M7 A7 B7 A7' B7']. rewrite T6, T5, T4, T3 in F7. apply (HQ cns cs skip). split.
  - done.
  - done.
  - intros q. by rewrite P7, P6, P5, P4, P3.
  - intros u. by rewrite T7, T6, T5, T4, T3.
  - intros q. by rewrite M7, M6, M5, M4, M3.
  - intros u q Hu. rewrite A7', A6, A5, A4, A3 by (by intros ->).
    destruct (Hz u cns) as [Hz1 _]; [by left|]. repeat case_decide; subst; intuition congruence.
  - intros u q Hu. rewrite B7', B6, B5, B4, B3 by (by intros ->).
    destruct (Hz u cns) as [_ Hz1]; [by left|]. destruct (Hz u cs) as [_ Hz2]; [by right|].
    repeat case_decide; subst; intuition congruence.
  - done.
  - done.
Qed.

(** C26: linking a mutex to a condition variable succeeds and adds a
    condition with two states.  Initially it is not set; each transition that
    mutates the data moves it from not set to set, a wait can only start while
    it is not set, and only while it is set the call can be skipped. *)
Theorem condition_linked x i s e ws n :
  deref_mut x ≠ [] → NoDup (deref_mut x) → ws ∉ deref_mut x →
  (∀ u, u ∈ deref_mut x → has_transition n u) → has_transition n ws →
  has_place n s → has_place n e →
  ∃ n' cns cs skip, link_to_condvar x i s e ws n = Ok (tt, n') ∧
    condition_net n n' (deref_mut x) s e ws cns cs skip.
Proof.
  intros Hne Hnd Hws Hts Htw Hs He.
  pose proof (wp_link_to_condvar_net x i s e ws (λ _, False)
    (λ _ n', ∃ cns cs skip, condition_net n n' (deref_mut x) s e ws cns cs skip) n) as H.
  unfold wp in H. destruct (link_to_condvar x i s e ws n) as [[[] n']|].
  - exists n'. destruct H as (cns & cs & skip & C); eauto 10.
  - exfalso. apply H; eauto.
Qed.

(** ** The condition is set once *)

(** Nothing but [ws] puts a token into [condition_not_set], and [ws] returns
    the one it took. *)
Lemma condition_not_set_falls n n' ts s e ws cns cs skip k m m' :
  condition_net n n' ts s e ws cns cs skip → s ≠ cns → e ≠ cns →
  (m cns ≤ k)%N → reachable n' m m' → (m' cns ≤ k)%N.
Proof.
  intros C Hs He Hm Hr. revert Hm Hr. apply (reachable_invariant n' (λ m, (m cns ≤ k)%N)).
  - intros m1 m2 Heq Hm1. by rewrite <-(Heq cns).
  - intros m1 u Hm1 [Hu Hen]. specialize (Hen cns). unfold fire.
    apply (cd_transitions _ _ _ _ _ _ _ _ _ C) in Hu as [->|Hu].
    + rewrite (cd_skip_post _ _ _ _ _ _ _ _ _ C).
      destruct (cd_fresh_places _ _ _ _ _ _ _ _ _ C) as (_ & _ & D).
      rewrite decide_False by (intros [?|?]; congruence). lia.
    + rewrite (cd_pre _ _ _ _ _ _ _ _ _ C), (decide_True (P := cns = cns)) in Hen by done.
      rewrite (cd_pre _ _ _ _ _ _ _ _ _ C), (cd_post _ _ _ _ _ _ _ _ _ C), !(decide_True (P := cns = cns)) by done.
      repeat case_decide; subst; try lia. naive_solver lia.
Qed.

(** Each transition that mutates the data takes the token of [condition_not_set]. *)
Lemma mutation_takes_not_set n n' ts s e ws cns cs skip t m :
  condition_net n n' ts s e ws cns cs skip → t ∈ ts → has_transition n t → ws ∉ ts →
  enabled n' m t → (0 < m cns)%N ∧ fire n' t m cns = (m cns - 1)%N.
Proof.
  intros C Ht Hn Hws [_ Hen]. specialize (Hen cns). unfold fire.
  rewrite (cd_pre _ _ _ _ _ _ _ _ _ C), (cd_post _ _ _ _ _ _ _ _ _ C) in * by done.
  rewrite !(decide_True (P := cns = cns)), (decide_True (P := t ∈ ts ∨ _)) in * by auto.
  rewrite (decide_False (P := t = ws)) by (intros ->; done). lia.
Qed.

(** C27: in the net that [Mutex::link_to_condvar] leaves, run from its initial
    marking: once a transition that mutates the data behind the mutex has fired,
    no such transition is enabled again, in any marking reachable from there.
    The token that each of them takes is never returned, so a program that
    writes to the data a second time is blocked in the net. *)
Theorem condition_set_only_once x i s e ws n n' m t m' u :
  deref_mut x ≠ [] → NoDup (deref_mut x) → ws ∉ deref_mut x →
  (∀ u, u ∈ deref_mut x → has_transition n u) → has_transition n ws →
  has_place n s → has_place n e →
  link_to_condvar x i s e ws n = Ok (tt, n') →
  reachable n' (marking n') m → t ∈ deref_mut x → enabled n' m t →
  reachable n' (fire n' t m) m' → u ∈ deref_mut x → ¬ enabled n' m' u.
Proof.
  intros Hne Hnd Hws Hts Htw Hs He Hrun Hm Ht Hen Hr Hu Hen'.
  pose proof (wp_link_to_condvar_net x i s e ws (λ _, False)
    (λ _ n', ∃ cns cs skip, condition_net n n' (deref_mut x) s e ws cns cs skip) n) as H.
  unfold wp in H. rewrite Hrun in H. destruct H as (cns & cs & skip & C); [by eauto 10..|].
  destruct (cd_fresh_places _ _ _ _ _ _ _ _ _ C) as (F1 & F2 & D).
  assert (Hsc : s ≠ cns) by (by intros ->). assert (Hec : e ≠ cns) by (by intros ->).
  assert (H1 : (m cns ≤ 1)%N).
  { eapply condition_not_set_falls; [done..| |done].
    by rewrite (cd_marking _ _ _ _ _ _ _ _ _ C), decide_True. }
  destruct (mutation_takes_not_set _ _ _ _ _ _ _ _ _ t m C) as [_ H2]; auto.
  assert (H3 : (m' cns ≤ 0)%N).
  { eapply condition_not_set_falls; [done..| |done]. lia. }
  destruct (mutation_takes_not_set _ _ _ _ _ _ _ _ _ u m' C) as [H4 _]; auto. lia.
Qed.
End condition.
