(* ===== verification/Handlers.v ===== *)
(** * Which handler a call reaches, and what it may panic with

    Facts about the dispatch of sync.rs and about the memory
    (src/translator/mir_function/memory.rs): aliases, aggregates, and the
    variables that a closure captures for its thread. *)

From S2P Require Import Prelude RustStr Netcrab Naming Rustc Function Heap Memory Sync.

Section never_handlers.
Context `{L : PetriNetLib}.

Abbreviation missing := (Panic CallHandlerNotDefined).

Lemma add_token_never p k : never missing (add_token p k).
Proof. intros n. unfold add_token. by destruct (net_add_token n p k). Qed.
Lemma arc_pt_never p t : never missing (add_arc_place_transition p t).
Proof. intros n. unfold add_arc_place_transition. by destruct (net_add_arc_place_transition n p t). Qed.
Lemma arc_tp_never t p : never missing (add_arc_transition_place t p).
Proof. intros n. unfold add_arc_transition_place. by destruct (net_add_arc_transition_place n t p). Qed.
Lemma add_place_never l : never missing (add_place l).
Proof. done. Qed.
Lemma add_transition_never l : never missing (add_transition l).
Proof. done. Qed.
#[local] Hint Resolve add_token_never arc_pt_never arc_tp_never add_place_never add_transition_never : never.

Lemma connect_never s e l : never missing (connect_places s e l).
Proof. unfold connect_places. solve_never. Qed.
#[local] Hint Resolve connect_never : never.

Lemma foreign_never f i ps : never missing (call_foreign_function f i ps).
Proof. unfold call_foreign_function. destruct ps; simpl; solve_never. Qed.
#[local] Hint Resolve foreign_never : never.

Lemma get_linked_inserted m p v : get_linked_value (insert_value m p v) p = Ok v.
Proof. unfold get_linked_value, insert_value. simpl. by rewrite lookup_insert_eq. Qed.

Lemma get_never m p :
  get_mutex m p ≠ Err missing ∧ get_mutex_guard m p ≠ Err missing ∧
  get_condvar m p ≠ Err missing ∧ get_join_handle m p ≠ Err missing.
Proof.
  unfold get_mutex, get_mutex_guard, get_condvar, get_join_handle, get_linked_value.
  destruct (map m !! p) as [[]|]; by split_and!.
Qed.
Lemma read_mutex_never r : never missing (read_mutex r).
Proof. intros h. unfold read_mutex, lift. by destruct (mutexes h !! mutex_loc r). Qed.
Lemma read_guard_never r : never missing (read_guard r).
Proof. intros h. unfold read_guard, lift. by destruct (guards h !! guard_loc r). Qed.
Lemma read_condvar_never r : never missing (read_condvar r).
Proof. intros h. unfold read_condvar, lift. by destruct (condvars h !! condvar_loc r). Qed.
Lemma read_thread_never r : never missing (read_thread r).
Proof. intros h. unfold read_thread, lift. by destruct (threads_ h !! thread_loc r). Qed.
Lemma link_mutex_never m p x : never missing (link_mutex m p x).
Proof. intros h. unfold link_mutex, mbind, st_bind, lift. simpl. by rewrite get_linked_inserted. Qed.
Lemma link_mutex_guard_never m p g : never missing (link_mutex_guard m p g).
Proof. intros h. unfold link_mutex_guard, mbind, st_bind, lift. simpl. by rewrite get_linked_inserted. Qed.
Lemma link_condvar_never m p c : never missing (link_condvar m p c).
Proof. intros h. unfold link_condvar, mbind, st_bind, lift. simpl. by rewrite get_linked_inserted. Qed.
Lemma link_same_never m p q : link_place_to_same_value m p q ≠ Err missing.
Proof. unfold link_place_to_same_value. by destruct (map m !! q). Qed.

Lemma on_net_never {A} (m : ST PetriNet A) : never missing m → never missing (on_net m).
Proof. apply never_zoom. Qed.
Lemma on_heap_never {A} (m : ST Heap A) : never missing m → never missing (on_heap m).
Proof. apply never_zoom. Qed.

#[local] Hint Resolve read_mutex_never read_guard_never read_condvar_never read_thread_never
  link_mutex_never link_mutex_guard_never link_condvar_never link_same_never
  on_net_never on_heap_never : never.
#[local] Hint Extern 1 (get_mutex _ _ ≠ _) => apply get_never : never.
#[local] Hint Extern 1 (get_mutex_guard _ _ ≠ _) => apply get_never : never.
#[local] Hint Extern 1 (get_condvar _ _ ≠ _) => apply get_never : never.
#[local] Hint Extern 1 (get_join_handle _ _ ≠ _) => apply get_never : never.

Lemma call_lock_never f i args dest ps m : never missing (call_lock f i args dest ps m).
Proof. unfold call_lock, add_lock_arc. solve_never. Qed.
Lemma call_new_mutex_never f i dest ps m : never missing (call_new_mutex f i dest ps m).
Proof. unfold call_new_mutex, mutex_new. solve_never. Qed.
Lemma call_new_condvar_never f i dest ps m : never missing (call_new_condvar f i dest ps m).
Proof. unfold call_new_condvar, condvar_new. cbn [condvar.place_labels condvar.transition_labels]. solve_never. Qed.
Lemma call_notify_one_never f i args ps m : never missing (call_notify_one f i args ps m).
Proof. unfold call_notify_one, link_to_notify_one_call. solve_never. Qed.
Lemma link_wait_never r s e g : never missing (link_to_wait_call r s e g).
Proof. unfold link_to_wait_call, add_unlock_arc, add_lock_arc, write_condvar. solve_never. Qed.
#[local] Hint Resolve link_wait_never : never.
Lemma call_wait_never f i args dest ps m : never missing (call_wait f i args dest ps m).
Proof. unfold call_wait. solve_never. Qed.
Lemma set_join_never r t : never missing (set_join_transition r t).
Proof. unfold set_join_transition, write_thread. solve_never. Qed.
#[local] Hint Resolve set_join_never : never.
Lemma call_join_never f i args ps m : never missing (call_join f i args ps m).
Proof. unfold call_join. solve_never. Qed.
#[local] Hint Resolve call_lock_never call_new_mutex_never call_new_condvar_never
  call_notify_one_never call_wait_never call_join_never : never.

Lemma supported_names f :
  is_supported_function f = true ↔
  f ∈ ["std::sync::Condvar::new"; "std::sync::Condvar::notify_one"; "std::sync::Condvar::wait";
       "std::sync::Condvar::wait_while"; "std::sync::Mutex::<T>::lock"; "std::sync::Mutex::<T>::new";
       "std::thread::spawn"; "std::thread::JoinHandle::<T>::join"].
Proof. apply bool_decide_eq_true. Qed.

(** C31: the dispatch of [sync::call_function] and [is_supported_function]
    agree: a supported function other than [std::thread::spawn], which the
    translator handles itself, reaches a handler, whatever the state; and an
    unsupported one reaches none. *)
Theorem sync_dispatch_complete f i args dest ps (m : Memory) (w : World) :
  f ≠ "std::thread::spawn" →
  (is_supported_function f = true → sync_call_function f i args dest ps m w ≠ Err missing) ∧
  (is_supported_function f = false → sync_call_function f i args dest ps m w = Err missing).
Proof.
  intros Hspawn. split.
  - intros Hsup%supported_names. cut (never missing (sync_call_function f i args dest ps m)); [by intros H|].
    unfold sync_call_function.
    repeat case_bool_decide; simpl; try (solve_never; fail). set_solver.
  - intros Hsup%not_true_iff_false. rewrite supported_names in Hsup. unfold sync_call_function.
    rewrite !bool_decide_eq_false_2 by (intros ->; apply Hsup; set_solver). done.
Qed.
End never_handlers.

Section memory_facts.
Context `{L : PetriNetLib}.
Implicit Types (m : Memory) (p q : Place).

(** An assignment, borrow or move makes an alias: afterwards both places
    hold the same shared object, every other place is as before; it panics if
    and only if the right-hand side holds nothing. *)
Theorem link_makes_alias m p q :
  match link_place_to_same_value m p q with
  | Ok m' => map m' !! p = map m !! q ∧ is_Some (map m !! q) ∧ ∀ x, x ≠ p → map m' !! x = map m !! x
  | Err f => map m !! q = None ∧ f = Panic PlaceNotLinked
  end.
Proof.
  unfold link_place_to_same_value. destruct (map m !! q) as [v|] eqn:Hq; simpl; [|done].
  split; [by rewrite lookup_insert_eq|]. split; [by eexists|].
  intros x Hx. by rewrite lookup_insert_ne.
Qed.

(** The values of an aggregate are those of the places it was made of. *)
Lemma collect_values_spec m ps vs :
  collect_values m ps = Ok vs → Forall2 (λ p v, map m !! p = Some v) ps vs.
Proof.
  revert vs. induction ps as [|p ps IH]; intros vs; simpl; [by intros [= <-]|].
  unfold get_linked_value. destruct (map m !! p) as [v|] eqn:Hv; [|done]. simpl.
  destruct (collect_values m ps) as [vs'|]; [|done]. intros [= <-]. constructor; auto.
Qed.

Lemma create_aggregate_spec m m1 p ps :
  create_aggregate m p ps = Ok m1 →
  ∃ vs, map m1 = <[p := VAggregate vs]> (map m) ∧ Forall2 (λ q v, map m !! q = Some v) ps vs.
Proof.
  unfold create_aggregate. destruct (collect_values m ps) as [vs|] eqn:Hvs; [|done]. simpl.
  unfold link_aggregate. destruct (map m !! p); [done|]. intros [= <-]. exists vs.
  split; [done|]. by apply collect_values_spec.
Qed.

(** Taking a field out of an aggregate into a new place. *)
Lemma link_field_lookup m p vs x (i : N) :
  map m !! p = Some (VAggregate vs) → map m !! x = None →
  link_field_in_aggregate m x p i =
    match vs !! N.to_nat i with
    | Some v => Ok (insert_value m x v)
    | None => Err (Panic FieldIndexOutOfBounds)
    end.
Proof.
  intros Hp Hx. unfold link_field_in_aggregate. rewrite Hp. simpl.
  destruct (vs !! N.to_nat i); simpl; by rewrite ?Hx.
Qed.

(** C32: an aggregate keeps its fields: what was gathered from the places
    [ps] into [p] and then taken out of field [i] is the object of the [i]-th
    place, provided the target is a new place. *)
Theorem aggregate_field_roundtrip m m1 p ps (i : N) q x :
  create_aggregate m p ps = Ok m1 → ps !! N.to_nat i = Some q →
  map m !! x = None → x ≠ p →
  ∃ m2, link_field_in_aggregate m1 x p i = Ok m2 ∧ map m2 !! x = map m !! q ∧
    ∀ y, y ≠ x → y ≠ p → map m2 !! y = map m !! y.
Proof.
  intros (vs & Hm1 & Hvs)%create_aggregate_spec Hq Hx Hne.
  destruct (Forall2_lookup_l _ _ _ _ _ Hvs Hq) as (v & Hv & Hmq).
  rewrite (link_field_lookup m1 p vs) by (rewrite Hm1, ?lookup_insert_eq, ?lookup_insert_ne; done).
  rewrite Hv. eexists. split; [done|]. simpl. rewrite Hm1, lookup_insert_eq. split; [done|].
  intros y Hy1 Hy2. by rewrite !lookup_insert_ne.
Qed.

(** C33: the fields of an aggregate that mixes variables: the operands that are
    not synchronization variables are left out, so the value of the operand at
    position [i] is kept under the number of synchronization variables before
    it, and asking for field [i], as the MIR does, panics if there are not more
    than [i] of them. *)
Theorem mixed_aggregate_shifts_fields (tcx : TyCtxt) d m m1 p operands i q x :
  handle_aggregate_assignment tcx p operands m d = Ok m1 →
  operands !! i = Some (Copy q) ∨ operands !! i = Some (Move q) →
  check_if_sync_variable tcx q d = true →
  map m !! x = None → x ≠ p →
  let kept l := length (places_with_sync_variables tcx l d) in
  (∃ m2, link_field_in_aggregate m1 x p (N.of_nat (kept (take i operands))) = Ok m2 ∧
     map m2 !! x = map m !! q) ∧
  (kept operands ≤ i →
     link_field_in_aggregate m1 x p (N.of_nat i) = Err (Panic FieldIndexOutOfBounds)).
Proof.
  intros Hagg Hop Hsync Hx Hne kept.
  set (ps := places_with_sync_variables tcx operands d).
  assert (Hps : ps !! kept (take i operands) = Some q).
  { assert (ps = places_with_sync_variables tcx (take i operands) d ++
              places_with_sync_variables tcx (drop i operands) d) as ->.
    { unfold ps, places_with_sync_variables. by rewrite <-omap_app, take_drop. }
    unfold kept. rewrite lookup_app_r, Nat.sub_diag by done. unfold places_with_sync_variables.
    by destruct Hop as [Hop|Hop]; rewrite (drop_S _ _ _ Hop); simpl; rewrite Hsync. }
  unfold handle_aggregate_assignment in Hagg. fold ps in Hagg. destruct ps as [|p0 ps'] eqn:E; [done|].
  rewrite <-E in *. clear E p0 ps'.
  apply create_aggregate_spec in Hagg as (vs & Hm1 & Hvs).
  assert (Hp : map m1 !! p = Some (VAggregate vs)) by (by rewrite Hm1, lookup_insert_eq).
  assert (Hx1 : map m1 !! x = None) by (by rewrite Hm1, lookup_insert_ne).
  rewrite !(link_field_lookup m1 p vs) by done. rewrite !Nat2N.id. split.
  - destruct (Forall2_lookup_l _ _ _ _ _ Hvs Hps) as (v & -> & Hq). eexists. split; [done|].
    simpl. by rewrite lookup_insert_eq.
  - intros Hle. rewrite lookup_ge_None_2; [done|]. by rewrite <-(Forall2_length _ _ _ Hvs).
Qed.

(** Linking the captured variables never overwrites a place. *)
Lemma link_debug_places_spec m m' base vs infos :
  link_debug_places m base infos = Ok m' → map m !! base = Some (VAggregate vs) →
  map m ⊆ map m' ∧
  ∀ p i, DebugPlace p ∈ infos → local p = 1%N → get_field_number_in_projection p = Ok i →
    is_Some (map m' !! p) ∧ map m' !! p = vs !! N.to_nat i.
Proof.
  revert m. induction infos as [|[p|] infos IH]; intros m Hrun Hbase; simpl in Hrun.
  - injection Hrun as <-. split; [done|]. by intros ? ? ?%not_elem_of_nil.
  - case_bool_decide as Hl.
    + destruct (IH _ Hrun Hbase) as [H1 H2]. split; [done|].
      intros q i [[= ->]|Hq]%elem_of_cons Hq1; [done|]. by apply H2.
    + destruct (get_field_number_in_projection p) as [k|] eqn:Hk; [|done]. simpl in Hrun.
      unfold link_field_in_aggregate in Hrun at 1. rewrite Hbase in Hrun. simpl in Hrun.
      destruct (vs !! N.to_nat k) as [v|] eqn:Hv; [|done]. simpl in Hrun.
      destruct (map m !! p) as [|] eqn:Hp; [done|]. simpl in Hrun.
      assert (Hsub : map m ⊆ map (insert_value m p v)) by (simpl; by apply insert_subseteq).
      destruct (IH _ Hrun) as [H1 H2]; [by eapply lookup_weaken|].
      split; [by etransitivity|]. intros q i [[= ->]|Hq]%elem_of_cons Hq1 Hi; [|by apply H2].
      assert (k = i) as -> by congruence. rewrite Hv.
      assert (Hlk : map m' !! p = Some v).
      { eapply lookup_weaken, H1. simpl. by rewrite lookup_insert_eq. }
      rewrite Hlk. split; [by eexists|done].
  - destruct (IH _ Hrun Hbase) as [H1 H2]. split; [done|].
    intros q i [|Hq]%elem_of_cons; [done|]. by apply H2.
Qed.

(** C34: a thread sees the variables its closure captured: after
    [move_sync_variables], every place that the debug information of the
    closure names as field [i] of the captured state holds the [i]-th value
    that was moved into the thread. *)
Theorem captured_variables_reach_thread (tcx : TyCtxt) (th : Thread) m p i :
  move_sync_variables tcx th empty_memory = Ok m →
  DebugPlace p ∈ var_debug_info tcx (thread_def_id th) → local p = 1%N →
  get_field_number_in_projection p = Ok i →
  is_Some (map m !! p) ∧ map m !! p = aggregate th !! N.to_nat i.
Proof.
  unfold move_sync_variables, link_aggregate. simpl. intros Hrun Hp Hl Hi.
  eapply link_debug_places_spec; [exact Hrun| |done..]. simpl. by rewrite lookup_insert_eq.
Qed.
End memory_facts.
