(* ===== verification/Examples.v ===== *)
(** * The example programs

    The translation run on programs under examples/programs: it produces the
    nets under examples/results, and the model checker's question has the
    answer that tests/ expects.  Then instances of the general theorems on these
    programs. *)

From S2P Require Import Prelude RustStr DataStructures PriorityQueue Netcrab NetModel Naming Rustc.
From S2P Require Import Function Heap Memory Sync MirFunction Translator Programs ThreadPrograms TokenGame Explore Certificates ExpectedResults.

Definition program_end_ref : ref := ("PROGRAM_END", 1%N).
Definition program_panic_ref : ref := ("PROGRAM_PANIC", 0%N).

(** Evaluate a test on the net of a program. *)
Definition on_net_of (p : Program) (fuel : nat) (test : SNet → bool) : bool :=
  match translate (tcx_of p) fuel fuel with Ok n => test n | Err _ => false end.

Lemma on_net_of_ok p fuel test :
  on_net_of p fuel test = true → ∃ n : SNet, translate (tcx_of p) fuel fuel = Ok n ∧ test n = true.
Proof. unfold on_net_of. destruct (translate _ _ _) as [n|]; [|done]. eauto. Qed.

Lemma all_of_forallb_zip {A B} (f : A * B → bool) l k :
  length l = length k → forallb f (zip l k) = true → Forall2 (λ x y, f (x, y) = true) l k.
Proof.
  revert k. induction l as [|x l IH]; intros [|y k]; simpl; try done. rewrite andb_true_iff. intros ? [? ?].
  constructor; auto.
Qed.
Lemma all_of_forallb {A} (f : A → bool) l : forallb f l = true → Forall (λ x, f x = true) l.
Proof. rewrite forallb_forall, Forall_forall. intros H x Hx. by apply H, list_elem_of_In. Qed.

(** The translation reproduces the results stored in the repository: for
    each of its thirty-two example programs, from the empty [main] to the dining
    philosophers, the net is node for node and arc for arc the one of
    examples/results. *)
Lemma translations_match_stored_nets :
  Forall (λ '(p, stored, _), translates_to 6 p stored = true) expected_results.
Proof.
  eapply Forall_impl; [apply (all_of_forallb (λ '(p, stored, _), translates_to 6 p stored)); vm_compute; reflexivity|].
  by intros [[p stored] expected].
Qed.

(** The question to the model checker, answered with a certificate. *)
Lemma verdict_by_evidence p fuel e expected :
  on_net_of p fuel (λ n, check_evidence e expected n program_end_ref program_panic_ref) = true →
  ∃ n : SNet, translate (tcx_of p) fuel fuel = Ok n ∧
    (expected = true ↔ deadlock_reachable n program_end_ref program_panic_ref).
Proof. intros (n & Hn & Ht%check_evidence_correct)%on_net_of_ok. by exists n. Qed.

(** C28: the nets have the deadlocks that the tests of the repository expect: a
    marking in which nothing can fire and neither [PROGRAM_END] nor
    [PROGRAM_PANIC] has a token is reachable exactly for those of the thirty-two
    example programs of which tests/lola.rs says so. *)
Theorem example_verdicts :
  Forall (λ '(p, _, expected), ∃ n : SNet, translate (tcx_of p) 6 6 = Ok n ∧
    (expected = true ↔ deadlock_reachable n program_end_ref program_panic_ref)) expected_results.
Proof.
  eapply Forall2_Forall_l; [apply (all_of_forallb_zip (λ '(p, _, expected, e), on_net_of p 6 (λ n,
    check_evidence e expected n program_end_ref program_panic_ref)) _ evidence); [reflexivity|vm_compute; reflexivity]|].
  apply Forall_forall. intros e _ [[p stored] expected]. apply verdict_by_evidence.
Qed.

(** The index of a thread is the length of the queue when it is spawned (see
    [thread_spawned]), and threads leave the queue to be translated: if a thread
    spawns a thread, both have the same index. *)
Definition thread_indices (p : Program) (fuel : nat) : outcome (list N) :=
  t ← translator_new; '(_, t) ← run (tcx_of p) fuel fuel t; Ok (thread_index <$> threads_ (heap (world t))).
Lemma nested_threads_share_index : thread_indices nested_spawn 3 = Ok [0%N; 0%N].
Proof. vm_compute. reflexivity. Qed.

(** The fields of an aggregate that mixes variables are shifted (see
    [mixed_aggregate_shifts_fields]): a closure that captures a number before a
    mutex cannot be translated. *)
Lemma captured_number_panics :
  translate (tcx_of capture_number_and_mutex) 3 3 = Err (Panic FieldIndexOutOfBounds).
Proof. vm_compute. reflexivity. Qed.
