(* ===== verification/Witnesses.v ===== *)
(** * Instances of the theorems

    Each lemma applies one of the theorems to a concrete input on which its
    hypotheses hold: an example program, or a state that the translation of one
    goes through, over the nets of [NetModel]. *)

From S2P Require Import Prelude RustStr DataStructures PriorityQueue Netcrab NetModel Naming Rustc.
From S2P Require Import Function Heap Memory Sync MirFunction Translator Programs TokenGame World.
From S2P Require Import WorldSpec SyncSpec Gadgets SyncCalls FrameSpec ControlFlow TranslatorSpec.
From S2P Require Import VisitSpec BodySpec ProgramSpec Fuel Soundness Threads Termination Postprocessing SyncBehaviour.
From S2P Require Import ConditionSpec Handlers Final.

(** The value of a computation that succeeds. *)
Definition is_ok {A} (o : outcome A) : Prop := match o with Ok _ => True | Err _ => False end.
Definition get_ok {A} (o : outcome A) : is_ok o → A :=
  match o with Ok a => λ _, a | Err _ => λ H, match H with end end.
Lemma get_ok_eq {A} (o : outcome A) (H : is_ok o) : o = Ok (get_ok o H).
Proof. by destruct o. Qed.

Lemma get_ok_state {S} (o : outcome (unit * S)) (H : is_ok o) : o = Ok (tt, (get_ok o H).2).
Proof. by destruct o as [[[] ?]|]. Qed.

Definition is_found {A} (o : option A) : Prop := match o with Some _ => True | None => False end.
Definition get_some {A} (o : option A) : is_found o → A :=
  match o with Some a => λ _, a | None => λ H, match H with end end.
Lemma get_some_eq {A} (o : option A) (H : is_found o) : o = Some (get_some o H).
Proof. by destruct o. Qed.

(** ** Whole programs *)

Definition main_id : DefId := mkDefId 0 0.
Definition two_calls : TyCtxt := tcx_of two_calls_same_function.

Definition two_calls_ok : is_ok (translate two_calls 3 3) := I.
Definition two_calls_net : PetriNet := get_ok (translate two_calls 3 3) two_calls_ok.

Lemma in_blocks {A} (l : list A) i x : l !! i = Some x → x ∈ l.
Proof. apply list_elem_of_lookup_2. Qed.

Lemma simple_function_returns : can_return two_calls (mkDefId 0 1).
Proof. exists 0%N. split; [done|]. apply returns_return. by apply (in_blocks _ 0). Qed.

Lemma two_calls_returns : can_return two_calls main_id.
Proof.
  destruct simple_function_returns as (b0 & He & Hr). exists 0%N. split; [done|].
  eapply returns_call; [by apply (in_blocks _ 0)|done|done|exact He|exact Hr|].
  eapply (returns_succ _ _ _ _ 3); [by apply (in_blocks _ 1)|simpl; set_solver|].
  eapply returns_call; [by apply (in_blocks _ 3)|done|done|exact He|exact Hr|].
  apply returns_return. by apply (in_blocks _ 4).
Qed.

Lemma two_calls_panics : can_panic two_calls main_id.
Proof.
  destruct simple_function_returns as (b0 & He & Hr). exists 0%N. split; [done|].
  eapply panics_after_call; [by apply (in_blocks _ 0)|done|done|exact He|exact Hr|].
  eapply (panics_succ _ _ _ _ 2); [by apply (in_blocks _ 1)|simpl; set_solver|].
  eapply panics_panic; [by apply (in_blocks _ 2)|done|done].
Qed.

Lemma translate_initial_marking_witness :
  ∃ start end_ panic : PlaceRef,
    (has_place two_calls_net start ∧ place_ref_label start = PROGRAM_START ∧ marking two_calls_net start = 1%N) ∧
    (has_place two_calls_net end_ ∧ place_ref_label end_ = PROGRAM_END ∧ marking two_calls_net end_ = 0%N) ∧
    (has_place two_calls_net panic ∧ place_ref_label panic = PROGRAM_PANIC ∧ marking two_calls_net panic = 0%N).
Proof. apply (translate_initial_marking two_calls 3 3 two_calls_net). apply get_ok_eq. Defined.

(** A program that synchronizes. *)
Definition double_lock_ok : is_ok (translate (tcx_of double_lock_deadlock) 3 3) := I.
Definition double_lock_translated : PetriNet := get_ok _ double_lock_ok.

Lemma ended_stays_ended_witness :
  ∃ end_ panic : PlaceRef,
    (has_place double_lock_translated end_ ∧ place_ref_label end_ = PROGRAM_END) ∧
    (has_place double_lock_translated panic ∧ place_ref_label panic = PROGRAM_PANIC) ∧
    (∀ t, pre double_lock_translated t end_ = 0%N ∧ pre double_lock_translated t panic = 0%N) ∧
    ∀ m m', reachable double_lock_translated m m' →
      (0 < m end_)%N ∨ (0 < m panic)%N → (0 < m' end_)%N ∨ (0 < m' panic)%N.
Proof. apply (ended_stays_ended (tcx_of double_lock_deadlock) 3 3 double_lock_translated). apply get_ok_eq. Defined.

Lemma translate_can_return_witness :
  ∃ (end_ : PlaceRef) (m : Marking), place_ref_label end_ = PROGRAM_END ∧
    reachable two_calls_net (marking two_calls_net) m ∧ (0 < m end_)%N.
Proof.
  apply (translate_can_return two_calls 3 3 two_calls_net main_id);
    [apply get_ok_eq|reflexivity|apply two_calls_returns].
Defined.

Lemma translate_can_panic_witness :
  ∃ (panic : PlaceRef) (m : Marking), place_ref_label panic = PROGRAM_PANIC ∧
    reachable two_calls_net (marking two_calls_net) m ∧ (0 < m panic)%N.
Proof.
  apply (translate_can_panic two_calls 3 3 two_calls_net main_id);
    [apply get_ok_eq|reflexivity|apply two_calls_panics].
Defined.

(** [main] calls a function that calls itself. *)
Lemma recursive_cycle : call_cycle (tcx_of recursive_main) (λ d, d = main_id ∨ d = mkDefId 0 1).
Proof.
  intros d [->| ->]; exists (mkDefId 0 1); (split; [|by right]).
  - exists (Call (fn 1) [scalar] (loc 1) (Some 1%N) UnwindContinue). split; [by apply (in_blocks _ 1)|].
    eexists _, _, _, _, _. by split_and!.
  - exists (Call (fn 1) [Copy (loc 2)] (loc 0) (Some 1%N) UnwindContinue). split; [by apply (in_blocks _ 5)|].
    eexists _, _, _, _, _. by split_and!.
Qed.

Lemma recursion_never_translated_witness : translate (tcx_of recursive_main) 100 100 ≠ Ok two_calls_net.
Proof.
  apply (recursion_never_translated (tcx_of recursive_main) (λ d, d = main_id ∨ d = mkDefId 0 1) main_id);
    [apply recursive_cycle|by left|reflexivity].
Defined.

(** [main] spawns the closure, and nothing else calls or spawns a function. *)
Definition spawning : TyCtxt := tcx_of spawn_with_empty_closure.
Definition spawning_rank (d : DefId) : nat := if (def_index d =? 0)%N then 1 else 0.

Ltac each_visit Hk :=
  repeat (apply elem_of_cons in Hk as [Hk|Hk]; [try discriminate Hk|]); try by apply not_elem_of_nil in Hk.

Lemma spawning_calls d callee : calls spawning d callee → spawning_rank callee < spawning_rank d.
Proof.
  intros (k & Hk & func & args & dest & target & u & -> & Hne & Hc & Hm).
  unfold spawning, tcx_of, body_visits in Hk. simpl in Hk. unfold spawning_rank.
  destruct (N.to_nat (def_index d)) as [|[|i]] eqn:Hi; simpl in Hk; each_visit Hk.
  all: injection Hk as -> -> -> -> ->; cbv in Hc; injection Hc as <-; cbv in Hm; discriminate.
Qed.

Lemma spawning_spawns d c : spawns spawning d c → spawning_rank c < spawning_rank d.
Proof.
  intros (k & Hk & func & args & dest & target & u & callee & op & -> & _ & Hc & Hname & Hop & Hd).
  unfold spawning, tcx_of, body_visits in Hk. simpl in Hk. unfold spawning_rank.
  destruct (N.to_nat (def_index d)) as [|[|i]] eqn:Hi; simpl in Hk; each_visit Hk.
  all: injection Hk as -> -> -> -> ->; cbv in Hc; injection Hc as <-; try (cbv in Hname; discriminate).
  injection Hop as <-. cbv in Hd. injection Hd as <-. assert (def_index d = 0%N) as -> by lia. cbv. lia.
Qed.

Lemma translate_terminates_witness :
  ∃ (fuel queue_fuel : nat) (r : outcome PetriNet), r ≠ Err OutOfFuel ∧
    ∀ fuel' queue_fuel', fuel ≤ fuel' → queue_fuel ≤ queue_fuel' →
      translate spawning fuel' queue_fuel' = r.
Proof. exact (translate_terminates spawning spawning_rank spawning_calls spawning_spawns). Defined.

(** ** States of the translator *)

#[local] Instance witness_policy : FuelPolicy := True.

Definition new_ok : is_ok translator_new := I.
Definition t_new : Translator := get_ok translator_new new_ok.

Lemma translator_new_wf t : translator_new = Ok t → wf_translator t ∧ call_stack t = Stack.new.
Proof. pose proof translator_new_spec as H. intros E. rewrite E in H. destruct H as (H1 & H2 & _). by split. Qed.

Lemma t_new_wf : wf_translator t_new ∧ call_stack t_new = Stack.new.
Proof. exact (translator_new_wf t_new (get_ok_eq translator_new new_ok)). Qed.

(** The frame of [main] and the translator with it on top. *)
Definition main_frame : MirFunction :=
  mir_function_new main_id "main" (program_start t_new) (program_end t_new).
Definition t_main : Translator := set_call_stack (Stack.push (call_stack t_new) main_frame) t_new.

Lemma push_function_wf t id name start end_ :
  wf_translator t → has_place (net (world t)) start → has_place (net (world t)) end_ →
  wf_translator (set_call_stack (Stack.push (call_stack t) (mir_function_new id name start end_)) t).
Proof. intros Hwf ??. apply wf_translator_push; [done|]. by apply wf_function_new. Qed.

Lemma t_main_wf : wf_translator t_main.
Proof.
  destruct t_new_wf as [Hwf _]. exact (push_function_wf _ _ _ _ _ Hwf (wt_start _ Hwf) (wt_end _ Hwf)).
Qed.

Lemma top_call_stack_wf tcx fuel t t' rest f :
  wf_translator t → call_stack t = Stack.push rest f → basic_blocks f = ∅ → active_block f = None →
  translate_top_call_stack tcx fuel t = Ok (tt, t') → wf_translator t'.
Proof.
  intros Hwf Hs Hb Ha Hrun. pose proof (translate_top_call_stack_ok tcx fuel rest f t) as H.
  unfold wp in H. rewrite Hrun in H. apply H; [by apply enough_fuel_any|done..].
Qed.

Lemma basic_block_data_wf b t t' rest f :
  wf_translator t → call_stack t = Stack.push rest f →
  visit_basic_block_data b t = Ok (tt, t') → wf_translator t'.
Proof.
  intros Hwf Hs Hrun. pose proof (wp_visit_basic_block_data b rest f (λ _ t', wf_translator t') t) as H.
  unfold wp in H. rewrite Hrun in H. by apply H.
Qed.

Definition main_done_ok : is_ok (translate_top_call_stack two_calls 3 t_main) := I.
Definition t_main_done : Translator := (get_ok _ main_done_ok).2.

Lemma function_translated_witness :
  call_stack t_main_done = call_stack t_new ∧
  path (world t_main_done) (start_place main_frame) (end_place main_frame) ∧
  path (world t_main_done) (start_place main_frame) (program_panic t_main).
Proof.
  destruct (function_translated two_calls 3 t_main t_main_done (call_stack t_new) main_frame
    t_main_wf eq_refl eq_refl eq_refl (get_ok_state _ main_done_ok)) as (H1 & _ & _ & _ & H2 & H3).
  exact (conj H1 (conj (H2 two_calls_returns) (H3 two_calls_panics))).
Defined.

(** [main]'s block 0, about to return. *)
Definition block0_ok : is_ok (visit_basic_block_data 0 t_main) := I.
Definition t_block0 : Translator := (get_ok _ block0_ok).2.
Definition frame0_ok : is_ok (Stack.peek (call_stack t_block0)) := I.
Definition frame0 : MirFunction := get_ok _ frame0_ok.

Lemma t_block0_wf : wf_translator t_block0.
Proof. exact (basic_block_data_wf _ _ _ _ _ t_main_wf eq_refl (get_ok_state _ block0_ok)). Qed.

Definition return_ok :
  is_ok (visit_terminator two_calls (translate_top_call_stack two_calls 3) Return t_block0) := I.
Definition t_returned : Translator := (get_ok _ return_ok).2.

Lemma frame0_at : block_at frame0 0 (program_start t_new).
Proof. eexists. split; [reflexivity|]. reflexivity. Qed.

Lemma terminator_translated_witness :
  path (world t_returned) (program_start t_new) (end_place frame0).
Proof.
  destruct (terminator_translated two_calls 3 Return 0 t_block0 t_returned (call_stack t_new) frame0
    (program_start t_new) t_block0_wf eq_refl eq_refl frame0_at (get_ok_state _ return_ok))
    as (f' & _ & _ & _ & H & _).
  exact (H eq_refl).
Defined.

Lemma frame0_active : active_ok frame0.
Proof. intros b [= <-]. exists (program_start t_new). exact frame0_at. Qed.

Lemma visit_well_formed_witness : wf_translator t_returned.
Proof.
  pose proof (visit_well_formed two_calls 3 (VisitTerminator Return) t_block0 (call_stack t_new) frame0
    t_block0_wf eq_refl frame0_active) as H.
  exact (proj1 H).
Defined.

(** A program with a thread, after [main] was translated. *)
Definition spawned_ok : is_ok (translate_top_call_stack spawning 3 t_main) := I.
Definition t_spawned : Translator := (get_ok _ spawned_ok).2.

Lemma t_spawned_wf : wf_translator t_spawned.
Proof. exact (top_call_stack_wf _ _ _ _ _ _ t_main_wf eq_refl eq_refl eq_refl (get_ok_state _ spawned_ok)). Qed.

(** The thread that was spawned. *)
Definition spawned_ref : ThreadRef := mkThreadRef 0.
Definition spawned_found : is_found (threads_ (heap (world t_spawned)) !! thread_loc spawned_ref) := I.
Definition spawned_thread : Thread := get_some _ spawned_found.
Definition thread_ok : is_ok (translate_thread spawning 3 spawned_ref t_spawned) := I.
Definition t_threaded : Translator := (get_ok _ thread_ok).2.

Lemma thread_translated_witness :
  ∃ s e : PlaceRef,
    (0 < post (net (world t_threaded)) (spawn_transition spawned_thread) s)%N ∧
    (∀ j, join_transition spawned_thread = Some j → (0 < pre (net (world t_threaded)) j e)%N) ∧
    (can_return spawning (thread_def_id spawned_thread) → path (world t_threaded) s e).
Proof.
  exact (thread_translated spawning 3 spawned_ref spawned_thread t_spawned t_threaded
    t_spawned_wf (get_some_eq _ spawned_found) (get_ok_state _ thread_ok)).
Defined.

(** A call of [spawn] in [main]. *)
Definition spawn_places : Places := PBasic (program_start t_main) (program_end t_main).
Definition first_ok : is_ok (call_thread_spawn spawning "std::thread::spawn" [fn 1] (loc 1) spawn_places t_main) := I.
Definition t_first : Translator := (get_ok _ first_ok).2.

Lemma spawn_places_wf : wf_places (net (world t_main)) spawn_places.
Proof. split; [apply (wt_start _ t_main_wf)|apply (wt_end _ t_main_wf)]. Qed.

Lemma thread_spawned_witness : ∃ r th,
  threads t_first = [r] ∧ threads_ (heap (world t_first)) !! thread_loc r = Some th ∧
  thread_index th = 0%N ∧ join_transition th = None.
Proof.
  destruct (thread_spawned spawning "std::thread::spawn" [fn 1] (loc 1) spawn_places (call_stack t_new)
    main_frame t_main t_first t_main_wf eq_refl spawn_places_wf (get_ok_state _ first_ok))
    as (r & th & f' & op & cl & m & H1 & _ & H2 & H3 & H4 & _).
  exists r, th. exact (conj H1 (conj H2 (conj H3 H4))).
Defined.

(** A queue with a link task before the mutex it is about. *)
Definition t_queued : Translator :=
  set_postprocessing
    (BinaryHeap.push get_priority
      (BinaryHeap.push get_priority BinaryHeap.new (link_mutex_to_condvar 0 ("S", 0%N) ("E", 1%N) ("W", 0%N)))
      (new_mutex (mkMutexRef 0))) t_new.

Lemma t_queued_tasks task :
  task ∈ BinaryHeap.data (postprocessing t_queued) → task_ok task.
Proof.
  simpl. intros [->|[->|[]%not_elem_of_nil]%elem_of_cons]%elem_of_cons; reflexivity.
Qed.

Lemma postprocessing_links_all_mutexes_witness :
  ∃ ms links, BinaryHeap.data (postprocessing t_queued) ≡ₚ (new_mutex <$> ms) ++ links ∧
    Forall is_link links ∧
    translation_postprocessing t_queued = finish t_queued (link_all ms links (world t_queued)).
Proof.
  apply (postprocessing_links_all_mutexes t_queued); [|exact t_queued_tasks].
  apply BinaryHeap.push_ok, BinaryHeap.push_ok, BinaryHeap.new_ok.
Defined.

(** ** Synchronization primitives *)

(** A mutex at [_1], a guard of it at [_2] and a condition variable at [_3]. *)
Definition sync_build : ST World (PlaceRef * PlaceRef * Memory) :=
  s ← on_net (add_place "S");
  e ← on_net (add_place "E");
  '(_, mem) ← call_new_mutex "std::sync::Mutex::<T>::new" 0 (loc 1) (PBasic s e) empty_memory;
  mem ← call_lock "std::sync::Mutex::<T>::lock" 0 [Copy (loc 1)] (loc 2) (PBasic s e) mem;
  mem ← call_new_condvar "std::sync::Condvar::new" 0 (loc 3) (PBasic s e) mem;
  mret (s, e, mem).

Definition built (x : PlaceRef * PlaceRef * Memory) (w : World) : Prop :=
  let '(s, e, mem) := x in
  wf_world w ∧ has_place (net w) s ∧ has_place (net w) e ∧ wf_memory (heap w) mem.

Lemma wp_sync_build : wp sync_build allowed built (mkWorld net_new empty_heap).
Proof.
  apply wp_bind, wp_on_net_add_place; [apply wf_world_empty|]. intros s w1 ? _ Hh1 Hs.
  apply wp_bind, wp_on_net_add_place; [done|]. intros e w2 ? Hle2 _ He.
  assert (Hs2 : has_place (net w2) s) by (eapply grows_place; [apply Hle2|done]).
  apply wp_bind, wp_call_new_mutex; [done|done|apply wf_memory_empty|]. intros _ m3 w3 ? Hle3 ? _.
  assert (has_place (net w3) s ∧ has_place (net w3) e) as [??]
    by (split; (eapply grows_place; [apply Hle3|done])).
  apply wp_bind, wp_call_lock; [done..|]. intros m4 w4 ? Hle4 ?.
  assert (has_place (net w4) s ∧ has_place (net w4) e) as [??]
    by (split; (eapply grows_place; [apply Hle4|done])).
  apply wp_bind, wp_call_new_condvar; [done..|]. intros m5 w5 ? Hle5 ?.
  apply wp_ret. split_and!; [done| | |done]; (eapply grows_place; [apply Hle5|done]).
Qed.

Definition sync_ok : is_ok (sync_build (mkWorld net_new empty_heap)) := I.
Definition sync_start : PlaceRef := (get_ok _ sync_ok).1.1.1.
Definition sync_end : PlaceRef := (get_ok _ sync_ok).1.1.2.
Definition sync_memory : Memory := (get_ok _ sync_ok).1.2.
Definition sync_world : World := (get_ok _ sync_ok).2.

Lemma sync_built x w : sync_build (mkWorld net_new empty_heap) = Ok (x, w) → built x w.
Proof. pose proof wp_sync_build as H. unfold wp in H. intros E. by rewrite E in H. Qed.

Lemma get_ok_quadruple {A B C S} (o : outcome (A * B * C * S)) (H : is_ok o) :
  o = Ok ((get_ok o H).1.1.1, (get_ok o H).1.1.2, (get_ok o H).1.2, (get_ok o H).2).
Proof. by destruct o as [[[[]]]|]. Qed.

Lemma sync_world_ok : built (sync_start, sync_end, sync_memory) sync_world.
Proof. exact (sync_built (sync_start, sync_end, sync_memory) sync_world (get_ok_quadruple _ sync_ok)). Qed.

Definition sync_mutex : Mutex := mkMutex ("MUTEX_0", 2%N) [].
Definition sync_condvar : Condvar :=
  mkCondvar ("CONDVAR_0_WAIT_START", 3%N) ("CONDVAR_0_NOTIFY", 4%N) ("CONDVAR_0_NOTIFY_RECEIVED", 5%N) None.
Definition wait_enabled : PlaceRef := ("CONDVAR_0_WAIT_ENABLED", 3%N).
Definition lost_signal : TransitionRef := ("CONDVAR_0_LOST_SIGNAL", 4%N).

Lemma sync_start_eq : sync_start = ("S", 0%N). Proof. reflexivity. Qed.
Lemma sync_end_eq : sync_end = ("E", 1%N). Proof. reflexivity. Qed.
Lemma sync_condvar_at : condvars (heap sync_world) !! 0 = Some sync_condvar.
Proof. reflexivity. Qed.
Lemma sync_mutex_at : mutexes (heap sync_world) !! 0 = Some sync_mutex.
Proof. reflexivity. Qed.
Lemma sync_guard_at : guards (heap sync_world) !! 0 = Some (mkGuard (mkMutexRef 0)).
Proof. reflexivity. Qed.

(** The arcs of a transition of a concrete net, checked place by place. *)
Definition check_takes (n : PetriNet) (t : TransitionRef) (ins outs : list PlaceRef) : bool :=
  bool_decide (t ∈ transition_refs n) &&
  forallb (λ p, bool_decide (pre n t p = if decide (p ∈ ins) then 1%N else 0%N) &&
                bool_decide (post n t p = if decide (p ∈ outs) then 1%N else 0%N))
    (place_refs n ++ ins ++ outs).

Lemma check_takes_sound n t ins outs : check_takes n t ins outs = true → takes n t ins outs.
Proof.
  unfold check_takes. intros [Ht%bool_decide_eq_true H]%andb_prop.
  assert (Hp : ∀ p, pre n t p = (if decide (p ∈ ins) then 1%N else 0%N) ∧
                    post n t p = (if decide (p ∈ outs) then 1%N else 0%N)).
  { intros p. destruct (decide (p ∈ place_refs n ++ ins ++ outs)) as [Hin|Hin].
    - rewrite forallb_forall in H. apply list_elem_of_In in Hin. specialize (H p Hin).
      by apply andb_prop in H as [?%bool_decide_eq_true ?%bool_decide_eq_true].
    - rewrite !not_elem_of_app in Hin. destruct Hin as (Hd & Hi & Ho).
      rewrite !decide_False by done. apply (no_place_arcs n t p). simpl.
      by rewrite <-elem_of_place_refs. }
  split; [by apply elem_of_transition_refs|apply Hp..].
Qed.

Lemma sync_condvar_net : condvar_net (net sync_world) sync_condvar wait_enabled lost_signal.
Proof. split; [split_and!; [by eexists; vm_compute..|by vm_compute]|by vm_compute|apply check_takes_sound; by vm_compute..]. Qed.

Lemma sync_get_mutex : get_mutex sync_memory (loc 1) = Ok (mkMutexRef 0).
Proof. reflexivity. Qed.
Lemma sync_get_guard : get_mutex_guard sync_memory (loc 2) = Ok (mkMutexGuardRef 0).
Proof. reflexivity. Qed.
Lemma sync_start_not_mutex : sync_start ≠ mutex sync_mutex.
Proof. rewrite sync_start_eq. discriminate. Qed.

Lemma get_ok_pair {S A} (o : outcome (A * S)) (H : is_ok o) : o = Ok ((get_ok o H).1, (get_ok o H).2).
Proof. by destruct o as [[]|]. Qed.

(** The mutex at [_1] is locked once more. *)
Definition lock_ok : is_ok (call_lock "std::sync::Mutex::<T>::lock" 1 [Copy (loc 1)] (loc 4)
  (PBasic sync_start sync_end) sync_memory sync_world) := I.
Definition locked_memory : Memory := (get_ok _ lock_ok).1.
Definition locked_world : World := (get_ok _ lock_ok).2.

Lemma lock_takes_mutex_witness :
  ∃ t, takes (net locked_world) t [mutex sync_mutex; sync_start] [sync_end].
Proof.
  destruct sync_world_ok as (Hw & Hs & He & Hm).
  destruct (lock_takes_mutex "std::sync::Mutex::<T>::lock" 1 [Copy (loc 1)] (loc 4)
    (PBasic sync_start sync_end) sync_memory locked_memory sync_start sync_end sync_world locked_world
    Hw (conj Hs He) Hm eq_refl (get_ok_pair _ lock_ok)) as (t & self & r & x & H1 & H2 & H3 & _ & H4).
  exists t. injection H1 as <-. rewrite sync_get_mutex in H2. injection H2 as <-.
  cbn [mutex_loc] in H3. rewrite sync_mutex_at in H3. injection H3 as <-.
  exact (proj1 (H4 sync_start_not_mutex)).
Defined.

(** The guard at [_2] is dropped by a transition of the net. *)
Definition drop_transition : TransitionRef := ("std_sync_Condvar_new_0_CALL", 2%N).
Lemma drop_transition_in : has_transition (net sync_world) drop_transition.
Proof. apply elem_of_transition_refs, (bool_decide_eq_true_1 (drop_transition ∈ transition_refs (net sync_world))). vm_compute. reflexivity. Qed.
Definition drop_ok : is_ok (handle_mutex_guard_drop (loc 2) drop_transition sync_memory sync_world) := I.
Definition dropped_world : World := (get_ok _ drop_ok).2.

Lemma guard_drop_releases_mutex_witness :
  (0 < post (net dropped_world) drop_transition (mutex sync_mutex))%N.
Proof.
  destruct sync_world_ok as (Hw & Hs & He & Hm).
  destruct (guard_drop_releases_mutex (loc 2) drop_transition sync_memory sync_world dropped_world
    Hw Hm drop_transition_in (get_ok_state _ drop_ok))
    as [[H _]|(_ & g & gd & x & H1 & H2 & H3 & _ & H4 & _)].
  - assert (E : is_mutex_guard sync_memory (loc 2) = true) by reflexivity. rewrite E in H. discriminate H.
  - rewrite sync_get_guard in H1. injection H1 as <-. cbn [guard_loc] in H2.
    rewrite sync_guard_at in H2. injection H2 as <-. cbn [guard_mutex mutex_loc] in H3.
    rewrite sync_mutex_at in H3. injection H3 as <-. exact H4.
Defined.

(** A wait on the condition variable at [_3] with the guard at [_2]. *)
Definition wait_ok :
  is_ok (link_to_wait_call (mkCondvarRef 0) sync_start sync_end (mkMutexGuardRef 0) sync_world) := I.
Definition wait_world : World := (get_ok _ wait_ok).2.

Lemma wait_call_linked_witness :
  wait_net (net wait_world) sync_condvar wait_enabled lost_signal sync_start sync_end (mutex sync_mutex).
Proof.
  destruct sync_world_ok as (Hw & Hs & He & Hm).
  refine (proj1 (wait_call_linked (mkCondvarRef 0) sync_start sync_end (mkMutexGuardRef 0) sync_condvar
    wait_enabled lost_signal (mkGuard (mkMutexRef 0)) sync_mutex sync_world wait_world
    Hw Hs He sync_condvar_at sync_condvar_net sync_guard_at sync_mutex_at _ _ _ (get_ok_state _ wait_ok))).
  - rewrite sync_start_eq. discriminate.
  - rewrite sync_end_eq. discriminate.
  - discriminate.
Defined.

Lemma wait_linked_once_witness :
  link_to_wait_call (mkCondvarRef 0) sync_end sync_start (mkMutexGuardRef 0) wait_world =
  Err (Panic MultipleWaitCallsNotSupported).
Proof.
  exact (wait_linked_once (mkCondvarRef 0) sync_start sync_end (mkMutexGuardRef 0) sync_world wait_world
    sync_end sync_start (mkMutexGuardRef 0) (get_ok_state _ wait_ok)).
Defined.

(** The net before [Condvar::new] and the net after it. *)
Definition before_build : ST World unit :=
  s ← on_net (add_place "S");
  e ← on_net (add_place "E");
  '(_, mem) ← call_new_mutex "std::sync::Mutex::<T>::new" 0 (loc 1) (PBasic s e) empty_memory;
  call_lock "std::sync::Mutex::<T>::lock" 0 [Copy (loc 1)] (loc 2) (PBasic s e) mem;;
  on_net (call_foreign_function "std::sync::Condvar::new" 0 (PBasic s e));; mret tt.
Definition before_ok : is_ok (before_build (mkWorld net_new empty_heap)) := I.
Definition net_before : PetriNet := net (get_ok _ before_ok).2.

Lemma condvar_created : condvar_new 0 net_before = Ok (sync_condvar, net sync_world).
Proof. vm_cast_no_check (eq_refl (Ok (sync_condvar, net sync_world))). Qed.
Lemma wait_enabled_new : ¬ has_place net_before wait_enabled.
Proof.
  intros H%elem_of_place_refs. revert H.
  apply (bool_decide_eq_true_1 (wait_enabled ∉ place_refs net_before)).
  vm_compute. reflexivity.
Qed.
Lemma wait_enabled_marked : marking (net sync_world) wait_enabled = 1%N.
Proof. reflexivity. Qed.
Lemma lost_signal_new : ¬ has_transition net_before lost_signal.
Proof.
  intros H%elem_of_transition_refs. revert H.
  apply (bool_decide_eq_true_1 (lost_signal ∉ transition_refs net_before)). vm_compute. reflexivity.
Qed.
Lemma lost_signal_added : has_transition (net sync_world) lost_signal.
Proof.
  apply elem_of_transition_refs, (bool_decide_eq_true_1 (lost_signal ∈ transition_refs (net sync_world))).
  vm_compute. reflexivity.
Qed.
Lemma lost_not_start : lost_signal ≠ wait_start sync_condvar. Proof. discriminate. Qed.
Lemma lost_not_received : lost_signal ≠ notify_received sync_condvar. Proof. discriminate. Qed.
Lemma wait_places_nodup :
  NoDup [sync_start; sync_end; mutex sync_mutex; wait_enabled; notify sync_condvar].
Proof. rewrite sync_start_eq, sync_end_eq. apply (bool_decide_eq_true_1 _). vm_compute. reflexivity. Qed.

Definition put (l : list PlaceRef) : Marking := λ p, if decide (p ∈ l) then 1%N else 0%N.

Lemma wait_then_notify_witness :
  let m := put [sync_start; wait_enabled] in
  let m2 := put [mutex sync_mutex; notify sync_condvar] in
  enabled (net wait_world) m (wait_start sync_condvar) ∧
  ¬ enabled (net wait_world) (fire (net wait_world) (wait_start sync_condvar) m) (notify_received sync_condvar) ∧
  enabled (net wait_world) m2 (notify_received sync_condvar) ∧ ¬ enabled (net wait_world) m2 lost_signal.
Proof.
  intros m m2. destruct sync_world_ok as (Hw & Hs & He & _).
  destruct (wait_then_notify 0 net_before (net sync_world) sync_condvar wait_enabled lost_signal
    condvar_created wait_enabled_new wait_enabled_marked lost_signal_new lost_signal_added
    lost_not_start lost_not_received sync_world wait_world (mkCondvarRef 0) sync_start sync_end
    (mkMutexGuardRef 0) (mkGuard (mkMutexRef 0)) sync_mutex
    Hw (reflexivity _) (λ t p _ _, conj eq_refl eq_refl) Hs He sync_condvar_at sync_guard_at sync_mutex_at
    wait_places_nodup (get_ok_state _ wait_ok) m eq_refl eq_refl eq_refl eq_refl eq_refl)
    as (H1 & _ & H2 & H3).
  destruct (H3 m2 eq_refl eq_refl eq_refl eq_refl eq_refl) as (H4 & H5 & _).
  exact (conj H1 (conj H2 (conj H4 H5))).
Defined.

Lemma signal_can_be_lost_witness :
  enabled (net wait_world) (put [wait_enabled; notify sync_condvar]) lost_signal.
Proof.
  destruct sync_world_ok as (Hw & Hs & He & _).
  exact (proj1 (signal_can_be_lost 0 net_before (net sync_world) sync_condvar wait_enabled lost_signal
    condvar_created wait_enabled_new wait_enabled_marked lost_signal_new lost_signal_added
    lost_not_start lost_not_received sync_world wait_world (mkCondvarRef 0) sync_start sync_end
    (mkMutexGuardRef 0) (mkGuard (mkMutexRef 0)) sync_mutex
    Hw (reflexivity _) (λ t p _ _, conj eq_refl eq_refl) Hs He sync_condvar_at sync_guard_at sync_mutex_at
    wait_places_nodup (get_ok_state _ wait_ok) (put [wait_enabled; notify sync_condvar]) eq_refl eq_refl)).
Defined.

Lemma notify_received_without_wait_witness :
  enabled (net wait_world) (put [mutex sync_mutex; wait_enabled; notify sync_condvar])
    (notify_received sync_condvar).
Proof.
  destruct sync_world_ok as (Hw & Hs & He & _).
  exact (proj1 (notify_received_without_wait 0 net_before (net sync_world) sync_condvar wait_enabled lost_signal
    condvar_created wait_enabled_new wait_enabled_marked lost_signal_new lost_signal_added
    lost_not_start lost_not_received sync_world wait_world (mkCondvarRef 0) sync_start sync_end
    (mkMutexGuardRef 0) (mkGuard (mkMutexRef 0)) sync_mutex
    Hw (reflexivity _) (λ t p _ _, conj eq_refl eq_refl) Hs He sync_condvar_at sync_guard_at sync_mutex_at
    wait_places_nodup (get_ok_state _ wait_ok) (put [mutex sync_mutex; wait_enabled; notify sync_condvar])
    eq_refl eq_refl eq_refl eq_refl eq_refl)).
Defined.

(** ** Joining *)

(** A memory with a join handle at [_5]. *)
Definition handle_build : ST World Memory :=
  '(_, mem) ← on_heap (link_join_handle sync_memory (loc 5) (thread_new drop_transition main_id [] 0));
  mret mem.
Definition handle_ok : is_ok (handle_build sync_world) := I.
Definition handle_memory : Memory := (get_ok _ handle_ok).1.
Definition handle_world : World := (get_ok _ handle_ok).2.

Lemma handle_built mem w : handle_build sync_world = Ok (mem, w) →
  wf_world w ∧ has_place (net w) sync_start ∧ has_place (net w) sync_end ∧ wf_memory (heap w) mem.
Proof.
  destruct sync_world_ok as (Hw & Hs & He & Hm).
  apply (wp_ok _ allowed (λ mem w, wf_world w ∧ has_place (net w) sync_start ∧ has_place (net w) sync_end ∧
    wf_memory (heap w) mem)).
  apply wp_bind, wp_link_join_handle; [exact Hw|exact Hm|refine (conj drop_transition_in (conj _ _))|].
  - intros t [=].
  - by intros v ?%not_elem_of_nil.
  - intros r m w2 Hw2 _ Hn2 Hm2 _. apply wp_ret. rewrite Hn2. exact (conj Hw2 (conj Hs (conj He Hm2))).
Qed.

Definition join_ok : is_ok (call_join "std::thread::JoinHandle::<T>::join" 0 [Move (loc 5)]
  (PBasic sync_start sync_end) handle_memory handle_world) := I.

Lemma thread_joined_witness : ∃ t r, takes (net (get_ok _ join_ok).2) t [sync_start] [sync_end] ∧
  get_join_handle handle_memory (loc 5) = Ok r ∧
  ∀ u, set_join_transition r u (heap (get_ok _ join_ok).2) = Err (Panic JoinTransitionSetTwice).
Proof.
  destruct (handle_built handle_memory handle_world (get_ok_pair _ handle_ok)) as (Hw & Hs & He & Hm).
  destruct (thread_joined "std::thread::JoinHandle::<T>::join" 0 [Move (loc 5)] (PBasic sync_start sync_end)
    handle_memory sync_start sync_end handle_world (get_ok _ join_ok).2
    Hw (conj Hs He) Hm eq_refl (get_ok_state _ join_ok)) as (t & self & r & th & H1 & H2 & _ & _ & _ & H3 & _ & H4).
  exists t, r. injection H1 as <-. exact (conj H3 (conj H2 H4)).
Defined.

(** ** The condition of a wait *)

(** A net with a transition that mutates the data of a mutex, with control for
    two mutations, and one that starts a wait. *)
Definition condition_build : ST PetriNet (PlaceRef * PlaceRef * PlaceRef * TransitionRef * TransitionRef) :=
  s ← add_place "S";
  e ← add_place "E";
  p ← add_place "P";
  add_token p 2;;
  t ← add_transition "MUTATE";
  ws ← add_transition "WAIT_START";
  add_arc_place_transition p t;;
  mret (s, e, p, t, ws).

Definition condition_start : PlaceRef := ("S", 0%N).
Definition condition_end : PlaceRef := ("E", 1%N).
Definition mutate_place : PlaceRef := ("P", 2%N).
Definition mutate : TransitionRef := ("MUTATE", 0%N).
Definition condition_wait : TransitionRef := ("WAIT_START", 1%N).
Definition mutated_mutex : Mutex := mkMutex ("MUTEX_0", 9%N) [mutate].

Definition condition_ok : is_ok (condition_build net_new) := I.
Definition condition_before : PetriNet := (get_ok _ condition_ok).2.

Lemma condition_before_refs :
  has_place condition_before condition_start ∧ has_place condition_before condition_end ∧
  has_transition condition_before mutate ∧ has_transition condition_before condition_wait.
Proof.
  split_and!.
  - apply elem_of_place_refs, (bool_decide_eq_true_1 (condition_start ∈ place_refs condition_before)). vm_compute. reflexivity.
  - apply elem_of_place_refs, (bool_decide_eq_true_1 (condition_end ∈ place_refs condition_before)). vm_compute. reflexivity.
  - apply elem_of_transition_refs, (bool_decide_eq_true_1 (mutate ∈ transition_refs condition_before)). vm_compute. reflexivity.
  - apply elem_of_transition_refs, (bool_decide_eq_true_1 (condition_wait ∈ transition_refs condition_before)). vm_compute. reflexivity.
Qed.

Lemma mutate_only u : u ∈ [mutate] → has_transition condition_before u.
Proof. intros ->%list_elem_of_singleton. apply condition_before_refs. Qed.
Lemma wait_not_mutate : condition_wait ∉ [mutate].
Proof. by intros H%list_elem_of_singleton. Qed.

Lemma condition_linked_witness :
  ∃ n' cns cs skip,
    link_to_condvar mutated_mutex 0 condition_start condition_end condition_wait condition_before = Ok (tt, n') ∧
    condition_net condition_before n' [mutate] condition_start condition_end condition_wait cns cs skip.
Proof.
  destruct condition_before_refs as (Hs & He & Ht & Hw).
  apply (condition_linked mutated_mutex 0 condition_start condition_end condition_wait condition_before);
    [discriminate|apply NoDup_singleton|exact wait_not_mutate|exact mutate_only|exact Hw|exact Hs|exact He].
Defined.

(** The first mutation takes the condition, the second one is blocked. *)
Definition link_ok :
  is_ok (link_to_condvar mutated_mutex 0 condition_start condition_end condition_wait condition_before) := I.
Definition condition_after : PetriNet := (get_ok _ link_ok).2.

Lemma mutate_enabled : enabled condition_after (marking condition_after) mutate.
Proof.
  assert (T : takes condition_after mutate [mutate_place; ("MUTEX_0_CONDITION_NOT_SET", 3%N)] [("MUTEX_0_CONDITION_SET", 4%N)])
    by (apply check_takes_sound; vm_compute; reflexivity).
  apply (takes_enabled _ _ _ _ _ T). intros p. rewrite !elem_of_cons, elem_of_nil.
  intros [->|[->|[]]]; vm_compute; reflexivity.
Qed.

Lemma condition_set_only_once_witness :
  enabled condition_after (marking condition_after) mutate ∧
  ¬ enabled condition_after (fire condition_after mutate (marking condition_after)) mutate.
Proof.
  destruct condition_before_refs as (Hs & He & Ht & Hw). split; [exact mutate_enabled|].
  refine (condition_set_only_once mutated_mutex 0 condition_start condition_end condition_wait
    condition_before condition_after (marking condition_after) mutate
    (fire condition_after mutate (marking condition_after)) mutate
    _ (NoDup_singleton _) wait_not_mutate mutate_only Hw Hs He (get_ok_state _ link_ok)
    (reachable_refl _ _ _ (λ p, eq_refl)) (list_elem_of_here mutate []) mutate_enabled
    (reachable_refl _ _ _ (λ p, eq_refl)) (list_elem_of_here mutate [])). discriminate.
Defined.

(** ** Counters and dispatch *)

Lemma counter_counts_increments_witness :
  (HashMapCounter.get_count
    (HashMapCounter.increment (HashMapCounter.get_count (HashMapCounter.increment HashMapCounter.new "a") "b").2 "a")
    "a").1 = 2%N.
Proof.
  exact (proj1 (HashMapCounter.counter_counts_increments ["a"; "a"] _ "a"
    (HashMapCounter.run_increment ["a"] _ "a" (HashMapCounter.run_get_count _ _ "b"
      (HashMapCounter.run_increment [] _ "a" HashMapCounter.run_new))))).
Defined.

Lemma sync_dispatch_complete_witness :
  sync_call_function "std::sync::Condvar::notify_one" 0 [Copy (loc 3)] (loc 4) (PBasic sync_start sync_end)
    sync_memory sync_world ≠ Err (Panic CallHandlerNotDefined).
Proof.
  refine (proj1 (sync_dispatch_complete "std::sync::Condvar::notify_one" 0 [Copy (loc 3)] (loc 4)
    (PBasic sync_start sync_end) sync_memory sync_world _) eq_refl). discriminate.
Defined.

(** ** Memory *)

Definition idle_thread : Thread := mkThread ("SPAWN", 0%N) main_id [VMutex (mkMutexRef 0)] None 0.

Definition pair_memory : Memory :=
  insert_value (insert_value empty_memory (loc 1) (VMutex (mkMutexRef 0))) (loc 2) (VCondvar (mkCondvarRef 0)).
Definition pair_ok : is_ok (create_aggregate pair_memory (loc 3) [loc 1; loc 2]) := I.

Lemma aggregate_field_roundtrip_witness : ∃ m2,
  link_field_in_aggregate (get_ok _ pair_ok) (loc 4) (loc 3) 1 = Ok m2 ∧
  map m2 !! loc 4 = map pair_memory !! loc 2.
Proof.
  destruct (aggregate_field_roundtrip pair_memory (get_ok _ pair_ok) (loc 3) [loc 1; loc 2] 1 (loc 2) (loc 4)
    (get_ok_eq _ pair_ok) eq_refl eq_refl) as (m2 & H1 & H2 & _); [discriminate|].
  exact (ex_intro _ m2 (conj H1 H2)).
Defined.

(** A pair of a number and a mutex: asking for field 1, the mutex, panics. *)
Definition mixed_tcx : TyCtxt := tcx_of {|
  p_paths := ["main"]; p_bodies := [[]]; p_debug := [];
  p_local_ty := [(0, 1, "i32"); (0, 2, "std::sync::Mutex<i32>")]%N; p_closures := [] |}.
Definition mixed_memory : Memory := insert_value empty_memory (loc 2) (VMutex (mkMutexRef 0)).
Definition mixed_operands : list Operand := [Copy (loc 1); Move (loc 2)].
Definition mixed_ok : is_ok (handle_aggregate_assignment mixed_tcx (loc 3) mixed_operands mixed_memory main_id) := I.

Lemma mixed_aggregate_shifts_fields_witness :
  (∃ m2, link_field_in_aggregate (get_ok _ mixed_ok) (loc 4) (loc 3) 0 = Ok m2 ∧
     map m2 !! loc 4 = Some (VMutex (mkMutexRef 0))) ∧
  link_field_in_aggregate (get_ok _ mixed_ok) (loc 4) (loc 3) 1 = Err (Panic FieldIndexOutOfBounds).
Proof.
  destruct (mixed_aggregate_shifts_fields mixed_tcx main_id mixed_memory (get_ok _ mixed_ok) (loc 3)
    mixed_operands 1 (loc 2) (loc 4) (get_ok_eq _ mixed_ok) (or_intror eq_refl) eq_refl eq_refl) as [H1 H2];
    [discriminate|].
  split; [exact H1|]. apply H2. vm_compute. lia.
Defined.

(** A closure whose debug information names the first captured variable. *)
Definition captured_place : Place := mkPlace 1 [Field 0 (mkTy 999)].
Definition capturing : TyCtxt := tcx_of {|
  p_paths := ["main"]; p_bodies := [[]]; p_debug := [[DebugConst; DebugPlace captured_place]];
  p_local_ty := []; p_closures := [] |}.
Definition captured_ok : is_ok (move_sync_variables capturing idle_thread empty_memory) := I.

Lemma captured_variables_reach_thread_witness :
  map (get_ok _ captured_ok) !! captured_place = Some (VMutex (mkMutexRef 0)).
Proof.
  refine (proj2 (captured_variables_reach_thread capturing idle_thread (get_ok _ captured_ok) captured_place 0
    (get_ok_eq _ captured_ok) _ eq_refl eq_refl)). right. left.
Defined.
