(* ===== verification/SequentialWitnesses.v ===== *)
(** * Sequential example programs

    The theorems about programs that do not synchronize, applied to example
    programs.  What they ask of a program is computed from its bodies. *)

From S2P Require Import Prelude RustStr Netcrab NetModel Naming Rustc Function Translator Programs.
From S2P Require Import TokenGame ControlFlow SequentialFlow Cfg Invariants Shape Sequential Witnesses.

(** ** Checking a program *)

Definition sequential_program (p : Program) : bool :=
  forallb (λ name, negb (synchronizes name)) (p_paths p).
Definition begins_with_block (visits : list VisitorCall) : bool :=
  match visits with [] | VisitBasicBlockData _ :: _ => true | _ => false end.
Definition complete_program (p : Program) : bool :=
  forallb (λ visits, match visits with [] => true | _ => complete_visits visits end) (p_bodies p).

Lemma forallb_lookup {A} (P : A → bool) (l : list A) i x : forallb P l = true → l !! i = Some x → P x = true.
Proof. rewrite forallb_forall. intros H Hx. apply H, list_elem_of_In. by eapply list_elem_of_lookup_2. Qed.

Lemma sequential_program_spec p : sequential_program p = true → sequential (tcx_of p).
Proof.
  intros H d d' func args dest target u callee _ _. simpl.
  destruct (p_paths p !! _) as [name|] eqn:E; [|done]. simpl.
  apply (forallb_lookup _ _ _ _ H) in E. by apply negb_true_iff.
Qed.

Lemma begins_with_block_spec p :
  forallb begins_with_block (p_bodies p) = true → visits_begin_with_block (tcx_of p).
Proof.
  intros H d v. simpl. destruct (p_bodies p !! _) as [visits|] eqn:E; [|done]. simpl.
  apply (forallb_lookup _ _ _ _ H) in E. destruct visits as [|[b| |] visits]; simpl; try done.
  intros [= <-]. by exists b.
Qed.

Lemma complete_program_spec p d :
  complete_program p = true → body_visits (tcx_of p) d ≠ [] → complete (tcx_of p) d.
Proof.
  intros H. apply (complete_closed _ (λ d, body_visits (tcx_of p) d ≠ [])).
  - intros d' Hd'. apply complete_visits_spec. revert Hd'. simpl.
    destruct (p_bodies p !! _) as [visits|] eqn:E; [|done]. simpl. apply (forallb_lookup _ _ _ _ H) in E.
    by destruct visits.
  - intros d' callee _ (k & _ & func & args & dest & target & u & _ & _ & _ & Hmir). unfold mir_call in Hmir.
    apply andb_true_iff in Hmir as [_ Hf]. unfold is_foreign_function in Hf. revert Hf.
    rewrite negb_true_iff, !orb_false_iff, negb_false_iff. intros [_ Hav]. revert Hav. simpl.
    by destruct (p_bodies p !! _) as [[|]|].
Qed.

(** A test of all terminators of a program. *)
Definition all_terminators (f : TerminatorKind → bool) (p : Program) : bool :=
  forallb (λ visits, forallb (λ x, f x.2) (terminators None visits)) (p_bodies p).

(** Calls that the graph describes exactly. *)
Definition plain_terminator (k : TerminatorKind) : bool :=
  match k with
  | Call _ _ _ None UnwindContinue => true
  | Call _ _ _ None _ => false
  | _ => true
  end.
Definition plain_program (p : Program) : bool :=
  forallb (λ name, negb (bool_decide (name ∈ ["std::ops::Deref::deref"; "std::ops::DerefMut::deref_mut";
                                              "std::result::Result::<T, E>::unwrap"]))) (p_paths p) &&
  all_terminators plain_terminator p.

Lemma program_blocks (f : TerminatorKind → bool) p d b k :
  all_terminators f p = true →
  (b, k) ∈ blocks (tcx_of p) d → f k = true.
Proof.
  intros H. unfold blocks. simpl. destruct (p_bodies p !! _) as [visits|] eqn:E; simpl; [|by intros ?%not_elem_of_nil].
  apply (forallb_lookup _ _ _ _ H) in E. rewrite forallb_forall in E. intros Hk%list_elem_of_In.
  by apply E in Hk.
Qed.

Lemma plain_program_spec p : plain_program p = true → plain_calls (tcx_of p).
Proof.
  intros [Hn Ht]%andb_true_iff. split.
  - intros d b func args dest target u callee _ _. unfold mutex_access. apply andb_false_iff. left. simpl.
    destruct (p_paths p !! _) as [name|] eqn:E; simpl; [|done].
    by apply (forallb_lookup _ _ _ _ Hn), negb_true_iff in E.
  - intros d b func args dest u callee Hk _ _. apply (program_blocks _ _ _ _ _ Ht) in Hk. by destruct u.
Qed.

Lemma targets_spec p :
  all_terminators (λ k, match k with Call _ _ _ None _ => false | _ => true end) p = true →
  calls_have_targets (tcx_of p).
Proof. intros H d b func args dest u callee Hk _. by apply (program_blocks _ _ _ _ _ H) in Hk. Qed.

(** Terminators that may be an event, whatever they call. *)
Definition may_panic (k : TerminatorKind) : bool :=
  match k with
  | UnwindResume | UnwindTerminate | Call _ _ _ None UnwindContinue | Call _ _ _ _ UnwindActionTerminate => true
  | _ => false
  end.
Definition may_be_dead_end (k : TerminatorKind) : bool :=
  match k with Call _ _ _ None UnwindContinue => true | _ => false end.

Lemma no_shown_panic p d : all_terminators (λ k, negb (may_panic k)) p = true → ¬ comes_to (tcx_of p) d (shown_panic (tcx_of p)).
Proof.
  intros H (d' & b & k & _ & Hk & He). apply (program_blocks _ _ _ _ _ H) in Hk.
  destruct He as [->|[->|[(callee & (func & args & dest & -> & _) & _)|(target & callee & func & args & dest & -> & _)]]];
    try done. by destruct target.
Qed.
Lemma no_dead_end p d : all_terminators (λ k, negb (may_be_dead_end k)) p = true → ¬ comes_to (tcx_of p) d (dead_end (tcx_of p)).
Proof.
  intros H (d' & b & k & _ & Hk & (callee & (func & args & dest & -> & _) & _)).
  by apply (program_blocks _ _ _ _ _ H) in Hk.
Qed.

(** ** The theorems at examples *)

Lemma transitions_consume_witness :
  (∀ t, has_transition two_calls_net t → ∃ p, (0 < pre two_calls_net t p)%N) ∧
  ∀ m, (∀ p, m p = 0%N) → dead two_calls_net m.
Proof. apply (transitions_consume two_calls 3 3). apply get_ok_eq. Defined.

(** [in_a_loop] calls, loops and switches. *)
Definition in_a_loop_ok : is_ok (translate (tcx_of in_a_loop) 3 3) := I.
Definition in_a_loop_translated : PetriNet := get_ok _ in_a_loop_ok.
Lemma in_a_loop_sequential : sequential (tcx_of in_a_loop).
Proof. by apply sequential_program_spec. Qed.
Lemma in_a_loop_begins : visits_begin_with_block (tcx_of in_a_loop).
Proof. by apply begins_with_block_spec. Qed.

(** It may come to the unreachable point in the loop. *)
Lemma in_a_loop_ends : comes_to (tcx_of in_a_loop) main_id (unreachable_point (tcx_of in_a_loop)).
Proof.
  exists main_id, 4%N, Unreachable. split; [|split; [do 4 right; left|by left]]. apply comes_within.
  assert (H0 : within (tcx_of in_a_loop) main_id 0) by by apply within_entry.
  assert (H1 : within (tcx_of in_a_loop) main_id 1).
  { apply (within_edge _ _ _ (Call (fn 2) [Move (loc 2)] (loc 1) (Some 1%N) UnwindContinue) _ H0); [left|].
    eexists. split; [done|by right]. }
  assert (H2 : within (tcx_of in_a_loop) main_id 2).
  { by apply (within_edge _ _ _ (Goto 2) _ H1); [right; left|]. }
  assert (H3 : within (tcx_of in_a_loop) main_id 3).
  { apply (within_edge _ _ _ (Call (fn 3) [Copy (loc 5)] (loc 4) (Some 3%N) UnwindContinue) _ H2); [do 2 right; left|].
    eexists. split; [done|by right]. }
  apply (within_edge _ _ _ (SwitchInt [6; 5; 4]%N) _ H3); [do 3 right; left|]. do 2 right. left.
Qed.

(** Its net ends, and never panics. *)
Lemma sequential_net_follows_graph_witness :
  ∃ end_ panic : PlaceRef,
    (has_place in_a_loop_translated end_ ∧ place_ref_label end_ = PROGRAM_END) ∧
    (has_place in_a_loop_translated panic ∧ place_ref_label panic = PROGRAM_PANIC) ∧
    (∃ m, reachable in_a_loop_translated (marking in_a_loop_translated) m ∧ (0 < m end_)%N) ∧
    ¬ (∃ m, reachable in_a_loop_translated (marking in_a_loop_translated) m ∧ (0 < m panic)%N).
Proof.
  destruct (sequential_net_follows_graph (tcx_of in_a_loop) in_a_loop_sequential in_a_loop_begins 3 3
    in_a_loop_translated main_id) as (e & p & He & Hp & [_ Hend] & [Hpanic _]);
    [by apply plain_program_spec|by apply targets_spec|reflexivity|apply get_ok_eq|].
  exists e, p. split; [exact He|split; [exact Hp|split]].
  - apply Hend. right. exact in_a_loop_ends.
  - intros H. apply Hpanic in H. revert H. by apply no_shown_panic.
Defined.

(** [std::process::abort] is reported as a deadlock; [in_a_loop] is not. *)
Definition abort_ok : is_ok (translate (tcx_of abort) 3 3) := I.
Definition abort_translated : PetriNet := get_ok _ abort_ok.

Lemma abort_dead_end : comes_to (tcx_of abort) main_id (dead_end (tcx_of abort)).
Proof.
  exists main_id, 0%N, (Call (fn 1) [] (loc 1) None UnwindContinue).
  split; [by apply comes_within, within_entry|split; [left|]].
  eexists. split; [by eexists _, _, _|done].
Qed.

Lemma sequential_deadlock_is_dead_end_witness :
  (∃ end_ panic : PlaceRef,
    (has_place in_a_loop_translated end_ ∧ place_ref_label end_ = PROGRAM_END) ∧
    (has_place in_a_loop_translated panic ∧ place_ref_label panic = PROGRAM_PANIC) ∧
    ¬ deadlock_reachable in_a_loop_translated end_ panic) ∧
  (∃ end_ panic : PlaceRef,
    (has_place abort_translated end_ ∧ place_ref_label end_ = PROGRAM_END) ∧
    (has_place abort_translated panic ∧ place_ref_label panic = PROGRAM_PANIC) ∧
    deadlock_reachable abort_translated end_ panic).
Proof.
  split.
  - destruct (sequential_deadlock_is_dead_end (tcx_of in_a_loop) in_a_loop_sequential in_a_loop_begins 3 3
      in_a_loop_translated main_id) as (e & p & He & Hp & Hd);
      [by apply plain_program_spec|reflexivity|by apply complete_program_spec|apply get_ok_eq|].
    exists e, p. split; [exact He|split; [exact Hp|]]. rewrite Hd. by apply no_dead_end.
  - destruct (sequential_deadlock_is_dead_end (tcx_of abort) (sequential_program_spec abort eq_refl)
      (begins_with_block_spec abort eq_refl) 3 3 abort_translated main_id) as (e & p & He & Hp & Hd);
      [by apply plain_program_spec|reflexivity|by apply complete_program_spec|apply get_ok_eq|].
    exists e, p. split; [exact He|split; [exact Hp|]]. rewrite Hd. exact abort_dead_end.
Defined.

(** [in_a_loop] never loses its token. *)
Lemma sequential_net_moves_one_token_witness :
  ∃ p, ∀ q, marking in_a_loop_translated q = if decide (q = p) then 1%N else 0%N.
Proof.
  destruct (sequential_net_moves_one_token (tcx_of in_a_loop) in_a_loop_sequential in_a_loop_begins 3 3
    in_a_loop_translated main_id (marking in_a_loop_translated)) as [H|[_ H]];
    [reflexivity|apply get_ok_eq|by apply reachable_refl|exact H|].
  exfalso. revert H. by apply no_dead_end.
Defined.
