(* ===== verification/CliWitnesses.v ===== *)
(** * The command line run in memory

    A file system in memory, a compiler that presents
    examples/programs/mutex/double_lock_deadlock.rs and a model checker that
    answers for its net: instances of the theorems of [CliSpec]. *)

From S2P Require Import Prelude RustStr RustPath Netcrab NetModel Naming Rustc Translator TokenGame.
From S2P Require Import Explore Programs Cli CliSpec SequentialFlow Cfg Sequential EndToEnd Witnesses SequentialWitnesses.
From Stdlib Require Import Ascii.

Record MemFs := mkMemFs { mem_files : gmap string string; mem_folders : gset string }.

#[local] Instance mem_file_system : FileSystem := {|
  FileSys := MemFs;
  path_exists fs p := bool_decide (p ∈ dom (mem_files fs) ∨ p ∈ mem_folders fs);
  file_create fs p := inr (mkMemFs (<[p := ""]> (mem_files fs)) (mem_folders fs));
  file_write fs p text := (None, mkMemFs (<[p := text]> (mem_files fs)) (mem_folders fs));
  read_file fs p := mem_files fs !! p;
  same_file := eq;
|}.

#[local] Instance mem_file_system_laws : FileSystemLaws.
Proof.
  split; simpl.
  - done.
  - intros fs p fs' [= <-]. simpl. split; [by rewrite lookup_insert_eq|]. intros q Hq. by rewrite lookup_insert_ne.
  - intros fs p text fs' _ [= <-]. simpl. split; [by rewrite lookup_insert_eq|].
    intros q Hq. by rewrite lookup_insert_ne.
Qed.

(** A compiler that presents [p], and a model checker that finds a deadlock. *)
Definition deadlock_tools (p : Program) : Tools := {|
  rustc_print_sysroot := inr (mkOutput ("/toolchain" ^+ nl) "");
  run_compiler _ := Some (Some (tcx_of p));
  run_command _ _ _ := inr (mkOutput "" "lola: result: yes");
|}.
#[local] Instance double_lock_tools : Tools := deadlock_tools double_lock_deadlock.

#[local] Instance short_exporters : Exporters := {|
  to_dot _ := "digraph"; to_lola _ := "PLACE"; to_pnml _ := "<pnml>";
|}.

Definition mem_args : Args := mkArgs "src/main.rs" "net" "." true false false.
Definition mem_fs : MemFs := mkMemFs {["src/main.rs" := "fn main"]} {["."]}.
Definition mem_fs_after : MemFs :=
  mkMemFs {["src/main.rs" := "fn main"; "./net.dot" := "digraph"; "./net.lola" := "PLACE"]} {["."]}.

Lemma mem_run :
  main 3 3 (CheckDeadlock mem_args) mem_fs = Ok ((0%N, "Result: " ^+ deadlock_message ^+ nl, ""), mem_fs_after).
Proof. vm_compute. reflexivity. Qed.

Lemma mem_run_missing :
  main 3 3 (CheckDeadlock mem_args) (mkMemFs ∅ {["."]}) =
  Ok ((1%N, "", "Source code file at src/main.rs does not exist" ^+ nl), mkMemFs ∅ {["."]}).
Proof. vm_compute. reflexivity. Qed.

Lemma mem_paths_differ f g :
  f ≠ g → ¬ same_file (output_path f (filename mem_args) (output_folder mem_args))
                      (output_path g (filename mem_args) (output_folder mem_args)).
Proof. destruct f, g; intros Hne H; try done; by vm_compute in H. Qed.

Lemma output_path_plain_witness : output_path Lola "net" "out" = path_push "out" "net" ^+ "." ^+ "lola".
Proof.
  refine (proj1 (output_path_plain Lola "net" "out" _ _ _)); [discriminate| |];
    apply (bool_decide_eq_false_1 _); vm_compute; reflexivity.
Defined.

Lemma exit_codes_witness : path_exists (mkMemFs ∅ {["."]}) (path mem_args) = false.
Proof.
  exact (proj1 (proj1 (proj2 (exit_codes 3 3 mem_args _ 1%N _ _ _ mem_run_missing))) eq_refl).
Defined.

Lemma run_leaves_files_witness :
  ∃ n, lib_run 3 3 "src/main.rs" = Ok (inl n) ∧ read_file mem_fs_after "./net.dot" = Some (export Dot n) ∧
    read_file mem_fs_after "./net.pnml" = read_file mem_fs "./net.pnml".
Proof.
  destruct (run_leaves_files 3 3 mem_args _ _ _ _ mem_paths_differ mem_run) as (n & H1 & H2 & H3).
  exists n. split; [exact H1|]. split; [exact (H2 Dot eq_refl)|].
  apply (H3 "./net.pnml"). intros f Hf H. destruct f; first [discriminate Hf|by vm_compute in H].
Defined.

(** A parser that takes the first word that is no option for the positional
    argument. *)
Definition is_option (w : string) : bool := starts_with "--" w.
Definition option_value (id w : string) : option string :=
  if starts_with (long_flag id) w then Some (String.substring (S (String.length (long_flag id))) (String.length w) w)
  else None.

#[local] Instance simple_parser : ArgParser := {|
  Matches := list Arg * list string;
  parse_words name args words :=
    match words with
    | w :: words => if bool_decide (w = name) && existsb (λ w, negb (is_option w)) words then inr (args, words)
                    else inl (2%N, "", "error: invalid arguments" ^+ nl)
    | [] => inl (2%N, "", "error: no subcommand" ^+ nl)
    end;
  get_one m id :=
    match snd <$> find (λ x, bool_decide (x.1 = id)) ((λ a, (arg_id a, arg_action a)) <$> m.1) with
    | Some Positional => find (λ w, negb (is_option w)) m.2
    | Some (SetDefault d) => Some (default d (head (omap (option_value id) m.2)))
    | _ => None
    end;
  get_flag m id := bool_decide (long_flag id ∈ m.2);
  usage_error := (2%N, "", "error: missing argument" ^+ nl);
|}.

Lemma find_arg (args : list Arg) id action :
  NoDup (arg_id <$> args) → mkArg id action ∈ args →
  find (λ x, bool_decide (x.1 = id)) ((λ a, (arg_id a, arg_action a)) <$> args) = Some (id, action).
Proof.
  induction args as [|a args IH]; [by intros _ ?%not_elem_of_nil|]. simpl. intros [Ha Hnd]%NoDup_cons Hin.
  case_bool_decide as He.
  - apply elem_of_cons in Hin as [<-|Hin]; [done|]. destruct Ha. rewrite He. by apply (list_elem_of_fmap_2 arg_id) in Hin.
  - apply elem_of_cons in Hin as [<-|Hin]; [done|]. by apply IH.
Qed.

#[local] Instance simple_parser_laws : ArgParserLaws.
Proof.
  assert (Hm : ∀ name args words m, parse_words name args words = inr m →
    m.1 = args ∧ ∃ w, words = w :: m.2 ∧ existsb (λ w, negb (is_option w)) m.2 = true).
  { intros name args [|w words] m; simpl; [done|]. destruct (bool_decide _); [|done]. simpl.
    destruct (existsb _ words) eqn:E; [|done]. intros [= <-]. eauto. }
  split.
  - intros name args words m id Hnd (E & w & -> & Hw)%Hm Hin. simpl. rewrite E, (find_arg _ _ _ Hnd Hin). simpl.
    apply existsb_exists in Hw as (x & Hx & Hf). destruct (find _ _) eqn:F; [by eexists|].
    eapply find_none in F; [|exact Hx]. congruence.
  - intros name args words m id d Hnd (E & w & -> & Hw)%Hm Hin Hall. simpl. rewrite E, (find_arg _ _ _ Hnd Hin). simpl.
    apply Forall_cons in Hall as [_ Hall]. do 2 f_equal.
    replace (omap (option_value id) m.2) with (@nil string); [done|]. symmetry.
    clear -Hall. induction Hall as [|x l Hx _ IH]; [done|]. rewrite <-IH. cbn. unfold option_value at 1. by rewrite Hx.
Qed.

Definition mem_words : list string := ["check-deadlock"; "src/main.rs"; "--dot"].

Lemma mem_run_words :
  main_with 3 3 mem_words mem_fs = Ok ((0%N, "Result: " ^+ deadlock_message ^+ nl, ""), mem_fs_after).
Proof. vm_compute. reflexivity. Qed.

Lemma command_line_files_witness :
  ∃ n, lib_run 3 3 "src/main.rs" = Ok (inl n) ∧ read_file mem_fs_after "./net.lola" = Some (to_lola n).
Proof.
  refine (command_line_files 3 3 mem_words mem_fs _ _ _ _ mem_run_words _ _ eq_refl).
  - repeat constructor.
  - intros f g Hne H. destruct f, g; try (exact (Hne eq_refl)); vm_compute in H; discriminate H.
Defined.

(** The net of the program, its end and its panic place. *)
Definition net_checks (n : SNet) : bool :=
  bool_decide (model_check 50 n ("PROGRAM_END", 1%N) ("PROGRAM_PANIC", 0%N) = Some true) &&
  forallb (λ p : ref, implb (bool_decide (p.1 = PROGRAM_END)) (bool_decide (p = ("PROGRAM_END", 1%N))) &&
    implb (bool_decide (p.1 = PROGRAM_PANIC)) (bool_decide (p = ("PROGRAM_PANIC", 0%N))))
    (place_refs n) &&
  bool_decide (("PROGRAM_END", 1%N) ∈ place_refs n) && bool_decide (("PROGRAM_PANIC", 0%N) ∈ place_refs n).

Lemma lib_run_translate n p :
  translate (tcx_of double_lock_deadlock) 3 3 = Ok n → lib_run 3 3 p = Ok (inl n).
Proof.
  intros E. unfold lib_run. assert (get_from_rustc = inl "/toolchain") as -> by (vm_compute; reflexivity).
  cbn [run_compiler double_lock_tools deadlock_tools]. by rewrite E.
Qed.

Lemma double_lock_net : ∃ n : PetriNet, lib_run 3 3 "src/main.rs" = Ok (inl n) ∧ net_checks n = true.
Proof.
  assert (H : match translate (tcx_of double_lock_deadlock) 3 3 with Ok n => net_checks n | Err _ => false end = true).
  { vm_compute. reflexivity. }
  destruct (translate (tcx_of double_lock_deadlock) 3 3) as [n|] eqn:E; [|discriminate H].
  exists n. split; [by apply lib_run_translate|exact H].
Qed.

(** The model checker's answer is right for this net. *)
Lemma deadlock_answered p n : net_checks n = true → lola_answers (T := deadlock_tools p) n.
Proof.
  intros [[[Hw Hp]%andb_prop _]%andb_prop _]%andb_prop fs filepath e q _ He Hq Le Lq.
  eexists _, _. split; [reflexivity|]. split; [reflexivity|]. left. split; [reflexivity|].
  rewrite forallb_forall in Hp.
  assert (Hin : ∀ r : ref, has_place n r → In r (place_refs n)).
  { intros r Hr. by apply list_elem_of_In, elem_of_place_refs. }
  assert (e = ("PROGRAM_END", 1%N)) as ->.
  { specialize (Hp e (Hin e He)). apply andb_prop in Hp as [Hp _]. simpl in Le.
    rewrite Le, bool_decide_eq_true_2 in Hp by done. by apply bool_decide_eq_true in Hp. }
  assert (q = ("PROGRAM_PANIC", 0%N)) as ->.
  { specialize (Hp q (Hin q Hq)). apply andb_prop in Hp as [_ Hp]. simpl in Lq.
    rewrite Lq, bool_decide_eq_true_2 in Hp by done. by apply bool_decide_eq_true in Hp. }
  apply bool_decide_eq_true in Hw. by apply (model_check_correct _ _ _ _ _ Hw).
Qed.

Lemma verdict_correct_witness : ∃ n : PetriNet, deadlock_reachable n ("PROGRAM_END", 1%N) ("PROGRAM_PANIC", 0%N).
Proof.
  destruct double_lock_net as (n & Hn & Hc). exists n.
  pose proof Hc as [[_ He%bool_decide_eq_true]%andb_prop Hq%bool_decide_eq_true]%andb_prop.
  destruct (verdict_correct 3 3 mem_args _ _ _ _ n ("PROGRAM_END", 1%N) ("PROGRAM_PANIC", 0%N)
    mem_paths_differ eq_refl Hn (deadlock_answered _ n Hc) (proj1 (elem_of_place_refs _ _) He)
    (proj1 (elem_of_place_refs _ _) Hq) eq_refl eq_refl mem_run) as [[_ H]|[H _]].
  - exact H.
  - vm_compute in H. discriminate H.
Defined.

(** A program that aborts, which the tests expect to be reported. *)
#[local] Instance abort_tools : Tools := deadlock_tools abort.

Lemma abort_net_checks n : translate (tcx_of abort) 3 3 = Ok n → net_checks n = true.
Proof.
  assert (H : match translate (tcx_of abort) 3 3 with Ok n => net_checks n | Err _ => true end = true).
  { vm_compute. reflexivity. }
  intros E. by rewrite E in H.
Qed.

Lemma sequential_verdict_witness :
  main 3 3 (CheckDeadlock mem_args) mem_fs = Ok ((0%N, "Result: " ^+ deadlock_message ^+ nl, ""), mem_fs_after) ∧
  comes_to (tcx_of abort) main_id (dead_end (tcx_of abort)).
Proof.
  assert (Hrun : main 3 3 (CheckDeadlock mem_args) mem_fs =
    Ok ((0%N, "Result: " ^+ deadlock_message ^+ nl, ""), mem_fs_after)) by (vm_compute; reflexivity).
  split; [exact Hrun|].
  destruct (sequential_verdict (T := abort_tools) 3 3 (tcx_of abort) main_id mem_args mem_fs _ _ _
    (sequential_program_spec abort eq_refl) (plain_program_spec abort eq_refl) (begins_with_block_spec abort eq_refl) eq_refl
    (complete_program_spec abort main_id eq_refl ltac:(discriminate)) (λ _, eq_refl)
    (λ n Hn, deadlock_answered abort n (abort_net_checks n Hn)) mem_paths_differ eq_refl Hrun) as [[_ H]|[H _]].
  - exact H.
  - vm_compute in H. discriminate H.
Defined.
